(* ===== verification/_CoqProject ===== *)
-Q . S2P
Prelude.v
LinMem.v
BindTypes.v
CanonAbi.v
BindLift.v
Imports.v
BindLower.v
BindIo.v
BindHttp.v
BindSpec.v
BindDrop.v
BindFree.v
BindFreeSpec.v
BindFreeList.v
BindString.v
BindExport.v
BindFreeProps.v
CString.v
Proto.v
Calendar.v
Mbedtls.v
Machine.v
MachineLogic.v
Wasmfn.v
WasmfnMem.v
WasmfnSend.v
WasmfnBody.v
WasmfnHeaders.v
WasmfnRead.v
WasmfnReadBody.v
WasmfnSpec.v
WasmfnText.v
BindMachine.v
Placement.v
Linked.v
WasmfnProps.v
LinkedProps.v
Structpb.v
StructpbInv.v
StructpbProps.v
Codec.v
Schema.v
Wire.v
WireProps.v
CodecProps.v
WireHeap.v
WireFill.v
WireRequest.v
Handle.v
WireHeapProps.v
HandleProps.v
GuestCall.v
HelloFn.v
HelloSpec.v
HelloProps.v
Tls.v
TlsSpec.v
Rotator.v
RotatorSpec.v
CertFn.v
CertSpec.v
CertState.v
CertCompose.v
CertRun.v
TlsProps.v
Reconcile.v
Paper.v
RenewalProps.v
Entropy.v
CertProps.v
WireAnswer.v
HelloWire.v
CertWire.v
CertAnswer.v
CertOnWire.v
TestSuite.v
HelloTest.v
CertTest.v
TestProps.v
