(* ===== verification/Prelude.v ===== *)
(** A verification of the C guests of function-wasm.

    The program.  function-wasm runs Crossplane composition functions as
    WebAssembly components. The host is Rust; a guest written in C is made of
    the bindings wit-bindgen generated for its world, a glue that speaks the
    function contract, and the composition function itself. This development
    verifies two whole guests: the C template's
    (src/crates/guestfn/templates/c/src, copied byte for byte to testdata/c and
    examples/hello-c) and the certificate rotator of
    src/examples/cert-rotator/src, whose glue and bindings are copies of the
    template's. The HTTP client of examples/hello-odin/src/wasmfn.c is, function by
    function, the template's.

    How the parts interact.  The host lowers the request into the guest's memory
    through [cabi_realloc] and calls the [run] export (gen/function.c), which
    calls [exports_function_run] (wasmfn.c). That decodes the protobuf request
    with nanopb, frees the request's buffer, calls [run_function] (fn.c) and
    encodes the response; the post-return frees the response's buffer. A
    function reads and builds google.protobuf.Structs with structpb.c and talks
    to the world through the log import and the wasi:http client of wasmfn.c,
    which calls the generated adapters. The certificate rotator asks Crossplane
    for a Secret, has rotator.cpp decide whether its certificate is kept, and
    tls.cpp issues a new one with mbedTLS, whose entropy comes from entropy.c.

    Two levels.  The code is modelled at the level it works at.

    1. The generated bindings move bytes: they run over a byte-addressed wasm32
       memory with an allocator (LinMem: cells that are unallocated, unwritten or
       a byte; a load or store outside is [UB]). A host is any function from an
       import and its core parameters to an effect on memory and world.
       - BindTypes (function.h), BindLift, BindLower: the types, and the reading
         and flattening of each; BindIo, BindHttp: the adapter of every import;
         BindDrop, BindFree, BindExport: the handle helpers, the [_free]
         functions, [cabi_realloc], the strings, the [run] shim and its
         post-return; Imports: the imports with their module and name.
       - CanonAbi is the specification: the Component Model's layout, load and
         flat lifting for any WIT type. BindSpec, BindFreeSpec, BindFreeList,
         BindFreeProps, BindString and BindExport prove the bindings against it.
       - BindMachine joins the levels: the call an adapter makes is read by the
         host as the operation of the machine below that models it, and what the
         adapter returns is an answer of that machine. Placement, Linked
         and LinkedProps relate the machine's heap to linear memory; GuestCall has
         the export's function over linear memory and a whole call of it as the
         host makes it, which is the machine's.
    2. The C sources above the bindings run on the machine of Machine.v: blocks
       of bytes, of [char *] and of protobuf messages; the [char *] variables
       whose address is taken; the table of component resources with the
       component model's rules, whose violation traps; and a trace of calls with
       the host's answers, each any function of the history. Which allocations
       succeed is up to [grants]. [C] is the state and error monad the code is
       written in; MachineLogic is its weakest-precondition calculus.
       - CString, Proto, Calendar and Mbedtls are the data: libc's strings, the
         nanopb messages (fnv1/*.pb.h), the dates of tls.cpp and the calls of
         mbedTLS.
       - Wasmfn models the HTTP client and logger of wasmfn.c; WasmfnMem,
         WasmfnSend, WasmfnBody, WasmfnHeaders, WasmfnRead,
         WasmfnReadBody, WasmfnSpec and WasmfnText specify its parts;
         WasmfnProps has its properties.
       - Structpb models structpb.c (StructpbInv, StructpbProps); Handle the run
         export and [wasmfn_handle] of wasmfn.c, over any nanopb (HandleProps);
         HelloFn the
         template's fn.c (HelloSpec, HelloProps).
       - Tls, Rotator, Entropy and CertFn model tls.cpp, rotator.cpp, entropy.c
         and the rotator's fn.c; TlsSpec, RotatorSpec, CertSpec, CertState,
         CertCompose and CertRun specify them; TlsProps,
         Entropy and CertProps have their properties. Reconcile and
         RenewalProps follow the rotator across runs; Paper is a library for them
         to run on, with base64 as it is and certificates on paper.
    3. The protobuf contract (fnv1/*.pb.h and *.pb.c, which nanopb generated).
       - Codec is the generated code as data: field tables, structs, enums,
         initialisers, tags, bindings. Schema is the .proto files as data, and the
         messages they declare, which CodecProps compares the tables with.
       - The nanopb runtime is not in the repository: it is an interface of Handle
         ([Nanopb]: pb_decode, pb_get_encoded_size, pb_encode), over a wire format
         that is a parameter too ([WireFormat]: the bytes of a message, the message
         bytes are), with laws ([NanopbLaws]). They speak of messages: WireHeap has
         which message the response's structs and arrays in the heap hold, WireRequest
         when those of a request hold one, as values and as JSON, each part in blocks
         of its own.
       - WireAnswer has what the two guests' answers share, HelloWire is the whole
         hello guest, over any such wire format. CertWire says what of a request the
         rotator's changes leave alone, CertAnswer reads what it composes, CertOnWire
         is the whole rotator.
       - One wire format to try the theorems on: Wire encodes messages by protobuf's
         rules over the tables, WireProps shows that it reads back, WireHeap and
         WireFill allocate a decoded request, WireHeapProps shows the laws. Nothing
         claimed of the guests depends on it.
    4. The repository's native tests (fn_test.c of the template and of the rotator,
       rotator_test.cpp) are programs of the machine too: TestSuite, HelloTest,
       CertTest; TestProps runs them.
    This file has what they share: outcomes, wrapping, bytes and little-endian
    encoding, and the [guest] hint database.

    Reading the definitions.  A function has the C function's name. An
    out-parameter set only on success is part of the result; a [const char *]
    that is only read is its content. A part of a long C function that the proofs
    name is a definition of its own and is called where the C text stands.
    [UB] is undefined behaviour, [Aborted] a call of [abort] (cabi_realloc's, when
    memory is out), [HostTrap] the component model's trap, [OutOfFuel] a bound of
    the model reached. No theorem allows [UB] or [HostTrap]; [Aborted] only where
    the code does abort, and [OutOfFuel] only where another theorem excludes it.

    What the theorems show.
    - Bindings: every adapter with a return area returns the value the host stored
      by the Canonical ABI in an area of exactly the result's size; those that
      flatten an argument pass parameters the ABI reads back; and every call the C
      sources make is the operation of the machine it is modelled by
      ([adapters_are_the_machine_calls]). The [_free] functions give back exactly the
      blocks of their value, but for the run export's result, whose [_free] leaves the
      list of an [ok] ([free_gives_back], [lists_give_back]); dup copies; the run
      export returns the function's result and its post-return frees that result
      and nothing else, and the host's whole call of it through linear memory is
      the machine's call, under the grants that memory has room for
      ([call_refines_machine]).
    - HTTP client, for every host, allocator and request: no undefined behaviour
      and no trap ([http_send_safe]); success is one exchange that carries the
      request, brings back the host's response and leaves no resource behind
      ([http_send_exchange]); failure is worded by its one cause
      ([http_send_failure]); it ends when the host's body ends
      ([http_send_terminates]); chunks, URLs, header lookup, trimming, the logger.
    - Structs: the lookup refines the lookup in the JSON value a message denotes,
      set and get agree, and every reachable Struct is a finite map.
    - The guests: what they compose for every request, host, library and
      allocator ([hello_composes], [cert_rotates]). For every nanopb that keeps its
      laws: that the export owns its buffers ([run_export_owns]), that the component
      around them is safe and answers with the bytes of what the response holds, under
      the request's tag ([hello_component], [cert_component]), and what the host gets
      of a whole call, with nothing the guest had in memory before changed
      ([hello_on_the_wire], [cert_on_the_wire]).
    - The rotator: the decision, the calls of an issue in order with every context
      freed, the names that RFC 4514 reads back out of their attribute
      ([issued_names]), base64, the calendar against the Gregorian rules and its
      stamps, its 64-bit arithmetic without overflow ([calendar_in_range]: the same
      definitions, run with every result checked), the entropy loop; and, over any
      sequence of runs, that the certificate in the Secret does not end before the next
      and, once one was issued, has begun ([renewal_never_lapses]).
    - The contract: the generated field lists are those of the messages the .proto
      files declare ([tables_follow_schema]), the structs hold what the lists need and
      have the sizes the heap gives them ([structs_follow_tables]).
    - The tests the repository has of this code pass on the model, over the wire
      format above and the library of Paper ([repository_tests_pass]).

    Fuel.  Recursion is structural but for the loops a number bounds, and every
    theorem gives or asks for enough. The loop that drains the response body is
    the one whose end is the host's: [closes_after n] says the host gives at most n
    chunks in all, and fuel beyond the chunks it has left suffices; [http_send_safe]
    holds with any fuel, [http_send_terminates] with enough. write_body has a round
    per 4096 bytes and one more, trimming the length of the text, the entropy
    poll a round per 256 bytes and one more, strlen the number of cells of the
    memory. Wire's decoding of a message of n bytes has fuel for n fields and n
    levels, more than n bytes can hold; reading a Struct out of the heap, a level per block, more
    than an acyclic Struct has. The tests run with 20 rounds.

    What is assumed.  Code outside the repository is a parameter with documented
    behaviour as hypotheses, each shown to hold of a concrete instance in the
    theorem's witness: the host's answers are any, with error codes of their type
    ([typed_host], which BindMachine shows of what the adapters return); nanopb
    ([NanopbLaws]: decoding only allocates, and the request holds the message its
    bytes are; a response none of whose pointers dangles is encoded as the bytes of
    the message it holds, which parse as that message; of one with a dangling pointer
    nothing is assumed, so the theorems show there is none); mbedTLS ([typed_mbedtls]: a parsed certificate's
    dates are dates; [base64_laws]: the sizes and statuses of its base64, and that
    it decodes what it encoded; across runs, [library]: a PEM text has the dates it
    has, and an issued one those it was given); [time] within 2^62 of the epoch ([sane_clock]); and
    the result of lround outside the range of long is a parameter; the compiler
    ([compiled], see below). Nothing is assumed of their success.

    Not modelled, and why.  The Rust crates (engine, function, guestfn, e2e) and
    the guests in other languages are not this C program. The nanopb runtime and
    mbedTLS are not in the repository: they are parameters, and nothing is said of a
    failing decode's partial results. The native platform's hook for
    tests ([wasmfn_test_host]) is the [Native] case of Wasmfn.v, any function. The
    linking symbol of function.c has no behaviour. The Structs of a request are
    assumed well formed where the code relies on the host for it: the theorems from
    bytes to bytes ask that text has no NUL and that the Structs a function reads are
    JSON objects, every field with a key and a value ([hello_wellformed],
    [cert_wellformed]; [status_twice_dangles] shows what one that is not can do).

    Between the levels.  What is proved is the calls (parameters, answers, handles:
    [adapters_are_the_machine_calls]), the heap operations on blocks of bytes
    ([memory_refines_heap]), the bindings' strings and lists
    ([strings_refine_blocks]) and the run export ([call_refines_machine]). The rest
    of wasmfn.c is not modelled a second time over linear memory: that a compiled
    [wasmfn_handle] does in memory what the machine's does in its heap is the
    hypothesis [compiled] of [call_refines_machine], about the compiler, beside that
    the machine's is safe there ([behaves_returned] shows it of every function that
    behaves). The blocks
    of [char *] and of messages have an address and a size there, no layout. *)
From stdpp Require Export base tactics option list numbers gmap strings.
From Stdlib Require Export ZArith Lia.
From Stdlib Require Import Strings.Byte.

#[global] Open Scope Z_scope.
#[global] Open Scope list_scope.

Declare Scope guest_scope.
Delimit Scope guest_scope with guest.

Create HintDb guest.

(** ** Outcomes: a value, or the way the guest stopped *)

(** [UB]: the C code did something undefined (out-of-bounds or uninitialised
    access, use of a dead block, a [switch] that fell through leaving a
    variable unset that is then read); [Aborted]: it called [abort];
    [HostTrap]: the host trapped the instance; [OutOfFuel]: the model's bound on
    a loop was reached. *)
Inductive trap := UB | Aborted | HostTrap | OutOfFuel.

Inductive outcome (A : Type) :=
  | Ok (a : A)
  | Trap (t : trap).
Arguments Ok {A} a.
Arguments Trap {A} t.

#[export] Instance trap_eq_dec : EqDecision trap.
Proof. solve_decision. Defined.
#[export] Instance outcome_eq_dec {A} `{EqDecision A} : EqDecision (outcome A).
Proof. solve_decision. Defined.

#[export] Instance outcome_ret : MRet outcome := @Ok.
#[export] Instance outcome_bind : MBind outcome := fun A B f m =>
  match m with Ok a => f a | Trap t => Trap t end.
#[export] Instance outcome_fmap : FMap outcome := fun A B f m =>
  match m with Ok a => Ok (f a) | Trap t => Trap t end.

(** An option whose [None] is undefined behaviour. *)
Definition defined {A} (o : option A) : outcome A :=
  match o with Some a => Ok a | None => Trap UB end.

Lemma outcome_bind_Ok {A B} (m : outcome A) (f : A -> outcome B) (b : B) :
  m ≫= f = Ok b <-> exists a, m = Ok a /\ f a = Ok b.
Proof. destruct m; simpl; naive_solver. Qed.

Lemma defined_Ok {A} (o : option A) a : defined o = Ok a <-> o = Some a.
Proof. destruct o; simpl; naive_solver. Qed.

Lemma Ok_inj {A} (a b : A) : Ok a = Ok b -> a = b.
Proof. congruence. Qed.

(** Case analysis of a chain of outcome binds in the hypotheses. *)
Ltac outcome_inv :=
  repeat match goal with
  | H : Ok _ = Ok _ |- _ => apply Ok_inj in H; try subst
  | H : Trap _ = Ok _ |- _ => discriminate H
  | H : Ok _ = Trap _ |- _ => discriminate H
  | H : _ ≫= _ = Ok _ |- _ => apply outcome_bind_Ok in H; destruct H as (? & ? & H)
  | H : defined _ = Ok _ |- _ => apply defined_Ok in H
  end.

(** ** Machine integers *)

(** The unsigned and the two's-complement readings of the low [w] bits. *)
Definition uwrap (w z : Z) : Z := z mod 2 ^ w.
Definition swrap (w z : Z) : Z :=
  let u := z mod 2 ^ w in if u <? 2 ^ (w - 1) then u else u - 2 ^ w.

Lemma uwrap_id w z : 0 <= z < 2 ^ w -> uwrap w z = z.
Proof. apply Z.mod_small. Qed.

Lemma uwrap_range w z : 0 <= w -> 0 <= uwrap w z < 2 ^ w.
Proof. intros. apply Z.mod_pos_bound. lia. Qed.

Lemma swrap_id w z : 0 < w -> - 2 ^ (w - 1) <= z < 2 ^ (w - 1) -> swrap w z = z.
Proof.
  intros Hw Hz. unfold swrap.
  assert (2 ^ w = 2 * 2 ^ (w - 1)) as E by (rewrite <- Z.pow_succ_r by lia; f_equal; lia).
  destruct (Z.ltb_spec z 0).
  - replace (z mod 2 ^ w) with (z + 2 ^ w).
    + destruct (Z.ltb_spec (z + 2 ^ w) (2 ^ (w - 1))); lia.
    + apply Z.mod_unique_pos with (-1); lia.
  - rewrite Z.mod_small by lia. destruct (Z.ltb_spec z (2 ^ (w - 1))); lia.
Qed.

Lemma swrap_range w z : 0 < w -> - 2 ^ (w - 1) <= swrap w z < 2 ^ (w - 1).
Proof.
  intros Hw. unfold swrap.
  assert (2 ^ w = 2 * 2 ^ (w - 1)) as E by (rewrite <- Z.pow_succ_r by lia; f_equal; lia).
  pose proof (Z.mod_pos_bound z (2 ^ w) ltac:(lia)).
  destruct (Z.ltb_spec (z mod 2 ^ w) (2 ^ (w - 1))); lia.
Qed.

(** ** Bytes, little-endian integers *)

Abbreviation bytes := (list byte).

#[export] Instance byte_eq_dec : EqDecision byte := Byte.byte_eq_dec.

Definition byte_val (b : byte) : Z := Z.of_N (Byte.to_N b).
Definition val_byte (z : Z) : byte :=
  match Byte.of_N (Z.to_N (z mod 256)) with Some b => b | None => x00 end.

(** A C string literal. *)
Definition lit (s : string) : bytes := String.list_byte_of_string s.

Lemma byte_val_range b : 0 <= byte_val b < 256.
Proof. unfold byte_val. pose proof (Byte.to_N_bounded b). lia. Qed.

Lemma val_byte_val b : val_byte (byte_val b) = b.
Proof.
  unfold val_byte. rewrite Z.mod_small by apply byte_val_range.
  unfold byte_val. rewrite N2Z.id, Byte.of_to_N. done.
Qed.

Lemma byte_val_byte z : byte_val (val_byte z) = z mod 256.
Proof.
  pose proof (Z.mod_pos_bound z 256 ltac:(lia)) as Hb.
  unfold val_byte. destruct (Byte.of_N (Z.to_N (z mod 256))) as [b|] eqn:E.
  - apply Byte.to_of_N in E. unfold byte_val. rewrite E. lia.
  - apply Byte.of_N_None_iff in E. lia.
Qed.

#[export] Instance byte_val_inj : Inj eq eq byte_val.
Proof. intros a b H. by rewrite <- (val_byte_val a), H, val_byte_val. Qed.

Fixpoint le_decode (bs : bytes) : Z :=
  match bs with [] => 0 | b :: bs => byte_val b + 256 * le_decode bs end.

Fixpoint le_encode (n : nat) (z : Z) : bytes :=
  match n with O => [] | S n => val_byte z :: le_encode n (z / 256) end.

Lemma length_le_encode n z : length (le_encode n z) = n.
Proof. revert z. induction n; intros; simpl; auto. Qed.

Lemma le_decode_range bs : 0 <= le_decode bs < 256 ^ Z.of_nat (length bs).
Proof.
  induction bs as [|b bs IH]; simpl le_decode; simpl length; [lia|].
  pose proof (byte_val_range b).
  rewrite Nat2Z.inj_succ, Z.pow_succ_r by lia. nia.
Qed.

Lemma le_decode_encode n z : le_decode (le_encode n z) = z mod 256 ^ Z.of_nat n.
Proof.
  revert z. induction n as [|n IH]; intros z.
  - simpl. by rewrite Z.mod_1_r.
  - simpl le_encode. simpl le_decode.
    rewrite IH, byte_val_byte, Nat2Z.inj_succ, Z.pow_succ_r by lia.
    rewrite Z.rem_mul_r by lia. done.
Qed.

Lemma le_decode_encode_small n z :
  0 <= z < 256 ^ Z.of_nat n -> le_decode (le_encode n z) = z.
Proof. intros. rewrite le_decode_encode. by apply Z.mod_small. Qed.

(** ** Lists *)

(** The [n] integers [a, a+1, ...]. *)
Fixpoint zrange (a : Z) (n : nat) : list Z :=
  match n with O => [] | S n => a :: zrange (a + 1) n end.

Lemma elem_of_zrange a n z : z ∈ zrange a n <-> a <= z < a + Z.of_nat n.
Proof.
  revert a. induction n as [|n IH]; intros a; simpl.
  - rewrite elem_of_nil. lia.
  - rewrite elem_of_cons, IH. lia.
Qed.


#[export] Hint Rewrite length_le_encode le_decode_encode : guest.
#[export] Hint Resolve byte_val_range : guest.
