(* ===== verification/LinMem.v ===== *)
(** The wasm32 guest's linear memory and libc heap: byte-addressed cells, the
    live blocks of the allocator, loads and stores, and the state monad the
    generated bindings (crates/guestfn/templates/c/src/gen/function.c) are
    written in. *)
From S2P Require Import Prelude.
From Stdlib Require Import Strings.Byte.

(** ** Memory *)

(** [cells] holds the addresses that are part of a live block (or of a stack or
    static area): [None] for a byte never written, [Some b] otherwise. [blocks]
    maps the base of each live heap block to its size. [brk] is the first
    address the allocator has never used and [limit] the size the memory may
    grow to: an allocation beyond it fails. *)
Record wmem := Wmem {
  cells : gmap Z (option byte);
  blocks : gmap Z Z;
  brk : Z;
  limit : Z;
}.

Definition mem_init (lim : Z) : wmem := Wmem ∅ ∅ 1024 lim.

Definition set_cells (c : gmap Z (option byte)) (m : wmem) : wmem :=
  Wmem c (blocks m) (brk m) (limit m).

Definition read_byte (m : wmem) (a : Z) : outcome byte :=
  match cells m !! a with Some (Some b) => Ok b | _ => Trap UB end.

Fixpoint read_bytes (m : wmem) (a : Z) (n : nat) : outcome bytes :=
  match n with
  | O => Ok []
  | S n => b ← read_byte m a; bs ← read_bytes m (a + 1) n; Ok (b :: bs)
  end.

Definition load (n : nat) (m : wmem) (a : Z) : outcome Z :=
  bs ← read_bytes m a n; Ok (le_decode bs).

Definition write_byte (m : wmem) (a : Z) (b : byte) : outcome wmem :=
  match cells m !! a with
  | Some _ => Ok (set_cells (<[a := Some b]> (cells m)) m)
  | None => Trap UB
  end.

Fixpoint write_bytes (m : wmem) (a : Z) (bs : bytes) : outcome wmem :=
  match bs with
  | [] => Ok m
  | b :: bs => m' ← write_byte m a b; write_bytes m' (a + 1) bs
  end.

Definition store (n : nat) (m : wmem) (a z : Z) : outcome wmem :=
  write_bytes m a (le_encode n z).

(** ** The allocator *)

Fixpoint add_cells (a : Z) (n : nat) (c : gmap Z (option byte)) : gmap Z (option byte) :=
  match n with O => c | S n => <[a := None]> (add_cells (a + 1) n c) end.

Fixpoint del_cells (a : Z) (n : nat) (c : gmap Z (option byte)) : gmap Z (option byte) :=
  match n with O => c | S n => delete a (del_cells (a + 1) n c) end.

(** Blocks are eight-aligned and at least eight bytes apart, so that an access
    one past the end of a block is never inside the next one. *)
Definition bump (a n : Z) : Z := (a + n + 15) / 8 * 8.

(** [malloc]: a fresh block, or NULL (0) when the memory cannot grow. *)
Definition malloc (m : wmem) (n : Z) : Z * wmem :=
  if bump (brk m) n <=? limit m then
    (brk m, Wmem (add_cells (brk m) (Z.to_nat n) (cells m))
                 (<[brk m := n]> (blocks m)) (bump (brk m) n) (limit m))
  else (0, m).

(** [free]: nothing for NULL, undefined for anything but the base of a live
    block. *)
Definition free (m : wmem) (p : Z) : outcome wmem :=
  if p =? 0 then Ok m else
  match blocks m !! p with
  | Some n => Ok (Wmem (del_cells p (Z.to_nat n) (cells m)) (delete p (blocks m)) (brk m) (limit m))
  | None => Trap UB
  end.

(** Bytes copied as they are, initialised or not. *)
Fixpoint copy_cells (m : wmem) (dst src : Z) (n : nat) : outcome wmem :=
  match n with
  | O => Ok m
  | S n =>
      match cells m !! src, cells m !! dst with
      | Some c, Some _ => copy_cells (set_cells (<[dst := c]> (cells m)) m) (dst + 1) (src + 1) n
      | _, _ => Trap UB
      end
  end.

(** [realloc]: always into a fresh block; on failure NULL, and the old block
    stays. *)
Definition realloc (m : wmem) (p n : Z) : outcome (Z * wmem) :=
  if p =? 0 then Ok (malloc m n) else
  match blocks m !! p with
  | None => Trap UB
  | Some old =>
      let '(q, m1) := malloc m n in
      if q =? 0 then Ok (0, m1) else
      m2 ← copy_cells m1 q p (Z.to_nat (Z.min old n));
      m3 ← free m2 p;
      Ok (q, m3)
  end.

(** A stack or static area: cells without a heap block. *)
Definition area_alloc (m : wmem) (n : Z) : Z * wmem :=
  (brk m, Wmem (add_cells (brk m) (Z.to_nat n) (cells m)) (blocks m) (bump (brk m) n) (limit m)).
Definition area_release (m : wmem) (p n : Z) : wmem :=
  set_cells (del_cells p (Z.to_nat n) (cells m)) m.

(** ** The monads *)

(** Reading memory. *)
Definition reader (A : Type) : Type := wmem -> outcome A.
#[export] Instance reader_ret : MRet reader := fun A a m => Ok a.
#[export] Instance reader_bind : MBind reader := fun A B f r m => a ← r m; f a m.

Definition load_u8 (a : Z) : reader Z := fun m => load 1 m a.
Definition load_u16 (a : Z) : reader Z := fun m => load 2 m a.
(** [int32_t], [size_t] and pointers are all four bytes; the signed reading is
    taken where the C type is signed. *)
Definition load_u32 (a : Z) : reader Z := fun m => load 4 m a.
Definition load_s32 (a : Z) : reader Z := z ← load_u32 a; mret (swrap 32 z).
Definition load_s64 (a : Z) : reader Z := fun m => z ← load 8 m a; Ok (swrap 64 z).
Definition ub {A} : reader A := fun _ => Trap UB.

(** The guest: its memory, and the world the host's imports act on. *)
Definition guest (W A : Type) : Type := wmem * W -> outcome (A * (wmem * W)).
#[export] Instance guest_ret {W} : MRet (guest W) := fun A a s => Ok (a, s).
#[export] Instance guest_bind {W} : MBind (guest W) := fun A B f c s =>
  match c s with Ok (a, s') => f a s' | Trap t => Trap t end.

Section Guest.
Context {W : Type}.

Definition reading {A} (r : reader A) : guest W A :=
  fun '(m, w) => a ← r m; Ok (a, (m, w)).
Definition updating (f : wmem -> outcome wmem) : guest W unit :=
  fun '(m, w) => m' ← f m; Ok (tt, (m', w)).
Definition trap_with {A} (t : trap) : guest W A := fun _ => Trap t.

Definition g_malloc (n : Z) : guest W Z := fun '(m, w) => let '(p, m') := malloc m n in Ok (p, (m', w)).
Definition g_realloc (p n : Z) : guest W Z := fun '(m, w) => '(q, m') ← realloc m p n; Ok (q, (m', w)).
Definition g_free (p : Z) : guest W unit := updating (fun m => free m p).
Definition g_store (n : nat) (a z : Z) : guest W unit := updating (fun m => store n m a z).
Definition g_memcpy (dst src n : Z) : guest W unit :=
  updating (fun m => bs ← read_bytes m src (Z.to_nat n); write_bytes m dst bs).

(** A local [uint8_t ret_area[n]]: live while [k] runs. *)
Definition with_ret_area {A} (n : Z) (k : Z -> guest W A) : guest W A := fun '(m, w) =>
  let '(p, m1) := area_alloc m n in
  '(a, (m2, w2)) ← k p (m1, w);
  Ok (a, (area_release m2 p n, w2)).
End Guest.
