(* ===== verification/BindTypes.v ===== *)
(** The data types of the wit-bindgen C bindings
    (crates/guestfn/templates/c/src/gen/function.h).

    A C [struct { bool is_some; T val; }] is an [option] (its [val] is
    indeterminate when [is_some] is false, and nothing can be said about it); a
    [struct { bool is_err; union { ok; err } val; }] is a [result_t]. A variant
    keeps its numeric [tag] beside the union's active member, because the
    bindings store whatever tag the host wrote. The types that carry strings are
    parametric in the string type: pointers and lengths in linear memory for the
    bindings, byte strings for their clients. *)
From S2P Require Import Prelude.

(** ** Strings and lists *)

Record function_string_t := FStr { str_ptr : Z; str_len : Z }.
Record function_list_u8_t := ListU8 { lu8_ptr : Z; lu8_len : Z }.
Record function_list_u32_t := ListU32 { lu32_ptr : Z; lu32_len : Z }.
Record wasi_http_types_field_value_t := FieldValue { fv_ptr : Z; fv_len : Z }.
Record wasi_http_types_list_field_value_t := ListFieldValue { lfv_ptr : Z; lfv_len : Z }.
Record wasi_http_types_list_tuple2_field_name_field_value_t :=
  ListFields { lf_ptr : Z; lf_len : Z }.
Record wasi_io_poll_list_borrow_pollable_t := ListPollable { lp_ptr : Z; lp_len : Z }.
Record function_list_tuple2_string_string_t := ListPairs { kvs_ptr : Z; kvs_len : Z }.

(** An [own] or [borrow] handle: the index of a resource the host keeps. *)
Record handle_t := Handle { __handle : Z }.

#[export] Instance function_string_t_eq_dec : EqDecision function_string_t.
Proof. solve_decision. Defined.
#[export] Instance handle_t_eq_dec : EqDecision handle_t.
Proof. solve_decision. Defined.

(** ** Results *)

Inductive result_t (A E : Type) :=
  | ROk (ok : A)
  | RErr (err : E).
Arguments ROk {A E} ok.
Arguments RErr {A E} err.

Definition is_err {A E} (r : result_t A E) : bool :=
  match r with ROk _ => false | RErr _ => true end.

(** ** Variants *)

(** [stream-error]: tag 0 carries the error resource, tag 1 (closed) nothing. *)
Record wasi_io_streams_stream_error_t := StreamError {
  se_tag : Z;
  last_operation_failed : option handle_t;
}.
Definition WASI_IO_STREAMS_STREAM_ERROR_CLOSED : Z := 1.

Record wasi_http_types_header_error_t := HeaderError { he_tag : Z }.

Section Strings.
Context {S : Type}.

Record wasi_http_types_method_t := Method { m_tag : Z; m_other : option S }.
Record wasi_http_types_scheme_t := Scheme { sc_tag : Z; sc_other : option S }.

Record wasi_http_types_dns_error_payload_t := DnsErrorPayload {
  rcode : option S;
  info_code : option Z;
}.
Record wasi_http_types_tls_alert_received_payload_t := TlsAlertPayload {
  alert_id : option Z;
  alert_message : option S;
}.
Record wasi_http_types_field_size_payload_t := FieldSizePayload {
  field_name : option S;
  field_size : option Z;
}.

(** The [val] union of [wasi_http_types_error_code_t]; [V_none] when no member
    was assigned. *)
Inductive error_code_val :=
  | V_none
  | V_dns_error (p : wasi_http_types_dns_error_payload_t)
  | V_tls_alert_received (p : wasi_http_types_tls_alert_received_payload_t)
  | V_http_request_body_size (p : option Z)
  | V_http_request_header_section_size (p : option Z)
  | V_http_request_header_size (p : option wasi_http_types_field_size_payload_t)
  | V_http_request_trailer_section_size (p : option Z)
  | V_http_request_trailer_size (p : wasi_http_types_field_size_payload_t)
  | V_http_response_header_section_size (p : option Z)
  | V_http_response_header_size (p : wasi_http_types_field_size_payload_t)
  | V_http_response_body_size (p : option Z)
  | V_http_response_trailer_section_size (p : option Z)
  | V_http_response_trailer_size (p : wasi_http_types_field_size_payload_t)
  | V_http_response_transfer_coding (p : option S)
  | V_http_response_content_coding (p : option S)
  | V_internal_error (p : option S).

Record wasi_http_types_error_code_t := ErrorCode { ec_tag : Z; ec_val : error_code_val }.
End Strings.
Arguments wasi_http_types_method_t : clear implicits.
Arguments wasi_http_types_scheme_t : clear implicits.
Arguments wasi_http_types_dns_error_payload_t : clear implicits.
Arguments wasi_http_types_tls_alert_received_payload_t : clear implicits.
Arguments wasi_http_types_field_size_payload_t : clear implicits.
Arguments error_code_val : clear implicits.
Arguments wasi_http_types_error_code_t : clear implicits.

Definition WASI_HTTP_TYPES_METHOD_GET : Z := 0.
Definition WASI_HTTP_TYPES_METHOD_HEAD : Z := 1.
Definition WASI_HTTP_TYPES_METHOD_POST : Z := 2.
Definition WASI_HTTP_TYPES_METHOD_PUT : Z := 3.
Definition WASI_HTTP_TYPES_METHOD_DELETE : Z := 4.
Definition WASI_HTTP_TYPES_METHOD_CONNECT : Z := 5.
Definition WASI_HTTP_TYPES_METHOD_OPTIONS : Z := 6.
Definition WASI_HTTP_TYPES_METHOD_TRACE : Z := 7.
Definition WASI_HTTP_TYPES_METHOD_PATCH : Z := 8.
Definition WASI_HTTP_TYPES_METHOD_OTHER : Z := 9.

Definition WASI_HTTP_TYPES_SCHEME_HTTP : Z := 0.
Definition WASI_HTTP_TYPES_SCHEME_HTTPS : Z := 1.
Definition WASI_HTTP_TYPES_SCHEME_OTHER : Z := 2.

Definition WASI_HTTP_TYPES_ERROR_CODE_INTERNAL_ERROR : Z := 38.

(** The results the adapters lift, named as in function.h. *)
Abbreviation result_list_u8_stream_error := (result_t function_list_u8_t wasi_io_streams_stream_error_t).
Abbreviation result_u64_stream_error := (result_t Z wasi_io_streams_stream_error_t).
Abbreviation result_void_stream_error := (result_t unit wasi_io_streams_stream_error_t).
Abbreviation result_void_header_error := (result_t unit wasi_http_types_header_error_t).
Abbreviation result_own_void := (result_t handle_t unit).
Abbreviation c_error_code := (wasi_http_types_error_code_t function_string_t).
Abbreviation c_method := (wasi_http_types_method_t function_string_t).
Abbreviation c_scheme := (wasi_http_types_scheme_t function_string_t).
