(* ===== verification/CanonAbi.v ===== *)
(** The Component Model's Canonical ABI, as the specification the bindings are
    checked against: the layout of a WIT type in linear memory (size, alignment,
    discriminants), loading a value of a type from memory, and flattening a
    value to core parameters. It is generic in the type and knows nothing of
    wasi:http: the WIT types of the contract (wit/deps/http.wit, io.wit) are
    values of [wty] at the end. *)
From S2P Require Import Prelude LinMem.
From Stdlib Require Import Strings.Byte.

(** ** WIT types, despecialised: an [option], a [result] and an [enum] are
    variants. *)

Inductive wty :=
  | TU8 | TU16 | TU32 | TU64
  | THandle
  | TString
  | TList (elem : wty)
  | TRecord (fields : list wty)
  | TVariant (cases : list (option wty)).

Inductive wval :=
  | WInt (z : Z)
  | WPtrLen (ptr len : Z)
  | WRec (fields : list wval)
  | WCase (case : nat) (payload : option wval).

Definition TOption (t : wty) : wty := TVariant [None; Some t].
Definition TResult (ok err : option wty) : wty := TVariant [ok; err].

(** ** Layout *)

Definition align_to (p a : Z) : Z := (p + a - 1) / a * a.

(** The discriminant of a variant of at most 256 cases is one byte. *)
Definition disc_size (n : nat) : Z :=
  if Z.of_nat n <=? 256 then 1 else if Z.of_nat n <=? 65536 then 2 else 4.

Fixpoint align (t : wty) : Z :=
  match t with
  | TU8 => 1 | TU16 => 2 | TU32 => 4 | TU64 => 8 | THandle => 4
  | TString | TList _ => 4
  | TRecord ts => List.fold_right (fun t a => Z.max (align t) a) 1 ts
  | TVariant cs =>
      Z.max (disc_size (length cs))
        (List.fold_right (fun o a => match o with Some t => Z.max (align t) a | None => a end) 1 cs)
  end.

Definition max_case_align (cs : list (option wty)) : Z :=
  List.fold_right (fun o a => match o with Some t => Z.max (align t) a | None => a end) 1 cs.

Fixpoint size (t : wty) : Z :=
  match t with
  | TU8 => 1 | TU16 => 2 | TU32 => 4 | TU64 => 8 | THandle => 4
  | TString | TList _ => 8
  | TRecord ts =>
      align_to (List.fold_left (fun off t => align_to off (align t) + size t) ts 0) (align t)
  | TVariant cs =>
      align_to
        (align_to (disc_size (length cs)) (max_case_align cs) +
         List.fold_right (fun o a => match o with Some t => Z.max (size t) a | None => a end) 0 cs)
        (align t)
  end.

Definition payload_offset (cs : list (option wty)) : Z :=
  align_to (disc_size (length cs)) (max_case_align cs).

(** ** Loading *)

Definition load_disc (n : nat) (p : Z) : reader Z :=
  fun m => load (Z.to_nat (disc_size n)) m p.

Fixpoint canon_load (t : wty) (p : Z) : reader wval :=
  match t with
  | TU8 => z ← load_u8 p; mret (WInt z)
  | TU16 => z ← load_u16 p; mret (WInt z)
  | TU32 => z ← load_u32 p; mret (WInt z)
  | TU64 => z ← load_s64 p; mret (WInt (uwrap 64 z))
  | THandle => z ← load_s32 p; mret (WInt z)
  | TString | TList _ => q ← load_u32 p; n ← load_u32 (p + 4); mret (WPtrLen q n)
  | TRecord ts =>
      vs ← (fix fields (ts : list wty) (off : Z) : reader (list wval) :=
             match ts with
             | [] => mret []
             | t :: ts =>
                 v ← canon_load t (p + align_to off (align t));
                 vs ← fields ts (align_to off (align t) + size t);
                 mret (v :: vs)
             end) ts 0;
      mret (WRec vs)
  | TVariant cs =>
      d ← load_disc (length cs) p;
      (fix cases (cs' : list (option wty)) (k : nat) : reader wval :=
         match cs', k with
         | [], _ => fun _ => Trap HostTrap
         | None :: _, O => mret (WCase (Z.to_nat d) None)
         | Some t :: _, O =>
             v ← canon_load t (p + payload_offset cs);
             mret (WCase (Z.to_nat d) (Some v))
         | _ :: cs', S k => cases cs' k
         end) cs (Z.to_nat d)
  end.

(** ** The WIT types of the contract *)

Definition stream_error_ty : wty := TVariant [Some THandle; None].
Definition header_error_ty : wty := TVariant [None; None; None].
Definition method_ty : wty :=
  TVariant [None; None; None; None; None; None; None; None; None; Some TString].
Definition scheme_ty : wty := TVariant [None; None; Some TString].
Definition dns_error_payload_ty : wty := TRecord [TOption TString; TOption TU16].
Definition tls_alert_received_payload_ty : wty := TRecord [TOption TU8; TOption TString].
Definition field_size_payload_ty : wty := TRecord [TOption TString; TOption TU32].

(** wit/deps/http.wit, [variant error-code], in declaration order. *)
Definition error_code_ty : wty := TVariant [
  None;                                 (* DNS-timeout *)
  Some dns_error_payload_ty;            (* DNS-error *)
  None; None; None; None;               (* destination-* *)
  None; None; None; None; None; None;   (* connection-* *)
  None; None;                           (* TLS-protocol-error, TLS-certificate-error *)
  Some tls_alert_received_payload_ty;   (* TLS-alert-received *)
  None; None;                           (* HTTP-request-denied, -length-required *)
  Some (TOption TU64);                  (* HTTP-request-body-size *)
  None; None; None;                     (* -method-invalid, -URI-invalid, -URI-too-long *)
  Some (TOption TU32);                  (* HTTP-request-header-section-size *)
  Some (TOption field_size_payload_ty); (* HTTP-request-header-size *)
  Some (TOption TU32);                  (* HTTP-request-trailer-section-size *)
  Some field_size_payload_ty;           (* HTTP-request-trailer-size *)
  None;                                 (* HTTP-response-incomplete *)
  Some (TOption TU32);                  (* HTTP-response-header-section-size *)
  Some field_size_payload_ty;           (* HTTP-response-header-size *)
  Some (TOption TU64);                  (* HTTP-response-body-size *)
  Some (TOption TU32);                  (* HTTP-response-trailer-section-size *)
  Some field_size_payload_ty;           (* HTTP-response-trailer-size *)
  Some (TOption TString);               (* HTTP-response-transfer-coding *)
  Some (TOption TString);               (* HTTP-response-content-coding *)
  None; None; None; None; None;         (* -timeout ... configuration-error *)
  Some (TOption TString)                (* internal-error *)
].

(** ** Flattening: values as core parameters *)

Inductive core := CI32 | CI64.

Definition core_join (a b : core) : core :=
  match a, b with CI32, CI32 => CI32 | _, _ => CI64 end.

(** Position by position, the longer tail kept. *)
Fixpoint join_lists (xs ys : list core) : list core :=
  match xs, ys with
  | x :: xs, y :: ys => core_join x y :: join_lists xs ys
  | [], ys => ys
  | xs, [] => xs
  end.

Fixpoint flatten (t : wty) : list core :=
  match t with
  | TU8 | TU16 | TU32 | THandle => [CI32]
  | TU64 => [CI64]
  | TString | TList _ => [CI32; CI32]
  | TRecord ts => List.fold_right (fun t acc => flatten t ++ acc) [] ts
  | TVariant cs =>
      CI32 :: List.fold_right
        (fun o acc => match o with Some t => join_lists (flatten t) acc | None => acc end) [] cs
  end.

Definition flatten_cases (cs : list (option wty)) : list core :=
  List.fold_right
    (fun o acc => match o with Some t => join_lists (flatten t) acc | None => acc end) [] cs.

(** A core parameter of type [have] read as one of type [want]. *)
Definition coerce (have want : core) (z : Z) : Z :=
  match have, want with CI64, CI32 => uwrap 32 z | _, _ => z end.

Fixpoint coerce_list (have want : list core) (zs : list Z) : list Z :=
  match have, want, zs with
  | h :: have, w :: want, z :: zs => coerce h w z :: coerce_list have want zs
  | _, _, _ => []
  end.

(** What the host makes of the core parameters of a value of type [t]. *)
Fixpoint lift_flat (t : wty) (zs : list Z) : option wval :=
  match t with
  | TU8 => match zs with [z] => Some (WInt (uwrap 8 z)) | _ => None end
  | TU16 => match zs with [z] => Some (WInt (uwrap 16 z)) | _ => None end
  | TU32 => match zs with [z] => Some (WInt (uwrap 32 z)) | _ => None end
  | TU64 => match zs with [z] => Some (WInt (uwrap 64 z)) | _ => None end
  | THandle => match zs with [z] => Some (WInt (swrap 32 z)) | _ => None end
  | TString | TList _ =>
      match zs with [p; n] => Some (WPtrLen (uwrap 32 p) (uwrap 32 n)) | _ => None end
  | TRecord ts =>
      vs ← (fix fields (ts : list wty) (zs : list Z) : option (list wval) :=
             match ts with
             | [] => Some []
             | t :: ts =>
                 v ← lift_flat t (take (length (flatten t)) zs);
                 vs ← fields ts (drop (length (flatten t)) zs);
                 Some (v :: vs)
             end) ts zs;
      Some (WRec vs)
  | TVariant cs =>
      match zs with
      | d :: zs =>
          (fix cases (cs' : list (option wty)) (k : nat) : option wval :=
             match cs', k with
             | [], _ => None
             | None :: _, O => Some (WCase (Z.to_nat (uwrap 32 d)) None)
             | Some t :: _, O =>
                 v ← lift_flat t (coerce_list (flatten_cases cs) (flatten t) zs);
                 Some (WCase (Z.to_nat (uwrap 32 d)) (Some v))
             | _ :: cs', S k => cases cs' k
             end) cs (Z.to_nat (uwrap 32 d))
      | [] => None
      end
  end.

(** The values of a type. *)
Fixpoint has_type (t : wty) (v : wval) : Prop :=
  match t with
  | TU8 => match v with WInt z => 0 <= z < 2 ^ 8 | _ => False end
  | TU16 => match v with WInt z => 0 <= z < 2 ^ 16 | _ => False end
  | TU32 => match v with WInt z => 0 <= z < 2 ^ 32 | _ => False end
  | TU64 => match v with WInt z => 0 <= z < 2 ^ 64 | _ => False end
  | THandle => match v with WInt z => - 2 ^ 31 <= z < 2 ^ 31 | _ => False end
  | TString | TList _ =>
      match v with WPtrLen p n => 0 <= p < 2 ^ 32 /\ 0 <= n < 2 ^ 32 | _ => False end
  | TRecord ts =>
      match v with
      | WRec vs =>
          (fix fields (ts : list wty) (vs : list wval) : Prop :=
             match ts, vs with
             | [], [] => True
             | t :: ts, v :: vs => has_type t v /\ fields ts vs
             | _, _ => False
             end) ts vs
      | _ => False
      end
  | TVariant cs =>
      match v with
      | WCase k o =>
          (fix cases (cs' : list (option wty)) (k : nat) : Prop :=
             match cs', k with
             | [], _ => False
             | None :: _, O => o = None
             | Some t :: _, O => match o with Some x => has_type t x | None => False end
             | _ :: cs', S k => cases cs' k
             end) cs k
      | _ => False
      end
  end.
