(* ===== verification/BindLift.v ===== *)
(** Lifting: how the bindings of function.c read a WIT value the host stored in
    a return area back into the C types of BindTypes. The bindings inline the
    lifting of [error-code] five times (future-trailers.get,
    outgoing-body.finish, future-incoming-response.get, http-error-code,
    outgoing-handler.handle), identical but for the base address; here it is one
    definition per type with the address as its argument, and each is proved to
    compute what the Canonical ABI's generic load computes at that address. *)
From S2P Require Import Prelude LinMem BindTypes CanonAbi.
From Stdlib Require Import Strings.Byte.

(** ** The lifting code *)

Definition lift_string (p : Z) : reader function_string_t :=
  ptr ← load_u32 p; len ← load_u32 (p + 4); mret (FStr ptr len).
Definition lift_list_u8 (p : Z) : reader function_list_u8_t :=
  ptr ← load_u32 p; len ← load_u32 (p + 4); mret (ListU8 ptr len).
Definition lift_list_u32 (p : Z) : reader function_list_u32_t :=
  ptr ← load_u32 p; len ← load_u32 (p + 4); mret (ListU32 ptr len).
Definition lift_handle (p : Z) : reader handle_t :=
  h ← load_s32 p; mret (Handle h).

(** [switch (tag) { case 0: is_some = false; case 1: is_some = true; val = ... }]:
    any other discriminant leaves [is_some] unset. *)
Definition lift_option {A} (p : Z) (val : reader A) : reader (option A) :=
  tag ← load_u8 p;
  match tag with
  | 0 => mret None
  | 1 => x ← val; mret (Some x)
  | _ => ub
  end.

Definition lift_result {A E} (p : Z) (ok : reader A) (err : reader E) : reader (result_t A E) :=
  tag ← load_u8 p;
  match tag with
  | 0 => x ← ok; mret (ROk x)
  | 1 => e ← err; mret (RErr e)
  | _ => ub
  end.

Definition lift_option_string (p : Z) : reader (option function_string_t) :=
  lift_option p (lift_string (p + 4)).
Definition lift_option_u8 (p : Z) : reader (option Z) :=
  lift_option p (load_u8 (p + 1)).
Definition lift_option_u16 (p : Z) : reader (option Z) :=
  lift_option p (load_u16 (p + 2)).
Definition lift_option_u32 (p : Z) : reader (option Z) :=
  lift_option p (z ← load_s32 (p + 4); mret (uwrap 32 z)).
Definition lift_option_u64 (p : Z) : reader (option Z) :=
  lift_option p (z ← load_s64 (p + 8); mret (uwrap 64 z)).

Definition lift_dns_error_payload (p : Z)
    : reader (wasi_http_types_dns_error_payload_t function_string_t) :=
  option2 ← lift_option_string p;
  option3 ← lift_option_u16 (p + 12);
  mret (DnsErrorPayload option2 option3).

Definition lift_tls_alert_received_payload (p : Z)
    : reader (wasi_http_types_tls_alert_received_payload_t function_string_t) :=
  option4 ← lift_option_u8 p;
  option5 ← lift_option_string (p + 4);
  mret (TlsAlertPayload option4 option5).

Definition lift_field_size_payload (p : Z)
    : reader (wasi_http_types_field_size_payload_t function_string_t) :=
  option12 ← lift_option_string p;
  option13 ← lift_option_u32 (p + 12);
  mret (FieldSizePayload option12 option13).

Definition lift_option_field_size_payload (p : Z)
    : reader (option (wasi_http_types_field_size_payload_t function_string_t)) :=
  lift_option p (lift_field_size_payload (p + 4)).

(** The tag is one byte at [p], every payload starts at [p + 8]. *)
Definition lift_error_code (p : Z) : reader c_error_code :=
  tag ← load_u8 p;
  val ← match tag with
        | 1 => x ← lift_dns_error_payload (p + 8); mret (V_dns_error x)
        | 14 => x ← lift_tls_alert_received_payload (p + 8); mret (V_tls_alert_received x)
        | 17 => x ← lift_option_u64 (p + 8); mret (V_http_request_body_size x)
        | 21 => x ← lift_option_u32 (p + 8); mret (V_http_request_header_section_size x)
        | 22 => x ← lift_option_field_size_payload (p + 8); mret (V_http_request_header_size x)
        | 23 => x ← lift_option_u32 (p + 8); mret (V_http_request_trailer_section_size x)
        | 24 => x ← lift_field_size_payload (p + 8); mret (V_http_request_trailer_size x)
        | 26 => x ← lift_option_u32 (p + 8); mret (V_http_response_header_section_size x)
        | 27 => x ← lift_field_size_payload (p + 8); mret (V_http_response_header_size x)
        | 28 => x ← lift_option_u64 (p + 8); mret (V_http_response_body_size x)
        | 29 => x ← lift_option_u32 (p + 8); mret (V_http_response_trailer_section_size x)
        | 30 => x ← lift_field_size_payload (p + 8); mret (V_http_response_trailer_size x)
        | 31 => x ← lift_option_string (p + 8); mret (V_http_response_transfer_coding x)
        | 32 => x ← lift_option_string (p + 8); mret (V_http_response_content_coding x)
        | 38 => x ← lift_option_string (p + 8); mret (V_internal_error x)
        | _ => mret V_none
        end;
  mret (ErrorCode tag val).

(** [stream-error]: the tag, and for tag 0 the error handle four bytes on. *)
Definition lift_stream_error (p : Z) : reader wasi_io_streams_stream_error_t :=
  tag ← load_u8 p;
  match tag with
  | 0 => h ← lift_handle (p + 4); mret (StreamError tag (Some h))
  | _ => mret (StreamError tag None)
  end.

Definition lift_header_error (p : Z) : reader wasi_http_types_header_error_t :=
  tag ← load_u8 p; mret (HeaderError tag).

Definition lift_method (p : Z) : reader c_method :=
  tag ← load_u8 p;
  match tag with
  | 9 => s ← lift_string (p + 4); mret (Method tag (Some s))
  | _ => mret (Method tag None)
  end.

Definition lift_scheme (p : Z) : reader c_scheme :=
  tag ← load_u8 p;
  match tag with
  | 2 => s ← lift_string (p + 4); mret (Scheme tag (Some s))
  | _ => mret (Scheme tag None)
  end.

(** ** The C value of a WIT value *)

Definition as_int (v : wval) : Z := match v with WInt z => z | _ => 0 end.
Definition as_string (v : wval) : function_string_t :=
  match v with WPtrLen p n => FStr p n | _ => FStr 0 0 end.
Definition as_list_u8 (v : wval) : function_list_u8_t :=
  match v with WPtrLen p n => ListU8 p n | _ => ListU8 0 0 end.
Definition as_handle (v : wval) : handle_t := Handle (as_int v).
Definition field (i : nat) (v : wval) : wval :=
  match v with WRec vs => default (WInt 0) (vs !! i) | _ => WInt 0 end.
Definition as_option {A} (f : wval -> A) (v : wval) : option A :=
  match v with WCase 1 (Some x) => Some (f x) | _ => None end.
Definition as_result {A E} (f : option wval -> A) (g : option wval -> E) (v : wval) : result_t A E :=
  match v with WCase 0 x => ROk (f x) | WCase _ x => RErr (g x) | _ => RErr (g None) end.
Definition payload {A} (f : wval -> A) (o : option wval) : A := f (default (WInt 0) o).

Definition as_dns_error_payload (v : wval) : wasi_http_types_dns_error_payload_t function_string_t :=
  DnsErrorPayload (as_option as_string (field 0 v)) (as_option as_int (field 1 v)).
Definition as_tls_alert_received_payload (v : wval)
    : wasi_http_types_tls_alert_received_payload_t function_string_t :=
  TlsAlertPayload (as_option as_int (field 0 v)) (as_option as_string (field 1 v)).
Definition as_field_size_payload (v : wval)
    : wasi_http_types_field_size_payload_t function_string_t :=
  FieldSizePayload (as_option as_string (field 0 v)) (as_option as_int (field 1 v)).

Definition as_error_code (v : wval) : c_error_code :=
  match v with
  | WCase k (Some x) =>
      ErrorCode (Z.of_nat k)
        match k with
        | 1%nat => V_dns_error (as_dns_error_payload x)
        | 14%nat => V_tls_alert_received (as_tls_alert_received_payload x)
        | 17%nat => V_http_request_body_size (as_option as_int x)
        | 21%nat => V_http_request_header_section_size (as_option as_int x)
        | 22%nat => V_http_request_header_size (as_option as_field_size_payload x)
        | 23%nat => V_http_request_trailer_section_size (as_option as_int x)
        | 24%nat => V_http_request_trailer_size (as_field_size_payload x)
        | 26%nat => V_http_response_header_section_size (as_option as_int x)
        | 27%nat => V_http_response_header_size (as_field_size_payload x)
        | 28%nat => V_http_response_body_size (as_option as_int x)
        | 29%nat => V_http_response_trailer_section_size (as_option as_int x)
        | 30%nat => V_http_response_trailer_size (as_field_size_payload x)
        | 31%nat => V_http_response_transfer_coding (as_option as_string x)
        | 32%nat => V_http_response_content_coding (as_option as_string x)
        | 38%nat => V_internal_error (as_option as_string x)
        | _ => V_none
        end
  | WCase k None => ErrorCode (Z.of_nat k) V_none
  | _ => ErrorCode 0 V_none
  end.

Definition as_stream_error (v : wval) : wasi_io_streams_stream_error_t :=
  match v with
  | WCase k o => StreamError (Z.of_nat k) (as_handle <$> o)
  | _ => StreamError 0 None
  end.
Definition as_header_error (v : wval) : wasi_http_types_header_error_t :=
  match v with WCase k _ => HeaderError (Z.of_nat k) | _ => HeaderError 0 end.
Definition as_method (v : wval) : c_method :=
  match v with WCase k o => Method (Z.of_nat k) (as_string <$> o) | _ => Method 0 None end.
Definition as_scheme (v : wval) : c_scheme :=
  match v with WCase k o => Scheme (Z.of_nat k) (as_string <$> o) | _ => Scheme 0 None end.

(** ** Lifting is the Canonical ABI's load *)

(** [lifts t f r]: [r p] computes, through [f], what loading a [t] at [p]
    computes, whenever the latter succeeds. *)
Definition lifts {A} (t : wty) (f : wval -> A) (r : Z -> reader A) : Prop :=
  forall p m v, canon_load t p m = Ok v -> r p m = Ok (f v).

Lemma reader_bind_Ok {A B} (r : reader A) (f : A -> reader B) m b :
  (r ≫= f) m = Ok b <-> exists a, r m = Ok a /\ f a m = Ok b.
Proof. unfold mbind, reader_bind. apply outcome_bind_Ok. Qed.

Lemma reader_bind_run {A B} (r : reader A) (f : A -> reader B) m a :
  r m = Ok a -> (r ≫= f) m = f a m.
Proof. unfold mbind, reader_bind. intros ->. done. Qed.

Ltac reader_inv :=
  repeat match goal with
  | H : (_ ≫= _) _ = Ok _ |- _ => apply reader_bind_Ok in H; destruct H as (? & ? & H)
  | H : mret _ _ = Ok _ |- _ => apply Ok_inj in H; try subst
  | H : Ok _ = Ok _ |- _ => apply Ok_inj in H; try subst
  end.

(** Runs a reader forward with the loads in the context. *)
Ltac reader_run :=
  repeat match goal with
  | |- (_ ≫= _) _ = _ => erewrite reader_bind_run by eassumption
  | |- _ = _ => progress cbn beta iota
  end.

Lemma load_range n m p z : load n m p = Ok z -> 0 <= z < 256 ^ Z.of_nat n.
Proof.
  unfold load. intros H. outcome_inv.
  assert (length x = n) as <-.
  { clear -H0. revert p x H0. induction n as [|n IH]; intros p x H; simpl in H.
    - by simplify_eq.
    - outcome_inv. simpl. f_equal. eauto. }
  apply le_decode_range.
Qed.

(** The discriminant and the case of a successful variant load. *)
Lemma canon_variant_inv cs p m v :
  Z.of_nat (length cs) <= 256 ->
  canon_load (TVariant cs) p m = Ok v ->
  exists k o, load_u8 p m = Ok (Z.of_nat k) /\ cs !! k = Some o /\
    match o with
    | None => v = WCase k None
    | Some t => exists x, canon_load t (p + payload_offset cs) m = Ok x /\ v = WCase k (Some x)
    end.
Proof.
  intros Hn H. cbn [canon_load] in H. reader_inv.
  unfold load_disc, disc_size in H0.
  destruct (Z.leb_spec (Z.of_nat (length cs)) 256); [|lia].
  pose proof (load_range _ _ _ _ H0) as Hr.
  exists (Z.to_nat x). rewrite Z2Nat.id by lia.
  set (off := payload_offset cs) in *.
  set (k0 := Z.to_nat x) in *. clearbody k0 off.
  assert (forall k, (fix cases (cs' : list (option wty)) (k : nat) : reader wval :=
      match cs' with
      | [] => fun _ => Trap HostTrap
      | None :: cs'0 => match k with O => mret (WCase k0 None) | S k1 => cases cs'0 k1 end
      | Some t :: cs'0 =>
          match k with
          | O => v ← canon_load t (p + off); mret (WCase k0 (Some v))
          | S k1 => cases cs'0 k1
          end
      end) cs k m = Ok v ->
    exists o, cs !! k = Some o /\
      match o with
      | None => v = WCase k0 None
      | Some t => exists x, canon_load t (p + off) m = Ok x /\ v = WCase k0 (Some x)
      end) as Hgo.
  { clear. induction cs as [|[t|] cs IH]; intros k H; [discriminate| |].
    - destruct k; [|by apply IH in H]. reader_inv. exists (Some t). eauto.
    - destruct k; [|by apply IH in H]. reader_inv. exists None. eauto. }
  destruct (Hgo k0 H) as (o & ? & ?). eauto.
Qed.

Lemma lift_option_canon {A} t (f : wval -> A) (r : Z -> reader A) off :
  payload_offset [None; Some t] = off ->
  lifts t f r ->
  lifts (TOption t) (as_option f) (fun p => lift_option p (r (p + off))).
Proof.
  intros <- Hr p m v H. apply canon_variant_inv in H as (k & o & Hk & Ho & Hv); [|done].
  unfold lift_option. erewrite reader_bind_run by exact Hk.
  destruct k as [|[|k]]; simplify_eq/=; [done|].
  destruct Hv as (x & Hx & ->). erewrite reader_bind_run by (apply Hr; exact Hx). done.
Qed.

Lemma lift_result_canon {A E} ok err (f : option wval -> A) (g : option wval -> E)
    (r : Z -> reader A) (s : Z -> reader E) off :
  payload_offset [ok; err] = off ->
  (forall p m o, match ok with
                 | None => o = None
                 | Some t => exists x, canon_load t p m = Ok x /\ o = Some x
                 end -> r p m = Ok (f o)) ->
  (forall p m o, match err with
                 | None => o = None
                 | Some t => exists x, canon_load t p m = Ok x /\ o = Some x
                 end -> s p m = Ok (g o)) ->
  lifts (TResult ok err) (as_result f g)
    (fun p => lift_result p (r (p + off)) (s (p + off))).
Proof.
  intros <- Hr Hs p m v H. apply canon_variant_inv in H as (k & o & Hk & Ho & Hv); [|done].
  unfold lift_result. erewrite reader_bind_run by exact Hk.
  destruct k as [|[|k]]; simplify_eq/=.
  - destruct o as [t|].
    + destruct Hv as (x & Hx & ->).
      erewrite reader_bind_run by (apply Hr; eauto). done.
    + subst. erewrite reader_bind_run by (apply Hr; eauto). done.
  - destruct o as [t|].
    + destruct Hv as (x & Hx & ->).
      erewrite reader_bind_run by (apply Hs; eauto). done.
    + subst. erewrite reader_bind_run by (apply Hs; eauto). done.
Qed.

(** A record of two fields. *)
Lemma canon_pair_inv t1 t2 p m v :
  canon_load (TRecord [t1; t2]) p m = Ok v ->
  exists x y, canon_load t1 (p + align_to 0 (align t1)) m = Ok x /\
    canon_load t2 (p + align_to (align_to 0 (align t1) + size t1) (align t2)) m = Ok y /\
    v = WRec [x; y].
Proof. cbn [canon_load]. intros H. reader_inv. eauto 10. Qed.

Lemma lift_pair_canon {A B C} t1 t2 (f : wval -> A) (g : wval -> B) (mk : A -> B -> C) r s off :
  align_to 0 (align t1) = 0 ->
  align_to (size t1) (align t2) = off ->
  lifts t1 f r -> lifts t2 g s ->
  lifts (TRecord [t1; t2]) (fun v => mk (f (field 0 v)) (g (field 1 v)))
    (fun p => x ← r p; y ← s (p + off); mret (mk x y)).
Proof.
  intros E0 <- Hr Hs p m v H. apply canon_pair_inv in H as (x & y & Hx & Hy & ->).
  rewrite E0 in Hx, Hy. rewrite Z.add_0_r in Hx. rewrite Z.add_0_l in Hy.
  erewrite reader_bind_run by (apply Hr; exact Hx).
  erewrite reader_bind_run by (apply Hs; exact Hy). done.
Qed.

Lemma lift_u8_canon : lifts TU8 as_int load_u8.
Proof. intros p m v H. cbn [canon_load] in H. by reader_inv. Qed.
Lemma lift_u16_canon : lifts TU16 as_int load_u16.
Proof. intros p m v H. cbn [canon_load] in H. by reader_inv. Qed.

Lemma uwrap_swrap w z : 0 < w -> uwrap w (swrap w z) = z mod 2 ^ w.
Proof.
  intros Hw. unfold uwrap, swrap.
  pose proof (Z.mod_pos_bound z (2 ^ w) ltac:(lia)).
  destruct (_ <? _); [by rewrite Z.mod_mod by lia|].
  rewrite <- (Z.mod_add _ 1) by lia. replace (_ + _) with (z mod 2 ^ w) by lia.
  by rewrite Z.mod_mod by lia.
Qed.

Lemma lift_u32_canon : lifts TU32 as_int (fun p => z ← load_s32 p; mret (uwrap 32 z)).
Proof.
  intros p m v H. cbn [canon_load] in H. reader_inv.
  unfold load_s32, mbind, reader_bind, mret, reader_ret, load_u32 in *.
  rewrite H0. simpl. f_equal. rewrite uwrap_swrap by lia. apply Z.mod_small.
  exact (load_range 4 _ _ _ H0).
Qed.
Lemma lift_u64_canon : lifts TU64 as_int (fun p => z ← load_s64 p; mret (uwrap 64 z)).
Proof. intros p m v H. cbn [canon_load] in H. reader_inv. by erewrite reader_bind_run. Qed.
Lemma lift_handle_canon : lifts THandle as_handle lift_handle.
Proof. intros p m v H. cbn [canon_load] in H. reader_inv. unfold lift_handle. by erewrite reader_bind_run. Qed.
Lemma lift_string_canon : lifts TString as_string lift_string.
Proof. intros p m v H. cbn [canon_load] in H. reader_inv. unfold lift_string. by do 2 erewrite reader_bind_run by eassumption. Qed.
Lemma lift_list_u8_canon t : lifts (TList t) as_list_u8 lift_list_u8.
Proof. intros p m v H. cbn [canon_load] in H. reader_inv. unfold lift_list_u8. by do 2 erewrite reader_bind_run by eassumption. Qed.

#[export] Hint Resolve lift_u8_canon lift_u16_canon lift_u32_canon lift_u64_canon
  lift_handle_canon lift_string_canon lift_list_u8_canon : guest.

Lemma lift_option_string_canon : lifts (TOption TString) (as_option as_string) lift_option_string.
Proof. apply (lift_option_canon TString _ lift_string); auto with guest. Qed.
Lemma lift_option_u8_canon : lifts (TOption TU8) (as_option as_int) lift_option_u8.
Proof. apply (lift_option_canon TU8 _ load_u8); auto with guest. Qed.
Lemma lift_option_u16_canon : lifts (TOption TU16) (as_option as_int) lift_option_u16.
Proof. apply (lift_option_canon TU16 _ load_u16); auto with guest. Qed.
Lemma lift_option_u32_canon : lifts (TOption TU32) (as_option as_int) lift_option_u32.
Proof. apply (lift_option_canon TU32 _ (fun p => z ← load_s32 p; mret (uwrap 32 z))); auto with guest. Qed.
Lemma lift_option_u64_canon : lifts (TOption TU64) (as_option as_int) lift_option_u64.
Proof. apply (lift_option_canon TU64 _ (fun p => z ← load_s64 p; mret (uwrap 64 z))); auto with guest. Qed.

#[export] Hint Resolve lift_option_string_canon lift_option_u8_canon lift_option_u16_canon
  lift_option_u32_canon lift_option_u64_canon : guest.

Lemma lift_dns_error_payload_canon :
  lifts dns_error_payload_ty as_dns_error_payload lift_dns_error_payload.
Proof. apply (lift_pair_canon _ _ _ _ DnsErrorPayload lift_option_string lift_option_u16); auto with guest. Qed.
Lemma lift_tls_alert_received_payload_canon :
  lifts tls_alert_received_payload_ty as_tls_alert_received_payload lift_tls_alert_received_payload.
Proof. apply (lift_pair_canon _ _ _ _ TlsAlertPayload lift_option_u8 lift_option_string); auto with guest. Qed.
Lemma lift_field_size_payload_canon :
  lifts field_size_payload_ty as_field_size_payload lift_field_size_payload.
Proof. apply (lift_pair_canon _ _ _ _ FieldSizePayload lift_option_string lift_option_u32); auto with guest. Qed.
#[export] Hint Resolve lift_dns_error_payload_canon lift_tls_alert_received_payload_canon
  lift_field_size_payload_canon : guest.
Lemma lift_option_field_size_payload_canon :
  lifts (TOption field_size_payload_ty) (as_option as_field_size_payload) lift_option_field_size_payload.
Proof. apply (lift_option_canon field_size_payload_ty _ lift_field_size_payload); auto with guest. Qed.
#[export] Hint Resolve lift_option_field_size_payload_canon : guest.

(** Lifting a payload and wrapping it twice. *)
Lemma run_payload {A B C} t (f : wval -> A) r (g : A -> B) (h : B -> C) p m x :
  lifts t f r -> canon_load t p m = Ok x ->
  ((r p ≫= fun y => mret (g y)) ≫= fun z => mret (h z)) m = Ok (h (g (f x))).
Proof. intros Hr Hx. erewrite reader_bind_run; [|erewrite reader_bind_run by (apply Hr, Hx)]; done. Qed.
Lemma run_payload1 {A C} t (f : wval -> A) r (h : A -> C) p m x :
  lifts t f r -> canon_load t p m = Ok x ->
  (r p ≫= fun z => mret (h z)) m = Ok (h (f x)).
Proof. intros Hr Hx. by erewrite reader_bind_run by (apply Hr, Hx). Qed.

(** Runs through the [n] cases of a variant: [k] is the case, [Ho] its lookup,
    [Hv] the value. *)
Ltac variant_case k Ho Hv :=
  destruct k as [|k];
  [ cbn in Ho; injection Ho as <-;
    cbv [Z.of_nat Pos.of_succ_nat Pos.succ];
    first
      [ subst; reflexivity
      | let x := fresh in let Hx := fresh in
        destruct Hv as (x & Hx & ->);
        etransitivity;
          [ first [ solve [eapply run_payload; [eauto with guest | eassumption]] | solve [eapply run_payload1; [eauto with guest | eassumption]] ]
          | reflexivity ] ]
  | ].

Lemma lift_error_code_canon : lifts error_code_ty as_error_code lift_error_code.
Proof.
  intros p m v H. apply canon_variant_inv in H as (k & o & Hk & Ho & Hv); [|done].
  change (payload_offset _) with 8 in Hv.
  unfold lift_error_code. erewrite reader_bind_run by exact Hk.
  do 39 variant_case k Ho Hv. discriminate Ho.
Qed.

Lemma lift_stream_error_canon : lifts stream_error_ty as_stream_error lift_stream_error.
Proof.
  intros p m v H. apply canon_variant_inv in H as (k & o & Hk & Ho & Hv); [|done].
  change (payload_offset _) with 4 in Hv.
  unfold lift_stream_error. erewrite reader_bind_run by exact Hk.
  do 2 variant_case k Ho Hv. discriminate Ho.
Qed.

Lemma lift_header_error_canon : lifts header_error_ty as_header_error lift_header_error.
Proof.
  intros p m v H. apply canon_variant_inv in H as (k & o & Hk & Ho & Hv); [|done].
  unfold lift_header_error. erewrite reader_bind_run by exact Hk.
  do 3 variant_case k Ho Hv. discriminate Ho.
Qed.

Lemma lift_method_canon : lifts method_ty as_method lift_method.
Proof.
  intros p m v H. apply canon_variant_inv in H as (k & o & Hk & Ho & Hv); [|done].
  change (payload_offset _) with 4 in Hv.
  unfold lift_method. erewrite reader_bind_run by exact Hk.
  do 10 variant_case k Ho Hv. discriminate Ho.
Qed.

Lemma lift_scheme_canon : lifts scheme_ty as_scheme lift_scheme.
Proof.
  intros p m v H. apply canon_variant_inv in H as (k & o & Hk & Ho & Hv); [|done].
  change (payload_offset _) with 4 in Hv.
  unfold lift_scheme. erewrite reader_bind_run by exact Hk.
  do 3 variant_case k Ho Hv. discriminate Ho.
Qed.
#[export] Hint Resolve lift_error_code_canon lift_stream_error_canon lift_header_error_canon
  lift_method_canon lift_scheme_canon : guest.
