(* ===== verification/Imports.v ===== *)
(** The functions the guest imports from the host (the [extern] declarations of
    crates/guestfn/templates/c/src/gen/function.c): one constructor per import,
    with the module and name the declaration's attributes give it. What an import
    does is the host's business: a [host] is any function from an import and its
    core arguments to an effect on the guest's memory and the world. *)
From S2P Require Import Prelude LinMem.

Inductive import :=
  | I_wasi_io_poll_method_pollable_ready
  | I_wasi_io_poll_method_pollable_block
  | I_wasi_io_poll_poll
  | I_wasi_clocks_monotonic_clock_now
  | I_wasi_clocks_monotonic_clock_resolution
  | I_wasi_clocks_monotonic_clock_subscribe_instant
  | I_wasi_clocks_monotonic_clock_subscribe_duration
  | I_wasi_io_error_method_error_to_debug_string
  | I_wasi_io_streams_method_input_stream_read
  | I_wasi_io_streams_method_input_stream_blocking_read
  | I_wasi_io_streams_method_input_stream_skip
  | I_wasi_io_streams_method_input_stream_blocking_skip
  | I_wasi_io_streams_method_input_stream_subscribe
  | I_wasi_io_streams_method_output_stream_check_write
  | I_wasi_io_streams_method_output_stream_write
  | I_wasi_io_streams_method_output_stream_blocking_write_and_flush
  | I_wasi_io_streams_method_output_stream_flush
  | I_wasi_io_streams_method_output_stream_blocking_flush
  | I_wasi_io_streams_method_output_stream_subscribe
  | I_wasi_io_streams_method_output_stream_write_zeroes
  | I_wasi_io_streams_method_output_stream_blocking_write_zeroes_and_flush
  | I_wasi_io_streams_method_output_stream_splice
  | I_wasi_io_streams_method_output_stream_blocking_splice
  | I_wasi_http_types_constructor_fields
  | I_wasi_http_types_static_fields_from_list
  | I_wasi_http_types_method_fields_get
  | I_wasi_http_types_method_fields_has
  | I_wasi_http_types_method_fields_set
  | I_wasi_http_types_method_fields_delete
  | I_wasi_http_types_method_fields_append
  | I_wasi_http_types_method_fields_entries
  | I_wasi_http_types_method_fields_clone
  | I_wasi_http_types_method_incoming_request_method
  | I_wasi_http_types_method_incoming_request_path_with_query
  | I_wasi_http_types_method_incoming_request_scheme
  | I_wasi_http_types_method_incoming_request_authority
  | I_wasi_http_types_method_incoming_request_headers
  | I_wasi_http_types_method_incoming_request_consume
  | I_wasi_http_types_constructor_outgoing_request
  | I_wasi_http_types_method_outgoing_request_body
  | I_wasi_http_types_method_outgoing_request_method
  | I_wasi_http_types_method_outgoing_request_set_method
  | I_wasi_http_types_method_outgoing_request_path_with_query
  | I_wasi_http_types_method_outgoing_request_set_path_with_query
  | I_wasi_http_types_method_outgoing_request_scheme
  | I_wasi_http_types_method_outgoing_request_set_scheme
  | I_wasi_http_types_method_outgoing_request_authority
  | I_wasi_http_types_method_outgoing_request_set_authority
  | I_wasi_http_types_method_outgoing_request_headers
  | I_wasi_http_types_constructor_request_options
  | I_wasi_http_types_method_request_options_connect_timeout
  | I_wasi_http_types_method_request_options_set_connect_timeout
  | I_wasi_http_types_method_request_options_first_byte_timeout
  | I_wasi_http_types_method_request_options_set_first_byte_timeout
  | I_wasi_http_types_method_request_options_between_bytes_timeout
  | I_wasi_http_types_method_request_options_set_between_bytes_timeout
  | I_wasi_http_types_static_response_outparam_set
  | I_wasi_http_types_method_incoming_response_status
  | I_wasi_http_types_method_incoming_response_headers
  | I_wasi_http_types_method_incoming_response_consume
  | I_wasi_http_types_method_incoming_body_stream
  | I_wasi_http_types_static_incoming_body_finish
  | I_wasi_http_types_method_future_trailers_subscribe
  | I_wasi_http_types_method_future_trailers_get
  | I_wasi_http_types_constructor_outgoing_response
  | I_wasi_http_types_method_outgoing_response_status_code
  | I_wasi_http_types_method_outgoing_response_set_status_code
  | I_wasi_http_types_method_outgoing_response_headers
  | I_wasi_http_types_method_outgoing_response_body
  | I_wasi_http_types_method_outgoing_body_write
  | I_wasi_http_types_static_outgoing_body_finish
  | I_wasi_http_types_method_future_incoming_response_subscribe
  | I_wasi_http_types_method_future_incoming_response_get
  | I_wasi_http_types_http_error_code
  | I_wasi_http_outgoing_handler_handle
  | I_function_log
  | I_wasi_io_poll_pollable_drop
  | I_wasi_io_error_error_drop
  | I_wasi_io_streams_input_stream_drop
  | I_wasi_io_streams_output_stream_drop
  | I_wasi_http_types_fields_drop
  | I_wasi_http_types_incoming_request_drop
  | I_wasi_http_types_outgoing_request_drop
  | I_wasi_http_types_request_options_drop
  | I_wasi_http_types_response_outparam_drop
  | I_wasi_http_types_incoming_response_drop
  | I_wasi_http_types_incoming_body_drop
  | I_wasi_http_types_future_trailers_drop
  | I_wasi_http_types_outgoing_response_drop
  | I_wasi_http_types_outgoing_body_drop
  | I_wasi_http_types_future_incoming_response_drop.

#[export] Instance import_eq_dec : EqDecision import.
Proof. solve_decision. Defined.

(** [__import_module__] and [__import_name__]. *)
Definition import_name (i : import) : string * string :=
  match i with
  | I_wasi_io_poll_method_pollable_ready => ("wasi:io/poll@0.2.12", "[method]pollable.ready")
  | I_wasi_io_poll_method_pollable_block => ("wasi:io/poll@0.2.12", "[method]pollable.block")
  | I_wasi_io_poll_poll => ("wasi:io/poll@0.2.12", "poll")
  | I_wasi_clocks_monotonic_clock_now => ("wasi:clocks/monotonic-clock@0.2.12", "now")
  | I_wasi_clocks_monotonic_clock_resolution => ("wasi:clocks/monotonic-clock@0.2.12", "resolution")
  | I_wasi_clocks_monotonic_clock_subscribe_instant => ("wasi:clocks/monotonic-clock@0.2.12", "subscribe-instant")
  | I_wasi_clocks_monotonic_clock_subscribe_duration => ("wasi:clocks/monotonic-clock@0.2.12", "subscribe-duration")
  | I_wasi_io_error_method_error_to_debug_string => ("wasi:io/error@0.2.12", "[method]error.to-debug-string")
  | I_wasi_io_streams_method_input_stream_read => ("wasi:io/streams@0.2.12", "[method]input-stream.read")
  | I_wasi_io_streams_method_input_stream_blocking_read => ("wasi:io/streams@0.2.12", "[method]input-stream.blocking-read")
  | I_wasi_io_streams_method_input_stream_skip => ("wasi:io/streams@0.2.12", "[method]input-stream.skip")
  | I_wasi_io_streams_method_input_stream_blocking_skip => ("wasi:io/streams@0.2.12", "[method]input-stream.blocking-skip")
  | I_wasi_io_streams_method_input_stream_subscribe => ("wasi:io/streams@0.2.12", "[method]input-stream.subscribe")
  | I_wasi_io_streams_method_output_stream_check_write => ("wasi:io/streams@0.2.12", "[method]output-stream.check-write")
  | I_wasi_io_streams_method_output_stream_write => ("wasi:io/streams@0.2.12", "[method]output-stream.write")
  | I_wasi_io_streams_method_output_stream_blocking_write_and_flush => ("wasi:io/streams@0.2.12", "[method]output-stream.blocking-write-and-flush")
  | I_wasi_io_streams_method_output_stream_flush => ("wasi:io/streams@0.2.12", "[method]output-stream.flush")
  | I_wasi_io_streams_method_output_stream_blocking_flush => ("wasi:io/streams@0.2.12", "[method]output-stream.blocking-flush")
  | I_wasi_io_streams_method_output_stream_subscribe => ("wasi:io/streams@0.2.12", "[method]output-stream.subscribe")
  | I_wasi_io_streams_method_output_stream_write_zeroes => ("wasi:io/streams@0.2.12", "[method]output-stream.write-zeroes")
  | I_wasi_io_streams_method_output_stream_blocking_write_zeroes_and_flush => ("wasi:io/streams@0.2.12", "[method]output-stream.blocking-write-zeroes-and-flush")
  | I_wasi_io_streams_method_output_stream_splice => ("wasi:io/streams@0.2.12", "[method]output-stream.splice")
  | I_wasi_io_streams_method_output_stream_blocking_splice => ("wasi:io/streams@0.2.12", "[method]output-stream.blocking-splice")
  | I_wasi_http_types_constructor_fields => ("wasi:http/types@0.2.12", "[constructor]fields")
  | I_wasi_http_types_static_fields_from_list => ("wasi:http/types@0.2.12", "[static]fields.from-list")
  | I_wasi_http_types_method_fields_get => ("wasi:http/types@0.2.12", "[method]fields.get")
  | I_wasi_http_types_method_fields_has => ("wasi:http/types@0.2.12", "[method]fields.has")
  | I_wasi_http_types_method_fields_set => ("wasi:http/types@0.2.12", "[method]fields.set")
  | I_wasi_http_types_method_fields_delete => ("wasi:http/types@0.2.12", "[method]fields.delete")
  | I_wasi_http_types_method_fields_append => ("wasi:http/types@0.2.12", "[method]fields.append")
  | I_wasi_http_types_method_fields_entries => ("wasi:http/types@0.2.12", "[method]fields.entries")
  | I_wasi_http_types_method_fields_clone => ("wasi:http/types@0.2.12", "[method]fields.clone")
  | I_wasi_http_types_method_incoming_request_method => ("wasi:http/types@0.2.12", "[method]incoming-request.method")
  | I_wasi_http_types_method_incoming_request_path_with_query => ("wasi:http/types@0.2.12", "[method]incoming-request.path-with-query")
  | I_wasi_http_types_method_incoming_request_scheme => ("wasi:http/types@0.2.12", "[method]incoming-request.scheme")
  | I_wasi_http_types_method_incoming_request_authority => ("wasi:http/types@0.2.12", "[method]incoming-request.authority")
  | I_wasi_http_types_method_incoming_request_headers => ("wasi:http/types@0.2.12", "[method]incoming-request.headers")
  | I_wasi_http_types_method_incoming_request_consume => ("wasi:http/types@0.2.12", "[method]incoming-request.consume")
  | I_wasi_http_types_constructor_outgoing_request => ("wasi:http/types@0.2.12", "[constructor]outgoing-request")
  | I_wasi_http_types_method_outgoing_request_body => ("wasi:http/types@0.2.12", "[method]outgoing-request.body")
  | I_wasi_http_types_method_outgoing_request_method => ("wasi:http/types@0.2.12", "[method]outgoing-request.method")
  | I_wasi_http_types_method_outgoing_request_set_method => ("wasi:http/types@0.2.12", "[method]outgoing-request.set-method")
  | I_wasi_http_types_method_outgoing_request_path_with_query => ("wasi:http/types@0.2.12", "[method]outgoing-request.path-with-query")
  | I_wasi_http_types_method_outgoing_request_set_path_with_query => ("wasi:http/types@0.2.12", "[method]outgoing-request.set-path-with-query")
  | I_wasi_http_types_method_outgoing_request_scheme => ("wasi:http/types@0.2.12", "[method]outgoing-request.scheme")
  | I_wasi_http_types_method_outgoing_request_set_scheme => ("wasi:http/types@0.2.12", "[method]outgoing-request.set-scheme")
  | I_wasi_http_types_method_outgoing_request_authority => ("wasi:http/types@0.2.12", "[method]outgoing-request.authority")
  | I_wasi_http_types_method_outgoing_request_set_authority => ("wasi:http/types@0.2.12", "[method]outgoing-request.set-authority")
  | I_wasi_http_types_method_outgoing_request_headers => ("wasi:http/types@0.2.12", "[method]outgoing-request.headers")
  | I_wasi_http_types_constructor_request_options => ("wasi:http/types@0.2.12", "[constructor]request-options")
  | I_wasi_http_types_method_request_options_connect_timeout => ("wasi:http/types@0.2.12", "[method]request-options.connect-timeout")
  | I_wasi_http_types_method_request_options_set_connect_timeout => ("wasi:http/types@0.2.12", "[method]request-options.set-connect-timeout")
  | I_wasi_http_types_method_request_options_first_byte_timeout => ("wasi:http/types@0.2.12", "[method]request-options.first-byte-timeout")
  | I_wasi_http_types_method_request_options_set_first_byte_timeout => ("wasi:http/types@0.2.12", "[method]request-options.set-first-byte-timeout")
  | I_wasi_http_types_method_request_options_between_bytes_timeout => ("wasi:http/types@0.2.12", "[method]request-options.between-bytes-timeout")
  | I_wasi_http_types_method_request_options_set_between_bytes_timeout => ("wasi:http/types@0.2.12", "[method]request-options.set-between-bytes-timeout")
  | I_wasi_http_types_static_response_outparam_set => ("wasi:http/types@0.2.12", "[static]response-outparam.set")
  | I_wasi_http_types_method_incoming_response_status => ("wasi:http/types@0.2.12", "[method]incoming-response.status")
  | I_wasi_http_types_method_incoming_response_headers => ("wasi:http/types@0.2.12", "[method]incoming-response.headers")
  | I_wasi_http_types_method_incoming_response_consume => ("wasi:http/types@0.2.12", "[method]incoming-response.consume")
  | I_wasi_http_types_method_incoming_body_stream => ("wasi:http/types@0.2.12", "[method]incoming-body.stream")
  | I_wasi_http_types_static_incoming_body_finish => ("wasi:http/types@0.2.12", "[static]incoming-body.finish")
  | I_wasi_http_types_method_future_trailers_subscribe => ("wasi:http/types@0.2.12", "[method]future-trailers.subscribe")
  | I_wasi_http_types_method_future_trailers_get => ("wasi:http/types@0.2.12", "[method]future-trailers.get")
  | I_wasi_http_types_constructor_outgoing_response => ("wasi:http/types@0.2.12", "[constructor]outgoing-response")
  | I_wasi_http_types_method_outgoing_response_status_code => ("wasi:http/types@0.2.12", "[method]outgoing-response.status-code")
  | I_wasi_http_types_method_outgoing_response_set_status_code => ("wasi:http/types@0.2.12", "[method]outgoing-response.set-status-code")
  | I_wasi_http_types_method_outgoing_response_headers => ("wasi:http/types@0.2.12", "[method]outgoing-response.headers")
  | I_wasi_http_types_method_outgoing_response_body => ("wasi:http/types@0.2.12", "[method]outgoing-response.body")
  | I_wasi_http_types_method_outgoing_body_write => ("wasi:http/types@0.2.12", "[method]outgoing-body.write")
  | I_wasi_http_types_static_outgoing_body_finish => ("wasi:http/types@0.2.12", "[static]outgoing-body.finish")
  | I_wasi_http_types_method_future_incoming_response_subscribe => ("wasi:http/types@0.2.12", "[method]future-incoming-response.subscribe")
  | I_wasi_http_types_method_future_incoming_response_get => ("wasi:http/types@0.2.12", "[method]future-incoming-response.get")
  | I_wasi_http_types_http_error_code => ("wasi:http/types@0.2.12", "http-error-code")
  | I_wasi_http_outgoing_handler_handle => ("wasi:http/outgoing-handler@0.2.12", "handle")
  | I_function_log => ("$root", "log")
  | I_wasi_io_poll_pollable_drop => ("wasi:io/poll@0.2.12", "[resource-drop]pollable")
  | I_wasi_io_error_error_drop => ("wasi:io/error@0.2.12", "[resource-drop]error")
  | I_wasi_io_streams_input_stream_drop => ("wasi:io/streams@0.2.12", "[resource-drop]input-stream")
  | I_wasi_io_streams_output_stream_drop => ("wasi:io/streams@0.2.12", "[resource-drop]output-stream")
  | I_wasi_http_types_fields_drop => ("wasi:http/types@0.2.12", "[resource-drop]fields")
  | I_wasi_http_types_incoming_request_drop => ("wasi:http/types@0.2.12", "[resource-drop]incoming-request")
  | I_wasi_http_types_outgoing_request_drop => ("wasi:http/types@0.2.12", "[resource-drop]outgoing-request")
  | I_wasi_http_types_request_options_drop => ("wasi:http/types@0.2.12", "[resource-drop]request-options")
  | I_wasi_http_types_response_outparam_drop => ("wasi:http/types@0.2.12", "[resource-drop]response-outparam")
  | I_wasi_http_types_incoming_response_drop => ("wasi:http/types@0.2.12", "[resource-drop]incoming-response")
  | I_wasi_http_types_incoming_body_drop => ("wasi:http/types@0.2.12", "[resource-drop]incoming-body")
  | I_wasi_http_types_future_trailers_drop => ("wasi:http/types@0.2.12", "[resource-drop]future-trailers")
  | I_wasi_http_types_outgoing_response_drop => ("wasi:http/types@0.2.12", "[resource-drop]outgoing-response")
  | I_wasi_http_types_outgoing_body_drop => ("wasi:http/types@0.2.12", "[resource-drop]outgoing-body")
  | I_wasi_http_types_future_incoming_response_drop => ("wasi:http/types@0.2.12", "[resource-drop]future-incoming-response")
  end%string.

(** Core arguments in, one core result out (0 where the import returns
    nothing). An [int32_t] argument is passed as the integer of its C type. *)
Definition host (W : Type) : Type := import -> list Z -> guest W Z.
