(* ===== verification/BindLower.v ===== *)
(** Lowering: how the bindings of function.c flatten an argument into core
    parameters, with the C casts between the joined types of a variant's cases
    written out. Each is proved to be read back by the Canonical ABI's generic
    flat lifting as the value it came from. *)
From S2P Require Import Prelude LinMem BindTypes CanonAbi BindLift.

(** ** The lowering code *)

(** [uint8_t *] and [size_t] are unsigned 32-bit; [(int64_t) ptr] extends a
    pointer with zeros, [(int64_t) i32] extends the sign. *)
Definition ptr_of (z : Z) : Z := uwrap 32 z.
Definition size_of (z : Z) : Z := uwrap 32 z.

Definition lower_option_string (o : option function_string_t) : Z * Z * Z :=
  match o with
  | Some payload => (1, str_ptr payload, str_len payload)
  | None => (0, 0, 0)
  end.

(** The [(int32_t)] cast of a u8, u16 or u32 payload. *)
Definition lower_option_int (o : option Z) : Z * Z :=
  match o with
  | Some payload => (1, swrap 32 payload)
  | None => (0, 0)
  end.

Definition lower_option_u64 (o : option Z) : Z * Z :=
  match o with
  | Some payload => (1, swrap 64 payload)
  | None => (0, 0)
  end.

(** The parameters [variant, variant9, variant10] of set-method: a [switch] with
    no default, so another tag leaves them unset. *)
Definition lower_method (method : c_method) : outcome (list Z) :=
  match m_tag method with
  | 0 | 1 | 2 | 3 | 4 | 5 | 6 | 7 | 8 => Ok [m_tag method; 0; 0]
  | 9 => payload8 ← defined (m_other method);
         Ok [9; str_ptr payload8; str_len payload8]
  | _ => Trap UB
  end.

Definition lower_scheme (scheme : c_scheme) : outcome (list Z) :=
  match sc_tag scheme with
  | 0 | 1 => Ok [sc_tag scheme; 0; 0]
  | 2 => payload3 ← defined (sc_other scheme);
         Ok [2; str_ptr payload3; str_len payload3]
  | _ => Trap UB
  end.

Definition lower_dns_error_payload
    (p : wasi_http_types_dns_error_payload_t function_string_t) : list Z :=
  let '(option_, option5, option6) := lower_option_string (rcode p) in
  let '(option9, option10) := lower_option_int (info_code p) in
  [option_; option5; option6; ptr_of option9; size_of option10; 0].

Definition lower_tls_alert_received_payload
    (p : wasi_http_types_tls_alert_received_payload_t function_string_t) : list Z :=
  let '(option26, option27) := lower_option_int (alert_id p) in
  let '(option30, option31, option32) := lower_option_string (alert_message p) in
  [option26; option27; ptr_of option30; option31; option32; 0].

Definition lower_field_size_payload
    (p : wasi_http_types_field_size_payload_t function_string_t) : list Z :=
  let '(option74, option75, option76) := lower_option_string (field_name p) in
  let '(option79, option80) := lower_option_int (field_size p) in
  [option74; option75; ptr_of option76; ptr_of option79; size_of option80; 0].

Definition lower_option_field_size_payload
    (o : option (wasi_http_types_field_size_payload_t function_string_t)) : list Z :=
  match o with
  | Some payload50 =>
      let '(option53, option54, option55) := lower_option_string (field_name payload50) in
      let '(option58, option59) := lower_option_int (field_size payload50) in
      [1; option53; option54; ptr_of option55; size_of option58; option59]
  | None => [0; 0; 0; 0; 0; 0]
  end.

Definition lower_size_u32 (o : option Z) : list Z :=
  let '(option46, option47) := lower_option_int o in [option46; option47; 0; 0; 0; 0].
Definition lower_size_u64 (o : option Z) : list Z :=
  let '(option38, option39) := lower_option_u64 o in [option38; option39; 0; 0; 0; 0].
Definition lower_reason (o : option function_string_t) : list Z :=
  let '(option137, option138, option139) := lower_option_string o in
  [option137; option138; ptr_of option139; 0; 0; 0].

(** [variant, variant140 .. variant145]. A tag whose payload is not the union's
    active member reads the wrong member; a tag out of range leaves the
    parameters unset. *)
Definition lower_error_code (c : c_error_code) : outcome (list Z) :=
  match ec_tag c, ec_val c with
  | 1, V_dns_error p => Ok (1 :: lower_dns_error_payload p)
  | 14, V_tls_alert_received p => Ok (14 :: lower_tls_alert_received_payload p)
  | 17, V_http_request_body_size p => Ok (17 :: lower_size_u64 p)
  | 21, V_http_request_header_section_size p => Ok (21 :: lower_size_u32 p)
  | 22, V_http_request_header_size p => Ok (22 :: lower_option_field_size_payload p)
  | 23, V_http_request_trailer_section_size p => Ok (23 :: lower_size_u32 p)
  | 24, V_http_request_trailer_size p => Ok (24 :: lower_field_size_payload p)
  | 26, V_http_response_header_section_size p => Ok (26 :: lower_size_u32 p)
  | 27, V_http_response_header_size p => Ok (27 :: lower_field_size_payload p)
  | 28, V_http_response_body_size p => Ok (28 :: lower_size_u64 p)
  | 29, V_http_response_trailer_section_size p => Ok (29 :: lower_size_u32 p)
  | 30, V_http_response_trailer_size p => Ok (30 :: lower_field_size_payload p)
  | 31, V_http_response_transfer_coding p => Ok (31 :: lower_reason p)
  | 32, V_http_response_content_coding p => Ok (32 :: lower_reason p)
  | 38, V_internal_error p => Ok (38 :: lower_reason p)
  | (0 | 2 | 3 | 4 | 5 | 6 | 7 | 8 | 9 | 10 | 11 | 12 | 13 | 15 | 16 | 18 | 19 | 20
     | 25 | 33 | 34 | 35 | 36 | 37), _ => Ok [ec_tag c; 0; 0; 0; 0; 0; 0]
  | _, _ => Trap UB
  end.

(** The eight parameters of response-outparam.set. *)
Definition lower_outparam (response : result_t handle_t c_error_code) : outcome (list Z) :=
  match response with
  | RErr payload0 => variants ← lower_error_code payload0; Ok (1 :: variants)
  | ROk payload => Ok [0; __handle payload; 0; 0; 0; 0; 0; 0]
  end.

(** ** Reading the parameters back *)

Lemma uwrap_uwrap_le a b z : 0 < a <= b -> uwrap a (uwrap b z) = uwrap a z.
Proof.
  intros [Ha Hb]. unfold uwrap. apply Z.mod_mod_divide.
  exists (2 ^ (b - a)). rewrite <- Z.pow_add_r by lia. f_equal. lia.
Qed.

Lemma uwrap_swrap_le a b z : 0 < a <= b -> uwrap a (swrap b z) = uwrap a z.
Proof.
  intros Hab. rewrite <- (uwrap_uwrap_le a b (swrap b z)) by done.
  rewrite uwrap_swrap by lia. exact (uwrap_uwrap_le a b z Hab).
Qed.

(** Normalises the nested readings of an integer that is in range. *)
Ltac wrap_simpl :=
  unfold ptr_of, size_of, coerce in *;
  repeat first
    [ rewrite uwrap_uwrap_le by lia
    | rewrite uwrap_swrap_le by lia
    | rewrite uwrap_id by lia
    | rewrite swrap_id by lia ].

(** Splits a hypothesis [has_type t v] along [t]. *)
Ltac has_type_inv :=
  repeat match goal with
  | H : has_type _ _ |- _ => progress cbn in H
  | H : _ /\ _ |- _ => destruct H
  | H : False |- _ => destruct H
  | H : match ?v with _ => _ end |- _ => destruct v; try done
  | H : ?o = None |- _ => subst o
  end.

Definition reads_back (t : wty) (v : wval) (zs : list Z) : Prop := lift_flat t zs = Some v.

(** The six payload parameters of an error-code case of type [t]. *)
Definition reads_payload (t : wty) (v : wval) (zs : list Z) : Prop :=
  lift_flat t (coerce_list [CI32; CI64; CI32; CI32; CI32; CI32] (flatten t) zs) = Some v.

Ltac flat_case := cbn; wrap_simpl; cbn; wrap_simpl; cbn; try reflexivity.

Lemma lower_size_u32_reads v :
  has_type (TOption TU32) v -> reads_payload (TOption TU32) v (lower_size_u32 (as_option as_int v)).
Proof. intros H. has_type_inv; unfold reads_payload; flat_case. Qed.
Lemma lower_size_u64_reads v :
  has_type (TOption TU64) v -> reads_payload (TOption TU64) v (lower_size_u64 (as_option as_int v)).
Proof. intros H. has_type_inv; unfold reads_payload; flat_case. Qed.
Lemma lower_reason_reads v :
  has_type (TOption TString) v ->
  reads_payload (TOption TString) v (lower_reason (as_option as_string v)).
Proof. intros H. has_type_inv; unfold reads_payload; flat_case. Qed.
Lemma lower_dns_error_payload_reads v :
  has_type dns_error_payload_ty v ->
  reads_payload dns_error_payload_ty v (lower_dns_error_payload (as_dns_error_payload v)).
Proof. intros H. has_type_inv; unfold reads_payload; flat_case. Qed.
Lemma lower_tls_alert_received_payload_reads v :
  has_type tls_alert_received_payload_ty v ->
  reads_payload tls_alert_received_payload_ty v
    (lower_tls_alert_received_payload (as_tls_alert_received_payload v)).
Proof. intros H. has_type_inv; unfold reads_payload; flat_case. Qed.
Lemma lower_field_size_payload_reads v :
  has_type field_size_payload_ty v ->
  reads_payload field_size_payload_ty v (lower_field_size_payload (as_field_size_payload v)).
Proof. intros H. has_type_inv; unfold reads_payload; flat_case. Qed.
Lemma lower_option_field_size_payload_reads v :
  has_type (TOption field_size_payload_ty) v ->
  reads_payload (TOption field_size_payload_ty) v
    (lower_option_field_size_payload (as_option as_field_size_payload v)).
Proof. intros H. has_type_inv; unfold reads_payload; flat_case. Qed.
#[export] Hint Resolve lower_size_u32_reads lower_size_u64_reads lower_reason_reads
  lower_dns_error_payload_reads lower_tls_alert_received_payload_reads
  lower_field_size_payload_reads lower_option_field_size_payload_reads : guest.

(** The typing of a variant value. *)
Lemma has_type_variant cs k o :
  has_type (TVariant cs) (WCase k o) ->
  exists c, cs !! k = Some c /\
    match c with None => o = None | Some t => exists x, o = Some x /\ has_type t x end.
Proof.
  cbn [has_type].
  assert (forall cs k, (fix cases (cs' : list (option wty)) (k : nat) : Prop :=
      match cs', k with
      | [], _ => False
      | None :: _, O => o = None
      | Some t :: _, O => match o with Some x => has_type t x | None => False end
      | _ :: cs', S k => cases cs' k
      end) cs k ->
    exists c, cs !! k = Some c /\
      match c with None => o = None | Some t => exists x, o = Some x /\ has_type t x end) as Hgo.
  { clear. induction cs as [|[t|] cs IH]; intros k H; [done| |].
    - destruct k; [|by apply IH]. exists (Some t). destruct o; naive_solver.
    - destruct k; [|by apply IH]. exists None. done. }
  apply Hgo.
Qed.

(** Reading a variant's case back. *)
Lemma lift_flat_variant cs d k zs :
  uwrap 32 d = Z.of_nat k ->
  forall c, cs !! k = Some c ->
  lift_flat (TVariant cs) (d :: zs) =
    match c with
    | None => Some (WCase k None)
    | Some t =>
        v ← lift_flat t (coerce_list (flatten_cases cs) (flatten t) zs);
        Some (WCase k (Some v))
    end.
Proof.
  intros Hd c Hc. cbn [lift_flat]. rewrite Hd, Nat2Z.id.
  set (zs' := fun t => coerce_list (flatten_cases cs) (flatten t) zs).
  change (coerce_list (flatten_cases cs)) with (coerce_list (flatten_cases cs)).
  assert (forall cs' k', cs' !! k' = Some c ->
    (fix cases (cs' : list (option wty)) (k0 : nat) : option wval :=
       match cs' with
       | [] => None
       | Some t :: cs'0 =>
           match k0 with
           | O => v ← lift_flat t (zs' t); Some (WCase k (Some v))
           | S k1 => cases cs'0 k1
           end
       | None :: cs'0 => match k0 with O => Some (WCase k None) | S k1 => cases cs'0 k1 end
       end) cs' k' =
    match c with
    | None => Some (WCase k None)
    | Some t => v ← lift_flat t (zs' t); Some (WCase k (Some v))
    end) as Hgo.
  { clear. induction cs' as [|o cs' IH]; intros k' H; [done|].
    destruct k' as [|k']; simpl in H; [simplify_eq; by destruct c|].
    destruct o; by apply IH. }
  by apply Hgo.
Qed.

(** One case of a variant of payloads [reads_payload] knows. *)
Lemma reads_back_case cs k d t x zs :
  d = Z.of_nat k ->
  flatten_cases cs = [CI32; CI64; CI32; CI32; CI32; CI32] ->
  Z.of_nat k < 2 ^ 32 ->
  cs !! k = Some (Some t) ->
  reads_payload t x zs ->
  reads_back (TVariant cs) (WCase k (Some x)) (d :: zs).
Proof.
  intros -> Hf Hk Hc Hx. unfold reads_back.
  erewrite lift_flat_variant by (try eassumption; apply uwrap_id; lia).
  rewrite Hf. unfold reads_payload in Hx. by rewrite Hx.
Qed.

Lemma reads_back_empty_case cs k d zs :
  d = Z.of_nat k ->
  Z.of_nat k < 2 ^ 32 ->
  cs !! k = Some None ->
  reads_back (TVariant cs) (WCase k None) (d :: zs).
Proof.
  intros -> Hk Hc. unfold reads_back.
  by erewrite lift_flat_variant by (try eassumption; apply uwrap_id; lia).
Qed.

Lemma lower_error_code_reads v :
  has_type error_code_ty v ->
  exists zs, lower_error_code (as_error_code v) = Ok zs /\ reads_back error_code_ty v zs.
Proof.
  intros H. destruct v as [| | |k o]; [destruct H..|].
  apply has_type_variant in H as (c & Hc & Ho).
  do 39 (destruct k as [|k];
    [ cbn in Hc; injection Hc as <-;
      first
        [ subst o; eexists; split; [reflexivity|];
          apply reads_back_empty_case; [reflexivity|cbn; lia|reflexivity]
        | destruct Ho as (x & -> & Hx); eexists; split; [reflexivity|];
          eapply (reads_back_case _ _ _ _ x); [reflexivity|reflexivity|cbn; lia|reflexivity|];
          auto with guest ]
    | ]).
  discriminate Hc.
Qed.

Lemma lower_method_reads v :
  has_type method_ty v ->
  exists zs, lower_method (as_method v) = Ok zs /\ reads_back method_ty v zs.
Proof.
  intros H. destruct v as [| | |k o]; [destruct H..|].
  apply has_type_variant in H as (c & Hc & Ho).
  do 9 (destruct k as [|k];
    [ cbn in Hc; injection Hc as <-; subst o; eexists; split; [reflexivity|];
      apply reads_back_empty_case; [reflexivity|cbn; lia|reflexivity] | ]).
  destruct k as [|k]; [|discriminate Hc].
  cbn in Hc. injection Hc as <-. destruct Ho as (x & -> & Hx). has_type_inv.
  eexists. split; [reflexivity|]. unfold reads_back. flat_case.
Qed.

Lemma lower_scheme_reads v :
  has_type scheme_ty v ->
  exists zs, lower_scheme (as_scheme v) = Ok zs /\ reads_back scheme_ty v zs.
Proof.
  intros H. destruct v as [| | |k o]; [destruct H..|].
  apply has_type_variant in H as (c & Hc & Ho).
  do 2 (destruct k as [|k];
    [ cbn in Hc; injection Hc as <-; subst o; eexists; split; [reflexivity|];
      apply reads_back_empty_case; [reflexivity|cbn; lia|reflexivity] | ]).
  destruct k as [|k]; [|discriminate Hc].
  cbn in Hc. injection Hc as <-. destruct Ho as (x & -> & Hx). has_type_inv.
  eexists. split; [reflexivity|]. unfold reads_back. flat_case.
Qed.
