(* ===== verification/BindIo.v ===== *)
(** The adapters of function.c over wasi:io and wasi:clocks: lower the arguments,
    call the import with a return area on the stack, lift the result. A function
    that fills [*ret] or [*err] and returns a flag returns a [result_t] or an
    [option] here; everything it does to memory besides is its return area. *)
From S2P Require Import Prelude LinMem BindTypes CanonAbi BindLift BindLower Imports.

(** A lowering outside its domain is undefined behaviour of the caller. *)
Definition of_outcome {W A} (o : outcome A) : guest W A :=
  fun s => match o with Ok a => Ok (a, s) | Trap t => Trap t end.

(** [switch (ret) { case 0: is_err = false; case 1: is_err = true; }] and the
    flag returned: any other value leaves [is_err] unset. *)
Definition ok_of_flag {W} (ret : Z) : guest W bool :=
  match ret with 0 => mret true | 1 => mret false | _ => trap_with UB end.

Section IoAdapters.
Context {W : Type} (call : host W).

Definition wasi_io_poll_method_pollable_ready (self : handle_t) : guest W bool :=
  ret ← call I_wasi_io_poll_method_pollable_ready [__handle self];
  mret (negb (ret =? 0)).

Definition wasi_io_poll_method_pollable_block (self : handle_t) : guest W unit :=
  _ ← call I_wasi_io_poll_method_pollable_block [__handle self];
  mret tt.

Definition wasi_io_poll_poll (ins : wasi_io_poll_list_borrow_pollable_t) : guest W function_list_u32_t :=
  with_ret_area 8 (fun ptr =>
    _ ← call I_wasi_io_poll_poll [lp_ptr ins; lp_len ins; ptr];
    reading (p ← load_u32 ptr; n ← load_u32 (ptr + 4); mret (ListU32 p n))).

Definition wasi_clocks_monotonic_clock_now : guest W Z :=
  ret ← call I_wasi_clocks_monotonic_clock_now [];
  mret (uwrap 64 ret).

Definition wasi_clocks_monotonic_clock_resolution : guest W Z :=
  ret ← call I_wasi_clocks_monotonic_clock_resolution [];
  mret (uwrap 64 ret).

Definition wasi_clocks_monotonic_clock_subscribe_instant (when : Z) : guest W handle_t :=
  ret ← call I_wasi_clocks_monotonic_clock_subscribe_instant [swrap 64 when];
  mret (Handle ret).

Definition wasi_clocks_monotonic_clock_subscribe_duration (when : Z) : guest W handle_t :=
  ret ← call I_wasi_clocks_monotonic_clock_subscribe_duration [swrap 64 when];
  mret (Handle ret).

Definition wasi_io_error_method_error_to_debug_string (self : handle_t) : guest W function_string_t :=
  with_ret_area 8 (fun ptr =>
    _ ← call I_wasi_io_error_method_error_to_debug_string [__handle self; ptr];
    reading (p ← load_u32 ptr; n ← load_u32 (ptr + 4); mret (FStr p n))).

Definition wasi_io_streams_method_input_stream_read (self : handle_t) (len : Z)
    : guest W result_list_u8_stream_error :=
  with_ret_area 12 (fun ptr =>
    _ ← call I_wasi_io_streams_method_input_stream_read [__handle self; swrap 64 len; ptr];
    reading (lift_result ptr (lift_list_u8 (ptr + 4)) (lift_stream_error (ptr + 4)))).

Definition wasi_io_streams_method_input_stream_blocking_read (self : handle_t) (len : Z)
    : guest W result_list_u8_stream_error :=
  with_ret_area 12 (fun ptr =>
    _ ← call I_wasi_io_streams_method_input_stream_blocking_read [__handle self; swrap 64 len; ptr];
    reading (lift_result ptr (lift_list_u8 (ptr + 4)) (lift_stream_error (ptr + 4)))).

Definition wasi_io_streams_method_input_stream_skip (self : handle_t) (len : Z)
    : guest W result_u64_stream_error :=
  with_ret_area 16 (fun ptr =>
    _ ← call I_wasi_io_streams_method_input_stream_skip [__handle self; swrap 64 len; ptr];
    reading (lift_result ptr (z ← load_s64 (ptr + 8); mret (uwrap 64 z)) (lift_stream_error (ptr + 8)))).

Definition wasi_io_streams_method_input_stream_blocking_skip (self : handle_t) (len : Z)
    : guest W result_u64_stream_error :=
  with_ret_area 16 (fun ptr =>
    _ ← call I_wasi_io_streams_method_input_stream_blocking_skip [__handle self; swrap 64 len; ptr];
    reading (lift_result ptr (z ← load_s64 (ptr + 8); mret (uwrap 64 z)) (lift_stream_error (ptr + 8)))).

Definition wasi_io_streams_method_input_stream_subscribe (self : handle_t) : guest W handle_t :=
  ret ← call I_wasi_io_streams_method_input_stream_subscribe [__handle self];
  mret (Handle ret).

Definition wasi_io_streams_method_output_stream_check_write (self : handle_t)
    : guest W result_u64_stream_error :=
  with_ret_area 16 (fun ptr =>
    _ ← call I_wasi_io_streams_method_output_stream_check_write [__handle self; ptr];
    reading (lift_result ptr (z ← load_s64 (ptr + 8); mret (uwrap 64 z)) (lift_stream_error (ptr + 8)))).

Definition wasi_io_streams_method_output_stream_write (self : handle_t) (contents : function_list_u8_t)
    : guest W result_void_stream_error :=
  with_ret_area 12 (fun ptr =>
    _ ← call I_wasi_io_streams_method_output_stream_write [__handle self; lu8_ptr contents; lu8_len contents; ptr];
    reading (lift_result ptr (mret tt) (lift_stream_error (ptr + 4)))).

Definition wasi_io_streams_method_output_stream_blocking_write_and_flush (self : handle_t) (contents : function_list_u8_t)
    : guest W result_void_stream_error :=
  with_ret_area 12 (fun ptr =>
    _ ← call I_wasi_io_streams_method_output_stream_blocking_write_and_flush [__handle self; lu8_ptr contents; lu8_len contents; ptr];
    reading (lift_result ptr (mret tt) (lift_stream_error (ptr + 4)))).

Definition wasi_io_streams_method_output_stream_flush (self : handle_t) : guest W result_void_stream_error :=
  with_ret_area 12 (fun ptr =>
    _ ← call I_wasi_io_streams_method_output_stream_flush [__handle self; ptr];
    reading (lift_result ptr (mret tt) (lift_stream_error (ptr + 4)))).

Definition wasi_io_streams_method_output_stream_blocking_flush (self : handle_t)
    : guest W result_void_stream_error :=
  with_ret_area 12 (fun ptr =>
    _ ← call I_wasi_io_streams_method_output_stream_blocking_flush [__handle self; ptr];
    reading (lift_result ptr (mret tt) (lift_stream_error (ptr + 4)))).

Definition wasi_io_streams_method_output_stream_subscribe (self : handle_t) : guest W handle_t :=
  ret ← call I_wasi_io_streams_method_output_stream_subscribe [__handle self];
  mret (Handle ret).

Definition wasi_io_streams_method_output_stream_write_zeroes (self : handle_t) (len : Z)
    : guest W result_void_stream_error :=
  with_ret_area 12 (fun ptr =>
    _ ← call I_wasi_io_streams_method_output_stream_write_zeroes [__handle self; swrap 64 len; ptr];
    reading (lift_result ptr (mret tt) (lift_stream_error (ptr + 4)))).

Definition wasi_io_streams_method_output_stream_blocking_write_zeroes_and_flush (self : handle_t) (len : Z)
    : guest W result_void_stream_error :=
  with_ret_area 12 (fun ptr =>
    _ ← call I_wasi_io_streams_method_output_stream_blocking_write_zeroes_and_flush [__handle self; swrap 64 len; ptr];
    reading (lift_result ptr (mret tt) (lift_stream_error (ptr + 4)))).

Definition wasi_io_streams_method_output_stream_splice (self : handle_t) (src : handle_t) (len : Z)
    : guest W result_u64_stream_error :=
  with_ret_area 16 (fun ptr =>
    _ ← call I_wasi_io_streams_method_output_stream_splice [__handle self; __handle src; swrap 64 len; ptr];
    reading (lift_result ptr (z ← load_s64 (ptr + 8); mret (uwrap 64 z)) (lift_stream_error (ptr + 8)))).

Definition wasi_io_streams_method_output_stream_blocking_splice (self : handle_t) (src : handle_t) (len : Z)
    : guest W result_u64_stream_error :=
  with_ret_area 16 (fun ptr =>
    _ ← call I_wasi_io_streams_method_output_stream_blocking_splice [__handle self; __handle src; swrap 64 len; ptr];
    reading (lift_result ptr (z ← load_s64 (ptr + 8); mret (uwrap 64 z)) (lift_stream_error (ptr + 8)))).

End IoAdapters.
