(* ===== verification/BindHttp.v ===== *)
(** The adapters of function.c over wasi:http/types and
    wasi:http/outgoing-handler, and the world's log import (see BindIo.v for the
    reading of their out-parameters). *)
From S2P Require Import Prelude LinMem BindTypes CanonAbi BindLift BindLower Imports BindIo.

(** [option<own<T>>] as two core parameters. *)
Definition lower_option_handle (o : option handle_t) : Z * Z :=
  match o with Some payload0 => (1, __handle payload0) | None => (0, 0) end.

Section HttpAdapters.
Context {W : Type} (call : host W).

Definition wasi_http_types_constructor_fields : guest W handle_t :=
  ret ← call I_wasi_http_types_constructor_fields [];
  mret (Handle ret).

Definition wasi_http_types_static_fields_from_list (entries : wasi_http_types_list_tuple2_field_name_field_value_t)
    : guest W (result_t handle_t wasi_http_types_header_error_t) :=
  with_ret_area 8 (fun ptr =>
    _ ← call I_wasi_http_types_static_fields_from_list [lf_ptr entries; lf_len entries; ptr];
    reading (lift_result ptr (lift_handle (ptr + 4)) (lift_header_error (ptr + 4)))).

Definition wasi_http_types_method_fields_get (self : handle_t) (name : function_string_t)
    : guest W wasi_http_types_list_field_value_t :=
  with_ret_area 8 (fun ptr =>
    _ ← call I_wasi_http_types_method_fields_get [__handle self; str_ptr name; str_len name; ptr];
    reading (p ← load_u32 ptr; n ← load_u32 (ptr + 4); mret (ListFieldValue p n))).

Definition wasi_http_types_method_fields_has (self : handle_t) (name : function_string_t) : guest W bool :=
  ret ← call I_wasi_http_types_method_fields_has [__handle self; str_ptr name; str_len name];
  mret (negb (ret =? 0)).

Definition wasi_http_types_method_fields_set (self : handle_t) (name : function_string_t) (value : wasi_http_types_list_field_value_t)
    : guest W result_void_header_error :=
  with_ret_area 2 (fun ptr =>
    _ ← call I_wasi_http_types_method_fields_set [__handle self; str_ptr name; str_len name; lfv_ptr value; lfv_len value; ptr];
    reading (lift_result ptr (mret tt) (lift_header_error (ptr + 1)))).

Definition wasi_http_types_method_fields_delete (self : handle_t) (name : function_string_t)
    : guest W result_void_header_error :=
  with_ret_area 2 (fun ptr =>
    _ ← call I_wasi_http_types_method_fields_delete [__handle self; str_ptr name; str_len name; ptr];
    reading (lift_result ptr (mret tt) (lift_header_error (ptr + 1)))).

Definition wasi_http_types_method_fields_append (self : handle_t) (name : function_string_t) (value : wasi_http_types_field_value_t)
    : guest W result_void_header_error :=
  with_ret_area 2 (fun ptr =>
    _ ← call I_wasi_http_types_method_fields_append [__handle self; str_ptr name; str_len name; fv_ptr value; fv_len value; ptr];
    reading (lift_result ptr (mret tt) (lift_header_error (ptr + 1)))).

Definition wasi_http_types_method_fields_entries (self : handle_t)
    : guest W wasi_http_types_list_tuple2_field_name_field_value_t :=
  with_ret_area 8 (fun ptr =>
    _ ← call I_wasi_http_types_method_fields_entries [__handle self; ptr];
    reading (p ← load_u32 ptr; n ← load_u32 (ptr + 4); mret (ListFields p n))).

Definition wasi_http_types_method_fields_clone (self : handle_t) : guest W handle_t :=
  ret ← call I_wasi_http_types_method_fields_clone [__handle self];
  mret (Handle ret).

Definition wasi_http_types_method_incoming_request_method (self : handle_t) : guest W c_method :=
  with_ret_area 12 (fun ptr =>
    _ ← call I_wasi_http_types_method_incoming_request_method [__handle self; ptr];
    reading (lift_method ptr)).

Definition wasi_http_types_method_incoming_request_path_with_query (self : handle_t)
    : guest W (option function_string_t) :=
  with_ret_area 12 (fun ptr =>
    _ ← call I_wasi_http_types_method_incoming_request_path_with_query [__handle self; ptr];
    reading (lift_option_string ptr)).

Definition wasi_http_types_method_incoming_request_scheme (self : handle_t) : guest W (option c_scheme) :=
  with_ret_area 16 (fun ptr =>
    _ ← call I_wasi_http_types_method_incoming_request_scheme [__handle self; ptr];
    reading (lift_option ptr (lift_scheme (ptr + 4)))).

Definition wasi_http_types_method_incoming_request_authority (self : handle_t)
    : guest W (option function_string_t) :=
  with_ret_area 12 (fun ptr =>
    _ ← call I_wasi_http_types_method_incoming_request_authority [__handle self; ptr];
    reading (lift_option_string ptr)).

Definition wasi_http_types_method_incoming_request_headers (self : handle_t) : guest W handle_t :=
  ret ← call I_wasi_http_types_method_incoming_request_headers [__handle self];
  mret (Handle ret).

Definition wasi_http_types_method_incoming_request_consume (self : handle_t) : guest W result_own_void :=
  with_ret_area 8 (fun ptr =>
    _ ← call I_wasi_http_types_method_incoming_request_consume [__handle self; ptr];
    reading (lift_result ptr (lift_handle (ptr + 4)) (mret tt))).

Definition wasi_http_types_constructor_outgoing_request (headers : handle_t) : guest W handle_t :=
  ret ← call I_wasi_http_types_constructor_outgoing_request [__handle headers];
  mret (Handle ret).

Definition wasi_http_types_method_outgoing_request_body (self : handle_t) : guest W result_own_void :=
  with_ret_area 8 (fun ptr =>
    _ ← call I_wasi_http_types_method_outgoing_request_body [__handle self; ptr];
    reading (lift_result ptr (lift_handle (ptr + 4)) (mret tt))).

Definition wasi_http_types_method_outgoing_request_method (self : handle_t) : guest W c_method :=
  with_ret_area 12 (fun ptr =>
    _ ← call I_wasi_http_types_method_outgoing_request_method [__handle self; ptr];
    reading (lift_method ptr)).

Definition wasi_http_types_method_outgoing_request_set_method (self : handle_t) (method : c_method)
    : guest W bool :=
  variants ← of_outcome (lower_method method);
  ret ← call I_wasi_http_types_method_outgoing_request_set_method (__handle self :: variants);
  ok_of_flag ret.

Definition wasi_http_types_method_outgoing_request_path_with_query (self : handle_t)
    : guest W (option function_string_t) :=
  with_ret_area 12 (fun ptr =>
    _ ← call I_wasi_http_types_method_outgoing_request_path_with_query [__handle self; ptr];
    reading (lift_option_string ptr)).

Definition wasi_http_types_method_outgoing_request_set_path_with_query
    (self : handle_t) (maybe_path_with_query : option function_string_t) : guest W bool :=
  let '(option_, option1, option2) := lower_option_string maybe_path_with_query in
  ret ← call I_wasi_http_types_method_outgoing_request_set_path_with_query [__handle self; option_; option1; option2];
  ok_of_flag ret.

Definition wasi_http_types_method_outgoing_request_scheme (self : handle_t) : guest W (option c_scheme) :=
  with_ret_area 16 (fun ptr =>
    _ ← call I_wasi_http_types_method_outgoing_request_scheme [__handle self; ptr];
    reading (lift_option ptr (lift_scheme (ptr + 4)))).

Definition wasi_http_types_method_outgoing_request_set_scheme
    (self : handle_t) (maybe_scheme : option c_scheme) : guest W bool :=
  options ← of_outcome (match maybe_scheme with
                        | Some payload0 => variants ← lower_scheme payload0; Ok (1 :: variants)
                        | None => Ok [0; 0; 0; 0]
                        end);
  ret ← call I_wasi_http_types_method_outgoing_request_set_scheme (__handle self :: options);
  ok_of_flag ret.

Definition wasi_http_types_method_outgoing_request_authority (self : handle_t)
    : guest W (option function_string_t) :=
  with_ret_area 12 (fun ptr =>
    _ ← call I_wasi_http_types_method_outgoing_request_authority [__handle self; ptr];
    reading (lift_option_string ptr)).

Definition wasi_http_types_method_outgoing_request_set_authority
    (self : handle_t) (maybe_authority : option function_string_t) : guest W bool :=
  let '(option_, option1, option2) := lower_option_string maybe_authority in
  ret ← call I_wasi_http_types_method_outgoing_request_set_authority [__handle self; option_; option1; option2];
  ok_of_flag ret.

Definition wasi_http_types_method_outgoing_request_headers (self : handle_t) : guest W handle_t :=
  ret ← call I_wasi_http_types_method_outgoing_request_headers [__handle self];
  mret (Handle ret).

Definition wasi_http_types_constructor_request_options : guest W handle_t :=
  ret ← call I_wasi_http_types_constructor_request_options [];
  mret (Handle ret).

Definition wasi_http_types_method_request_options_connect_timeout (self : handle_t) : guest W (option Z) :=
  with_ret_area 16 (fun ptr =>
    _ ← call I_wasi_http_types_method_request_options_connect_timeout [__handle self; ptr];
    reading (lift_option_u64 ptr)).

Definition wasi_http_types_method_request_options_set_connect_timeout
    (self : handle_t) (maybe_duration : option Z) : guest W bool :=
  let '(option_, option1) := lower_option_u64 maybe_duration in
  ret ← call I_wasi_http_types_method_request_options_set_connect_timeout [__handle self; option_; option1];
  ok_of_flag ret.

Definition wasi_http_types_method_request_options_first_byte_timeout (self : handle_t) : guest W (option Z) :=
  with_ret_area 16 (fun ptr =>
    _ ← call I_wasi_http_types_method_request_options_first_byte_timeout [__handle self; ptr];
    reading (lift_option_u64 ptr)).

Definition wasi_http_types_method_request_options_set_first_byte_timeout
    (self : handle_t) (maybe_duration : option Z) : guest W bool :=
  let '(option_, option1) := lower_option_u64 maybe_duration in
  ret ← call I_wasi_http_types_method_request_options_set_first_byte_timeout [__handle self; option_; option1];
  ok_of_flag ret.

Definition wasi_http_types_method_request_options_between_bytes_timeout (self : handle_t)
    : guest W (option Z) :=
  with_ret_area 16 (fun ptr =>
    _ ← call I_wasi_http_types_method_request_options_between_bytes_timeout [__handle self; ptr];
    reading (lift_option_u64 ptr)).

Definition wasi_http_types_method_request_options_set_between_bytes_timeout
    (self : handle_t) (maybe_duration : option Z) : guest W bool :=
  let '(option_, option1) := lower_option_u64 maybe_duration in
  ret ← call I_wasi_http_types_method_request_options_set_between_bytes_timeout [__handle self; option_; option1];
  ok_of_flag ret.

Definition wasi_http_types_static_response_outparam_set
    (param : handle_t) (response : result_t handle_t c_error_code) : guest W unit :=
  results ← of_outcome (lower_outparam response);
  _ ← call I_wasi_http_types_static_response_outparam_set (__handle param :: results);
  mret tt.

Definition wasi_http_types_method_incoming_response_status (self : handle_t) : guest W Z :=
  ret ← call I_wasi_http_types_method_incoming_response_status [__handle self];
  mret (uwrap 16 ret).

Definition wasi_http_types_method_incoming_response_headers (self : handle_t) : guest W handle_t :=
  ret ← call I_wasi_http_types_method_incoming_response_headers [__handle self];
  mret (Handle ret).

Definition wasi_http_types_method_incoming_response_consume (self : handle_t) : guest W result_own_void :=
  with_ret_area 8 (fun ptr =>
    _ ← call I_wasi_http_types_method_incoming_response_consume [__handle self; ptr];
    reading (lift_result ptr (lift_handle (ptr + 4)) (mret tt))).

Definition wasi_http_types_method_incoming_body_stream (self : handle_t) : guest W result_own_void :=
  with_ret_area 8 (fun ptr =>
    _ ← call I_wasi_http_types_method_incoming_body_stream [__handle self; ptr];
    reading (lift_result ptr (lift_handle (ptr + 4)) (mret tt))).

Definition wasi_http_types_static_incoming_body_finish (this_ : handle_t) : guest W handle_t :=
  ret ← call I_wasi_http_types_static_incoming_body_finish [__handle this_];
  mret (Handle ret).

Definition wasi_http_types_method_future_trailers_subscribe (self : handle_t) : guest W handle_t :=
  ret ← call I_wasi_http_types_method_future_trailers_subscribe [__handle self];
  mret (Handle ret).

Definition wasi_http_types_method_future_trailers_get (self : handle_t)
    : guest W (option (result_t (result_t (option handle_t) c_error_code) unit)) :=
  with_ret_area 56 (fun ptr =>
    _ ← call I_wasi_http_types_method_future_trailers_get [__handle self; ptr];
    reading (lift_option ptr
      (lift_result (ptr + 8)
        (lift_result (ptr + 16)
          (lift_option (ptr + 24) (lift_handle (ptr + 28)))
          (lift_error_code (ptr + 24)))
        (mret tt)))).

Definition wasi_http_types_constructor_outgoing_response (headers : handle_t) : guest W handle_t :=
  ret ← call I_wasi_http_types_constructor_outgoing_response [__handle headers];
  mret (Handle ret).

Definition wasi_http_types_method_outgoing_response_status_code (self : handle_t) : guest W Z :=
  ret ← call I_wasi_http_types_method_outgoing_response_status_code [__handle self];
  mret (uwrap 16 ret).

Definition wasi_http_types_method_outgoing_response_set_status_code (self : handle_t) (status_code : Z)
    : guest W bool :=
  ret ← call I_wasi_http_types_method_outgoing_response_set_status_code [__handle self; status_code];
  ok_of_flag ret.

Definition wasi_http_types_method_outgoing_response_headers (self : handle_t) : guest W handle_t :=
  ret ← call I_wasi_http_types_method_outgoing_response_headers [__handle self];
  mret (Handle ret).

Definition wasi_http_types_method_outgoing_response_body (self : handle_t) : guest W result_own_void :=
  with_ret_area 8 (fun ptr =>
    _ ← call I_wasi_http_types_method_outgoing_response_body [__handle self; ptr];
    reading (lift_result ptr (lift_handle (ptr + 4)) (mret tt))).

Definition wasi_http_types_method_outgoing_body_write (self : handle_t) : guest W result_own_void :=
  with_ret_area 8 (fun ptr =>
    _ ← call I_wasi_http_types_method_outgoing_body_write [__handle self; ptr];
    reading (lift_result ptr (lift_handle (ptr + 4)) (mret tt))).

Definition wasi_http_types_static_outgoing_body_finish
    (this_ : handle_t) (maybe_trailers : option handle_t) : guest W (result_t unit c_error_code) :=
  with_ret_area 40 (fun ptr =>
    let '(option_, option1) := lower_option_handle maybe_trailers in
    _ ← call I_wasi_http_types_static_outgoing_body_finish [__handle this_; option_; option1; ptr];
    reading (lift_result ptr (mret tt) (lift_error_code (ptr + 8)))).

Definition wasi_http_types_method_future_incoming_response_subscribe (self : handle_t) : guest W handle_t :=
  ret ← call I_wasi_http_types_method_future_incoming_response_subscribe [__handle self];
  mret (Handle ret).

Definition wasi_http_types_method_future_incoming_response_get (self : handle_t)
    : guest W (option (result_t (result_t handle_t c_error_code) unit)) :=
  with_ret_area 56 (fun ptr =>
    _ ← call I_wasi_http_types_method_future_incoming_response_get [__handle self; ptr];
    reading (lift_option ptr
      (lift_result (ptr + 8)
        (lift_result (ptr + 16) (lift_handle (ptr + 24)) (lift_error_code (ptr + 24)))
        (mret tt)))).

Definition wasi_http_types_http_error_code (err_ : handle_t) : guest W (option c_error_code) :=
  with_ret_area 40 (fun ptr =>
    _ ← call I_wasi_http_types_http_error_code [__handle err_; ptr];
    reading (lift_option ptr (lift_error_code (ptr + 8)))).

Definition wasi_http_outgoing_handler_handle
    (request : handle_t) (maybe_options : option handle_t) : guest W (result_t handle_t c_error_code) :=
  with_ret_area 40 (fun ptr =>
    let '(option_, option1) := lower_option_handle maybe_options in
    _ ← call I_wasi_http_outgoing_handler_handle [__handle request; option_; option1; ptr];
    reading (lift_result ptr (lift_handle (ptr + 8)) (lift_error_code (ptr + 8)))).

Definition function_log (level : Z) (msg : function_string_t) (kv : function_list_tuple2_string_string_t)
    : guest W unit :=
  _ ← call I_function_log [level; str_ptr msg; str_len msg; kvs_ptr kv; kvs_len kv];
  mret tt.

End HttpAdapters.
