(* ===== verification/BindSpec.v ===== *)
(** What the adapters of BindIo and BindHttp promise: an adapter with a return
    area makes its import's call once, with a return area of exactly the size of
    the import's result type, and returns the C value of whatever WIT value the
    host stored there by the Canonical ABI; an adapter that flattens an argument
    passes core parameters the Canonical ABI reads back as that argument. *)
From S2P Require Import Prelude LinMem BindTypes CanonAbi BindLift BindLower Imports BindIo BindHttp.

(** ** The contract of an adapter with a return area *)

(** [adapter] calls [i] with [args] and a fresh area, and if the host leaves in
    it a value [v] of type [t], returns [f v]; memory and world are as the call
    left them, less the area. *)
Definition returns_canon {W A} (call : host W) (i : import) (args : list Z) (t : wty)
    (f : wval -> A) (adapter : guest W A) : Prop :=
  forall m w r m2 w2 v,
    let p := brk m in
    call i (args ++ [p]) (snd (area_alloc m (size t)), w) = Ok (r, (m2, w2)) ->
    canon_load t p m2 = Ok v ->
    adapter (m, w) = Ok (f v, (area_release m2 p (size t), w2)).

Lemma ret_area_canon {W A} (call : host W) i args t (f : wval -> A) r n :
  n = size t ->
  lifts t f r ->
  returns_canon call i args t f
    (with_ret_area n (fun ptr => _ ← call i (args ++ [ptr]); reading (r ptr))).
Proof.
  intros -> Hr m w q m2 w2 v p Hcall Hv. unfold with_ret_area.
  change (area_alloc m (size t)) with (p, snd (area_alloc m (size t))). cbn beta iota.
  unfold mbind at 2, guest_bind. rewrite Hcall. unfold reading.
  erewrite Hr by exact Hv. done.
Qed.

Lemma lifts_ext {A} t (f : wval -> A) r r' :
  (forall p, r p = r' p) -> lifts t f r -> lifts t f r'.
Proof. intros E H p m v Hv. rewrite <- E. by apply H. Qed.

(** The two shapes of a result's arm. *)
Lemma arm_some {A} t (f : wval -> A) r :
  lifts t f r ->
  forall p m o, (exists x, canon_load t p m = Ok x /\ o = Some x) -> r p m = Ok (payload f o).
Proof. intros H p m o (x & Hx & ->). by apply H. Qed.
Lemma arm_none {A} (a : A) :
  forall (p : Z) m (o : option wval), o = None -> (mret a : reader A) m = Ok ((fun _ => a) o).
Proof. done. Qed.

Definition unit_of (o : option wval) : unit := tt.

Lemma lift_result_some_some {A E} t1 t2 (f : wval -> A) (g : wval -> E) r s off :
  payload_offset [Some t1; Some t2] = off ->
  lifts t1 f r -> lifts t2 g s ->
  lifts (TResult (Some t1) (Some t2)) (as_result (payload f) (payload g))
    (fun p => lift_result p (r (p + off)) (s (p + off))).
Proof.
  intros. apply (lift_result_canon (Some t1) (Some t2)); [done|..]; by apply arm_some.
Qed.
Lemma lift_result_none_some {E} t2 (g : wval -> E) s off :
  payload_offset [None; Some t2] = off ->
  lifts t2 g s ->
  lifts (TResult None (Some t2)) (as_result unit_of (payload g))
    (fun p => lift_result p (mret tt) (s (p + off))).
Proof.
  intros. apply (lift_result_canon None (Some t2) unit_of (payload g) (fun _ => mret tt) s off);
    [done|done|]. by apply arm_some.
Qed.
Lemma lift_result_some_none {A} t1 (f : wval -> A) r off :
  payload_offset [Some t1; None] = off ->
  lifts t1 f r ->
  lifts (TResult (Some t1) None) (as_result (payload f) unit_of)
    (fun p => lift_result p (r (p + off)) (mret tt)).
Proof.
  intros. apply (lift_result_canon (Some t1) None (payload f) unit_of r (fun _ => mret tt) off);
    [done| |done]. by apply arm_some.
Qed.
#[export] Hint Resolve lift_result_some_some lift_result_none_some lift_result_some_none : guest.

(** ** The result types of the imports *)

Definition list_u8_result_ty : wty := TResult (Some (TList TU8)) (Some stream_error_ty).
Definition u64_result_ty : wty := TResult (Some TU64) (Some stream_error_ty).
Definition void_result_ty : wty := TResult None (Some stream_error_ty).
Definition header_result_ty : wty := TResult None (Some header_error_ty).
Definition own_header_result_ty : wty := TResult (Some THandle) (Some header_error_ty).
Definition own_result_ty : wty := TResult (Some THandle) None.
Definition finish_result_ty : wty := TResult None (Some error_code_ty).
Definition handle_result_ty : wty := TResult (Some THandle) (Some error_code_ty).
Definition future_response_ty : wty := TOption (TResult (Some handle_result_ty) None).
Definition trailers_result_ty : wty := TResult (Some (TOption THandle)) (Some error_code_ty).
Definition future_trailers_ty : wty := TOption (TResult (Some trailers_result_ty) None).

Definition as_list_u8_result := as_result (payload as_list_u8) (payload as_stream_error).
Definition as_u64_result := as_result (payload as_int) (payload as_stream_error).
Definition as_void_result := as_result unit_of (payload as_stream_error).
Definition as_header_result := as_result unit_of (payload as_header_error).
Definition as_own_header_result := as_result (payload as_handle) (payload as_header_error).
Definition as_own_result := as_result (payload as_handle) unit_of.
Definition as_finish_result := as_result unit_of (payload as_error_code).
Definition as_handle_result := as_result (payload as_handle) (payload as_error_code).
Definition as_future_response := as_option (as_result (payload as_handle_result) unit_of).
Definition as_trailers_result := as_result (payload (as_option as_handle)) (payload as_error_code).
Definition as_future_trailers := as_option (as_result (payload as_trailers_result) unit_of).

Definition lift_list_u8_result (p : Z) : reader result_list_u8_stream_error :=
  lift_result p (lift_list_u8 (p + 4)) (lift_stream_error (p + 4)).
Definition lift_u64_result (p : Z) : reader result_u64_stream_error :=
  lift_result p (z ← load_s64 (p + 8); mret (uwrap 64 z)) (lift_stream_error (p + 8)).

Lemma lift_list_u8_result_canon : lifts list_u8_result_ty as_list_u8_result lift_list_u8_result.
Proof. apply (lift_result_some_some _ _ _ _ lift_list_u8 lift_stream_error); auto with guest. Qed.
Lemma lift_u64_result_canon : lifts u64_result_ty as_u64_result lift_u64_result.
Proof.
  apply (lift_result_some_some _ _ _ _ (fun q => z ← load_s64 q; mret (uwrap 64 z)) lift_stream_error);
    auto with guest.
Qed.
Lemma lift_void_result_canon :
  lifts void_result_ty as_void_result (fun p => lift_result p (mret tt) (lift_stream_error (p + 4))).
Proof. apply lift_result_none_some; auto with guest. Qed.
Lemma lift_header_result_canon :
  lifts header_result_ty as_header_result (fun p => lift_result p (mret tt) (lift_header_error (p + 1))).
Proof. apply lift_result_none_some; auto with guest. Qed.
Lemma lift_own_header_result_canon :
  lifts own_header_result_ty as_own_header_result
    (fun p => lift_result p (lift_handle (p + 4)) (lift_header_error (p + 4))).
Proof. apply lift_result_some_some; auto with guest. Qed.
Lemma lift_own_result_canon :
  lifts own_result_ty as_own_result (fun p => lift_result p (lift_handle (p + 4)) (mret tt)).
Proof. apply lift_result_some_none; auto with guest. Qed.
Lemma lift_finish_result_canon :
  lifts finish_result_ty as_finish_result (fun p => lift_result p (mret tt) (lift_error_code (p + 8))).
Proof. apply lift_result_none_some; auto with guest. Qed.
Lemma lift_handle_result_canon :
  lifts handle_result_ty as_handle_result
    (fun p => lift_result p (lift_handle (p + 8)) (lift_error_code (p + 8))).
Proof. apply lift_result_some_some; auto with guest. Qed.
Lemma lift_option_error_code_canon :
  lifts (TOption error_code_ty) (as_option as_error_code)
    (fun p => lift_option p (lift_error_code (p + 8))).
Proof. apply lift_option_canon; auto with guest. Qed.
Lemma lift_option_scheme_canon :
  lifts (TOption scheme_ty) (as_option as_scheme) (fun p => lift_option p (lift_scheme (p + 4))).
Proof. apply lift_option_canon; auto with guest. Qed.

Lemma lift_future_response_canon :
  lifts future_response_ty as_future_response
    (fun p => lift_option p
      (lift_result (p + 8)
        (lift_result (p + 16) (lift_handle (p + 24)) (lift_error_code (p + 24))) (mret tt))).
Proof.
  eapply lifts_ext; cycle 1.
  - apply (lift_option_canon _ _
      (fun p => lift_result p (lift_result (p + 8) (lift_handle (p + 8 + 8)) (lift_error_code (p + 8 + 8)))
                  (mret tt)) 8); [done|].
    apply (lift_result_some_none _ _
      (fun p => lift_result p (lift_handle (p + 8)) (lift_error_code (p + 8))) 8); [done|].
    exact lift_handle_result_canon.
  - intros p. cbv beta. by rewrite <- !Z.add_assoc.
Qed.

Lemma lift_future_trailers_canon :
  lifts future_trailers_ty as_future_trailers
    (fun p => lift_option p
      (lift_result (p + 8)
        (lift_result (p + 16)
          (lift_option (p + 24) (lift_handle (p + 28))) (lift_error_code (p + 24))) (mret tt))).
Proof.
  eapply lifts_ext; cycle 1.
  - apply (lift_option_canon _ _
      (fun p => lift_result p
         (lift_result (p + 8) (lift_option (p + 8 + 8) (lift_handle (p + 8 + 8 + 4)))
            (lift_error_code (p + 8 + 8))) (mret tt)) 8); [done|].
    apply (lift_result_some_none _ _
      (fun p => lift_result p (lift_option (p + 8) (lift_handle (p + 8 + 4)))
                  (lift_error_code (p + 8))) 8); [done|].
    apply (lift_result_some_some _ _ _ _ (fun p => lift_option p (lift_handle (p + 4))));
      [done| |exact lift_error_code_canon].
    apply (lift_option_canon _ _ lift_handle 4); auto with guest.
  - intros p. cbv beta. by rewrite <- !Z.add_assoc.
Qed.

(** Lists: the pointer and the length, whatever the C struct. *)
Definition as_fields (v : wval) : wasi_http_types_list_tuple2_field_name_field_value_t :=
  match v with WPtrLen p n => ListFields p n | _ => ListFields 0 0 end.
Definition fields_ty : wty := TList (TRecord [TString; TList TU8]).
Definition as_values (v : wval) : wasi_http_types_list_field_value_t :=
  match v with WPtrLen p n => ListFieldValue p n | _ => ListFieldValue 0 0 end.
Definition as_list_u32 (v : wval) : function_list_u32_t :=
  match v with WPtrLen p n => ListU32 p n | _ => ListU32 0 0 end.

Lemma lift_list_canon {A} u (f : wval -> A) mk :
  (forall p n, f (WPtrLen p n) = mk p n) ->
  lifts (TList u) f (fun ptr => p ← load_u32 ptr; n ← load_u32 (ptr + 4); mret (mk p n)).
Proof.
  intros Hf p m v H. cbn [canon_load] in H. reader_inv.
  (do 2 erewrite reader_bind_run by eassumption); by rewrite Hf.
Qed.

(** ** Flattened arguments *)

Lemma coerce_list_same cs zs : length zs = length cs -> coerce_list cs cs zs = zs.
Proof.
  revert zs. induction cs as [|c cs IH]; intros [|z zs] H; simplify_eq/=; [done|].
  f_equal; [by destruct c|]. by apply IH.
Qed.

(** An option or a result whose cases flatten to no more than this one. *)
Lemma reads_back_wrap cs k d t v zs :
  d = Z.of_nat k -> Z.of_nat k < 2 ^ 32 ->
  cs !! k = Some (Some t) ->
  flatten_cases cs = flatten t ->
  length zs = length (flatten t) ->
  reads_back t v zs ->
  reads_back (TVariant cs) (WCase k (Some v)) (d :: zs).
Proof.
  intros -> Hk Hc Hf Hl Hv. unfold reads_back in *.
  erewrite lift_flat_variant by (try eassumption; apply uwrap_id; lia).
  rewrite Hf, coerce_list_same by done. by rewrite Hv.
Qed.

Lemma lower_error_code_length c zs : lower_error_code c = Ok zs -> length zs = 7%nat.
Proof.
  unfold lower_error_code. intros H.
  assert (forall o, length (lower_size_u32 o) = 6%nat) as H1 by (intros []; done).
  assert (forall o, length (lower_size_u64 o) = 6%nat) as H2 by (intros []; done).
  assert (forall o, length (lower_reason o) = 6%nat) as H3 by (intros []; done).
  assert (forall p, length (lower_dns_error_payload p) = 6%nat) as H4 by (intros [[] []]; done).
  assert (forall p, length (lower_tls_alert_received_payload p) = 6%nat) as H5 by (intros [[] []]; done).
  assert (forall p, length (lower_field_size_payload p) = 6%nat) as H6 by (intros [[] []]; done).
  assert (forall o, length (lower_option_field_size_payload o) = 6%nat) as H7
    by (intros [[[] []]|]; done).
  repeat case_match; simplify_eq; simpl; auto.
Qed.

Lemma lower_scheme_length s zs : lower_scheme s = Ok zs -> length zs = 3%nat.
Proof. unfold lower_scheme. intros. repeat case_match; try by simplify_eq. by outcome_inv. Qed.

Lemma lower_outparam_reads v :
  has_type (TResult (Some THandle) (Some error_code_ty)) v ->
  exists zs, lower_outparam (as_handle_result v) = Ok zs /\
    reads_back (TResult (Some THandle) (Some error_code_ty)) v zs.
Proof.
  intros H. destruct v as [| | |k o]; [destruct H..|].
  apply has_type_variant in H as (c & Hc & Ho).
  destruct k as [|[|k]]; simplify_eq/=; destruct Ho as (x & -> & Hx).
  - has_type_inv. eexists. split; [reflexivity|]. unfold reads_back. flat_case.
  - apply lower_error_code_reads in Hx as (zs & Hzs & Hr).
    unfold lower_outparam. cbn beta iota.
    cbn [as_handle_result as_result].
    change (payload as_error_code (Some x)) with (as_error_code x). rewrite Hzs. eexists. split; [reflexivity|].
    eapply reads_back_wrap; [reflexivity|cbn; lia|reflexivity|reflexivity| |done].
    by apply lower_error_code_length in Hzs.
Qed.

Lemma lower_option_scheme_reads v :
  has_type scheme_ty v ->
  exists zs, lower_scheme (as_scheme v) = Ok zs /\
    reads_back (TOption scheme_ty) (WCase 1 (Some v)) (1 :: zs).
Proof.
  intros H. apply lower_scheme_reads in H as (zs & Hzs & Hr). exists zs. split; [done|].
  eapply reads_back_wrap; [reflexivity|cbn; lia|reflexivity|reflexivity| |done].
  by apply lower_scheme_length in Hzs.
Qed.

Definition string_arg (o : option function_string_t) : list Z :=
  let '(a, b, c) := lower_option_string o in [a; b; c].
Lemma lower_option_string_reads v :
  has_type (TOption TString) v ->
  reads_back (TOption TString) v (string_arg (as_option as_string v)).
Proof. intros H. has_type_inv; unfold reads_back; flat_case. Qed.

Definition u64_arg (o : option Z) : list Z := let '(a, b) := lower_option_u64 o in [a; b].
Lemma lower_option_u64_reads v :
  has_type (TOption TU64) v -> reads_back (TOption TU64) v (u64_arg (as_option as_int v)).
Proof. intros H. has_type_inv; unfold reads_back; flat_case. Qed.

(** [adapter] makes exactly one call, of [i], whose parameters after [self] the
    host reads back as [v]. *)
Definition passes {W A} (call : host W) (i : import) (self : handle_t) (t : wty) (v : wval)
    (k : Z -> guest W A) (adapter : guest W A) : Prop :=
  exists zs, reads_back t v zs /\
    forall s, adapter s = (ret ← call i (__handle self :: zs); k ret) s.

(** ** The properties *)

(** C16. The five imports whose result carries an [error-code] - trailers.get,
    outgoing-body.finish, future-incoming-response.get, http-error-code and
    outgoing-handler.handle - are each called with a return area of exactly the
    size of their WIT result type, and the adapter returns the C value of
    whatever value of that type the host stored there: every one of the 39 cases
    and their payloads is read at the offset, width and signedness the Canonical
    ABI gives it. *)
Theorem error_code_adapters_canonical {W} (call : host W) (h : handle_t) (o : option handle_t) :
  returns_canon call I_wasi_http_types_method_future_trailers_get [__handle h]
    future_trailers_ty as_future_trailers
    (wasi_http_types_method_future_trailers_get call h) /\
  returns_canon call I_wasi_http_types_static_outgoing_body_finish
    [__handle h; fst (lower_option_handle o); snd (lower_option_handle o)]
    finish_result_ty as_finish_result
    (wasi_http_types_static_outgoing_body_finish call h o) /\
  returns_canon call I_wasi_http_types_method_future_incoming_response_get [__handle h]
    future_response_ty as_future_response
    (wasi_http_types_method_future_incoming_response_get call h) /\
  returns_canon call I_wasi_http_types_http_error_code [__handle h]
    (TOption error_code_ty) (as_option as_error_code)
    (wasi_http_types_http_error_code call h) /\
  returns_canon call I_wasi_http_outgoing_handler_handle
    [__handle h; fst (lower_option_handle o); snd (lower_option_handle o)]
    handle_result_ty as_handle_result
    (wasi_http_outgoing_handler_handle call h o).
Proof.
  split_and!.
  - exact (ret_area_canon call _ [_] future_trailers_ty _ _ 56 eq_refl lift_future_trailers_canon).
  - destruct o; exact (ret_area_canon call _ [_; _; _] finish_result_ty _ _ 40 eq_refl lift_finish_result_canon).
  - exact (ret_area_canon call _ [_] future_response_ty _ _ 56 eq_refl lift_future_response_canon).
  - exact (ret_area_canon call _ [_] (TOption error_code_ty) _ _ 40 eq_refl lift_option_error_code_canon).
  - destruct o; exact (ret_area_canon call _ [_; _; _] handle_result_ty _ _ 40 eq_refl lift_handle_result_canon).
Qed.

(** C17. The thirteen input-stream and output-stream adapters return what the host
    stored, by the Canonical ABI, for their three result types: [list<u8>],
    [u64] and nothing, or a [stream-error]. *)
Theorem stream_adapters_canonical {W} (call : host W) (h src : handle_t) (n : Z)
    (l : function_list_u8_t) :
  let read i f := returns_canon call i [__handle h; swrap 64 n] list_u8_result_ty as_list_u8_result f in
  let count i args f := returns_canon call i (__handle h :: args) u64_result_ty as_u64_result f in
  let ack i args f := returns_canon call i (__handle h :: args) void_result_ty as_void_result f in
  read I_wasi_io_streams_method_input_stream_read
    (wasi_io_streams_method_input_stream_read call h n) /\
  read I_wasi_io_streams_method_input_stream_blocking_read
    (wasi_io_streams_method_input_stream_blocking_read call h n) /\
  count I_wasi_io_streams_method_input_stream_skip [swrap 64 n]
    (wasi_io_streams_method_input_stream_skip call h n) /\
  count I_wasi_io_streams_method_input_stream_blocking_skip [swrap 64 n]
    (wasi_io_streams_method_input_stream_blocking_skip call h n) /\
  count I_wasi_io_streams_method_output_stream_check_write []
    (wasi_io_streams_method_output_stream_check_write call h) /\
  count I_wasi_io_streams_method_output_stream_splice [__handle src; swrap 64 n]
    (wasi_io_streams_method_output_stream_splice call h src n) /\
  count I_wasi_io_streams_method_output_stream_blocking_splice [__handle src; swrap 64 n]
    (wasi_io_streams_method_output_stream_blocking_splice call h src n) /\
  ack I_wasi_io_streams_method_output_stream_write [lu8_ptr l; lu8_len l]
    (wasi_io_streams_method_output_stream_write call h l) /\
  ack I_wasi_io_streams_method_output_stream_blocking_write_and_flush [lu8_ptr l; lu8_len l]
    (wasi_io_streams_method_output_stream_blocking_write_and_flush call h l) /\
  ack I_wasi_io_streams_method_output_stream_flush []
    (wasi_io_streams_method_output_stream_flush call h) /\
  ack I_wasi_io_streams_method_output_stream_blocking_flush []
    (wasi_io_streams_method_output_stream_blocking_flush call h) /\
  ack I_wasi_io_streams_method_output_stream_write_zeroes [swrap 64 n]
    (wasi_io_streams_method_output_stream_write_zeroes call h n) /\
  ack I_wasi_io_streams_method_output_stream_blocking_write_zeroes_and_flush [swrap 64 n]
    (wasi_io_streams_method_output_stream_blocking_write_zeroes_and_flush call h n).
Proof.
  intros read count ack.
  pose proof (fun i args => ret_area_canon call i args list_u8_result_ty _ _ 12 eq_refl lift_list_u8_result_canon) as Hr.
  pose proof (fun i args => ret_area_canon call i args u64_result_ty _ _ 16 eq_refl lift_u64_result_canon) as Hc.
  pose proof (fun i args => ret_area_canon call i args void_result_ty _ _ 12 eq_refl lift_void_result_canon) as Ha.
  split_and!.
  - exact (Hr _ [_; _]).
  - exact (Hr _ [_; _]).
  - exact (Hc _ [_; _]).
  - exact (Hc _ [_; _]).
  - exact (Hc _ [_]).
  - exact (Hc _ [_; _; _]).
  - exact (Hc _ [_; _; _]).
  - exact (Ha _ [_; _; _]).
  - exact (Ha _ [_; _; _]).
  - exact (Ha _ [_]).
  - exact (Ha _ [_]).
  - exact (Ha _ [_; _]).
  - exact (Ha _ [_; _]).
Qed.

(** C18. The wasi:http adapters with a return area: fields, the request and
    response accessors, the body and stream constructors and the request options,
    and, of wasi:io, poll and to-debug-string, return what the host stored, by the
    Canonical ABI, in a return area of exactly the result's size. *)
Theorem http_adapters_canonical {W} (call : host W) (h : handle_t) (name : function_string_t)
    (value : wasi_http_types_field_value_t) (values : wasi_http_types_list_field_value_t)
    (entries : wasi_http_types_list_tuple2_field_name_field_value_t) (pollables : wasi_io_poll_list_borrow_pollable_t) :
  let args := [__handle h] in
  let setter i args f := returns_canon call i args header_result_ty as_header_result f in
  let owner i f := returns_canon call i args own_result_ty as_own_result f in
  let text i f := returns_canon call i args (TOption TString) (as_option as_string) f in
  let timeout i f := returns_canon call i args (TOption TU64) (as_option as_int) f in
  setter I_wasi_http_types_method_fields_set
    [__handle h; str_ptr name; str_len name; lfv_ptr values; lfv_len values]
    (wasi_http_types_method_fields_set call h name values) /\
  setter I_wasi_http_types_method_fields_delete [__handle h; str_ptr name; str_len name]
    (wasi_http_types_method_fields_delete call h name) /\
  setter I_wasi_http_types_method_fields_append
    [__handle h; str_ptr name; str_len name; fv_ptr value; fv_len value]
    (wasi_http_types_method_fields_append call h name value) /\
  returns_canon call I_wasi_http_types_static_fields_from_list [lf_ptr entries; lf_len entries]
    own_header_result_ty as_own_header_result
    (wasi_http_types_static_fields_from_list call entries) /\
  owner I_wasi_http_types_method_incoming_request_consume
    (wasi_http_types_method_incoming_request_consume call h) /\
  owner I_wasi_http_types_method_outgoing_request_body
    (wasi_http_types_method_outgoing_request_body call h) /\
  owner I_wasi_http_types_method_incoming_response_consume
    (wasi_http_types_method_incoming_response_consume call h) /\
  owner I_wasi_http_types_method_incoming_body_stream
    (wasi_http_types_method_incoming_body_stream call h) /\
  owner I_wasi_http_types_method_outgoing_response_body
    (wasi_http_types_method_outgoing_response_body call h) /\
  owner I_wasi_http_types_method_outgoing_body_write
    (wasi_http_types_method_outgoing_body_write call h) /\
  text I_wasi_http_types_method_incoming_request_path_with_query
    (wasi_http_types_method_incoming_request_path_with_query call h) /\
  text I_wasi_http_types_method_incoming_request_authority
    (wasi_http_types_method_incoming_request_authority call h) /\
  text I_wasi_http_types_method_outgoing_request_path_with_query
    (wasi_http_types_method_outgoing_request_path_with_query call h) /\
  text I_wasi_http_types_method_outgoing_request_authority
    (wasi_http_types_method_outgoing_request_authority call h) /\
  timeout I_wasi_http_types_method_request_options_connect_timeout
    (wasi_http_types_method_request_options_connect_timeout call h) /\
  timeout I_wasi_http_types_method_request_options_first_byte_timeout
    (wasi_http_types_method_request_options_first_byte_timeout call h) /\
  timeout I_wasi_http_types_method_request_options_between_bytes_timeout
    (wasi_http_types_method_request_options_between_bytes_timeout call h) /\
  returns_canon call I_wasi_http_types_method_incoming_request_method args method_ty as_method
    (wasi_http_types_method_incoming_request_method call h) /\
  returns_canon call I_wasi_http_types_method_outgoing_request_method args method_ty as_method
    (wasi_http_types_method_outgoing_request_method call h) /\
  returns_canon call I_wasi_http_types_method_incoming_request_scheme args
    (TOption scheme_ty) (as_option as_scheme)
    (wasi_http_types_method_incoming_request_scheme call h) /\
  returns_canon call I_wasi_http_types_method_outgoing_request_scheme args
    (TOption scheme_ty) (as_option as_scheme)
    (wasi_http_types_method_outgoing_request_scheme call h) /\
  returns_canon call I_wasi_http_types_method_fields_get [__handle h; str_ptr name; str_len name]
    (TList (TList TU8)) as_values (wasi_http_types_method_fields_get call h name) /\
  returns_canon call I_wasi_http_types_method_fields_entries args fields_ty as_fields
    (wasi_http_types_method_fields_entries call h) /\
  returns_canon call I_wasi_io_error_method_error_to_debug_string args TString as_string
    (wasi_io_error_method_error_to_debug_string call h) /\
  returns_canon call I_wasi_io_poll_poll [lp_ptr pollables; lp_len pollables] (TList TU32) as_list_u32
    (wasi_io_poll_poll call pollables).
Proof.
  intros args setter owner text timeout.
  pose proof (fun i args => ret_area_canon call i args header_result_ty _ _ 2 eq_refl lift_header_result_canon) as Hh.
  pose proof (fun i => ret_area_canon call i args own_result_ty _ _ 8 eq_refl lift_own_result_canon) as Ho.
  pose proof (fun i => ret_area_canon call i args (TOption TString) _ _ 12 eq_refl lift_option_string_canon) as Ht.
  pose proof (fun i => ret_area_canon call i args (TOption TU64) _ _ 16 eq_refl lift_option_u64_canon) as Hu.
  pose proof (fun i => ret_area_canon call i args method_ty _ _ 12 eq_refl lift_method_canon) as Hm.
  pose proof (fun i => ret_area_canon call i args (TOption scheme_ty) _ _ 16 eq_refl lift_option_scheme_canon) as Hs.
  split_and!; [exact (Hh _ [_; _; _; _; _]) | exact (Hh _ [_; _; _]) | exact (Hh _ [_; _; _; _; _])
    | exact (ret_area_canon call _ [_; _] own_header_result_ty _ _ 8 eq_refl lift_own_header_result_canon)
    | ..];
  try first [exact (Ho _) | exact (Ht _) | exact (Hu _) | exact (Hm _) | exact (Hs _)].
  - exact (ret_area_canon call _ [_; _; _] (TList (TList TU8)) _ _ 8 eq_refl
      (lift_list_canon _ as_values ListFieldValue ltac:(done))).
  - exact (ret_area_canon call _ [_] fields_ty _ _ 8 eq_refl
      (lift_list_canon (TRecord [TString; TList TU8]) as_fields ListFields ltac:(done))).
  - exact (ret_area_canon call _ [_] TString _ _ 8 eq_refl lift_string_canon).
  - exact (ret_area_canon call _ [_; _] (TList TU32) _ _ 8 eq_refl
      (lift_list_canon _ as_list_u32 ListU32 ltac:(done))).
Qed.

(** C19. The adapters that flatten an argument - set-method, set-scheme (of a scheme
    or of none), set-authority, set-path-with-query, the timeouts and
    response-outparam.set with its eight joined parameters - make one call whose
    core parameters the Canonical ABI's flat lifting reads back as the argument, for
    every value of its WIT type (a [u32] of 2^31 or more, which the C code passes through a
    sign-extended i64, included); and so does the [option<own>] that
    outgoing-body.finish and outgoing-handler.handle flatten before their return
    area ([error_code_adapters_canonical]). *)
Theorem lowering_adapters_read_back {W} (call : host W) (h : handle_t) (v : wval) :
  (has_type method_ty v ->
    passes call I_wasi_http_types_method_outgoing_request_set_method h method_ty v ok_of_flag
      (wasi_http_types_method_outgoing_request_set_method call h (as_method v))) /\
  (has_type scheme_ty v ->
    passes call I_wasi_http_types_method_outgoing_request_set_scheme h
      (TOption scheme_ty) (WCase 1 (Some v)) ok_of_flag
      (wasi_http_types_method_outgoing_request_set_scheme call h (Some (as_scheme v)))) /\
  (has_type (TOption TString) v ->
    passes call I_wasi_http_types_method_outgoing_request_set_authority h (TOption TString) v ok_of_flag
      (wasi_http_types_method_outgoing_request_set_authority call h (as_option as_string v)) /\
    passes call I_wasi_http_types_method_outgoing_request_set_path_with_query h
      (TOption TString) v ok_of_flag
      (wasi_http_types_method_outgoing_request_set_path_with_query call h (as_option as_string v))) /\
  (has_type (TOption TU64) v ->
    passes call I_wasi_http_types_method_request_options_set_connect_timeout h (TOption TU64) v ok_of_flag
      (wasi_http_types_method_request_options_set_connect_timeout call h (as_option as_int v)) /\
    passes call I_wasi_http_types_method_request_options_set_first_byte_timeout h (TOption TU64) v ok_of_flag
      (wasi_http_types_method_request_options_set_first_byte_timeout call h (as_option as_int v)) /\
    passes call I_wasi_http_types_method_request_options_set_between_bytes_timeout h (TOption TU64) v ok_of_flag
      (wasi_http_types_method_request_options_set_between_bytes_timeout call h (as_option as_int v))) /\
  (has_type (TResult (Some THandle) (Some error_code_ty)) v ->
    passes call I_wasi_http_types_static_response_outparam_set h
      (TResult (Some THandle) (Some error_code_ty)) v (fun _ => mret tt)
      (wasi_http_types_static_response_outparam_set call h (as_handle_result v))) /\
  passes call I_wasi_http_types_method_outgoing_request_set_scheme h
    (TOption scheme_ty) (WCase 0 None) ok_of_flag
    (wasi_http_types_method_outgoing_request_set_scheme call h None) /\
  (has_type (TOption THandle) v ->
    let o := lower_option_handle (as_option as_handle v) in reads_back (TOption THandle) v [fst o; snd o]).
Proof.
  split_and!; [intros H..|exists [0; 0; 0; 0]; split; [reflexivity|done]|intros H; has_type_inv; unfold reads_back; flat_case].
  - apply lower_method_reads in H as (zs & Hzs & Hr). exists zs. split; [done|]. intros s.
    unfold wasi_http_types_method_outgoing_request_set_method. by rewrite Hzs.
  - apply lower_option_scheme_reads in H as (zs & Hzs & Hr). eexists. split; [exact Hr|]. intros s.
    unfold wasi_http_types_method_outgoing_request_set_scheme. by rewrite Hzs.
  - apply lower_option_string_reads in H.
    split; (eexists; split; [exact H|]); intros s; by destruct (as_option as_string v).
  - apply lower_option_u64_reads in H.
    split_and!; (eexists; split; [exact H|]); intros s; by destruct (as_option as_int v).
  - apply lower_outparam_reads in H as (zs & Hzs & Hr). exists zs. split; [done|]. intros s.
    unfold wasi_http_types_static_response_outparam_set. by rewrite Hzs.
Qed.

Lemma lowering_adapters_read_back_witness :
  let call : host unit := fun _ _ s => Ok (0, s) in
  passes call I_wasi_http_types_static_response_outparam_set (Handle 7)
    (TResult (Some THandle) (Some error_code_ty))
    (WCase 1 (Some (WCase 21 (Some (WCase 1 (Some (WInt 3000000000)))))))
    (fun _ => mret tt)
    (wasi_http_types_static_response_outparam_set call (Handle 7)
      (RErr (ErrorCode 21 (V_http_request_header_section_size (Some 3000000000))))).
Proof.
  intros call. apply (lowering_adapters_read_back call (Handle 7)
    (WCase 1 (Some (WCase 21 (Some (WCase 1 (Some (WInt 3000000000)))))))).
  cbn. lia.
Defined.
