(* ===== verification/BindDrop.v ===== *)
(** The helpers of function.c for the handles of the world's resources: a
    [drop_own], a [drop_borrow] and an own-to-borrow conversion each. *)
From S2P Require Import Prelude LinMem BindTypes Imports.

Section Drop.
Context {W : Type} (call : host W).

Definition wasi_io_poll_pollable_drop_own (handle : handle_t) : guest W unit :=
  _ ← call I_wasi_io_poll_pollable_drop [__handle handle]; mret tt.
Definition wasi_io_poll_pollable_drop_borrow (handle : handle_t) : guest W unit :=
  _ ← call I_wasi_io_poll_pollable_drop [__handle handle]; mret tt.
Definition wasi_io_poll_borrow_pollable (arg : handle_t) : handle_t := Handle (__handle arg).

Definition wasi_io_error_error_drop_own (handle : handle_t) : guest W unit :=
  _ ← call I_wasi_io_error_error_drop [__handle handle]; mret tt.
Definition wasi_io_error_error_drop_borrow (handle : handle_t) : guest W unit :=
  _ ← call I_wasi_io_error_error_drop [__handle handle]; mret tt.
Definition wasi_io_error_borrow_error (arg : handle_t) : handle_t := Handle (__handle arg).

Definition wasi_io_streams_input_stream_drop_own (handle : handle_t) : guest W unit :=
  _ ← call I_wasi_io_streams_input_stream_drop [__handle handle]; mret tt.
Definition wasi_io_streams_input_stream_drop_borrow (handle : handle_t) : guest W unit :=
  _ ← call I_wasi_io_streams_input_stream_drop [__handle handle]; mret tt.
Definition wasi_io_streams_borrow_input_stream (arg : handle_t) : handle_t := Handle (__handle arg).

Definition wasi_io_streams_output_stream_drop_own (handle : handle_t) : guest W unit :=
  _ ← call I_wasi_io_streams_output_stream_drop [__handle handle]; mret tt.
Definition wasi_io_streams_output_stream_drop_borrow (handle : handle_t) : guest W unit :=
  _ ← call I_wasi_io_streams_output_stream_drop [__handle handle]; mret tt.
Definition wasi_io_streams_borrow_output_stream (arg : handle_t) : handle_t := Handle (__handle arg).

Definition wasi_http_types_fields_drop_own (handle : handle_t) : guest W unit :=
  _ ← call I_wasi_http_types_fields_drop [__handle handle]; mret tt.
Definition wasi_http_types_fields_drop_borrow (handle : handle_t) : guest W unit :=
  _ ← call I_wasi_http_types_fields_drop [__handle handle]; mret tt.
Definition wasi_http_types_borrow_fields (arg : handle_t) : handle_t := Handle (__handle arg).

Definition wasi_http_types_incoming_request_drop_own (handle : handle_t) : guest W unit :=
  _ ← call I_wasi_http_types_incoming_request_drop [__handle handle]; mret tt.
Definition wasi_http_types_incoming_request_drop_borrow (handle : handle_t) : guest W unit :=
  _ ← call I_wasi_http_types_incoming_request_drop [__handle handle]; mret tt.
Definition wasi_http_types_borrow_incoming_request (arg : handle_t) : handle_t := Handle (__handle arg).

Definition wasi_http_types_outgoing_request_drop_own (handle : handle_t) : guest W unit :=
  _ ← call I_wasi_http_types_outgoing_request_drop [__handle handle]; mret tt.
Definition wasi_http_types_outgoing_request_drop_borrow (handle : handle_t) : guest W unit :=
  _ ← call I_wasi_http_types_outgoing_request_drop [__handle handle]; mret tt.
Definition wasi_http_types_borrow_outgoing_request (arg : handle_t) : handle_t := Handle (__handle arg).

Definition wasi_http_types_request_options_drop_own (handle : handle_t) : guest W unit :=
  _ ← call I_wasi_http_types_request_options_drop [__handle handle]; mret tt.
Definition wasi_http_types_request_options_drop_borrow (handle : handle_t) : guest W unit :=
  _ ← call I_wasi_http_types_request_options_drop [__handle handle]; mret tt.
Definition wasi_http_types_borrow_request_options (arg : handle_t) : handle_t := Handle (__handle arg).

Definition wasi_http_types_response_outparam_drop_own (handle : handle_t) : guest W unit :=
  _ ← call I_wasi_http_types_response_outparam_drop [__handle handle]; mret tt.
Definition wasi_http_types_response_outparam_drop_borrow (handle : handle_t) : guest W unit :=
  _ ← call I_wasi_http_types_response_outparam_drop [__handle handle]; mret tt.
Definition wasi_http_types_borrow_response_outparam (arg : handle_t) : handle_t := Handle (__handle arg).

Definition wasi_http_types_incoming_response_drop_own (handle : handle_t) : guest W unit :=
  _ ← call I_wasi_http_types_incoming_response_drop [__handle handle]; mret tt.
Definition wasi_http_types_incoming_response_drop_borrow (handle : handle_t) : guest W unit :=
  _ ← call I_wasi_http_types_incoming_response_drop [__handle handle]; mret tt.
Definition wasi_http_types_borrow_incoming_response (arg : handle_t) : handle_t := Handle (__handle arg).

Definition wasi_http_types_incoming_body_drop_own (handle : handle_t) : guest W unit :=
  _ ← call I_wasi_http_types_incoming_body_drop [__handle handle]; mret tt.
Definition wasi_http_types_incoming_body_drop_borrow (handle : handle_t) : guest W unit :=
  _ ← call I_wasi_http_types_incoming_body_drop [__handle handle]; mret tt.
Definition wasi_http_types_borrow_incoming_body (arg : handle_t) : handle_t := Handle (__handle arg).

Definition wasi_http_types_future_trailers_drop_own (handle : handle_t) : guest W unit :=
  _ ← call I_wasi_http_types_future_trailers_drop [__handle handle]; mret tt.
Definition wasi_http_types_future_trailers_drop_borrow (handle : handle_t) : guest W unit :=
  _ ← call I_wasi_http_types_future_trailers_drop [__handle handle]; mret tt.
Definition wasi_http_types_borrow_future_trailers (arg : handle_t) : handle_t := Handle (__handle arg).

Definition wasi_http_types_outgoing_response_drop_own (handle : handle_t) : guest W unit :=
  _ ← call I_wasi_http_types_outgoing_response_drop [__handle handle]; mret tt.
Definition wasi_http_types_outgoing_response_drop_borrow (handle : handle_t) : guest W unit :=
  _ ← call I_wasi_http_types_outgoing_response_drop [__handle handle]; mret tt.
Definition wasi_http_types_borrow_outgoing_response (arg : handle_t) : handle_t := Handle (__handle arg).

Definition wasi_http_types_outgoing_body_drop_own (handle : handle_t) : guest W unit :=
  _ ← call I_wasi_http_types_outgoing_body_drop [__handle handle]; mret tt.
Definition wasi_http_types_outgoing_body_drop_borrow (handle : handle_t) : guest W unit :=
  _ ← call I_wasi_http_types_outgoing_body_drop [__handle handle]; mret tt.
Definition wasi_http_types_borrow_outgoing_body (arg : handle_t) : handle_t := Handle (__handle arg).

Definition wasi_http_types_future_incoming_response_drop_own (handle : handle_t) : guest W unit :=
  _ ← call I_wasi_http_types_future_incoming_response_drop [__handle handle]; mret tt.
Definition wasi_http_types_future_incoming_response_drop_borrow (handle : handle_t) : guest W unit :=
  _ ← call I_wasi_http_types_future_incoming_response_drop [__handle handle]; mret tt.
Definition wasi_http_types_borrow_future_incoming_response (arg : handle_t) : handle_t := Handle (__handle arg).

(** ** The resources of the world *)

Record resource := Resource {
  rs_module : string;
  rs_name : string;
  rs_drop_own : handle_t -> guest W unit;
  rs_drop_borrow : handle_t -> guest W unit;
  rs_borrow : handle_t -> handle_t;
}.

Definition resources : list resource := [
   Resource "wasi:io/poll@0.2.12" "pollable" wasi_io_poll_pollable_drop_own wasi_io_poll_pollable_drop_borrow wasi_io_poll_borrow_pollable;
   Resource "wasi:io/error@0.2.12" "error" wasi_io_error_error_drop_own wasi_io_error_error_drop_borrow wasi_io_error_borrow_error;
   Resource "wasi:io/streams@0.2.12" "input-stream" wasi_io_streams_input_stream_drop_own wasi_io_streams_input_stream_drop_borrow wasi_io_streams_borrow_input_stream;
   Resource "wasi:io/streams@0.2.12" "output-stream" wasi_io_streams_output_stream_drop_own wasi_io_streams_output_stream_drop_borrow wasi_io_streams_borrow_output_stream;
   Resource "wasi:http/types@0.2.12" "fields" wasi_http_types_fields_drop_own wasi_http_types_fields_drop_borrow wasi_http_types_borrow_fields;
   Resource "wasi:http/types@0.2.12" "incoming-request" wasi_http_types_incoming_request_drop_own wasi_http_types_incoming_request_drop_borrow wasi_http_types_borrow_incoming_request;
   Resource "wasi:http/types@0.2.12" "outgoing-request" wasi_http_types_outgoing_request_drop_own wasi_http_types_outgoing_request_drop_borrow wasi_http_types_borrow_outgoing_request;
   Resource "wasi:http/types@0.2.12" "request-options" wasi_http_types_request_options_drop_own wasi_http_types_request_options_drop_borrow wasi_http_types_borrow_request_options;
   Resource "wasi:http/types@0.2.12" "response-outparam" wasi_http_types_response_outparam_drop_own wasi_http_types_response_outparam_drop_borrow wasi_http_types_borrow_response_outparam;
   Resource "wasi:http/types@0.2.12" "incoming-response" wasi_http_types_incoming_response_drop_own wasi_http_types_incoming_response_drop_borrow wasi_http_types_borrow_incoming_response;
   Resource "wasi:http/types@0.2.12" "incoming-body" wasi_http_types_incoming_body_drop_own wasi_http_types_incoming_body_drop_borrow wasi_http_types_borrow_incoming_body;
   Resource "wasi:http/types@0.2.12" "future-trailers" wasi_http_types_future_trailers_drop_own wasi_http_types_future_trailers_drop_borrow wasi_http_types_borrow_future_trailers;
   Resource "wasi:http/types@0.2.12" "outgoing-response" wasi_http_types_outgoing_response_drop_own wasi_http_types_outgoing_response_drop_borrow wasi_http_types_borrow_outgoing_response;
   Resource "wasi:http/types@0.2.12" "outgoing-body" wasi_http_types_outgoing_body_drop_own wasi_http_types_outgoing_body_drop_borrow wasi_http_types_borrow_outgoing_body;
   Resource "wasi:http/types@0.2.12" "future-incoming-response" wasi_http_types_future_incoming_response_drop_own wasi_http_types_future_incoming_response_drop_borrow wasi_http_types_borrow_future_incoming_response
]%string.

(** The import that drops it. *)
Definition drop_name (r : resource) : string * string := (rs_module r, ("[resource-drop]" ++ rs_name r)%string).

(** What a resource's three helpers do: either drop is one call of the resource's
    own import with the handle, and a borrow is the same handle. *)
Definition drops_itself (r : resource) (i : import) : Prop :=
  import_name i = drop_name r /\
  (forall h, rs_drop_own r h = (_ ← call i [__handle h]; mret tt)) /\
  (forall h, rs_drop_borrow r h = (_ ← call i [__handle h]; mret tt)) /\
  (forall h, __handle (rs_borrow r h) = __handle h).
End Drop.

(** Every resource the world imports has its helpers, and each of them drops by
    the import the component model names "[resource-drop]" and the resource, in
    the resource's module: no helper drops a handle of another resource, and no
    resource-drop import is left without one. *)
Theorem drops_are_their_own {W} (call : host W) :
  (forall r, In r (resources call) -> exists i, drops_itself call r i) /\
  (forall i name, (import_name i).2 = ("[resource-drop]" ++ name)%string ->
     exists r, In r (resources call) /\ drop_name r = import_name i).
Proof.
  split.
  - intros r Hr. unfold resources in Hr. cbn [In] in Hr.
    repeat match goal with
    | H : _ \/ _ |- _ => destruct H as [<-|H]
    | H : False |- _ => destruct H
    end.
    + exists I_wasi_io_poll_pollable_drop. by split_and!.
    + exists I_wasi_io_error_error_drop. by split_and!.
    + exists I_wasi_io_streams_input_stream_drop. by split_and!.
    + exists I_wasi_io_streams_output_stream_drop. by split_and!.
    + exists I_wasi_http_types_fields_drop. by split_and!.
    + exists I_wasi_http_types_incoming_request_drop. by split_and!.
    + exists I_wasi_http_types_outgoing_request_drop. by split_and!.
    + exists I_wasi_http_types_request_options_drop. by split_and!.
    + exists I_wasi_http_types_response_outparam_drop. by split_and!.
    + exists I_wasi_http_types_incoming_response_drop. by split_and!.
    + exists I_wasi_http_types_incoming_body_drop. by split_and!.
    + exists I_wasi_http_types_future_trailers_drop. by split_and!.
    + exists I_wasi_http_types_outgoing_response_drop. by split_and!.
    + exists I_wasi_http_types_outgoing_body_drop. by split_and!.
    + exists I_wasi_http_types_future_incoming_response_drop. by split_and!.
  - intros i name Hi. enough (In (import_name i) (map drop_name (resources call))) as H.
    { apply in_map_iff in H as (r & H1 & H2). by exists r. }
    destruct i; try discriminate Hi; repeat (first [left; reflexivity|right]).
Qed.

Lemma drops_are_their_own_witness :
  let call : host unit := fun _ _ s => Ok (0, s) in
  exists r, In r (resources call) /\ drop_name r = ("wasi:http/types@0.2.12", "[resource-drop]fields")%string.
Proof.
  intros call. exact (proj2 (drops_are_their_own call) I_wasi_http_types_fields_drop "fields"%string eq_refl).
Defined.
