(* ===== verification/BindFree.v ===== *)
(** What function.c does with the memory the canonical ABI allocated in the guest:
    [cabi_realloc], the strings, and a [_free] function per type that may own
    memory.

    A struct that a [_free] function gets the address of is its value here; one
    that the function changes - a string is set to NULL and 0 - is returned. The
    elements of a list are in memory, and freed there. The loops over [list_ptr]
    that have no body do nothing. *)
From S2P Require Import Prelude LinMem BindTypes.
From Stdlib Require Import Strings.Byte.

(** [strlen]: no string is longer than the memory. *)
Fixpoint strlen_from (fuel : nat) (m : wmem) (a : Z) : outcome Z :=
  match fuel with
  | O => Trap OutOfFuel
  | S fuel =>
      b ← read_byte m a;
      if decide (b = x00) then Ok 0 else n ← strlen_from fuel m (a + 1); Ok (n + 1)
  end.
Definition strlen (s : Z) : reader Z := fun m => strlen_from (S (size (cells m))) m s.

Section Free.
Context {W : Type}.

(** ** Allocating *)

Definition cabi_realloc (ptr old_size align new_size : Z) : guest W Z :=
  if new_size =? 0 then mret align else
  ret ← g_realloc ptr new_size;
  if ret =? 0 then trap_with Aborted else mret ret.

Definition function_string_set (s : Z) : guest W function_string_t :=
  len ← reading (strlen s); mret (FStr s len).

Definition function_string_dup_n (s len : Z) : guest W function_string_t :=
  ptr ← cabi_realloc 0 0 1 (len * 1);
  _ ← g_memcpy ptr s (len * 1);
  mret (FStr ptr len).

Definition function_string_dup (s : Z) : guest W function_string_t :=
  len ← reading (strlen s);
  ptr ← cabi_realloc 0 0 1 (len * 1);
  _ ← g_memcpy ptr s (len * 1);
  mret (FStr ptr len).

Definition function_string_free (ret : function_string_t) : guest W function_string_t :=
  _ ← (if 0 <? str_len ret then g_free (str_ptr ret) else mret tt);
  mret (FStr 0 0).

(** ** Lists of numbers, bytes and handles *)

Definition wasi_io_poll_list_borrow_pollable_free (ptr : wasi_io_poll_list_borrow_pollable_t) : guest W unit :=
  if 0 <? lp_len ptr then g_free (lp_ptr ptr) else mret tt.
Definition function_list_u32_free (ptr : function_list_u32_t) : guest W unit :=
  if 0 <? lu32_len ptr then g_free (lu32_ptr ptr) else mret tt.
Definition function_list_u8_free (ptr : function_list_u8_t) : guest W unit :=
  if 0 <? lu8_len ptr then g_free (lu8_ptr ptr) else mret tt.
Definition wasi_http_types_field_value_free (ptr : wasi_http_types_field_value_t) : guest W unit :=
  if 0 <? fv_len ptr then g_free (fv_ptr ptr) else mret tt.

(** ** Options *)

Definition function_option_string_free (ptr : option function_string_t) : guest W (option function_string_t) :=
  match ptr with Some val => val ← function_string_free val; mret (Some val) | None => mret None end.
Definition function_option_u8_free (ptr : option Z) : guest W unit :=
  match ptr with Some _ => mret tt | None => mret tt end.
Definition function_option_u16_free (ptr : option Z) : guest W unit :=
  match ptr with Some _ => mret tt | None => mret tt end.
Definition function_option_u32_free (ptr : option Z) : guest W unit :=
  match ptr with Some _ => mret tt | None => mret tt end.
Definition function_option_u64_free (ptr : option Z) : guest W unit :=
  match ptr with Some _ => mret tt | None => mret tt end.
Definition wasi_http_types_option_duration_free (ptr : option Z) : guest W unit :=
  match ptr with Some _ => mret tt | None => mret tt end.
(** The handle of an [own] is not dropped. *)
Definition wasi_http_types_option_own_trailers_free (ptr : option handle_t) : guest W unit :=
  match ptr with Some _ => mret tt | None => mret tt end.
Definition wasi_http_outgoing_handler_option_own_request_options_free (ptr : option handle_t) : guest W unit :=
  match ptr with Some _ => mret tt | None => mret tt end.

(** ** Variants *)

Definition wasi_io_streams_stream_error_free (ptr : wasi_io_streams_stream_error_t) : guest W unit :=
  match se_tag ptr with 0 => mret tt | _ => mret tt end.
Definition wasi_http_types_header_error_free (ptr : wasi_http_types_header_error_t) : guest W unit :=
  mret tt.

(** [val.other] of a variant whose tag says so. *)
Definition free_other (o : option function_string_t) : guest W (option function_string_t) :=
  match o with Some s => s ← function_string_free s; mret (Some s) | None => trap_with UB end.

Definition wasi_http_types_method_free (ptr : c_method) : guest W c_method :=
  match m_tag ptr with
  | 9 => other ← free_other (m_other ptr); mret (Method 9 other)
  | _ => mret ptr
  end.
Definition wasi_http_types_scheme_free (ptr : c_scheme) : guest W c_scheme :=
  match sc_tag ptr with
  | 2 => other ← free_other (sc_other ptr); mret (Scheme 2 other)
  | _ => mret ptr
  end.
Definition wasi_http_types_option_scheme_free (ptr : option c_scheme) : guest W (option c_scheme) :=
  match ptr with Some val => val ← wasi_http_types_scheme_free val; mret (Some val) | None => mret None end.

(** ** error-code *)

Definition wasi_http_types_dns_error_payload_free (ptr : wasi_http_types_dns_error_payload_t function_string_t)
    : guest W (wasi_http_types_dns_error_payload_t function_string_t) :=
  rc ← function_option_string_free (rcode ptr);
  _ ← function_option_u16_free (info_code ptr);
  mret (DnsErrorPayload rc (info_code ptr)).

Definition wasi_http_types_tls_alert_received_payload_free
    (ptr : wasi_http_types_tls_alert_received_payload_t function_string_t)
    : guest W (wasi_http_types_tls_alert_received_payload_t function_string_t) :=
  _ ← function_option_u8_free (alert_id ptr);
  msg ← function_option_string_free (alert_message ptr);
  mret (TlsAlertPayload (alert_id ptr) msg).

Definition wasi_http_types_field_size_payload_free (ptr : wasi_http_types_field_size_payload_t function_string_t)
    : guest W (wasi_http_types_field_size_payload_t function_string_t) :=
  name ← function_option_string_free (field_name ptr);
  _ ← function_option_u32_free (field_size ptr);
  mret (FieldSizePayload name (field_size ptr)).

Definition wasi_http_types_option_field_size_payload_free
    (ptr : option (wasi_http_types_field_size_payload_t function_string_t))
    : guest W (option (wasi_http_types_field_size_payload_t function_string_t)) :=
  match ptr with
  | Some val => val ← wasi_http_types_field_size_payload_free val; mret (Some val)
  | None => mret None
  end.

(** A tag whose payload is not the union's active member reads the wrong one. *)
Definition wasi_http_types_error_code_free (ptr : c_error_code) : guest W c_error_code :=
  let set v := mret (ErrorCode (ec_tag ptr) v) in
  match ec_tag ptr, ec_val ptr with
  | 1, V_dns_error p => p ← wasi_http_types_dns_error_payload_free p; set (V_dns_error p)
  | 14, V_tls_alert_received p => p ← wasi_http_types_tls_alert_received_payload_free p; set (V_tls_alert_received p)
  | 17, V_http_request_body_size p => _ ← function_option_u64_free p; mret ptr
  | 21, V_http_request_header_section_size p => _ ← function_option_u32_free p; mret ptr
  | 22, V_http_request_header_size p => p ← wasi_http_types_option_field_size_payload_free p; set (V_http_request_header_size p)
  | 23, V_http_request_trailer_section_size p => _ ← function_option_u32_free p; mret ptr
  | 24, V_http_request_trailer_size p => p ← wasi_http_types_field_size_payload_free p; set (V_http_request_trailer_size p)
  | 26, V_http_response_header_section_size p => _ ← function_option_u32_free p; mret ptr
  | 27, V_http_response_header_size p => p ← wasi_http_types_field_size_payload_free p; set (V_http_response_header_size p)
  | 28, V_http_response_body_size p => _ ← function_option_u64_free p; mret ptr
  | 29, V_http_response_trailer_section_size p => _ ← function_option_u32_free p; mret ptr
  | 30, V_http_response_trailer_size p => p ← wasi_http_types_field_size_payload_free p; set (V_http_response_trailer_size p)
  | 31, V_http_response_transfer_coding p => p ← function_option_string_free p; set (V_http_response_transfer_coding p)
  | 32, V_http_response_content_coding p => p ← function_option_string_free p; set (V_http_response_content_coding p)
  | 38, V_internal_error p => p ← function_option_string_free p; set (V_internal_error p)
  | (1 | 14 | 17 | 21 | 22 | 23 | 24 | 26 | 27 | 28 | 29 | 30 | 31 | 32 | 38), _ => trap_with UB
  | _, _ => mret ptr
  end.

Definition wasi_http_types_option_error_code_free (ptr : option c_error_code) : guest W (option c_error_code) :=
  match ptr with Some val => val ← wasi_http_types_error_code_free val; mret (Some val) | None => mret None end.
Definition wasi_http_outgoing_handler_error_code_free (ptr : c_error_code) : guest W c_error_code :=
  wasi_http_types_error_code_free ptr.

(** ** Results *)

Definition wasi_io_streams_result_list_u8_stream_error_free (ptr : result_list_u8_stream_error) : guest W unit :=
  match ptr with
  | ROk ok => function_list_u8_free ok
  | RErr err => wasi_io_streams_stream_error_free err
  end.
Definition wasi_io_streams_result_u64_stream_error_free (ptr : result_u64_stream_error) : guest W unit :=
  match ptr with ROk _ => mret tt | RErr err => wasi_io_streams_stream_error_free err end.
Definition wasi_io_streams_result_void_stream_error_free (ptr : result_void_stream_error) : guest W unit :=
  match ptr with ROk _ => mret tt | RErr err => wasi_io_streams_stream_error_free err end.
Definition wasi_http_types_result_own_fields_header_error_free
    (ptr : result_t handle_t wasi_http_types_header_error_t) : guest W unit :=
  match ptr with ROk _ => mret tt | RErr err => wasi_http_types_header_error_free err end.
Definition wasi_http_types_result_void_header_error_free (ptr : result_void_header_error) : guest W unit :=
  match ptr with ROk _ => mret tt | RErr err => wasi_http_types_header_error_free err end.

Definition wasi_http_types_result_own_incoming_body_void_free (ptr : result_own_void) : guest W unit :=
  match ptr with ROk _ => mret tt | RErr _ => mret tt end.
Definition wasi_http_types_result_own_outgoing_body_void_free (ptr : result_own_void) : guest W unit :=
  match ptr with ROk _ => mret tt | RErr _ => mret tt end.
Definition wasi_http_types_result_void_void_free (ptr : result_t unit unit) : guest W unit :=
  match ptr with ROk _ => mret tt | RErr _ => mret tt end.
Definition wasi_http_types_result_own_input_stream_void_free (ptr : result_own_void) : guest W unit :=
  match ptr with ROk _ => mret tt | RErr _ => mret tt end.
Definition wasi_http_types_result_own_output_stream_void_free (ptr : result_own_void) : guest W unit :=
  match ptr with ROk _ => mret tt | RErr _ => mret tt end.

Definition wasi_http_types_result_own_outgoing_response_error_code_free (ptr : result_t handle_t c_error_code)
    : guest W (result_t handle_t c_error_code) :=
  match ptr with
  | ROk _ => mret ptr
  | RErr err => err ← wasi_http_types_error_code_free err; mret (RErr err)
  end.
Definition wasi_http_types_result_void_error_code_free (ptr : result_t unit c_error_code)
    : guest W (result_t unit c_error_code) :=
  match ptr with
  | ROk _ => mret ptr
  | RErr err => err ← wasi_http_types_error_code_free err; mret (RErr err)
  end.
Definition wasi_http_types_result_own_incoming_response_error_code_free (ptr : result_t handle_t c_error_code)
    : guest W (result_t handle_t c_error_code) :=
  match ptr with
  | ROk _ => mret ptr
  | RErr err => err ← wasi_http_types_error_code_free err; mret (RErr err)
  end.
Definition wasi_http_outgoing_handler_result_own_future_incoming_response_error_code_free
    (ptr : result_t handle_t c_error_code) : guest W (result_t handle_t c_error_code) :=
  match ptr with
  | ROk _ => mret ptr
  | RErr err => err ← wasi_http_outgoing_handler_error_code_free err; mret (RErr err)
  end.
Definition wasi_http_types_result_option_own_trailers_error_code_free (ptr : result_t (option handle_t) c_error_code)
    : guest W (result_t (option handle_t) c_error_code) :=
  match ptr with
  | ROk ok => _ ← wasi_http_types_option_own_trailers_free ok; mret ptr
  | RErr err => err ← wasi_http_types_error_code_free err; mret (RErr err)
  end.

Definition wasi_http_types_result_result_option_own_trailers_error_code_void_free
    (ptr : result_t (result_t (option handle_t) c_error_code) unit)
    : guest W (result_t (result_t (option handle_t) c_error_code) unit) :=
  match ptr with
  | ROk ok => ok ← wasi_http_types_result_option_own_trailers_error_code_free ok; mret (ROk ok)
  | RErr _ => mret ptr
  end.
Definition wasi_http_types_option_result_result_option_own_trailers_error_code_void_free
    (ptr : option (result_t (result_t (option handle_t) c_error_code) unit))
    : guest W (option (result_t (result_t (option handle_t) c_error_code) unit)) :=
  match ptr with
  | Some val => val ← wasi_http_types_result_result_option_own_trailers_error_code_void_free val; mret (Some val)
  | None => mret None
  end.
Definition wasi_http_types_result_result_own_incoming_response_error_code_void_free
    (ptr : result_t (result_t handle_t c_error_code) unit)
    : guest W (result_t (result_t handle_t c_error_code) unit) :=
  match ptr with
  | ROk ok => ok ← wasi_http_types_result_own_incoming_response_error_code_free ok; mret (ROk ok)
  | RErr _ => mret ptr
  end.
Definition wasi_http_types_option_result_result_own_incoming_response_error_code_void_free
    (ptr : option (result_t (result_t handle_t c_error_code) unit))
    : guest W (option (result_t (result_t handle_t c_error_code) unit)) :=
  match ptr with
  | Some val => val ← wasi_http_types_result_result_own_incoming_response_error_code_void_free val; mret (Some val)
  | None => mret None
  end.

(** The list of an [ok] is left alone. *)
Definition function_result_list_u8_string_free (ptr : result_t function_list_u8_t function_string_t)
    : guest W (result_t function_list_u8_t function_string_t) :=
  match ptr with
  | ROk _ => mret ptr
  | RErr err => err ← function_string_free err; mret (RErr err)
  end.

(** ** Lists of structs, in memory *)

Definition string_at (a : Z) : reader function_string_t :=
  ptr ← load_u32 a; len ← load_u32 (a + 4); mret (FStr ptr len).
Definition field_value_at (a : Z) : reader wasi_http_types_field_value_t :=
  ptr ← load_u32 a; len ← load_u32 (a + 4); mret (FieldValue ptr len).
Definition store_string (a : Z) (s : function_string_t) : guest W unit :=
  _ ← g_store 4 a (str_ptr s); g_store 4 (a + 4) (str_len s).

Definition function_string_free_at (ret : Z) : guest W unit :=
  s ← reading (string_at ret); s ← function_string_free s; store_string ret s.
Definition wasi_http_types_field_key_free (ptr : Z) : guest W unit := function_string_free_at ptr.
Definition wasi_http_types_field_name_free (ptr : Z) : guest W unit := wasi_http_types_field_key_free ptr.
Definition wasi_http_types_field_value_free_at (ptr : Z) : guest W unit :=
  v ← reading (field_value_at ptr); wasi_http_types_field_value_free v.

Definition wasi_http_types_tuple2_field_name_field_value_free (ptr : Z) : guest W unit :=
  _ ← wasi_http_types_field_name_free ptr; wasi_http_types_field_value_free_at (ptr + 8).
Definition function_tuple2_string_string_free (ptr : Z) : guest W unit :=
  _ ← function_string_free_at ptr; function_string_free_at (ptr + 8).

(** The loop over [n] elements of [size] bytes. *)
Fixpoint free_each (n : nat) (list_ptr size : Z) (free_elem : Z -> guest W unit) : guest W unit :=
  match n with
  | O => mret tt
  | S n => _ ← free_elem list_ptr; free_each n (list_ptr + size) size free_elem
  end.

Definition wasi_http_types_list_tuple2_field_name_field_value_free
    (ptr : wasi_http_types_list_tuple2_field_name_field_value_t) : guest W unit :=
  if 0 <? lf_len ptr then
    _ ← free_each (Z.to_nat (lf_len ptr)) (lf_ptr ptr) 16 wasi_http_types_tuple2_field_name_field_value_free;
    g_free (lf_ptr ptr)
  else mret tt.
Definition wasi_http_types_list_field_value_free (ptr : wasi_http_types_list_field_value_t) : guest W unit :=
  if 0 <? lfv_len ptr then
    _ ← free_each (Z.to_nat (lfv_len ptr)) (lfv_ptr ptr) 8 wasi_http_types_field_value_free_at;
    g_free (lfv_ptr ptr)
  else mret tt.
Definition function_list_tuple2_string_string_free (ptr : function_list_tuple2_string_string_t) : guest W unit :=
  if 0 <? kvs_len ptr then
    _ ← free_each (Z.to_nat (kvs_len ptr)) (kvs_ptr ptr) 16 function_tuple2_string_string_free;
    g_free (kvs_ptr ptr)
  else mret tt.
End Free.
