(* ===== verification/BindFreeSpec.v ===== *)
(** Ownership of the memory behind a WIT value: what each [_free] function of
    BindFree gives back. *)
From S2P Require Import Prelude LinMem BindTypes CanonAbi BindLift BindFree.
From Stdlib Require Import Strings.Byte.

(** ** Cells and blocks *)

Lemma lookup_del_cells a n c x :
  del_cells a n c !! x = if decide (a <= x < a + Z.of_nat n) then None else c !! x.
Proof.
  revert a. induction n as [|n IH]; intros a; simpl; [by rewrite decide_False by lia|].
  rewrite lookup_delete, IH. repeat case_decide; (done || lia).
Qed.

Lemma lookup_add_cells a n c x :
  add_cells a n c !! x = if decide (a <= x < a + Z.of_nat n) then Some None else c !! x.
Proof.
  revert a. induction n as [|n IH]; intros a; simpl; [by rewrite decide_False by lia|].
  rewrite lookup_insert, IH. repeat case_decide; (done || lia).
Qed.

Lemma read_bytes_ext m m' a n :
  (forall x, a <= x < a + Z.of_nat n -> cells m' !! x = cells m !! x) -> read_bytes m' a n = read_bytes m a n.
Proof.
  revert a. induction n as [|n IH]; intros a H; [done|]. cbn [read_bytes]. unfold read_byte.
  rewrite H by lia. rewrite IH; [done|]. intros x Hx. apply H. lia.
Qed.

Lemma load_ext m m' a n :
  (forall x, a <= x < a + Z.of_nat n -> cells m' !! x = cells m !! x) -> load n m' a = load n m a.
Proof. intros H. unfold load. by rewrite (read_bytes_ext m m'). Qed.

Lemma read_bytes_present m a n bs x :
  read_bytes m a n = Ok bs -> a <= x < a + Z.of_nat n -> is_Some (cells m !! x).
Proof.
  revert a bs. induction n as [|n IH]; intros a bs H Hx; [lia|]. cbn [read_bytes] in H.
  unfold read_byte in H at 1. destruct (cells m !! a) as [[b|]|] eqn:E; cbn in H; try done.
  destruct (decide (x = a)) as [->|]; [by eexists|].
  destruct (read_bytes m (a + 1) n) as [bs'|] eqn:E'; cbn in H; [|done]. eapply (IH (a + 1)); [done|lia].
Qed.

Lemma load_present m a n z x : load n m a = Ok z -> a <= x < a + Z.of_nat n -> is_Some (cells m !! x).
Proof.
  unfold load. destruct (read_bytes m a n) as [bs|] eqn:E; cbn; [|done]. intros _. by eapply read_bytes_present.
Qed.

(** A write into present cells. *)
Lemma write_bytes_ok m a bs :
  (forall x, a <= x < a + Z.of_nat (length bs) -> is_Some (cells m !! x)) ->
  exists c, write_bytes m a bs = Ok (set_cells c m) /\
    (forall x, ~ (a <= x < a + Z.of_nat (length bs)) -> c !! x = cells m !! x) /\
    (forall x, cells m !! x = None -> c !! x = None) /\
    (forall i b, bs !! i = Some b -> c !! (a + Z.of_nat i) = Some (Some b)).
Proof.
  revert m a. induction bs as [|b bs IH]; intros m a H.
  { exists (cells m). split; [by destruct m|]. done. }
  cbn [write_bytes length] in *. unfold write_byte.
  destruct (H a ltac:(lia)) as [o Ho]. rewrite Ho. cbn.
  destruct (IH (set_cells (<[a:=Some b]> (cells m)) m) (a + 1)) as (c & -> & Hr & Hn & Hv).
  { intros x Hx. cbn. rewrite lookup_insert_ne by lia. apply H. lia. }
  exists c. split; [done|]. cbn [cells set_cells] in *. split_and!.
  - intros x Hx. rewrite Hr by lia. apply lookup_insert_ne. lia.
  - intros x Hx. apply Hn. rewrite lookup_insert_ne by congruence. done.
  - intros [|i] b'; cbn [lookup list_lookup].
    + intros [= <-]. rewrite Z.add_0_r, Hr by lia. apply lookup_insert_eq.
    + intros Hb. replace (a + Z.of_nat (S i)) with (a + 1 + Z.of_nat i) by lia. by apply Hv.
Qed.

(** ** What a function gives back *)

(** [x] is in one of the blocks [ps]. *)
Definition in_blocks (m : wmem) (ps : list Z) (x : Z) : Prop :=
  exists p n, p ∈ ps /\ blocks m !! p = Some n /\ p <= x < p + n.

(** The blocks [ps] are gone from [m], and nothing else has changed but maybe the
    content of the cells [scratch]. *)
Record released (scratch : Z -> Prop) (ps : list Z) (m m' : wmem) : Prop := {
  rl_blocks : forall q, blocks m' !! q = if decide (q ∈ ps) then None else blocks m !! q;
  rl_rest : forall x, ~ scratch x -> ~ in_blocks m ps x -> cells m' !! x = cells m !! x;
  rl_gone : forall x, in_blocks m ps x -> cells m' !! x = None;
  rl_absent : forall x, cells m !! x = None -> cells m' !! x = None;
  rl_brk : brk m' = brk m;
  rl_limit : limit m' = limit m;
}.

Definition no_scratch (_ : Z) : Prop := False.

(** Distinct live blocks. *)
Definition live (ps : list Z) (m : wmem) : Prop :=
  NoDup ps /\ Forall (fun p => p <> 0 /\ is_Some (blocks m !! p)) ps.

Lemma live_app ps qs m : live (ps ++ qs) m <-> live ps m /\ live qs m /\ (forall p, p ∈ ps -> p ∉ qs).
Proof. unfold live. rewrite NoDup_app, Forall_app. naive_solver. Qed.

Lemma released_refl scratch m : released scratch [] m m.
Proof.
  split; try done.
  intros x (p & n & H & _). by apply not_elem_of_nil in H.
Qed.

Lemma released_sub X Y ps m m' : released X ps m m' -> (forall x, X x -> Y x) -> released Y ps m m'.
Proof. intros [] H. split; eauto. Qed.

Lemma released_lookup X ps m m' q n : released X ps m m' -> blocks m' !! q = Some n -> blocks m !! q = Some n.
Proof. intros H. rewrite (rl_blocks _ _ _ _ H). by case_decide. Qed.

Lemma released_trans X ps qs m m1 m2 :
  released X ps m m1 -> released X qs m1 m2 -> (forall q, q ∈ qs -> q ∉ ps) -> released X (ps ++ qs) m m2.
Proof.
  intros H1 H2 Hd.
  assert (forall x, in_blocks m qs x <-> in_blocks m1 qs x) as Hq.
  { intros x. split; intros (p & n & Hp & Hn & Hx); exists p, n; (split; [done|split; [|done]]).
    - rewrite (rl_blocks _ _ _ _ H1). by rewrite decide_False by auto.
    - by eapply released_lookup. }
  assert (forall x, in_blocks m (ps ++ qs) x <-> in_blocks m ps x \/ in_blocks m qs x) as Happ.
  { intros x. unfold in_blocks. setoid_rewrite elem_of_app. naive_solver. }
  split.
  - intros q. rewrite (rl_blocks _ _ _ _ H2), (rl_blocks _ _ _ _ H1).
    destruct (decide (q ∈ qs)), (decide (q ∈ ps)), (decide (q ∈ ps ++ qs)) as [Hi|Hi]; try done; set_solver.
  - intros x Hx Hn. rewrite Happ, Hq in Hn.
    rewrite (rl_rest _ _ _ _ H2), (rl_rest _ _ _ _ H1); naive_solver.
  - intros x Hx. apply Happ in Hx as [Hx|Hx].
    + by apply (rl_absent _ _ _ _ H2), (rl_gone _ _ _ _ H1).
    + by apply (rl_gone _ _ _ _ H2), Hq.
  - intros x Hx. by apply (rl_absent _ _ _ _ H2), (rl_absent _ _ _ _ H1).
  - rewrite (rl_brk _ _ _ _ H2). apply H1.
  - rewrite (rl_limit _ _ _ _ H2). apply H1.
Qed.

Lemma live_released X ps qs m m' :
  released X ps m m' -> live qs m -> (forall q, q ∈ qs -> q ∉ ps) -> live qs m'.
Proof.
  intros H [Hn Hl] Hd. split; [done|]. apply Forall_forall. intros q Hq.
  rewrite Forall_forall in Hl. rewrite (rl_blocks _ _ _ _ H), decide_False by auto. by apply Hl.
Qed.

Lemma free_released p m : live [p] m -> exists m', free m p = Ok m' /\ released no_scratch [p] m m'.
Proof.
  intros [_ [[Hp [n Hn]] _]%Forall_cons]. unfold free. destruct (Z.eqb_spec p 0); [done|]. rewrite Hn.
  eexists. split; [done|].
  assert (forall x, in_blocks m [p] x <-> p <= x < p + n) as Hin.
  { intros x. split.
    - intros (q & k & Hq%list_elem_of_singleton & Hk & Hx). subst q. congruence.
    - intros Hx. exists p, n. split; [by apply list_elem_of_singleton|done]. }
  split; cbn [blocks cells brk limit]; try done.
  - intros q. rewrite lookup_delete. repeat case_decide; set_solver.
  - intros x _ Hx. rewrite Hin in Hx. rewrite lookup_del_cells, decide_False by lia. done.
  - intros x Hx%Hin. rewrite lookup_del_cells, decide_True by lia. done.
  - intros x Hx. rewrite lookup_del_cells. by case_decide.
Qed.

(** ** Functions that only give back *)

Section Frees.
Context {W : Type}.

(** [f] returns [a] and gives back exactly the blocks [ps]. *)
Definition frees {A} (f : guest W A) (a : A) (ps : list Z) : Prop :=
  forall m w, live ps m -> exists m', f (m, w) = Ok (a, (m', w)) /\ released no_scratch ps m m'.

Lemma frees_ret {A} (a : A) : frees (mret a) a [].
Proof. intros m w _. exists m. split; [done|apply released_refl]. Qed.

Lemma frees_bind {A B} (f : guest W A) (g : A -> guest W B) a b ps qs :
  frees f a ps -> frees (g a) b qs -> frees (f ≫= g) b (ps ++ qs).
Proof.
  intros Hf Hg m w (Hp & Hq & Hd)%live_app. destruct (Hf m w Hp) as (m1 & E1 & R1).
  destruct (Hg m1 w) as (m2 & E2 & R2); [eapply live_released; [done|done|set_solver]|].
  exists m2. unfold mbind, guest_bind. rewrite E1. split; [done|].
  eapply released_trans; [done|done|set_solver].
Qed.

Lemma frees_then {A B} (f : guest W A) (g : A -> B) a ps :
  frees f a ps -> frees (x ← f; mret (g x)) (g a) ps.
Proof. intros Hf. rewrite <- (app_nil_r ps). eapply frees_bind; [done|apply frees_ret]. Qed.

(** Nothing first, then the rest. *)
Lemma frees_skip {A B} (f : guest W A) (g : A -> guest W B) a b ps :
  frees f a [] -> frees (g a) b ps -> frees (f ≫= g) b ps.
Proof. intros. by apply (frees_bind f g a b [] ps). Qed.

Definition block_of (ptr len : Z) : list Z := if 0 <? len then [ptr] else [].

Lemma frees_block ptr len : frees (if 0 <? len then g_free ptr else mret tt) tt (block_of ptr len).
Proof.
  unfold block_of. destruct (0 <? len); [|apply frees_ret]. intros m w Hl.
  destruct (free_released ptr m Hl) as (m' & E & R). exists m'. unfold g_free, updating. by rewrite E.
Qed.

(** ** Strings *)

Definition string_blocks (s : function_string_t) : list Z := block_of (str_ptr s) (str_len s).
Definition list_u8_blocks (l : function_list_u8_t) : list Z := block_of (lu8_ptr l) (lu8_len l).
Definition option_blocks {A} (f : A -> list Z) (o : option A) : list Z := from_option f [] o.
Definition null_string : function_string_t := FStr 0 0.

Lemma frees_string s : frees (function_string_free s) null_string (string_blocks s).
Proof. eapply frees_then with (g := fun _ => null_string), frees_block. Qed.

Lemma frees_option_string o :
  frees (function_option_string_free o) ((fun _ => null_string) <$> o) (option_blocks string_blocks o).
Proof. destruct o as [s|]; [|apply frees_ret]. apply (frees_then _ Some null_string), frees_string. Qed.

Lemma frees_list_u8 l : frees (function_list_u8_free l) tt (list_u8_blocks l).
Proof. apply frees_block. Qed.

Lemma frees_number (o : option Z) : frees (match o with Some _ => mret tt | None => mret tt end) tt [].
Proof. destruct o; apply frees_ret. Qed.

(** ** error-code *)

Definition null_field_size (p : wasi_http_types_field_size_payload_t function_string_t) :=
  FieldSizePayload ((fun _ => null_string) <$> field_name p) (field_size p).

Definition field_size_blocks (p : wasi_http_types_field_size_payload_t function_string_t) : list Z :=
  option_blocks string_blocks (field_name p).

Lemma frees_field_size p :
  frees (wasi_http_types_field_size_payload_free p) (null_field_size p) (field_size_blocks p).
Proof.
  unfold wasi_http_types_field_size_payload_free. rewrite <- (app_nil_r (field_size_blocks p)).
  eapply frees_bind; [apply frees_option_string|]. eapply frees_skip; [apply frees_number|]. apply frees_ret.
Qed.

(** The blocks an error-code owns, and what is left of it without them. *)
Definition error_code_blocks (c : c_error_code) : list Z :=
  match ec_val c with
  | V_dns_error p => option_blocks string_blocks (rcode p)
  | V_tls_alert_received p => option_blocks string_blocks (alert_message p)
  | V_http_request_header_size p => option_blocks field_size_blocks p
  | V_http_request_trailer_size p | V_http_response_header_size p | V_http_response_trailer_size p =>
      field_size_blocks p
  | V_http_response_transfer_coding p | V_http_response_content_coding p | V_internal_error p =>
      option_blocks string_blocks p
  | _ => []
  end.

Definition null_error_code (c : c_error_code) : c_error_code :=
  let none {A} (o : option A) := (fun _ => null_string) <$> o in
  ErrorCode (ec_tag c)
    match ec_val c with
    | V_dns_error p => V_dns_error (DnsErrorPayload (none (rcode p)) (info_code p))
    | V_tls_alert_received p => V_tls_alert_received (TlsAlertPayload (alert_id p) (none (alert_message p)))
    | V_http_request_header_size p => V_http_request_header_size (null_field_size <$> p)
    | V_http_request_trailer_size p => V_http_request_trailer_size (null_field_size p)
    | V_http_response_header_size p => V_http_response_header_size (null_field_size p)
    | V_http_response_trailer_size p => V_http_response_trailer_size (null_field_size p)
    | V_http_response_transfer_coding p => V_http_response_transfer_coding (none p)
    | V_http_response_content_coding p => V_http_response_content_coding (none p)
    | V_internal_error p => V_internal_error (none p)
    | v => v
    end.

(** The union's active member is the tag's. *)
Definition tag_agrees (c : c_error_code) : Prop :=
  match ec_tag c, ec_val c with
  | 1, V_dns_error _ | 14, V_tls_alert_received _ | 17, V_http_request_body_size _
  | 21, V_http_request_header_section_size _ | 22, V_http_request_header_size _
  | 23, V_http_request_trailer_section_size _ | 24, V_http_request_trailer_size _
  | 26, V_http_response_header_section_size _ | 27, V_http_response_header_size _
  | 28, V_http_response_body_size _ | 29, V_http_response_trailer_section_size _
  | 30, V_http_response_trailer_size _ | 31, V_http_response_transfer_coding _
  | 32, V_http_response_content_coding _ | 38, V_internal_error _ => True
  | (1 | 14 | 17 | 21 | 22 | 23 | 24 | 26 | 27 | 28 | 29 | 30 | 31 | 32 | 38), _ => False
  | _, V_none => True
  | _, _ => False
  end.

Lemma frees_dns_error p :
  frees (wasi_http_types_dns_error_payload_free p)
    (DnsErrorPayload ((fun _ => null_string) <$> rcode p) (info_code p)) (option_blocks string_blocks (rcode p)).
Proof.
  unfold wasi_http_types_dns_error_payload_free. rewrite <- (app_nil_r (option_blocks _ _)).
  eapply frees_bind; [apply frees_option_string|]. eapply frees_skip; [apply frees_number|]. apply frees_ret.
Qed.

Lemma frees_tls_alert p :
  frees (wasi_http_types_tls_alert_received_payload_free p)
    (TlsAlertPayload (alert_id p) ((fun _ => null_string) <$> alert_message p))
    (option_blocks string_blocks (alert_message p)).
Proof.
  unfold wasi_http_types_tls_alert_received_payload_free. eapply frees_skip; [apply frees_number|].
  eapply frees_then with (g := TlsAlertPayload (alert_id p)), frees_option_string.
Qed.

Lemma frees_option_field_size o :
  frees (wasi_http_types_option_field_size_payload_free o) (null_field_size <$> o) (option_blocks field_size_blocks o).
Proof. destruct o as [p|]; [|apply frees_ret]. apply (frees_then _ Some (null_field_size p)), frees_field_size. Qed.

Lemma frees_error_code c :
  tag_agrees c -> frees (wasi_http_types_error_code_free c) (null_error_code c) (error_code_blocks c).
Proof.
  destruct c as [tag val]. unfold tag_agrees, wasi_http_types_error_code_free, null_error_code, error_code_blocks.
  cbn [ec_tag ec_val]. intros H.
  repeat case_match; try done;
    first [ apply frees_ret
          | (eapply frees_skip; [apply frees_number|apply frees_ret])
          | (refine (frees_then _ (fun p => ErrorCode _ (V_dns_error p)) _ _ _); apply frees_dns_error)
          | (refine (frees_then _ (fun p => ErrorCode _ (V_tls_alert_received p)) _ _ _); apply frees_tls_alert)
          | (refine (frees_then _ (fun p => ErrorCode _ (V_http_request_header_size p)) _ _ _); apply frees_option_field_size)
          | (refine (frees_then _ (fun p => ErrorCode _ (V_http_request_trailer_size p)) _ _ _); apply frees_field_size)
          | (refine (frees_then _ (fun p => ErrorCode _ (V_http_response_header_size p)) _ _ _); apply frees_field_size)
          | (refine (frees_then _ (fun p => ErrorCode _ (V_http_response_trailer_size p)) _ _ _); apply frees_field_size)
          | (refine (frees_then _ (fun p => ErrorCode _ (V_http_response_transfer_coding p)) _ _ _); apply frees_option_string)
          | (refine (frees_then _ (fun p => ErrorCode _ (V_http_response_content_coding p)) _ _ _); apply frees_option_string)
          | (refine (frees_then _ (fun p => ErrorCode _ (V_internal_error p)) _ _ _); apply frees_option_string) ].
Qed.
End Frees.
