(* ===== verification/BindFreeList.v ===== *)
(** Giving back the lists of structs: the elements' memory, then the array. *)
From S2P Require Import Prelude LinMem BindTypes BindFree BindFreeSpec.
From Stdlib Require Import Strings.Byte.

(** The blocks of a memory do not overlap. *)
Definition apart (m : wmem) : Prop := forall p q n k,
  blocks m !! p = Some n -> blocks m !! q = Some k -> p <> q -> p + n <= q \/ q + k <= p.

Definition range (a n : Z) (x : Z) : Prop := a <= x < a + n.

Lemma apart_released X ps m m' : released X ps m m' -> apart m -> apart m'.
Proof. intros H Ha p q n k Hp Hq. eapply Ha; by eapply released_lookup. Qed.

(** The area is in a block that is not among [ps]. *)
Lemma outside m b k ps a n :
  apart m -> blocks m !! b = Some k -> b ∉ ps -> b <= a -> a + n <= b + k ->
  forall x, range a n x -> ~ in_blocks m ps x.
Proof.
  intros Hap Hb Hn Ha Hk x Hx (p & j & Hp & Hj & Hpx). unfold range in Hx.
  assert (p <> b) as Hne by by intros ->. destruct (Hap p b j k Hj Hb Hne); lia.
Qed.

Section Lists.
Context {W : Type}.

(** What freeing one element of [size] bytes in memory needs and does: [holds m a
    ps] says that the element at [a] owns [ps]. *)
Record element (size : Z) (holds : wmem -> Z -> list Z -> Prop) (free : Z -> guest W unit) : Prop := {
  el_size : 0 < size;
  el_stable : forall m m' a ps, holds m a ps ->
    (forall x, range a size x -> cells m' !! x = cells m !! x) -> holds m' a ps;
  el_free : forall m w a ps, holds m a ps -> live ps m ->
    (forall x, range a size x -> ~ in_blocks m ps x) ->
    exists m', free a (m, w) = Ok (tt, (m', w)) /\ released (range a size) ps m m';
}.

(** The elements of an array. *)
Fixpoint holds_all (size : Z) (holds : wmem -> Z -> list Z -> Prop) (m : wmem) (a : Z) (pss : list (list Z)) : Prop :=
  match pss with [] => True | ps :: pss => holds m a ps /\ holds_all size holds m (a + size) pss end.

Lemma holds_all_stable size holds free m m' a pss :
  element size holds free -> holds_all size holds m a pss ->
  (forall x, range a (size * Z.of_nat (length pss)) x -> cells m' !! x = cells m !! x) ->
  holds_all size holds m' a pss.
Proof.
  intros He. pose proof (el_size _ _ _ He). revert a. induction pss as [|ps pss IH]; intros a Hh Hc; [done|].
  cbn [length holds_all] in *. destruct Hh as [H0 H1]. split.
  - eapply (el_stable _ _ _ He); [done|]. intros x Hx. apply Hc. unfold range in *. nia.
  - apply IH; [done|]. intros x Hx. apply Hc. unfold range in *. nia.
Qed.

(** The loop, over an array inside block [b]. *)
Lemma free_each_released size holds free b k m w a pss :
  element size holds free -> holds_all size holds m a pss -> live (List.concat pss) m -> apart m ->
  blocks m !! b = Some k -> b ∉ List.concat pss -> b <= a -> a + size * Z.of_nat (length pss) <= b + k ->
  exists m', free_each (length pss) a size free (m, w) = Ok (tt, (m', w)) /\
    released (range a (size * Z.of_nat (length pss))) (List.concat pss) m m'.
Proof.
  intros He. pose proof (el_size _ _ _ He) as Hsz. revert m a.
  induction pss as [|ps pss IH]; intros m a Hh Hl Hap Hb Hn Ha Hk.
  { exists m. split; [done|]. apply released_refl. }
  cbn [length holds_all free_each] in *. destruct Hh as [H0 H1]. cbn [List.concat] in Hl, Hn.
  apply live_app in Hl as (Hl0 & Hl1 & Hd). apply not_elem_of_app in Hn as [Hn0 Hn1].
  destruct (el_free _ _ _ He m w a ps H0 Hl0) as (m1 & E1 & R1).
  { eapply outside; [done|done|done|done|nia]. }
  assert (forall x, range (a + size) (size * Z.of_nat (length pss)) x -> cells m1 !! x = cells m !! x) as Hsame.
  { intros x Hx. apply (rl_rest _ _ _ _ R1); [unfold range in *; lia|].
    eapply (outside m b k ps (a + size) (size * Z.of_nat (length pss))); [done|done|done|lia|nia|done]. }
  destruct (IH m1 (a + size)) as (m2 & E2 & R2).
  - by eapply holds_all_stable.
  - eapply live_released; [done|done|]. set_solver.
  - by eapply apart_released.
  - rewrite (rl_blocks _ _ _ _ R1), decide_False by done. done.
  - done.
  - lia.
  - nia.
  - exists m2. unfold mbind, guest_bind. rewrite E1. split; [done|].
    apply released_trans with (m1 := m1); [| |set_solver].
    + eapply released_sub; [exact R1|]. unfold range. nia.
    + eapply released_sub; [exact R2|]. unfold range. nia.
Qed.

(** The list: an array that is a block of its own. *)
Lemma list_released size holds free m w a n pss :
  element size holds free -> length pss = Z.to_nat n -> 0 < n -> holds_all size holds m a pss ->
  live (List.concat pss ++ [a]) m -> apart m -> blocks m !! a = Some (size * n) ->
  exists m', (_ ← free_each (Z.to_nat n) a size free; g_free a) (m, w) = Ok (tt, (m', w)) /\
    released no_scratch (List.concat pss ++ [a]) m m'.
Proof.
  intros He Hlen Hn Hh (Hl & Hla & Hd)%live_app Hap Hb. pose proof (el_size _ _ _ He) as Hsz.
  assert (a ∉ List.concat pss) as Hna by set_solver.
  destruct (free_each_released size holds free a (size * n) m w a pss) as (m1 & E1 & R1);
    [done..|lia|rewrite Hlen, Z2Nat.id by lia; lia|].
  rewrite <- Hlen. destruct (free_released a m1) as (m2 & E2 & R2).
  { eapply live_released; [done|done|set_solver]. }
  exists m2. unfold mbind, guest_bind. rewrite E1. unfold g_free, updating. rewrite E2. split; [done|].
  pose proof (released_trans (range a (size * Z.of_nat (length pss))) _ _ _ _ _ R1 (released_sub _ _ _ _ _ R2 (fun _ (H : no_scratch _) => False_ind _ H)) ltac:(set_solver)) as R.
  destruct R as [Rb Rr Rg Ra Rk Rm]. split; try done.
  intros x _ Hx. apply Rr; [|done]. intros Hrange. apply Hx.
  exists a, (size * n). split; [set_solver|]. split; [done|]. unfold range in Hrange. nia.
Qed.

(** ** Strings and byte lists in memory *)

Lemma store_released n m a z :
  (forall x, range a (Z.of_nat n) x -> is_Some (cells m !! x)) ->
  exists m', store n m a z = Ok m' /\ released (range a (Z.of_nat n)) [] m m'.
Proof.
  intros H. unfold store. destruct (write_bytes_ok m a (le_encode n z)) as (c & -> & Hr & Hn & _).
  { intros x Hx. rewrite length_le_encode in Hx. by apply H. }
  eexists. split; [done|]. rewrite length_le_encode in Hr. split; try done.
  - intros x Hx _. by apply Hr.
  - intros x (p & k & Hp & _). by apply not_elem_of_nil in Hp.
Qed.

Lemma string_at_inv a m s :
  string_at a m = Ok s -> load 4 m a = Ok (str_ptr s) /\ load 4 m (a + 4) = Ok (str_len s).
Proof.
  unfold string_at, mbind, reader_bind, load_u32.
  destruct (load 4 m a) as [q|]; [|intros H; discriminate H].
  destruct (load 4 m (a + 4)) as [l|]; [|intros H; discriminate H]. by intros [= <-].
Qed.

Lemma string_at_ext m m' a :
  (forall x, range a 8 x -> cells m' !! x = cells m !! x) -> string_at a m' = string_at a m.
Proof.
  intros H. unfold string_at, mbind, reader_bind, load_u32.
  rewrite (load_ext m m' a), (load_ext m m' (a + 4)); [done|..]; intros x Hx; apply H; unfold range; lia.
Qed.

Lemma string_at_present a m s x : string_at a m = Ok s -> range a 8 x -> is_Some (cells m !! x).
Proof.
  intros [H1 H2]%string_at_inv Hx. unfold range in Hx. destruct (Z.lt_ge_cases x (a + 4)).
  - eapply load_present; [exact H1|lia].
  - eapply load_present; [exact H2|lia].
Qed.

Lemma string_free_at_released m (w : W) a s :
  string_at a m = Ok s -> live (string_blocks s) m ->
  (forall x, range a 8 x -> ~ in_blocks m (string_blocks s) x) ->
  exists m', function_string_free_at a (m, w) = Ok (tt, (m', w)) /\ released (range a 8) (string_blocks s) m m'.
Proof.
  intros Hs Hl Ho. destruct (frees_string s m w Hl) as (m1 & E1 & R1).
  assert (forall x, range a 8 x -> is_Some (cells m1 !! x)) as Hp1.
  { intros x Hx. rewrite (rl_rest _ _ _ _ R1) by auto. by eapply string_at_present. }
  destruct (store_released 4 m1 a 0) as (m2 & E2 & R2); [intros x Hx; apply Hp1; unfold range in *; lia|].
  destruct (store_released 4 m2 (a + 4) 0) as (m3 & E3 & R3).
  { intros x Hx. rewrite (rl_rest _ _ _ _ R2); [apply Hp1| |]; unfold range in *; [lia|lia|].
    intros (p & k & Hp & _). by apply not_elem_of_nil in Hp. }
  exists m3. split.
  - unfold function_string_free_at, store_string, mbind, guest_bind, reading, g_store, updating.
    rewrite Hs. cbn [mbind outcome_bind]. rewrite E1. cbn [str_ptr str_len null_string]. rewrite E2. cbn -[store]. by rewrite E3.
  - rewrite <- (app_nil_r (string_blocks s)).
    apply released_trans with (m1 := m1); [by eapply released_sub| |set_solver].
    apply (released_trans _ [] [] m1 m2); [| |set_solver]; (eapply released_sub; [done|]; unfold range; lia).
Qed.

Definition field_value_blocks (v : wasi_http_types_field_value_t) : list Z := block_of (fv_ptr v) (fv_len v).

(** What an element owns. *)
Definition holds_string (m : wmem) (a : Z) (ps : list Z) : Prop :=
  exists s, string_at a m = Ok s /\ ps = string_blocks s.
Definition holds_field_value (m : wmem) (a : Z) (ps : list Z) : Prop :=
  exists v, field_value_at a m = Ok v /\ ps = field_value_blocks v.
Definition holds_field (m : wmem) (a : Z) (ps : list Z) : Prop :=
  exists ps1 ps2, holds_string m a ps1 /\ holds_field_value m (a + 8) ps2 /\ ps = ps1 ++ ps2.
Definition holds_pair (m : wmem) (a : Z) (ps : list Z) : Prop :=
  exists ps1 ps2, holds_string m a ps1 /\ holds_string m (a + 8) ps2 /\ ps = ps1 ++ ps2.

(** A field value is laid out as a string is. *)
Lemma field_value_at_string a m :
  field_value_at a m = (s ← string_at a m; Ok (FieldValue (str_ptr s) (str_len s))).
Proof.
  unfold field_value_at, string_at, mbind, reader_bind, load_u32.
  destruct (load 4 m a) as [q|]; [|reflexivity]. by destruct (load 4 m (a + 4)).
Qed.

Lemma string_element : element 8 holds_string function_string_free_at.
Proof.
  split; [lia| |].
  - intros m m' a ps (s & Hs & ->) H. exists s. by rewrite (string_at_ext m m').
  - intros m w a ps (s & Hs & ->) Hl Ho. by apply string_free_at_released.
Qed.

Lemma field_value_element : element 8 holds_field_value wasi_http_types_field_value_free_at.
Proof.
  split; [lia| |].
  - intros m m' a ps (v & Hv & ->) H. exists v. split; [|done]. rewrite field_value_at_string in *.
    by rewrite (string_at_ext m m').
  - intros m w a ps (v & Hv & ->) Hl Ho.
    destruct (frees_block (fv_ptr v) (fv_len v) m w Hl) as (m1 & E1 & R1).
    exists m1. unfold wasi_http_types_field_value_free_at, mbind, guest_bind, reading. rewrite Hv. split; [exact E1|].
    eapply released_sub; [exact R1|]. by intros x [].
Qed.

(** Two elements side by side. *)
Lemma pair_element h1 h2 f1 f2 :
  element 8 h1 f1 -> element 8 h2 f2 ->
  element 16 (fun m a ps => exists ps1 ps2, h1 m a ps1 /\ h2 m (a + 8) ps2 /\ ps = ps1 ++ ps2)
    (fun a => _ ← f1 a; f2 (a + 8)).
Proof.
  intros E1 E2. split; [lia| |].
  - intros m m' a ps (ps1 & ps2 & H1 & H2 & ->) H. exists ps1, ps2. split_and!; [| |done].
    + eapply (el_stable _ _ _ E1); [done|]. intros x Hx. apply H. unfold range in *. lia.
    + eapply (el_stable _ _ _ E2); [done|]. intros x Hx. apply H. unfold range in *. lia.
  - intros m w a ps (ps1 & ps2 & H1 & H2 & ->) (Hl1 & Hl2 & Hd)%live_app Ho.
    assert (forall x qs, range a 16 x -> (forall q, q ∈ qs -> q ∈ ps1 ++ ps2) -> ~ in_blocks m qs x) as Hout.
    { intros x qs Hx Hsub (p & k & Hp & Hk & Hpx). apply (Ho x Hx). exists p, k. auto. }
    destruct (el_free _ _ _ E1 m w a ps1 H1 Hl1) as (m1 & F1 & R1).
    { intros x Hx. apply Hout; [unfold range in *; lia|set_solver]. }
    destruct (el_free _ _ _ E2 m1 w (a + 8) ps2) as (m2 & F2 & R2).
    + eapply (el_stable _ _ _ E2); [done|]. intros x Hx. apply (rl_rest _ _ _ _ R1); [unfold range in *; lia|].
      apply Hout; [unfold range in *; lia|set_solver].
    + eapply live_released; [done|done|set_solver].
    + intros x Hx (p & k & Hp & Hk & Hpx). eapply (Hout x [p]); [unfold range in *; lia|set_solver|].
      exists p, k. split; [set_solver|]. split; [by eapply released_lookup|done].
    + exists m2. unfold mbind, guest_bind. rewrite F1. split; [done|].
      apply released_trans with (m1 := m1); [| |set_solver];
        (eapply released_sub; [done|]; unfold range; lia).
Qed.

Lemma field_element : element 16 holds_field wasi_http_types_tuple2_field_name_field_value_free.
Proof. exact (pair_element _ _ _ _ string_element field_value_element). Qed.
Lemma string_pair_element : element 16 holds_pair function_tuple2_string_string_free.
Proof. exact (pair_element _ _ _ _ string_element string_element). Qed.
End Lists.

(** C23. A list of structs is given back whole: every string and byte list of its
    elements, then the array, each once, and nothing else; an empty list owns
    nothing. The three lists of the bindings: the fields' entries, the values of
    one field and the pairs of a log call. *)
Theorem lists_give_back {W} (a n : Z) (pss : list (list Z)) (m : wmem) (w : W) :
  length pss = Z.to_nat n -> apart m -> live (List.concat pss ++ block_of a n) m ->
  (holds_all 16 holds_field m a pss -> (0 < n -> blocks m !! a = Some (16 * n)) ->
   exists m', wasi_http_types_list_tuple2_field_name_field_value_free (ListFields a n) (m, w) = Ok (tt, (m', w)) /\
     released no_scratch (List.concat pss ++ block_of a n) m m') /\
  (holds_all 8 holds_field_value m a pss -> (0 < n -> blocks m !! a = Some (8 * n)) ->
   exists m', wasi_http_types_list_field_value_free (ListFieldValue a n) (m, w) = Ok (tt, (m', w)) /\
     released no_scratch (List.concat pss ++ block_of a n) m m') /\
  (holds_all 16 holds_pair m a pss -> (0 < n -> blocks m !! a = Some (16 * n)) ->
   exists m', function_list_tuple2_string_string_free (ListPairs a n) (m, w) = Ok (tt, (m', w)) /\
     released no_scratch (List.concat pss ++ block_of a n) m m').
Proof.
  intros Hlen Hap Hl.
  unfold wasi_http_types_list_tuple2_field_name_field_value_free, wasi_http_types_list_field_value_free,
    function_list_tuple2_string_string_free, block_of in *. cbn [lf_len lf_ptr lfv_len lfv_ptr kvs_len kvs_ptr].
  destruct (Z.ltb_spec 0 n) as [Hn|Hn].
  - split_and!; intros Hh Hb; (eapply list_released; [|done|done|done|done|done|by apply Hb]);
      [apply field_element|apply field_value_element|apply string_pair_element].
  - destruct pss; [|simpl in Hlen; lia]. split_and!; intros _ _; exists m; (split; [done|apply released_refl]).
Qed.

(** ** A list of two fields *)

Definition apart_blocks (bs : gmap Z Z) : Prop :=
  map_Forall (fun p n => map_Forall (fun q k => p = q \/ p + n <= q \/ q + k <= p) bs) bs.
#[export] Instance apart_blocks_dec bs : Decision (apart_blocks bs).
Proof. unfold apart_blocks. apply _. Defined.

Lemma apart_of_blocks m : apart_blocks (blocks m) -> apart m.
Proof. intros H p q n k Hp Hq Hne. by destruct (H p n Hp q k Hq) as [?|?]. Qed.

#[export] Instance live_dec ps m : Decision (live ps m).
Proof. unfold live. apply _. Defined.

(** ["a": "xy"] and [an empty name: ""], as [cabi_realloc] lays them out. *)
Definition two_fields : guest unit Z :=
  name ← g_malloc 1; _ ← g_store 1 name 97;
  value ← g_malloc 2; _ ← g_store 2 value 31096;
  a ← g_malloc 32;
  _ ← g_store 4 a name; _ ← g_store 4 (a + 4) 1; _ ← g_store 4 (a + 8) value; _ ← g_store 4 (a + 12) 2;
  _ ← g_store 4 (a + 16) 1; _ ← g_store 4 (a + 20) 0; _ ← g_store 4 (a + 24) 1; _ ← g_store 4 (a + 28) 0;
  mret a.
Definition two_fields_memory : wmem :=
  match two_fields (mem_init 65536, tt) with Ok (_, (m, _)) => m | Trap _ => mem_init 0 end.

Lemma lists_give_back_witness :
  blocks two_fields_memory = {[ 1024 := 1; 1040 := 2; 1056 := 32 ]} /\
  exists m', wasi_http_types_list_tuple2_field_name_field_value_free (ListFields 1056 2) (two_fields_memory, tt)
    = Ok (tt, (m', tt)) /\ released no_scratch ([1024; 1040] ++ [1056]) two_fields_memory m'.
Proof.
  split; [vm_compute; reflexivity|].
  refine (proj1 (lists_give_back 1056 2 [[1024; 1040]; []] two_fields_memory tt _ _ _) _ _).
  - reflexivity.
  - apply apart_of_blocks, (bool_decide_unpack _). vm_compute. exact I.
  - apply (bool_decide_unpack _). vm_compute. exact I.
  - split; [|split; [|exact I]].
    + exists [1024], [1040]. split; [|split; [|reflexivity]].
      * exists (FStr 1024 1). split; vm_compute; reflexivity.
      * exists (FieldValue 1040 2). split; vm_compute; reflexivity.
    + exists [], []. split; [|split; [|reflexivity]].
      * exists (FStr 1 0). split; vm_compute; reflexivity.
      * exists (FieldValue 1 0). split; vm_compute; reflexivity.
  - intros _. vm_compute. reflexivity.
Defined.
