(* ===== verification/BindString.v ===== *)
(** The bindings' strings: a copy has the content of the original in a block of its
    own, and freeing it leaves the memory as it was. *)
From S2P Require Import Prelude LinMem BindTypes BindFree BindFreeSpec.
From Stdlib Require Import Strings.Byte.

(** The allocator's invariant: what is in use is below [brk]. *)
Record mem_ok (m : wmem) : Prop := {
  ok_brk : 0 < brk m;
  ok_cells : forall a, is_Some (cells m !! a) -> a < brk m;
  ok_blocks : forall p n, blocks m !! p = Some n -> 0 <= n /\ p + n <= brk m /\ p < brk m;
}.

(** The NUL-terminated string [s] at [a]. *)
Definition c_string_at (m : wmem) (a : Z) (s : bytes) : Prop :=
  read_bytes m a (S (length s)) = Ok (s ++ [x00]) /\ x00 ∉ s.

Lemma read_bytes_cells m a n bs :
  read_bytes m a n = Ok bs <->
  length bs = n /\ forall i b, bs !! i = Some b -> cells m !! (a + Z.of_nat i) = Some (Some b).
Proof.
  revert a bs. induction n as [|n IH]; intros a bs; cbn [read_bytes].
  - split; [intros [= <-]; done|]. intros [Hl _]. by apply nil_length_inv in Hl as ->.
  - split.
    + destruct (read_byte m a) as [b|] eqn:Eb; cbn [mbind outcome_bind]; [|done].
      destruct (read_bytes m (a + 1) n) as [bs'|] eqn:E; cbn [mbind outcome_bind]; [|done]. intros [= <-].
      apply IH in E as [Hl Hc]. split; [by cbn; f_equal|]. intros [|i] b'; cbn [lookup list_lookup].
      * intros [= <-]. rewrite Z.add_0_r. unfold read_byte in Eb. repeat case_match; by simplify_eq.
      * intros Hb. rewrite Nat2Z.inj_succ, <- Z.add_1_l, Z.add_assoc. by apply Hc.
    + intros [Hl Hc]. destruct bs as [|b bs]; [done|]. injection Hl as Hl.
      unfold read_byte. pose proof (Hc 0%nat b eq_refl) as H0. rewrite Z.add_0_r in H0. rewrite H0. cbn [mbind outcome_bind].
      rewrite (proj2 (IH (a + 1) bs)); [done|]. split; [done|]. intros i b' Hb.
      rewrite <- Z.add_assoc, Z.add_1_l, <- Nat2Z.inj_succ. by apply (Hc (S i)).
Qed.

Lemma NoDup_zrange a n : NoDup (zrange a n).
Proof.
  revert a. induction n as [|n IH]; intros a; cbn [zrange]; constructor; [|done]. rewrite elem_of_zrange. lia.
Qed.
Lemma length_zrange a n : length (zrange a n) = n.
Proof. revert a. induction n; intros; cbn; auto. Qed.

(** Memory is long enough for what is in it. *)
Lemma cells_size (m : wmem) a n : (forall x, a <= x < a + Z.of_nat n -> is_Some (cells m !! x)) -> (n <= size (cells m))%nat.
Proof.
  intros H. rewrite <- (length_zrange a n), <- length_map_to_list, <- (length_fmap fst).
  apply submseteq_length, NoDup_submseteq; [apply NoDup_zrange|]. intros x Hx%elem_of_zrange.
  destruct (H x Hx) as [o Ho]. apply list_elem_of_fmap. exists (x, o). split; [done|]. by apply elem_of_map_to_list.
Qed.

Lemma strlen_from_spec fuel m a s :
  (forall i b, (s ++ [x00]) !! i = Some b -> cells m !! (a + Z.of_nat i) = Some (Some b)) -> x00 ∉ s ->
  (length s < fuel)%nat -> strlen_from fuel m a = Ok (Z.of_nat (length s)).
Proof.
  revert a s. induction fuel as [|fuel IH]; intros a s Hc Hn Hf; [lia|]. cbn [strlen_from].
  destruct s as [|b s]; unfold read_byte; pose proof (Hc 0%nat _ eq_refl) as H0; rewrite Z.add_0_r in H0; rewrite H0;
    cbn [mbind outcome_bind].
  - by rewrite decide_True.
  - apply not_elem_of_cons in Hn as [Hne Hn]. rewrite decide_False by congruence.
    rewrite (IH (a + 1) s); [cbn [mbind outcome_bind length]; f_equal; lia| |done|cbn in Hf; lia].
    intros i b' Hb. rewrite <- Z.add_assoc, Z.add_1_l, <- Nat2Z.inj_succ. by apply (Hc (S i)).
Qed.

Lemma strlen_spec m a s : c_string_at m a s -> strlen a m = Ok (Z.of_nat (length s)).
Proof.
  intros [Hr Hn]. pose proof Hr as [_ Hc]%read_bytes_cells. apply strlen_from_spec; [done|done|].
  enough (S (length s) <= size (cells m))%nat by lia. apply (cells_size m a).
  intros x Hx. by eapply read_bytes_present.
Qed.

Lemma c_string_content m a s : c_string_at m a s -> read_bytes m a (length s) = Ok s.
Proof.
  intros [[_ Hc]%read_bytes_cells _]. apply read_bytes_cells. split; [done|]. intros i b Hb. apply Hc.
  rewrite lookup_app_l; [done|]. by eapply lookup_lt_Some.
Qed.

Section Strings.
Context {W : Type}.

(** A new string with content [s]: its block is fresh, what was there stays, and
    freeing it leaves the memory as it was. *)
Definition copied (m : wmem) (w : W) (s : bytes) (r : function_string_t) (m' : wmem) : Prop :=
  str_len r = Z.of_nat (length s) /\ read_bytes m' (str_ptr r) (length s) = Ok s /\
  (forall x, is_Some (cells m !! x) -> cells m' !! x = cells m !! x) /\
  (forall q, q ∈ string_blocks r -> blocks m !! q = None) /\
  exists m'', function_string_free r (m', w) = Ok (null_string, (m'', w)) /\
    blocks m'' = blocks m /\ cells m'' = cells m.

(** The copy of [n] bytes, as the two [dup] functions make it. *)
Definition dup_bytes (s n : Z) : guest W function_string_t :=
  ptr ← cabi_realloc 0 0 1 (n * 1); _ ← g_memcpy ptr s (n * 1); mret (FStr ptr n).

Lemma dup_bytes_spec m w a s :
  mem_ok m -> read_bytes m a (length s) = Ok s ->
  match dup_bytes a (Z.of_nat (length s)) (m, w) with
  | Ok (r, (m', w')) => w' = w /\ copied m w s r m'
  | Trap t => t = Aborted /\ limit m < bump (brk m) (Z.of_nat (length s))
  end.
Proof.
  intros [Hbrk Hcells Hblocks] Hs. set (n := Z.of_nat (length s)). unfold dup_bytes, cabi_realloc. rewrite Z.mul_1_r.
  destruct (Z.eqb_spec n 0) as [E|E].
  { assert (s = []) as -> by (apply nil_length_inv; lia). cbn. split; [done|]. split_and!; try done.
    - intros q Hq. by apply not_elem_of_nil in Hq.
    - exists m. by split_and!. }
  unfold mbind, guest_bind, g_realloc, realloc. cbn [Z.eqb]. unfold malloc.
  destruct (Z.leb_spec (bump (brk m) n) (limit m)) as [Hfit|Hfit]; [|by cbn].
  cbn [mbind outcome_bind]. rewrite (proj2 (Z.eqb_neq _ _)) by lia. unfold mret, guest_ret, g_memcpy, updating.
  set (m1 := Wmem _ _ _ _).
  assert (forall x, is_Some (cells m !! x) -> cells m1 !! x = cells m !! x) as Hold.
  { intros x Hx. cbn. rewrite lookup_add_cells, decide_False; [done|]. apply Hcells in Hx. lia. }
  assert (read_bytes m1 a (Z.to_nat n) = Ok s) as ->.
  { unfold n. rewrite Nat2Z.id. rewrite (read_bytes_ext m m1); [done|].
    intros x Hx. apply Hold. by eapply read_bytes_present. }
  destruct (write_bytes_ok m1 (brk m) s) as (c & Hw & Hr & Hn & Hv).
  { intros x Hx. cbn. rewrite lookup_add_cells, decide_True by lia. by eexists. }
  cbn [mbind outcome_bind]. rewrite Hw. split; [done|]. unfold copied. cbn [str_len str_ptr].
  split_and!; [done| | | |].
  - apply read_bytes_cells. split; [done|]. exact Hv.
  - intros x Hx. cbn [cells set_cells]. rewrite Hr; [by apply Hold|]. apply Hcells in Hx. lia.
  - intros q Hq. unfold string_blocks, block_of in Hq. cbn [str_len str_ptr] in Hq.
    destruct (0 <? n); [|by apply not_elem_of_nil in Hq]. apply list_elem_of_singleton in Hq as ->.
    apply eq_None_not_Some. intros [k Hk]. apply Hblocks in Hk. lia.
  - unfold function_string_free. cbn [str_len str_ptr]. destruct (Z.ltb_spec 0 n); [|lia].
    unfold mbind, guest_bind, g_free, updating, free. rewrite (proj2 (Z.eqb_neq _ _)) by lia.
    cbn [blocks set_cells m1]. rewrite lookup_insert_eq. cbn. eexists. split; [done|]. cbn [blocks cells]. split.
    + rewrite delete_insert_id; [done|]. apply eq_None_not_Some. intros [k Hk]. apply Hblocks in Hk. lia.
    + apply map_eq. intros x. rewrite lookup_del_cells. case_decide as Hx.
      * symmetry. apply eq_None_not_Some. intros Hx'%Hcells. lia.
      * rewrite Hr by lia. cbn [cells m1]. by rewrite lookup_add_cells, decide_False by lia.
Qed.
End Strings.

(** [function_string_dup] and [function_string_dup_n] copy: the string has the
    length and the bytes of the original, in a block of its own; every cell in use
    stays; and freeing it leaves blocks and cells as they were before the copy.
    The empty string has no block and is not freed. They stop only by [abort],
    when the memory cannot grow. *)
Theorem string_dup_copies {W} m (w : W) a s :
  mem_ok m ->
  (c_string_at m a s ->
   match function_string_dup a (m, w) with
   | Ok (r, (m', w')) => w' = w /\ copied m w s r m'
   | Trap t => t = Aborted /\ limit m < bump (brk m) (Z.of_nat (length s))
   end) /\
  (read_bytes m a (length s) = Ok s ->
   match function_string_dup_n a (Z.of_nat (length s)) (m, w) with
   | Ok (r, (m', w')) => w' = w /\ copied m w s r m'
   | Trap t => t = Aborted /\ limit m < bump (brk m) (Z.of_nat (length s))
   end).
Proof.
  intros Hm. split; [|by apply dup_bytes_spec]. intros Hs.
  assert (function_string_dup a (m, w) = dup_bytes a (Z.of_nat (length s)) (m, w)) as ->.
  { unfold function_string_dup, mbind at 1, guest_bind, reading. by rewrite (strlen_spec _ _ _ Hs). }
  apply dup_bytes_spec; [done|by apply c_string_content].
Qed.

(** The string "hi" at the bottom of a fresh memory. *)
Definition hi_memory : wmem :=
  match (a ← g_malloc 3; _ ← g_store 3 a 26984; mret a : guest unit Z) (mem_init 65536, tt) with
  | Ok (_, (m, _)) => m
  | Trap _ => mem_init 0
  end.

Lemma mem_ok_check m :
  bool_decide (0 < brk m /\ map_Forall (fun a _ => a < brk m) (cells m) /\
               map_Forall (fun p n => 0 <= n /\ p + n <= brk m /\ p < brk m) (blocks m)) = true -> mem_ok m.
Proof.
  intros (H1 & H2 & H3)%bool_decide_eq_true. split; [done|intros a [o Ho]; by apply (H2 a o)|done].
Qed.

Lemma string_dup_copies_witness :
  c_string_at hi_memory 1024 (lit "hi") /\
  match function_string_dup 1024 (hi_memory, tt) with
  | Ok (r, (m', w')) => w' = tt /\ copied hi_memory tt (lit "hi") r m'
  | Trap t => t = Aborted /\ limit hi_memory < bump (brk hi_memory) 2
  end.
Proof.
  assert (c_string_at hi_memory 1024 (lit "hi")) as Hs.
  { split; [vm_compute; reflexivity|]. apply (bool_decide_unpack _). vm_compute. exact I. }
  split; [exact Hs|].
  apply (proj1 (string_dup_copies hi_memory tt 1024 (lit "hi") (mem_ok_check hi_memory eq_refl))), Hs.
Defined.
