(* ===== verification/BindExport.v ===== *)
(** The export side of function.c: the [run] shim, its post-return, and the helpers
    for the handles of the world's resources. *)
From S2P Require Import Prelude LinMem BindTypes CanonAbi BindLift BindLower Imports BindFree BindFreeSpec BindFreeList BindString.
From Stdlib Require Import Strings.Byte.

(** ** The [run] export *)

Section ExportSide.
Context {W : Type}.
(** [static uint8_t RET_AREA[12]], and the guest's function. *)
Variable RET_AREA : Z.
Variable exports_function_run : function_list_u8_t -> guest W (result_t function_list_u8_t function_string_t).

Definition __wasm_export_exports_function_run (arg arg0 : Z) : guest W Z :=
  ret ← exports_function_run (ListU8 arg arg0);
  let ptr := RET_AREA in
  match ret with
  | RErr payload2 =>
      _ ← g_store 1 (ptr + 0) 1;
      _ ← g_store 4 (ptr + 8) (str_len payload2);
      _ ← g_store 4 (ptr + 4) (str_ptr payload2);
      mret ptr
  | ROk payload =>
      _ ← g_store 1 (ptr + 0) 0;
      _ ← g_store 4 (ptr + 8) (lu8_len payload);
      _ ← g_store 4 (ptr + 4) (lu8_ptr payload);
      mret ptr
  end.

(** [cabi_post_run] *)
Definition __wasm_export_exports_function_run_post_return (arg0 : Z) : guest W unit :=
  tag ← reading (load_u8 (arg0 + 0));
  match tag with
  | 0 =>
      len ← reading (load_u32 (arg0 + 8));
      if 0 <? len then ptr ← reading (load_u32 (arg0 + 4)); g_free ptr else mret tt
  | 1 =>
      len ← reading (load_u32 (arg0 + 8));
      if 0 <? len then ptr ← reading (load_u32 (arg0 + 4)); g_free ptr else mret tt
  | _ => mret tt
  end.

End ExportSide.

(** ** Storing and loading *)

Lemma load_store_bytes n m a z c :
  (forall i b, le_encode n z !! i = Some b -> cells (set_cells c m) !! (a + Z.of_nat i) = Some (Some b)) ->
  load n (set_cells c m) a = Ok (z mod 256 ^ Z.of_nat n).
Proof.
  intros H. unfold load. rewrite (proj2 (read_bytes_cells _ a n (le_encode n z))).
  - cbn. by rewrite le_decode_encode.
  - split; [apply length_le_encode|done].
Qed.

(** A store into present cells: what it changes, and what is read back. *)
Lemma store_spec n m a z :
  (forall x, range a (Z.of_nat n) x -> is_Some (cells m !! x)) ->
  exists m', store n m a z = Ok m' /\ released (range a (Z.of_nat n)) [] m m' /\
    (forall x, range a (Z.of_nat n) x -> is_Some (cells m' !! x)) /\
    load n m' a = Ok (z mod 256 ^ Z.of_nat n).
Proof.
  intros H. destruct (store_released n m a z H) as (m' & E & R). exists m'. split; [done|]. split; [done|].
  unfold store in E. destruct (write_bytes_ok m a (le_encode n z)) as (c & E' & _ & _ & Hv).
  { intros x Hx. rewrite length_le_encode in Hx. by apply H. }
  rewrite E' in E. injection E as <-. split; [|by apply load_store_bytes].
  intros x Hx. unfold range in Hx. destruct (lookup_lt_is_Some_2 (le_encode n z) (Z.to_nat (x - a))) as [b Hb].
  { rewrite length_le_encode. lia. }
  apply Hv in Hb. cbn. rewrite Z2Nat.id in Hb by lia. replace (a + (x - a)) with x in Hb by lia. by eexists.
Qed.

Lemma released_nil_rest X m m' x : released X [] m m' -> ~ X x -> cells m' !! x = cells m !! x.
Proof. intros R Hx. apply (rl_rest _ _ _ _ R); [done|]. intros (p & k & Hp & _). by apply not_elem_of_nil in Hp. Qed.

Lemma released_nil_load X m m' n a :
  released X [] m m' -> (forall x, range a (Z.of_nat n) x -> ~ X x) -> load n m' a = load n m a.
Proof. intros R H. apply load_ext. intros x Hx. eapply released_nil_rest; [done|]. by apply H. Qed.

Lemma stored_present m m' X x :
  released X [] m m' -> (forall x, X x -> is_Some (cells m' !! x)) -> is_Some (cells m !! x) -> is_Some (cells m' !! x).
Proof.
  intros R HX Hx. destruct (cells m' !! x) eqn:E; [done|]. exfalso.
  assert (~ X x) as Hn by (intros H; apply HX in H; rewrite E in H; by destruct H).
  rewrite (released_nil_rest _ _ _ _ R Hn) in E. rewrite E in Hx. by destruct Hx.
Qed.

(** The three stores of the shim. *)
Lemma store_result m a tag len ptr :
  (forall x, range a 12 x -> is_Some (cells m !! x)) ->
  0 <= tag < 256 -> 0 <= len < 2 ^ 32 -> 0 <= ptr < 2 ^ 32 ->
  exists m1 m2 m', store 1 m (a + 0) tag = Ok m1 /\ store 4 m1 (a + 8) len = Ok m2 /\ store 4 m2 (a + 4) ptr = Ok m' /\
    released (range a 12) [] m m' /\ (forall x, is_Some (cells m !! x) -> is_Some (cells m' !! x)) /\
    load 1 m' a = Ok tag /\ load 4 m' (a + 4) = Ok ptr /\ load 4 m' (a + 8) = Ok len.
Proof.
  intros H Ht Hl Hp. rewrite Z.add_0_r.
  destruct (store_spec 1 m a tag) as (m1 & E1 & R1 & P1 & L1); [intros x Hx; apply H; unfold range in *; lia|].
  destruct (store_spec 4 m1 (a + 8) len) as (m2 & E2 & R2 & P2 & L2).
  { intros x Hx. rewrite (released_nil_rest _ _ _ _ R1) by (unfold range in *; lia). apply H. unfold range in *. lia. }
  destruct (store_spec 4 m2 (a + 4) ptr) as (m3 & E3 & R3 & P3 & L3).
  { intros x Hx. rewrite (released_nil_rest _ _ _ _ R2), (released_nil_rest _ _ _ _ R1) by (unfold range in *; lia).
    apply H. unfold range in *. lia. }
  exists m1, m2, m3. split_and!; try done.
  - apply (released_trans _ [] [] m m2); [|eapply released_sub; [done|unfold range; lia]|set_solver].
    apply (released_trans _ [] [] m m1); [| |set_solver]; (eapply released_sub; [done|unfold range; lia]).
  - intros x Hx. eapply (stored_present m2); [exact R3|done|]. eapply (stored_present m1); [exact R2|done|].
    by eapply (stored_present m).
  - rewrite (released_nil_load _ _ _ 1 a R3), (released_nil_load _ _ _ 1 a R2), L1 by (unfold range; lia).
    f_equal. rewrite Z.mod_small; [done|]. cbn. lia.
  - rewrite L3. f_equal. rewrite Z.mod_small; [done|]. cbn. lia.
  - rewrite (released_nil_load _ _ _ 4 (a + 8) R3), L2 by (unfold range; lia). f_equal. rewrite Z.mod_small; [done|]. cbn. lia.
Qed.

(** ** What the host sees of [run] *)

Definition run_result_ty : wty := TResult (Some (TList TU8)) (Some TString).

(** The pointer and length of a result, and the value it is. *)
Definition result_ptr (r : result_t function_list_u8_t function_string_t) : Z :=
  match r with ROk l => lu8_ptr l | RErr s => str_ptr s end.
Definition result_len (r : result_t function_list_u8_t function_string_t) : Z :=
  match r with ROk l => lu8_len l | RErr s => str_len s end.
Definition result_tag (r : result_t function_list_u8_t function_string_t) : nat := if is_err r then 1%nat else 0%nat.
Definition result_value (r : result_t function_list_u8_t function_string_t) : wval :=
  WCase (result_tag r) (Some (WPtrLen (result_ptr r) (result_len r))).
Definition result_blocks (r : result_t function_list_u8_t function_string_t) : list Z :=
  block_of (result_ptr r) (result_len r).

Lemma canon_load_result m p r :
  load 1 m p = Ok (Z.of_nat (result_tag r)) -> load 4 m (p + 4) = Ok (result_ptr r) ->
  load 4 m (p + 8) = Ok (result_len r) -> canon_load run_result_ty p m = Ok (result_value r).
Proof.
  replace (p + 8) with (p + 4 + 4) by lia. intros H1 H2 H3. unfold run_result_ty, TResult. cbn [canon_load].
  unfold mbind, reader_bind, load_disc, load_u32.
  change (Z.to_nat (disc_size (length [Some (TList TU8); Some TString]))) with 1%nat. rewrite H1.
  change (payload_offset [Some (TList TU8); Some TString]) with 4.
  destruct r as [l|s]; cbn [result_tag is_err] in *; cbv [mbind outcome_bind mret reader_ret];
    [change (Z.to_nat (Z.of_nat 0)) with 0%nat|change (Z.to_nat (Z.of_nat 1)) with 1%nat]; cbv beta iota;
    by rewrite H2, H3.
Qed.

Section Run.
Context {W : Type} (RET_AREA : Z).

(** The static area, which no block covers. *)
Definition area_ok (m : wmem) : Prop :=
  (forall x, range RET_AREA 12 x -> is_Some (cells m !! x)) /\
  forall x, range RET_AREA 12 x -> ~ exists p n, blocks m !! p = Some n /\ p <= x < p + n.

Definition result_range (r : result_t function_list_u8_t function_string_t) : Prop :=
  0 <= result_ptr r < 2 ^ 32 /\ 0 <= result_len r < 2 ^ 32.

Lemma export_stores run arg arg0 s r m1 (w1 : W) :
  run (ListU8 arg arg0) s = Ok (r, (m1, w1)) -> area_ok m1 -> result_range r ->
  exists m2, __wasm_export_exports_function_run RET_AREA run arg arg0 s = Ok (RET_AREA, (m2, w1)) /\
    released (range RET_AREA 12) [] m1 m2 /\ (forall x, is_Some (cells m1 !! x) -> is_Some (cells m2 !! x)) /\
    load 1 m2 RET_AREA = Ok (Z.of_nat (result_tag r)) /\
    load 4 m2 (RET_AREA + 4) = Ok (result_ptr r) /\ load 4 m2 (RET_AREA + 8) = Ok (result_len r).
Proof.
  intros Hr [Ha _] [Hp Hl].
  destruct (store_result m1 RET_AREA (Z.of_nat (result_tag r)) (result_len r) (result_ptr r)) as
    (n1 & n2 & m2 & E1 & E2 & E3 & R & Hpres & L1 & L2 & L3); [done|unfold result_tag; destruct (is_err r); lia|done|done|].
  exists m2. split; [|by split_and!].
  unfold __wasm_export_exports_function_run, mbind, guest_bind, g_store, updating. rewrite Hr.
  destruct r; cbn [result_tag is_err result_len result_ptr] in E1, E2, E3;
    [change (Z.of_nat 0) with 0 in E1|change (Z.of_nat 1) with 1 in E1]; rewrite E1; cbn [mbind outcome_bind]; rewrite E2; cbn [mbind outcome_bind]; by rewrite E3.
Qed.

Lemma post_return_is m w r :
  load 1 m RET_AREA = Ok (Z.of_nat (result_tag r)) -> load 4 m (RET_AREA + 4) = Ok (result_ptr r) ->
  load 4 m (RET_AREA + 8) = Ok (result_len r) ->
  __wasm_export_exports_function_run_post_return (W := W) RET_AREA (m, w) =
  (if 0 <? result_len r then g_free (result_ptr r) else mret tt) (m, w).
Proof.
  intros L1 L2 L3. unfold __wasm_export_exports_function_run_post_return, mbind, guest_bind, reading, load_u8, load_u32.
  rewrite Z.add_0_r, L1. unfold result_tag. cbn [mbind outcome_bind].
  destruct (is_err r); [change (Z.of_nat 1) with 1|change (Z.of_nat 0) with 0]; cbv beta iota; rewrite L3; cbn [mbind outcome_bind];
    destruct (0 <? result_len r); by rewrite ?L2.
Qed.

Lemma post_return_frees m w r :
  load 1 m RET_AREA = Ok (Z.of_nat (result_tag r)) -> load 4 m (RET_AREA + 4) = Ok (result_ptr r) ->
  load 4 m (RET_AREA + 8) = Ok (result_len r) -> live (result_blocks r) m ->
  exists m', __wasm_export_exports_function_run_post_return (W := W) RET_AREA (m, w) = Ok (tt, (m', w)) /\
    released no_scratch (result_blocks r) m m'.
Proof.
  intros L1 L2 L3 Hl. rewrite (post_return_is m w r) by done. exact (frees_block (result_ptr r) (result_len r) m w Hl).
Qed.
End Run.

(** C38. The [run] export hands the host, at the address it returns, exactly the result
    the function returned, by the Canonical ABI, and changes nothing else; and the
    post-return the host then calls gives back the result's buffer - the response's
    or the error's - once, and nothing else, so that a whole call leaves the blocks
    the function left less the result's. *)
Theorem run_export_returns {W} RET_AREA run arg arg0 s r m1 (w1 w2 : W) :
  run (ListU8 arg arg0) s = Ok (r, (m1, w1)) -> area_ok RET_AREA m1 -> result_range r -> live (result_blocks r) m1 ->
  exists m2, __wasm_export_exports_function_run RET_AREA run arg arg0 s = Ok (RET_AREA, (m2, w1)) /\
    canon_load run_result_ty RET_AREA m2 = Ok (result_value r) /\ released (range RET_AREA 12) [] m1 m2 /\
    exists m3, __wasm_export_exports_function_run_post_return RET_AREA (m2, w2) = Ok (tt, (m3, w2)) /\
      released (range RET_AREA 12) (result_blocks r) m1 m3.
Proof.
  intros Hr Ha Hrange Hl. destruct (export_stores _ _ _ _ _ _ _ _ Hr Ha Hrange) as (m2 & E & R & _ & L1 & L2 & L3).
  exists m2. split; [done|]. split; [by apply canon_load_result|]. split; [done|].
  destruct (post_return_frees RET_AREA m2 w2 r L1 L2 L3) as (m3 & E3 & R3).
  { eapply live_released; [exact R|exact Hl|]. intros q _. apply not_elem_of_nil. }
  exists m3. split; [done|]. apply (released_trans _ [] (result_blocks r) m1 m2); [done| |].
  - eapply released_sub; [exact R3|]. by intros x [].
  - intros q _. apply not_elem_of_nil.
Qed.

(** A function that answers the request it is given back: its request's buffer. *)
Definition echo (request : function_list_u8_t) : guest unit (result_t function_list_u8_t function_string_t) :=
  mret (ROk request).
Definition echo_memory : wmem :=
  match (a ← (fun '(m, w) => let '(p, m') := area_alloc m 12 in Ok (p, (m', w))); p ← g_malloc 3; mret (a, p) : guest unit (Z * Z))
          (mem_init 65536, tt) with
  | Ok (_, (m, _)) => m
  | Trap _ => mem_init 0
  end.

Lemma run_export_returns_witness :
  blocks echo_memory = {[ 1048 := 3 ]} /\
  exists m2, __wasm_export_exports_function_run 1024 echo 1048 3 (echo_memory, tt) = Ok (1024, (m2, tt)) /\
    canon_load run_result_ty 1024 m2 = Ok (WCase 0 (Some (WPtrLen 1048 3))) /\ released (range 1024 12) [] echo_memory m2 /\
    exists m3, __wasm_export_exports_function_run_post_return 1024 (m2, tt) = Ok (tt, (m3, tt)) /\
      released (range 1024 12) [1048] echo_memory m3.
Proof.
  split; [vm_compute; reflexivity|].
  apply (run_export_returns 1024 echo 1048 3 (echo_memory, tt) (ROk (ListU8 1048 3)) echo_memory tt tt).
  - reflexivity.
  - split.
    + intros x Hx. unfold range in Hx.
      assert (x ∈ zrange 1024 12) as H by (apply elem_of_zrange; lia). clear Hx. revert x H.
      apply Forall_forall, (bool_decide_unpack _). vm_compute. exact I.
    + intros x Hx (p & n & Hp & Hn). unfold range in Hx.
      assert (blocks echo_memory = {[ 1048 := 3 ]}) as E by (vm_compute; reflexivity). rewrite E in Hp.
      apply lookup_singleton_Some in Hp as [<- <-]. lia.
  - vm_compute. split_and!; congruence.
  - apply (bool_decide_unpack _). vm_compute. exact I.
Defined.
