(* ===== verification/BindFreeProps.v ===== *)
(** The [_free] functions give back exactly the memory of the value an adapter
    returned. *)
From S2P Require Import Prelude LinMem BindTypes CanonAbi BindLift BindLower BindSpec BindFree BindFreeSpec.

(** ** The blocks of a WIT value *)

(** The blocks the canonical ABI allocates for the strings and byte lists of a
    value. *)
Fixpoint value_blocks (v : wval) : list Z :=
  match v with
  | WInt _ => []
  | WPtrLen p n => block_of p n
  | WRec vs => List.concat (map value_blocks vs)
  | WCase _ (Some v) => value_blocks v
  | WCase _ None => []
  end.

Section Values.
Context {W : Type}.

(** [free] gives back the blocks of every value of type [t] as the C value [f]. *)
Definition frees_value {A B} (t : wty) (f : wval -> A) (free : A -> guest W B) : Prop :=
  forall v, has_type t v -> exists b, frees (free (f v)) b (value_blocks v).

Lemma string_value_blocks v : has_type TString v -> string_blocks (as_string v) = value_blocks v.
Proof. by destruct v. Qed.

Lemma option_string_value_blocks v :
  has_type (TOption TString) v -> option_blocks string_blocks (as_option as_string v) = value_blocks v.
Proof. intros. by has_type_inv. Qed.

Lemma field_size_value_blocks v :
  has_type field_size_payload_ty v -> field_size_blocks (as_field_size_payload v) = value_blocks v.
Proof. intros. has_type_inv; cbn; by rewrite ?app_nil_r. Qed.

Lemma option_field_size_value_blocks v :
  has_type (TOption field_size_payload_ty) v ->
  option_blocks field_size_blocks (as_option as_field_size_payload v) = value_blocks v.
Proof. intros. has_type_inv; cbn; by rewrite ?app_nil_r. Qed.

Lemma dns_value_blocks v :
  has_type dns_error_payload_ty v ->
  option_blocks string_blocks (rcode (as_dns_error_payload v)) = value_blocks v.
Proof. intros. has_type_inv; cbn; by rewrite ?app_nil_r. Qed.

Lemma tls_value_blocks v :
  has_type tls_alert_received_payload_ty v ->
  option_blocks string_blocks (alert_message (as_tls_alert_received_payload v)) = value_blocks v.
Proof. intros. has_type_inv; cbn; by rewrite ?app_nil_r. Qed.

Lemma number_value_blocks t v :
  t = TU8 \/ t = TU16 \/ t = TU32 \/ t = TU64 \/ t = THandle -> has_type (TOption t) v -> value_blocks v = [].
Proof. intros Ht H. by destruct Ht as [->|[->|[->|[->| ->]]]]; has_type_inv. Qed.

Lemma error_code_value v :
  has_type error_code_ty v ->
  tag_agrees (as_error_code v) /\ error_code_blocks (as_error_code v) = value_blocks v.
Proof.
  intros H. destruct v as [| | |k o]; [destruct H..|].
  apply has_type_variant in H as (c & Hc & Ho).
  do 39 (destruct k as [|k];
    [ cbn in Hc; injection Hc as <-;
      first [ subst o; split; [exact I|reflexivity]
            | destruct Ho as (x & -> & Hx); split; [exact I|];
              cbn [as_error_code error_code_blocks ec_val value_blocks];
              first [ by apply option_string_value_blocks | by apply field_size_value_blocks
                    | by apply option_field_size_value_blocks | by apply dns_value_blocks
                    | by apply tls_value_blocks
                    | by rewrite (number_value_blocks TU32) by auto
                    | by rewrite (number_value_blocks TU64) by auto ] ]
    | ]).
  discriminate Hc.
Qed.

(** ** Freeing a value *)

Lemma frees_value_error_code : frees_value error_code_ty as_error_code wasi_http_types_error_code_free.
Proof.
  intros v H. apply error_code_value in H as [Ht <-]. eexists. by apply frees_error_code.
Qed.

Lemma frees_value_handle {A} (a : A) : frees_value THandle as_handle (fun _ => mret a).
Proof. intros v H. destruct v; try done. eexists. apply frees_ret. Qed.

(** An option and a result, given their cases. *)
Lemma frees_value_option {A B} t (f : wval -> A) (free : A -> guest W B) (g : option A -> guest W (option B)) :
  frees_value t f free -> (g None = mret None) ->
  (forall a, g (Some a) = (b ← free a; mret (Some b))) -> frees_value (TOption t) (as_option f) g.
Proof.
  intros Hf H0 H1 v H. destruct v as [| | |k o]; [destruct H..|].
  apply has_type_variant in H as (c & Hc & Ho). destruct k as [|[|k]]; simplify_eq/=.
  - eexists. rewrite H0. apply frees_ret.
  - destruct Ho as (x & -> & Hx). destruct (Hf x Hx) as [b Hb]. eexists. rewrite H1.
    by apply (frees_then _ Some).
Qed.

(** [value_blocks] of a payload that may be absent. *)
Definition payload_frees {A B} (c : option wty) (f : option wval -> A) (free : A -> guest W B) : Prop :=
  forall o, match c with None => o = None | Some t => exists x, o = Some x /\ has_type t x end ->
    exists b, frees (free (f o)) b (option_blocks value_blocks o).

Lemma payload_frees_some {A B} t (f : wval -> A) (free : A -> guest W B) :
  frees_value t f free -> payload_frees (Some t) (payload f) free.
Proof. intros H o (x & -> & Hx). by apply H. Qed.

Lemma payload_frees_none {A B} (f : option wval -> A) (g : A -> B) : payload_frees None f (fun a => mret (g a)).
Proof. intros o ->. eexists. apply frees_ret. Qed.

Lemma frees_value_result {A E B} c1 c2 (f : option wval -> A) (g : option wval -> E)
    (ok : A -> guest W B) (err : E -> guest W B) (free : result_t A E -> guest W B) :
  payload_frees c1 f ok -> payload_frees c2 g err ->
  (forall r, free r = match r with ROk a => ok a | RErr e => err e end) ->
  frees_value (TResult c1 c2) (as_result f g) free.
Proof.
  intros H1 H2 Hfree v H. destruct v as [| | |k o]; [destruct H..|].
  apply has_type_variant in H as (c & Hc & Ho).
  assert (value_blocks (WCase k o) = option_blocks value_blocks o) as -> by by destruct o.
  destruct k as [|[|k]]; simplify_eq/=; rewrite Hfree; [by apply H1|by apply H2].
Qed.

(** The error of a result freed in place. *)
Lemma payload_frees_error {A} (f : c_error_code -> guest W c_error_code) :
  (forall c, f c = wasi_http_types_error_code_free c) ->
  payload_frees (Some error_code_ty) (payload as_error_code)
    (fun err => err ← f err; mret (RErr err : result_t A c_error_code)).
Proof.
  intros Hf o (x & -> & Hx). destruct (frees_value_error_code x Hx) as [b Hb].
  eexists. unfold payload. cbn [default from_option id]. rewrite Hf. by apply (frees_then _ RErr).
Qed.
End Values.

Section Types.
Context {W : Type}.

Lemma frees_value_string : frees_value (W := W) TString as_string function_string_free.
Proof. intros v H. rewrite <- (string_value_blocks v H). eexists. apply frees_string. Qed.

Lemma frees_value_list_u8 : frees_value (W := W) (TList TU8) as_list_u8 function_list_u8_free.
Proof. intros v H. destruct v; try done. eexists. apply frees_list_u8. Qed.

Lemma frees_value_stream_error :
  frees_value (W := W) stream_error_ty as_stream_error wasi_io_streams_stream_error_free.
Proof.
  intros v H. destruct v as [| | |k o]; [destruct H..|]. apply has_type_variant in H as (c & Hc & Ho).
  unfold wasi_io_streams_stream_error_free.
  destruct k as [|[|k]]; simplify_eq/=; [destruct Ho as (x & -> & Hx); destruct x; try done|];
    eexists; apply frees_ret.
Qed.

Lemma frees_value_header_error :
  frees_value (W := W) header_error_ty as_header_error wasi_http_types_header_error_free.
Proof.
  intros v H. destruct v as [| | |k o]; [destruct H..|]. apply has_type_variant in H as (c & Hc & Ho).
  destruct k as [|[|[|k]]]; simplify_eq/=; eexists; apply frees_ret.
Qed.

Lemma frees_value_u64 {B} (b : B) : frees_value (W := W) TU64 as_int (fun _ => mret b).
Proof. intros v H. destruct v; try done. eexists. apply frees_ret. Qed.

Lemma frees_value_option_handle : frees_value (W := W) (TOption THandle) (as_option as_handle)
  (fun o => match o with Some _ => mret tt | None => mret tt end).
Proof. intros v H. rewrite (number_value_blocks THandle) by auto. eexists. destruct (as_option as_handle v); apply frees_ret. Qed.

Lemma frees_value_method : frees_value (W := W) method_ty as_method wasi_http_types_method_free.
Proof.
  intros v H. destruct v as [| | |k o]; [destruct H..|]. apply has_type_variant in H as (c & Hc & Ho).
  do 9 (destruct k as [|k]; [cbn in Hc; injection Hc as <-; subst o; eexists; apply frees_ret|]).
  destruct k as [|k]; [|discriminate Hc]. cbn in Hc. injection Hc as <-. destruct Ho as (x & -> & Hx).
  destruct (frees_value_string x Hx) as [b Hb]. eexists.
  apply (frees_then _ (fun o => Method 9 o)), (frees_then _ Some), Hb.
Qed.

Lemma frees_value_scheme : frees_value (W := W) scheme_ty as_scheme wasi_http_types_scheme_free.
Proof.
  intros v H. destruct v as [| | |k o]; [destruct H..|]. apply has_type_variant in H as (c & Hc & Ho).
  do 2 (destruct k as [|k]; [cbn in Hc; injection Hc as <-; subst o; eexists; apply frees_ret|]).
  destruct k as [|k]; [|discriminate Hc]. cbn in Hc. injection Hc as <-. destruct Ho as (x & -> & Hx).
  destruct (frees_value_string x Hx) as [b Hb]. eexists.
  apply (frees_then _ (fun o => Scheme 2 o)), (frees_then _ Some), Hb.
Qed.

Lemma frees_value_handle_result (free : result_t handle_t c_error_code -> guest W (result_t handle_t c_error_code)) :
  (forall r, free r = match r with
                      | ROk _ => mret r
                      | RErr e => e ← wasi_http_types_error_code_free e; mret (RErr e)
                      end) ->
  frees_value handle_result_ty as_handle_result free.
Proof.
  intros Hfree. eapply (frees_value_result _ _ _ _ (fun a => mret (ROk a)));
    [|by apply (payload_frees_error wasi_http_types_error_code_free)|].
  - intros o (x & -> & Hx). destruct x; try done. eexists. apply frees_ret.
  - intros r. rewrite Hfree. by destruct r.
Qed.

Lemma frees_value_trailers_result :
  frees_value (W := W) trailers_result_ty as_trailers_result wasi_http_types_result_option_own_trailers_error_code_free.
Proof.
  eapply (frees_value_result _ _ _ _ (fun a => mret (ROk a)));
    [|by apply (payload_frees_error wasi_http_types_error_code_free)|].
  - intros o (x & -> & Hx). cbn [option_blocks from_option]. rewrite (number_value_blocks THandle) by auto.
    eexists. apply frees_ret.
  - intros [[ok|]|e]; done.
Qed.

Lemma frees_value_finish_result :
  frees_value (W := W) finish_result_ty as_finish_result wasi_http_types_result_void_error_code_free.
Proof.
  eapply (frees_value_result _ _ _ _ (fun a => mret (ROk a)));
    [|by apply (payload_frees_error wasi_http_types_error_code_free)|].
  - apply (payload_frees_none unit_of ROk).
  - intros [[]|e]; done.
Qed.

Lemma frees_value_result_ok {A} t (f : wval -> A) (ok : A -> guest W A) (free : result_t A unit -> guest W (result_t A unit)) :
  frees_value t f ok ->
  (forall r, free r = match r with ROk a => a ← ok a; mret (ROk a) | RErr _ => mret r end) ->
  frees_value (TResult (Some t) None) (as_result (payload f) unit_of) free.
Proof.
  intros Hok Hfree. eapply (frees_value_result _ _ _ _ (fun a => a ← ok a; mret (ROk a)) (fun e => mret (RErr e)));
    [|apply (payload_frees_none unit_of RErr)|intros r; rewrite Hfree; by destruct r].
  intros o (x & -> & Hx). destruct (Hok x Hx) as [b Hb]. eexists. apply (frees_then _ ROk), Hb.
Qed.
Lemma frees_value_own_void (free : result_own_void -> guest W unit) :
  (forall r, free r = mret tt) -> frees_value own_result_ty as_own_result free.
Proof.
  intros Hfree. eapply (frees_value_result _ _ _ _ (fun _ => mret tt) (fun _ => mret tt));
    [apply payload_frees_some, frees_value_handle|apply (payload_frees_none unit_of (fun _ => tt))|].
  intros r. rewrite Hfree. by destruct r.
Qed.

Lemma frees_value_number_option {A} t (f : wval -> A) :
  t = TU8 \/ t = TU16 \/ t = TU32 \/ t = TU64 \/ t = THandle ->
  frees_value (W := W) (TOption t) (as_option f) (fun o => match o with Some _ => mret tt | None => mret tt end).
Proof.
  intros Ht v H. rewrite (number_value_blocks t v) by done. eexists. destruct (as_option f v); apply frees_ret.
Qed.

(** A list of numbers or bytes, whatever its C struct. *)
Lemma frees_value_list {A} t (f : wval -> A) (ptr len : A -> Z) :
  (forall p n, ptr (f (WPtrLen p n)) = p /\ len (f (WPtrLen p n)) = n) ->
  frees_value (W := W) (TList t) f (fun l => if 0 <? len l then g_free (ptr l) else mret tt).
Proof.
  intros Hf v H. destruct v as [|p n| |]; try done. destruct (Hf p n) as [-> ->]. eexists. apply frees_block.
Qed.

Lemma frees_value_dns :
  frees_value (W := W) dns_error_payload_ty as_dns_error_payload wasi_http_types_dns_error_payload_free.
Proof. intros v H. rewrite <- dns_value_blocks by done. eexists. apply frees_dns_error. Qed.
Lemma frees_value_tls :
  frees_value (W := W) tls_alert_received_payload_ty as_tls_alert_received_payload wasi_http_types_tls_alert_received_payload_free.
Proof. intros v H. rewrite <- tls_value_blocks by done. eexists. apply frees_tls_alert. Qed.
Lemma frees_value_field_size :
  frees_value (W := W) field_size_payload_ty as_field_size_payload wasi_http_types_field_size_payload_free.
Proof. intros v H. rewrite <- field_size_value_blocks by done. eexists. apply frees_field_size. Qed.
End Types.

(** ** All of them *)

Definition as_field_value (v : wval) : wasi_http_types_field_value_t :=
  match v with WPtrLen p n => FieldValue p n | _ => FieldValue 0 0 end.

Definition as_list_pollable (v : wval) : wasi_io_poll_list_borrow_pollable_t :=
  match v with WPtrLen p n => ListPollable p n | _ => ListPollable 0 0 end.

Section All.
Context {W : Type}.
Abbreviation frees_value := (frees_value (W := W)).

(** Of results. *)
Definition results_freed : Prop :=
  frees_value list_u8_result_ty as_list_u8_result wasi_io_streams_result_list_u8_stream_error_free /\
  frees_value u64_result_ty as_u64_result wasi_io_streams_result_u64_stream_error_free /\
  frees_value void_result_ty as_void_result wasi_io_streams_result_void_stream_error_free /\
  frees_value header_result_ty as_header_result wasi_http_types_result_void_header_error_free /\
  frees_value own_header_result_ty as_own_header_result wasi_http_types_result_own_fields_header_error_free /\
  frees_value own_result_ty as_own_result wasi_http_types_result_own_input_stream_void_free /\
  frees_value own_result_ty as_own_result wasi_http_types_result_own_output_stream_void_free /\
  frees_value own_result_ty as_own_result wasi_http_types_result_own_incoming_body_void_free /\
  frees_value own_result_ty as_own_result wasi_http_types_result_own_outgoing_body_void_free /\
  frees_value (TResult None None) (as_result unit_of unit_of) wasi_http_types_result_void_void_free /\
  frees_value finish_result_ty as_finish_result wasi_http_types_result_void_error_code_free /\
  frees_value handle_result_ty as_handle_result
    wasi_http_outgoing_handler_result_own_future_incoming_response_error_code_free /\
  frees_value handle_result_ty as_handle_result wasi_http_types_result_own_outgoing_response_error_code_free /\
  frees_value handle_result_ty as_handle_result wasi_http_types_result_own_incoming_response_error_code_free /\
  frees_value trailers_result_ty as_trailers_result wasi_http_types_result_option_own_trailers_error_code_free /\
  frees_value (TResult (Some handle_result_ty) None) (as_result (payload as_handle_result) unit_of)
    wasi_http_types_result_result_own_incoming_response_error_code_void_free /\
  frees_value (TResult (Some trailers_result_ty) None) (as_result (payload as_trailers_result) unit_of)
    wasi_http_types_result_result_option_own_trailers_error_code_void_free /\
  frees_value future_response_ty as_future_response
    wasi_http_types_option_result_result_own_incoming_response_error_code_void_free /\
  frees_value future_trailers_ty as_future_trailers
    wasi_http_types_option_result_result_option_own_trailers_error_code_void_free.

Lemma all_results_freed : results_freed.
Proof.
  assert (frees_value (TResult (Some handle_result_ty) None) (as_result (payload as_handle_result) unit_of)
    wasi_http_types_result_result_own_incoming_response_error_code_void_free) as Hr.
  { by eapply frees_value_result_ok; [by apply frees_value_handle_result|]. }
  assert (frees_value (TResult (Some trailers_result_ty) None) (as_result (payload as_trailers_result) unit_of)
    wasi_http_types_result_result_option_own_trailers_error_code_void_free) as Ht.
  { by eapply frees_value_result_ok; [apply frees_value_trailers_result|]. }
  unfold results_freed. split_and!; try done.
  - eapply frees_value_result; [by apply payload_frees_some, frees_value_list_u8
                               |by apply payload_frees_some, frees_value_stream_error|]. by intros [].
  - eapply (frees_value_result _ _ _ _ (fun _ => mret tt)); [apply payload_frees_some, frees_value_u64
                               |by apply payload_frees_some, frees_value_stream_error|]. by intros [].
  - eapply (frees_value_result _ _ _ _ (fun _ => mret tt)); [apply (payload_frees_none unit_of (fun _ => tt))
                               |by apply payload_frees_some, frees_value_stream_error|]. by intros [].
  - eapply (frees_value_result _ _ _ _ (fun _ => mret tt)); [apply (payload_frees_none unit_of (fun _ => tt))
                               |by apply payload_frees_some, frees_value_header_error|]. by intros [].
  - eapply (frees_value_result _ _ _ _ (fun _ => mret tt)); [apply payload_frees_some, frees_value_handle
                               |by apply payload_frees_some, frees_value_header_error|]. by intros [].
  - apply frees_value_own_void. by intros [].
  - apply frees_value_own_void. by intros [].
  - apply frees_value_own_void. by intros [].
  - apply frees_value_own_void. by intros [].
  - eapply (frees_value_result _ _ _ _ (fun _ => mret tt) (fun _ => mret tt));
      [apply (payload_frees_none unit_of (fun _ => tt))..|]. by intros [].
  - apply frees_value_finish_result.
  - by apply frees_value_handle_result.
  - by apply frees_value_handle_result.
  - by apply frees_value_handle_result.
  - apply frees_value_trailers_result.
  - by eapply frees_value_option; [exact Hr|..].
  - by eapply frees_value_option; [exact Ht|..].
Qed.

(** Of options and variants. *)
Definition variants_freed : Prop :=
  frees_value stream_error_ty as_stream_error wasi_io_streams_stream_error_free /\
  frees_value header_error_ty as_header_error wasi_http_types_header_error_free /\
  frees_value method_ty as_method wasi_http_types_method_free /\
  frees_value scheme_ty as_scheme wasi_http_types_scheme_free /\
  frees_value (TOption scheme_ty) (as_option as_scheme) wasi_http_types_option_scheme_free /\
  frees_value dns_error_payload_ty as_dns_error_payload wasi_http_types_dns_error_payload_free /\
  frees_value tls_alert_received_payload_ty as_tls_alert_received_payload wasi_http_types_tls_alert_received_payload_free /\
  frees_value field_size_payload_ty as_field_size_payload wasi_http_types_field_size_payload_free /\
  frees_value (TOption field_size_payload_ty) (as_option as_field_size_payload)
    wasi_http_types_option_field_size_payload_free /\
  frees_value error_code_ty as_error_code wasi_http_types_error_code_free /\
  frees_value error_code_ty as_error_code wasi_http_outgoing_handler_error_code_free /\
  frees_value (TOption error_code_ty) (as_option as_error_code) wasi_http_types_option_error_code_free /\
  frees_value (TOption TU8) (as_option as_int) function_option_u8_free /\
  frees_value (TOption TU16) (as_option as_int) function_option_u16_free /\
  frees_value (TOption TU32) (as_option as_int) function_option_u32_free /\
  frees_value (TOption TU64) (as_option as_int) function_option_u64_free /\
  frees_value (TOption TU64) (as_option as_int) wasi_http_types_option_duration_free /\
  frees_value (TOption THandle) (as_option as_handle) wasi_http_types_option_own_trailers_free /\
  frees_value (TOption THandle) (as_option as_handle) wasi_http_outgoing_handler_option_own_request_options_free.

Lemma all_variants_freed : variants_freed.
Proof.
  unfold variants_freed. split_and!; try (apply frees_value_number_option; tauto).
  - apply frees_value_stream_error.
  - apply frees_value_header_error.
  - apply frees_value_method.
  - apply frees_value_scheme.
  - by eapply frees_value_option; [apply frees_value_scheme|..].
  - apply frees_value_dns.
  - apply frees_value_tls.
  - apply frees_value_field_size.
  - by eapply frees_value_option; [apply frees_value_field_size|..].
  - apply frees_value_error_code.
  - apply frees_value_error_code.
  - by eapply frees_value_option; [apply frees_value_error_code|..].
Qed.

(** Of strings and of lists of numbers and bytes. *)
Definition lists_freed : Prop :=
  frees_value TString as_string function_string_free /\
  frees_value (TOption TString) (as_option as_string) function_option_string_free /\
  frees_value (TList TU8) as_list_u8 function_list_u8_free /\
  frees_value (TList TU8) as_field_value wasi_http_types_field_value_free /\
  frees_value (TList TU32) as_list_u32 function_list_u32_free /\
  frees_value (TList THandle) as_list_pollable wasi_io_poll_list_borrow_pollable_free.

Lemma all_lists_freed : lists_freed.
Proof.
  unfold lists_freed. split_and!.
  - apply frees_value_string.
  - by eapply frees_value_option; [apply frees_value_string|..].
  - apply frees_value_list_u8.
  - by apply (frees_value_list _ as_field_value fv_ptr fv_len).
  - by apply (frees_value_list _ as_list_u32 lu32_ptr lu32_len).
  - by apply (frees_value_list _ as_list_pollable lp_ptr lp_len).
Qed.
End All.

(** C22. The [_free] function of every result, option, variant, string and list of
    numbers, bytes or handles of the imports gives back, of any value of its WIT type,
    exactly the blocks the canonical ABI allocated in the guest for that value -
    each once, in any memory where they are live - and touches nothing else. (A
    handle is not dropped.) The one of the run export's result gives back the error
    string's block; the list of an [ok] stays. *)
Theorem free_gives_back {W} :
  results_freed (W := W) /\ variants_freed (W := W) /\ lists_freed (W := W) /\
  (forall r, exists b, frees (W := W) (function_result_list_u8_string_free r) b
     match r with ROk _ => [] | RErr err => string_blocks err end).
Proof.
  split_and!; [apply all_results_freed|apply all_variants_freed|apply all_lists_freed|].
  intros [l|err]; eexists; [apply frees_ret|apply (frees_then _ RErr), frees_string].
Qed.

(** An internal-error with a reason of five bytes at 1024. *)
Definition reason_value : wval := WCase 1 (Some (WCase 38 (Some (WCase 1 (Some (WPtrLen 1024 5)))))).

Lemma free_gives_back_witness :
  value_blocks reason_value = [1024] /\
  exists b, frees (W := unit) (wasi_http_types_option_error_code_free (as_option as_error_code reason_value)) b [1024].
Proof.
  split; [reflexivity|].
  destruct (free_gives_back (W := unit)) as (_ & (_ & _ & _ & _ & _ & _ & _ & _ & _ & _ & _ & H & _) & _).
  apply (H reason_value). cbn. lia.
Defined.
