(* ===== verification/CString.v ===== *)
(** What the C sources use of <string.h>, <strings.h>, <ctype.h> and printf:
    functions on byte strings. A C string that the code only reads is its
    content, the bytes before the terminating NUL. *)
From S2P Require Import Prelude.
From Stdlib Require Import Strings.Byte.

(** ** Characters *)

Definition NUL : byte := x00.

(** [tolower] in the C locale. *)
Definition tolower (b : byte) : byte :=
  let z := byte_val b in if (65 <=? z) && (z <=? 90) then val_byte (z + 32) else b.

(** A decimal digit's character. *)
Definition digit (z : Z) : byte := val_byte (48 + z).

(** ** Comparison and search *)

(** [strcmp(a, b) == 0] *)
Definition strcmp_eq (a b : bytes) : bool := bool_decide (a = b).

(** [strncmp(a, b, n) == 0]: equal, or equal in their first [n] characters. *)
Definition strncmp_eq (a b : bytes) (n : nat) : bool := bool_decide (take n a = take n b).

(** [strcasecmp(a, b) == 0] *)
Definition strcasecmp_eq (a b : bytes) : bool := bool_decide (map tolower a = map tolower b).

(** [strchr(s, c)] as an index into [s], for a [c] that is not NUL. *)
Fixpoint strchr (s : bytes) (c : byte) : option nat :=
  match s with
  | [] => None
  | b :: s => if decide (b = c) then Some O else S <$> strchr s c
  end.

(** The content of the C string that starts a buffer. *)
Fixpoint until_nul (bs : bytes) : bytes :=
  match bs with
  | [] => []
  | b :: bs => if decide (b = NUL) then [] else b :: until_nul bs
  end.

(** The content [strndup(p, n)] copies from a buffer of at least [n] bytes. *)
Definition strndup_content (bs : bytes) (n : nat) : bytes := until_nul (take n bs).

(** ** Decimal formatting *)

(** The decimal digits of [z >= 0], most significant first; [fuel] bounds their
    number. *)
Fixpoint digits (fuel : nat) (z : Z) : bytes :=
  match fuel with
  | O => []
  | S fuel => if z <? 10 then [digit z] else digits fuel (z / 10) ++ [digit (z mod 10)]
  end.

(** [%d], [%lld]: 20 digits are more than a 64-bit integer has. *)
Definition fmt_d (z : Z) : bytes :=
  if z <? 0 then lit "-" ++ digits 20 (- z) else digits 20 z.

(** [%0<w>u], [%0<w>lld]: padded with zeros to [w] characters, sign included. *)
Definition fmt_0d (w : nat) (z : Z) : bytes :=
  let ds := digits 20 (Z.abs z) in
  let sign := if z <? 0 then lit "-" else [] in
  sign ++ replicate (w - length sign - length ds) (digit 0) ++ ds.

(** The value of a string of decimal digits. *)
Definition digit_val (b : byte) : Z := byte_val b - 48.
Definition dec_value (ds : bytes) : Z := fold_left (fun a d => 10 * a + digit_val d) ds 0.

(** ** Facts *)

Lemma strcmp_eq_spec a b : strcmp_eq a b = true <-> a = b.
Proof. unfold strcmp_eq. apply bool_decide_eq_true. Qed.

Lemma strncmp_eq_prefix s p : strncmp_eq s p (length p) = true <-> exists r, s = p ++ r.
Proof.
  unfold strncmp_eq. rewrite bool_decide_eq_true, (firstn_all p). split.
  - intros E. exists (drop (length p) s). rewrite <- E at 1. by rewrite take_drop.
  - intros (r & ->). by rewrite take_app_length.
Qed.

Lemma strchr_Some s c i :
  strchr s c = Some i <-> exists r, s = take i s ++ c :: r /\ c ∉ take i s /\ (i < length s)%nat.
Proof.
  revert i. induction s as [|b s IH]; intros i; simpl.
  - split; [done|]. intros (r & _ & _ & H). simpl in H. lia.
  - destruct (decide (b = c)) as [->|Hne].
    + split.
      * intros [= <-]. exists s. split_and!; [done|simpl; set_solver|simpl; lia].
      * intros (r & E & Hn & Hi). destruct i; [done|]. simpl in Hn. set_solver.
    + rewrite fmap_Some. setoid_rewrite IH. split.
      * intros (j & (r & E & Hn & Hj) & ->). exists r. simpl. split_and!; [|set_solver|lia].
        by rewrite <- E.
      * intros (r & E & Hn & Hi). destruct i as [|j]; simpl in *.
        { injection E as -> _. done. }
        exists j. split; [|done]. exists r. injection E as E. split_and!; [done|set_solver|lia].
Qed.

Lemma strchr_None s c : strchr s c = None <-> c ∉ s.
Proof.
  induction s as [|b s IH]; simpl; [set_solver|].
  destruct (decide (b = c)) as [->|Hne].
  - split; [done|]. set_solver.
  - rewrite fmap_None, IH. set_solver.
Qed.

Lemma until_nul_no_nul bs : NUL ∉ until_nul bs.
Proof.
  induction bs as [|b bs IH]; simpl; [set_solver|].
  destruct (decide (b = NUL)); set_solver.
Qed.

Lemma until_nul_id bs : NUL ∉ bs -> until_nul bs = bs.
Proof.
  induction bs as [|b bs IH]; simpl; [done|]. intros H.
  rewrite decide_False by set_solver. rewrite IH by set_solver. done.
Qed.

Lemma until_nul_app bs r : NUL ∉ bs -> until_nul (bs ++ NUL :: r) = bs.
Proof.
  induction bs as [|b bs IH]; simpl; intros H; [done|].
  rewrite decide_False by set_solver. rewrite IH by set_solver. done.
Qed.

Lemma length_until_nul bs : (length (until_nul bs) <= length bs)%nat.
Proof. induction bs as [|b bs IH]; simpl; [lia|]. destruct (decide (b = NUL)); simpl; lia. Qed.

Lemma byte_val_digit z : 0 <= z < 10 -> byte_val (digit z) = 48 + z.
Proof. intros. unfold digit. rewrite byte_val_byte. apply Z.mod_small. lia. Qed.

Lemma digit_val_digit z : 0 <= z < 10 -> digit_val (digit z) = z.
Proof. intros. unfold digit_val. rewrite byte_val_digit by lia. lia. Qed.

Lemma dec_value_app ds d : dec_value (ds ++ [d]) = 10 * dec_value ds + digit_val d.
Proof. unfold dec_value. by rewrite fold_left_app. Qed.

Lemma dec_value_digits fuel z : 0 <= z < 10 ^ Z.of_nat fuel -> dec_value (digits fuel z) = z.
Proof.
  revert z. induction fuel as [|fuel IH]; intros z Hz; simpl digits.
  - change (10 ^ Z.of_nat 0) with 1 in Hz. unfold dec_value. simpl. lia.
  - rewrite Nat2Z.inj_succ, Z.pow_succ_r in Hz by lia.
    destruct (Z.ltb_spec z 10).
    + unfold dec_value. cbn [fold_left]. rewrite digit_val_digit by lia. lia.
    + rewrite dec_value_app, IH, digit_val_digit.
      * pose proof (Z.div_mod z 10). lia.
      * apply Z.mod_pos_bound. lia.
      * split; [apply Z.div_pos; lia|]. apply Z.div_lt_upper_bound; lia.
Qed.

Lemma length_digits fuel z n :
  (0 < n <= fuel)%nat -> 0 <= z < 10 ^ Z.of_nat n -> (length (digits fuel z) <= n)%nat.
Proof.
  revert z n. induction fuel as [|fuel IH]; intros z n Hn Hz; [lia|]. simpl.
  destruct (Z.ltb_spec z 10); simpl; [lia|].
  destruct n as [|[|n]]; [lia| |].
  - change (10 ^ Z.of_nat 1) with 10 in Hz. lia.
  - rewrite length_app. simpl.
    rewrite Nat2Z.inj_succ, Z.pow_succ_r in Hz by lia.
    assert (length (digits fuel (z / 10)) <= S n)%nat; [|lia].
    apply IH; [lia|]. split; [apply Z.div_pos; lia|]. apply Z.div_lt_upper_bound; lia.
Qed.

Lemma digits_nonempty fuel z : (0 < fuel)%nat -> (0 < length (digits fuel z))%nat.
Proof.
  destruct fuel; [lia|]. intros _. simpl. destruct (z <? 10); simpl; [lia|].
  rewrite length_app. simpl. lia.
Qed.

Lemma dec_value_zeros n ds : dec_value (replicate n (digit 0) ++ ds) = dec_value ds.
Proof.
  unfold dec_value. rewrite fold_left_app. f_equal.
  induction n as [|n IH]; simpl; [done|]. rewrite digit_val_digit by lia. apply IH.
Qed.

(** A non-negative integer of at most [w] digits prints to exactly [w]
    characters that read back as it. *)
Lemma length_fmt_0d w z :
  (0 < w <= 20)%nat -> 0 <= z < 10 ^ Z.of_nat w -> length (fmt_0d w z) = w.
Proof.
  intros Hw Hz. unfold fmt_0d. destruct (Z.ltb_spec z 0); [lia|].
  cbn [app length]. rewrite length_app, length_replicate, Z.abs_eq, Nat.sub_0_r by lia.
  pose proof (length_digits 20 z w ltac:(lia) Hz). lia.
Qed.

Lemma dec_value_fmt_0d w z :
  0 <= z < 10 ^ 20 -> dec_value (fmt_0d w z) = z.
Proof.
  intros Hz. unfold fmt_0d. destruct (Z.ltb_spec z 0); [lia|].
  cbn [app]. rewrite dec_value_zeros, Z.abs_eq by lia. apply (dec_value_digits 20). exact Hz.
Qed.

#[export] Hint Resolve until_nul_no_nul : guest.
