(* ===== verification/Proto.v ===== *)
(** The protobuf messages the C sources read and write, as nanopb declares them
    (crates/guestfn/templates/c/src/fnv1/google/protobuf/struct.pb.h and
    run_function.pb.h, the same files in examples/cert-rotator). A repeated field
    is a count and a pointer to an array in the heap (Machine.v); a [oneof] is an
    inductive type, its [which_] member being the constructor; a [char *] is its
    content, NULL being [None]: nothing writes through one.

    Messages the sources never look into (context, credentials, schemas, ...) are
    left out of the request, whose fields are only read, and of the response are
    kept as counts and pointers where the sources clear or copy them. *)
From S2P Require Import Prelude.
From Stdlib Require Export Floats.SpecFloat.

(** ** google.protobuf *)

Record google_protobuf_Struct := PbStruct { fields_count : Z; fields : option Z }.
Record google_protobuf_ListValue := PbList { values_count : Z; values : option Z }.

(** [which_kind] 0 is [Value_init_zero]; 1 to 6 are the members' tags. *)
Inductive google_protobuf_Value :=
  | KindNone
  | null_value
  | number_value (d : spec_float)
  | string_value (s : option bytes)
  | bool_value (b : bool)
  | struct_value (s : google_protobuf_Struct)
  | list_value (l : google_protobuf_ListValue).

Record google_protobuf_Struct_FieldsEntry := FieldsEntry {
  fe_key : option bytes;
  fe_has_value : bool;
  fe_value : google_protobuf_Value;
}.

Definition google_protobuf_Struct_init_zero : google_protobuf_Struct := PbStruct 0 None.
Definition google_protobuf_Value_init_zero : google_protobuf_Value := KindNone.
Definition FieldsEntry_zero : google_protobuf_Struct_FieldsEntry := FieldsEntry None false KindNone.

(** ** fnv1 *)

Definition fnv1_Severity_SEVERITY_FATAL : Z := 1.
Definition fnv1_Severity_SEVERITY_NORMAL : Z := 3.
Definition fnv1_Target_TARGET_COMPOSITE : Z := 1.
Definition fnv1_Target_TARGET_COMPOSITE_AND_CLAIM : Z := 2.
Definition fnv1_Status_STATUS_CONDITION_TRUE : Z := 2.

Record fnv1_Resource_ConnectionDetailsEntry := DetailsEntry {
  cd_key : option bytes;
  cd_value : option bytes;
}.
Definition DetailsEntry_zero : fnv1_Resource_ConnectionDetailsEntry := DetailsEntry None None.

Record fnv1_Resource := Resource {
  has_resource : bool;
  resource : google_protobuf_Struct;
  connection_details_count : Z;
  connection_details : option Z;
  ready : Z;
}.
Definition fnv1_Resource_init_zero : fnv1_Resource :=
  Resource false google_protobuf_Struct_init_zero 0 None 0.

Record fnv1_State_ResourcesEntry := ResourcesEntry {
  re_key : option bytes;
  re_has_value : bool;
  re_value : fnv1_Resource;
}.
Definition ResourcesEntry_zero : fnv1_State_ResourcesEntry :=
  ResourcesEntry None false fnv1_Resource_init_zero.

Record fnv1_State := State {
  has_composite : bool;
  composite : fnv1_Resource;
  resources_count : Z;
  resources : option Z;
}.
Definition fnv1_State_init_zero : fnv1_State := State false fnv1_Resource_init_zero 0 None.

Record fnv1_Resources := Resources { items_count : Z; items : option Z }.
Definition fnv1_Resources_init_zero : fnv1_Resources := Resources 0 None.

Record fnv1_RequiredResourcesEntry := RequiredEntry {
  rr_key : option bytes;
  rr_has_value : bool;
  rr_value : fnv1_Resources;
}.

Record fnv1_RunFunctionRequest := Request {
  rq_has_meta : bool;
  rq_meta_tag : option bytes;
  has_observed : bool;
  observed : fnv1_State;
  rq_has_desired : bool;
  rq_desired : fnv1_State;
  has_input : bool;
  input : google_protobuf_Struct;
  required_resources_count : Z;
  required_resources : option Z;
}.

Inductive selector_match :=
  | MatchNone
  | match_name (name : option bytes)
  | match_labels (count : Z) (labels : option Z).
Record fnv1_ResourceSelector := Selector {
  api_version : option bytes;
  sel_kind : option bytes;
  sel_match : selector_match;
  namespace : option bytes;
}.
Record fnv1_Requirements_ResourcesEntry := RequirementsEntry {
  rqe_key : option bytes;
  rqe_has_value : bool;
  rqe_value : fnv1_ResourceSelector;
}.
Definition RequirementsEntry_zero : fnv1_Requirements_ResourcesEntry :=
  RequirementsEntry None false (Selector None None MatchNone None).

(** The counts and pointers of the deprecated and unused maps first. *)
Record fnv1_Requirements := Requirements {
  extra_resources : Z * option Z;
  schemas : Z * option Z;
  req_resources_count : Z;
  req_resources : option Z;
}.
Definition fnv1_Requirements_init_zero : fnv1_Requirements := Requirements (0, None) (0, None) 0 None.

Record fnv1_Result := Result {
  severity : Z;
  message : option bytes;
  res_reason : option bytes;
  has_target : bool;
  target : Z;
}.
Definition fnv1_Result_zero : fnv1_Result := Result 0 None None false 0.

Record fnv1_Condition := Condition {
  cond_type : option bytes;
  status : Z;
  cond_reason : option bytes;
  cond_message : option bytes;
  cond_has_target : bool;
  cond_target : Z;
}.
Definition fnv1_Condition_zero : fnv1_Condition := Condition None 0 None None false 0.

Record fnv1_ResponseMeta := ResponseMeta {
  tag : option bytes;
  has_ttl : bool;
  ttl_seconds : Z;
  ttl_nanos : Z;
}.

Record fnv1_RunFunctionResponse := Response {
  has_meta : bool;
  meta : fnv1_ResponseMeta;
  has_desired : bool;
  desired : fnv1_State;
  results_count : Z;
  results : option Z;
  has_context : bool;
  context : google_protobuf_Struct;
  has_requirements : bool;
  requirements : fnv1_Requirements;
  conditions_count : Z;
  conditions : option Z;
  has_output : bool;
  output : google_protobuf_Struct;
}.
Definition fnv1_RunFunctionResponse_init_zero : fnv1_RunFunctionResponse :=
  Response false (ResponseMeta None false 0 0) false fnv1_State_init_zero 0 None
    false google_protobuf_Struct_init_zero false fnv1_Requirements_init_zero 0 None
    false google_protobuf_Struct_init_zero.

(** The fields the sources assign, one at a time. *)
Definition with_meta (m : fnv1_ResponseMeta) (r : fnv1_RunFunctionResponse) : fnv1_RunFunctionResponse :=
  Response true m (has_desired r) (desired r) (results_count r) (results r) (has_context r)
    (context r) (has_requirements r) (requirements r) (conditions_count r) (conditions r)
    (has_output r) (output r).
Definition with_desired (d : fnv1_State) (r : fnv1_RunFunctionResponse) : fnv1_RunFunctionResponse :=
  Response (has_meta r) (meta r) true d (results_count r) (results r) (has_context r)
    (context r) (has_requirements r) (requirements r) (conditions_count r) (conditions r)
    (has_output r) (output r).
Definition with_results (p : option Z) (n : Z) (r : fnv1_RunFunctionResponse) : fnv1_RunFunctionResponse :=
  Response (has_meta r) (meta r) (has_desired r) (desired r) n p (has_context r)
    (context r) (has_requirements r) (requirements r) (conditions_count r) (conditions r)
    (has_output r) (output r).
Definition with_requirements (q : fnv1_Requirements) (r : fnv1_RunFunctionResponse) : fnv1_RunFunctionResponse :=
  Response (has_meta r) (meta r) (has_desired r) (desired r) (results_count r) (results r) (has_context r)
    (context r) true q (conditions_count r) (conditions r)
    (has_output r) (output r).
Definition with_conditions (p : option Z) (n : Z) (r : fnv1_RunFunctionResponse) : fnv1_RunFunctionResponse :=
  Response (has_meta r) (meta r) (has_desired r) (desired r) (results_count r) (results r) (has_context r)
    (context r) (has_requirements r) (requirements r) n p
    (has_output r) (output r).
