(* ===== verification/Calendar.v ===== *)
(** The calendar of the cert-rotator guest (examples/cert-rotator/src/tls.cpp):
    days since 1970-01-01 in the proleptic Gregorian calendar, and the stamps
    made of them. [int64_t] arithmetic is exact in the ranges the theorems state;
    [unsigned] arithmetic wraps where the code relies on it. *)
From S2P Require Import Prelude CString.
From Stdlib Require Import Strings.Byte.

Definition unsigned (z : Z) : Z := uwrap 32 z.

(** ** The code *)

(** Each [int64_t] expression goes through [i64]: the plain functions have it the
    identity, the checked ones stop at an overflow, which is undefined. *)
Section Int64.
Context {M : Type -> Type} `{MRet M, MBind M} (i64 : Z -> M Z).

Definition days_from_civil_with (y m d : Z) : M Z :=
  y ← i64 (y - (if m <=? 2 then 1 else 0));
  n ← (if 0 <=? y then mret y else i64 (y - 399));
  era ← i64 (Z.quot n 400);
  k ← i64 (era * 400);
  k ← i64 (y - k);
  let yoe := unsigned k in
  let doy := unsigned (unsigned (153 * unsigned (m + unsigned (if 2 <? m then -3 else 9)) + 2) / 5 + d - 1) in
  let doe := unsigned (yoe * 365 + yoe / 4 - yoe / 100 + doy) in
  k ← i64 (era * 146097);
  k ← i64 (k + doe);
  i64 (k - 719468).

(** [y], [m] and [d]. *)
Definition civil_from_days_with (z : Z) : M (Z * Z * Z) :=
  z ← i64 (z + 719468);
  n ← (if 0 <=? z then mret z else i64 (z - 146096));
  era ← i64 (Z.quot n 146097);
  k ← i64 (era * 146097);
  k ← i64 (z - k);
  let doe := unsigned k in
  let yoe := unsigned (doe - doe / 1460 + doe / 36524 - doe / 146096) / 365 in
  k ← i64 (era * 400);
  y ← i64 (yoe + k);
  let doy := unsigned (doe - unsigned (365 * yoe + yoe / 4 - yoe / 100)) in
  let mp := unsigned (5 * doy + 2) / 153 in
  let d := unsigned (doy - unsigned (153 * mp + 2) / 5 + 1) in
  let m := unsigned (mp + unsigned (if mp <? 10 then 3 else -9)) in
  y ← i64 (y + (if m <=? 2 then 1 else 0));
  mret (y, m, d).
End Int64.

Record Civil := MkCivil { year : Z; month : Z; day : Z; hour : Z; minute : Z; second : Z }.

Section Int64.
Context {M : Type -> Type} `{MRet M, MBind M} (i64 : Z -> M Z).

Definition civil_with (unix_seconds : Z) : M Civil :=
  days ← i64 (Z.quot unix_seconds 86400);
  rem ← i64 (Z.rem unix_seconds 86400);
  '(days, rem) ← (if rem <? 0 then
                    rem ← i64 (rem + 86400);
                    days ← i64 (days - 1);
                    mret (days, rem)
                  else mret (days, rem));
  '(y, m, d) ← civil_from_days_with i64 days;
  mret (MkCivil y m d (unsigned (Z.quot rem 3600)) (unsigned (Z.quot (Z.rem rem 3600) 60)) (unsigned (Z.rem rem 60))).
End Int64.

(** The functions as they are used, where nothing overflows ([calendar_in_range]). *)
Definition plain (A : Type) : Type := A.
#[export] Instance plain_ret : MRet plain := fun A a => a.
#[export] Instance plain_bind : MBind plain := fun A B f a => f a.

Definition days_from_civil (y m d : Z) : Z := days_from_civil_with (M := plain) (fun z => z) y m d.
Definition civil_from_days (z : Z) : Z * Z * Z := civil_from_days_with (M := plain) (fun z => z) z.
Definition civil (unix_seconds : Z) : Civil := civil_with (M := plain) (fun z => z) unix_seconds.
Ltac plainly :=
  unfold days_from_civil, civil_from_days, days_from_civil_with, civil_from_days_with,
    mbind, mret, plain_bind, plain_ret, plain; cbv beta.

(** What [snprintf] leaves in a buffer of [size] bytes. *)
Definition snprintf (size : nat) (content : bytes) : bytes := take (size - 1) content.

Definition stamp (unix_seconds : Z) : bytes :=
  let c := civil unix_seconds in
  snprintf 32 (fmt_0d 4 (year c) ++ fmt_0d 2 (month c) ++ fmt_0d 2 (day c) ++
               fmt_0d 2 (hour c) ++ fmt_0d 2 (minute c) ++ fmt_0d 2 (second c)).

Definition rfc3339 (unix_seconds : Z) : bytes :=
  let c := civil unix_seconds in
  snprintf 40 (fmt_0d 4 (year c) ++ lit "-" ++ fmt_0d 2 (month c) ++ lit "-" ++ fmt_0d 2 (day c) ++ lit "T" ++
               fmt_0d 2 (hour c) ++ lit ":" ++ fmt_0d 2 (minute c) ++ lit ":" ++ fmt_0d 2 (second c) ++ lit "Z").

(** mbedtls_x509_time; [t.hour * 3600] is [int] arithmetic. *)
Record x509_time := X509Time { t_year : Z; t_mon : Z; t_day : Z; t_hour : Z; t_min : Z; t_sec : Z }.

Definition int_range (z : Z) : bool := (- 2 ^ 31 <=? z) && (z <? 2 ^ 31).
Definition int (z : Z) : outcome Z := if int_range z then Ok z else Trap UB.
Definition int64_range (z : Z) : Prop := - 2 ^ 63 <= z < 2 ^ 63.
Definition int64 (z : Z) : outcome Z := if (- 2 ^ 63 <=? z) && (z <? 2 ^ 63) then Ok z else Trap UB.

Definition to_unix_with (i64 : Z -> outcome Z) (t : x509_time) : outcome Z :=
  days ← days_from_civil_with i64 (t_year t) (unsigned (t_mon t)) (unsigned (t_day t));
  u ← i64 (days * 86400);
  h ← int (t_hour t * 3600);
  u ← i64 (u + h);
  m ← int (t_min t * 60);
  u ← i64 (u + m);
  i64 (u + t_sec t).
Definition to_unix (t : x509_time) : outcome Z := to_unix_with Ok t.

(** ** The reference calendar *)

Definition leap (y : Z) : bool := (y mod 4 =? 0) && (negb (y mod 100 =? 0) || (y mod 400 =? 0)).
Definition month_lengths (y : Z) : list Z :=
  [31; if leap y then 29 else 28; 31; 30; 31; 30; 31; 31; 30; 31; 30; 31].
Definition days_in_month (y m : Z) : Z := nth (Z.to_nat (m - 1)) (month_lengths y) 0.
Definition days_before_month (y m : Z) : Z := foldr Z.add 0 (take (Z.to_nat (m - 1)) (month_lengths y)).
(** Days before January 1st of year [y], from that of year 0. *)
Definition days_before_year (y : Z) : Z := 365 * y + (y - 1) / 4 - (y - 1) / 100 + (y - 1) / 400.

Definition valid_date (y m d : Z) : Prop := 1 <= m <= 12 /\ 1 <= d <= days_in_month y m.
(** The day's number, counted from 1970-01-01. *)
Definition day_number (y m d : Z) : Z :=
  days_before_year y - days_before_year 1970 + days_before_month y m + (d - 1).

(** The reference, closed: each year has its length. *)
Lemma days_before_year_step y : days_before_year (y + 1) = days_before_year y + if leap y then 366 else 365.
Proof.
  unfold days_before_year, leap. replace (y + 1 - 1) with y by lia.
  destruct (Z.eqb_spec (y mod 4) 0), (Z.eqb_spec (y mod 100) 0), (Z.eqb_spec (y mod 400) 0); cbn [andb orb negb];
    Z.to_euclidean_division_equations; lia.
Qed.

Lemma month_case (P : Z -> Prop) m :
  1 <= m <= 12 -> P 1 -> P 2 -> P 3 -> P 4 -> P 5 -> P 6 -> P 7 -> P 8 -> P 9 -> P 10 -> P 11 -> P 12 -> P m.
Proof.
  intros Hm. assert (m = 1 \/ m = 2 \/ m = 3 \/ m = 4 \/ m = 5 \/ m = 6 \/ m = 7 \/ m = 8 \/ m = 9 \/ m = 10
    \/ m = 11 \/ m = 12) as H by lia. intros. by repeat destruct H as [->|H]; try subst.
Qed.

Lemma uwrap32 z : 0 <= z < 4294967296 -> unsigned z = z.
Proof. intros. by apply uwrap_id. Qed.

(** ** The code computes the reference *)

Lemma floor_quot k z : 0 < k -> Z.quot (if 0 <=? z then z else z - (k - 1)) k = z / k.
Proof.
  intros Hk. destruct (Z.leb_spec 0 z).
  - by rewrite Z.quot_div_nonneg by lia.
  - replace (z - (k - 1)) with (- (k - 1 - z)) by lia. rewrite Z.quot_opp_l, Z.quot_div_nonneg by lia.
    apply Z.div_unique_pos with (k - 1 - (k - 1 - z) mod k).
    + pose proof (Z.mod_pos_bound (k - 1 - z) k). lia.
    + pose proof (Z.div_mod (k - 1 - z) k). lia.
Qed.

(** The days before March 1st of year [y], from March 1st of year 0. *)
Definition march_days (y : Z) : Z := 365 * y + y / 4 - y / 100 + y / 400.

Lemma march_days_era y : march_days y = y / 400 * 146097 + (365 * (y mod 400) + (y mod 400) / 4 - (y mod 400) / 100).
Proof. unfold march_days. Z.to_euclidean_division_equations; lia. Qed.

(** The day of the year that starts in March. *)
Definition march_month (m : Z) : Z := if 2 <? m then m - 3 else m + 9.
Definition march_doy (m d : Z) : Z := (153 * march_month m + 2) / 5 + d - 1.

Lemma days_from_civil_march y m d :
  1 <= m <= 12 -> 1 <= d <= 31 ->
  days_from_civil y m d = march_days (if m <=? 2 then y - 1 else y) + march_doy m d - 719468.
Proof.
  intros Hm Hd. plainly. change 399 with (400 - 1). rewrite (floor_quot 400) by lia.
  replace (y - (if m <=? 2 then 1 else 0)) with (if m <=? 2 then y - 1 else y) by (destruct (m <=? 2); lia).
  set (y' := if m <=? 2 then y - 1 else y). rewrite march_days_era.
  replace (y' - y' / 400 * 400) with (y' mod 400) by (rewrite Z.mod_eq; lia).
  pose proof (Z.mod_pos_bound y' 400 ltac:(lia)) as Hyoe. set (yoe := y' mod 400) in *.
  rewrite (uwrap32 yoe) by lia.
  assert (unsigned (m + unsigned (if 2 <? m then -3 else 9)) = march_month m) as ->.
  { unfold march_month. destruct (Z.ltb_spec 2 m).
    - unfold unsigned, uwrap. rewrite Z.add_mod_idemp_r by lia. apply Z.mod_small. lia.
    - by rewrite (uwrap32 9), uwrap32 by lia. }
  assert (0 <= march_month m <= 11) by (unfold march_month; destruct (Z.ltb_spec 2 m); lia).
  rewrite (uwrap32 (153 * march_month m + 2)) by lia.
  fold (march_doy m d). assert (0 <= march_doy m d < 400).
  { unfold march_doy. Z.to_euclidean_division_equations; lia. }
  rewrite (uwrap32 (march_doy m d)) by lia. rewrite uwrap32; [lia|].
  Z.to_euclidean_division_equations; lia.
Qed.

Lemma leap_days y : days_before_year (y+1) = march_days y +365. 
Proof. unfold days_before_year, march_days. replace (y+1-1) with y by lia. lia. Qed.

Lemma days_from_civil_number y m d : valid_date y m d -> days_from_civil y m d = day_number y m d.
Proof.
  intros [Hm Hd]. assert (1 <= d <= 31) as Hd'.
  { revert Hd. apply (month_case (fun m => _ -> _) m Hm); unfold days_in_month, month_lengths; destruct (leap y); simpl; lia. }
  rewrite days_from_civil_march by done. unfold day_number, march_doy, march_month. clear Hd.
  replace (days_before_year 1970) with 719527 by reflexivity.
  assert (days_before_year y = march_days (y-1) + 365) as Hy by (rewrite <- leap_days; f_equal; lia).
  assert (days_before_year y = march_days y + (if leap y then -1 else 0)) as Hy'.
  { pose proof (days_before_year_step y) as H. rewrite leap_days in H. destruct (leap y); lia. }
  apply (month_case (fun m => march_days (if m <=? 2 then y - 1 else y) + ((153 * (if 2 <? m then m - 3 else m + 9) + 2) / 5 + d - 1) -
719468 = days_before_year y - 719527 + days_before_month y m + (d - 1)) m Hm);
 unfold days_before_month, month_lengths; destruct (leap y); simpl; Z.to_euclidean_division_equations; lia.
Qed.
(** The year of the era, and the day of that year, of a day of the era. *)
Definition era_year (doe : Z) : Z := (doe - doe / 1460 + doe / 36524 - doe / 146096) / 365.

Lemma era_year_bounds doe :
  0 <= doe < 146097 ->
  0 <= era_year doe < 400 /\
  0 <= doe - (365 * era_year doe + era_year doe / 4 - era_year doe / 100) <= 365 /\
  (doe - (365 * era_year doe + era_year doe / 4 - era_year doe / 100) = 365 -> leap (era_year doe + 1) = true).
Proof.
  intros H. unfold era_year. split; [|split].
  - Z.to_euclidean_division_equations; lia.
  - Z.to_euclidean_division_equations; lia.
  - unfold leap. intros E. apply andb_true_intro. 
    rewrite orb_true_iff, negb_true_iff, Z.eqb_neq, !Z.eqb_eq.
    Z.to_euclidean_division_equations; lia.
Qed.
Lemma era_year_arg doe : 0 <= doe < 146097 -> 0 <= doe - doe / 1460 + doe / 36524 - doe / 146096 < 4294967296.
Proof. intros. Z.to_euclidean_division_equations; lia. Qed.

Lemma era_quot z : Z.quot (if 0 <=? z then z else z - 146096) 146097 = z / 146097.
Proof. by apply (floor_quot 146097). Qed.

Definition doy_month (doy : Z) : Z := (5 * doy + 2) / 153.

(** [civil_from_days] without the machine arithmetic. *)
Lemma civil_from_days_era z :
  exists y doy, civil_from_days z =
      (y + (if (if doy_month doy <? 10 then doy_month doy + 3 else doy_month doy - 9) <=? 2 then 1 else 0),
       (if doy_month doy <? 10 then doy_month doy + 3 else doy_month doy - 9),
       doy - (153 * doy_month doy + 2) / 5 + 1) /\
    0 <= doy <= 365 /\ (doy = 365 -> leap (y + 1) = true) /\ z = march_days y + doy - 719468.
Proof.
  plainly. rewrite !era_quot.
  set (z' := z + 719468). replace (z' - z' / 146097 * 146097) with (z' mod 146097) by (rewrite Z.mod_eq; lia).
  pose proof (Z.mod_pos_bound z' 146097 ltac:(lia)) as Hdoe.
  pose proof (Z.div_mod z' 146097 ltac:(lia)) as Hz. set (era := z' / 146097) in *. set (doe := z' mod 146097) in *.
  destruct (era_year_bounds doe Hdoe) as (Hy & Hdoy & Hleap).
  rewrite (uwrap32 doe) by lia. rewrite (uwrap32 (doe - _ + _ - _)) by by apply era_year_arg.
  fold (era_year doe). set (yoe := era_year doe) in *. set (doy := doe - (365 * yoe + yoe / 4 - yoe / 100)) in *.
  rewrite (uwrap32 (365 * yoe + yoe / 4 - yoe / 100)) by (Z.to_euclidean_division_equations; lia).
  fold doy. rewrite (uwrap32 doy) by lia. rewrite (uwrap32 (5 * doy + 2)) by lia. fold (doy_month doy).
  assert (0 <= doy_month doy <= 11 /\ 1 <= doy - (153 * doy_month doy + 2) / 5 + 1 <= 31) as [Hmp Hd].
  { unfold doy_month. clearbody doy. clear -Hdoy. Z.to_euclidean_division_equations; lia. }
  exists (yoe + era * 400), doy. split; [|split; [done|split]].
  - rewrite (uwrap32 (153 * doy_month doy + 2)) by lia. rewrite (uwrap32 (doy - _ + 1)) by lia.
    assert (unsigned (doy_month doy + unsigned (if doy_month doy <? 10 then 3 else -9)) =
            if doy_month doy <? 10 then doy_month doy + 3 else doy_month doy - 9) as ->; [|done].
    destruct (Z.ltb_spec (doy_month doy) 10).
    + by rewrite (uwrap32 3), uwrap32 by lia.
    + unfold unsigned, uwrap. rewrite Z.add_mod_idemp_r by lia. apply Z.mod_small. lia.
  - intros E. rewrite <- (Hleap E). unfold leap.
    replace (yoe + era * 400 + 1) with (yoe + 1 + era * 100 * 4) by lia. rewrite Z_mod_plus_full.
    replace (yoe + 1 + era * 100 * 4) with (yoe + 1 + era * 4 * 100) by lia. rewrite Z_mod_plus_full.
    replace (yoe + 1 + era * 4 * 100) with (yoe + 1 + era * 400) by lia. by rewrite Z_mod_plus_full.
  - rewrite march_days_era, Z_div_plus_full, Z_mod_plus_full, (Z.div_small yoe), (Z.mod_small yoe) by lia. lia.
Qed.

Lemma civil_from_days_number z y m d : civil_from_days z = (y, m, d) -> valid_date y m d /\ day_number y m d = z.
Proof.
  destruct (civil_from_days_era z) as (y0 & doy & -> & Hdoy & Hleap & Hz).
  assert (exists mp, doy_month doy = mp /\ 0 <= mp <= 11) as (mp & Emp & Hmp).
  { eexists. split; [done|]. unfold doy_month. Z.to_euclidean_division_equations; lia. }
  assert (153 * mp <= 5 * doy + 2 < 153 * mp + 153) as Hb.
  { rewrite <- Emp. unfold doy_month. Z.to_euclidean_division_equations; lia. }
  rewrite Emp. clear Emp. set (d0 := doy - (153 * mp + 2) / 5 + 1).
  assert (1 <= d0 <= 31 /\ (mp = 1 \/ mp = 3 \/ mp = 6 \/ mp = 8 -> d0 <= 30) /\
          (mp = 11 -> d0 <= 29 /\ (d0 = 29 -> doy = 365))) as (Hd & H30 & H29).
  { unfold d0. clear -Hb Hmp Hdoy. Z.to_euclidean_division_equations; lia. }
  assert (march_doy (if mp <? 10 then mp + 3 else mp - 9) d0 = doy) as Hdoy'.
  { unfold march_doy, march_month, d0. destruct (Z.ltb_spec mp 10); [rewrite (proj2 (Z.ltb_lt 2 (mp + 3))) by lia|
      rewrite (proj2 (Z.ltb_ge 2 (mp - 9))) by lia];
    [replace (mp + 3 - 3) with mp by lia|replace (mp - 9 + 9) with mp by lia]; lia. }
  clearbody d0. intros [= <- <- <-].
  assert (valid_date (y0 + (if (if mp <? 10 then mp + 3 else mp - 9) <=? 2 then 1 else 0))
            (if mp <? 10 then mp + 3 else mp - 9) d0) as Hv.
  { clear Hz Hb Hdoy'. unfold valid_date, days_in_month, month_lengths.
    assert (mp = 11 -> leap (y0 + 1) = false -> d0 <= 28) as H28.
    { intros E Hl. destruct (H29 E) as [? H]. destruct (Z.eq_dec d0 29) as [E'|]; [|lia].
      rewrite (Hleap (H E')) in Hl. discriminate. }
    assert (mp = 0 \/ mp = 1 \/ mp = 2 \/ mp = 3 \/ mp = 4 \/ mp = 5 \/ mp = 6 \/ mp = 7 \/ mp = 8 \/ mp = 9
      \/ mp = 10 \/ mp = 11) as H by lia.
    repeat destruct H as [->|H]; try subst mp; simpl; try lia.
    destruct (leap (y0 + 1)); lia. }
  split; [done|]. rewrite <- days_from_civil_number by done. destruct Hv as [Hv1 _].
  rewrite days_from_civil_march, Hdoy' by done. rewrite Hz. do 2 f_equal. f_equal.
  destruct (_ <=? 2); lia.
Qed.

(** ** The reference calendar numbers the days once *)

Lemma day_number_year y m d :
  valid_date y m d ->
  days_before_year y <= day_number y m d + days_before_year 1970 < days_before_year (y + 1).
Proof.
  intros [Hm Hd]. rewrite days_before_year_step. unfold day_number.
  assert (0 <= days_before_month y m + (d - 1) < if leap y then 366 else 365); [|lia].
  revert Hd. apply (month_case (fun m => 1 <= d <= days_in_month y m ->
    0 <= days_before_month y m + (d - 1) < if leap y then 366 else 365) m Hm);
    unfold days_in_month, days_before_month, month_lengths; destruct (leap y); simpl; lia.
Qed.

Lemma days_before_year_mono y y' : y <= y' -> days_before_year y <= days_before_year y'.
Proof. intros. unfold days_before_year. Z.to_euclidean_division_equations; lia. Qed.

Lemma day_number_inj y m d y' m' d' :
  valid_date y m d -> valid_date y' m' d' -> day_number y m d = day_number y' m' d' ->
  y = y' /\ m = m' /\ d = d'.
Proof.
  intros Hv Hv' E. pose proof (day_number_year _ _ _ Hv) as Hy. pose proof (day_number_year _ _ _ Hv') as Hy'.
  assert (y = y') as <-.
  { destruct (Z.lt_trichotomy y y') as [H|[H|H]]; [|done|].
    - pose proof (days_before_year_mono (y + 1) y'). lia.
    - pose proof (days_before_year_mono (y' + 1) y). lia. }
  split; [done|]. destruct Hv as [Hm Hd], Hv' as [Hm' Hd']. clear Hy Hy'. unfold day_number in E.
  assert (days_before_month y m + d = days_before_month y m' + d') as E' by lia. clear E.
  revert Hd Hd' E'. unfold days_in_month, days_before_month, month_lengths.
  assert (forall m, 1 <= m <= 12 -> exists k, (k < 12)%nat /\ m = Z.of_nat (S k)) as Hk.
  { intros n Hn. exists (Z.to_nat (n - 1)). lia. }
  destruct (Hk m Hm) as (k & Hk1 & ->), (Hk m' Hm') as (k' & Hk2 & ->). clear Hk Hm Hm'.
  replace (Z.to_nat (Z.of_nat (S k) - 1)) with k by lia. replace (Z.to_nat (Z.of_nat (S k') - 1)) with k' by lia.
  do 12 (destruct k as [|k]; [do 12 (destruct k' as [|k']; [destruct (leap y); simpl; lia|]); lia|]). lia.
Qed.

(** The time of day too. *)
Definition seconds_of (c : Civil) : Z :=
  day_number (year c) (month c) (day c) * 86400 + hour c * 3600 + minute c * 60 + second c.
Definition valid_civil (c : Civil) : Prop :=
  valid_date (year c) (month c) (day c) /\ 0 <= hour c < 24 /\ 0 <= minute c < 60 /\ 0 <= second c < 60.

Lemma civil_is t :
  civil t =
    let '(days, rem) := if Z.rem t 86400 <? 0 then (Z.quot t 86400 - 1, Z.rem t 86400 + 86400)
                        else (Z.quot t 86400, Z.rem t 86400) in
    let '(y, m, d) := civil_from_days days in
    MkCivil y m d (unsigned (Z.quot rem 3600)) (unsigned (Z.quot (Z.rem rem 3600) 60)) (unsigned (Z.rem rem 60)).
Proof. done. Qed.

Lemma civil_valid t : valid_civil (civil t) /\ seconds_of (civil t) = t.
Proof.
  rewrite civil_is. pose proof (Z.quot_rem' t 86400) as Ht.
  pose proof (Z.rem_bound_abs t 86400 ltac:(lia)) as Hr.
  assert (exists days rem, (if Z.rem t 86400 <? 0 then (Z.quot t 86400 - 1, Z.rem t 86400 + 86400)
    else (Z.quot t 86400, Z.rem t 86400)) = (days, rem) /\ 0 <= rem < 86400 /\ days * 86400 + rem = t)
    as (days & rem & -> & Hrem & Hdays).
  { destruct (Z.ltb_spec (Z.rem t 86400) 0); eexists _, _; (split; [done|]); lia. }
  destruct (civil_from_days days) as [[y m] d] eqn:E. apply civil_from_days_number in E as [Hv Hn].
  rewrite (uwrap32 (Z.quot rem 3600)) by (Z.to_euclidean_division_equations; lia).
  rewrite (uwrap32 (Z.quot (Z.rem rem 3600) 60)) by (Z.to_euclidean_division_equations; lia).
  rewrite (uwrap32 (Z.rem rem 60)) by (Z.to_euclidean_division_equations; lia).
  unfold valid_civil, seconds_of. cbn [year month day hour minute second]. rewrite Hn.
  split; [split; [done|]|]; clear Ht Hr; Z.to_euclidean_division_equations; lia.
Qed.

(** Years 0 to 9999, whose stamps have four digits. *)
Definition four_digit_years (t : Z) : Prop := -62167219200 <= t < 253402300800.

Lemma civil_year t : four_digit_years t -> 0 <= year (civil t) < 10000.
Proof.
  intros Ht. destruct (civil_valid t) as [(Hv & Hh & Hm & Hs) E]. unfold seconds_of in E.
  pose proof (day_number_year _ _ _ Hv) as Hy. set (y := year (civil t)) in *. unfold four_digit_years in Ht.
  change (days_before_year 1970) with 719527 in Hy. 
  assert (days_before_year 0 = 0 - 1) as H0 by done.
  pose proof (days_before_year_mono (y + 1) 0). pose proof (days_before_year_mono 10000 y).
  change (days_before_year 10000) with 3652424 in *. change (days_before_year 0) with (-1) in *. lia.
Qed.

(** ** No signed overflow *)

Lemma int64_ok z : int64_range z -> int64 z = Ok z.
Proof. intros [H1 H2]. unfold int64. by rewrite (proj2 (Z.leb_le _ _) H1), (proj2 (Z.ltb_lt _ _) H2). Qed.

Lemma bind_ok {A B} (a : A) (f : A -> outcome B) : Ok a ≫= f = f a.
Proof. done. Qed.
(** A check that passes, of a value [lia] can bound. *)
Lemma checked_bind {A} z (f : Z -> outcome A) r : int64_range z -> f z = r -> int64 z ≫= f = r.
Proof. intros Hz <-. by rewrite int64_ok. Qed.
Ltac checked := apply checked_bind; [unfold int64_range; Z.to_euclidean_division_equations; lia|cbv beta].

(** Rounding towards minus infinity, whichever branch is taken. *)
Lemma floor_checked (z k : Z) {A} (f : Z -> outcome A) :
  0 < k -> - 2 ^ 62 <= z <= 2 ^ 63 - 1 -> k <= 2 ^ 62 ->
  (n ← (if 0 <=? z then mret z else int64 (z - (k - 1))); era ← int64 (Z.quot n k); f era) = f (z / k).
Proof.
  intros Hk Hz Hk'. pose proof (floor_quot k z Hk) as E.
  assert (int64_range (z / k)) as Hr by (unfold int64_range; Z.to_euclidean_division_equations; nia).
  destruct (Z.leb_spec 0 z).
  - unfold mret, outcome_ret. rewrite bind_ok, E. by rewrite int64_ok.
  - rewrite int64_ok, bind_ok by (unfold int64_range; lia). rewrite E. by rewrite int64_ok.
Qed.

Lemma civil_from_days_checked z :
  - 2 ^ 62 < z < 2 ^ 62 -> civil_from_days_with int64 z = Ok (civil_from_days z).
Proof.
  intros Hz. assert (exists r, r = civil_from_days z) as [r E] by eauto. rewrite <- E.
  unfold civil_from_days, civil_from_days_with, mbind, mret, plain_bind, plain_ret, plain in E. cbv beta in E.
  rewrite !era_quot in E. unfold civil_from_days_with. checked. change 146096 with (146097 - 1).
  set (n := z + 719468) in *. rewrite floor_checked by (subst n; lia). cbv beta.
  pose proof (Z.mod_pos_bound n 146097 ltac:(lia)) as Hdoe.
  pose proof (Z.div_mod n 146097 ltac:(lia)) as Hn. set (era := n / 146097) in *.
  assert (- 2 ^ 60 < era < 2 ^ 60) as He by (subst n; lia).
  do 2 checked. change (146097 - 1) with 146096. replace (n - era * 146097) with (n mod 146097) in * by lia.
  set (doe := n mod 146097) in *.
  rewrite (uwrap32 doe) in * by lia. destruct (era_year_bounds doe Hdoe) as (Hy & _).
  rewrite (uwrap32 (doe - _ + _ - _)) in * by by apply era_year_arg. fold (era_year doe) in *. set (yoe := era_year doe) in *.
  clearbody yoe doe era. do 2 checked. case_match; checked; by subst r.
Qed.

Lemma civil_checked t : int64_range t -> civil_with int64 t = Ok (civil t).
Proof.
  intros Ht. rewrite civil_is. unfold civil_with. unfold int64_range in Ht. do 2 checked.
  assert ((if Z.rem t 86400 <? 0 then
             rem ← int64 (Z.rem t 86400 + 86400); days ← int64 (Z.quot t 86400 - 1); mret (days, rem)
           else mret (Z.quot t 86400, Z.rem t 86400)) =
          Ok (if Z.rem t 86400 <? 0 then (Z.quot t 86400 - 1, Z.rem t 86400 + 86400) else (Z.quot t 86400, Z.rem t 86400))) as ->.
  { case_match; [by do 2 checked|done]. }
  rewrite bind_ok. assert (exists days rem, (if Z.rem t 86400 <? 0 then (Z.quot t 86400 - 1, Z.rem t 86400 + 86400)
    else (Z.quot t 86400, Z.rem t 86400)) = (days, rem) /\ - 2 ^ 62 < days < 2 ^ 62) as (days & rem & -> & Hd).
  { case_match; eexists _, _; (split; [done|]); Z.to_euclidean_division_equations; lia. }
  rewrite civil_from_days_checked, bind_ok by done. by destruct (civil_from_days _) as [[]].
Qed.

Lemma days_from_civil_bound y m d :
  - 2 ^ 31 <= y < 2 ^ 31 -> -800000000000 <= days_from_civil y m d <= 800000000000.
Proof.
  intros Hy. assert (-2147483649 <= y - (if m <=? 2 then 1 else 0) <= 2147483648) as Hy1 by (destruct (m <=? 2); lia).
  plainly. set (y1 := y - _) in *. clearbody y1.
  assert (forall x, 0 <= unsigned x < 4294967296) as Hu by (intros; by apply uwrap_range).
  match goal with |- context [unsigned (?a + ?b)] => pose proof (Hu (a + b)) as H; revert H;
    generalize (unsigned (a + b)) end. intros doe Hdoe.
  change 399 with (400 - 1). rewrite floor_quot by lia. Z.to_euclidean_division_equations; lia.
Qed.

Lemma days_from_civil_checked y m d :
  - 2 ^ 31 <= y < 2 ^ 31 -> days_from_civil_with int64 y m d = Ok (days_from_civil y m d).
Proof.
  intros Hy. pose proof (days_from_civil_bound y m d Hy) as Hb.
  assert (exists r, r = days_from_civil y m d) as [r E] by eauto. rewrite <- E in *.
  unfold days_from_civil, days_from_civil_with, mbind, mret, plain_bind, plain_ret, plain in E. cbv beta in E.
  unfold days_from_civil_with.
  assert (-2147483649 <= y - (if m <=? 2 then 1 else 0) <= 2147483648) as Hy1 by (destruct (m <=? 2); lia).
  set (y1 := y - _) in *. clearbody y1. change 399 with (400 - 1) in *. checked.
  rewrite floor_checked by lia. cbv beta. rewrite (floor_quot 400) in E by lia. do 2 checked.
  assert (forall x, 0 <= unsigned x < 4294967296) as Hu by (intros; by apply uwrap_range).
  match goal with |- context [unsigned (?a + ?b)] => pose proof (Hu (a + b)) as H; revert H E;
    generalize (unsigned (a + b)) end. intros doe Hdoe E.
  do 2 checked. rewrite <- E. apply int64_ok. unfold int64_range. lia.
Qed.

Lemma days_from_civil_ok y m d : days_from_civil_with Ok y m d = Ok (days_from_civil y m d).
Proof.
  assert (exists r, r = days_from_civil y m d) as [r E] by eauto. rewrite <- E.
  unfold days_from_civil, days_from_civil_with, mbind, mret, plain_bind, plain_ret, plain in E. cbv beta in E.
  unfold days_from_civil_with. rewrite bind_ok. subst r. by destruct (0 <=? _).
Qed.

Lemma to_unix_is t h m :
  int (t_hour t * 3600) = Ok h -> int (t_min t * 60) = Ok m ->
  to_unix t = Ok (days_from_civil (t_year t) (unsigned (t_mon t)) (unsigned (t_day t)) * 86400 + h + m + t_sec t).
Proof. intros Hh Hm. unfold to_unix, to_unix_with. by rewrite days_from_civil_ok, !bind_ok, Hh, !bind_ok, Hm. Qed.

Lemma int_ok z : - 2 ^ 31 <= z < 2 ^ 31 -> int z = Ok z.
Proof. intros [H1 H2]. unfold int, int_range. by rewrite (proj2 (Z.leb_le _ _) H1), (proj2 (Z.ltb_lt _ _) H2). Qed.

(** A time as mbedTLS accepts it when parsing a certificate. *)
Definition valid_time (t : x509_time) : Prop :=
  - 2 ^ 31 <= t_year t < 2 ^ 31 /\ 0 <= t_hour t < 24 /\ 0 <= t_min t < 60 /\ 0 <= t_sec t < 60.

Lemma to_unix_valid t : valid_time t -> exists u, to_unix t = Ok u /\ - 2 ^ 57 <= u < 2 ^ 57.
Proof.
  intros (Hy & Hh & Hm & Hs). eexists. split; [apply to_unix_is; apply int_ok; lia|]. pose proof (days_from_civil_bound (t_year t) (unsigned (t_mon t)) (unsigned (t_day t)) Hy).
  lia.
Qed.

Lemma to_unix_checked t : valid_time t -> exists u, to_unix_with int64 t = Ok u /\ to_unix t = Ok u.
Proof.
  intros (Hy & Hh & Hm & Hs). eexists. split; [|apply to_unix_is; apply int_ok; lia].
  pose proof (days_from_civil_bound (t_year t) (unsigned (t_mon t)) (unsigned (t_day t)) Hy) as Hb.
  unfold to_unix_with. rewrite days_from_civil_checked, bind_ok by done. set (days := days_from_civil _ _ _) in *.
  clearbody days. checked. rewrite (int_ok (t_hour t * 3600)), bind_ok by lia. checked.
  rewrite (int_ok (t_min t * 60)), bind_ok by lia. checked. apply int64_ok. unfold int64_range. lia.
Qed.

(** ** Reading the stamps back *)

Definition slice (a n : nat) (bs : bytes) : bytes := take n (drop a bs).
Definition read_stamp (bs : bytes) : x509_time :=
  X509Time (dec_value (slice 0 4 bs)) (dec_value (slice 4 2 bs)) (dec_value (slice 6 2 bs))
    (dec_value (slice 8 2 bs)) (dec_value (slice 10 2 bs)) (dec_value (slice 12 2 bs)).
Definition read_rfc3339 (bs : bytes) : Z :=
  seconds_of (MkCivil (dec_value (slice 0 4 bs)) (dec_value (slice 5 2 bs)) (dec_value (slice 8 2 bs))
    (dec_value (slice 11 2 bs)) (dec_value (slice 14 2 bs)) (dec_value (slice 17 2 bs))).

(** The fields as digits. *)
Lemma fmt_two z : 0 <= z < 100 -> exists a b, fmt_0d 2 z = [a; b] /\ dec_value [a; b] = z.
Proof.
  intros Hz. pose proof (length_fmt_0d 2 z ltac:(lia) Hz) as Hl.
  pose proof (dec_value_fmt_0d 2 z ltac:(lia)) as Hd.
  destruct (fmt_0d 2 z) as [|a [|b [|]]]; try discriminate Hl. by exists a, b.
Qed.

Lemma fmt_four z : 0 <= z < 10000 -> exists a b c d, fmt_0d 4 z = [a; b; c; d] /\ dec_value [a; b; c; d] = z.
Proof.
  intros Hz. pose proof (length_fmt_0d 4 z ltac:(lia) Hz) as Hl.
  pose proof (dec_value_fmt_0d 4 z ltac:(lia)) as Hd.
  destruct (fmt_0d 4 z) as [|a [|b [|c [|d [|]]]]]; try discriminate Hl. by exists a, b, c, d.
Qed.

Lemma days_in_month_31 y m : 1 <= m <= 12 -> days_in_month y m <= 31.
Proof.
  intros Hm. apply (month_case (fun m => days_in_month y m <= 31) m Hm);
    unfold days_in_month, month_lengths; destruct (leap y); simpl; lia.
Qed.

(** The digits of a moment with a four-digit year. *)
Lemma civil_digits t :
  four_digit_years t ->
  exists y1 y2 y3 y4 m1 m2 d1 d2 h1 h2 i1 i2 s1 s2,
    (fmt_0d 4 (year (civil t)) = [y1; y2; y3; y4] /\ dec_value [y1; y2; y3; y4] = year (civil t)) /\
    (fmt_0d 2 (month (civil t)) = [m1; m2] /\ dec_value [m1; m2] = month (civil t)) /\
    (fmt_0d 2 (day (civil t)) = [d1; d2] /\ dec_value [d1; d2] = day (civil t)) /\
    (fmt_0d 2 (hour (civil t)) = [h1; h2] /\ dec_value [h1; h2] = hour (civil t)) /\
    (fmt_0d 2 (minute (civil t)) = [i1; i2] /\ dec_value [i1; i2] = minute (civil t)) /\
    (fmt_0d 2 (second (civil t)) = [s1; s2] /\ dec_value [s1; s2] = second (civil t)).
Proof.
  intros Ht. destruct (civil_valid t) as [([Hm Hd] & Hh & Hi & Hs) _].
  pose proof (days_in_month_31 (year (civil t)) _ Hm).
  destruct (fmt_four _ (civil_year t Ht)) as (y1 & y2 & y3 & y4 & Ey).
  destruct (fmt_two (month (civil t))) as (m1 & m2 & Em); [lia|].
  destruct (fmt_two (day (civil t))) as (d1 & d2 & Ed); [lia|].
  destruct (fmt_two (hour (civil t))) as (h1 & h2 & Eh); [lia|].
  destruct (fmt_two (minute (civil t))) as (i1 & i2 & Ei); [lia|].
  destruct (fmt_two (second (civil t))) as (s1 & s2 & Es); [lia|].
  by exists y1, y2, y3, y4, m1, m2, d1, d2, h1, h2, i1, i2, s1, s2.
Qed.

Lemma rfc3339_read t : four_digit_years t -> length (rfc3339 t) = 20%nat /\ read_rfc3339 (rfc3339 t) = t.
Proof.
  intros Ht. destruct (civil_digits t Ht) as (y1 & y2 & y3 & y4 & m1 & m2 & d1 & d2 & h1 & h2 & i1 & i2 & s1 & s2 &
    (Fy & Ey) & (Fm & Em) & (Fd & Ed) & (Fh & Eh) & (Fi & Ei) & (Fs & Es)).
  assert (rfc3339 t = [y1; y2; y3; y4; x2d; m1; m2; x2d; d1; d2; x54; h1; h2; x3a; i1; i2; x3a; s1; s2; x5a]) as ->.
  { unfold rfc3339. cbv zeta. rewrite Fy, Fm, Fd, Fh, Fi, Fs. reflexivity. }
  split; [reflexivity|]. unfold read_rfc3339, slice. cbn [take drop].
  rewrite Ey, Em, Ed, Eh, Ei, Es. apply civil_valid.
Qed.

Lemma stamp_read t : four_digit_years t -> length (stamp t) = 14%nat /\ to_unix (read_stamp (stamp t)) = Ok t.
Proof.
  intros Ht. destruct (civil_digits t Ht) as (y1 & y2 & y3 & y4 & m1 & m2 & d1 & d2 & h1 & h2 & i1 & i2 & s1 & s2 &
    (Fy & Ey) & (Fm & Em) & (Fd & Ed) & (Fh & Eh) & (Fi & Ei) & (Fs & Es)).
  assert (stamp t = [y1; y2; y3; y4; m1; m2; d1; d2; h1; h2; i1; i2; s1; s2]) as ->.
  { unfold stamp. cbv zeta. rewrite Fy, Fm, Fd, Fh, Fi, Fs. reflexivity. }
  split; [reflexivity|]. unfold read_stamp, slice. cbn [take drop].
  rewrite Ey, Em, Ed, Eh, Ei, Es. destruct (civil_valid t) as [(Hv & Hh & Hi & Hs) E].
  pose proof Hv as [Hm Hd]. pose proof (days_in_month_31 (year (civil t)) _ Hm).
  unfold seconds_of in E. generalize dependent (civil t). intros c. intros.
  rewrite (to_unix_is _ (hour c * 3600) (minute c * 60)) by (apply int_ok; cbn; lia).
  cbn [t_year t_mon t_day t_hour t_min t_sec]. rewrite !uwrap32 by lia.
  rewrite days_from_civil_number by done. by rewrite E.
Qed.

(** ** Properties *)

(** C34. [days_from_civil] numbers the dates of the proleptic Gregorian calendar: it
    is the reference count of days, and [civil_from_days] takes every date back
    from its number. *)
Theorem calendar_gregorian y m d :
  valid_date y m d ->
  days_from_civil y m d = day_number y m d /\ civil_from_days (days_from_civil y m d) = (y, m, d).
Proof.
  intros Hv. pose proof (days_from_civil_number y m d Hv) as E. split; [done|].
  destruct (civil_from_days (days_from_civil y m d)) as [[y' m'] d'] eqn:E'.
  apply civil_from_days_number in E' as [Hv' En].
  destruct (day_number_inj _ _ _ _ _ _ Hv Hv') as (-> & -> & ->); [lia|done].
Qed.

Lemma calendar_gregorian_witness :
  valid_date 2024 2 29 /\ days_from_civil 2024 2 29 = day_number 2024 2 29 /\
  civil_from_days (days_from_civil 2024 2 29) = (2024, 2, 29).
Proof.
  assert (valid_date 2024 2 29) as Hv by (split; vm_compute; split; discriminate).
  split; [exact Hv|]. apply (calendar_gregorian 2024 2 29 Hv).
Defined.

(** Every moment has its date and time of day, in range, and they count back to
    it: [civil] is right for negative times too. *)
Lemma civil_counts_back t :
  valid_civil (civil t) /\ seconds_of (civil t) = t /\
  days_from_civil (year (civil t)) (month (civil t)) (day (civil t)) = t / 86400.
Proof.
  destruct (civil_valid t) as [Hv E]. split; [done|]. split; [done|]. destruct Hv as (Hv & Hh & Hm & Hs).
  rewrite days_from_civil_number by done. unfold seconds_of in E.
  apply Z.div_unique_pos with (hour (civil t) * 3600 + minute (civil t) * 60 + second (civil t)); lia.
Qed.

(** C35. A stamp of a moment in the years 0 to 9999 reads back as that moment: the RFC
    3339 text by the reference calendar, and the x509 writer's fourteen digits by
    [to_unix], as mbedTLS hands them over when the certificate is parsed. *)
Theorem stamps_read_back t :
  four_digit_years t ->
  length (rfc3339 t) = 20%nat /\ read_rfc3339 (rfc3339 t) = t /\
  length (stamp t) = 14%nat /\ to_unix (read_stamp (stamp t)) = Ok t.
Proof. intros Ht. destruct (rfc3339_read t Ht), (stamp_read t Ht). auto. Qed.

Lemma stamps_read_back_witness :
  four_digit_years 1700000000 /\ rfc3339 1700000000 = lit "2023-11-14T22:13:20Z" /\
  to_unix (read_stamp (stamp 1700000000)) = Ok 1700000000.
Proof.
  assert (four_digit_years 1700000000) as Ht by (split; vm_compute; congruence).
  split; [exact Ht|]. split; [vm_compute; reflexivity|]. apply (stamps_read_back 1700000000 Ht).
Defined.

(** C36. No signed overflow: for any 64-bit time [civil] runs with every [int64_t]
    result checked, and what it computes is what it does unchecked; so do
    [civil_from_days] for the days of one, [days_from_civil] for any date mbedTLS can
    hold, and [to_unix] for the times mbedTLS accepts. *)
Theorem calendar_in_range t z y m d x :
  int64_range t -> - 2 ^ 62 < z < 2 ^ 62 -> - 2 ^ 31 <= y < 2 ^ 31 -> valid_time x ->
  civil_with int64 t = Ok (civil t) /\ civil_from_days_with int64 z = Ok (civil_from_days z) /\
  days_from_civil_with int64 y m d = Ok (days_from_civil y m d) /\
  exists u, to_unix_with int64 x = Ok u /\ to_unix x = Ok u.
Proof.
  intros. split_and!; [by apply civil_checked|by apply civil_from_days_checked|by apply days_from_civil_checked|].
  by apply to_unix_checked.
Qed.

Lemma calendar_in_range_witness :
  int64_range (2 ^ 63 - 1) /\ civil_with int64 (2 ^ 63 - 1) = Ok (civil (2 ^ 63 - 1)) /\
  year (civil (2 ^ 63 - 1)) = 292277026596.
Proof.
  assert (int64_range (2 ^ 63 - 1)) as Ht by (unfold int64_range; lia).
  split; [exact Ht|]. split; [|vm_compute; reflexivity].
  apply (calendar_in_range (2 ^ 63 - 1) 0 (-2147483648) 12 31 (X509Time 2024 2 29 23 59 59) Ht);
    unfold valid_time; cbn; lia.
Defined.
