(* ===== verification/Mbedtls.v ===== *)
(** The mbedTLS calls the cert-rotator guest makes
    (examples/cert-rotator/src/tls.cpp). The library is not part of the
    repository: what a call answers is up to the environment (Machine.v), in the
    shape the library's documentation gives it: a status, zero for success, and
    what the call leaves in the buffer it was handed. *)
From S2P Require Import Prelude CString Calendar.
From Stdlib Require Import Strings.Byte.

Inductive key_usage := DIGITAL_SIGNATURE | KEY_ENCIPHERMENT.

Inductive mcall :=
  (* mbedtls_strerror, and mbedtls_x509_crt *)
  | Strerror (code size : Z)
  | CrtInit
  | CrtParse (buf : bytes)
  | DnGets (size : Z)
  | SerialGets (size : Z)
  | CrtFree
  (* the contexts of an issuer: entropy, ctr_drbg, pk, x509write_cert *)
  | EntropyInit | DrbgInit | PkInit | WriteInit
  | WriteFree | PkFree | DrbgFree | EntropyFree
  | DrbgSeed (personalization : bytes)
  | PkSetupEckey
  | GenKeySecp256r1
  | SetVersion3
  | SetMdSha256
  | SetSubjectKey
  | SetIssuerKey
  | SetSubjectName (dn : bytes)
  | SetIssuerName (dn : bytes)
  | DrbgRandom (len : Z)
  | SetSerialRaw (serial : bytes)
  | SetValidity (not_before not_after : bytes)
  | SetBasicConstraints (is_ca max_pathlen : Z)
  | SetKeyUsage (usages : list key_usage)
  | SetExtKeyUsageServerAuth
  | SetSubjectAlternativeName (dns_names : list bytes)
  | WriteCrtPem (size : Z)
  | WriteKeyPem (size : Z)
  (* mbedtls_base64 *)
  | Base64Encode (dlen : Z) (src : bytes)
  | Base64Decode (dlen : Z) (src : bytes).

(** [CrtParse] also answers the certificate's [valid_from] and [valid_to];
    base64's are the status, [*olen] and what is written at the destination. *)
Definition mans (c : mcall) : Type :=
  match c with
  | Strerror _ _ => bytes
  | CrtParse _ => Z * (x509_time * x509_time)
  | DnGets _ | SerialGets _ | DrbgRandom _ | WriteCrtPem _ | WriteKeyPem _ => Z * bytes
  | DrbgSeed _ | PkSetupEckey | GenKeySecp256r1 | SetSubjectName _ | SetIssuerName _ | SetSerialRaw _
  | SetValidity _ _ | SetBasicConstraints _ _ | SetKeyUsage _ | SetExtKeyUsageServerAuth
  | SetSubjectAlternativeName _ => Z
  | Base64Encode _ _ | Base64Decode _ _ => Z * Z * bytes
  | _ => unit
  end.

(** A library in working order, for the witnesses: base64 is the identity, and
    every certificate is valid until 2030. *)
Definition some_time : x509_time := X509Time 2023 11 14 22 13 20.
Definition later_time : x509_time := X509Time 2030 1 1 0 0 0.
Definition working_mbedtls (c : mcall) : mans c :=
  match c return mans c with
  | Strerror _ _ => lit "error"
  | CrtParse _ => (0, (some_time, later_time))
  | DnGets _ => (9, lit "CN=a.test")
  | SerialGets _ => (2, lit "2A")
  | DrbgRandom n => (0, replicate (Z.to_nat n) xff)
  | WriteCrtPem _ => (0, lit "20240112221320")
  | WriteKeyPem _ => (0, lit "key")
  | DrbgSeed _ | PkSetupEckey | GenKeySecp256r1 | SetSubjectName _ | SetIssuerName _ | SetSerialRaw _
  | SetValidity _ _ | SetBasicConstraints _ _ | SetKeyUsage _ | SetExtKeyUsageServerAuth
  | SetSubjectAlternativeName _ => 0
  | Base64Encode dlen src =>
      if negb (Z.of_nat (length src) =? 0) && (dlen <=? Z.of_nat (length src)) then (-42, Z.of_nat (length src) + 1, [])
      else (0, Z.of_nat (length src), src ++ [x00])
  | Base64Decode dlen src =>
      if dlen <? Z.of_nat (length src) then (-42, Z.of_nat (length src), [])
      else (0, Z.of_nat (length src), src)
  | _ => tt
  end.
