(* ===== verification/Machine.v ===== *)
(** The machine the C sources above the bindings run on: a heap of blocks, the
    [char *] variables whose address is passed around, the table of component
    resources the guest owns, and a host that answers the guest's calls however
    it likes.

    A call is recorded with its answer in [trace], and the host's next answer is
    any function of that history. The table enforces the component model's rules
    (crates/guestfn/templates/c/wit/deps/http.wit, io.wit): a handle must be live
    and of the right kind; dropping it or passing it as [own] removes it, and
    traps while a child resource is alive; a write of more than 4096 bytes by
    [blocking-write-and-flush] traps. *)
From S2P Require Import Prelude BindTypes CString Proto Calendar Mbedtls.
From Stdlib Require Import Strings.Byte.

(** ** Resources and calls *)

Inductive rkind :=
  | Fields | OutgoingRequest | OutgoingBody | OutputStream | FutureIncomingResponse
  | Pollable | IncomingResponse | IncomingBody | InputStream | FutureTrailers.
#[export] Instance rkind_eq_dec : EqDecision rkind.
Proof. solve_decision. Defined.

Record hentry := Hentry { h_kind : rkind; h_parent : option Z }.
#[export] Instance hentry_eq_dec : EqDecision hentry.
Proof. solve_decision. Defined.

(** The bindings' variants with the strings' contents in place of pointers. *)
Abbreviation v_error_code := (wasi_http_types_error_code_t bytes).
Abbreviation v_method := (wasi_http_types_method_t bytes).
Abbreviation v_scheme := (wasi_http_types_scheme_t bytes).

(** The imports the C sources call, at the level of WIT values, and what they
    use of libc's environment: stderr, [time], [getentropy] (whose answer is the
    bytes, or nothing for an error), and of mbedTLS. *)
Inductive op :=
  | ConstructorFields
  | FieldsAppend (self : Z) (name value : bytes)
  | FieldsEntries (self : Z)
  | ConstructorOutgoingRequest (headers : Z)
  | SetMethod (self : Z) (m : v_method)
  | SetScheme (self : Z) (s : option v_scheme)
  | SetAuthority (self : Z) (a : option bytes)
  | SetPathWithQuery (self : Z) (p : option bytes)
  | OutgoingRequestBody (self : Z)
  | OutgoingHandlerHandle (request : Z)
  | OutgoingBodyWrite (self : Z)
  | BlockingWriteAndFlush (self : Z) (contents : bytes)
  | OutgoingBodyFinish (this : Z)
  | FutureSubscribe (self : Z)
  | PollableBlock (self : Z)
  | FutureGet (self : Z)
  | IncomingResponseStatus (self : Z)
  | IncomingResponseHeaders (self : Z)
  | IncomingResponseConsume (self : Z)
  | IncomingBodyStream (self : Z)
  | BlockingRead (self len : Z)
  | IncomingBodyFinish (this : Z)
  | Drop (k : rkind) (h : Z)
  | Log (level : Z) (msg : bytes) (kv : list (bytes * bytes))
  | Stderr (text : bytes)
  | Time
  | GetEntropy (n : Z)
  | Mbedtls (c : mcall).

(** What the host answers; the handle a call returns comes from the table. *)
Definition ans (o : op) : Type :=
  match o with
  | FieldsAppend _ _ _ => result_t unit wasi_http_types_header_error_t
  | FieldsEntries _ => list (bytes * bytes)
  | SetMethod _ _ | SetScheme _ _ | SetAuthority _ _ | SetPathWithQuery _ _ => bool
  | OutgoingRequestBody _ | OutgoingBodyWrite _ => bool
  | IncomingResponseConsume _ | IncomingBodyStream _ => bool
  | OutgoingHandlerHandle _ | OutgoingBodyFinish _ => result_t unit v_error_code
  | BlockingWriteAndFlush _ _ => result_t unit wasi_io_streams_stream_error_t
  | FutureGet _ => option (result_t (result_t unit v_error_code) unit)
  | IncomingResponseStatus _ => Z
  | BlockingRead _ _ => result_t bytes wasi_io_streams_stream_error_t
  | Time => Z
  | GetEntropy _ => option bytes
  | Mbedtls c => mans c
  | _ => unit
  end.

(** The handles a call needs alive. *)
Definition uses (o : op) : option (Z * rkind) :=
  match o with
  | ConstructorFields | Log _ _ _ | Stderr _ | Time | GetEntropy _ | Mbedtls _ => None
  | FieldsAppend h _ _ | FieldsEntries h | ConstructorOutgoingRequest h => Some (h, Fields)
  | SetMethod h _ | SetScheme h _ | SetAuthority h _ | SetPathWithQuery h _
  | OutgoingRequestBody h | OutgoingHandlerHandle h => Some (h, OutgoingRequest)
  | OutgoingBodyWrite h | OutgoingBodyFinish h => Some (h, OutgoingBody)
  | BlockingWriteAndFlush h _ => Some (h, OutputStream)
  | FutureSubscribe h | FutureGet h => Some (h, FutureIncomingResponse)
  | PollableBlock h => Some (h, Pollable)
  | IncomingResponseStatus h | IncomingResponseHeaders h | IncomingResponseConsume h =>
      Some (h, IncomingResponse)
  | IncomingBodyStream h | IncomingBodyFinish h => Some (h, IncomingBody)
  | BlockingRead h _ => Some (h, InputStream)
  | Drop k h => Some (h, k)
  end.

(** The calls that take their handle as [own]. *)
Definition consumes (o : op) : bool :=
  match o with
  | ConstructorOutgoingRequest _ | OutgoingHandlerHandle _ | OutgoingBodyFinish _
  | IncomingBodyFinish _ | Drop _ _ => true
  | _ => false
  end.

(** The resource a call creates, given the answer. *)
Definition creates (o : op) : ans o -> option hentry :=
  match o with
  | ConstructorFields => fun _ => Some (Hentry Fields None)
  | ConstructorOutgoingRequest _ => fun _ => Some (Hentry OutgoingRequest None)
  | OutgoingRequestBody _ => fun ok : bool => if ok then Some (Hentry OutgoingBody None) else None
  | OutgoingHandlerHandle _ => fun r =>
      if is_err r then None else Some (Hentry FutureIncomingResponse None)
  | OutgoingBodyWrite h => fun ok : bool => if ok then Some (Hentry OutputStream (Some h)) else None
  | FutureSubscribe h => fun _ => Some (Hentry Pollable (Some h))
  | FutureGet _ => fun o =>
      match o with Some (ROk (ROk _)) => Some (Hentry IncomingResponse None) | _ => None end
  | IncomingResponseHeaders h => fun _ => Some (Hentry Fields (Some h))
  | IncomingResponseConsume _ => fun ok : bool => if ok then Some (Hentry IncomingBody None) else None
  | IncomingBodyStream h => fun ok : bool => if ok then Some (Hentry InputStream (Some h)) else None
  | IncomingBodyFinish _ => fun _ => Some (Hentry FutureTrailers None)
  | _ => fun _ => None
  end.

Definition max_blocking_write : Z := 4096.
Definition admissible (o : op) : bool :=
  match o with
  | BlockingWriteAndFlush _ bs => Z.of_nat (length bs) <=? max_blocking_write
  | _ => true
  end.

Inductive event := Ev (o : op) (a : ans o).

(** ** State *)

(** A block of bytes ([None]: never written), of [char *] (by block, [None] for
    NULL), or an array of one of the protobuf messages. *)
Inductive block :=
  | Bytes (cs : list (option byte))
  | Ptrs (ps : list (option Z))
  | FieldsArr (l : list google_protobuf_Struct_FieldsEntry)
  | ValuesArr (l : list google_protobuf_Value)
  | StateArr (l : list fnv1_State_ResourcesEntry)
  | ItemsArr (l : list fnv1_Resource)
  | DetailsArr (l : list fnv1_Resource_ConnectionDetailsEntry)
  | RequiredArr (l : list fnv1_RequiredResourcesEntry)
  | RequirementsArr (l : list fnv1_Requirements_ResourcesEntry)
  | ResultArr (l : list fnv1_Result)
  | ConditionArr (l : list fnv1_Condition).

(** The bytes a block takes; the messages' sizes are those of wasm32. *)
Definition block_size (b : block) : Z :=
  match b with
  | Bytes cs => Z.of_nat (length cs)
  | Ptrs ps => 4 * Z.of_nat (length ps)
  | FieldsArr l => 24 * Z.of_nat (length l)
  | ValuesArr l => 16 * Z.of_nat (length l)
  | StateArr l => 32 * Z.of_nat (length l)
  | ItemsArr l => 24 * Z.of_nat (length l)
  | DetailsArr l => 8 * Z.of_nat (length l)
  | RequiredArr l => 16 * Z.of_nat (length l)
  | RequirementsArr l => 32 * Z.of_nat (length l)
  | ResultArr l => 20 * Z.of_nat (length l)
  | ConditionArr l => 24 * Z.of_nat (length l)
  end.

(** The live bytes: a wasm32 memory holds fewer than [2^32]. *)
Definition heap_size (h : gmap Z block) : Z :=
  foldr Z.add 0 (block_size <$> (map_to_list h).*2).
Definition memory_size : Z := 2 ^ 32.

Record cst := Cst {
  heap : gmap Z block;
  next : Z;
  vars : gmap Z (option Z);
  handles : gmap Z hentry;
  next_h : Z;
  trace : list event;
  attempts : nat;   (* allocations tried *)
  denied : nat;     (* allocations that failed *)
}.

(** The host's answers, and which allocations the allocator grants. *)
Record env := Env {
  answers : list event -> forall o, ans o;
  grants : nat -> Z -> bool;
}.

Definition C (A : Type) : Type := env -> cst -> outcome (A * cst).
#[export] Instance C_ret : MRet C := fun A a e s => Ok (a, s).
#[export] Instance C_bind : MBind C := fun A B f c e s =>
  match c e s with Ok (a, s') => f a e s' | Trap t => Trap t end.

Definition stop {A} (t : trap) : C A := fun _ _ => Trap t.
Definition get {A} (f : cst -> outcome A) : C A := fun _ s => a ← f s; Ok (a, s).

Definition set_heap (h : gmap Z block) (s : cst) : cst :=
  Cst h (next s) (vars s) (handles s) (next_h s) (trace s) (attempts s) (denied s).
Definition set_vars (v : gmap Z (option Z)) (s : cst) : cst :=
  Cst (heap s) (next s) v (handles s) (next_h s) (trace s) (attempts s) (denied s).
Definition add_block (b : block) (s : cst) : cst :=
  Cst (<[next s := b]> (heap s)) (next s + 1) (vars s) (handles s) (next_h s) (trace s)
    (S (attempts s)) (denied s).
Definition deny (s : cst) : cst :=
  Cst (heap s) (next s) (vars s) (handles s) (next_h s) (trace s) (S (attempts s)) (S (denied s)).
Definition record (ev : event) (t : gmap Z hentry) (n : Z) (s : cst) : cst :=
  Cst (heap s) (next s) (vars s) t n (trace s ++ [ev]) (attempts s) (denied s).

(** ** The heap *)

(** A new block in place of [old] bytes that the allocation frees. *)
Definition alloc_replacing (old : Z) (b : block) : C (option Z) := fun e s =>
  if grants e (attempts s) (block_size b)
     && (heap_size (heap s) - old + block_size b <? memory_size)
  then Ok (Some (next s), add_block b s)
  else Ok (None, deny s).

Definition malloc (n : Z) : C (option Z) := alloc_replacing 0 (Bytes (replicate (Z.to_nat n) None)).
(** [calloc(n, sizeof(char * ))]: all NULL. *)
Definition calloc_ptrs (n : Z) : C (option Z) := alloc_replacing 0 (Ptrs (replicate (Z.to_nat n) None)).

(** The block itself, and a write of a whole one of the same size. *)
Definition block_at (p : option Z) : C block := get (fun s =>
  match p with
  | Some b => match heap s !! b with Some k => Ok k | None => Trap UB end
  | None => Trap UB
  end).
Definition set_block (b : Z) (k : block) : C unit := fun e s =>
  match heap s !! b with
  | Some old => if block_size old =? block_size k
                then Ok (tt, set_heap (<[b := k]> (heap s)) s) else Trap UB
  | None => Trap UB
  end.

Definition free (p : option Z) : C unit := fun e s =>
  match p with
  | None => Ok (tt, s)
  | Some b => match heap s !! b with
              | Some _ => Ok (tt, set_heap (delete b (heap s)) s)
              | None => Trap UB
              end
  end.

(** The bytes kept are the first of the old block. *)
Definition realloc (p : option Z) (n : Z) : C (option Z) :=
  match p with
  | None => malloc n
  | Some b =>
      cs ← get (fun s => match heap s !! b with Some (Bytes cs) => Ok cs | _ => Trap UB end);
      q ← alloc_replacing (Z.of_nat (length cs)) (Bytes (resize (Z.to_nat n) None cs));
      match q with
      | None => mret None
      | Some b' => _ ← free (Some b); mret (Some b')
      end
  end.

Definition read (b off n : Z) : C bytes := get (fun s =>
  match heap s !! b with
  | Some (Bytes cs) =>
      if (0 <=? off) && (0 <=? n) && (off + n <=? Z.of_nat (length cs))
      then defined (mapM id (take (Z.to_nat n) (drop (Z.to_nat off) cs)))
      else Trap UB
  | _ => Trap UB
  end).

Definition put (b off : Z) (bs : bytes) : C unit := fun e s =>
  match heap s !! b with
  | Some (Bytes cs) =>
      if (0 <=? off) && (off + Z.of_nat (length bs) <=? Z.of_nat (length cs))
      then let o := Z.to_nat off in
           Ok (tt, set_heap (<[b := Bytes (take o cs ++ map Some bs ++ drop (o + length bs) cs)]> (heap s)) s)
      else Trap UB
  | _ => Trap UB
  end.

Definition ptr_at (b i : Z) : C (option Z) := get (fun s =>
  match heap s !! b with
  | Some (Ptrs ps) => if 0 <=? i then defined (ps !! Z.to_nat i) else Trap UB
  | _ => Trap UB
  end).

Definition set_ptr (b i : Z) (p : option Z) : C unit := fun e s =>
  match heap s !! b with
  | Some (Ptrs ps) =>
      if (0 <=? i) && (i <? Z.of_nat (length ps))
      then Ok (tt, set_heap (<[b := Ptrs (<[Z.to_nat i := p]> ps)]> (heap s)) s)
      else Trap UB
  | _ => Trap UB
  end.

(** The block of a C string of its own. *)
Definition c_string (s : bytes) : block := Bytes (map Some (s ++ [NUL])).

(** The content of the C string at offset [off] of a block. *)
Fixpoint scan (cs : list (option byte)) : outcome bytes :=
  match cs with
  | Some b :: cs => if decide (b = NUL) then Ok [] else r ← scan cs; Ok (b :: r)
  | _ => Trap UB
  end.
Definition c_str (b off : Z) : C bytes := get (fun s =>
  match heap s !! b with
  | Some (Bytes cs) => if 0 <=? off then scan (drop (Z.to_nat off) cs) else Trap UB
  | _ => Trap UB
  end).

(** [strdup]: NULL when out of memory. *)
Definition strdup (s : bytes) : C (option Z) :=
  p ← malloc (Z.of_nat (length s) + 1);
  match p with
  | None => mret None
  | Some b => _ ← put b 0 (s ++ [NUL]); mret (Some b)
  end.

(** ** Variables and calls *)

(** [*p = v] for the address of a [char *] variable. *)
Definition assign (p : Z) (v : option Z) : C unit := fun e s =>
  match vars s !! p with
  | Some _ => Ok (tt, set_vars (<[p := v]> (vars s)) s)
  | None => Trap UB
  end.

(** A local [char *] variable whose address is taken, until it goes out of
    scope. *)
Definition new_var (v : option Z) : C Z := fun e s =>
  let a := fresh (dom (vars s)) in Ok (a, set_vars (<[a := v]> (vars s)) s).
Definition deref (a : Z) : C (option Z) := get (fun s => defined (vars s !! a)).
Definition end_var (a : Z) : C unit := fun e s => Ok (tt, set_vars (delete a (vars s)) s).

Definition childless (h : Z) (t : gmap Z hentry) : Prop :=
  map_Forall (fun _ e => h_parent e <> Some h) t.
#[export] Instance childless_dec h t : Decision (childless h t).
Proof. unfold childless. apply _. Defined.

(** The table a call with handle [u] finds, checked and with a consumed handle
    removed. *)
Definition enter (o : op) (t : gmap Z hentry) : option (gmap Z hentry) :=
  match uses o with
  | None => Some t
  | Some (h, k) =>
      match t !! h with
      | Some e =>
          if decide (h_kind e = k) then
            if consumes o
            then if decide (childless h t) then Some (delete h t) else None
            else Some t
          else None
      | None => None
      end
  end.

(** A call: the answer, and the handle of the resource it created, if any. *)
Definition call (o : op) : C (ans o * Z) := fun e s =>
  if negb (admissible o) then Trap HostTrap else
  match enter o (handles s) with
  | None => Trap HostTrap
  | Some t =>
      let a := answers e (trace s) o in
      match creates o a with
      | Some r => Ok ((a, next_h s), record (Ev o a) (<[next_h s := r]> t) (next_h s + 1) s)
      | None => Ok ((a, next_h s), record (Ev o a) t (next_h s) s)
      end
  end.

(** ** What the canonical ABI lowers into the guest *)

(** A [list<u8>] or [string] the host allocated with [cabi_realloc], which
    aborts when out of memory; an empty one has no block. *)
Record list_u8 := Lu8 { u8_ptr : option Z; u8_len : Z }.

Definition cabi_lower (bs : bytes) : C list_u8 :=
  match bs with
  | [] => mret (Lu8 None 0)
  | _ => p ← malloc (Z.of_nat (length bs));
         match p with
         | None => stop Aborted
         | Some b => _ ← put b 0 bs; mret (Lu8 (Some b) (Z.of_nat (length bs)))
         end
  end.

(** The bytes of a lowered list. *)
Definition list_bytes (l : list_u8) : C bytes :=
  if u8_len l =? 0 then mret [] else
  match u8_ptr l with Some b => read b 0 (u8_len l) | None => stop UB end.

(** function_list_u8_free, function_string_free: nothing for an empty list. *)
Definition list_u8_free (l : list_u8) : C unit :=
  if 0 <? u8_len l then free (u8_ptr l) else mret tt.

(** ** Reasoning *)

Definition wp {A} (e : env) (T : trap -> Prop) (c : C A) (Q : A -> cst -> Prop) (s : cst) : Prop :=
  match c e s with Ok (a, s') => Q a s' | Trap t => T t end.

(** What every reachable state satisfies. *)
Record wf (s : cst) : Prop := {
  wf_heap : forall b k, heap s !! b = Some k -> b < next s;
  wf_size : heap_size (heap s) < memory_size;
  wf_handle : forall h r, handles s !! h = Some r -> h < next_h s;
  wf_parent : forall h r p, handles s !! h = Some r -> h_parent r = Some p -> p < next_h s;
}.
