(* ===== verification/MachineLogic.v ===== *)
(** The program logic of Machine.v: weakest preconditions of the machine's
    operations, the size of the heap, and the relations the specifications of
    the C functions are stated with. *)
From S2P Require Import Prelude BindTypes CString Machine.
From Stdlib Require Import Strings.Byte.

(** ** The size of the heap *)

Definition sum_sizes (l : list Z) : Z := foldr Z.add 0 l.

#[export] Instance sum_sizes_perm : Proper (Permutation ==> eq) sum_sizes.
Proof. intros l l' H. unfold sum_sizes. induction H; simpl; lia. Qed.

Lemma heap_size_insert h b k :
  h !! b = None -> heap_size (<[b := k]> h) = block_size k + heap_size h.
Proof.
  intros H. unfold heap_size. fold (sum_sizes (block_size <$> (map_to_list (<[b:=k]> h)).*2)).
  by rewrite map_to_list_insert.
Qed.

Lemma heap_size_delete h b k :
  h !! b = Some k -> heap_size h = block_size k + heap_size (delete b h).
Proof.
  intros H. rewrite <- (heap_size_insert (delete b h) b k) by apply lookup_delete_eq.
  by rewrite insert_delete_id.
Qed.

Lemma heap_size_update h b k k' :
  h !! b = Some k -> heap_size (<[b := k']> h) = heap_size h - block_size k + block_size k'.
Proof.
  intros H. rewrite (heap_size_delete h b k H).
  rewrite <- (insert_delete_eq h b k'), heap_size_insert by apply lookup_delete_eq. lia.
Qed.

Lemma block_size_nonneg k : 0 <= block_size k.
Proof. destruct k; simpl; lia. Qed.

Lemma heap_size_nonneg h : 0 <= heap_size h.
Proof.
  unfold heap_size. induction (map_to_list h) as [|[b k] l IH]; csimpl; [done|].
  pose proof (block_size_nonneg k). lia.
Qed.

(** Two live blocks fit in the memory together. *)
Lemma heap_size_two h b b' k k' :
  b <> b' -> h !! b = Some k -> h !! b' = Some k' -> block_size k + block_size k' <= heap_size h.
Proof.
  intros Hne Hb Hb'. rewrite (heap_size_delete h b k Hb), (heap_size_delete (delete b h) b' k').
  - pose proof (heap_size_nonneg (delete b' (delete b h))). lia.
  - by rewrite lookup_delete_ne.
Qed.

(** ** Weakest preconditions *)

Section Wp.
Context {e : env} {T : trap -> Prop}.

Lemma wp_ret {A} (a : A) Q s : Q a s -> wp e T (mret a) Q s.
Proof. done. Qed.

Lemma wp_bind {A B} (c : C A) (f : A -> C B) Q s :
  wp e T c (fun a => wp e T (f a) Q) s -> wp e T (c ≫= f) Q s.
Proof. unfold wp, mbind, C_bind. by destruct (c e s) as [[a s']|t]. Qed.

Lemma wp_mono {A} (c : C A) (Q Q' : A -> cst -> Prop) s :
  wp e T c Q s -> (forall a s', Q a s' -> Q' a s') -> wp e T c Q' s.
Proof. unfold wp. destruct (c e s) as [[a s']|t]; auto. Qed.

Lemma wp_seq {A B} (c : C A) (f : A -> C B) (P : A -> cst -> Prop) Q s :
  wp e T c P s -> (forall a s', P a s' -> wp e T (f a) Q s') -> wp e T (c ≫= f) Q s.
Proof. intros H Hf. apply wp_bind. eapply wp_mono; eauto. Qed.
End Wp.

(** ** Steps that only touch the heap *)

Record heap_step (s s' : cst) : Prop := {
  hs_wf : wf s';
  hs_next : next s <= next s';
  hs_vars : vars s' = vars s;
  hs_handles : handles s' = handles s;
  hs_next_h : next_h s' = next_h s;
  hs_trace : trace s' = trace s;
  hs_denied : (denied s <= denied s')%nat;
}.

Lemma heap_step_refl s : wf s -> heap_step s s.
Proof. by split. Qed.

Lemma heap_step_trans s1 s2 s3 : heap_step s1 s2 -> heap_step s2 s3 -> heap_step s1 s3.
Proof. intros [] []. split; (done || lia || congruence). Qed.

Lemma wf_fresh s : wf s -> heap s !! next s = None.
Proof.
  intros Hs. apply eq_None_not_Some. intros [k H]. apply (wf_heap s Hs) in H. lia.
Qed.

Lemma wf_fresh_handle s : wf s -> handles s !! next_h s = None.
Proof.
  intros Hs. apply eq_None_not_Some. intros [k H]. apply (wf_handle s Hs) in H. lia.
Qed.

Lemma wf_deny s : wf s -> wf (deny s).
Proof. by intros []. Qed.

Lemma wf_update s b k k' :
  wf s -> heap s !! b = Some k -> block_size k' = block_size k ->
  wf (set_heap (<[b := k']> (heap s)) s).
Proof.
  intros [Hh Hs ? ?] Hb Hk. split; simpl; try done.
  - intros b' k''. rewrite lookup_insert. case_decide; [|by apply Hh].
    intros _. subst. by apply (Hh _ k).
  - rewrite (heap_size_update _ _ k) by done. lia.
Qed.

Lemma wf_delete s b : wf s -> wf (set_heap (delete b (heap s)) s).
Proof.
  intros [Hh Hs ? ?]. split; simpl; try done.
  - intros b' k. rewrite lookup_delete_Some. intros [_ H]. eauto.
  - destruct (heap s !! b) as [k|] eqn:E.
    + rewrite (heap_size_delete _ _ _ E) in Hs. pose proof (block_size_nonneg k). lia.
    + by rewrite delete_id.
Qed.

Lemma wf_add_block s b :
  wf s -> heap_size (heap s) + block_size b < memory_size -> wf (add_block b s).
Proof.
  intros Hs Hn. pose proof (wf_fresh s Hs). destruct Hs as [Hh ? ? ?]. split; simpl; try done.
  - intros b' k. rewrite lookup_insert. case_decide; [lia|]. intros ?%Hh. lia.
  - rewrite heap_size_insert by done. lia.
Qed.

Section Heap.
Context {e : env} {T : trap -> Prop}.

(** What an allocation of [k] leaves. *)
Definition allocated (k : block) (s : cst) (p : option Z) (s' : cst) : Prop :=
  heap_step s s' /\
  match p with
  | Some b => b = next s /\ heap s !! b = None /\ next s < next s' /\
              heap s' = <[b := k]> (heap s)
  | None => heap s' = heap s /\ (denied s < denied s')%nat
  end.

Lemma wp_alloc k s : wf s -> wp e T (alloc_replacing 0 k) (allocated k s) s.
Proof.
  intros Hs. unfold wp, alloc_replacing.
  destruct (grants _ _ _ && _) eqn:E.
  - apply andb_prop in E as [_ E%Z.ltb_lt]. split.
    + split; simpl; try done; [|lia]. apply wf_add_block; [done|lia].
    + pose proof (wf_fresh s Hs). split_and!; try done. simpl. lia.
  - split; [|simpl; split; [done|lia]]. split; simpl; try done; [by apply wf_deny|lia].
Qed.

Lemma wp_free p s :
  wf s -> (forall b, p = Some b -> is_Some (heap s !! b)) ->
  wp e T (free p) (fun _ s' => heap_step s s' /\
    heap s' = match p with Some b => delete b (heap s) | None => heap s end) s.
Proof.
  intros Hs Hp. unfold wp, free. destruct p as [b|]; [|split; [by apply heap_step_refl|done]].
  destruct (Hp b eq_refl) as [k ->]. split; [|done].
  split; simpl; try done. by apply wf_delete.
Qed.

Lemma wp_block_at b k s :
  heap s !! b = Some k -> wp e T (block_at (Some b)) (fun r s' => r = k /\ s' = s) s.
Proof. intros H. unfold wp, block_at, get. by rewrite H. Qed.

Lemma wp_set_block b k k' s :
  wf s -> heap s !! b = Some k -> block_size k = block_size k' ->
  wp e T (set_block b k') (fun _ s' => heap_step s s' /\ heap s' = <[b := k']> (heap s)) s.
Proof.
  intros Hs Hb Hk. unfold wp, set_block. rewrite Hb, Hk, Z.eqb_refl. split; [|done].
  split; simpl; try done. by eapply wf_update.
Qed.

Lemma wp_put b off bs cs s :
  wf s -> heap s !! b = Some (Bytes cs) -> 0 <= off ->
  off + Z.of_nat (length bs) <= Z.of_nat (length cs) ->
  wp e T (put b off bs) (fun _ s' => heap_step s s' /\
    heap s' = <[b := Bytes (take (Z.to_nat off) cs ++ map Some bs
                            ++ drop (Z.to_nat off + length bs) cs)]> (heap s)) s.
Proof.
  intros Hs Hb Ho Hn. unfold wp, put. rewrite Hb.
  destruct (Z.leb_spec 0 off), (Z.leb_spec (off + Z.of_nat (length bs)) (Z.of_nat (length cs))); try lia.
  simpl. split; [|done]. split; simpl; try done.
  eapply wf_update; [done..|]. simpl. f_equal. rewrite !length_app, length_take, length_map, length_drop. lia.
Qed.

Lemma mapM_Some (bs : bytes) : mapM id (map Some bs) = Some bs.
Proof. induction bs as [|b bs IH]; simpl; [done|]. by rewrite IH. Qed.

Lemma wp_read b off n cs bs s :
  heap s !! b = Some (Bytes cs) -> 0 <= off -> 0 <= n -> off + n <= Z.of_nat (length cs) ->
  take (Z.to_nat n) (drop (Z.to_nat off) cs) = map Some bs ->
  wp e T (read b off n) (fun r s' => r = bs /\ s' = s) s.
Proof.
  intros Hb Ho Hn Hl Hbs. unfold wp, read, get. rewrite Hb.
  destruct (Z.leb_spec 0 off), (Z.leb_spec 0 n), (Z.leb_spec (off + n) (Z.of_nat (length cs))); try lia.
  cbn [andb]. by rewrite Hbs, mapM_Some.
Qed.

Lemma wp_set_ptr b i p ps s :
  wf s -> heap s !! b = Some (Ptrs ps) -> 0 <= i < Z.of_nat (length ps) ->
  wp e T (set_ptr b i p) (fun _ s' => heap_step s s' /\
    heap s' = <[b := Ptrs (<[Z.to_nat i := p]> ps)]> (heap s)) s.
Proof.
  intros Hs Hb Hi. unfold wp, set_ptr. rewrite Hb.
  destruct (Z.leb_spec 0 i), (Z.ltb_spec i (Z.of_nat (length ps))); try lia.
  simpl. split; [|done]. split; simpl; try done.
  eapply wf_update; [done..|]. simpl. by rewrite length_insert.
Qed.

Lemma wp_ptr_at b i ps p s :
  heap s !! b = Some (Ptrs ps) -> 0 <= i -> ps !! Z.to_nat i = Some p ->
  wp e T (ptr_at b i) (fun r s' => r = p /\ s' = s) s.
Proof.
  intros Hb Hi Hp. unfold wp, ptr_at, get. rewrite Hb.
  destruct (Z.leb_spec 0 i); [|lia]. by rewrite Hp.
Qed.

Lemma scan_c_string (s : bytes) r : NUL ∉ s -> scan (map Some (s ++ NUL :: r)) = Ok s.
Proof.
  induction s as [|b s IH]; intros H; simpl; [done|].
  rewrite decide_False by set_solver. by rewrite IH by set_solver.
Qed.

Lemma wp_malloc n s : wf s -> wp e T (malloc n) (allocated (Bytes (replicate (Z.to_nat n) None)) s) s.
Proof. apply wp_alloc. Qed.

Lemma wp_calloc_ptrs n s :
  wf s -> wp e T (calloc_ptrs n) (allocated (Ptrs (replicate (Z.to_nat n) None)) s) s.
Proof. apply wp_alloc. Qed.

(** A block allocated and then filled. *)
Lemma allocated_update k k' s b s1 s2 :
  allocated k s (Some b) s1 -> heap_step s1 s2 -> heap s2 = <[b := k']> (heap s1) ->
  allocated k' s (Some b) s2.
Proof.
  intros [H1 (-> & Hf & Hn & Hh)] H2 Hh2. split; [by eapply heap_step_trans|].
  split_and!; [done|done| |].
  - pose proof (hs_next _ _ H2). lia.
  - rewrite Hh2, Hh. apply insert_insert_eq.
Qed.

Lemma put_whole (n : nat) (bs : bytes) :
  length bs = n ->
  take (Z.to_nat 0) (replicate n None) ++ map Some bs ++ drop (Z.to_nat 0 + length bs) (replicate n None)
  = map Some bs.
Proof. intros <-. simpl. rewrite drop_ge by (rewrite length_replicate; lia). apply app_nil_r. Qed.

Lemma wp_put_whole s b s1 n bs :
  allocated (Bytes (replicate (Z.to_nat n) None)) s (Some b) s1 -> n = Z.of_nat (length bs) ->
  wp e T (put b 0 bs) (fun _ s' => allocated (Bytes (map Some bs)) s (Some b) s') s1.
Proof.
  intros Ha ->. pose proof Ha as [Hs (Hb & Hf & _ & Hh)].
  eapply wp_mono.
  - apply wp_put with (cs := replicate (Z.to_nat (Z.of_nat (length bs))) None); [apply Hs| |lia|].
    + rewrite Hh. apply lookup_insert_eq.
    + rewrite length_replicate. lia.
  - intros [] s' [Hs' Hh']. rewrite put_whole in Hh' by lia. by eapply allocated_update.
Qed.

Lemma wp_strdup str s : wf s -> wp e T (strdup str) (allocated (c_string str) s) s.
Proof.
  intros Hs. unfold strdup. eapply wp_seq; [by apply wp_malloc|].
  intros [b|] s1 Ha; [|exact Ha].
  eapply wp_seq; [apply (wp_put_whole s b s1 _ _ Ha); rewrite length_app; simpl; lia|].
  intros [] s2 H2. exact H2.
Qed.

Lemma wf_set_vars v s : wf s -> wf (set_vars v s).
Proof. by intros []. Qed.

Lemma wp_new_var v s :
  wf s -> wp e T (new_var v) (fun a s' => s' = set_vars (<[a := v]> (vars s)) s /\ wf s' /\ vars s !! a = None) s.
Proof.
  intros Hs. split_and!; [done|by apply wf_set_vars|]. apply not_elem_of_dom, is_fresh.
Qed.

Lemma wp_deref a v s : vars s !! a = Some v -> wp e T (deref a) (fun r s' => r = v /\ s' = s) s.
Proof. intros H. unfold wp, deref, get. by rewrite H. Qed.

Lemma wp_end_var a s : wf s -> wp e T (end_var a) (fun _ s' => s' = set_vars (delete a (vars s)) s /\ wf s') s.
Proof. intros Hs. split; [done|by apply wf_set_vars]. Qed.

(** The rule for the growth of a buffer in place of itself. *)
Lemma wp_realloc b cs n s :
  wf s -> heap s !! b = Some (Bytes cs) ->
  wp e T (realloc (Some b) n) (fun p s' => heap_step s s' /\
    match p with
    | Some b' => b' = next s /\ heap s !! b' = None /\ next s < next s' /\
        heap s' = <[b' := Bytes (resize (Z.to_nat n) None cs)]> (delete b (heap s))
    | None => heap s' = heap s /\ (denied s < denied s')%nat
    end) s.
Proof.
  intros Hs Hb. unfold realloc, wp, mbind, C_bind, get. rewrite Hb. simpl.
  unfold alloc_replacing. destruct (grants _ _ _ && _) eqn:E.
  - apply andb_prop in E as [_ E%Z.ltb_lt]. pose proof (wf_fresh s Hs) as Hf.
    assert (b <> next s) as Hne by congruence.
    simpl. rewrite lookup_insert_ne, Hb by done. simpl. split.
    + split; simpl; try done; [|lia]. destruct Hs as [Hh ? ? ?]. split; simpl; try done.
      * intros b' k. rewrite lookup_delete_Some, lookup_insert.
        intros [_ H]. case_decide; [lia|]. apply Hh in H. lia.
      * rewrite delete_insert_ne by done.
        rewrite heap_size_insert by by rewrite lookup_delete_ne.
        rewrite (heap_size_delete _ _ _ Hb) in E. simpl in E |- *. lia.
    + split_and!; [done|done|simpl; lia|]. simpl. by apply delete_insert_ne.
  - split; [|simpl; split; [done|lia]]. split; simpl; try done; [by apply wf_deny|lia].
Qed.
End Heap.

(** ** Calls *)

(** What a call of [o] answered with [a] leaves, entered with table [t]. *)
Record called (o : op) (a : ans o) (t : gmap Z hentry) (s s' : cst) : Prop := {
  cl_wf : wf s';
  cl_heap : heap s' = heap s;
  cl_next : next s' = next s;
  cl_vars : vars s' = vars s;
  cl_denied : denied s' = denied s;
  cl_trace : trace s' = trace s ++ [Ev o a];
  cl_handles : handles s' = match creates o a with Some r => <[next_h s := r]> t | None => t end;
  cl_next_h : next_h s' = match creates o a with Some _ => next_h s + 1 | None => next_h s end;
}.

Lemma creates_parent o a r p : creates o a = Some r -> h_parent r = Some p -> exists k, uses o = Some (p, k).
Proof.
  destruct o; simpl in *; intros; repeat case_match; simplify_eq/=; eauto.
Qed.

Lemma enter_subseteq o t t' : enter o t = Some t' -> t' ⊆ t.
Proof.
  unfold enter. intros. repeat case_match; simplify_eq; [apply delete_subseteq|done..].
Qed.

Lemma enter_live o t t' h k : enter o t = Some t' -> uses o = Some (h, k) -> is_Some (t !! h).
Proof. unfold enter. intros. repeat case_match; simplify_eq; eauto. Qed.

Lemma enter_none o t : uses o = None -> enter o t = Some t.
Proof. unfold enter. by intros ->. Qed.

Lemma enter_borrow o t h k r :
  uses o = Some (h, k) -> consumes o = false -> t !! h = Some r -> h_kind r = k -> enter o t = Some t.
Proof. unfold enter. intros -> -> -> ->. by rewrite decide_True. Qed.

Lemma enter_own o t h k r :
  uses o = Some (h, k) -> consumes o = true -> t !! h = Some r -> h_kind r = k -> childless h t ->
  enter o t = Some (delete h t).
Proof. unfold enter. intros -> -> -> -> Hc. by rewrite !decide_True. Qed.

Lemma called_wf o a t s :
  wf s -> enter o (handles s) = Some t ->
  wf (match creates o a with
      | Some r => record (Ev o a) (<[next_h s := r]> t) (next_h s + 1) s
      | None => record (Ev o a) t (next_h s) s
      end).
Proof.
  intros [? ? Hh Hp] Ht. pose proof (enter_subseteq _ _ _ Ht) as Hsub.
  assert (forall h r, t !! h = Some r -> handles s !! h = Some r) as Hin
    by (intros h r E; by eapply lookup_weaken).
  destruct (creates o a) as [r|] eqn:Hr; split; simpl; try done; try by eauto.
  - intros h r'. rewrite lookup_insert. case_decide; [lia|]. intros ?%Hin%Hh. lia.
  - intros h r' p. rewrite lookup_insert. case_decide.
    + intros [= <-] E. destruct (creates_parent o a r p Hr E) as [k Hk].
      destruct (enter_live _ _ _ _ _ Ht Hk) as [e' He']. apply Hh in He'. lia.
    + intros E E'. pose proof (Hp _ _ _ (Hin _ _ E) E'). lia.
Qed.

Lemma wp_call e T o t s Q :
  wf s -> admissible o = true -> enter o (handles s) = Some t ->
  (forall a s', a = answers e (trace s) o -> called o a t s s' -> Q (a, next_h s) s') ->
  wp e T (call o) Q s.
Proof.
  intros Hs Ha Ht HQ. unfold wp, call. rewrite Ha. simpl. rewrite Ht.
  pose proof (called_wf o (answers e (trace s) o) t s Hs Ht) as Hwf.
  specialize (HQ (answers e (trace s) o)).
  destruct (creates o (answers e (trace s) o)) as [r|] eqn:Hr; apply HQ; try done;
    split; simpl; try done; by rewrite Hr.
Qed.

Lemma wp_call_then {B} e T o t s (f : ans o * Z -> C B) Q :
  wf s -> admissible o = true -> enter o (handles s) = Some t ->
  (forall a s', a = answers e (trace s) o -> called o a t s s' -> wp e T (f (a, next_h s)) Q s') ->
  wp e T (call o ≫= f) Q s.
Proof. intros. apply wp_bind. by eapply wp_call. Qed.

(** The next statement is a call. *)
Ltac wcall :=
  match goal with
  | |- wp ?e ?T (mbind ?f (call ?o)) ?Q ?s => refine (wp_call_then e T o _ s f Q _ _ _ _)
  end.

(** ** Progress of a function *)

(** The function made the calls [evs]; the blocks that were live are as they
    were. *)
Record progress (evs : list event) (s s' : cst) : Prop := {
  pr_wf : wf s';
  pr_heap : heap s ⊆ heap s';
  pr_next : next s <= next s';
  pr_next_h : next_h s <= next_h s';
  pr_trace : trace s' = trace s ++ evs;
  pr_denied : (denied s <= denied s')%nat;
}.

Lemma progress_refl s : wf s -> progress [] s s.
Proof. intros. split; try done. by rewrite app_nil_r. Qed.

Lemma progress_trans evs1 evs2 s1 s2 s3 :
  progress evs1 s1 s2 -> progress evs2 s2 s3 -> progress (evs1 ++ evs2) s1 s3.
Proof.
  intros [] []. split; try done; try lia.
  - by transitivity (heap s2).
  - rewrite app_assoc. congruence.
Qed.

Lemma progress_heap_step s s' : heap_step s s' -> heap s ⊆ heap s' -> progress [] s s'.
Proof. intros [] ?. split; try done; try lia. by rewrite app_nil_r. Qed.

Lemma progress_called o a t s s' : called o a t s s' -> progress [Ev o a] s s'.
Proof.
  intros []. split; try done; try lia; [by rewrite cl_heap0|].
  rewrite cl_next_h0. destruct (creates o a); lia.
Qed.

Lemma allocated_heap k s p s' : allocated k s p s' -> heap s ⊆ heap s'.
Proof.
  intros [_ H]. destruct p as [b|]; [|by destruct H as [-> _]].
  destruct H as (-> & Hf & _ & ->). by apply insert_subseteq.
Qed.

Lemma progress_allocated k s p s' : allocated k s p s' -> progress [] s s'.
Proof. intros H. apply progress_heap_step; [apply H|]. by eapply allocated_heap. Qed.

Lemma progress_lookup evs s s' b k : progress evs s s' -> heap s !! b = Some k -> heap s' !! b = Some k.
Proof. intros [] ?. by eapply lookup_weaken. Qed.

(** Freeing what was allocated since leaves the blocks that were live. *)
Lemma subseteq_delete_fresh (h h' : gmap Z block) b : h ⊆ h' -> h !! b = None -> h ⊆ delete b h'.
Proof.
  intros Hsub Hb. apply map_subseteq_spec. intros b' k E.
  rewrite lookup_delete_ne by congruence. by eapply lookup_weaken.
Qed.

Lemma subseteq_insert_fresh (h h' : gmap Z block) b k : h ⊆ h' -> h !! b = None -> h ⊆ <[b := k]> h'.
Proof.
  intros Hsub Hb. apply map_subseteq_spec. intros b' k' E.
  rewrite lookup_insert_ne by congruence. by eapply lookup_weaken.
Qed.

(** ** Tables *)

Lemma childless_insert h b e t : childless h t -> h_parent e <> Some h -> childless h (<[b := e]> t).
Proof. intros. by apply map_Forall_insert_2. Qed.

Lemma childless_delete h b t : childless h t -> childless h (delete b t).
Proof. intros. by apply map_Forall_delete. Qed.

Lemma childless_fresh s h : wf s -> next_h s <= h -> childless h (handles s).
Proof. intros Hs Hh k e He E. pose proof (wf_parent s Hs _ _ _ He E). lia. Qed.

(** Giving up the handle that was added to the table of [s0]. *)
Lemma enter_last o s0 s h k e :
  uses o = Some (h, k) -> consumes o = true -> handles s = <[h := e]> (handles s0) -> wf s0 -> next_h s0 <= h ->
  h_kind e = k -> h_parent e <> Some h -> enter o (handles s) = Some (handles s0).
Proof.
  intros Hu Hc Hh Hs Hn Hk Hp. rewrite Hh. erewrite enter_own; [|done|done|apply lookup_insert_eq|done|].
  - f_equal. apply delete_insert_id, eq_None_not_Some. intros [r Hr]. apply (wf_handle _ Hs) in Hr. lia.
  - apply childless_insert; [by apply (childless_fresh s0)|done].
Qed.

#[export] Hint Resolve heap_step_refl progress_refl pr_wf hs_wf cl_wf : guest.
