(* ===== verification/Wasmfn.v ===== *)
(** The HTTP client and the logger of the C glue
    (crates/guestfn/templates/c/src/wasmfn.c; the same file in
    crates/guestfn/testdata/c, examples/hello-c and examples/cert-rotator).

    A [const char *] the code only reads is its content, NULL is [None]; a
    [char *] it allocates is a block of the heap. [char **err] is NULL or the
    address of a [char *] variable. Out-parameters set only on success are part
    of the result. *)
From S2P Require Import Prelude BindTypes CString Machine.
From Stdlib Require Import Strings.Byte.

Definition default_ttl_seconds : Z := 60.
Definition read_chunk : Z := 64 * 1024.
Definition write_chunk : Z := 4096.
Definition size_t (z : Z) : Z := uwrap 32 z.
Definition INT_MAX : Z := 2 ^ 31 - 1.

(** ** Strings *)

(** [content] is what the format produces: [vsnprintf] returns its length, or a
    negative number when that does not fit an [int]. *)
Definition wasmfn_sprintf (content : bytes) : C (option Z) :=
  if INT_MAX <? Z.of_nat (length content) then mret None else strdup content.

(** The C string at a pointer, and [wasmfn_sprintf] as its callers use it: the
    text is never written again, so its content stands for it. *)
Definition text_of (p : option Z) : C (option bytes) :=
  match p with None => mret None | Some b => t ← c_str b 0; mret (Some t) end.
Definition sprintf_text (content : bytes) : C (option bytes) :=
  p ← wasmfn_sprintf content; text_of p.

(** [%s] of a pointer that may be NULL. *)
Definition arg_s (s : option bytes) : bytes := default (lit "(null)") s.

Definition is_space (c : byte) : bool :=
  bool_decide (c ∈ [x20; x09; x0d; x0a]).

Definition fail (err : option Z) (msg : bytes) : C bool :=
  match err with
  | Some p => v ← strdup msg; _ ← assign p v; mret false
  | None => mret false
  end.

(** function_string_dup_n, function_string_dup: a copy in a block of its own;
    [cabi_realloc] aborts when out of memory. *)
Definition string_dup_n (s : bytes) (len : Z) : C list_u8 := cabi_lower (take (Z.to_nat len) s).
Definition string_dup (s : bytes) : C list_u8 := string_dup_n s (Z.of_nat (length s)).

(** ** Log *)

Definition level_debug : Z := 0.
Definition level_info : Z := 1.
Definition level_warn : Z := 2.
Definition level_error : Z := 3.

Definition log_names : list bytes := map lit ["debug"; "info"; "warn"; "error"]%string.

(** The keys and values of the variable arguments, up to the NULL key; a value
    may be NULL. *)
Abbreviation va_pairs := (list (bytes * option bytes)).

Definition pair_values (kv : va_pairs) : list (bytes * bytes) :=
  map (fun '(k, v) => (k, default [] v)) kv.

(** The wasi build's [log_record]; the items array is 16 bytes a pair. *)
Definition log_record (level : Z) (msg : bytes) (kv : va_pairs) : C unit :=
  let pairs := Z.of_nat (length kv) in
  items ← (if pairs =? 0 then mret None else malloc (16 * pairs));
  if negb (pairs =? 0) && bool_decide (items = None) then mret tt else
  _ ← call (Log level msg (pair_values kv));
  free items.

(** The native build's. *)
Fixpoint log_pairs (kv : va_pairs) : C unit :=
  match kv with
  | [] => mret tt
  | (k, v) :: kv =>
      _ ← call (Stderr (lit " " ++ k ++ lit "=" ++ default [] v));
      log_pairs kv
  end.
Definition log_record_native (level : Z) (msg : bytes) (kv : va_pairs) : C unit :=
  match log_names !! Z.to_nat level with
  | None => stop UB
  | Some name =>
      _ ← call (Stderr (lit "wasmfn log " ++ name ++ lit ": " ++ msg));
      _ ← log_pairs kv;
      _ ← call (Stderr [x0a]);
      mret tt
  end.

(** ** Error codes *)

Definition error_code_names : list bytes := map lit [
  "dns-timeout"; "dns-error"; "destination-not-found"; "destination-unavailable";
  "destination-ip-prohibited"; "destination-ip-unroutable"; "connection-refused";
  "connection-terminated"; "connection-timeout"; "connection-read-timeout";
  "connection-write-timeout"; "connection-limit-reached"; "tls-protocol-error";
  "tls-certificate-error"; "tls-alert-received"; "http-request-denied";
  "http-request-length-required"; "http-request-body-size"; "http-request-method-invalid";
  "http-request-uri-invalid"; "http-request-uri-too-long"; "http-request-header-section-size";
  "http-request-header-size"; "http-request-trailer-section-size"; "http-request-trailer-size";
  "http-response-incomplete"; "http-response-header-section-size"; "http-response-header-size";
  "http-response-body-size"; "http-response-trailer-section-size"; "http-response-trailer-size";
  "http-response-transfer-coding"; "http-response-content-coding"; "http-response-timeout";
  "http-upgrade-failed"; "http-protocol-error"; "loop-detected"; "configuration-error";
  "internal-error"]%string.

(** A message handed over: to [*err], or freed when nobody listens. *)
Definition fail_with (err msg : option Z) : C bool :=
  match err with
  | Some p =>
      v ← match msg with Some _ => mret msg | None => strdup (lit "out of memory") end;
      _ ← assign p v; mret false
  | None => _ ← free msg; mret false
  end.

Definition describe_error_code (code : v_error_code) : C (option Z) :=
  match decide (ec_tag code = WASI_HTTP_TYPES_ERROR_CODE_INTERNAL_ERROR), ec_val code with
  | left _, V_internal_error (Some reason) => strdup (strndup_content reason (length reason))
  | left _, V_internal_error None | right _, _ =>
      wasmfn_sprintf (lit "wasi:http error-code " ++
        default (lit "unknown") (error_code_names !! Z.to_nat (ec_tag code)))
  | left _, _ => stop UB
  end.

(** ** The request *)

(** [rq_headers]: the strings before the terminating NULL. [rq_body]: the bytes
    at the pointer, at least [rq_body_len] of them. *)
Record wasmfn_http_request := HttpRequest {
  rq_method : option bytes;
  rq_url : option bytes;
  rq_headers : option (list bytes);
  rq_body : option bytes;
  rq_body_len : Z;
}.

(** [rs_headers]: a block of [char *]; [rs_body]: a block of bytes. *)
Record wasmfn_http_response := HttpResponse {
  rs_status : Z;
  rs_headers : option Z;
  rs_body : option Z;
  rs_body_len : Z;
}.
Definition response_zero : wasmfn_http_response := HttpResponse 0 None None 0.

Definition split_url (url : option bytes) (err : option Z)
    : C (option (wasi_http_types_scheme_t list_u8 * list_u8 * list_u8)) :=
  let refuse msg := _ ← fail err msg; mret None in
  let go tag rest :=
    let slash := strchr rest x2f in
    let authority_len := match slash with Some i => i | None => length rest end in
    if Nat.eqb authority_len 0 then refuse (lit "the URL has no host") else
    authority ← string_dup_n rest (Z.of_nat authority_len);
    path ← string_dup (match slash with Some i => drop i rest | None => lit "/" end);
    mret (Some (Scheme tag None, authority, path)) in
  match url with
  | Some u =>
      if strncmp_eq u (lit "https://") 8 then go WASI_HTTP_TYPES_SCHEME_HTTPS (drop 8 u)
      else if strncmp_eq u (lit "http://") 7 then go WASI_HTTP_TYPES_SCHEME_HTTP (drop 7 u)
      else refuse (lit "only http and https URLs work")
  | None => refuse (lit "only http and https URLs work")
  end.

Definition standard : list (bytes * Z) := [
  (lit "GET", WASI_HTTP_TYPES_METHOD_GET); (lit "HEAD", WASI_HTTP_TYPES_METHOD_HEAD);
  (lit "POST", WASI_HTTP_TYPES_METHOD_POST); (lit "PUT", WASI_HTTP_TYPES_METHOD_PUT);
  (lit "DELETE", WASI_HTTP_TYPES_METHOD_DELETE); (lit "CONNECT", WASI_HTTP_TYPES_METHOD_CONNECT);
  (lit "OPTIONS", WASI_HTTP_TYPES_METHOD_OPTIONS); (lit "TRACE", WASI_HTTP_TYPES_METHOD_TRACE);
  (lit "PATCH", WASI_HTTP_TYPES_METHOD_PATCH)].

Definition method_of (name : option bytes) : C (wasi_http_types_method_t list_u8) :=
  match name with
  | None | Some [] => mret (Method WASI_HTTP_TYPES_METHOD_GET None)
  | Some n =>
      match list_find (fun '(m, _) => strcmp_eq m n) standard with
      | Some (_, (_, tag)) => mret (Method tag None)
      | None => other ← string_dup n; mret (Method WASI_HTTP_TYPES_METHOD_OTHER (Some other))
      end
  end.

(** The loop over the alternating names and values: it stops at the first NULL
    among [headers[i]], [headers[i + 1]]. *)
Fixpoint append_headers (hs : list bytes) (headers : Z) (err : option Z) : C bool :=
  match hs with
  | name :: value :: hs =>
      r ← call (FieldsAppend headers name value);
      match fst r with
      | RErr _ =>
          msg ← wasmfn_sprintf (lit "the host refused the request header " ++ name);
          fail_with err msg
      | ROk _ => append_headers hs headers err
      end
  | _ => mret true
  end.

Definition request_headers (req : wasmfn_http_request) (err : option Z) : C (bool * Z) :=
  '(_, headers) ← call ConstructorFields;
  ok ← match rq_headers req with
       | Some hs => append_headers hs headers err
       | None => mret true
       end;
  mret (ok, headers).

(** ** The body *)

(** [n] bytes at offset [off]. *)
Definition slice (bs : bytes) (off n : Z) : C bytes :=
  if off + n <=? Z.of_nat (length bs) then mret (take (Z.to_nat n) (drop (Z.to_nat off) bs))
  else stop UB.

Fixpoint write_chunks (fuel : nat) (stream : Z) (bs : bytes) (len off : Z) (err : option Z) : C bool :=
  match fuel with
  | O => stop OutOfFuel
  | S fuel =>
      if off <? len then
        let n := if len - off <? write_chunk then len - off else write_chunk in
        chunk ← slice bs off n;
        r ← call (BlockingWriteAndFlush stream chunk);
        match fst r with
        | RErr _ =>
            _ ← call (Drop OutputStream stream);
            fail err (lit "writing the request body failed")
        | ROk _ => write_chunks fuel stream bs len (size_t (off + write_chunk)) err
        end
      else mret true
  end.

(** One turn of the loop per chunk, and the turn that ends it. *)
Definition write_fuel (len : Z) : nat := S (Z.to_nat ((len + write_chunk - 1) / write_chunk)).

Definition write_body (body : Z) (bs : bytes) (len : Z) (err : option Z) : C bool :=
  '(ok, stream) ← call (OutgoingBodyWrite body);
  if negb ok then fail err (lit "the request body stream was already taken") else
  written ← write_chunks (write_fuel len) stream bs len 0 err;
  if negb written then mret false else
  _ ← call (Drop OutputStream stream);
  r ← call (OutgoingBodyFinish body);
  match fst r with
  | RErr code => msg ← describe_error_code code; fail_with err msg
  | ROk _ => mret true
  end.

(** ** The response *)

(** The entries the host lowered: the array's block and its pairs. *)
Record entries_t := Entries { en_ptr : option Z; en_pairs : list (list_u8 * list_u8) }.

Definition en_len (en : entries_t) : Z := Z.of_nat (length (en_pairs en)).

Fixpoint lower_pairs (ps : list (bytes * bytes)) : C (list (list_u8 * list_u8)) :=
  match ps with
  | [] => mret []
  | (n, v) :: ps =>
      n' ← cabi_lower n; v' ← cabi_lower v; r ← lower_pairs ps; mret ((n', v') :: r)
  end.
Definition lower_entries (ps : list (bytes * bytes)) : C entries_t :=
  match ps with
  | [] => mret (Entries None [])
  | _ => p ← malloc (16 * Z.of_nat (length ps));
         match p with
         | None => stop Aborted
         | Some b => r ← lower_pairs ps; mret (Entries (Some b) r)
         end
  end.

(** wasi_http_types_list_tuple2_field_name_field_value_free *)
Fixpoint free_pairs (ps : list (list_u8 * list_u8)) : C unit :=
  match ps with
  | [] => mret tt
  | (n, v) :: ps => _ ← list_u8_free n; _ ← list_u8_free v; free_pairs ps
  end.
Definition entries_free (en : entries_t) : C unit :=
  if 0 <? en_len en then _ ← free_pairs (en_pairs en); free (en_ptr en) else mret tt.

(** [strndup] of a lowered list. *)
Definition strndup (l : list_u8) : C (option Z) :=
  bs ← list_bytes l; strdup (strndup_content bs (length bs)).

Fixpoint copy_pairs (pairs : Z) (ps : list (list_u8 * list_u8)) (i : Z) : C unit :=
  match ps with
  | [] => mret tt
  | (n, v) :: ps =>
      p ← strndup n; _ ← set_ptr pairs (2 * i) p;
      q ← strndup v; _ ← set_ptr pairs (2 * i + 1) q;
      copy_pairs pairs ps (i + 1)
  end.

Definition response_headers (response : Z) : C (option Z) :=
  '(_, headers) ← call (IncomingResponseHeaders response);
  r ← call (FieldsEntries headers);
  entries ← lower_entries (fst r);
  pairs ← calloc_ptrs (size_t (2 * en_len entries + 1));
  _ ← match pairs with Some p => copy_pairs p (en_pairs entries) 0 | None => mret tt end;
  _ ← entries_free entries;
  _ ← call (Drop Fields headers);
  mret pairs.

(** The loop that drains the stream: whether it ended well, the buffer and the
    bytes it holds. *)
Fixpoint read_loop (fuel : nat) (stream buf len : Z) (err : option Z) : C (bool * Z * Z) :=
  match fuel with
  | O => stop OutOfFuel
  | S fuel =>
      r ← call (BlockingRead stream read_chunk);
      match fst r with
      | RErr serr =>
          ok ← (if se_tag serr =? WASI_IO_STREAMS_STREAM_ERROR_CLOSED then mret true
                else fail err (lit "reading the response body failed"));
          mret (ok, buf, len)
      | ROk bs =>
          chunk ← cabi_lower bs;
          grown ← realloc (Some buf) (size_t (len + u8_len chunk + 1));
          match grown with
          | None =>
              ok ← fail err (lit "out of memory");
              _ ← list_u8_free chunk;
              mret (ok, buf, len)
          | Some buf =>
              bs ← list_bytes chunk;
              _ ← put buf len bs;
              _ ← list_u8_free chunk;
              read_loop fuel stream buf (size_t (len + u8_len chunk)) err
          end
      end
  end.

Definition read_body (fuel : nat) (response : Z) (err : option Z) : C (option (Z * Z)) :=
  '(ok, body) ← call (IncomingResponseConsume response);
  if negb ok then _ ← fail err (lit "the response body was already taken"); mret None else
  '(ok, stream) ← call (IncomingBodyStream body);
  if negb ok then
    _ ← call (Drop IncomingBody body);
    _ ← fail err (lit "the response body stream was already taken");
    mret None
  else
  buf ← malloc 1;
  '(ok, buf, len) ←
    match buf with
    | Some b => '(ok, b, len) ← read_loop fuel stream b 0 err; mret (ok, Some b, len)
    | None => mret (false, None, 0)
    end;
  _ ← call (Drop InputStream stream);
  '(_, trailers) ← call (IncomingBodyFinish body);
  _ ← call (Drop FutureTrailers trailers);
  match ok, buf with
  | true, Some b => _ ← put b len [NUL]; mret (Some (b, len))
  | true, None => stop UB
  | false, _ => _ ← free buf; mret None
  end.

(** ** Sending *)

(** The adapters read the strings their arguments point to. *)
Definition set_method (r : Z) (m : wasi_http_types_method_t list_u8) : C bool :=
  other ← match m_other m with Some l => s ← list_bytes l; mret (Some s) | None => mret None end;
  '(ok, _) ← call (SetMethod r (Method (m_tag m) other)); mret ok.
Definition set_scheme (r : Z) (sc : wasi_http_types_scheme_t list_u8) : C bool :=
  other ← match sc_other sc with Some l => s ← list_bytes l; mret (Some s) | None => mret None end;
  '(ok, _) ← call (SetScheme r (Some (Scheme (sc_tag sc) other))); mret ok.
Definition set_authority (r : Z) (a : list_u8) : C bool :=
  s ← list_bytes a; '(ok, _) ← call (SetAuthority r (Some s)); mret ok.
Definition set_path_with_query (r : Z) (p : list_u8) : C bool :=
  s ← list_bytes p; '(ok, _) ← call (SetPathWithQuery r (Some s)); mret ok.

(** [c1 || c2], the second evaluated only when the first is false. *)
Definition or_else (c1 c2 : C bool) : C bool := b ← c1; if (b : bool) then mret true else c2.
Definition not (c : C bool) : C bool := b ← c; mret (negb b).

(** From the response resource on: status, headers, body. *)
Definition receive (fuel : nat) (response : Z) (rsp : wasmfn_http_response) (err : option Z)
    : C (bool * wasmfn_http_response) :=
  '(status, _) ← call (IncomingResponseStatus response);
  hs ← response_headers response;
  let rsp := HttpResponse status hs (rs_body rsp) (rs_body_len rsp) in
  match hs with
  | None => b ← fail err (lit "out of memory"); mret (b, rsp)
  | Some _ =>
      got ← read_body fuel response err;
      _ ← call (Drop IncomingResponse response);
      match got with
      | Some (b, len) => mret (true, HttpResponse status hs (Some b) len)
      | None => mret (false, rsp)
      end
  end.

(** From the response future on. *)
Definition await_response (fuel : nat) (future : Z) (rsp : wasmfn_http_response) (err : option Z)
    : C (bool * wasmfn_http_response) :=
  '(_, ready) ← call (FutureSubscribe future);
  _ ← call (PollableBlock ready);
  _ ← call (Drop Pollable ready);
  r ← call (FutureGet future);
  let '(got, response) := r in
  match got with
  | None => b ← fail err (lit "the host answered nothing"); mret (b, rsp)
  | Some got =>
      _ ← call (Drop FutureIncomingResponse future);
      match got with
      | RErr _ => b ← fail err (lit "the response was already taken"); mret (b, rsp)
      | ROk (RErr code) => msg ← describe_error_code code; b ← fail_with err msg; mret (b, rsp)
      | ROk (ROk _) => receive fuel response rsp err
      end
  end.

(** From the request body on: hand the request over, stream the body, wait. *)
Definition perform (fuel : nat) (req : wasmfn_http_request) (request : Z) (rsp : wasmfn_http_response)
    (err : option Z) : C (bool * wasmfn_http_response) :=
  let has_body := bool_decide (is_Some (rq_body req)) && negb (rq_body_len req =? 0) in
  '(taken, body) ← (if has_body then '(ok, body) ← call (OutgoingRequestBody request); mret (negb ok, body)
                    else mret (false, 0));
  if (taken : bool) then b ← fail err (lit "the request body was already taken"); mret (b, rsp) else
  r ← call (OutgoingHandlerHandle request);
  let '(handled, future) := r in
  match handled with
  | RErr code => msg ← describe_error_code code; b ← fail_with err msg; mret (b, rsp)
  | ROk _ =>
      written ← match rq_body req with
                | Some bs => if has_body then write_body body bs (rq_body_len req) err else mret true
                | None => mret true
                end;
      if negb written then mret (false, rsp) else await_response fuel future rsp err
  end.

Definition send_through_host (fuel : nat) (req : wasmfn_http_request) (rsp : wasmfn_http_response)
    (err : option Z) : C (bool * wasmfn_http_response) :=
  url ← split_url (rq_url req) err;
  match url with
  | None => mret (false, rsp)
  | Some (scheme, authority, path) =>
  '(ok, headers) ← request_headers req err;
  if negb ok then mret (false, rsp) else
  '(_, request) ← call (ConstructorOutgoingRequest headers);
  method ← method_of (rq_method req);
  ok ← set_method request method;
  if negb ok then b ← fail err (lit "the host refused the request method"); mret (b, rsp) else
  refused ← or_else (not (set_scheme request scheme))
              (or_else (not (set_authority request authority))
                 (not (set_path_with_query request path)));
  if (refused : bool) then b ← fail err (lit "the host refused the URL"); mret (b, rsp) else
  perform fuel req request rsp err
  end.

(** How the glue is built: for wasi, or natively with the host a test may have
    installed. *)
Inductive build :=
  | Wasi
  | Native (wasmfn_test_host :
      option (wasmfn_http_request -> wasmfn_http_response -> option Z -> C (bool * wasmfn_http_response))).

Definition log_at (level : Z) (bd : build) (msg : bytes) (kv : va_pairs) : C unit :=
  match bd with Wasi => log_record level msg kv | Native _ => log_record_native level msg kv end.
Definition wasmfn_log_debug : build -> bytes -> va_pairs -> C unit := log_at level_debug.
Definition wasmfn_log_info : build -> bytes -> va_pairs -> C unit := log_at level_info.
Definition wasmfn_log_warn : build -> bytes -> va_pairs -> C unit := log_at level_warn.
Definition wasmfn_log_error : build -> bytes -> va_pairs -> C unit := log_at level_error.

Definition wasmfn_http_send (b : build) (fuel : nat) (req : wasmfn_http_request)
    (rsp : wasmfn_http_response) (err : option Z) : C (bool * wasmfn_http_response) :=
  match b with
  | Wasi => send_through_host fuel req rsp err
  | Native None => r ← fail err (lit "no host HTTP in this build"); mret (r, rsp)
  | Native (Some test_host) => test_host req rsp err
  end.

(** ** Reading a response *)

(** The value's block; [fuel] bounds the pairs looked at. *)
Fixpoint find_header (fuel : nat) (headers i : Z) (name : bytes) : C (option Z) :=
  match fuel with
  | O => stop OutOfFuel
  | S fuel =>
      n ← ptr_at headers i;
      match n with
      | None => mret None
      | Some nb =>
          v ← ptr_at headers (i + 1);
          match v with
          | None => mret None
          | Some vb =>
              n ← c_str nb 0;
              if strcasecmp_eq n name then mret (Some vb)
              else find_header fuel headers (i + 2) name
          end
      end
  end.
Definition wasmfn_http_header (fuel : nat) (rsp : wasmfn_http_response) (name : bytes) : C (option Z) :=
  match rs_headers rsp with
  | None => mret None
  | Some hs => find_header fuel hs 0 name
  end.

(** The two trimming loops, over offsets in the body's block. *)
Fixpoint skip_front (fuel : nat) (b text stop_at : Z) : C Z :=
  match fuel with
  | O => stop OutOfFuel
  | S fuel =>
      if text <? stop_at then
        c ← read b text 1;
        if forallb is_space c then skip_front fuel b (text + 1) stop_at else mret text
      else mret text
  end.
Fixpoint skip_back (fuel : nat) (b text stop_at : Z) : C Z :=
  match fuel with
  | O => stop OutOfFuel
  | S fuel =>
      if text <? stop_at then
        c ← read b (stop_at - 1) 1;
        if forallb is_space c then skip_back fuel b text (stop_at - 1) else mret stop_at
      else mret stop_at
  end.

(** The text's block and offset. *)
Definition wasmfn_http_get_text (bd : build) (fuel : nat) (url : option bytes) (err : option Z)
    : C (option (Z * Z)) :=
  let req := HttpRequest None url None None 0 in
  '(ok, rsp) ← wasmfn_http_send bd fuel req response_zero err;
  if negb ok then mret None else
  if negb (rs_status rsp =? 200) then
    msg ← wasmfn_sprintf (lit "GET " ++ arg_s url ++ lit ": status " ++ fmt_d (rs_status rsp));
    _ ← match err with
        | Some p =>
            v ← match msg with Some _ => mret msg | None => strdup (lit "unexpected status") end;
            assign p v
        | None => mret tt
        end;
    mret None
  else
  match rs_body rsp with
  | None => stop UB
  | Some b =>
      let len := rs_body_len rsp in
      text ← skip_front (S (Z.to_nat len)) b 0 len;
      last ← skip_back (S (Z.to_nat len)) b text len;
      _ ← put b last [NUL];
      mret (Some (b, text))
  end.
