(* ===== verification/WasmfnMem.v ===== *)
(** The memory side of the HTTP client: messages, lowered lists, the array of
    response headers and the growing body buffer. *)
From S2P Require Import Prelude BindTypes CString Machine MachineLogic Wasmfn.
From Stdlib Require Import Strings.Byte.

(** ** Messages *)

Definition OOM : bytes := lit "out of memory".

(** [p] is a new block that holds [m], or NULL for want of memory or because
    [m] is longer than an [int] can say. *)
Definition worded (m : bytes) (s : cst) (p : option Z) (s' : cst) : Prop :=
  heap_step s s' /\
  match p with
  | Some b => heap s !! b = None /\ heap s' = <[b := c_string m]> (heap s)
  | None => heap s' = heap s /\
            ((denied s < denied s')%nat \/ INT_MAX < Z.of_nat (length m))
  end.

(** [*err] is [m], in a block of its own, when [err] is not NULL; only without memory is it NULL or the
    standing text. *)
Definition reported (err : option Z) (m : bytes) (s s' : cst) : Prop :=
  match err with
  | None => vars s' = vars s
  | Some a => exists v, vars s' = <[a := v]> (vars s) /\
      (v = None -> (denied s < denied s')%nat) /\
      (forall b, v = Some b -> heap s !! b = None /\ exists txt, heap s' !! b = Some (c_string txt) /\
         (txt = m \/ txt = OOM /\
            ((denied s < denied s')%nat \/ INT_MAX < Z.of_nat (length m))))
  end.

(** The address [err], when not NULL, is that of a variable. *)
Definition valid (err : option Z) (s : cst) : Prop :=
  forall a, err = Some a -> is_Some (vars s !! a).

Record told (err : option Z) (m : bytes) (s s' : cst) : Prop := {
  to_progress : progress [] s s';
  to_handles : handles s' = handles s;
  to_next_h : next_h s' = next_h s;
  to_reported : reported err m s s';
}.

Lemma worded_progress m s p s' : worded m s p s' -> progress [] s s'.
Proof.
  intros [Hs H]. apply progress_heap_step; [done|].
  destruct p as [b|]; destruct H as [H H']; [rewrite H'; by apply insert_subseteq|by rewrite H].
Qed.

Lemma reported_pre err m evs s s1 s2 :
  progress evs s s1 -> vars s1 = vars s -> reported err m s1 s2 -> reported err m s s2.
Proof.
  intros Hp Hv. pose proof (pr_denied _ _ _ Hp). destruct err as [a|]; simpl; [|congruence].
  intros (v & -> & Hn & Hb). exists v. rewrite Hv. split_and!; [done| |].
  - intros ->. specialize (Hn eq_refl). lia.
  - intros b ->. destruct (Hb b eq_refl) as (Hf & txt & ? & Ht). split.
    { apply eq_None_not_Some. intros [k Hk]. by rewrite (progress_lookup _ _ _ _ _ Hp Hk) in Hf. }
    exists txt. split; [done|].
    destruct Ht as [|[? [?|?]]]; [tauto| |tauto]. right. split; [done|]. left. lia.
Qed.

Lemma reported_post err m evs s s1 s2 :
  reported err m s s1 -> progress evs s1 s2 -> vars s2 = vars s1 -> reported err m s s2.
Proof.
  intros Hr Hp Hv. pose proof (pr_denied _ _ _ Hp). destruct err as [a|]; simpl in *; [|congruence].
  destruct Hr as (v & Hv1 & Hn & Hb). exists v. split_and!; [congruence| |].
  - intros ->. specialize (Hn eq_refl). lia.
  - intros b ->. destruct (Hb b eq_refl) as (Hf & txt & ? & Ht). split; [done|]. exists txt.
    split; [by eapply progress_lookup|].
    destruct Ht as [|[? [?|?]]]; [tauto| |tauto]. right. split; [done|]. left. lia.
Qed.

(** [*err] does not point to block [b]. *)
Definition apart (err : option Z) (b : Z) (s : cst) : Prop :=
  forall a, err = Some a -> vars s !! a <> Some (Some b).

Lemma told_apart err m s s' b : told err m s s' -> is_Some (heap s !! b) -> apart err b s'.
Proof.
  intros [_ _ _ H] [k Hk] a ->. simpl in H. destruct H as (v & -> & _ & Hb).
  rewrite lookup_insert_eq. intros [= ->]. destruct (Hb b eq_refl) as [Hf _]. congruence.
Qed.

(** Freeing a block that is not the message's. *)
Lemma reported_free err m s s1 s2 b :
  reported err m s s1 -> heap_step s1 s2 -> heap s2 = delete b (heap s1) -> apart err b s1 ->
  reported err m s s2.
Proof.
  intros Hr Hst Hh Hap. pose proof (hs_denied _ _ Hst). destruct err as [a|]; simpl in *.
  - destruct Hr as (v & Hv & Hn & Hb). exists v. rewrite (hs_vars _ _ Hst). split_and!; [done| |].
    + intros ->. specialize (Hn eq_refl). lia.
    + intros b' ->. destruct (Hb b' eq_refl) as (Hf & txt & Htxt & Ht). split; [done|]. exists txt.
      rewrite Hh, lookup_delete_ne.
      * split; [done|]. destruct Ht as [|[? [?|?]]]; [tauto| |tauto]. right. split; [done|]. left. lia.
      * intros ->. apply (Hap a eq_refl). rewrite Hv. apply lookup_insert_eq.
  - by rewrite (hs_vars _ _ Hst).
Qed.

(** What [lower] stores for a list. *)
Definition holds (s : cst) (l : list_u8) (bs : bytes) : Prop :=
  u8_len l = Z.of_nat (length bs) /\
  (bs <> [] -> exists b, u8_ptr l = Some b /\ heap s !! b = Some (Bytes (map Some bs))).

Definition lowered (bs : bytes) (s : cst) (l : list_u8) (s' : cst) : Prop :=
  heap_step s s' /\ u8_len l = Z.of_nat (length bs) /\
  match u8_ptr l with
  | None => bs = [] /\ heap s' = heap s
  | Some b => bs <> [] /\ heap s !! b = None /\ next s <= b < next s' /\
              heap s' = <[b := Bytes (map Some bs)]> (heap s)
  end.

Lemma lowered_holds bs s l s' : lowered bs s l s' -> holds s' l bs.
Proof.
  intros (_ & Hl & H). split; [done|]. intros Hne.
  destruct (u8_ptr l) as [b|]; [|by destruct H].
  exists b. split; [done|]. destruct H as (_ & _ & _ & ->). apply lookup_insert_eq.
Qed.

Lemma lowered_subseteq bs s l s' : lowered bs s l s' -> heap s ⊆ heap s'.
Proof.
  intros (_ & _ & H). destruct (u8_ptr l) as [b|]; [|by destruct H as [_ ->]].
  destruct H as (_ & ? & _ & ->). by apply insert_subseteq.
Qed.

Lemma lowered_progress bs s l s' : lowered bs s l s' -> progress [] s s'.
Proof. intros H. apply progress_heap_step; [apply H|]. by eapply lowered_subseteq. Qed.

Lemma holds_weaken s s' l bs : holds s l bs -> heap s ⊆ heap s' -> holds s' l bs.
Proof.
  intros [Hl H] Hsub. split; [done|]. intros Hne. destruct (H Hne) as (b & ? & ?).
  exists b. split; [done|]. by eapply lookup_weaken.
Qed.

Lemma scan_until_nul (bs : bytes) r : scan (map Some bs ++ Some NUL :: r) = Ok (until_nul bs).
Proof.
  induction bs as [|b bs IH]; cbn [map app scan until_nul].
  - by rewrite decide_True.
  - destruct (decide (b = NUL)); [done|]. by rewrite IH.
Qed.

Lemma scan_strdup (m : bytes) : scan (map Some (m ++ [NUL])) = Ok (until_nul m).
Proof. rewrite map_app. apply scan_until_nul. Qed.

Section Mem.
Context {e : env} {T : trap -> Prop}.

Lemma wp_assign a v s :
  wf s -> is_Some (vars s !! a) ->
  wp e T (assign a v) (fun _ s' => wf s' /\ s' = set_vars (<[a := v]> (vars s)) s) s.
Proof.
  intros Hs [v' Hv]. unfold wp, assign. rewrite Hv. split; [|done]. by destruct Hs.
Qed.

Lemma wp_strdup_worded m s : wf s -> wp e T (strdup m) (worded m s) s.
Proof.
  intros Hs. eapply wp_mono; [by apply wp_strdup|]. intros [b|] s' [Hst H]; split; try done.
  - destruct H as (-> & ? & _ & ?). done.
  - destruct H as (? & ?). auto.
Qed.

Lemma wp_sprintf m s : wf s -> wp e T (wasmfn_sprintf m) (worded m s) s.
Proof.
  intros Hs. unfold wasmfn_sprintf. destruct (Z.ltb_spec INT_MAX (Z.of_nat (length m))).
  - split; [by apply heap_step_refl|]. auto.
  - by apply wp_strdup_worded.
Qed.

(** The text of a message the code goes on to use. *)
Lemma wp_sprintf_text m s :
  wf s -> wp e T (sprintf_text m) (fun r s' => heap_step s s' /\ heap s ⊆ heap s' /\
    match r with
    | Some t => t = until_nul m
    | None => (denied s < denied s')%nat \/ INT_MAX < Z.of_nat (length m)
    end) s.
Proof.
  intros Hs. eapply wp_seq; [by apply wp_sprintf|]. intros p s1 Hw.
  pose proof (pr_heap _ _ _ (worded_progress _ _ _ _ Hw)) as Hsub. destruct Hw as [Hst H].
  destruct p as [b|]; [|apply wp_ret; split; [done|]; by destruct H].
  destruct H as [_ Hh]. unfold wp, text_of, c_str, get, mbind, C_bind. rewrite Hh, lookup_insert_eq.
  change (0 <=? 0) with true. cbv iota. change (Z.to_nat 0) with O. cbn [drop c_string].
  by rewrite drop_0, scan_strdup.
Qed.

(** An assignment that hands [p] over. *)
Lemma told_assign a m p s s1 :
  worded m s p s1 -> is_Some (vars s !! a) ->
  (p = None -> (denied s < denied s1)%nat) ->
  wp e T (assign a p) (fun _ s' => told (Some a) m s s') s1.
Proof.
  intros Hw Ha Hp. pose proof (worded_progress _ _ _ _ Hw) as Hpr. destruct Hw as [Hs H].
  eapply wp_mono; [apply wp_assign; [apply Hs|by rewrite (hs_vars _ _ Hs)]|].
  intros [] s' [Hwf ->]. split; try apply Hs.
  - destruct Hpr. split; done.
  - exists p. simpl. rewrite (hs_vars _ _ Hs). split_and!; [done|done|].
    intros b ->. destruct H as [? ->]. split; [done|]. exists m. split; [apply lookup_insert_eq|tauto].
Qed.

Lemma wp_fail err m s :
  wf s -> valid err s -> wp e T (fail err m) (fun ok s' => ok = false /\ told err m s s') s.
Proof.
  intros Hs Hv. unfold fail. destruct err as [a|].
  - eapply wp_seq; [by apply wp_strdup|]. intros p s1 Ha.
    eapply wp_seq.
    + apply (told_assign a m p s); [|by apply Hv|by destruct p; destruct Ha as [_ ?]; naive_solver].
      destruct Ha as [? H]. split; [done|]. destruct p; [|naive_solver].
      destruct H as (-> & ? & _ & ?). done.
    + intros [] s' H. by split.
  - split; [done|]. split; try done. by apply progress_refl.
Qed.

Lemma wp_fail_with err m p s s1 :
  worded m s p s1 -> valid err s ->
  wp e T (fail_with err p) (fun ok s' => ok = false /\ told err m s s') s1.
Proof.
  intros Hw Hv. pose proof (worded_progress _ _ _ _ Hw) as Hpr. unfold fail_with.
  destruct err as [a|]; [destruct p as [b|]|].
  - apply wp_bind, wp_ret. eapply wp_seq; [eapply told_assign; [done|by apply Hv|done]|].
    intros [] s' H. by split.
  - destruct Hw as [Hs [Hh Hd]]. eapply wp_seq; [apply wp_strdup_worded, Hs|].
    intros q s2 Hw2. pose proof (worded_progress _ _ _ _ Hw2) as Hpr2.
    eapply wp_seq; [eapply told_assign; [exact Hw2| |]|].
    + rewrite (hs_vars _ _ Hs). by apply Hv.
    + intros ->. destruct Hw2 as [_ [_ [?|?]]]; [done|]. by vm_compute in H.
    + intros [] s' [Hp3 H1 H2 H3]. apply wp_ret. split; [done|]. split.
      * exact (progress_trans [] [] _ _ _ Hpr Hp3).
      * rewrite H1. apply Hs.
      * rewrite H2. apply Hs.
      * simpl in H3. destruct H3 as (v & Hv3 & Hn & Hb). pose proof (hs_denied _ _ Hs). exists v.
        rewrite (hs_vars _ _ Hs) in Hv3. split_and!; [done|intros E; specialize (Hn E); lia|].
        intros b E. destruct (Hb b E) as (Hf & txt & ? & Ht). split; [by rewrite <- Hh|].
        exists txt. split; [done|]. right.
        pose proof (pr_denied _ _ _ Hp3).
        split; [by destruct Ht as [->|[-> _]]|]. destruct Hd; [left; lia|tauto].
  - eapply wp_seq; [apply wp_free; [apply Hpr|]|].
    + intros b ->. destruct Hw as [_ [_ ->]]. rewrite lookup_insert_eq. done.
    + intros [] s2 [Hs2 Hh]. apply wp_ret. split; [done|]. destruct Hw as [Hs H].
      assert (heap s2 = heap s) as Hheap.
      { rewrite Hh. destruct p as [b|]; destruct H as [Hb H]; [rewrite H; by apply delete_insert_id|done]. }
      pose proof (heap_step_trans _ _ _ Hs Hs2) as Hst. destruct Hst. split; try done.
      by apply progress_heap_step; [|rewrite Hheap].
Qed.

Lemma wp_cabi_lower bs s :
  wf s -> T Aborted -> wp e T (cabi_lower bs) (lowered bs s) s.
Proof.
  intros Hs HT. unfold cabi_lower. destruct bs as [|b0 bs0] eqn:Eb.
  - split; [by apply heap_step_refl|]. done.
  - rewrite <- Eb. eapply wp_seq; [by apply wp_malloc|]. intros [b|] s1 Ha; [|exact HT].
    eapply wp_seq; [by apply (wp_put_whole s b s1 _ _ Ha)|].
    intros [] s2 [Hs2 (-> & ? & ? & ?)]. apply wp_ret. split_and!; try done. simpl.
    split_and!; [by subst|done|lia|lia|done].
Qed.

Lemma wp_list_bytes l bs s :
  holds s l bs -> wp e T (list_bytes l) (fun r s' => r = bs /\ s' = s) s.
Proof.
  intros [Hl H]. unfold list_bytes. rewrite Hl.
  destruct bs as [|b0 bs0] eqn:Eb; [done|]. rewrite <- Eb in *.
  destruct (Z.eqb_spec (Z.of_nat (length bs)) 0) as [E|_]; [by subst bs|].
  destruct H as (b & -> & Hb); [by subst|].
  eapply wp_read; [done|lia|lia|rewrite length_map; lia|].
  rewrite drop_0. rewrite take_ge; [done|]. rewrite length_map. lia.
Qed.

Lemma wp_list_u8_free l bs s :
  wf s -> holds s l bs ->
  wp e T (list_u8_free l) (fun _ s' => heap_step s s' /\
    heap s' = match bs, u8_ptr l with _ :: _, Some b => delete b (heap s) | _, _ => heap s end) s.
Proof.
  intros Hs [Hl H]. unfold list_u8_free. rewrite Hl. destruct bs as [|b0 bs0] eqn:Eb.
  - split; [by apply heap_step_refl|done].
  - rewrite <- Eb in *. destruct (Z.ltb_spec 0 (Z.of_nat (length bs))); [|subst; simpl in *; lia].
    destruct H as (b & -> & Hb); [by subst|].
    eapply wp_mono; [apply wp_free; [done|]|done]. intros ? [= <-]. by rewrite Hb.
Qed.

(** One call of the host's log, or none for want of memory. *)
Definition logged (level : Z) (msg : bytes) (kv : va_pairs) (s s' : cst) : Prop :=
  (wf s' /\ heap s' = heap s /\ handles s' = handles s /\
   (trace s' = trace s ++ [Ev (Log level msg (pair_values kv)) tt] \/
    (trace s' = trace s /\ kv <> [] /\ (denied s < denied s')%nat))) /\
  vars s' = vars s /\ (denied s <= denied s')%nat.

Lemma wp_log_record level msg kv s :
  wf s -> wp e T (log_record level msg kv) (fun _ s' => logged level msg kv s s') s.
Proof.
  intros Hs. unfold log_record, logged.
  destruct (Z.eqb_spec (Z.of_nat (length kv)) 0) as [E|E]; cbn [negb andb].
  - apply wp_bind, wp_ret. wcall; [done|done|by apply enter_none|]. intros [] s1 _ H1.
    split_and!; [apply H1|apply H1|apply (cl_handles _ _ _ _ _ H1)|left; apply H1|apply H1|].
    rewrite (cl_denied _ _ _ _ _ H1). done.
  - eapply wp_seq; [by apply wp_malloc|]. intros [b|] s1 [Hst H]; cbn [negb andb].
    + rewrite bool_decide_false by done. destruct H as (-> & Hf & _ & Hh).
      wcall; [apply Hst|done|by apply enter_none|]. intros [] s2 _ H2.
      eapply wp_mono; [apply wp_free; [apply H2|]|].
      * intros b [= <-]. by rewrite (cl_heap _ _ _ _ _ H2), Hh, lookup_insert_eq.
      * intros [] s3 [Hst3 Hh3]. split_and!; [apply Hst3| | | | |].
        -- rewrite Hh3, (cl_heap _ _ _ _ _ H2), Hh. by apply delete_insert_id.
        -- rewrite (hs_handles _ _ Hst3), (cl_handles _ _ _ _ _ H2). apply Hst.
        -- left. rewrite (hs_trace _ _ Hst3), (cl_trace _ _ _ _ _ H2), (hs_trace _ _ Hst). done.
        -- rewrite (hs_vars _ _ Hst3), (cl_vars _ _ _ _ _ H2). apply Hst.
        -- pose proof (hs_denied _ _ Hst). pose proof (hs_denied _ _ Hst3). rewrite (cl_denied _ _ _ _ _ H2) in *. lia.
    + rewrite bool_decide_true by done. apply wp_ret. destruct H as [Hh Hd].
      split_and!; [apply Hst|done|apply Hst| |apply Hst|lia]. right. split; [apply Hst|]. split; [|done]. by intros ->.
Qed.
End Mem.
