(* ===== verification/WasmfnSend.v ===== *)
(** The specification of the request half of the HTTP client: what counts as a
    refusal by the host, how failures are reported, the URL and method tables,
    the request headers and the body's chunks. *)
From S2P Require Import Prelude BindTypes CString Machine MachineLogic Wasmfn WasmfnMem.
From Stdlib Require Import Strings.Byte.

(** ** Refusals *)

(** The WIT name of an error code, or the reason the host gave. *)
Definition code_text (c : v_error_code) : bytes :=
  match decide (ec_tag c = WASI_HTTP_TYPES_ERROR_CODE_INTERNAL_ERROR), ec_val c with
  | left _, V_internal_error (Some reason) => until_nul reason
  | _, _ => lit "wasi:http error-code " ++
            default (lit "unknown") (error_code_names !! Z.to_nat (ec_tag c))
  end.

(** An answer that refuses what was asked, as the message the caller gets. *)
Definition refusal_of (o : op) : ans o -> option bytes :=
  let unless msg := fun ok : bool => if ok then None else Some (lit msg) in
  match o with
  | FieldsAppend _ name _ => fun r =>
      if is_err r then Some (lit "the host refused the request header " ++ name) else None
  | SetMethod _ _ => unless "the host refused the request method"%string
  | SetScheme _ _ | SetAuthority _ _ | SetPathWithQuery _ _ => unless "the host refused the URL"%string
  | OutgoingRequestBody _ => unless "the request body was already taken"%string
  | OutgoingBodyWrite _ => unless "the request body stream was already taken"%string
  | IncomingResponseConsume _ => unless "the response body was already taken"%string
  | IncomingBodyStream _ => unless "the response body stream was already taken"%string
  | BlockingWriteAndFlush _ _ => fun r =>
      if is_err r then Some (lit "writing the request body failed") else None
  | OutgoingHandlerHandle _ | OutgoingBodyFinish _ => fun r =>
      match r with RErr c => Some (code_text c) | ROk _ => None end
  | FutureGet _ => fun r =>
      match r with
      | None => Some (lit "the host answered nothing")
      | Some (RErr _) => Some (lit "the response was already taken")
      | Some (ROk (RErr c)) => Some (code_text c)
      | Some (ROk (ROk _)) => None
      end
  | BlockingRead _ _ => fun r =>
      match r with
      | RErr serr => if se_tag serr =? WASI_IO_STREAMS_STREAM_ERROR_CLOSED then None
                     else Some (lit "reading the response body failed")
      | ROk _ => None
      end
  | _ => fun _ => None
  end.
Definition refusal (ev : event) : option bytes := let '(Ev o a) := ev in refusal_of o a.
Definition refusals (evs : list event) : list bytes := omap refusal evs.

(** The bindings' error codes: the tag is a byte and [internal-error] has its
    payload (BindMachine shows the adapters give no others). *)
Definition typed_code (c : v_error_code) : Prop :=
  0 <= ec_tag c < 256 /\
  (ec_tag c = WASI_HTTP_TYPES_ERROR_CODE_INTERNAL_ERROR -> exists o, ec_val c = V_internal_error o).
Definition typed_answer (o : op) : ans o -> Prop :=
  match o with
  | OutgoingHandlerHandle _ | OutgoingBodyFinish _ => fun r =>
      match r with RErr c => typed_code c | ROk _ => True end
  | FutureGet _ => fun r => match r with Some (ROk (RErr c)) => typed_code c | _ => True end
  | _ => fun _ => True
  end.
Definition typed_host (e : env) : Prop := forall tr o, typed_answer o (answers e tr o).

(** A function that returned false: either exactly one of its calls was refused
    and [*err] says which, or an allocation failed. *)
Definition failure (err : option Z) (evs : list event) (s s' : cst) : Prop :=
  progress evs s s' /\
  ((exists m, refusals evs = [m] /\ reported err m s s') \/
   (refusals evs = [] /\ (denied s < denied s')%nat /\
    (reported err OOM s s' \/ vars s' = vars s))).

(** A function that returned true after the calls [evs], with table [t]. *)
Record success (evs : list event) (t : gmap Z hentry) (s s' : cst) : Prop := {
  su_progress : progress evs s s';
  su_refusals : refusals evs = [];
  su_handles : handles s' = t;
  su_vars : vars s' = vars s;
}.

Lemma refusals_app evs evs' : refusals (evs ++ evs') = refusals evs ++ refusals evs'.
Proof. apply omap_app. Qed.

Lemma failure_pre err evs evs' s s1 s2 :
  progress evs s s1 -> vars s1 = vars s -> refusals evs = [] ->
  failure err evs' s1 s2 -> failure err (evs ++ evs') s s2.
Proof.
  intros Hp Hv Hr [Hp2 H]. split; [by eapply progress_trans|]. rewrite refusals_app, Hr. simpl.
  pose proof (pr_denied _ _ _ Hp). destruct H as [(m & ? & ?)|(? & ? & H)].
  - left. exists m. split; [done|]. by eapply reported_pre.
  - right. split_and!; [done|lia|]. destruct H; [left; by eapply reported_pre|right; congruence].
Qed.

Lemma failure_post err evs evs' s s1 s2 :
  failure err evs s s1 -> progress evs' s1 s2 -> vars s2 = vars s1 -> refusals evs' = [] ->
  failure err (evs ++ evs') s s2.
Proof.
  intros [Hp H] Hp2 Hv Hr. split; [by eapply progress_trans|]. rewrite refusals_app, Hr, app_nil_r.
  pose proof (pr_denied _ _ _ Hp2). destruct H as [(m & ? & ?)|(? & ? & H)].
  - left. exists m. split; [done|]. by eapply reported_post.
  - right. split_and!; [done|lia|]. destruct H; [left; by eapply reported_post|right; congruence].
Qed.

Lemma failure_told err m evs s s1 s2 :
  progress evs s s1 -> vars s1 = vars s -> refusals evs = [m] -> told err m s1 s2 ->
  failure err evs s s2.
Proof.
  intros Hp Hv Hr [Hp2 _ _ Ht]. split.
  - rewrite <- (app_nil_r evs). by eapply progress_trans.
  - left. exists m. split; [done|]. by eapply reported_pre.
Qed.

Lemma failure_oom err evs s s1 s2 :
  progress evs s s1 -> vars s1 = vars s -> refusals evs = [] -> (denied s < denied s1)%nat ->
  told err OOM s1 s2 -> failure err evs s s2.
Proof.
  intros Hp Hv Hr Hd [Hp2 _ _ Ht]. pose proof (pr_denied _ _ _ Hp2). split.
  - rewrite <- (app_nil_r evs). by eapply progress_trans.
  - right. split_and!; [done|lia|]. left. by eapply reported_pre.
Qed.

Lemma success_trans evs evs' t t' s s1 s2 :
  success evs t s s1 -> success evs' t' s1 s2 -> success (evs ++ evs') t' s s2.
Proof.
  intros [] []. split; [by eapply progress_trans| |done|congruence].
  by rewrite refusals_app, su_refusals0.
Qed.

Lemma success_called o a t s s' :
  called o a t s s' -> refusal (Ev o a) = None -> success [Ev o a] (handles s') s s'.
Proof.
  intros H Hr. split; [by eapply progress_called| |done|apply H]. unfold refusals. cbn [omap list_omap]. by rewrite Hr.
Qed.

Lemma valid_vars err s s' : valid err s -> vars s' = vars s -> valid err s'.
Proof. unfold valid. by intros ? ->. Qed.

(** ** Error codes *)

Lemma wp_describe_error_code e T c s :
  wf s -> typed_code c -> wp e T (describe_error_code c) (worded (code_text c) s) s.
Proof.
  intros Hs [_ Hc]. unfold describe_error_code, code_text, WASI_HTTP_TYPES_ERROR_CODE_INTERNAL_ERROR in *.
  destruct (decide (ec_tag c = 38)) as [E|E].
  - destruct (Hc E) as [[reason|] ->].
    + unfold strndup_content. rewrite firstn_all. by apply wp_strdup_worded.
    + by apply wp_sprintf.
  - destruct (ec_val c); by apply wp_sprintf.
Qed.

(** ** URLs *)

(** The parts of a URL, or why it is refused. *)
Definition url_parts (url : option bytes) : bytes + (Z * bytes * bytes) :=
  let go tag rest :=
    match strchr rest x2f with
    | Some O => inl (lit "the URL has no host")
    | Some i => inr (tag, take i rest, drop i rest)
    | None => if decide (rest = []) then inl (lit "the URL has no host") else inr (tag, rest, lit "/")
    end in
  match url with
  | Some u =>
      if strncmp_eq u (lit "https://") 8 then go WASI_HTTP_TYPES_SCHEME_HTTPS (drop 8 u)
      else if strncmp_eq u (lit "http://") 7 then go WASI_HTTP_TYPES_SCHEME_HTTP (drop 7 u)
      else inl (lit "only http and https URLs work")
  | None => inl (lit "only http and https URLs work")
  end.

Definition scheme_prefix (tag : Z) : bytes :=
  if tag =? WASI_HTTP_TYPES_SCHEME_HTTPS then lit "https://" else lit "http://".

Section Send.
Context {e : env} {T : trap -> Prop} (HA : T Aborted).

Lemma wp_string_dup_n bs n s :
  wf s -> wp e T (string_dup_n bs n) (lowered (take (Z.to_nat n) bs) s) s.
Proof. intros. by apply wp_cabi_lower. Qed.

Lemma wp_string_dup bs s : wf s -> wp e T (string_dup bs) (lowered bs s) s.
Proof.
  intros. unfold string_dup. eapply wp_mono; [by apply wp_string_dup_n|]. intros l s'.
  by rewrite Nat2Z.id, firstn_all.
Qed.

Lemma lowered_success bs s l s' : lowered bs s l s' -> success [] (handles s) s s'.
Proof. intros H. split; [by eapply lowered_progress|done|apply H..]. Qed.

Lemma wp_split_url url err s :
  wf s -> valid err s ->
  wp e T (split_url url err) (fun r s' =>
    match r, url_parts url with
    | Some (sc, a, p), inr (tag, a', p') =>
        success [] (handles s) s s' /\ next_h s' = next_h s /\
        sc = Scheme tag None /\ holds s' a a' /\ holds s' p p'
    | None, inl m => told err m s s'
    | _, _ => False
    end) s.
Proof.
  intros Hs Hv. unfold split_url, url_parts.
  assert (forall m, wp e T (_ ← fail err m; mret None) (fun (r : option (wasi_http_types_scheme_t list_u8 * list_u8 * list_u8)) s' =>
    match r with Some _ => False | None => told err m s s' end) s) as Hrefuse.
  { intros m. eapply wp_seq; [by apply wp_fail|]. by intros ? s' [_ H]. }
  assert (forall tag n a p, wp e T
    (authority ← string_dup_n a n; path ← string_dup p; mret (Some (Scheme tag (@None list_u8), authority, path)))
    (fun r s' => match r with
       | Some (sc, l, l') => success [] (handles s) s s' /\ next_h s' = next_h s /\
           sc = Scheme tag None /\ holds s' l (take (Z.to_nat n) a) /\ holds s' l' p
       | None => False end) s) as Hgo.
  { intros tag n a p. eapply wp_seq; [by apply wp_string_dup_n|]. intros l s1 Hl.
    eapply wp_seq; [by apply wp_string_dup, Hl|]. intros l' s2 Hl'. apply wp_ret.
    pose proof (lowered_success _ _ _ _ Hl) as S1. pose proof (lowered_success _ _ _ _ Hl') as S2.
    split_and!; try done.
    - pose proof (success_trans _ _ _ _ _ _ _ S1 S2) as [? ? H3 ?]. split; try done.
      rewrite H3. apply Hl.
    - destruct Hl as [[] _], Hl' as [[] _]. congruence.
    - eapply holds_weaken; [by eapply lowered_holds|]. by eapply lowered_subseteq.
    - by eapply lowered_holds. }
  assert (forall rest, match strchr rest x2f with Some i => i | None => length rest end = O ->
     strchr rest x2f = Some O \/ (strchr rest x2f = None /\ rest = [])) as Hz.
  { intros rest. destruct (strchr rest x2f) as [i|]; [intros ->; auto|]. destruct rest; [auto|done]. }
  destruct url as [u|]; [|by eapply wp_mono; [apply Hrefuse|]; intros [?|]].
  destruct (strncmp_eq u (lit "https://") 8); [|destruct (strncmp_eq u (lit "http://") 7)].
  3: by eapply wp_mono; [apply Hrefuse|]; intros [?|].
  all: match goal with |- context [strchr ?r x2f] => set (rest := r); specialize (Hz rest) end.
  all: destruct (Nat.eqb_spec (match strchr rest x2f with Some i => i | None => length rest end) 0) as [E|E].
  1,3: eapply wp_mono; [apply Hrefuse|]; intros [?|] s' Ht; [done|];
    destruct (Hz E) as [->|[-> ->]]; done.
  all: eapply wp_mono; [apply Hgo|]; intros [[[sc a] p]|] s' Ht; [|done].
  all: rewrite Nat2Z.id in Ht; destruct (strchr rest x2f) as [[|i]|] eqn:Es;
    [done|exact Ht|]; rewrite firstn_all in Ht; rewrite decide_False; [exact Ht|];
    intros ->; done.
Qed.

(** ** Methods *)

(** The tag and, for a method that is not standard, its name. *)
Definition method_parts (name : option bytes) : Z * option bytes :=
  match name with
  | None | Some [] => (WASI_HTTP_TYPES_METHOD_GET, None)
  | Some n => match list_find (fun '(m, _) => strcmp_eq m n) standard with
              | Some (_, (_, tag)) => (tag, None)
              | None => (WASI_HTTP_TYPES_METHOD_OTHER, Some n)
              end
  end.

Definition holds_opt (s : cst) (l : option list_u8) (o : option bytes) : Prop :=
  match l, o with
  | Some l, Some bs => holds s l bs
  | None, None => True
  | _, _ => False
  end.

Lemma wp_method_of name s :
  wf s -> wp e T (method_of name) (fun m s' =>
    success [] (handles s) s s' /\ next_h s' = next_h s /\
    m_tag m = (method_parts name).1 /\ holds_opt s' (m_other m) (method_parts name).2) s.
Proof.
  intros Hs. assert (success [] (handles s) s s) as H0 by (split; try done; by apply progress_refl).
  unfold method_of, method_parts. destruct name as [[|b n]|]; [by apply wp_ret| |by apply wp_ret].
  destruct (list_find _ _) as [[? [? tag]]|]; [by apply wp_ret|].
  eapply wp_seq; [by apply wp_string_dup|]. intros l s' Hl. apply wp_ret.
  split_and!; try done; [by eapply lowered_success|apply Hl|by eapply lowered_holds].
Qed.

(** ** Request headers *)

(** The pairs the loop sees: an odd last name is dropped. *)
Fixpoint header_pairs (hs : list bytes) : list (bytes * bytes) :=
  match hs with n :: v :: hs => (n, v) :: header_pairs hs | _ => [] end.

Definition append_events (headers : Z) (ps : list (bytes * bytes)) : list event :=
  map (fun '(n, v) => Ev (FieldsAppend headers n v) (ROk tt)) ps.

Lemma wp_append_headers hs h err s r :
  wf s -> valid err s -> handles s !! h = Some r -> h_kind r = Fields ->
  wp e T (append_headers hs h err) (fun ok s' =>
    if (ok : bool) then success (append_events h (header_pairs hs)) (handles s) s s' /\ next_h s' = next_h s
    else exists evs, failure err evs s s') s.
Proof.
  intros Hs Hv Hh Hk. revert s Hs Hv Hh. induction hs as [hs IH] using (induction_ltof1 _ length).
  unfold ltof in IH. intros s Hs Hv Hh.
  destruct hs as [|n [|v hs]];
    [apply wp_ret; split; [split; [by apply progress_refl|done..]|done]..|].
  cbn [append_headers header_pairs append_events map].
  wcall; [done|done|by eapply enter_borrow|]. intros a s1 _ Hc. cbn [fst snd].
  assert (wf s1) as Hs1 by apply Hc. assert (vars s1 = vars s) as Hv1 by apply Hc.
  destruct a as [[]|herr].
  - eapply wp_mono; [apply IH; [simpl; lia|done|by eapply valid_vars|by rewrite (cl_handles _ _ _ _ _ Hc)]|].
    intros [|] s' H.
    + destruct H as [H Hn]. split; [|by rewrite Hn; apply Hc].
      rewrite (cl_handles _ _ _ _ _ Hc) in H. cbn in H.
      eapply (success_trans [_]); [by eapply success_called|exact H].
    + destruct H as [evs H]. eexists. eapply failure_pre; [by eapply progress_called|done|done|exact H].
  - eapply wp_seq; [by apply wp_sprintf|]. intros p s2 Hw.
    eapply wp_mono; [eapply wp_fail_with; [exact Hw|by eapply valid_vars]|].
    intros ok s' [-> Ht]. eexists. eapply failure_told; [by eapply progress_called|done| |exact Ht]. done.
Qed.
End Send.
