(* ===== verification/WasmfnBody.v ===== *)
(** The specification of the bodies: the request body goes out in chunks of at
    most 4096 bytes, the response body comes in through a buffer that grows with
    every chunk, and the response headers are copied into an array of strings. *)
From S2P Require Import Prelude BindTypes CString Machine MachineLogic Wasmfn WasmfnMem WasmfnSend.
From Stdlib Require Import Strings.Byte.

(** ** Chunks *)

Definition chunk_size : nat := Z.to_nat write_chunk.

Fixpoint chunked_fuel (fuel : nat) (bs : bytes) : list bytes :=
  match fuel, bs with
  | S fuel, _ :: _ => take chunk_size bs :: chunked_fuel fuel (drop chunk_size bs)
  | _, _ => []
  end.
(** The body in pieces of [write_chunk] bytes, the last one shorter. *)
Definition chunked (bs : bytes) : list bytes := chunked_fuel (length bs) bs.

Lemma chunk_size_pos : (0 < chunk_size)%nat.
Proof. unfold chunk_size, write_chunk. lia. Qed.

Lemma chunked_fuel_enough f1 f2 bs :
  (length bs <= f1)%nat -> (length bs <= f2)%nat -> chunked_fuel f1 bs = chunked_fuel f2 bs.
Proof.
  revert f2 bs. induction f1 as [|f1 IH]; intros f2 bs H1 H2.
  - destruct bs; [|simpl in H1; lia]. by destruct f2.
  - destruct f2 as [|f2]; [destruct bs; [done|simpl in H2; lia]|].
    destruct bs as [|b bs]; [done|]. cbn [chunked_fuel]. f_equal.
    pose proof chunk_size_pos. apply IH; rewrite length_drop; simpl in *; lia.
Qed.

Lemma chunked_cons bs :
  bs <> [] -> chunked bs = take chunk_size bs :: chunked (drop chunk_size bs).
Proof.
  intros H. unfold chunked at 1. destruct bs as [|b bs]; [done|]. cbn [length chunked_fuel]. f_equal.
  pose proof chunk_size_pos. apply chunked_fuel_enough; rewrite length_drop; simpl; lia.
Qed.

Lemma concat_chunked bs : concat (chunked bs) = bs.
Proof.
  induction bs as [bs IH] using (induction_ltof1 _ length). unfold ltof in IH.
  destruct bs as [|b bs']; [done|]. set (bs := b :: bs') in *.
  rewrite chunked_cons by done. cbn [concat]. rewrite IH; [apply take_drop|].
  pose proof chunk_size_pos. rewrite length_drop. unfold bs. simpl. lia.
Qed.

Lemma chunked_sizes bs : Forall (fun c => 0 < Z.of_nat (length c) <= write_chunk) (chunked bs).
Proof.
  induction bs as [bs IH] using (induction_ltof1 _ length). unfold ltof in IH.
  destruct bs as [|b bs']; [constructor|]. set (bs := b :: bs') in *.
  pose proof chunk_size_pos. rewrite chunked_cons by done. constructor.
  - rewrite length_take. unfold chunk_size in *. unfold write_chunk in *. unfold bs. cbn [length]. lia.
  - apply IH. rewrite length_drop. unfold bs. simpl. lia.
Qed.

(** ** Writing *)

Definition write_events (stream : Z) (cs : list bytes) : list event :=
  map (fun c => Ev (BlockingWriteAndFlush stream c) (ROk tt)) cs.

(** The calls of [write_body] when nothing is refused. *)
Definition body_events (body stream : Z) (bs : bytes) : list event :=
  [Ev (OutgoingBodyWrite body) true] ++ write_events stream (chunked bs) ++
  [Ev (Drop OutputStream stream) tt; Ev (OutgoingBodyFinish body) (ROk tt)].

Section Body.
Context {e : env} {T : trap -> Prop} (HA : T Aborted) (Hhost : typed_host e).

Lemma wp_slice bs off n s :
  off + n <= Z.of_nat (length bs) ->
  wp e T (slice bs off n) (fun r s' => s' = s /\ r = take (Z.to_nat n) (drop (Z.to_nat off) bs)) s.
Proof.
  intros H. unfold slice. destruct (Z.leb_spec (off + n) (Z.of_nat (length bs))); [done|lia].
Qed.

Lemma wp_write_chunks fuel stream bs len off err s r :
  wf s -> valid err s ->
  handles s !! stream = Some r -> h_kind r = OutputStream -> childless stream (handles s) ->
  0 <= off -> len <= Z.of_nat (length bs) -> len <= 2 ^ 32 - write_chunk ->
  (0 < fuel)%nat -> len - off <= write_chunk * (Z.of_nat fuel - 1) ->
  wp e T (write_chunks fuel stream bs len off err) (fun ok s' =>
    if (ok : bool)
    then success (write_events stream (chunked (drop (Z.to_nat off) (take (Z.to_nat len) bs))))
           (handles s) s s' /\ next_h s' = next_h s
    else exists evs, failure err evs s s') s.
Proof.
  intros Hs Hv Hh Hk Hc Ho Hl Hmax. revert off s Hs Hv Hh Hc Ho.
  induction fuel as [|fuel IH]; intros off s Hs Hv Hh Hc Ho Hf Hle; [lia|].
  cbn [write_chunks]. destruct (Z.ltb_spec off len) as [Hlt|Hge].
  2: { apply wp_ret. split; [|done]. rewrite drop_ge by (rewrite length_take; lia).
       split; [by apply progress_refl|done..]. }
  set (n := if len - off <? write_chunk then len - off else write_chunk).
  assert (0 < n <= write_chunk /\ n <= len - off) as Hn.
  { unfold n, write_chunk. destruct (Z.ltb_spec (len - off) 4096); lia. }
  set (rest := drop (Z.to_nat off) (take (Z.to_nat len) bs)).
  assert (length rest = Z.to_nat (len - off)) as Hrest.
  { unfold rest. rewrite length_drop, length_take. lia. }
  assert (take (Z.to_nat n) (drop (Z.to_nat off) bs) = take chunk_size rest) as Hchunk.
  { unfold rest. rewrite skipn_firstn_comm, take_take. f_equal. unfold n, chunk_size.
    destruct (Z.ltb_spec (len - off) write_chunk); lia. }
  eapply wp_seq; [apply wp_slice; lia|]. intros c s0 [-> ->]. rewrite Hchunk.
  wcall; [done| |by eapply enter_borrow|].
  { unfold admissible, max_blocking_write. apply Z.leb_le. rewrite length_take. unfold chunk_size, write_chunk. lia. }
  intros a s1 _ Hca. cbn [fst].
  assert (wf s1) as Hs1 by apply Hca. assert (vars s1 = vars s) as Hv1 by apply Hca.
  assert (handles s1 = handles s) as Hh1 by apply Hca.
  destruct a as [[]|serr].
  - assert (size_t (off + write_chunk) = off + write_chunk) as ->.
    { unfold size_t. apply uwrap_id. unfold write_chunk in *. lia. }
    eapply wp_mono; [apply IH|]; rewrite ?Hh1; try done; try (by eapply valid_vars);
      unfold write_chunk in *; try lia.
    intros [|] s' H.
    + destruct H as [H Hnh]. split; [|rewrite Hnh; apply Hca].
      rewrite chunked_cons by (intros E; rewrite E in Hrest; simpl in Hrest; lia).
      eapply (success_trans [_]); [by eapply success_called|].
      replace (drop chunk_size rest) with (drop (Z.to_nat (off + 4096)) (take (Z.to_nat len) bs)).
      * exact H.
      * unfold rest. rewrite drop_drop. f_equal. unfold chunk_size, write_chunk. lia.
    + destruct H as [evs H]. eexists. eapply failure_pre; [by eapply progress_called|done|done|exact H].
  - wcall; [done|done|eapply enter_own; [done|done|by rewrite Hh1|done|by rewrite Hh1]|]. intros [] s2 _ Hca2.
    eapply wp_mono; [apply wp_fail; [apply Hca2|]|].
    { eapply valid_vars; [done|]. rewrite (cl_vars _ _ _ _ _ Hca2). done. }
    intros ok s' [-> Ht]. eexists. eapply failure_told.
    + eapply (progress_trans [_]); by eapply progress_called.
    + by rewrite (cl_vars _ _ _ _ _ Hca2).
    + reflexivity.
    + exact Ht.
Qed.

Lemma write_fuel_enough len :
  0 <= len -> (0 < write_fuel len)%nat /\ len - 0 <= write_chunk * (Z.of_nat (write_fuel len) - 1).
Proof.
  intros H. unfold write_fuel, write_chunk. split; [lia|].
  pose proof (Z.div_mod (len + 4096 - 1) 4096). pose proof (Z.mod_pos_bound (len + 4096 - 1) 4096). lia.
Qed.

(** The stream is dropped and the body finished. *)
Lemma wp_end_body body stream evs err s s2 r :
  wf s -> valid err s -> stream = next_h s ->
  handles s !! body = Some r -> h_kind r = OutgoingBody -> childless body (handles s) ->
  success evs (<[stream := Hentry OutputStream (Some body)]> (handles s)) s s2 -> next_h s2 = stream + 1 ->
  wp e T (_ ← call (Drop OutputStream stream);
          r ← call (OutgoingBodyFinish body);
          match fst r with
          | RErr code => msg ← describe_error_code code; fail_with err msg
          | ROk _ => mret true
          end) (fun ok s' =>
    if (ok : bool)
    then success (evs ++ [Ev (Drop OutputStream stream) tt; Ev (OutgoingBodyFinish body) (ROk tt)])
           (delete body (handles s)) s s' /\ next_h s' = next_h s + 1
    else exists evs, failure err evs s s') s2.
Proof.
  intros Hs Hv -> Hh Hk Hc H2 Hn2. set (stream := next_h s) in *.
  assert (body < stream) as Hlt by (by eapply wf_handle).
  assert (handles s !! stream = None) as Hfresh by (by apply wf_fresh_handle).
  wcall; [apply H2|done|eapply (enter_last _ s); [done|done|apply H2|done|done|done|intros [= E]; lia]|].
  intros [] s3 _ H3. pose proof (cl_handles _ _ _ _ _ H3) as Hh3. cbn in Hh3.
  pose proof (success_trans _ _ _ _ _ _ _ H2 (success_called _ _ _ _ _ H3 eq_refl)) as H23. rewrite Hh3 in H23.
  pose proof (cl_next_h _ _ _ _ _ H3) as Hn3. cbn in Hn3.
  wcall; [apply H3|done|eapply enter_own; [done|done|by rewrite Hh3|done|by rewrite Hh3]|].
  intros a s4 Ha H4. cbn [fst].
  pose proof (cl_handles _ _ _ _ _ H4) as Hh4. cbn in Hh4.
  pose proof (cl_next_h _ _ _ _ _ H4) as Hn4. cbn in Hn4.
  assert (vars s4 = vars s) as Hv4 by (rewrite (cl_vars _ _ _ _ _ H4); apply H23).
  destruct a as [[]|code].
  - apply wp_ret. split; [|lia].
    pose proof (success_trans _ _ _ _ _ _ _ H23 (success_called _ _ _ _ _ H4 eq_refl)) as H5.
    rewrite Hh4, Hh3, <- app_assoc in H5. exact H5.
  - pose proof (Hhost (trace s3) (OutgoingBodyFinish body)) as Hty. rewrite <- Ha in Hty.
    eapply wp_seq; [apply wp_describe_error_code; [apply H4|exact Hty]|]. intros p s5 Hw.
    eapply wp_mono; [eapply wp_fail_with; [exact Hw|by eapply valid_vars]|].
    intros ok s' [-> Ht]. eexists. eapply failure_told; [| |..|exact Ht].
    + eapply progress_trans; [apply H23|by eapply progress_called].
    + done.
    + rewrite refusals_app, (su_refusals _ _ _ _ H23). done.
Qed.

Lemma wp_write_body body bs len err s r :
  wf s -> valid err s ->
  handles s !! body = Some r -> h_kind r = OutgoingBody -> childless body (handles s) ->
  0 <= len <= Z.of_nat (length bs) -> len <= 2 ^ 32 - write_chunk ->
  wp e T (write_body body bs len err) (fun ok s' =>
    if (ok : bool)
    then success (body_events body (next_h s) (take (Z.to_nat len) bs)) (delete body (handles s)) s s' /\
         next_h s' = next_h s + 1
    else exists evs, failure err evs s s') s.
Proof.
  intros Hs Hv Hh Hk Hc Hl Hmax. unfold write_body.
  wcall; [done|done|by eapply enter_borrow|]. intros [|] s1 _ H1; cbn [negb].
  2: { eapply wp_mono; [apply wp_fail; [apply H1|by eapply valid_vars; [|apply H1]]|].
       intros ok s' [-> Ht]. eexists.
       eapply failure_told; [by eapply progress_called|apply H1|reflexivity|exact Ht]. }
  set (stream := next_h s). pose proof (cl_handles _ _ _ _ _ H1) as Hh1. cbn in Hh1.
  pose proof (cl_next_h _ _ _ _ _ H1) as Hn1. cbn in Hn1.
  assert (body < stream) as Hlt by (by eapply wf_handle).
  assert (handles s !! stream = None) as Hfresh by (by apply wf_fresh_handle).
  destruct (write_fuel_enough len) as [Hf1 Hf2]; [lia|].
  eapply wp_seq.
  { apply wp_write_chunks with (r := Hentry OutputStream (Some body)); try done; try lia.
    - apply H1.
    - by eapply valid_vars; [|apply H1].
    - rewrite Hh1. apply lookup_insert_eq.
    - rewrite Hh1. apply childless_insert; [by apply childless_fresh; [|unfold stream; lia]|].
      simpl. intros [= E]. lia. }
  intros [|] s2 H; cbn [negb].
  2: { destruct H as [evs H]. apply wp_ret. eexists.
       eapply failure_pre; [by eapply progress_called|apply H1|reflexivity|exact H]. }
  destruct H as [H Hn2]. pose proof (success_called _ _ _ _ _ H1 eq_refl) as H0.
  rewrite drop_0 in H.
  pose proof (success_trans _ _ _ _ _ _ _ H0 H) as H2. clear H0 H. rewrite Hh1 in H2.
  eapply wp_mono; [eapply (wp_end_body body stream); [exact Hs|exact Hv|done..|exact H2|lia]|].
  intros [|] s3 H3; [|done]. destruct H3 as [H3 Hn3]. split; [|done]. unfold body_events.
  by rewrite <- app_assoc in H3.
Qed.
End Body.
