(* ===== verification/WasmfnHeaders.v ===== *)
(** The specification of [response_headers]: what the host lowered is freed, and
    the array left holds a C string per name and value. *)
From S2P Require Import Prelude BindTypes CString Machine MachineLogic Wasmfn WasmfnMem WasmfnSend.
From Stdlib Require Import Strings.Byte.

(** ** Lowered lists *)

Definition flat {A} (ps : list (A * A)) : list A := flat_map (fun '(n, v) => [n; v]) ps.

(** Lists lowered one after the other, each in a block of its own. *)
Record lowered_all (bss : list bytes) (s : cst) (ls : list list_u8) (s' : cst) : Prop := {
  la_step : heap_step s s';
  la_heap : heap s ⊆ heap s';
  la_holds : Forall2 (holds s') ls bss;
  la_empty : Forall2 (fun l bs => bs = [] -> u8_ptr l = None) ls bss;
  la_nodup : NoDup (omap u8_ptr ls);
  la_range : Forall (fun b => next s <= b < next s') (omap u8_ptr ls);
}.

Lemma lowered_all_nil s : wf s -> lowered_all [] s [] s.
Proof. intros. split; try constructor; try done. Qed.

Lemma holds_weaken_all s s' ls bss :
  heap s ⊆ heap s' -> Forall2 (holds s) ls bss -> Forall2 (holds s') ls bss.
Proof. intros Hsub H. eapply Forall2_impl; [exact H|]. intros. by eapply holds_weaken. Qed.

Lemma lowered_all_cons bs bss s l s1 ls s2 :
  lowered bs s l s1 -> lowered_all bss s1 ls s2 -> lowered_all (bs :: bss) s (l :: ls) s2.
Proof.
  intros H1 []. pose proof (lowered_subseteq _ _ _ _ H1). pose proof (lowered_holds _ _ _ _ H1).
  pose proof H1 as (Hst & _ & Hp). pose proof (hs_next _ _ Hst). pose proof (hs_next _ _ la_step0).
  assert (Forall (fun b => next s <= b < next s2) (omap u8_ptr ls)) as Hr.
  { eapply Forall_impl; [exact la_range0|]. simpl. lia. }
  split.
  - by eapply heap_step_trans.
  - by transitivity (heap s1).
  - constructor; [by eapply holds_weaken|done].
  - constructor; [|done]. intros ->. destruct (u8_ptr l); naive_solver.
  - cbn. destruct (u8_ptr l) as [b|]; [|done]. destruct Hp as (_ & _ & Hb & _).
    constructor; [|done]. intros Hin. rewrite Forall_forall in la_range0. apply la_range0 in Hin. lia.
  - cbn. destruct (u8_ptr l) as [b|]; [|done]. destruct Hp as (_ & _ & Hb & _). constructor; [lia|done].
Qed.

(** The strings of the array: NULL only where memory ran out. *)
Definition string_at (s s' : cst) (p : option Z) (txt : bytes) : Prop :=
  match p with
  | Some b => heap s' !! b = Some (c_string txt)
  | None => (denied s < denied s')%nat
  end.

(** [b] is an array of the names and values, each up to its first NUL, ended by
    NULL. *)
Definition header_array (s s' : cst) (b : Z) (entries : list (bytes * bytes)) : Prop :=
  exists ps, heap s' !! b = Some (Ptrs (ps ++ [None])) /\
             Forall2 (string_at s s') ps (map until_nul (flat entries)).

Definition header_events (response headers : Z) (entries : list (bytes * bytes)) : list event :=
  [Ev (IncomingResponseHeaders response) tt; Ev (FieldsEntries headers) entries;
   Ev (Drop Fields headers) tt].

Section Headers.
Context {e : env} {T : trap -> Prop} (HA : T Aborted).

Lemma wp_lower_pairs ps s :
  wf s -> wp e T (lower_pairs ps) (fun r s' =>
    lowered_all (flat ps) s (flat r) s' /\ length r = length ps) s.
Proof.
  revert s. induction ps as [|[n v] ps IH]; intros s Hs; cbn [lower_pairs flat flat_map].
  - apply wp_ret. split; [by apply lowered_all_nil|done].
  - eapply wp_seq; [by apply wp_cabi_lower|]. intros n' s1 H1.
    eapply wp_seq; [apply wp_cabi_lower; [apply H1|done]|]. intros v' s2 H2.
    eapply wp_seq; [apply IH, H2|]. intros r s3 [H3 Hl]. apply wp_ret. split; [|simpl; lia].
    cbn. eapply lowered_all_cons; [exact H1|]. by eapply lowered_all_cons.
Qed.

Lemma holds_delete s s' b ls bss :
  heap s' = delete b (heap s) -> b ∉ omap u8_ptr ls ->
  Forall2 (holds s) ls bss -> Forall2 (holds s') ls bss.
Proof.
  intros Hheap Hnin H. induction H as [|l bs ls bss [Hlen Hl] _ IH]; constructor.
  - split; [done|]. intros Hne. destruct (Hl Hne) as (b' & Hb' & Hlk).
    exists b'. split; [done|]. rewrite Hheap, lookup_delete_ne; [done|].
    intros ->. apply Hnin. cbn. rewrite Hb'. by left.
  - apply IH. intros Hin. apply Hnin. cbn. destruct (u8_ptr l); [by right|done].
Qed.

(** Freeing one list leaves the others. *)
Lemma wp_free_first l bs ls bss s :
  wf s -> Forall2 (holds s) (l :: ls) (bs :: bss) ->
  Forall2 (fun l bs => bs = [] -> u8_ptr l = None) (l :: ls) (bs :: bss) ->
  NoDup (omap u8_ptr (l :: ls)) ->
  wp e T (list_u8_free l) (fun _ s' => heap_step s s' /\ Forall2 (holds s') ls bss /\
    NoDup (omap u8_ptr ls) /\ forall b, u8_ptr l <> Some b -> heap s' !! b = heap s !! b) s.
Proof.
  intros Hs Hh He Hn. inversion Hh as [|? ? ? ? Hl Hls]; subst. inversion He as [|? ? ? ? Hle _]; subst.
  eapply wp_mono; [by apply (wp_list_u8_free l bs)|]. intros [] s' [Hst Hheap].
  cbn [omap list_omap] in Hn. destruct (u8_ptr l) as [b|].
  - destruct bs as [|b0 bs]; [by specialize (Hle eq_refl)|].
    apply NoDup_cons in Hn as [Hnin Hn]. split; [done|]. split; [by eapply holds_delete|]. split; [exact Hn|].
    intros b' Hb'. rewrite Hheap, lookup_delete_ne; [done|]. congruence.
  - assert (heap s' = heap s) as E by (by destruct bs). split; [done|]. split; [apply (holds_weaken_all s); [by rewrite E|done]|]. split; [exact Hn|].
    intros. by rewrite E.
Qed.

Lemma wp_free_pairs ps bss s :
  wf s -> Forall2 (holds s) (flat ps) bss ->
  Forall2 (fun l bs => bs = [] -> u8_ptr l = None) (flat ps) bss ->
  NoDup (omap u8_ptr (flat ps)) ->
  wp e T (free_pairs ps) (fun _ s' => heap_step s s' /\
    forall b, b ∉ omap u8_ptr (flat ps) -> heap s' !! b = heap s !! b) s.
Proof.
  revert bss s. induction ps as [|[n v] ps IH]; intros bss s Hs Hh He Hn.
  - apply wp_ret. split; [by apply heap_step_refl|done].
  - change (flat ((n, v) :: ps)) with (n :: v :: flat ps) in *. cbn [free_pairs].
    destruct bss as [|bn [|bv bss]];
      [by inversion Hh|inversion Hh as [|? ? ? ? _ H0]; by inversion H0|].
    inversion He as [|? ? ? ? _ He1]; subst. inversion He1 as [|? ? ? ? _ He2]; subst.
    eapply wp_seq; [by eapply wp_free_first|]. intros [] s1 (Hs1 & Hr1 & Hn1 & Hf1).
    eapply wp_seq; [eapply wp_free_first; try done; apply Hs1|].
    intros [] s2 (Hs2 & Hr2 & Hn2 & Hf2).
    eapply wp_mono; [eapply (IH bss); try done; apply Hs2|].
    intros [] s3 [Hs3 Hf3]. split; [eapply heap_step_trans; [done|by eapply heap_step_trans]|].
    intros b Hb. cbn [omap list_omap] in Hb. rewrite Hf3, Hf2, Hf1; [done|..];
      destruct (u8_ptr n), (u8_ptr v); set_solver.
Qed.

Lemma wp_strndup l bs s :
  wf s -> holds s l bs -> wp e T (strndup l) (allocated (c_string (until_nul bs)) s) s.
Proof.
  intros Hs Hl. eapply wp_seq; [by apply wp_list_bytes|]. intros ? ? [-> ->].
  unfold strndup_content. rewrite firstn_all. by apply wp_strdup.
Qed.

Lemma allocated_string txt s p s' :
  allocated (c_string txt) s p s' -> string_at s s' p txt.
Proof.
  intros [_ H]. destruct p as [b|]; [|by destruct H].
  destruct H as (_ & _ & _ & E). simpl. rewrite E. apply lookup_insert_eq.
Qed.

(** Between [s] and [s'] the array [arr] changed and blocks were added. *)
Record fills (arr : Z) (s s' : cst) : Prop := {
  fi_step : heap_step s s';
  fi_heap : forall b k, b <> arr -> heap s !! b = Some k -> heap s' !! b = Some k;
}.

Lemma fills_trans arr s1 s2 s3 : fills arr s1 s2 -> fills arr s2 s3 -> fills arr s1 s3.
Proof. intros [] []. split; [by eapply heap_step_trans|eauto]. Qed.

Lemma fills_subseteq arr s s' : heap_step s s' -> heap s ⊆ heap s' -> fills arr s s'.
Proof. intros ? H. split; [done|]. intros b k _ E. by eapply lookup_weaken. Qed.

Lemma fills_holds arr ps s s' l bs :
  fills arr s s' -> heap s !! arr = Some (Ptrs ps) -> holds s l bs -> holds s' l bs.
Proof.
  intros [] Ha [Hl H]. split; [done|]. intros Hne. destruct (H Hne) as (b & Hb & Hlk).
  exists b. split; [done|]. apply fi_heap0; [|done]. intros ->. congruence.
Qed.

Lemma fills_string arr k s0 s s' p txt :
  fills arr s s' -> heap s !! arr = Some (Ptrs k) -> string_at s0 s p txt -> string_at s0 s' p txt.
Proof.
  intros [Hst Hf] Ha. destruct p as [b|]; simpl.
  - intros E. apply Hf; [|done]. intros ->. rewrite Ha in E. unfold c_string in E. congruence.
  - pose proof (hs_denied _ _ Hst). lia.
Qed.

(** One slot: a string duplicated into [arr[i]]. *)
Lemma wp_fill_slot {B} arr i l bs filled rest s (k : unit -> C B) Q :
  wf s -> holds s l bs -> heap s !! arr = Some (Ptrs (filled ++ None :: rest)) ->
  i = Z.of_nat (length filled) ->
  (forall p s', fills arr s s' -> heap s' !! arr = Some (Ptrs (filled ++ p :: rest)) ->
     string_at s s' p (until_nul bs) -> (forall b, p = Some b -> heap s !! b = None) ->
     wp e T (k tt) Q s') ->
  wp e T (p ← strndup l; _ ← set_ptr arr i p; k tt) Q s.
Proof.
  intros Hs Hl Ha -> Hk. eapply wp_seq; [by eapply wp_strndup|]. intros p s1 Hp.
  pose proof (allocated_heap _ _ _ _ Hp) as Hsub. pose proof (allocated_string _ _ _ _ Hp) as Hstr.
  assert (heap_step s s1) as Hst1 by apply Hp.
  assert (heap s1 !! arr = Some (Ptrs (filled ++ None :: rest))) as Ha1 by (by eapply lookup_weaken).
  eapply wp_seq.
  { apply wp_set_ptr with (ps := filled ++ None :: rest); [apply Hst1|done|].
    rewrite length_app. simpl. lia. }
  intros [] s2 [Hst2 Hh2]. rewrite Nat2Z.id in Hh2.
  assert (fills arr s1 s2) as F2.
  { split; [done|]. intros b k' Hb E. by rewrite Hh2, lookup_insert_ne. }
  apply Hk with (p := p).
  - eapply fills_trans; [|exact F2]. by apply fills_subseteq.
  - rewrite Hh2, lookup_insert_eq. f_equal. f_equal.
    replace (length filled) with (length filled + 0)%nat by lia. by rewrite insert_app_r.
  - by eapply fills_string.
  - intros b ->. destruct Hp as [_ (-> & ? & _)]. done.
Qed.

(** What is new once the array is filled was new before. *)
Lemma fills_fresh arr s s1 p :
  fills arr s s1 -> is_Some (heap s1 !! arr) -> (forall b, p = Some b -> heap s1 !! b = None) ->
  forall b, p = Some b -> heap s !! b = None.
Proof.
  intros F [k Hk] Hp b ->. specialize (Hp b eq_refl). apply eq_None_not_Some. intros [k' Hk'].
  apply (fi_heap _ _ _ F) in Hk'; congruence.
Qed.

Lemma wp_copy_pairs arr ps texts filled i s0 s :
  wf s -> heap s !! arr = Some (Ptrs (filled ++ replicate (2 * length ps + 1) None)) ->
  Z.of_nat (length filled) = 2 * i -> Forall2 (holds s) (flat ps) texts ->
  (denied s0 <= denied s)%nat ->
  wp e T (copy_pairs arr ps i) (fun _ s' => fills arr s s' /\
    exists new, heap s' !! arr = Some (Ptrs (filled ++ new ++ [None])) /\
      Forall2 (string_at s0 s') new (map until_nul texts) /\
      Forall (fun p => forall b, p = Some b -> heap s !! b = None) new) s.
Proof.
  revert texts filled i s. induction ps as [|[n v] ps IH]; intros texts filled i s Hs Ha Hi Hh Hd.
  - apply wp_ret. split; [by apply fills_subseteq; [apply heap_step_refl|]|].
    inversion Hh; subst. exists []. split; [exact Ha|]. split; constructor.
  - change (flat ((n, v) :: ps)) with (n :: v :: flat ps) in Hh.
    inversion Hh as [|? bn ? t1 Hn Hh1]; subst. inversion Hh1 as [|? bv ? t2 Hv Hh2]; subst.
    cbn [copy_pairs length].
    set (rest := replicate (2 * length ps + 1) None) in *.
    assert (heap s !! arr = Some (Ptrs (filled ++ None :: None :: rest))) as Ha0.
    { rewrite Ha. do 3 f_equal.
      by replace (2 * length ((n, v) :: ps) + 1)%nat with (S (S (2 * length ps + 1))) by (simpl; lia). }
    eapply (wp_fill_slot arr _ n bn _ _ _ (fun _ => q ← strndup v; _ ← set_ptr arr (2 * i + 1) q; copy_pairs arr ps (i + 1)));
      [done|done|exact Ha0|lia|].
    intros p s1 F1 Ha1 Hp1 Hf1.
    replace (filled ++ p :: None :: rest)
      with ((filled ++ [p]) ++ None :: rest) in Ha1 by by rewrite <- app_assoc.
    assert (holds s1 v bv) as Hv1 by (by eapply fills_holds).
    eapply (wp_fill_slot arr _ v bv _ _ _ (fun _ => copy_pairs arr ps (i + 1)));
      [apply F1|done|exact Ha1|rewrite length_app; simpl; lia|].
    intros q s2 F2 Ha2 Hp2 Hf2.
    replace ((filled ++ [p]) ++ q :: rest)
      with ((filled ++ [p; q]) ++ rest) in Ha2 by by rewrite <- !app_assoc.
    pose proof (fills_trans _ _ _ _ F1 F2) as F12.
    assert (Forall2 (holds s2) (flat ps) t2) as Hh2'.
    { eapply Forall2_impl; [exact Hh2|]. intros. by eapply fills_holds. }
    pose proof (hs_denied _ _ (fi_step _ _ _ F1)) as Hd1.
    pose proof (hs_denied _ _ (fi_step _ _ _ F2)) as Hd2.
    eapply wp_mono; [apply (IH t2 (filled ++ [p; q]) (i + 1) s2)|];
      [apply F2|done|rewrite length_app; simpl; lia|done|lia|].
    intros [] s3 (F3 & new & Ha3 & Hnew & Hfr). split; [by eapply fills_trans|].
    exists (p :: q :: new). split_and!.
    + rewrite Ha3. by rewrite <- app_assoc.
    + assert (string_at s s3 p (until_nul bn)) as Hp.
      { eapply fills_string; [exact F3|exact Ha2|]. eapply fills_string; [exact F2|exact Ha1|done]. }
      assert (string_at s1 s3 q (until_nul bv)) as Hq by (by eapply fills_string).
      cbn [map]. constructor; [|constructor; [|done]].
      * destruct p; simpl in *; [done|lia].
      * destruct q; simpl in *; [done|lia].
    + constructor; [done|]. constructor; [eapply (fills_fresh arr s s1); [done|by eexists|exact Hf2]|].
      eapply Forall_impl; [exact Hfr|]. intros p' Hp'. eapply (fills_fresh arr s s2); [done|by eexists|exact Hp'].
Qed.

(** ** response_headers *)

Definition lowered_entries (ps : list (bytes * bytes)) (s : cst) (en : entries_t) (s' : cst) : Prop :=
  length (en_pairs en) = length ps /\
  exists s1, lowered_all (flat ps) s1 (flat (en_pairs en)) s' /\ heap_step s s1 /\
    match en_ptr en with
    | None => ps = [] /\ heap s1 = heap s
    | Some b => ps <> [] /\ heap s !! b = None /\ next s <= b < next s1 /\
        heap s1 = <[b := Bytes (replicate (Z.to_nat (16 * Z.of_nat (length ps))) None)]> (heap s)
    end.

Lemma wp_lower_entries ps s :
  wf s -> wp e T (lower_entries ps) (fun en s' => lowered_entries ps s en s') s.
Proof.
  intros Hs. unfold lower_entries. destruct ps as [|p0 ps0] eqn:E.
  - apply wp_ret. split; [done|]. exists s. split; [by apply lowered_all_nil|].
    split; [by apply heap_step_refl|done].
  - rewrite <- E. eapply wp_seq; [by apply wp_malloc|]. intros [b|] s1 Ha; [|exact HA].
    destruct Ha as [Hst (-> & ? & ? & ?)].
    eapply wp_seq; [apply wp_lower_pairs, Hst|]. intros r s2 [Hl Hlen]. apply wp_ret.
    split; [done|]. exists s1. split; [done|]. split; [done|]. simpl. split_and!; [by subst|done|lia|lia|done].
Qed.

Lemma wp_entries_free ps s en s1 s2 :
  wf s -> lowered_entries ps s en s1 -> wf s2 ->
  (forall b k, heap s1 !! b = Some k -> heap s2 !! b = Some k) ->
  wp e T (entries_free en) (fun _ s' => heap_step s2 s' /\
    forall b, heap s1 !! b = None \/ is_Some (heap s !! b) -> heap s' !! b = heap s2 !! b) s2.
Proof.
  intros Hs [Hlen (sm & [] & Hst & Hp)] Hs2 Hsub. unfold entries_free, en_len. rewrite Hlen.
  destruct ps as [|p0 ps0] eqn:E.
  - simpl. apply wp_ret. split; [by apply heap_step_refl|done].
  - rewrite <- E in *. destruct (Z.ltb_spec 0 (Z.of_nat (length ps))); [|subst; simpl in *; lia].
    destruct (en_ptr en) as [arr|]; [|destruct Hp as [-> _]; done].
    destruct Hp as (_ & Hfarr & Harr & Hh1).
    assert (heap s1 !! arr <> None) as Harr1.
    { assert (is_Some (heap sm !! arr)) as [k Hk] by (rewrite Hh1, lookup_insert_eq; done).
      by erewrite (lookup_weaken _ _ _ _ Hk la_heap0). }
    rewrite Forall_forall in la_range0.
    assert (forall b, b ∈ omap u8_ptr (flat (en_pairs en)) -> next s < b /\ heap s1 !! b <> None) as Hin.
    { intros b Hb. split; [pose proof (la_range0 b Hb); lia|].
      apply list_elem_of_omap in Hb as (l & Hl & Hlb).
      apply list_elem_of_lookup in Hl as [j Hj].
      destruct (Forall2_lookup_l _ _ _ _ _ la_holds0 Hj) as (bs & Hbs & [_ Hl]).
      pose proof (Forall2_lookup_lr _ _ _ _ _ _ la_empty0 Hj Hbs) as He. simpl in He.
      destruct bs as [|b0 bs]; [rewrite He in Hlb; done|].
      destruct Hl as (b' & Hb' & Hlk); [done|]. congruence. }
    eapply wp_seq.
    { eapply wp_free_pairs; [done| |exact la_empty0|exact la_nodup0].
      eapply holds_weaken_all; [|exact la_holds0]. by apply map_subseteq_spec. }
    intros [] s3 [Hst3 Hf3].
    assert (arr ∉ omap u8_ptr (flat (en_pairs en))) as Hnotin.
    { intros Hb. pose proof (la_range0 _ Hb). lia. }
    eapply wp_mono; [apply wp_free; [apply Hst3|]|].
    + intros b [= <-]. rewrite Hf3 by done. destruct (heap s1 !! arr) as [k|] eqn:Ek; [|done].
      by rewrite (Hsub _ _ Ek).
    + intros [] s4 [Hst4 Hh4]. split; [by eapply heap_step_trans|]. intros b Hb.
      assert (heap s !! b <> None -> heap sm !! b <> None) as Hmono.
      { intros Hne. rewrite Hh1, lookup_insert. case_decide; done. }
      rewrite Hh4, lookup_delete_ne.
      * apply Hf3. intros Hb'. pose proof (Hin b Hb') as [Hlt Hn1]. destruct Hb as [|[k Hk]]; [done|].
        apply (wf_heap s Hs) in Hk. lia.
      * intros <-. destruct Hb as [|[k Hk]]; congruence.
Qed.
End Headers.

Section Recv.
Context {e : env} {T : trap -> Prop} (HA : T Aborted).

Lemma lowered_entries_heap ps s en s' : lowered_entries ps s en s' -> heap_step s s' /\ heap s ⊆ heap s'.
Proof.
  intros [_ (s1 & [] & Hst & Hp)]. split; [by eapply heap_step_trans|].
  transitivity (heap s1); [|done]. destruct (en_ptr en) as [b|]; [|by destruct Hp as [_ ->]].
  destruct Hp as (_ & ? & _ & ->). by apply insert_subseteq.
Qed.

(** The array's size does not wrap: the entries it comes from are in memory. *)
Lemma lowered_entries_size ps s en s' :
  lowered_entries ps s en s' -> size_t (2 * en_len en + 1) = 2 * Z.of_nat (length ps) + 1.
Proof.
  intros [Hlen (s1 & [] & Hst & Hp)]. unfold en_len. rewrite Hlen.
  apply uwrap_id. split; [lia|].
  destruct (en_ptr en) as [b|]; [|destruct Hp as [-> _]; done].
  destruct Hp as (_ & Hb & _ & Hh). pose proof (wf_size s1 (hs_wf _ _ Hst)) as Hsz.
  rewrite Hh, heap_size_insert in Hsz by done. pose proof (heap_size_nonneg (heap s)).
  simpl block_size in Hsz. rewrite length_replicate in Hsz. unfold memory_size in Hsz. lia.
Qed.

(** The copy into the array, when there is one. *)
Lemma wp_copy_entries pairs entries n s0 s2 en s3 s4 :
  lowered_entries entries s2 en s3 -> n = 2 * Z.of_nat (length entries) + 1 ->
  allocated (Ptrs (replicate (Z.to_nat n) None)) s3 pairs s4 -> (denied s0 <= denied s3)%nat ->
  wp e T (match pairs with Some p => copy_pairs p (en_pairs en) 0 | None => mret tt end)
    (fun _ s5 => heap_step s4 s5 /\
      (forall b k, heap s3 !! b = Some k -> heap s5 !! b = Some k) /\
      match pairs with
      | Some arr => heap s3 !! arr = None /\ exists new, heap s5 !! arr = Some (Ptrs (new ++ [None])) /\
          Forall2 (string_at s0 s5) new (map until_nul (flat entries)) /\
          Forall (fun p => forall b, p = Some b -> heap s3 !! b = None) new
      | None => (denied s0 < denied s5)%nat
      end) s4.
Proof.
  intros Hl -> Ha Hd. pose proof Hl as [Hlen (s2' & [] & _)].
  pose proof (allocated_heap _ _ _ _ Ha) as Hsub. destruct Ha as [Hst Ha].
  pose proof (hs_denied _ _ Hst). destruct pairs as [arr|].
  - destruct Ha as (-> & Hf & _ & Hh). eapply wp_mono.
    + eapply (wp_copy_pairs (next s3) (en_pairs en) (flat entries) [] 0 s0 s4); [apply Hst| |done| |lia].
      * rewrite Hh, lookup_insert_eq, Hlen.
        by replace (Z.to_nat (2 * Z.of_nat (length entries) + 1)) with (2 * length entries + 1)%nat by lia.
      * by eapply holds_weaken_all.
    + intros [] s5 ([Hst5 F] & new & Harr & Hnew & Hfresh). split; [done|]. split; [|split; [done|]].
      * intros b k Hb. apply F; [congruence|]. by eapply lookup_weaken.
      * exists new. split; [done|]. split; [done|]. eapply Forall_impl; [exact Hfresh|].
        intros p Hp b Eb. specialize (Hp b Eb). apply eq_None_not_Some. intros [k Hk].
        by rewrite (lookup_weaken _ _ _ _ Hk Hsub) in Hp.
  - destruct Ha as [Hh ?]. apply wp_ret. split; [apply heap_step_refl, Hst|].
    split; [by rewrite Hh|lia].
Qed.

(** The array is as it was copied when the entries are gone. *)
Lemma copied_kept pairs entries s s3 s5 s7 :
  heap s ⊆ heap s3 ->
  match pairs with
  | Some arr => heap s3 !! arr = None /\ exists new, heap s5 !! arr = Some (Ptrs (new ++ [None])) /\
      Forall2 (string_at s s5) new (map until_nul (flat entries)) /\
      Forall (fun p => forall b, p = Some b -> heap s3 !! b = None) new
  | None => (denied s < denied s5)%nat
  end ->
  (forall b, heap s3 !! b = None -> heap s7 !! b = heap s5 !! b) -> (denied s5 <= denied s7)%nat ->
  match pairs with
  | Some b => heap s !! b = None /\ header_array s s7 b entries
  | None => (denied s < denied s7)%nat
  end.
Proof.
  intros Hsub Hp5 Hf Hd. destruct pairs as [arr|]; [|lia].
  destruct Hp5 as (Hnone & new & Harr & Hnew & Hfresh5). split.
  - apply eq_None_not_Some. intros [k Hk']. by rewrite (lookup_weaken _ _ _ _ Hk' Hsub) in Hnone.
  - exists new. split; [by rewrite Hf|].
    apply Forall2_same_length_lookup. split; [by eapply Forall2_length|].
    intros i p txt Hi Ht. rewrite Forall_lookup in Hfresh5.
    pose proof (Forall2_lookup_lr _ _ _ _ _ _ Hnew Hi Ht) as Hs5.
    destruct p as [b|]; simpl in *; [|lia]. rewrite Hf; [done|]. by eapply Hfresh5.
Qed.

Lemma wp_response_headers response s r :
  wf s -> handles s !! response = Some r -> h_kind r = IncomingResponse ->
  wp e T (response_headers response) (fun p s' => exists entries,
    success (header_events response (next_h s) entries) (handles s) s s' /\
    next_h s' = next_h s + 1 /\
    match p with
    | Some b => heap s !! b = None /\ header_array s s' b entries
    | None => (denied s < denied s')%nat
    end) s.
Proof.
  intros Hs Hr Hk. unfold response_headers. set (h := next_h s).
  assert (handles s !! h = None) as Hfresh by (by apply wf_fresh_handle).
  wcall; [done|done|by eapply enter_borrow|]. intros [] s1 _ H1.
  pose proof (cl_handles _ _ _ _ _ H1) as Hh1. cbn in Hh1.
  pose proof (cl_next_h _ _ _ _ _ H1) as Hn1. cbn in Hn1. fold h in Hh1, Hn1.
  wcall; [apply H1|done|eapply enter_borrow; [done|done|rewrite Hh1; apply lookup_insert_eq|done]|].
  intros entries s2 _ H2. cbn [fst]. cbn in entries.
  pose proof (success_trans _ _ _ _ _ _ _ (success_called _ _ _ _ _ H1 eq_refl)
    (success_called _ _ _ _ _ H2 eq_refl)) as S2.
  assert (heap s2 = heap s) as Hp2 by (rewrite (cl_heap _ _ _ _ _ H2); apply H1).
  assert (denied s2 = denied s) as Hd2 by (rewrite (cl_denied _ _ _ _ _ H2); apply H1).
  eapply wp_seq; [apply wp_lower_entries; [done|apply H2]|]. intros en s3 H3.
  rewrite (lowered_entries_size _ _ _ _ H3).
  pose proof (lowered_entries_heap _ _ _ _ H3) as [Hst3 Hsub3].
  eapply wp_seq; [apply wp_calloc_ptrs, Hst3|]. intros pairs s4 H4.
  eapply wp_seq.
  { apply (wp_copy_entries pairs entries _ s s2 en s3 s4 H3 eq_refl H4).
    pose proof (hs_denied _ _ Hst3). lia. }
  intros [] s5 (Hst5 & Hk5 & Hp5).
  eapply wp_seq; [eapply (wp_entries_free HA entries s2 en s3 s5); try done; [apply H2|apply Hst5]|].
  intros [] s6 [Hst6 Hf6].
  assert (heap_step s2 s6) as Hst26.
  { eapply heap_step_trans; [exact Hst3|]. eapply heap_step_trans; [apply H4|].
    by eapply heap_step_trans. }
  assert (heap s2 ⊆ heap s6) as Hsub6.
  { apply map_subseteq_spec. intros b k Hb. rewrite Hf6 by (right; by rewrite Hb).
    apply Hk5. by eapply lookup_weaken. }
  assert (handles s6 = <[h := Hentry Fields (Some response)]> (handles s)) as Hh6.
  { rewrite (hs_handles _ _ Hst26), (cl_handles _ _ _ _ _ H2). cbn. by rewrite Hh1. }
  assert (response < h) as Hlt by (by eapply wf_handle).
  wcall; [apply Hst26|done|eapply (enter_last _ s); try done; intros [= E]; lia|].
  intros [] s7 _ H7. apply wp_ret. exists entries. pose proof (cl_handles _ _ _ _ _ H7) as Hh7. cbn in Hh7.
  split; [|split].
  - assert (success [] (handles s6) s2 s6) as S6.
    { split; [by apply progress_heap_step|done|done|apply Hst26]. }
    pose proof (success_trans _ _ _ _ _ _ _ (success_trans _ _ _ _ _ _ _ S2 S6)
      (success_called _ _ _ _ _ H7 eq_refl)) as S7.
    rewrite Hh7 in S7. exact S7.
  - rewrite (cl_next_h _ _ _ _ _ H7). cbn. rewrite (hs_next_h _ _ Hst26), (cl_next_h _ _ _ _ _ H2). done.
  - apply (copied_kept pairs entries s s3 s5 s7); [by rewrite <- Hp2|exact Hp5| |].
    + intros b Hb. rewrite (cl_heap _ _ _ _ _ H7). apply Hf6. by left.
    + rewrite (cl_denied _ _ _ _ _ H7). apply (hs_denied _ _ Hst6).
Qed.
End Recv.
