(* ===== verification/WasmfnRead.v ===== *)
(** The specification of [read_body]: the buffer grows with every chunk and ends
    up holding the chunks in order and a NUL; the loop ends when the host does. *)
From S2P Require Import Prelude BindTypes CString Machine MachineLogic Wasmfn WasmfnMem WasmfnSend.
From Stdlib Require Import Strings.Byte.

Definition read_events (stream : Z) (chunks : list bytes) : list event :=
  map (fun c => Ev (BlockingRead stream read_chunk) (ROk c)) chunks.

Lemma refusals_read_events stream chunks : refusals (read_events stream chunks) = [].
Proof. by induction chunks. Qed.

(** The chunks read so far. *)
Definition is_chunk (ev : event) : bool :=
  match ev with Ev (BlockingRead _ _) r => negb (is_err r) | _ => false end.
Definition reads (tr : list event) : nat := length (base.filter is_chunk tr).

(** The host gives at most [n] chunks in all, then ends the stream. *)
Definition closes_after (n : nat) (e : env) : Prop :=
  forall tr h len bs, answers e tr (BlockingRead h len) = ROk bs -> (reads tr < n)%nat.

(** [fuel] is enough for the chunks the host still has, unless running out of it
    is tolerated. *)
Definition enough (e : env) (T : trap -> Prop) (fuel : nat) (s : cst) : Prop :=
  T OutOfFuel \/
  exists n, closes_after n e /\ (reads (trace s) <= n)%nat /\ (n < reads (trace s) + fuel)%nat.

Lemma reads_app tr tr' : reads (tr ++ tr') = (reads tr + reads tr')%nat.
Proof. unfold reads. by rewrite filter_app, length_app. Qed.

Lemma progress_extend evs s0 s s' :
  progress evs s0 s -> heap_step s s' -> heap s0 ⊆ heap s' -> progress evs s0 s'.
Proof. intros [] []. split; try done; try lia. congruence. Qed.

(** A buffer of [content] and one byte more. *)
Definition buffer (s : cst) (buf : Z) (content : bytes) : Prop :=
  exists c, heap s !! buf = Some (Bytes (map Some content ++ [c])).

(** What the buffer's bytes become when a chunk is copied behind the content. *)
Lemma grow_bytes (content bs : bytes) (c : option byte) :
  let n := (length content + length bs + 1)%nat in
  let cs := resize n None (map Some content ++ [c]) in
  exists c', take (length content) cs ++ map Some bs ++ drop (length content + length bs) cs
             = map Some (content ++ bs) ++ [c'].
Proof.
  intros n cs. assert (length cs = n) as Hn by apply length_resize.
  assert (take (length content) cs = map Some content) as Ht.
  { unfold cs, n. rewrite take_resize_le by lia. rewrite resize_le by (rewrite length_app, length_map; lia).
    by rewrite take_app_le, firstn_all2 by (rewrite length_map; lia). }
  assert (length (drop (length content + length bs) cs) = 1%nat) as Hd by (rewrite length_drop; lia).
  destruct (drop (length content + length bs) cs) as [|c' [|]]; try done.
  exists c'. by rewrite Ht, map_app, <- app_assoc.
Qed.

Section Read.
Context {e : env} {T : trap -> Prop} (HA : T Aborted).

(** The sum of the sizes does not wrap: both blocks are in memory. *)
Lemma grow_size s buf content l bs :
  wf s -> buffer s buf content -> holds s l bs -> u8_ptr l <> Some buf ->
  let n := Z.of_nat (length content) + u8_len l + 1 in size_t n = n.
Proof.
  intros Hs [c Hb] [Hl H] Hne n. apply uwrap_id. split; [lia|].
  pose proof (wf_size s Hs) as Hsz. unfold memory_size in Hsz. unfold n. rewrite Hl.
  assert (block_size (Bytes (map Some content ++ [c])) = Z.of_nat (length content) + 1) as Eb.
  { simpl. rewrite length_app, length_map. simpl. lia. }
  destruct bs as [|b0 bs0] eqn:E.
  - rewrite (heap_size_delete _ _ _ Hb) in Hsz. pose proof (heap_size_nonneg (delete buf (heap s))).
    simpl length. lia.
  - rewrite <- E in *. destruct H as (b & Hp & Hlk); [by subst|].
    assert (buf <> b) as Hbb by congruence.
    pose proof (heap_size_two _ _ _ _ _ Hbb Hb Hlk) as H2. rewrite Eb in H2.
    simpl block_size in H2. rewrite length_map in H2. lia.
Qed.

(** The chunk is lowered away from what it is appended to. *)
Lemma lowered_ne bs s chunk s' a k : lowered bs s chunk s' -> heap s !! a = Some k -> u8_ptr chunk <> Some a.
Proof. intros (_ & _ & Hptr) Ha E. rewrite E in Hptr. destruct Hptr as (_ & Hn & _). congruence. Qed.

Lemma lowered_fresh evs s0 s bs chunk s' b :
  progress evs s0 s -> lowered bs s chunk s' -> u8_ptr chunk = Some b -> heap s0 !! b = None.
Proof.
  intros Hp Hlow E. apply eq_None_not_Some. intros [k' Hk'].
  by eapply (lowered_ne _ _ _ _ _ _ Hlow); [eapply progress_lookup|].
Qed.

Lemma holds_frame s s' l bs :
  holds s l bs -> (forall b, u8_ptr l = Some b -> heap s' !! b = heap s !! b) -> holds s' l bs.
Proof.
  intros [Hl H] Hh. split; [done|]. intros Hbs. destruct (H Hbs) as (b & Eb & Hlk).
  exists b. split; [done|]. by rewrite Hh.
Qed.

(** The buffer has grown and moved: the chunk is copied behind the content and
    freed. *)
Lemma wp_chunk_copied {B} s0 evs s buf content bs s2 chunk s3 c (k : Z -> C B) Q :
  let n := (length content + length bs + 1)%nat in
  let cs := resize n None (map Some content ++ [c]) in
  progress evs s0 s -> heap s0 !! buf = None -> heap s !! buf = Some (Bytes (map Some content ++ [c])) ->
  lowered bs s chunk s2 -> heap_step s2 s3 -> heap s2 !! next s2 = None ->
  heap s3 = <[next s2 := Bytes cs]> (delete buf (heap s2)) ->
  (forall s', progress evs s0 s' -> heap_step s s' -> heap s0 !! next s2 = None ->
     buffer s' (next s2) (content ++ bs) -> wp e T (k (next s2)) Q s') ->
  wp e T (bs ← list_bytes chunk;
          _ ← put (next s2) (Z.of_nat (length content)) bs;
          _ ← list_u8_free chunk;
          k (next s2)) Q s3.
Proof.
  intros n cs Hp Hf0 Hb Hlow Hst3 Hf2 Hh3 Hk.
  pose proof (lowered_subseteq _ _ _ _ Hlow) as Hsub2. pose proof (lowered_holds _ _ _ _ Hlow) as Hh2.
  pose proof (lowered_ne _ _ _ _ _ _ Hlow Hb) as Hne.
  assert (forall b, u8_ptr chunk = Some b -> heap s0 !! b = None /\ b <> next s2) as Hc.
  { intros b Eb. split; [by eapply lowered_fresh|]. intros ->.
    destruct Hlow as (_ & _ & Hptr). rewrite Eb in Hptr. destruct Hptr as (_ & _ & _ & Hh).
    by rewrite Hh, lookup_insert_eq in Hf2. }
  assert (forall b, u8_ptr chunk = Some b -> heap s3 !! b = heap s2 !! b) as H3.
  { intros b Eb. rewrite Hh3, lookup_insert_ne, lookup_delete_ne; [done|congruence|].
    intros <-. by eapply Hc. }
  eapply wp_seq; [by apply wp_list_bytes, (holds_frame s2)|]. intros ? ? [-> ->].
  eapply wp_seq.
  { eapply wp_put; [apply Hst3|rewrite Hh3; apply lookup_insert_eq|lia|]. unfold cs. rewrite length_resize. lia. }
  intros [] s4 [Hst4 Hh4]. rewrite Hh3, insert_insert_eq in Hh4.
  eapply wp_seq; [apply (wp_list_u8_free chunk bs); [apply Hst4|]|].
  { apply (holds_frame s2); [done|]. intros b Eb.
    rewrite <- H3, Hh3, Hh4 by done. rewrite !lookup_insert_ne; [done|intros <-; by eapply Hc..]. }
  intros [] s5 [Hst5 Hh5].
  assert (heap_step s s5) as Hst.
  { eapply heap_step_trans; [apply Hlow|]. eapply heap_step_trans; [exact Hst3|]. by eapply heap_step_trans. }
  assert (heap s0 ⊆ heap s2) as Hs02 by (transitivity (heap s); [apply Hp|done]).
  assert (heap s0 !! next s2 = None) as Hf0'.
  { apply eq_None_not_Some. intros [k' Hk']. by rewrite (lookup_weaken _ _ _ _ Hk' Hs02) in Hf2. }
  apply Hk; [|done|done|].
  - eapply progress_extend; [exact Hp|done|].
    assert (heap s0 ⊆ heap s4) as Hs04.
    { rewrite Hh4. apply subseteq_insert_fresh; [|done]. by apply subseteq_delete_fresh. }
    rewrite Hh5. destruct bs as [|b0 bs]; [done|].
    destruct (u8_ptr chunk) as [b|] eqn:Eb; [|done]. apply subseteq_delete_fresh; [done|by apply Hc].
  - destruct (grow_bytes content bs c) as [c' Hg]. exists c'.
    assert (heap s4 !! next s2 = Some (Bytes (map Some (content ++ bs) ++ [c']))) as H4.
    { rewrite Hh4, lookup_insert_eq, <- Hg, Nat2Z.id. unfold cs, n. repeat f_equal; lia. }
    rewrite Hh5. destruct bs as [|b0 bs]; [done|].
    destruct (u8_ptr chunk) as [b|] eqn:Eb; [|done]. rewrite lookup_delete_ne; [done|].
    by apply Hc.
Qed.

(** One chunk: lowered, appended to the buffer, freed. *)
Lemma wp_append_chunk {B} s0 evs s buf content bs s2 chunk err (k : Z -> C B) (f : bool -> C B) Q :
  progress evs s0 s -> heap s0 !! buf = None -> buffer s buf content -> lowered bs s chunk s2 ->
  valid err s ->
  (forall buf' s', progress evs s0 s' -> heap_step s s' -> heap s0 !! buf' = None ->
     buffer s' buf' (content ++ bs) -> wp e T (k buf') Q s') ->
  (forall s3 s', progress evs s0 s3 -> vars s3 = vars s -> (denied s < denied s3)%nat ->
     told err OOM s3 s' -> handles s' = handles s -> next_h s' = next_h s -> apart err buf s' ->
     is_Some (heap s' !! buf) -> holds s' chunk bs -> u8_ptr chunk <> Some buf ->
     (forall b, u8_ptr chunk = Some b -> heap s0 !! b = None /\ apart err b s') ->
     wp e T (f false) Q s') ->
  wp e T (grown ← realloc (Some buf) (size_t (Z.of_nat (length content) + u8_len chunk + 1));
          match grown with
          | None => ok ← fail err (lit "out of memory"); f ok
          | Some buf =>
              bs ← list_bytes chunk;
              _ ← put buf (Z.of_nat (length content)) bs;
              _ ← list_u8_free chunk;
              k buf
          end) Q s2.
Proof.
  intros Hp Hf0 Hbuf Hlow Hv Hk Hfail.
  pose proof (lowered_subseteq _ _ _ _ Hlow) as Hsub2. pose proof (lowered_holds _ _ _ _ Hlow) as Hh2.
  pose proof Hbuf as [c Hb]. pose proof (lookup_weaken _ _ _ _ Hb Hsub2) as Hb2.
  pose proof (lowered_ne _ _ _ _ _ _ Hlow Hb) as Hne. pose proof Hlow as (Hst2 & Hlen & Hptr).
  rewrite (grow_size s2 buf content chunk bs (hs_wf _ _ Hst2)); [|by exists c|done|done].
  eapply wp_seq; [eapply wp_realloc; [apply Hst2|exact Hb2]|]. intros [buf'|] s3 [Hst3 H3].
  - destruct H3 as (-> & Hf2 & _ & Hh3). eapply (wp_chunk_copied s0 evs s buf content bs s2); try done.
    + rewrite Hh3, Hlen. repeat f_equal. lia.
    + intros s' ? ? ? ?. by apply Hk.
  - destruct H3 as [Hh3 Hd3].
    assert (heap_step s s3) as Hst by (by eapply heap_step_trans).
    eapply wp_seq; [apply wp_fail; [apply Hst3|]|].
    { eapply valid_vars; [exact Hv|apply Hst]. }
    intros ok s4 [-> Ht]. pose proof (hs_denied _ _ Hst2).
    apply (Hfail s3).
    + eapply progress_extend; [exact Hp|done|]. rewrite Hh3. transitivity (heap s); [apply Hp|done].
    + apply Hst.
    + lia.
    + done.
    + rewrite (to_handles _ _ _ _ Ht). apply Hst.
    + rewrite (to_next_h _ _ _ _ Ht). apply Hst.
    + eapply told_apart; [done|]. by rewrite Hh3, Hb2.
    + erewrite progress_lookup; [done|apply Ht|]. by rewrite Hh3.
    + eapply holds_weaken; [exact Hh2|]. rewrite <- Hh3. apply Ht.
    + done.
    + intros b Eb. split; [by eapply lowered_fresh|]. eapply told_apart; [done|]. rewrite Hh3.
      rewrite Eb in Hptr. destruct Hptr as (_ & _ & _ & ->). by rewrite lookup_insert_eq.
Qed.

(** ** The loop *)

(** How the loop ends: well, at the end of the stream with the chunks in the
    buffer; or with a failure reported and the buffer still to be freed. *)
Definition loop_done (err : option Z) (stream : Z) (evs0 : list event) (content : bytes)
    (s0 : cst) (r : bool * Z * Z) (s' : cst) : Prop :=
  let '(ok, buf, len) := r in
  heap s0 !! buf = None /\ is_Some (heap s' !! buf) /\
  if ok then
    exists chunks serr,
      let evs := evs0 ++ read_events stream chunks ++ [Ev (BlockingRead stream read_chunk) (RErr serr)] in
      se_tag serr = WASI_IO_STREAMS_STREAM_ERROR_CLOSED /\ progress evs s0 s' /\ vars s' = vars s0 /\
      buffer s' buf (content ++ concat chunks) /\
      len = Z.of_nat (length (content ++ concat chunks))
  else apart err buf s' /\ exists evs, failure err (evs0 ++ evs) s0 s'.

Lemma enough_chunk fuel stream bs t s s1 :
  enough e T (S fuel) s -> ROk bs = answers e (trace s) (BlockingRead stream read_chunk) ->
  called (BlockingRead stream read_chunk) (ROk bs) t s s1 -> enough e T fuel s1.
Proof.
  intros [H|(n & Hc & Hle & Hlt)] Ha Hca; [by left|]. right. exists n. split; [done|].
  pose proof (Hc (trace s) stream read_chunk bs (eq_sym Ha)).
  rewrite (cl_trace _ _ _ _ _ Hca), reads_app. change (reads [_]) with 1%nat. lia.
Qed.

Lemma enough_trace fuel s s' : trace s' = trace s -> enough e T fuel s -> enough e T fuel s'.
Proof. unfold enough. by intros ->. Qed.

Lemma enough_zero s : enough e T 0 s -> T OutOfFuel.
Proof. intros [H|(n & _ & ? & ?)]; [done|lia]. Qed.

(** The length with a chunk more does not wrap: the grown buffer is in memory. *)
Lemma buffer_length s buf content bs l :
  wf s -> buffer s buf (content ++ bs) -> u8_len l = Z.of_nat (length bs) ->
  size_t (Z.of_nat (length content) + u8_len l) = Z.of_nat (length (content ++ bs)).
Proof.
  intros Hs [c Hb] ->. rewrite length_app, <- Nat2Z.inj_add. apply uwrap_id.
  pose proof (wf_size s Hs) as Hsz. rewrite (heap_size_delete _ _ _ Hb) in Hsz.
  pose proof (heap_size_nonneg (delete buf (heap s))).
  simpl in Hsz. rewrite !length_app, length_map, length_app in Hsz. unfold memory_size in Hsz. lia.
Qed.

(** A chunk read before the rest of the loop is one of the loop's chunks. *)
Lemma loop_done_cons err stream evs0 content bs s0 res s' :
  loop_done err stream (evs0 ++ [Ev (BlockingRead stream read_chunk) (ROk bs)]) (content ++ bs) s0 res s' ->
  loop_done err stream evs0 content s0 res s'.
Proof.
  destruct res as [[ok b'] len']. intros (Hf & Hl & Hd). split; [done|]. split; [done|]. destruct ok.
  - destruct Hd as (chunks & serr & ? & Hpr & ? & Hbuf & ->). exists (bs :: chunks), serr.
    rewrite <- app_assoc in Hpr. rewrite <- app_assoc in Hbuf. rewrite <- app_assoc. done.
  - destruct Hd as (? & evs & Hfa). split; [done|].
    exists ([Ev (BlockingRead stream read_chunk) (ROk bs)] ++ evs). by rewrite app_assoc.
Qed.

(** Freeing the chunk keeps the buffer, the caller's blocks and the report. *)
Lemma chunk_freed evs s0 s s' buf chunk (bs : bytes) err :
  progress evs s0 s -> reported err OOM s0 s -> is_Some (heap s !! buf) ->
  u8_ptr chunk <> Some buf ->
  (forall b, u8_ptr chunk = Some b -> heap s0 !! b = None /\ apart err b s) ->
  heap_step s s' ->
  heap s' = match bs, u8_ptr chunk with _ :: _, Some b => delete b (heap s) | _, _ => heap s end ->
  progress evs s0 s' /\ reported err OOM s0 s' /\ is_Some (heap s' !! buf).
Proof.
  intros Hp Hrep Hl Hne Hc Hst Hh.
  assert (heap s' = heap s -> progress evs s0 s' /\ reported err OOM s0 s' /\ is_Some (heap s' !! buf)) as Hsame.
  { intros E. split; [|split; [|by rewrite E]].
    - eapply progress_extend; [exact Hp|done|]. rewrite E. apply Hp.
    - eapply reported_post; [exact Hrep| |apply Hst]. apply progress_heap_step; [done|]. by rewrite E. }
  destruct bs as [|b0 bs]; [by apply Hsame|].
  destruct (u8_ptr chunk) as [b|]; [|by apply Hsame].
  destruct (Hc b eq_refl) as [Hb0 Hapb]. split; [|split].
  - eapply progress_extend; [exact Hp|done|]. rewrite Hh. apply subseteq_delete_fresh; [apply Hp|done].
  - by eapply reported_free.
  - rewrite Hh, lookup_delete_ne; [done|congruence].
Qed.

(** The chunk there is no room for: reported, the chunk freed, the buffer left. *)
Lemma wp_chunk_refused stream err evs0 s0 s buf content chunk bs s3 :
  let evs := evs0 ++ [Ev (BlockingRead stream read_chunk) (ROk bs)] in
  progress evs s0 s3 -> refusals evs0 = [] -> (denied s0 < denied s3)%nat -> vars s3 = vars s0 ->
  told err OOM s3 s -> heap s0 !! buf = None -> apart err buf s -> is_Some (heap s !! buf) ->
  holds s chunk bs -> u8_ptr chunk <> Some buf ->
  (forall b, u8_ptr chunk = Some b -> heap s0 !! b = None /\ apart err b s) ->
  wp e T (_ ← list_u8_free chunk; mret (false, buf, Z.of_nat (length content))) (fun res s' =>
    handles s' = handles s /\ next_h s' = next_h s /\
    loop_done err stream evs0 content s0 res s') s.
Proof.
  intros evs Hp3 Hr0 Hd Hv Ht Hf Hap Hl Hhold Hne Hc.
  assert (progress evs s0 s) as Hp.
  { rewrite <- (app_nil_r evs). eapply progress_trans; [exact Hp3|apply Ht]. }
  assert (reported err OOM s0 s) as Hrep by (eapply reported_pre; [exact Hp3|congruence|apply Ht]).
  eapply wp_seq; [apply (wp_list_u8_free chunk bs); [apply Ht|done]|].
  intros [] s4 [Hst4 Hh4]. apply wp_ret. split; [apply Hst4|]. split; [apply Hst4|].
  destruct (chunk_freed evs s0 s s4 buf chunk bs err) as (Hp4 & Hrep4 & Hl4); try done.
  split; [done|]. split; [done|]. split.
  - intros a Ea. rewrite (hs_vars _ _ Hst4). by apply Hap.
  - exists [Ev (BlockingRead stream read_chunk) (ROk bs)]. split; [done|].
    right. split_and!; [by rewrite refusals_app, Hr0| |by left].
    pose proof (pr_denied _ _ _ (to_progress _ _ _ _ Ht)). pose proof (hs_denied _ _ Hst4). lia.
Qed.

(** The end of the stream, or the failure of the read. *)
Lemma wp_read_ended stream err evs0 s0 s buf content serr :
  let evs := evs0 ++ [Ev (BlockingRead stream read_chunk) (RErr serr)] in
  progress evs s0 s -> refusals evs0 = [] -> vars s = vars s0 -> valid err s0 ->
  heap s0 !! buf = None -> buffer s buf content ->
  wp e T (ok ← (if se_tag serr =? WASI_IO_STREAMS_STREAM_ERROR_CLOSED then mret true
                else fail err (lit "reading the response body failed"));
          mret (ok, buf, Z.of_nat (length content))) (fun res s' =>
    handles s' = handles s /\ next_h s' = next_h s /\
    loop_done err stream evs0 content s0 res s') s.
Proof.
  intros evs Hp Hr0 Hv Hval Hf Hb.
  assert (is_Some (heap s !! buf)) as Hlive by (destruct Hb as [c ->]; done).
  destruct (Z.eqb_spec (se_tag serr) WASI_IO_STREAMS_STREAM_ERROR_CLOSED) as [Ec|Ec].
  - apply wp_bind, wp_ret, wp_ret. split; [done|]. split; [done|]. split; [done|]. split; [done|].
    exists [], serr. cbn [concat]. rewrite app_nil_r. split_and!; try done.
  - eapply wp_seq; [apply wp_fail; [apply Hp|by eapply valid_vars]|].
    intros ok s2 [-> Ht]. apply wp_ret. split; [apply Ht|]. split; [apply Ht|]. split; [done|]. split.
    { destruct Hlive as [k Hk']. by erewrite progress_lookup; [|apply Ht|exact Hk']. }
    split; [by eapply told_apart|].
    exists [Ev (BlockingRead stream read_chunk) (RErr serr)].
    eapply failure_told; [exact Hp|done| |exact Ht]. unfold evs. rewrite refusals_app, Hr0.
    unfold refusals. cbn. destruct (Z.eqb_spec (se_tag serr) WASI_IO_STREAMS_STREAM_ERROR_CLOSED); done.
Qed.

Lemma wp_read_loop fuel stream err evs0 s0 s buf content r :
  progress evs0 s0 s -> refusals evs0 = [] -> vars s = vars s0 -> valid err s0 ->
  handles s !! stream = Some r -> h_kind r = InputStream ->
  heap s0 !! buf = None -> buffer s buf content -> enough e T fuel s ->
  wp e T (read_loop fuel stream buf (Z.of_nat (length content)) err) (fun res s' =>
    handles s' = handles s /\ next_h s' = next_h s /\
    loop_done err stream evs0 content s0 res s') s.
Proof.
  revert evs0 s buf content. induction fuel as [|fuel IH];
    intros evs0 s buf content Hp Hr0 Hv Hval Hh Hk Hf Hb He; [by eapply enough_zero|].
  cbn [read_loop]. wcall; [apply Hp|done|by eapply enter_borrow|]. intros a s1 Ha H1. cbn [fst].
  pose proof (cl_handles _ _ _ _ _ H1) as Hh1. cbn in Hh1.
  pose proof (cl_next_h _ _ _ _ _ H1) as Hn1. cbn in Hn1.
  assert (vars s1 = vars s0) as Hv1 by (rewrite (cl_vars _ _ _ _ _ H1); done).
  assert (buffer s1 buf content) as Hb1 by (unfold buffer; by rewrite (cl_heap _ _ _ _ _ H1)).
  pose proof (progress_trans _ _ _ _ _ Hp (progress_called _ _ _ _ _ H1)) as Hp1.
  destruct a as [bs|serr].
  2: { rewrite <- Hh1, <- Hn1. by apply wp_read_ended. }
  eapply wp_seq; [apply wp_cabi_lower; [apply H1|done]|]. intros chunk s2 Hlow.
  eapply (wp_append_chunk s0 _ s1 buf content bs s2 chunk err
    (fun buf => read_loop fuel stream buf (size_t (Z.of_nat (length content) + u8_len chunk)) err)
    (fun ok => _ ← list_u8_free chunk; mret (ok, buf, Z.of_nat (length content)))); try done.
  { by eapply valid_vars. }
  - intros buf' s' Hp' Hst' Hf' Hb'.
    rewrite (buffer_length s' buf' content bs); [|apply Hst'|done|apply Hlow].
    eapply wp_mono; [apply (IH _ s' buf' (content ++ bs) Hp'); try done|].
    + by rewrite refusals_app, Hr0.
    + by rewrite (hs_vars _ _ Hst').
    + rewrite (hs_handles _ _ Hst'), Hh1. done.
    + eapply enough_trace; [apply Hst'|]. by eapply enough_chunk.
    + intros res s3 (Hh3 & Hn3 & Hd). rewrite Hh3, Hn3, (hs_handles _ _ Hst'), (hs_next_h _ _ Hst').
      split; [done|]. split; [done|]. by eapply loop_done_cons.
  - intros s3 s' Hp3 Hv3 Hd3 Ht Hh' Hn' Hap Hl' Hhold Hne Hc.
    eapply wp_mono; [eapply wp_chunk_refused; try done|].
    + pose proof (pr_denied _ _ _ Hp1). lia.
    + congruence.
    + intros res s4 (-> & -> & Hd). split; [congruence|]. split; [congruence|done].
Qed.
End Read.
