(* ===== verification/WasmfnReadBody.v ===== *)
(** The specification of [read_body]. *)
From S2P Require Import Prelude BindTypes CString Machine MachineLogic Wasmfn WasmfnMem WasmfnSend WasmfnRead.
From Stdlib Require Import Strings.Byte.

(** The calls that end the body: the stream before its body, the trailers the
    finished body leaves. *)
Definition close_events (body stream trailers : Z) : list event :=
  [Ev (Drop InputStream stream) tt; Ev (IncomingBodyFinish body) tt; Ev (Drop FutureTrailers trailers) tt].

(** The calls of a [read_body] that succeeds, for the next handle [h]. *)
Definition read_body_events (response h : Z) (chunks : list bytes) (serr : wasi_io_streams_stream_error_t)
    : list event :=
  [Ev (IncomingResponseConsume response) true; Ev (IncomingBodyStream h) true] ++
  read_events (h + 1) chunks ++ [Ev (BlockingRead (h + 1) read_chunk) (RErr serr)] ++
  close_events h (h + 1) (h + 2).

Lemma failure_free err evs s s1 s2 b :
  failure err evs s s1 -> heap_step s1 s2 -> heap s2 = delete b (heap s1) ->
  heap s !! b = None -> apart err b s1 -> failure err evs s s2.
Proof.
  intros [Hp H] Hst Hh Hb Hap. pose proof (hs_denied _ _ Hst). split.
  - eapply progress_extend; [done|done|]. rewrite Hh. apply subseteq_delete_fresh; [apply Hp|done].
  - destruct H as [(m & ? & ?)|(? & ? & H)].
    + left. exists m. split; [done|]. by eapply reported_free.
    + right. split_and!; [done|lia|].
      destruct H; [left; by eapply reported_free|right; rewrite (hs_vars _ _ Hst); done].
Qed.

Section ReadBody.
Context {e : env} {T : trap -> Prop} (HA : T Aborted).

(** The body and its stream as [consume] and [stream] leave them. *)
Definition opened (t : gmap Z hentry) (body stream : Z) : gmap Z hentry :=
  <[stream := Hentry InputStream (Some body)]> (<[body := Hentry IncomingBody None]> t).

Lemma wp_close {B} body s0 s (f : C B) Q :
  let h := next_h s in
  wf s0 -> handles s = opened (handles s0) body (body + 1) -> body = next_h s0 -> next_h s = body + 2 ->
  wf s ->
  (forall s', progress (close_events body (body + 1) (body + 2)) s s' -> heap s' = heap s ->
     vars s' = vars s -> handles s' = handles s0 -> next_h s' = body + 3 -> wp e T f Q s') ->
  wp e T (_ ← call (Drop InputStream (body + 1));
          '(_, trailers) ← call (IncomingBodyFinish body);
          _ ← call (Drop FutureTrailers trailers); f) Q s.
Proof.
  intros h Hs0 Hh -> Hn Hs Hf. unfold opened in Hh. set (body := next_h s0) in *.
  assert (handles s0 !! body = None) as Hb0 by (by apply wf_fresh_handle).
  assert (handles s0 !! (body + 1) = None) as Hb1.
  { apply eq_None_not_Some. intros [r Hr]. apply (wf_handle _ Hs0) in Hr. unfold body in Hr. lia. }
  wcall; [done|done| |].
  { eapply enter_own; [done|done|rewrite Hh; apply lookup_insert_eq|done|]. rewrite Hh.
    apply childless_insert; [|intros [= E]; lia].
    apply childless_insert; [apply childless_fresh; [done|unfold body; lia]|done]. }
  intros [] s1 _ H1. pose proof (cl_handles _ _ _ _ _ H1) as Hh1. cbn in Hh1.
  rewrite Hh, delete_insert_id in Hh1 by (rewrite lookup_insert_ne by lia; done).
  pose proof (cl_next_h _ _ _ _ _ H1) as Hn1. cbn in Hn1.
  wcall; [apply H1|done|by eapply (enter_last _ s0)|].
  intros [] s2 _ H2. pose proof (cl_handles _ _ _ _ _ H2) as Hh2. cbn in Hh2. rewrite Hn1, Hn in Hh2.
  pose proof (cl_next_h _ _ _ _ _ H2) as Hn2. cbn in Hn2. rewrite Hn1, Hn in *.
  wcall; [apply H2|done|eapply (enter_last _ s0); try done; unfold body; lia|].
  intros [] s3 _ H3. pose proof (cl_handles _ _ _ _ _ H3) as Hh3. cbn in Hh3.
  apply Hf.
  - eapply (progress_trans [_; _] [_]); [eapply (progress_trans [_] [_])|]; by eapply progress_called.
  - rewrite (cl_heap _ _ _ _ _ H3), (cl_heap _ _ _ _ _ H2). apply H1.
  - rewrite (cl_vars _ _ _ _ _ H3), (cl_vars _ _ _ _ _ H2). apply H1.
  - done.
  - rewrite (cl_next_h _ _ _ _ _ H3). cbn. lia.
Qed.

(** What [read_body] promises. *)
Definition body_read (response : Z) (err : option Z) (s : cst) (res : option (Z * Z)) (s' : cst) : Prop :=
  handles s' = handles s /\
  match res with
  | Some (b, len) => exists chunks serr,
      se_tag serr = WASI_IO_STREAMS_STREAM_ERROR_CLOSED /\
      success (read_body_events response (next_h s) chunks serr) (handles s) s s' /\
      next_h s' = next_h s + 3 /\ heap s !! b = None /\
      heap s' !! b = Some (Bytes (map Some (concat chunks ++ [NUL]))) /\
      len = Z.of_nat (length (concat chunks))
  | None => exists evs, failure err evs s s'
  end.

Lemma refusals_read_body response h chunks serr :
  se_tag serr = WASI_IO_STREAMS_STREAM_ERROR_CLOSED ->
  refusals (read_body_events response h chunks serr) = [].
Proof.
  intros H. unfold read_body_events. rewrite !refusals_app, refusals_read_events.
  unfold refusals. cbn. by rewrite H.
Qed.

(** The tail of [read_body], after the loop. *)
Lemma wp_finish_read response err evs0 body s0 s ok buf len :
  wf s0 -> body = next_h s0 ->
  evs0 = [Ev (IncomingResponseConsume response) true; Ev (IncomingBodyStream body) true] ->
  handles s = opened (handles s0) body (body + 1) -> next_h s = body + 2 ->
  loop_done err (body + 1) evs0 [] s0 (ok, buf, len) s ->
  wp e T (_ ← call (Drop InputStream (body + 1));
          '(_, trailers) ← call (IncomingBodyFinish body);
          _ ← call (Drop FutureTrailers trailers);
          match ok, Some buf with
          | true, Some b => _ ← put b len [NUL]; mret (Some (b, len))
          | true, None => stop UB
          | false, _ => _ ← free (Some buf); mret None
          end) (body_read response err s0) s.
Proof.
  intros Hs0 -> -> Hh Hn (Hf0 & Hlive & Hd).
  assert (wf s) as Hs.
  { destruct ok; [destruct Hd as (? & ? & ? & Hp & _); apply Hp|destruct Hd as (_ & ? & Hp & _); apply Hp]. }
  apply (wp_close (next_h s0) s0); try done. intros s' Hp' Hheap' Hv' Hh' Hn'. destruct ok.
  - destruct Hd as (chunks & serr & Hc & Hp & Hv & [c Hbuf] & ->). cbn [app] in Hbuf.
    eapply wp_seq.
    { eapply wp_put; [apply Hp'|by rewrite Hheap'|lia|]. cbn [app]. rewrite length_app, length_map. simpl. lia. }
    intros [] s5 [Hst5 Hh5]. apply wp_ret. split; [by rewrite (hs_handles _ _ Hst5)|].
    exists chunks, serr. split; [done|]. split; [|split_and!].
    + pose proof (progress_trans _ _ _ _ _ Hp Hp') as Hpp.
      assert (progress (read_body_events response (next_h s0) chunks serr) s0 s5) as Hp5.
      { eapply progress_extend; [|exact Hst5|].
        - unfold read_body_events. rewrite <- !app_assoc in Hpp. exact Hpp.
        - rewrite Hh5. apply subseteq_insert_fresh; [apply Hpp|done]. }
      split; [done|by apply refusals_read_body|by rewrite (hs_handles _ _ Hst5)|].
      rewrite (hs_vars _ _ Hst5). congruence.
    + rewrite (hs_next_h _ _ Hst5). lia.
    + done.
    + rewrite Hh5, lookup_insert_eq. do 2 f_equal. cbn [app].
      rewrite Nat2Z.id, take_app_le by (by rewrite length_map).
      rewrite firstn_all2 by (by rewrite length_map).
      rewrite drop_ge by (rewrite length_app, length_map; simpl; lia). by rewrite map_app.
    + done.
  - destruct Hd as (Hap & evs & Hfa).
    pose proof (failure_post _ _ _ _ _ _ Hfa Hp' Hv' eq_refl) as Hfa'.
    eapply wp_seq; [apply wp_free; [apply Hp'|]|].
    { intros b [= <-]. by rewrite Hheap'. }
    intros [] s5 [Hst5 Hh5]. apply wp_ret. split; [by rewrite (hs_handles _ _ Hst5)|].
    eexists. eapply failure_free; [exact Hfa'|done|exact Hh5|done|].
    intros a Ea. rewrite Hv'. by apply Hap.
Qed.

(** The body's stream was taken. *)
Lemma wp_stream_taken response err s s2 evs body :
  wf s -> valid err s -> body = next_h s -> wf s2 -> progress evs s s2 -> refusals evs = [lit "the response body stream was already taken"] ->
  vars s2 = vars s -> handles s2 = <[body := Hentry IncomingBody None]> (handles s) ->
  wp e T (_ ← call (Drop IncomingBody body);
          _ ← fail err (lit "the response body stream was already taken");
          mret None) (body_read response err s) s2.
Proof.
  intros Hs Hval -> Hs2 Hp2 Hev Hv2 Hh2. set (body := next_h s) in *.
  wcall; [done|done|by eapply (enter_last _ s)|].
  intros [] s3 _ H3. pose proof (cl_handles _ _ _ _ _ H3) as Hh3. cbn in Hh3.
  assert (vars s3 = vars s) as Hv3 by (rewrite (cl_vars _ _ _ _ _ H3); done).
  eapply wp_seq; [apply wp_fail; [apply H3|by eapply valid_vars]|].
  intros ok s' [-> Ht]. apply wp_ret. split; [by rewrite (to_handles _ _ _ _ Ht)|].
  eexists. eapply failure_told; [|exact Hv3| |exact Ht].
  - eapply progress_trans; [exact Hp2|by eapply progress_called].
  - by rewrite refusals_app, Hev.
Qed.

(** There was no memory for the body's buffer. *)
Lemma wp_no_buffer response err s s2 s3 evs body :
  wf s -> body = next_h s -> progress evs s s2 -> refusals evs = [] -> vars s2 = vars s -> next_h s2 = body + 2 ->
  handles s2 = opened (handles s) body (body + 1) ->
  heap_step s2 s3 -> heap s3 = heap s2 -> (denied s2 < denied s3)%nat ->
  wp e T (_ ← call (Drop InputStream (body + 1));
          '(_, trailers) ← call (IncomingBodyFinish body);
          _ ← call (Drop FutureTrailers trailers);
          _ ← free None; mret None) (body_read response err s) s3.
Proof.
  intros Hs Hb Hp2 Hev Hv2 Hn2 Hh2 Hst3 Hheap3 Hd3.
  apply (wp_close body s); [done| |done| |apply Hst3|].
  - rewrite (hs_handles _ _ Hst3). exact Hh2.
  - rewrite (hs_next_h _ _ Hst3). lia.
  - intros s4 Hp4 Hheap4 Hv4 Hh4 Hn4. apply wp_bind, wp_ret, wp_ret. split; [done|].
    assert (progress ([] : list event) s2 s3) as Hp3.
    { apply progress_heap_step; [done|by rewrite Hheap3]. }
    pose proof (pr_denied _ _ _ Hp2). pose proof (pr_denied _ _ _ Hp4).
    eexists. split; [eapply progress_trans; [exact Hp2|eapply progress_trans; [exact Hp3|exact Hp4]]|].
    right. split_and!; [by rewrite refusals_app, Hev|lia|]. right. rewrite Hv4, (hs_vars _ _ Hst3). done.
Qed.

Lemma wp_read_body fuel response err s r :
  wf s -> valid err s -> handles s !! response = Some r -> h_kind r = IncomingResponse ->
  enough e T fuel s ->
  wp e T (read_body fuel response err) (body_read response err s) s.
Proof.
  intros Hs Hval Hr Hk He. unfold read_body. set (body := next_h s).
  wcall; [done|done|by eapply enter_borrow|]. intros [|] s1 _ H1; cbn [negb].
  2: { eapply wp_seq; [apply wp_fail; [apply H1|by eapply valid_vars; [|apply H1]]|].
       intros ok s' [-> Ht]. apply wp_ret. split; [rewrite (to_handles _ _ _ _ Ht); apply H1|].
       eexists. eapply failure_told; [by eapply progress_called|apply H1|reflexivity|exact Ht]. }
  pose proof (cl_handles _ _ _ _ _ H1) as Hh1. pose proof (cl_next_h _ _ _ _ _ H1) as Hn1.
  cbn in Hh1, Hn1. fold body in Hh1, Hn1.
  wcall; [apply H1|done|eapply enter_borrow; [done|done|rewrite Hh1; apply lookup_insert_eq|done]|].
  rewrite Hn1. assert (handles s !! body = None) as Hb0 by (by apply wf_fresh_handle).
  intros [|] s2 _ H2; cbn [negb];
    pose proof (cl_handles _ _ _ _ _ H2) as Hh2; pose proof (cl_next_h _ _ _ _ _ H2) as Hn2;
    cbn in Hh2, Hn2; rewrite Hn1, Hh1 in *;
    pose proof (progress_trans _ _ _ _ _ (progress_called _ _ _ _ _ H1) (progress_called _ _ _ _ _ H2)) as Hp2;
    assert (vars s2 = vars s) as Hv2 by (rewrite (cl_vars _ _ _ _ _ H2); apply H1).
  2: { eapply wp_stream_taken; [done|done|done|apply H2|exact Hp2|reflexivity|done|exact Hh2]. }
  eapply wp_seq; [apply wp_malloc, H2|]. intros [b|] s3 Ha.
  - pose proof (progress_trans _ _ _ _ _ Hp2 (progress_allocated _ _ _ _ Ha)) as Hp3.
    rewrite app_nil_r in Hp3. destruct Ha as [Hst3 (-> & Hf3 & _ & Hheap3)].
    apply wp_bind. eapply wp_seq.
    { refine (wp_read_loop HA fuel (body + 1) err _ s s3 (next s2) [] (Hentry InputStream (Some body)) Hp3 _ _ _ _ _ _ _ _); try done.
      - rewrite (hs_vars _ _ Hst3). done.
      - rewrite (hs_handles _ _ Hst3), Hh2. apply lookup_insert_eq.
      - apply eq_None_not_Some. intros [k Hk']. by rewrite (progress_lookup _ _ _ _ _ Hp2 Hk') in Hf3.
      - exists None. by rewrite Hheap3, lookup_insert_eq.
      - destruct He as [He|(n & ? & ? & ?)]; [by left|right]. exists n.
        rewrite (pr_trace _ _ _ Hp3), reads_app. change (reads (_ ++ _)) with 0%nat. rewrite Nat.add_0_r. done. }
    intros [[ok b] len] s4 (Hh4 & Hn4 & Hd). apply wp_ret.
    refine (wp_finish_read response err _ body s s4 ok b len Hs eq_refl eq_refl _ _ Hd).
    + rewrite Hh4, (hs_handles _ _ Hst3). exact Hh2.
    + rewrite Hn4, (hs_next_h _ _ Hst3). lia.
  - destruct Ha as [Hst3 [Hheap3 Hd3]]. apply wp_bind, wp_ret.
    apply (wp_no_buffer response err s s2 s3 _ body Hs eq_refl Hp2); try done. lia.
Qed.
End ReadBody.
