(* ===== verification/WasmfnSpec.v ===== *)
(** What the HTTP client promises its callers, for every host: the exchange it
    conducts when it succeeds, the resources it leaves, and what it reports when
    it fails. *)
From S2P Require Import Prelude BindTypes CString Machine MachineLogic Wasmfn WasmfnMem WasmfnSend WasmfnBody WasmfnHeaders WasmfnRead WasmfnReadBody.
From Stdlib Require Import Strings.Byte.

(** ** The exchange *)

(** What the host answered over a successful exchange. *)
Record exchange := Exchange {
  x_status : Z;
  x_entries : list (bytes * bytes);
  x_chunks : list bytes;
  x_end : wasi_io_streams_stream_error_t;
}.

(** The body that is sent, if any. *)
Definition sent_body (req : wasmfn_http_request) : option bytes :=
  match rq_body req with
  | Some bs => if rq_body_len req =? 0 then None else Some (take (Z.to_nat (rq_body_len req)) bs)
  | None => None
  end.

Definition set_method_events (r : Z) (name : option bytes) : list event :=
  [Ev (SetMethod r (Method (method_parts name).1 (method_parts name).2)) true].
Definition set_url_events (r tag : Z) (authority path : bytes) : list event :=
  [Ev (SetScheme r (Some (Scheme tag None))) true; Ev (SetAuthority r (Some authority)) true;
   Ev (SetPathWithQuery r (Some path)) true].

(** From the status on, for the next handle [h]. *)
Definition receive_events (response h : Z) (x : exchange) : list event :=
  [Ev (IncomingResponseStatus response) (x_status x)] ++ header_events response h (x_entries x) ++
  read_body_events response (h + 1) (x_chunks x) (x_end x) ++ [Ev (Drop IncomingResponse response) tt].

(** From the future on. *)
Definition await_events (future h : Z) (x : exchange) : list event :=
  [Ev (FutureSubscribe future) tt; Ev (PollableBlock h) tt; Ev (Drop Pollable h) tt;
   Ev (FutureGet future) (Some (ROk (ROk tt))); Ev (Drop FutureIncomingResponse future) tt] ++
  receive_events (h + 1) (h + 2) x.

(** From handing the request over on. *)
Definition perform_events (request h : Z) (req : wasmfn_http_request) (x : exchange) : list event :=
  match sent_body req with
  | None => [Ev (OutgoingHandlerHandle request) (ROk tt)] ++ await_events h (h + 1) x
  | Some bs =>
      [Ev (OutgoingRequestBody request) true; Ev (OutgoingHandlerHandle request) (ROk tt)] ++
      body_events h (h + 2) bs ++ await_events (h + 1) (h + 3) x
  end.

(** The whole exchange, for the next handle [h]: the headers are [h], the
    request [h + 1], and so on in the order of creation. *)
Definition exchange_events (h : Z) (req : wasmfn_http_request) (tag : Z) (authority path : bytes)
    (x : exchange) : list event :=
  [Ev ConstructorFields tt] ++ append_events h (default [] (header_pairs <$> rq_headers req)) ++
  [Ev (ConstructorOutgoingRequest h) tt] ++ set_method_events (h + 1) (rq_method req) ++
  set_url_events (h + 1) tag authority path ++ perform_events (h + 1) (h + 2) req x.

(** The response filled in: the host's status, its headers as C strings, and its
    chunks in one NUL-terminated buffer. *)
Definition response_is (x : exchange) (s s' : cst) (rsp : wasmfn_http_response) : Prop :=
  rs_status rsp = x_status x /\
  (exists hb, rs_headers rsp = Some hb /\ header_array s s' hb (x_entries x)) /\
  (exists b, rs_body rsp = Some b /\ heap s !! b = None /\
     heap s' !! b = Some (Bytes (map Some (concat (x_chunks x) ++ [NUL])))) /\
  rs_body_len rsp = Z.of_nat (length (concat (x_chunks x))).

Lemma header_array_mono evs evs' s0 s s1 s2 b es :
  progress evs s0 s -> progress evs' s1 s2 -> header_array s s1 b es -> header_array s0 s2 b es.
Proof.
  intros [] [] (ps & Hb & H). exists ps. split; [by eapply lookup_weaken|].
  eapply Forall2_impl; [exact H|]. intros [p|] txt; simpl; [|lia]. intros. by eapply lookup_weaken.
Qed.

Lemma response_is_mono evs evs' s0 s s1 s2 x rsp :
  progress evs s0 s -> progress evs' s1 s2 -> response_is x s s1 rsp -> response_is x s0 s2 rsp.
Proof.
  intros H1 H2 (? & (hb & ? & ?) & (b & ? & Hb & ?) & ?). split; [done|]. split; [|split; [|done]].
  - exists hb. split; [done|]. by eapply header_array_mono.
  - exists b. split; [done|]. split; [|by eapply progress_lookup].
    apply eq_None_not_Some. intros [k Hk]. by rewrite (progress_lookup _ _ _ _ _ H1 Hk) in Hb.
Qed.

(** ** The parts of [send_through_host] *)

Section Spec.
Context {e : env} {T : trap -> Prop} (HA : T Aborted) (Hhost : typed_host e).

(** A call that may be refused, and the report when it is. *)
Lemma wp_refused {A} err m evs s s1 (k : bool -> A) :
  progress evs s s1 -> vars s1 = vars s -> refusals evs = [m] -> valid err s ->
  wp e T (b ← fail err m; mret (k b)) (fun r s' => r = k false /\ failure err evs s s') s1.
Proof.
  intros Hp Hv Hr Hval. eapply wp_seq; [apply wp_fail; [apply Hp|by eapply valid_vars]|].
  intros ok s' [-> Ht]. apply wp_ret. split; [done|]. by eapply failure_told.
Qed.

Lemma wp_refused_code {A} err c evs s s1 (k : bool -> A) :
  progress evs s s1 -> vars s1 = vars s -> refusals evs = [code_text c] -> valid err s -> typed_code c ->
  wp e T (msg ← describe_error_code c; b ← fail_with err msg; mret (k b))
    (fun r s' => r = k false /\ failure err evs s s') s1.
Proof.
  intros Hp Hv Hr Hval Hc. eapply wp_seq; [apply wp_describe_error_code; [apply Hp|done]|]. intros p s2 Hw.
  eapply wp_seq; [eapply wp_fail_with; [exact Hw|by eapply valid_vars]|].
  intros ok s' [-> Ht]. apply wp_ret. split; [done|]. by eapply failure_told.
Qed.

Definition received (x : exchange) (evs : list event) (t : gmap Z hentry) (s : cst)
    (rsp : wasmfn_http_response) (s' : cst) : Prop :=
  se_tag (x_end x) = WASI_IO_STREAMS_STREAM_ERROR_CLOSED /\ success evs t s s' /\ response_is x s s' rsp.

Lemma wp_receive fuel response rsp err s r :
  wf s -> valid err s -> handles s !! response = Some r -> h_kind r = IncomingResponse ->
  childless response (handles s) -> enough e T fuel s ->
  wp e T (receive fuel response rsp err) (fun res s' =>
    if (res.1 : bool)
    then exists x, received x (receive_events response (next_h s) x) (delete response (handles s)) s res.2 s'
    else exists evs, failure err evs s s') s.
Proof.
  intros Hs Hval Hr Hk Hc He. unfold receive.
  wcall; [done|done|by eapply enter_borrow|]. intros status s1 _ H1. cbn in status.
  pose proof (cl_handles _ _ _ _ _ H1) as Hh1. pose proof (cl_next_h _ _ _ _ _ H1) as Hn1. cbn in Hh1, Hn1.
  pose proof (success_called _ _ _ _ _ H1 eq_refl) as S1. rewrite Hh1 in S1.
  eapply wp_seq; [eapply (wp_response_headers HA); [apply H1|by rewrite Hh1|done]|].
  intros hs s2 (entries & S2 & Hn2 & Hhs). rewrite Hn1 in S2, Hn2. rewrite Hh1 in S2.
  pose proof (success_trans _ _ _ _ _ _ _ S1 S2) as S12.
  destruct hs as [hb|].
  2: { eapply wp_seq; [apply wp_fail; [apply S2|eapply valid_vars; [done|apply S12]]|].
       intros ok s3 [-> Ht]. apply wp_ret. eexists.
       eapply failure_oom; [apply S12|apply S12|apply S12| |exact Ht].
       pose proof (pr_denied _ _ _ (su_progress _ _ _ _ S1)). lia. }
  destruct Hhs as [Hhb Hharr].
  eapply wp_seq.
  { eapply (wp_read_body HA); [apply S2|eapply valid_vars; [done|apply S12]| |done|].
    - by rewrite (su_handles _ _ _ _ S12).
    - destruct He as [He|(n & ? & ? & ?)]; [by left|right]. exists n.
      rewrite (pr_trace _ _ _ (su_progress _ _ _ _ S12)), reads_app.
      change (reads ([_] ++ header_events _ _ _)) with 0%nat. by rewrite Nat.add_0_r. }
  intros got s3 [Hh3 Hgot]. rewrite (su_handles _ _ _ _ S12) in Hh3.
  assert (wf s3) as Hs3.
  { destruct got as [[b len]|]; [destruct Hgot as (? & ? & ? & S & _); apply S|].
    destruct Hgot as [evs [Hp _]]. apply Hp. }
  wcall; [done|done| |].
  { eapply enter_own; [done|done|by rewrite Hh3|done|by rewrite Hh3]. }
  intros [] s4 _ H4. pose proof (cl_handles _ _ _ _ _ H4) as Hh4. cbn in Hh4. rewrite Hh3 in Hh4.
  destruct got as [[b len]|].
  - destruct Hgot as (chunks & serr & Hse & S3 & Hn3 & Hb0 & Hb3 & ->). apply wp_ret. cbn [fst snd].
    rewrite Hn2, (su_handles _ _ _ _ S12) in S3.
    pose proof (success_trans _ _ _ _ _ _ _ S12 S3) as S123.
    pose proof (success_trans _ _ _ _ _ _ _ S123 (success_called _ _ _ _ _ H4 eq_refl)) as S4.
    rewrite Hh4 in S4. exists (Exchange status entries chunks serr). split; [done|]. split.
    + unfold receive_events. cbn [x_status x_entries x_chunks x_end]. rewrite <- !app_assoc in S4. exact S4.
    + split; [done|]. split; [|split; [|done]].
      * exists hb. split; [done|]. eapply header_array_mono; [apply S1| |exact Hharr].
        eapply progress_trans; [apply S3|by eapply progress_called].
      * exists b. split; [done|]. split; [|by rewrite (cl_heap _ _ _ _ _ H4)].
        apply eq_None_not_Some. intros [k Hk'].
        by rewrite (progress_lookup _ _ _ _ _ (su_progress _ _ _ _ S12) Hk') in Hb0.
  - destruct Hgot as [evs Hf]. apply wp_ret. cbn. eexists.
    eapply failure_pre; [apply S12|apply S12|apply S12|].
    eapply failure_post; [exact Hf|by eapply progress_called|apply H4|done].
Qed.

Lemma enough_progress evs fuel s s' :
  progress evs s s' -> reads evs = O -> enough e T fuel s -> enough e T fuel s'.
Proof.
  intros Hp Hr [He|(n & ? & ? & ?)]; [by left|right]. exists n.
  rewrite (pr_trace _ _ _ Hp), reads_app, Hr, Nat.add_0_r. done.
Qed.

(** Waiting for the answer to be there. *)
Lemma wp_wait {B} future s r (k : C B) Q :
  wf s -> handles s !! future = Some r -> h_kind r = FutureIncomingResponse ->
  (forall s', success [Ev (FutureSubscribe future) tt; Ev (PollableBlock (next_h s)) tt; Ev (Drop Pollable (next_h s)) tt]
                (handles s) s s' -> next_h s' = next_h s + 1 -> wp e T k Q s') ->
  wp e T ('(_, ready) ← call (FutureSubscribe future);
          _ ← call (PollableBlock ready);
          _ ← call (Drop Pollable ready); k) Q s.
Proof.
  intros Hs Hr Hk HQ. set (h := next_h s) in *.
  assert (handles s !! h = None) as Hf0 by (by apply wf_fresh_handle).
  assert (future < h) as Hlt by (by eapply wf_handle).
  wcall; [done|done|by eapply enter_borrow|]. intros [] s1 _ H1.
  pose proof (cl_handles _ _ _ _ _ H1) as Hh1. pose proof (cl_next_h _ _ _ _ _ H1) as Hn1.
  cbn in Hh1, Hn1. fold h in Hh1, Hn1.
  pose proof (success_called _ _ _ _ _ H1 eq_refl) as S1.
  wcall; [apply H1|done|eapply enter_borrow; [done|done|rewrite Hh1; apply lookup_insert_eq|done]|].
  intros [] s2 _ H2. pose proof (cl_handles _ _ _ _ _ H2) as Hh2. pose proof (cl_next_h _ _ _ _ _ H2) as Hn2.
  cbn in Hh2, Hn2. rewrite Hh1 in Hh2.
  pose proof (success_trans _ _ _ _ _ _ _ S1 (success_called _ _ _ _ _ H2 eq_refl)) as S2.
  wcall; [apply H2|done|eapply (enter_last _ s); try done; intros [= E]; lia|].
  intros [] s3 _ H3. pose proof (cl_handles _ _ _ _ _ H3) as Hh3. pose proof (cl_next_h _ _ _ _ _ H3) as Hn3.
  cbn in Hh3, Hn3.
  pose proof (success_trans _ _ _ _ _ _ _ S2 (success_called _ _ _ _ _ H3 eq_refl)) as S3. cbn [app] in S3.
  apply HQ; [by rewrite Hh3 in S3|lia].
Qed.

(** The response the future had, from a function that began in [s]. *)
Lemma wp_got_response fuel evs t response rsp err s s1 :
  success evs (<[response := Hentry IncomingResponse None]> t) s s1 -> valid err s ->
  t !! response = None -> childless response t -> enough e T fuel s1 ->
  wp e T (receive fuel response rsp err) (fun res s' =>
    if (res.1 : bool)
    then exists x, received x (evs ++ receive_events response (next_h s1) x) t s res.2 s'
    else exists evs, failure err evs s s') s1.
Proof.
  intros S Hval Hf Hc He. pose proof (su_handles _ _ _ _ S) as Hh.
  eapply wp_mono; [eapply wp_receive; [apply S|eapply valid_vars; [done|apply S]| |..]|].
  - rewrite Hh. apply lookup_insert_eq.
  - done.
  - rewrite Hh. by apply childless_insert.
  - done.
  - intros [ok rsp'] s' Hres. cbn [fst snd] in *. destruct ok.
    + destruct Hres as (y & Hend & S' & Hresp). exists y. rewrite Hh, delete_insert_id in S' by done.
      split; [done|]. split; [by eapply success_trans|].
      eapply response_is_mono; [apply S|apply progress_refl, S'|exact Hresp].
    + destruct Hres as [evs' Hfa]. eexists. eapply failure_pre; [apply S|apply S|apply S|exact Hfa].
Qed.

Lemma wp_await fuel future rsp err s r :
  wf s -> valid err s -> handles s !! future = Some r -> h_kind r = FutureIncomingResponse ->
  childless future (handles s) -> enough e T fuel s ->
  wp e T (await_response fuel future rsp err) (fun res s' =>
    if (res.1 : bool)
    then exists x, received x (await_events future (next_h s) x) (delete future (handles s)) s res.2 s'
    else exists evs, failure err evs s s') s.
Proof.
  intros Hs Hval Hr Hk Hc He. unfold await_response. set (h := next_h s).
  assert (forall k, h <= k -> handles s !! k = None) as Hfr.
  { intros k Hle. apply eq_None_not_Some. intros [r' Hr']. apply (wf_handle _ Hs) in Hr'. unfold h in Hle. lia. }
  eapply wp_wait; [done..|]. fold h. intros s3 S3 Hn3. pose proof (su_handles _ _ _ _ S3) as Hh3.
  wcall; [apply S3|done|eapply enter_borrow; [done|done|by rewrite Hh3|done]|].
  intros got s4 Ha H4. cbn in got. rewrite Hn3.
  pose proof (progress_trans _ _ _ _ _ (su_progress _ _ _ _ S3) (progress_called _ _ _ _ _ H4)) as Hp4. cbn [app] in Hp4.
  assert (vars s4 = vars s) as Hv4 by (rewrite (cl_vars _ _ _ _ _ H4); apply S3).
  destruct got as [got|].
  2: { eapply wp_mono; [eapply wp_refused; [exact Hp4|exact Hv4|reflexivity|done]|].
       intros res s' [-> Hf]. by eexists. }
  pose proof (cl_handles _ _ _ _ _ H4) as Hh4. rewrite Hh3, Hn3 in Hh4.
  assert (handles s4 !! future = Some r /\ childless future (handles s4)) as [Hl4 Hc4].
  { pose proof (wf_handle _ Hs _ _ Hr). rewrite Hh4. destruct got as [[[]|code]|[]]; cbn; try done.
    rewrite lookup_insert_ne by (unfold h; lia). split; [done|]. by apply childless_insert. }
  wcall; [apply H4|done|by eapply enter_own|]. intros [] s5 _ H5.
  pose proof (cl_handles _ _ _ _ _ H5) as Hh5. cbn in Hh5. rewrite Hh4 in Hh5.
  pose proof (progress_trans _ _ _ _ _ Hp4 (progress_called _ _ _ _ _ H5)) as Hp5. cbn [app] in Hp5.
  assert (vars s5 = vars s) as Hv5 by (rewrite (cl_vars _ _ _ _ _ H5); done).
  destruct got as [[[]|code]|[]].
  - assert (next_h s5 = h + 2) as Hn5.
    { pose proof (cl_next_h _ _ _ _ _ H5) as E5. pose proof (cl_next_h _ _ _ _ _ H4) as E4. cbn in E4, E5. lia. }
    cbn in Hh5. rewrite delete_insert_ne in Hh5 by (pose proof (wf_handle _ Hs _ _ Hr); unfold h; lia).
    eapply wp_mono; [eapply (wp_got_response fuel _ (delete future (handles s)) (h + 1) rsp err s s5)|].
    + split; [exact Hp5|done|exact Hh5|done].
    + done.
    + apply lookup_delete_None. right. apply Hfr. lia.
    + apply childless_delete, childless_fresh; [done|unfold h; lia].
    + eapply enough_progress; [exact Hp5|done|done].
    + rewrite Hn5. intros res s' H. exact H.
  - pose proof (Hhost (trace s3) (FutureGet future)) as Hty. rewrite <- Ha in Hty.
    eapply wp_mono; [eapply wp_refused_code; [exact Hp5|done|reflexivity|done|done]|].
    intros res s' [-> Hf]. by eexists.
  - eapply wp_mono; [eapply wp_refused; [exact Hp5|done|reflexivity|done]|].
    intros res s' [-> Hf]. by eexists.
Qed.

(** ** The request *)

(** The body pointer and length describe bytes that are there. *)
Definition body_ok (req : wasmfn_http_request) : Prop :=
  forall bs, rq_body req = Some bs ->
    0 <= rq_body_len req <= Z.of_nat (length bs) /\ rq_body_len req <= 2 ^ 32 - write_chunk.

Lemma reads_write_events stream cs : reads (write_events stream cs) = O.
Proof. induction cs as [|c cs IH]; [done|]. exact IH. Qed.

(** Handing the request over, from a function that began in [s0]. *)
Lemma wp_hand_over request rsp err evs t s0 s r (k : Z -> C (bool * wasmfn_http_response)) Q :
  success evs t s0 s -> valid err s0 -> t !! request = Some r -> h_kind r = OutgoingRequest ->
  childless request t ->
  (forall s', success (evs ++ [Ev (OutgoingHandlerHandle request) (ROk tt)])
                (<[next_h s := Hentry FutureIncomingResponse None]> (delete request t)) s0 s' ->
     next_h s' = next_h s + 1 -> wp e T (k (next_h s)) Q s') ->
  (forall evs s', failure err evs s0 s' -> Q (false, rsp) s') ->
  wp e T (r ← call (OutgoingHandlerHandle request);
          let '(handled, future) := r in
          match handled with
          | RErr code => msg ← describe_error_code code; b ← fail_with err msg; mret (b, rsp)
          | ROk _ => k future
          end) Q s.
Proof.
  intros S Hval Hr Hk Hc Hok Hfail. pose proof (su_handles _ _ _ _ S) as Ht.
  wcall; [apply S|done|eapply enter_own; [done|done|by rewrite Ht|done|by rewrite Ht]|].
  intros a s1 Ha H1. cbn in a.
  pose proof (cl_handles _ _ _ _ _ H1) as Hh1. pose proof (cl_next_h _ _ _ _ _ H1) as Hn1.
  destruct a as [[]|code]; cbn in Hh1, Hn1.
  - apply Hok; [|done].
    pose proof (success_trans _ _ _ _ _ _ _ S (success_called _ _ _ _ _ H1 eq_refl)) as S1.
    by rewrite Hh1, Ht in S1.
  - pose proof (Hhost (trace s) (OutgoingHandlerHandle request)) as Hty. rewrite <- Ha in Hty.
    eapply wp_mono; [eapply wp_refused_code; [|by rewrite (cl_vars _ _ _ _ _ H1); apply S| |done|done]|].
    + eapply progress_trans; [apply S|by eapply progress_called].
    + rewrite refusals_app, (su_refusals _ _ _ _ S). done.
    + intros res s' [-> Hf]. by eapply Hfail.
Qed.

(** Waiting, from a function that began in [s0]. *)
Lemma wp_await_on fuel future rsp err evs t h s0 s :
  success evs (<[future := Hentry FutureIncomingResponse None]> t) s0 s -> valid err s0 ->
  t !! future = None -> childless future t -> next_h s = h -> enough e T fuel s ->
  wp e T (await_response fuel future rsp err) (fun res s' =>
    if (res.1 : bool)
    then exists x, received x (evs ++ await_events future h x) t s0 res.2 s'
    else exists evs, failure err evs s0 s') s.
Proof.
  intros S Hval Hf Hc Hn He. pose proof (su_handles _ _ _ _ S) as Hh.
  eapply wp_mono; [eapply wp_await; [apply S|eapply valid_vars; [done|apply S]| |..]|].
  - rewrite Hh. apply lookup_insert_eq.
  - done.
  - rewrite Hh. by apply childless_insert.
  - done.
  - intros [ok rsp'] s' H. cbn [fst snd] in *. destruct ok.
    + destruct H as (x & Hend & S' & Hresp). exists x. rewrite Hn, Hh, delete_insert_id in S' by done.
      split; [done|]. split; [by eapply success_trans|].
      eapply response_is_mono; [apply S|apply progress_refl, S'|done].
    + destruct H as [evs' H]. eexists. eapply failure_pre; [apply S|apply S|apply S|exact H].
Qed.

(** The body, then the wait for the response. *)
Lemma wp_body_and_await fuel body future bs len rsp err evs t s0 s :
  success evs (<[future := Hentry FutureIncomingResponse None]> (<[body := Hentry OutgoingBody None]> t)) s0 s ->
  valid err s0 -> t !! body = None -> t !! future = None -> body <> future ->
  childless body t -> childless future t ->
  0 <= len <= Z.of_nat (length bs) -> len <= 2 ^ 32 - write_chunk -> enough e T fuel s ->
  wp e T (written ← write_body body bs len err;
          if negb written then mret (false, rsp) else await_response fuel future rsp err) (fun res s' =>
    if (res.1 : bool)
    then exists x, received x ((evs ++ body_events body (next_h s) (take (Z.to_nat len) bs)) ++
                               await_events future (next_h s + 1) x) t s0 res.2 s'
    else exists evs, failure err evs s0 s') s.
Proof.
  intros S Hval Hb Hf Hne Hcb Hcf Hl Hmax He. pose proof (su_handles _ _ _ _ S) as Hh.
  eapply wp_seq; [eapply (wp_write_body Hhost body bs len err s (Hentry OutgoingBody None)); try done|].
  { apply S. }
  { eapply valid_vars; [done|apply S]. }
  { rewrite Hh, lookup_insert_ne by done. apply lookup_insert_eq. }
  { rewrite Hh. apply childless_insert; [|done]. by apply childless_insert. }
  intros [|] s1 H1; cbn [negb].
  2: { destruct H1 as [evs' Hfa]. apply wp_ret. eexists. eapply failure_pre; [apply S|apply S|apply S|exact Hfa]. }
  destruct H1 as [S1 Hn1]. pose proof (success_trans _ _ _ _ _ _ _ S S1) as S2.
  rewrite Hh, delete_insert_ne, delete_insert_id in S2 by done.
  eapply wp_await_on; [exact S2|done..|].
  eapply enough_progress; [apply S1| |exact He]. unfold body_events. by rewrite !reads_app, reads_write_events.
Qed.

Lemma wp_perform fuel req request rsp err s r :
  wf s -> valid err s -> handles s !! request = Some r -> h_kind r = OutgoingRequest ->
  childless request (handles s) -> enough e T fuel s -> body_ok req ->
  wp e T (perform fuel req request rsp err) (fun res s' =>
    if (res.1 : bool)
    then exists x, received x (perform_events request (next_h s) req x) (delete request (handles s)) s res.2 s'
    else exists evs, failure err evs s s') s.
Proof.
  intros Hs Hval Hr Hk Hc He Hbody. unfold perform, perform_events, sent_body. set (h := next_h s).
  assert (request < h) as Hlt by (by eapply wf_handle).
  assert (handles s !! h = None) as Hf0 by (by apply wf_fresh_handle).
  assert (forall k, h <= k -> delete request (handles s) !! k = None) as Hfr.
  { intros k Hk'. apply eq_None_not_Some. intros [r' Hr']. apply lookup_delete_Some in Hr' as [_ Hr'].
    apply (wf_handle _ Hs) in Hr'. unfold h in Hk'. lia. }
  assert (forall k, h <= k -> childless k (delete request (handles s))) as Hcf.
  { intros k Hk'. apply childless_delete, childless_fresh; done. }
  assert (success [] (handles s) s s) as S0 by (split; try done; by apply progress_refl).
  destruct (rq_body req) as [bs|] eqn:Eb; [destruct (Z.eqb_spec (rq_body_len req) 0) as [El|El]|];
    rewrite ?bool_decide_true by done; rewrite ?bool_decide_false by (by intros []); cbn [negb andb].
  2: { (* a body *)
    destruct (Hbody bs Eb) as [Hl Hmax].
    apply wp_bind. wcall; [done|done|by eapply enter_borrow|]. intros [|] s1 _ H1; cbn [negb]; apply wp_ret.
    2: { eapply wp_mono; [eapply wp_refused; [by eapply progress_called|apply H1|reflexivity|done]|].
         intros res s' [-> Hf]. by eexists. }
    pose proof (cl_handles _ _ _ _ _ H1) as Hh1. pose proof (cl_next_h _ _ _ _ _ H1) as Hn1. cbn in Hh1, Hn1.
    fold h in Hh1, Hn1. pose proof (success_called _ _ _ _ _ H1 eq_refl) as S1. rewrite Hh1 in S1.
    assert (childless request (<[h:=Hentry OutgoingBody None]> (handles s))) as Hc1 by (by apply childless_insert).
    eapply (wp_hand_over request rsp err _ _ s s1 r); [exact S1|done|rewrite lookup_insert_ne by lia; exact Hr|done|done| |].
    2: { intros evs s' Hf. by exists evs. }
    intros s2 S2 Hn2. rewrite Hn1 in S2, Hn2. rewrite delete_insert_ne in S2 by lia. rewrite Hn1.
    eapply wp_mono; [eapply (wp_body_and_await fuel h (h + 1) bs); [exact S2|done|by apply Hfr|apply Hfr; lia|lia|apply Hcf; lia..|done|done|]|].
    - eapply enough_progress; [apply S2|done|done].
    - intros [[|] rsp'] s' H; [|exact H]. destruct H as (x & Hend & S & Hresp). exists x.
      split; [done|]. split; [|done]. replace (next_h s2) with (h + 2) in S by lia.
      replace (h + 2 + 1) with (h + 3) in S by lia. rewrite <- !app_assoc in S. exact S. }
  all: apply wp_bind, wp_ret; cbn beta iota.
  all: eapply (wp_hand_over request rsp err [] _ s s r); [exact S0|done|done|done|done| |];
    [|intros evs s' Hf; by exists evs].
  all: intros s2 S2 Hn2; apply wp_bind, wp_ret; cbn [negb]; fold h in S2 |- *.
  all: eapply wp_mono; [eapply (wp_await_on fuel h rsp err _ _ (h + 1)); [exact S2|done|by apply Hfr|by apply Hcf|done|]|].
  all: try (eapply enough_progress; [apply S2|done|done]).
  all: intros res s' H; exact H.
Qed.

(** ** The setters *)

Lemma wp_set_method request m tag other s r :
  wf s -> handles s !! request = Some r -> h_kind r = OutgoingRequest ->
  m_tag m = tag -> holds_opt s (m_other m) other ->
  wp e T (set_method request m) (fun ok s' =>
    called (SetMethod request (Method tag other)) ok (handles s) s s') s.
Proof.
  intros Hs Hr Hk <- Ho. unfold set_method. eapply (wp_seq _ _ (fun o s' => o = other /\ s' = s)).
  - destruct (m_other m) as [l|], other as [bs|]; try done.
    eapply wp_seq; [by apply wp_list_bytes|]. by intros ? ? [-> ->].
  - intros ? ? [-> ->]. wcall; [done|done|by eapply enter_borrow|]. intros ok s' _ H. apply wp_ret. exact H.
Qed.

Lemma wp_set_scheme request tag s r :
  wf s -> handles s !! request = Some r -> h_kind r = OutgoingRequest ->
  wp e T (set_scheme request (Scheme tag None)) (fun ok s' =>
    called (SetScheme request (Some (Scheme tag None))) ok (handles s) s s') s.
Proof.
  intros Hs Hr Hk. apply wp_bind, wp_ret.
  wcall; [done|done|by eapply enter_borrow|]. intros ok s' _ H. apply wp_ret. exact H.
Qed.

Lemma wp_set_authority request l a s r :
  wf s -> handles s !! request = Some r -> h_kind r = OutgoingRequest -> holds s l a ->
  wp e T (set_authority request l) (fun ok s' =>
    called (SetAuthority request (Some a)) ok (handles s) s s') s.
Proof.
  intros Hs Hr Hk Hl. eapply wp_seq; [by apply wp_list_bytes|]. intros ? ? [-> ->].
  wcall; [done|done|by eapply enter_borrow|]. intros ok s' _ H. apply wp_ret. exact H.
Qed.

Lemma wp_set_path request l p s r :
  wf s -> handles s !! request = Some r -> h_kind r = OutgoingRequest -> holds s l p ->
  wp e T (set_path_with_query request l) (fun ok s' =>
    called (SetPathWithQuery request (Some p)) ok (handles s) s s') s.
Proof.
  intros Hs Hr Hk Hl. eapply wp_seq; [by apply wp_list_bytes|]. intros ? ? [-> ->].
  wcall; [done|done|by eapply enter_borrow|]. intros ok s' _ H. apply wp_ret. exact H.
Qed.

Lemma wp_not c Q s : wp e T c (fun ok s' => Q (negb ok) s') s -> wp e T (not c) Q s.
Proof. intros H. apply wp_bind. eapply wp_mono; [exact H|]. intros ok s' HQ. exact HQ. Qed.

Lemma wp_or_else c1 c2 Q s :
  wp e T c1 (fun b s' => if (b : bool) then Q true s' else wp e T c2 Q s') s -> wp e T (or_else c1 c2) Q s.
Proof. intros H. apply wp_bind. eapply wp_mono; [exact H|]. intros [|] s' HQ; exact HQ. Qed.

Lemma wp_set_url request tag a p la lp s r :
  wf s -> handles s !! request = Some r -> h_kind r = OutgoingRequest -> holds s la a -> holds s lp p ->
  wp e T (or_else (not (set_scheme request (Scheme tag None)))
            (or_else (not (set_authority request la)) (not (set_path_with_query request lp))))
    (fun refused s' =>
      if (refused : bool)
      then exists evs, progress evs s s' /\ vars s' = vars s /\ refusals evs = [lit "the host refused the URL"]
      else success (set_url_events request tag a p) (handles s) s s' /\ next_h s' = next_h s) s.
Proof.
  intros Hs Hr Hk Ha Hp.
  apply wp_or_else, wp_not. eapply wp_mono; [by eapply wp_set_scheme|]. intros ok s1 H1.
  pose proof (cl_handles _ _ _ _ _ H1) as Hh1. cbn in Hh1. destruct ok; cbn [negb].
  2: { eexists. split; [by eapply progress_called|]. split; [apply H1|done]. }
  pose proof (success_called _ _ _ _ _ H1 eq_refl) as S1.
  apply wp_or_else, wp_not. eapply wp_mono.
  { eapply wp_set_authority; [apply H1|by rewrite Hh1|done|eapply holds_weaken; [exact Ha|apply S1]]. }
  intros ok s2 H2. pose proof (cl_handles _ _ _ _ _ H2) as Hh2. cbn in Hh2.
  pose proof (progress_trans _ _ _ _ _ (su_progress _ _ _ _ S1) (progress_called _ _ _ _ _ H2)) as P2.
  destruct ok; cbn [negb].
  2: { eexists. split; [exact P2|]. split; [rewrite (cl_vars _ _ _ _ _ H2); apply S1|done]. }
  pose proof (success_trans _ _ _ _ _ _ _ S1 (success_called _ _ _ _ _ H2 eq_refl)) as S2.
  apply wp_not. eapply wp_mono.
  { eapply wp_set_path; [apply H2|by rewrite Hh2, Hh1|done|eapply holds_weaken; [exact Hp|apply S2]]. }
  intros ok s3 H3. pose proof (cl_handles _ _ _ _ _ H3) as Hh3. cbn in Hh3. destruct ok; cbn [negb].
  2: { eexists. split; [eapply progress_trans; [exact P2|by eapply progress_called]|].
       split; [rewrite (cl_vars _ _ _ _ _ H3); apply S2|done]. }
  pose proof (success_trans _ _ _ _ _ _ _ S2 (success_called _ _ _ _ _ H3 eq_refl)) as S3.
  rewrite Hh3, Hh2, Hh1 in S3. split; [exact S3|].
  rewrite (cl_next_h _ _ _ _ _ H3), (cl_next_h _ _ _ _ _ H2). apply H1.
Qed.

(** ** Sending *)

Definition send_spec (req : wasmfn_http_request) (err : option Z) (s : cst)
    (res : bool * wasmfn_http_response) (s' : cst) : Prop :=
  match url_parts (rq_url req) with
  | inl m => res.1 = false /\ told err m s s'
  | inr (tag, authority, path) =>
      if res.1
      then exists x, received x (exchange_events (next_h s) req tag authority path x) (handles s) s res.2 s'
      else exists evs, failure err evs s s'
  end.

Lemma wp_request_headers req err s :
  wf s -> valid err s ->
  wp e T (request_headers req err) (fun res s' => res.2 = next_h s /\
    if (res.1 : bool)
    then success ([Ev ConstructorFields tt] ++
                  append_events (next_h s) (default [] (header_pairs <$> rq_headers req)))
           (<[next_h s := Hentry Fields None]> (handles s)) s s' /\ next_h s' = next_h s + 1
    else exists evs, failure err evs s s') s.
Proof.
  intros Hs Hval. unfold request_headers.
  wcall; [done|done|by apply enter_none|]. intros [] s1 _ H1.
  pose proof (cl_handles _ _ _ _ _ H1) as Hh1. pose proof (cl_next_h _ _ _ _ _ H1) as Hn1. cbn in Hh1, Hn1.
  pose proof (success_called _ _ _ _ _ H1 eq_refl) as S1. rewrite Hh1 in S1.
  destruct (rq_headers req) as [hs|]; cbn [fmap option_fmap option_map default].
  - eapply wp_seq.
    { eapply wp_append_headers; [apply H1|eapply valid_vars; [done|apply H1]| |].
      - rewrite Hh1. apply lookup_insert_eq.
      - done. }
    intros ok s2 H2. apply wp_ret. split; [done|]. cbn [fst]. destruct ok.
    + destruct H2 as [S2 Hn2]. rewrite Hh1 in S2. split; [exact (success_trans _ _ _ _ _ _ _ S1 S2)|lia].
    + destruct H2 as [evs Hf]. eexists. eapply failure_pre; [apply S1|apply S1|apply S1|exact Hf].
  - apply wp_bind, wp_ret, wp_ret. split; [done|]. cbn [fst]. split; [exact S1|done].
Qed.

Lemma reads_append_events hs ps : reads (append_events hs ps) = O.
Proof. induction ps as [|[] ps IH]; [done|exact IH]. Qed.

(** Naming the method and the URL, from a function that began in [s0]. *)
Lemma wp_addressed request m tag a p la lp rsp err evs t s0 s (k : C (bool * wasmfn_http_response)) Q :
  success evs (<[request := Hentry OutgoingRequest None]> t) s0 s -> valid err s0 ->
  holds s la a -> holds s lp p ->
  (forall s', success (evs ++ set_method_events request m ++ set_url_events request tag a p)
                (<[request := Hentry OutgoingRequest None]> t) s0 s' -> next_h s' = next_h s -> wp e T k Q s') ->
  (forall evs s', failure err evs s0 s' -> Q (false, rsp) s') ->
  wp e T (method ← method_of m;
          ok ← set_method request method;
          if negb ok then b ← fail err (lit "the host refused the request method"); mret (b, rsp) else
          refused ← or_else (not (set_scheme request (Scheme tag None)))
                      (or_else (not (set_authority request la)) (not (set_path_with_query request lp)));
          if (refused : bool) then b ← fail err (lit "the host refused the URL"); mret (b, rsp) else k) Q s.
Proof.
  intros S Hval Ha Hp Hk Hfail. pose proof (su_handles _ _ _ _ S) as Hh.
  eapply wp_seq; [apply (wp_method_of HA), S|]. intros method s1 (S1 & Hn1 & Htag & Hother).
  rewrite Hh in S1. pose proof (success_trans _ _ _ _ _ _ _ S S1) as S01. rewrite app_nil_r in S01.
  eapply wp_seq.
  { eapply wp_set_method; [apply S1|rewrite (su_handles _ _ _ _ S1); apply lookup_insert_eq|done|exact Htag|exact Hother]. }
  intros ok s2 H2. pose proof (cl_handles _ _ _ _ _ H2) as Hh2. pose proof (cl_next_h _ _ _ _ _ H2) as Hn2.
  cbn in Hh2, Hn2. rewrite (su_handles _ _ _ _ S1) in Hh2.
  pose proof (progress_trans _ _ _ _ _ (su_progress _ _ _ _ S01) (progress_called _ _ _ _ _ H2)) as P2.
  assert (vars s2 = vars s0) as Hv2 by (rewrite (cl_vars _ _ _ _ _ H2); apply S01).
  destruct ok; cbn [negb].
  2: { eapply wp_mono; [eapply wp_refused; [exact P2|exact Hv2| |done]|].
       - rewrite refusals_app, (su_refusals _ _ _ _ S01). done.
       - intros res s' [-> Hf]. by eapply Hfail. }
  pose proof (success_trans _ _ _ _ _ _ _ S01 (success_called _ _ _ _ _ H2 eq_refl)) as S2. rewrite Hh2 in S2.
  assert (heap s ⊆ heap s2) as Hsub by (rewrite (cl_heap _ _ _ _ _ H2); apply S1).
  eapply wp_seq.
  { eapply wp_set_url; [apply H2|rewrite Hh2; apply lookup_insert_eq|done|..]; by eapply holds_weaken. }
  intros refused s3 H3. destruct refused.
  - destruct H3 as (evs3 & P3 & Hv3 & Hr3).
    eapply wp_mono; [eapply wp_refused; [eapply progress_trans; [apply S2|exact P3]|by rewrite Hv3| |done]|].
    + rewrite refusals_app, (su_refusals _ _ _ _ S2). exact Hr3.
    + intros res s' [-> Hf]. by eapply Hfail.
  - destruct H3 as [S3 Hn3]. rewrite Hh2 in S3. apply Hk; [|lia].
    pose proof (success_trans _ _ _ _ _ _ _ S2 S3) as S23. rewrite <- !app_assoc in S23. exact S23.
Qed.

Theorem wp_send_through_host fuel req rsp err s :
  wf s -> valid err s -> body_ok req -> enough e T fuel s ->
  wp e T (send_through_host fuel req rsp err) (send_spec req err s) s.
Proof.
  intros Hs Hval Hbody He. unfold send_through_host, send_spec. set (h := next_h s).
  assert (handles s !! h = None) as Hf0 by (by apply wf_fresh_handle).
  assert (forall k, h <= k -> childless k (handles s)) as Hch by (intros; by apply childless_fresh).
  assert (handles s !! (h + 1) = None) as Hf1.
  { apply eq_None_not_Some. intros [r Hr]. apply (wf_handle _ Hs) in Hr. unfold h in Hr. lia. }
  eapply wp_seq; [by apply (wp_split_url HA)|]. intros url s1 H1.
  destruct url as [[[sc la] lp]|], (url_parts (rq_url req)) as [m|[[tag a] p]]; try done.
  destruct H1 as (S1 & Hn1 & -> & Ha1 & Hp1).
  eapply wp_seq; [apply wp_request_headers; [apply S1|eapply valid_vars; [done|apply S1]]|].
  intros [ok headers] s2 [Eh H2]. cbn [fst snd] in *. subst headers. rewrite Hn1 in *. fold h in H2 |- *.
  destruct ok; cbn [negb].
  2: { destruct H2 as [evs Hf]. apply wp_ret. eexists. eapply failure_pre; [apply S1|apply S1|apply S1|exact Hf]. }
  destruct H2 as [S2 Hn2]. rewrite (su_handles _ _ _ _ S1) in S2.
  pose proof (success_trans _ _ _ _ _ _ _ S1 S2) as S12.
  wcall; [apply S2|done| |].
  { eapply enter_own; [done|done|rewrite (su_handles _ _ _ _ S2); apply lookup_insert_eq|done|].
    rewrite (su_handles _ _ _ _ S2). apply childless_insert; [by apply Hch|done]. }
  intros [] s3 _ H3. pose proof (cl_handles _ _ _ _ _ H3) as Hh3. pose proof (cl_next_h _ _ _ _ _ H3) as Hn3.
  cbn in Hh3, Hn3. rewrite (su_handles _ _ _ _ S2), delete_insert_id, Hn2 in Hh3 by done.
  pose proof (success_trans _ _ _ _ _ _ _ S12 (success_called _ _ _ _ _ H3 eq_refl)) as S3. rewrite Hh3 in S3.
  rewrite Hn2 in Hn3 |- *.
  assert (heap s1 ⊆ heap s3) as Hsub by (rewrite (cl_heap _ _ _ _ _ H3); apply S2).
  eapply wp_addressed; [exact S3|done|by eapply holds_weaken|by eapply holds_weaken| |].
  2: { intros evs s' Hf. by exists evs. }
  intros s4 S4 Hn4. eapply wp_mono.
  { eapply (wp_perform fuel req (h + 1) rsp err s4); [apply S4|eapply valid_vars; [done|apply S4]| | | | |done].
    - rewrite (su_handles _ _ _ _ S4). apply lookup_insert_eq.
    - done.
    - rewrite (su_handles _ _ _ _ S4). apply childless_insert; [apply Hch; lia|done].
    - eapply enough_progress; [apply S4| |exact He]. by rewrite !reads_app, reads_append_events. }
  intros [[|] rsp'] s5 H5; cbn [fst snd] in *.
  - destruct H5 as (x & Hend & S5 & Hresp). exists x.
    rewrite (su_handles _ _ _ _ S4), delete_insert_id in S5 by done. replace (next_h s4) with (h + 2) in S5 by lia.
    split; [done|]. split.
    + pose proof (success_trans _ _ _ _ _ _ _ S4 S5) as S45. rewrite <- !app_assoc in S45. exact S45.
    + eapply response_is_mono; [apply S4|apply progress_refl, S5|exact Hresp].
  - destruct H5 as [evs Hf]. eexists. eapply failure_pre; [apply S4|apply S4|apply S4|exact Hf].
Qed.
End Spec.
