(* ===== verification/WasmfnText.v ===== *)
(** Reading a response: header lookup and the trimmed text of a 200. *)
From S2P Require Import Prelude BindTypes CString Machine MachineLogic Wasmfn WasmfnMem WasmfnSend WasmfnHeaders WasmfnRead WasmfnReadBody WasmfnSpec.
From Stdlib Require Import Strings.Byte.

(** ** Header lookup *)

(** The value of the first header of that name, whatever its case. *)
Fixpoint first_value (entries : list (bytes * bytes)) (name : bytes) : option bytes :=
  match entries with
  | [] => None
  | (n, v) :: entries =>
      if strcasecmp_eq (until_nul n) name then Some (until_nul v) else first_value entries name
  end.

Section Text.
Context {e : env} {T : trap -> Prop}.

Lemma wp_c_str b off s txt r :
  heap s !! b = Some (Bytes r) -> 0 <= off -> scan (drop (Z.to_nat off) r) = Ok txt ->
  wp e T (c_str b off) (fun t s' => t = txt /\ s' = s) s.
Proof.
  intros Hb Ho Hr. unfold wp, c_str, get. rewrite Hb. destruct (Z.leb_spec 0 off); [|lia].
  by rewrite Hr.
Qed.

Lemma wp_c_string b txt s :
  heap s !! b = Some (c_string txt) -> NUL ∉ txt ->
  wp e T (c_str b 0) (fun t s' => t = txt /\ s' = s) s.
Proof.
  intros Hb Hn. eapply wp_c_str; [exact Hb|lia|]. rewrite drop_0. by apply scan_c_string.
Qed.

(** The strings all there, from index [i] on. *)
Lemma wp_find_header fuel hb entries name pre ps s :
  heap s !! hb = Some (Ptrs (pre ++ ps ++ [None])) ->
  Forall2 (fun p txt => exists b, p = Some b /\ heap s !! b = Some (c_string txt)) ps
    (map until_nul (flat entries)) ->
  (length entries < fuel)%nat ->
  wp e T (find_header fuel hb (Z.of_nat (length pre)) name) (fun r s' => s' = s /\
    match r, first_value entries name with
    | Some b, Some v => heap s !! b = Some (c_string v)
    | None, None => True
    | _, _ => False
    end) s.
Proof.
  revert pre ps fuel. induction entries as [|[n v] entries IH]; intros pre ps fuel Hh Hps Hf;
    (destruct fuel as [|fuel]; [simpl in Hf; lia|]); cbn [find_header].
  - inversion Hps; subst. eapply wp_seq.
    { eapply wp_ptr_at; [exact Hh|lia|]. rewrite Nat2Z.id. cbn [app].
      rewrite lookup_app_r by lia. by rewrite Nat.sub_diag. }
    intros ? ? [-> ->]. by apply wp_ret.
  - change (map until_nul (flat ((n, v) :: entries)))
      with (until_nul n :: until_nul v :: map until_nul (flat entries)) in Hps.
    inversion Hps as [|p ? ps1 ? Hp Hps1]; subst. inversion Hps1 as [|q ? ps2 ? Hq Hps2]; subst.
    destruct Hp as (nb & -> & Hn). destruct Hq as (vb & -> & Hv).
    cbn [app] in Hh.
    eapply wp_seq.
    { eapply wp_ptr_at; [exact Hh|lia|]. rewrite Nat2Z.id, lookup_app_r, Nat.sub_diag by lia. done. }
    intros ? ? [-> ->]. eapply wp_seq.
    { eapply wp_ptr_at; [exact Hh|lia|]. rewrite lookup_app_r by lia.
      by replace (Z.to_nat (Z.of_nat (length pre) + 1) - length pre)%nat with 1%nat by lia. }
    intros ? ? [-> ->]. eapply wp_seq; [apply wp_c_string; [exact Hn|apply until_nul_no_nul]|].
    intros ? ? [-> ->]. cbn [first_value]. destruct (strcasecmp_eq (until_nul n) name).
    + by apply wp_ret.
    + replace (Z.of_nat (length pre) + 2) with (Z.of_nat (length (pre ++ [Some nb; Some vb])))
        by (rewrite length_app; simpl; lia).
      eapply (IH _ ps2); [|done|simpl in Hf; lia]. rewrite Hh, <- app_assoc. done.
Qed.

Lemma header_array_strings s s' hb entries :
  header_array s s' hb entries -> denied s' = denied s ->
  exists ps, heap s' !! hb = Some (Ptrs (ps ++ [None])) /\
    Forall2 (fun p txt => exists b, p = Some b /\ heap s' !! b = Some (c_string txt)) ps
      (map until_nul (flat entries)).
Proof.
  intros (ps & Hh & Hps) Hd. exists ps. split; [done|]. eapply Forall2_impl; [exact Hps|].
  intros [b|] txt; simpl; [by eauto|lia].
Qed.

(** ** Trimming *)

Fixpoint drop_spaces (bs : bytes) : bytes :=
  match bs with b :: bs' => if is_space b then drop_spaces bs' else bs | [] => [] end.
Definition trim (bs : bytes) : bytes := rev (drop_spaces (rev (drop_spaces bs))).

Lemma wp_skip_front fuel b body rest text s :
  heap s !! b = Some (Bytes (map Some body ++ rest)) ->
  0 <= text <= Z.of_nat (length body) -> (Z.to_nat (Z.of_nat (length body) - text) < fuel)%nat ->
  wp e T (skip_front fuel b text (Z.of_nat (length body))) (fun t s' => s' = s /\
    text <= t <= Z.of_nat (length body) /\
    drop (Z.to_nat t) body = drop_spaces (drop (Z.to_nat text) body)) s.
Proof.
  intros Hb. revert text. induction fuel as [|fuel IH]; intros text Ht Hf; [lia|]. cbn [skip_front].
  destruct (Z.ltb_spec text (Z.of_nat (length body))) as [Hlt|Hge].
  2: { apply wp_ret. split_and!; [done|lia|lia|]. by rewrite drop_ge by lia. }
  destruct (lookup_lt_is_Some_2 body (Z.to_nat text)) as [c Hc]; [lia|].
  pose proof (drop_S _ _ _ Hc) as Hd.
  eapply wp_seq.
  { eapply (wp_read b text 1 _ [c]); [exact Hb|lia|lia|rewrite length_app, length_map; lia|].
    rewrite drop_app_le, skipn_map by (rewrite length_map; lia).
    rewrite Hd. done. }
  intros ? ? [-> ->]. cbn [forallb andb]. rewrite Hd. cbn [drop_spaces].
  destruct (is_space c); cbn [andb].
  - eapply wp_mono; [apply IH; lia|]. intros t s' (-> & H & E). split_and!; [done|lia|lia|].
    rewrite E. do 2 f_equal. lia.
  - apply wp_ret. split_and!; [done|lia|lia|done].
Qed.

Lemma wp_skip_back fuel b body rest text stop_at s :
  heap s !! b = Some (Bytes (map Some body ++ rest)) ->
  0 <= text <= stop_at -> stop_at <= Z.of_nat (length body) -> (Z.to_nat (stop_at - text) < fuel)%nat ->
  wp e T (skip_back fuel b text stop_at) (fun t s' => s' = s /\ text <= t <= stop_at /\
    drop (Z.to_nat text) (take (Z.to_nat t) body)
    = rev (drop_spaces (rev (drop (Z.to_nat text) (take (Z.to_nat stop_at) body))))) s.
Proof.
  intros Hb. revert stop_at. induction fuel as [|fuel IH]; intros n Ht Hn Hf; [lia|]. cbn [skip_back].
  destruct (Z.ltb_spec text n) as [Hlt|Hge].
  2: { apply wp_ret. split_and!; [done|lia|lia|]. by rewrite drop_ge by (rewrite length_take; lia). }
  destruct (lookup_lt_is_Some_2 body (Z.to_nat (n - 1))) as [c Hc]; [lia|].
  assert (take (Z.to_nat n) body = take (Z.to_nat (n - 1)) body ++ [c]) as Htake.
  { replace (Z.to_nat n) with (S (Z.to_nat (n - 1))) by lia. by apply take_S_r. }
  eapply wp_seq.
  { eapply (wp_read b (n - 1) 1 _ [c]); [exact Hb|lia|lia|rewrite length_app, length_map; lia|].
    rewrite drop_app_le, skipn_map by (rewrite length_map; lia).
    rewrite (drop_S _ _ _ Hc). done. }
  intros ? ? [-> ->]. cbn [forallb andb].
  assert (rev (drop (Z.to_nat text) (take (Z.to_nat n) body))
          = c :: rev (drop (Z.to_nat text) (take (Z.to_nat (n - 1)) body))) as Hrev.
  { rewrite Htake, drop_app_le by (rewrite length_take; lia). by rewrite rev_app_distr. }
  rewrite Hrev. cbn [drop_spaces]. destruct (is_space c); cbn [andb].
  - eapply wp_mono; [apply IH; lia|]. intros t s' (-> & H & E). split_and!; [done|lia|lia|done].
  - apply wp_ret. split_and!; [done|lia|lia|]. rewrite <- Hrev. by rewrite rev_involutive.
Qed.

(** The two loops and the terminator, on a NUL-terminated body. *)
Lemma wp_trim b body s :
  wf s -> heap s !! b = Some (Bytes (map Some (body ++ [NUL]))) ->
  wp e T (let len := Z.of_nat (length body) in
          text ← skip_front (S (Z.to_nat len)) b 0 len;
          last ← skip_back (S (Z.to_nat len)) b text len;
          _ ← put b last [NUL];
          mret (Some (b, text)))
    (fun r s' => heap_step s s' /\ exists text, r = Some (b, text) /\ 0 <= text /\
       (forall b', b' <> b -> heap s' !! b' = heap s !! b') /\
       exists cs, heap s' !! b = Some (Bytes cs) /\
         scan (drop (Z.to_nat text) cs) = Ok (until_nul (trim body))) s.
Proof.
  intros Hs Hb. rewrite map_app in Hb. cbn zeta.
  eapply wp_seq; [eapply wp_skip_front; [exact Hb|lia|lia]|]. intros text ? (-> & Ht & Hfront).
  eapply wp_seq; [eapply wp_skip_back; [exact Hb|lia|lia|lia]|]. intros last ? (-> & Hl & Hback).
  eapply wp_seq; [eapply wp_put; [done|exact Hb|lia|rewrite length_app, length_map; simpl; lia]|].
  intros [] s' [Hst Hh]. apply wp_ret. split; [done|]. exists text. split; [done|]. split; [lia|]. split.
  { intros b' Hne. by rewrite Hh, lookup_insert_ne. }
  eexists. split; [rewrite Hh; apply lookup_insert_eq|].
  rewrite take_app_le, firstn_map by (rewrite length_map; lia).
  rewrite drop_app_le by (rewrite length_map, length_take; lia).
  rewrite skipn_map. cbn [map app]. rewrite scan_until_nul. f_equal. f_equal.
  rewrite Hback. unfold trim. rewrite Nat2Z.id, firstn_all, Hfront. done.
Qed.
End Text.

(** ** The text of a 200 *)

(** [*err], when there is one, is NULL or a C string. *)
Definition readable (err : option Z) (s : cst) : Prop :=
  forall a, err = Some a -> exists v, vars s !! a = Some v /\
    forall b, v = Some b -> exists txt, heap s !! b = Some (c_string txt).

Lemma readable_valid err s : readable err s -> valid err s.
Proof. intros H a Ha. destruct (H a Ha) as (v & -> & _). done. Qed.

Lemma readable_reported err m s s' : reported err m s s' -> readable err s'.
Proof.
  intros H a ->. destruct H as (v & Hv & _ & Hb). exists v. rewrite Hv, lookup_insert_eq.
  split; [done|]. intros b Eb. destruct (Hb b Eb) as (_ & txt & ? & _). by exists txt.
Qed.

Lemma readable_vars err evs s s' : readable err s -> progress evs s s' -> vars s' = vars s -> readable err s'.
Proof.
  intros H Hp Hv a Ha. destruct (H a Ha) as (v & ? & Hb). exists v. rewrite Hv. split; [done|].
  intros b Eb. destruct (Hb b Eb) as [txt Ht]. exists txt. by eapply progress_lookup.
Qed.

Lemma readable_failure err evs s s' : readable err s -> failure err evs s s' -> readable err s'.
Proof.
  intros H [Hp [(m & _ & Hr)|(_ & _ & [Hr|Hr])]];
    [by eapply readable_reported|by eapply readable_reported|by eapply readable_vars].
Qed.

(** The request [wasmfn_http_get_text] sends, and its message for a status
    other than 200. *)
Definition get_request (url : option bytes) : wasmfn_http_request := HttpRequest None url None None 0.
Definition status_text (url : option bytes) (status : Z) : bytes :=
  lit "GET " ++ arg_s url ++ lit ": status " ++ fmt_d status.

(** What [wasmfn_http_get_text] leaves. *)
Definition text_spec (url : option bytes) (err : option Z) (s : cst) (r : option (Z * Z)) (s' : cst) : Prop :=
  (exists evs, progress evs s s') /\
  (readable err s -> readable err s') /\
  match r with
  | Some (b, off) => exists tag a p x,
      url_parts url = inr (tag, a, p) /\ x_status x = 200 /\ 0 <= off /\
      trace s' = trace s ++ exchange_events (next_h s) (get_request url) tag a p x /\
      handles s' = handles s /\
      exists cs, heap s' !! b = Some (Bytes cs) /\
        scan (drop (Z.to_nat off) cs) = Ok (until_nul (trim (concat (x_chunks x))))
  | None =>
      (exists tag a p x, trace s' = trace s ++ exchange_events (next_h s) (get_request url) tag a p x /\
         x_status x <> 200 /\
         (reported err (status_text url (x_status x)) s s' \/ (denied s < denied s')%nat)) \/
      (exists m, url_parts url = inl m /\ reported err m s s') \/
      (exists evs, failure err evs s s')
  end.

Lemma length_fmt_d z : (length (fmt_d z) <= 21)%nat.
Proof.
  assert (forall f z, (length (digits f z) <= f)%nat) as Hd.
  { induction f as [|f IH]; intros z'; cbn [digits length]; [lia|]. destruct (z' <? 10); [simpl; lia|].
    rewrite length_app. specialize (IH (z' / 10)). simpl. lia. }
  unfold fmt_d. destruct (z <? 0); rewrite ?length_app;
    [specialize (Hd 20%nat (- z))|specialize (Hd 20%nat z)]; change (length (lit "-")) with 1%nat; lia.
Qed.

Section GetText.
Context {e : env} {T : trap -> Prop}.

(** The message of an unexpected status: [*err] is it unless memory ran out. *)
Lemma wp_status_message err m s s0 evs :
  valid err s0 -> progress evs s0 s -> vars s = vars s0 -> Z.of_nat (length m) <= INT_MAX ->
  wp e T (msg ← wasmfn_sprintf m;
          _ ← match err with
              | Some p =>
                  v ← match msg with Some _ => mret msg | None => strdup (lit "unexpected status") end;
                  assign p v
              | None => mret tt
              end;
          mret (None : option (Z * Z)))
    (fun r s' => r = None /\ progress [] s s' /\ readable err s' /\
       (reported err m s0 s' \/ (denied s0 < denied s')%nat)) s.
Proof.
  intros Hv Hp Hvars Hm. pose proof (pr_denied _ _ _ Hp).
  eapply wp_seq; [apply wp_sprintf, Hp|]. intros msg s1 Hw. pose proof (worded_progress _ _ _ _ Hw) as Hpr.
  destruct err as [a|].
  - apply wp_bind. destruct msg as [b|].
    + apply wp_bind, wp_ret. eapply wp_mono; [apply (told_assign a m (Some b) s s1 Hw)|].
      * rewrite Hvars. by apply Hv.
      * done.
      * intros [] s2 Ht. apply wp_ret. split; [done|]. split; [apply Ht|].
        split; [eapply readable_reported, Ht|].
        left. by eapply reported_pre; [exact Hp| |apply Ht].
    + destruct Hw as [Hst [Hh [Hd|?]]]; [|lia].
      eapply wp_seq; [apply wp_strdup_worded, Hst|]. intros v s2 Hw2.
      pose proof (worded_progress _ _ _ _ Hw2) as Hpr2. destruct Hw2 as [Hst2 Hv2].
      eapply wp_mono; [apply wp_assign; [apply Hst2|rewrite (hs_vars _ _ Hst2), (hs_vars _ _ Hst), Hvars; by apply Hv]|].
      intros [] s3 [Hwf ->]. apply wp_ret. pose proof (hs_denied _ _ Hst2). pose proof (hs_denied _ _ Hst).
      split; [done|]. split; [|split].
      * pose proof (progress_trans _ _ _ _ _ Hpr Hpr2) as []. by split.
      * intros a' [= <-]. exists v. cbn [vars set_vars heap]. rewrite lookup_insert_eq. split; [done|].
        intros b ->. exists (lit "unexpected status"). destruct Hv2 as [_ ->]. apply lookup_insert_eq.
      * right. cbn [denied set_vars]. lia.
  - apply wp_bind, wp_ret, wp_ret. destruct Hw as [Hst _]. split; [done|]. split; [done|].
    split; [done|]. left. simpl. by rewrite (hs_vars _ _ Hst).
Qed.

Lemma wp_get_text fuel url err s :
  T Aborted -> typed_host e -> wf s -> valid err s -> Z.of_nat (length (arg_s url)) < 2 ^ 30 ->
  enough e T fuel s ->
  wp e T (wasmfn_http_get_text Wasi fuel url err) (text_spec url err s) s.
Proof.
  intros HA Hh Hs Hv Hu He. unfold wasmfn_http_get_text. fold (get_request url).
  eapply wp_seq.
  { apply (wp_send_through_host HA Hh fuel (get_request url) response_zero err s Hs Hv); [by intros ? [=]|done]. }
  intros [ok rsp] s1 H. unfold send_spec in H. cbn [rq_url get_request] in H.
  destruct (url_parts url) as [m|[[tag a] p]] eqn:Eu.
  { destruct H as [Ho Ht]. cbn [fst] in Ho. subst ok. apply wp_ret. split; [eexists; apply Ht|].
    split; [intros _; eapply readable_reported, Ht|]. right. left. exists m. split; [done|apply Ht]. }
  destruct ok; cbn [negb].
  2: { destruct H as [evs H]. apply wp_ret. split; [exists evs; apply H|].
       split; [intros; by eapply readable_failure|]. right. right. by exists evs. }
  destruct H as (x & _ & S & Hst & _ & (b & Hb & Hb0 & Hbody) & Hlen). cbn [snd] in Hst, Hb, Hlen.
  rewrite Hst. destruct (Z.eqb_spec (x_status x) 200) as [E|E]; cbn [negb].
  - rewrite Hb, Hlen. eapply wp_mono; [apply (wp_trim b (concat (x_chunks x)) s1); [apply S|done]|].
    intros r s2 (Hst2 & text & -> & Ht & Hother & cs & Hcs & Hscan).
    assert (progress (exchange_events (next_h s) (get_request url) tag a p x) s s2) as Hp2.
    { eapply progress_extend; [apply S|done|]. apply map_subseteq_spec. intros b' k Hb'.
      rewrite Hother by congruence. by eapply progress_lookup; [apply S|]. }
    split; [by eexists|]. split.
    { intros Hr. eapply readable_vars; [exact Hr|exact Hp2|]. rewrite (hs_vars _ _ Hst2). apply S. }
    exists tag, a, p, x.
    split_and!; try done.
    + rewrite (hs_trace _ _ Hst2). apply S.
    + rewrite (hs_handles _ _ Hst2). apply S.
    + by exists cs.
  - eapply wp_mono; [eapply wp_status_message; [exact Hv|apply S|apply S|]|].
    + unfold INT_MAX. rewrite !length_app.
      pose proof (length_fmt_d (x_status x)).
      change (length (lit "GET ")) with 4%nat. change (length (lit ": status ")) with 9%nat. lia.
    + intros r s2 (-> & Hp2 & Hrd & Hrep).
      split; [eexists; eapply progress_trans; [apply S|exact Hp2]|]. split; [done|].
      left. exists tag, a, p, x. split; [rewrite (pr_trace _ _ _ Hp2), app_nil_r; apply S|]. done.
Qed.
End GetText.
