(* ===== verification/BindMachine.v ===== *)
(** The join of the two levels: the calls of Machine.v's machine are what the
    adapters of function.c do. [op_of] is what the host makes of an import's core
    parameters and the memory they point into; [answer_of] is what the C sources
    make of an adapter's result. The adapter of an operation passes parameters the
    host reads as exactly that operation, and whatever the host stores, the result
    is an answer the machine's host may give, with a handle exactly when the machine
    creates a resource. *)
From S2P Require Import Prelude Machine WasmfnSend LinMem BindTypes CanonAbi BindLift BindLower Imports BindIo BindHttp BindSpec BindDrop BindFreeSpec BindFreeProps.
From Stdlib Require Import Strings.Byte.

(** ** Contents *)

Definition text_at (m : wmem) (p n : Z) : outcome bytes := read_bytes m p (Z.to_nat n).
Definition text (m : wmem) (s : function_string_t) : outcome bytes := text_at m (str_ptr s) (str_len s).

Definition opt_content {A B} (f : A -> outcome B) (o : option A) : outcome (option B) :=
  match o with Some a => b ← f a; Ok (Some b) | None => Ok None end.

Section Contents.
Variable m : wmem.

Definition method_content (c : c_method) : outcome v_method :=
  o ← opt_content (text m) (m_other c); Ok (Method (m_tag c) o).
Definition scheme_content (c : c_scheme) : outcome v_scheme :=
  o ← opt_content (text m) (sc_other c); Ok (Scheme (sc_tag c) o).

Definition dns_content (p : wasi_http_types_dns_error_payload_t function_string_t) :=
  r ← opt_content (text m) (rcode p); Ok (DnsErrorPayload r (info_code p)).
Definition tls_content (p : wasi_http_types_tls_alert_received_payload_t function_string_t) :=
  r ← opt_content (text m) (alert_message p); Ok (TlsAlertPayload (alert_id p) r).
Definition size_content (p : wasi_http_types_field_size_payload_t function_string_t) :=
  r ← opt_content (text m) (field_name p); Ok (FieldSizePayload r (field_size p)).

Definition val_content (v : error_code_val function_string_t) : outcome (error_code_val bytes) :=
  match v with
  | V_none => Ok V_none
  | V_dns_error p => q ← dns_content p; Ok (V_dns_error q)
  | V_tls_alert_received p => q ← tls_content p; Ok (V_tls_alert_received q)
  | V_http_request_body_size p => Ok (V_http_request_body_size p)
  | V_http_request_header_section_size p => Ok (V_http_request_header_section_size p)
  | V_http_request_header_size p => q ← opt_content size_content p; Ok (V_http_request_header_size q)
  | V_http_request_trailer_section_size p => Ok (V_http_request_trailer_section_size p)
  | V_http_request_trailer_size p => q ← size_content p; Ok (V_http_request_trailer_size q)
  | V_http_response_header_section_size p => Ok (V_http_response_header_section_size p)
  | V_http_response_header_size p => q ← size_content p; Ok (V_http_response_header_size q)
  | V_http_response_body_size p => Ok (V_http_response_body_size p)
  | V_http_response_trailer_section_size p => Ok (V_http_response_trailer_section_size p)
  | V_http_response_trailer_size p => q ← size_content p; Ok (V_http_response_trailer_size q)
  | V_http_response_transfer_coding p => q ← opt_content (text m) p; Ok (V_http_response_transfer_coding q)
  | V_http_response_content_coding p => q ← opt_content (text m) p; Ok (V_http_response_content_coding q)
  | V_internal_error p => q ← opt_content (text m) p; Ok (V_internal_error q)
  end.
Definition code_content (c : c_error_code) : outcome v_error_code :=
  v ← val_content (ec_val c); Ok (ErrorCode (ec_tag c) v).

(** The pairs of a [list<tuple<string, t>>] of [n] elements, [t] a string or a
    [list<u8>]. *)
Fixpoint pairs_at (t : wty) (p : Z) (n : nat) : outcome (list (bytes * bytes)) :=
  match n with
  | O => Ok []
  | S n =>
      v ← canon_load (TRecord [TString; t]) p m;
      name ← text m (as_string (field 0 v));
      value ← text m (as_string (field 1 v));
      rest ← pairs_at t (p + size (TRecord [TString; t])) n;
      Ok ((name, value) :: rest)
  end.
End Contents.

Definition lifted {A} (o : option A) : outcome A := match o with Some a => Ok a | None => Trap HostTrap end.

(** ** What the host makes of a call *)

Definition drop_kind (i : import) : option rkind :=
  match i with
  | I_wasi_http_types_fields_drop => Some Fields
  | I_wasi_http_types_outgoing_request_drop => Some OutgoingRequest
  | I_wasi_http_types_outgoing_body_drop => Some OutgoingBody
  | I_wasi_io_streams_output_stream_drop => Some OutputStream
  | I_wasi_http_types_future_incoming_response_drop => Some FutureIncomingResponse
  | I_wasi_io_poll_pollable_drop => Some Pollable
  | I_wasi_http_types_incoming_response_drop => Some IncomingResponse
  | I_wasi_http_types_incoming_body_drop => Some IncomingBody
  | I_wasi_io_streams_input_stream_drop => Some InputStream
  | I_wasi_http_types_future_trailers_drop => Some FutureTrailers
  | _ => None
  end.

(** The operation of an import with core parameters [zs], the return area left
    out. *)
Definition op_of (m : wmem) (i : import) (zs : list Z) : outcome op :=
  match i, zs with
  | I_wasi_http_types_constructor_fields, [] => Ok ConstructorFields
  | I_wasi_http_types_method_fields_append, [h; p; n; q; k] =>
      name ← text_at m p n; value ← text_at m q k; Ok (FieldsAppend h name value)
  | I_wasi_http_types_method_fields_entries, [h] => Ok (FieldsEntries h)
  | I_wasi_http_types_constructor_outgoing_request, [h] => Ok (ConstructorOutgoingRequest h)
  | I_wasi_http_types_method_outgoing_request_set_method, h :: zs =>
      v ← lifted (lift_flat method_ty zs); c ← method_content m (as_method v); Ok (SetMethod h c)
  | I_wasi_http_types_method_outgoing_request_set_scheme, h :: zs =>
      v ← lifted (lift_flat (TOption scheme_ty) zs);
      c ← opt_content (scheme_content m) (as_option as_scheme v); Ok (SetScheme h c)
  | I_wasi_http_types_method_outgoing_request_set_authority, h :: zs =>
      v ← lifted (lift_flat (TOption TString) zs);
      c ← opt_content (text m) (as_option as_string v); Ok (SetAuthority h c)
  | I_wasi_http_types_method_outgoing_request_set_path_with_query, h :: zs =>
      v ← lifted (lift_flat (TOption TString) zs);
      c ← opt_content (text m) (as_option as_string v); Ok (SetPathWithQuery h c)
  | I_wasi_http_types_method_outgoing_request_body, [h] => Ok (OutgoingRequestBody h)
  | I_wasi_http_outgoing_handler_handle, [h; 0; _] => Ok (OutgoingHandlerHandle h)
  | I_wasi_http_types_method_outgoing_body_write, [h] => Ok (OutgoingBodyWrite h)
  | I_wasi_io_streams_method_output_stream_blocking_write_and_flush, [h; p; n] =>
      bs ← text_at m p n; Ok (BlockingWriteAndFlush h bs)
  | I_wasi_http_types_static_outgoing_body_finish, [h; 0; _] => Ok (OutgoingBodyFinish h)
  | I_wasi_http_types_method_future_incoming_response_subscribe, [h] => Ok (FutureSubscribe h)
  | I_wasi_io_poll_method_pollable_block, [h] => Ok (PollableBlock h)
  | I_wasi_http_types_method_future_incoming_response_get, [h] => Ok (FutureGet h)
  | I_wasi_http_types_method_incoming_response_status, [h] => Ok (IncomingResponseStatus h)
  | I_wasi_http_types_method_incoming_response_headers, [h] => Ok (IncomingResponseHeaders h)
  | I_wasi_http_types_method_incoming_response_consume, [h] => Ok (IncomingResponseConsume h)
  | I_wasi_http_types_method_incoming_body_stream, [h] => Ok (IncomingBodyStream h)
  | I_wasi_io_streams_method_input_stream_blocking_read, [h; n] => Ok (BlockingRead h (uwrap 64 n))
  | I_wasi_http_types_static_incoming_body_finish, [h] => Ok (IncomingBodyFinish h)
  | I_function_log, [level; p; n; q; k] =>
      msg ← text_at m p n; kv ← pairs_at m TString q (Z.to_nat k); Ok (Log level msg kv)
  | i, [h] => k ← lifted (drop_kind i); Ok (Drop k h)
  | _, _ => Trap HostTrap
  end.

(** ** What the C sources make of a result *)

(** The C type of the result of an operation's adapter. *)
Definition c_ans (o : op) : Type :=
  match o with
  | ConstructorFields | ConstructorOutgoingRequest _ | FutureSubscribe _
  | IncomingResponseHeaders _ | IncomingBodyFinish _ => handle_t
  | FieldsAppend _ _ _ => result_void_header_error
  | FieldsEntries _ => wasi_http_types_list_tuple2_field_name_field_value_t
  | SetMethod _ _ | SetScheme _ _ | SetAuthority _ _ | SetPathWithQuery _ _ => bool
  | OutgoingRequestBody _ | OutgoingBodyWrite _
  | IncomingResponseConsume _ | IncomingBodyStream _ => result_own_void
  | OutgoingHandlerHandle _ => result_t handle_t c_error_code
  | OutgoingBodyFinish _ => result_t unit c_error_code
  | BlockingWriteAndFlush _ _ => result_void_stream_error
  | FutureGet _ => option (result_t (result_t handle_t c_error_code) unit)
  | IncomingResponseStatus _ => Z
  | BlockingRead _ _ => result_list_u8_stream_error
  | _ => unit
  end.

Definition list_text (m : wmem) (l : function_list_u8_t) : outcome bytes := text_at m (lu8_ptr l) (lu8_len l).

Definition handled {A} (m : wmem) (r : result_t A c_error_code) : outcome (result_t unit v_error_code) :=
  match r with ROk _ => Ok (ROk tt) | RErr c => e ← code_content m c; Ok (RErr e) end.

(** The machine's answer. *)
Definition answer_of (m : wmem) (o : op) : c_ans o -> outcome (ans o) :=
  match o with
  | FieldsAppend _ _ _ => fun r => Ok r
  | FieldsEntries _ => fun l => pairs_at m (TList TU8) (lf_ptr l) (Z.to_nat (lf_len l))
  | SetMethod _ _ | SetScheme _ _ | SetAuthority _ _ | SetPathWithQuery _ _ => fun b => Ok b
  | OutgoingRequestBody _ | OutgoingBodyWrite _
  | IncomingResponseConsume _ | IncomingBodyStream _ => fun r => Ok (negb (is_err r))
  | OutgoingHandlerHandle _ => handled m
  | OutgoingBodyFinish _ => handled m
  | BlockingWriteAndFlush _ _ => fun r => Ok r
  | FutureGet _ => opt_content (fun r =>
      match r with ROk r => x ← handled m r; Ok (ROk x) | RErr u => Ok (RErr u) end)
  | IncomingResponseStatus _ => fun z => Ok z
  | BlockingRead _ _ => fun r =>
      match r with ROk l => bs ← list_text m l; Ok (ROk bs) | RErr e => Ok (RErr e) end
  | Time | GetEntropy _ | Mbedtls _ => fun _ => Trap HostTrap
  | _ => fun _ => Ok tt
  end.

(** The handle the C sources hold then. *)
Definition result_handle {E} (r : result_t handle_t E) : option handle_t :=
  match r with ROk h => Some h | RErr _ => None end.
Definition handle_of (o : op) : c_ans o -> option handle_t :=
  match o with
  | ConstructorFields | ConstructorOutgoingRequest _ | FutureSubscribe _
  | IncomingResponseHeaders _ | IncomingBodyFinish _ => fun h => Some h
  | OutgoingRequestBody _ | OutgoingBodyWrite _
  | IncomingResponseConsume _ | IncomingBodyStream _ => result_handle
  | OutgoingHandlerHandle _ => result_handle
  | FutureGet _ => fun r => match r with Some (ROk r) => result_handle r | _ => None end
  | _ => fun _ => None
  end.

(** Where the result comes back: in a return area, by the Canonical ABI, or as
    the core result, of which [ok] are the values the import may give. *)
Inductive result_kind (A : Type) :=
  | InArea (t : wty) (f : wval -> A)
  | AsCore (ok : Z -> bool) (f : Z -> A).
Arguments InArea {A} t f.
Arguments AsCore {A} ok f.

Definition a_flag (z : Z) : bool := (z =? 0) || (z =? 1).
Definition any_core (z : Z) : bool := true.

Definition result_of (o : op) : result_kind (c_ans o) :=
  match o with
  | ConstructorFields | ConstructorOutgoingRequest _ | FutureSubscribe _
  | IncomingResponseHeaders _ | IncomingBodyFinish _ => AsCore any_core Handle
  | FieldsAppend _ _ _ => InArea header_result_ty as_header_result
  | FieldsEntries _ => InArea fields_ty as_fields
  | SetMethod _ _ | SetScheme _ _ | SetAuthority _ _ | SetPathWithQuery _ _ => AsCore a_flag (fun z => z =? 0)
  | OutgoingRequestBody _ | OutgoingBodyWrite _
  | IncomingResponseConsume _ | IncomingBodyStream _ => InArea own_result_ty as_own_result
  | OutgoingHandlerHandle _ => InArea handle_result_ty as_handle_result
  | OutgoingBodyFinish _ => InArea finish_result_ty as_finish_result
  | BlockingWriteAndFlush _ _ => InArea void_result_ty as_void_result
  | FutureGet _ => InArea future_response_ty as_future_response
  | IncomingResponseStatus _ => AsCore any_core (uwrap 16)
  | BlockingRead _ _ => InArea list_u8_result_ty as_list_u8_result
  | _ => AsCore any_core (fun _ => tt)
  end.

(** ** The adapters the C sources call *)

Section Adapters.
Context {W : Type} (call : host W).

Definition drop_own (k : rkind) : handle_t -> guest W unit :=
  match k with
  | Fields => wasi_http_types_fields_drop_own call
  | OutgoingRequest => wasi_http_types_outgoing_request_drop_own call
  | OutgoingBody => wasi_http_types_outgoing_body_drop_own call
  | OutputStream => wasi_io_streams_output_stream_drop_own call
  | FutureIncomingResponse => wasi_http_types_future_incoming_response_drop_own call
  | Pollable => wasi_io_poll_pollable_drop_own call
  | IncomingResponse => wasi_http_types_incoming_response_drop_own call
  | IncomingBody => wasi_http_types_incoming_body_drop_own call
  | InputStream => wasi_io_streams_input_stream_drop_own call
  | FutureTrailers => wasi_http_types_future_trailers_drop_own call
  end.

(** [calls m o i g]: [g] is the adapter of import [i], applied to C arguments that
    stand for [o]'s operands in memory [m]. *)
Inductive calls (m : wmem) : forall o : op, import -> guest W (c_ans o) -> Prop :=
  | c_fields :
      calls m ConstructorFields I_wasi_http_types_constructor_fields (wasi_http_types_constructor_fields call)
  | c_append h s l name value :
      text m s = Ok name -> text_at m (fv_ptr l) (fv_len l) = Ok value ->
      calls m (FieldsAppend h name value) I_wasi_http_types_method_fields_append
        (wasi_http_types_method_fields_append call (Handle h) s l)
  | c_entries h :
      calls m (FieldsEntries h) I_wasi_http_types_method_fields_entries
        (wasi_http_types_method_fields_entries call (Handle h))
  | c_request h :
      calls m (ConstructorOutgoingRequest h) I_wasi_http_types_constructor_outgoing_request
        (wasi_http_types_constructor_outgoing_request call (Handle h))
  | c_set_method h v c :
      has_type method_ty v -> method_content m (as_method v) = Ok c ->
      calls m (SetMethod h c) I_wasi_http_types_method_outgoing_request_set_method
        (wasi_http_types_method_outgoing_request_set_method call (Handle h) (as_method v))
  | c_set_scheme h v c :
      has_type scheme_ty v -> scheme_content m (as_scheme v) = Ok c ->
      calls m (SetScheme h (Some c)) I_wasi_http_types_method_outgoing_request_set_scheme
        (wasi_http_types_method_outgoing_request_set_scheme call (Handle h) (Some (as_scheme v)))
  | c_set_authority h v c :
      has_type (TOption TString) v -> opt_content (text m) (as_option as_string v) = Ok c ->
      calls m (SetAuthority h c) I_wasi_http_types_method_outgoing_request_set_authority
        (wasi_http_types_method_outgoing_request_set_authority call (Handle h) (as_option as_string v))
  | c_set_path h v c :
      has_type (TOption TString) v -> opt_content (text m) (as_option as_string v) = Ok c ->
      calls m (SetPathWithQuery h c) I_wasi_http_types_method_outgoing_request_set_path_with_query
        (wasi_http_types_method_outgoing_request_set_path_with_query call (Handle h) (as_option as_string v))
  | c_request_body h :
      calls m (OutgoingRequestBody h) I_wasi_http_types_method_outgoing_request_body
        (wasi_http_types_method_outgoing_request_body call (Handle h))
  | c_handle h :
      calls m (OutgoingHandlerHandle h) I_wasi_http_outgoing_handler_handle
        (wasi_http_outgoing_handler_handle call (Handle h) None)
  | c_body_write h :
      calls m (OutgoingBodyWrite h) I_wasi_http_types_method_outgoing_body_write
        (wasi_http_types_method_outgoing_body_write call (Handle h))
  | c_write h l bs :
      list_text m l = Ok bs ->
      calls m (BlockingWriteAndFlush h bs) I_wasi_io_streams_method_output_stream_blocking_write_and_flush
        (wasi_io_streams_method_output_stream_blocking_write_and_flush call (Handle h) l)
  | c_finish h :
      calls m (OutgoingBodyFinish h) I_wasi_http_types_static_outgoing_body_finish
        (wasi_http_types_static_outgoing_body_finish call (Handle h) None)
  | c_subscribe h :
      calls m (FutureSubscribe h) I_wasi_http_types_method_future_incoming_response_subscribe
        (wasi_http_types_method_future_incoming_response_subscribe call (Handle h))
  | c_block h :
      calls m (PollableBlock h) I_wasi_io_poll_method_pollable_block
        (wasi_io_poll_method_pollable_block call (Handle h))
  | c_get h :
      calls m (FutureGet h) I_wasi_http_types_method_future_incoming_response_get
        (wasi_http_types_method_future_incoming_response_get call (Handle h))
  | c_status h :
      calls m (IncomingResponseStatus h) I_wasi_http_types_method_incoming_response_status
        (wasi_http_types_method_incoming_response_status call (Handle h))
  | c_headers h :
      calls m (IncomingResponseHeaders h) I_wasi_http_types_method_incoming_response_headers
        (wasi_http_types_method_incoming_response_headers call (Handle h))
  | c_consume h :
      calls m (IncomingResponseConsume h) I_wasi_http_types_method_incoming_response_consume
        (wasi_http_types_method_incoming_response_consume call (Handle h))
  | c_stream h :
      calls m (IncomingBodyStream h) I_wasi_http_types_method_incoming_body_stream
        (wasi_http_types_method_incoming_body_stream call (Handle h))
  | c_read h n :
      0 <= n < 2 ^ 64 ->
      calls m (BlockingRead h n) I_wasi_io_streams_method_input_stream_blocking_read
        (wasi_io_streams_method_input_stream_blocking_read call (Handle h) n)
  | c_trailers h :
      calls m (IncomingBodyFinish h) I_wasi_http_types_static_incoming_body_finish
        (wasi_http_types_static_incoming_body_finish call (Handle h))
  | c_drop k i h :
      drop_kind i = Some k ->
      calls m (Drop k h) i (drop_own k (Handle h))
  | c_log level s l msg kv :
      text m s = Ok msg -> pairs_at m TString (kvs_ptr l) (Z.to_nat (kvs_len l)) = Ok kv ->
      calls m (Log level msg kv) I_function_log (function_log call level s l).

(** What the host may leave for the guest to read: strings in memory. *)
Fixpoint pointers_ok (m : wmem) (v : wval) : Prop :=
  match v with
  | WInt _ => True
  | WPtrLen p n => exists bs, text_at m p n = Ok bs
  | WRec vs => (fix all (vs : list wval) : Prop := match vs with [] => True | v :: vs => pointers_ok m v /\ all vs end) vs
  | WCase _ (Some v) => pointers_ok m v
  | WCase _ None => True
  end.
Definition stored_ok (m : wmem) (o : op) (v : wval) : Prop :=
  match o with
  | FieldsEntries _ => exists l, pairs_at m (TList TU8) (lf_ptr (as_fields v)) (Z.to_nat (lf_len (as_fields v))) = Ok l
  | _ => pointers_ok m v
  end.

(** A result is an answer the machine's host may give: typed as the client relies
    on, with a handle exactly when it creates a resource. *)
Definition answers_with (m : wmem) (o : op) (c : c_ans o) : Prop :=
  exists a, answer_of m o c = Ok a /\ typed_answer o a /\ (creates o a = None <-> handle_of o c = None).

(** What the call's result becomes, by where it comes back. *)
Definition in_area (m : wmem) (o : op) (i : import) (zs : list Z) (g : guest W (c_ans o)) (t : wty) (f : wval -> c_ans o) : Prop :=
  forall w, match call i (zs ++ [brk m]) (snd (area_alloc m (size t)), w) with
    | Ok (r, (m2, w2)) => forall v, canon_load t (brk m) m2 = Ok v -> has_type t v ->
        let m3 := area_release m2 (brk m) (size t) in
        g (m, w) = Ok (f v, (m3, w2)) /\ (stored_ok m3 o v -> answers_with m3 o (f v))
    | Trap x => g (m, w) = Trap x
    end.
Definition as_core (m : wmem) (o : op) (i : import) (zs : list Z) (g : guest W (c_ans o)) (ok : Z -> bool) (f : Z -> c_ans o) : Prop :=
  forall w, match call i zs (m, w) with
    | Ok (r, (m2, w2)) => ok r = true -> g (m, w) = Ok (f r, (m2, w2)) /\ answers_with m2 o (f r)
    | Trap x => g (m, w) = Trap x
    end.

(** One call, of [i] with parameters the host reads as [o], and its result. *)
Definition conducts (m : wmem) (o : op) (i : import) (g : guest W (c_ans o)) : Prop :=
  exists zs, op_of m i zs = Ok o /\
    match result_of o with
    | InArea t f => in_area m o i zs g t f
    | AsCore ok f => as_core m o i zs g ok f
    end.
End Adapters.

(** ** Reading what the host stored *)

Lemma opt_content_ok {A B} t (f : wval -> A) (g : A -> outcome B) m v :
  (forall x, has_type t x -> pointers_ok m x -> exists b, g (f x) = Ok b) ->
  has_type (TOption t) v -> pointers_ok m v -> exists o, opt_content g (as_option f v) = Ok o.
Proof.
  intros Hg H Hp. destruct v as [| | |k o]; [destruct H..|].
  apply has_type_variant in H as (c & Hc & Ho). destruct k as [|[|k]]; simplify_eq/=.
  - by eexists.
  - destruct Ho as (x & -> & Hx). destruct (Hg x Hx Hp) as [b Hb]. exists (Some b). unfold opt_content. by rewrite Hb.
Qed.

Lemma text_ok m v : has_type TString v -> pointers_ok m v -> exists bs, text m (as_string v) = Ok bs.
Proof. by destruct v. Qed.

Lemma opt_text_ok m v :
  has_type (TOption TString) v -> pointers_ok m v -> exists o, opt_content (text m) (as_option as_string v) = Ok o.
Proof. apply opt_content_ok, text_ok. Qed.

Lemma record_type t1 t2 v m :
  has_type (TRecord [t1; t2]) v -> pointers_ok m v ->
  exists x y, v = WRec [x; y] /\ has_type t1 x /\ has_type t2 y /\ pointers_ok m x /\ pointers_ok m y.
Proof.
  destruct v as [| |[|x [|y [|z l]]]|]; cbn; try tauto.
  intros (Hx & Hy & _) (Px & Py & _). by exists x, y.
Qed.

Lemma dns_content_ok m v :
  has_type dns_error_payload_ty v -> pointers_ok m v -> exists p, dns_content m (as_dns_error_payload v) = Ok p.
Proof.
  intros H Hp. destruct (record_type _ _ _ _ H Hp) as (x & y & -> & Hx & _ & Px & _).
  destruct (opt_text_ok m x Hx Px) as [o Ho]. unfold dns_content, as_dns_error_payload. cbn [rcode]. change (field 0 (WRec [x; y])) with x.
  rewrite Ho. by eexists.
Qed.
Lemma tls_content_ok m v :
  has_type tls_alert_received_payload_ty v -> pointers_ok m v ->
  exists p, tls_content m (as_tls_alert_received_payload v) = Ok p.
Proof.
  intros H Hp. destruct (record_type _ _ _ _ H Hp) as (x & y & -> & _ & Hy & _ & Py).
  destruct (opt_text_ok m y Hy Py) as [o Ho]. unfold tls_content, as_tls_alert_received_payload.
  cbn [alert_message]. change (field 1 (WRec [x; y])) with y. rewrite Ho. by eexists.
Qed.
Lemma size_content_ok m v :
  has_type field_size_payload_ty v -> pointers_ok m v -> exists p, size_content m (as_field_size_payload v) = Ok p.
Proof.
  intros H Hp. destruct (record_type _ _ _ _ H Hp) as (x & y & -> & Hx & _ & Px & _).
  destruct (opt_text_ok m x Hx Px) as [o Ho]. unfold size_content, as_field_size_payload.
  cbn [field_name]. change (field 0 (WRec [x; y])) with x. rewrite Ho. by eexists.
Qed.
(** Close the goal for the case at hand: the code's content and its type. *)
Ltac typed_code_now :=
  eexists; split; [reflexivity|]; split; [cbn; lia|];
  let E := fresh in intros E; first [by vm_compute in E | by eexists].

Lemma code_content_ok m v :
  has_type error_code_ty v -> pointers_ok m v ->
  exists e, code_content m (as_error_code v) = Ok e /\ typed_code e.
Proof.
  intros H Hp. destruct v as [| | |k o]; [destruct H..|].
  apply has_type_variant in H as (c & Hc & Ho).
  do 39 (destruct k as [|k];
    [ cbn in Hc; injection Hc as <-;
      first [ subst o; typed_code_now
            | destruct Ho as (x & -> & Hx); cbn [pointers_ok] in Hp;
              unfold code_content; cbn [as_error_code ec_val ec_tag val_content];
              first [ typed_code_now
                    | destruct (opt_text_ok m x Hx Hp) as [q Hq]; rewrite Hq; typed_code_now
                    | destruct (dns_content_ok m x Hx Hp) as [q Hq]; rewrite Hq; typed_code_now
                    | destruct (tls_content_ok m x Hx Hp) as [q Hq]; rewrite Hq; typed_code_now
                    | destruct (size_content_ok m x Hx Hp) as [q Hq]; rewrite Hq; typed_code_now
                    | destruct (opt_content_ok _ _ _ m x (size_content_ok m) Hx Hp) as [q Hq]; rewrite Hq; typed_code_now ] ]
    | ]).
  discriminate Hc.
Qed.

(** ** Each shape of result *)

Lemma lift_fields_canon :
  lifts fields_ty as_fields (fun ptr => p ← load_u32 ptr; n ← load_u32 (ptr + 4); mret (ListFields p n)).
Proof. intros p m v H. unfold fields_ty in H. cbn [canon_load] in H. reader_inv. by do 2 erewrite reader_bind_run by eassumption. Qed.

Section Conducts.
Context {W : Type} (call : host W).

Lemma area_conducts m o i zs g t f r n :
  n = size t -> lifts t f r ->
  (forall s, g s = with_ret_area n (fun ptr => _ ← call i (zs ++ [ptr]); reading (r ptr)) s) ->
  (forall m3 v, has_type t v -> stored_ok m3 o v -> answers_with m3 o (f v)) ->
  in_area call m o i zs g t f.
Proof.
  intros Hn Hl Hg Ha w. rewrite Hg. destruct (call i _ _) as [[q [m2 w2]]|x] eqn:Hc.
  - intros v Hv Ht m3. split; [|by apply Ha]. by eapply (ret_area_canon call i zs t f r n Hn Hl).
  - subst n. unfold with_ret_area, mbind, guest_bind.
    change (area_alloc m (size t)) with (brk m, snd (area_alloc m (size t))). cbn beta iota. by rewrite Hc.
Qed.

Definition given {A} (ok : Z -> bool) (f : Z -> A) (z : Z) : guest W A :=
  if ok z then mret (f z) else trap_with UB.

Lemma core_conducts m o i zs g ok f :
  (forall s, g s = (ret ← call i zs; given ok f ret) s) ->
  (forall m2 z, ok z = true -> answers_with m2 o (f z)) ->
  as_core call m o i zs g ok f.
Proof.
  intros Hg Ha w. rewrite Hg. unfold mbind, guest_bind, given. destruct (call i zs (m, w)) as [[q [m2 w2]]|x]; [|done].
  intros Hok. split; [by rewrite Hok|by apply Ha].
Qed.

Lemma flag_adapter i zs s :
  (ret ← call i zs; ok_of_flag ret) s =
  (ret ← call i zs; given a_flag (fun z => z =? 0) ret) s.
Proof.
  unfold mbind, guest_bind. destruct (call i zs s) as [[z [m w]]|]; [|done]. by destruct z as [|[]|].
Qed.

Lemma conducts_area m o i g zs t f r n :
  op_of m i zs = Ok o -> result_of o = InArea t f -> n = size t -> lifts t f r ->
  (forall s, g s = with_ret_area n (fun ptr => _ ← call i (zs ++ [ptr]); reading (r ptr)) s) ->
  (forall m3 v, has_type t v -> stored_ok m3 o v -> answers_with m3 o (f v)) ->
  conducts call m o i g.
Proof. intros Hz Hr ? ? ? ?. exists zs. split; [exact Hz|]. rewrite Hr. by eapply area_conducts. Qed.

Lemma conducts_core m o i g zs ok f :
  op_of m i zs = Ok o -> result_of o = AsCore ok f ->
  (forall s, g s = (ret ← call i zs; given ok f ret) s) ->
  (forall m2 z, ok z = true -> answers_with m2 o (f z)) ->
  conducts call m o i g.
Proof. intros Hz Hr ? ?. exists zs. split; [exact Hz|]. rewrite Hr. by apply core_conducts. Qed.

(** The values of the result types. *)
Lemma result_type t1 t2 v :
  has_type (TResult t1 t2) v ->
  (exists o, v = WCase 0 o /\ match t1 with None => o = None | Some t => exists x, o = Some x /\ has_type t x end) \/
  (exists o, v = WCase 1 o /\ match t2 with None => o = None | Some t => exists x, o = Some x /\ has_type t x end).
Proof.
  destruct v as [| | |k o]; [by intros []..|]. intros (c & Hc & Ho)%has_type_variant.
  destruct k as [|[|k]]; simplify_eq/=; eauto.
Qed.

Lemma handled_ok {A} m (f : option wval -> A) t v :
  has_type (TResult t (Some error_code_ty)) v -> pointers_ok m v ->
  exists a, handled m (as_result f (payload as_error_code) v) = Ok a /\
    match a with RErr c => typed_code c | ROk _ => True end /\ is_err a = is_err (as_result f (payload as_error_code) v).
Proof.
  intros [(o & -> & Ho)|(o & -> & x & -> & Hx)]%result_type Hp; cbn [as_result handled].
  - by eexists.
  - destruct (code_content_ok m x Hx Hp) as (e & He & Ht). 
    change (payload as_error_code (Some x)) with (as_error_code x). rewrite He. by eexists.
Qed.

(** The created resource, or none. *)
Lemma own_answers m o v :
  match o with
  | OutgoingRequestBody _ | OutgoingBodyWrite _ | IncomingResponseConsume _ | IncomingBodyStream _ => True
  | _ => False
  end -> has_type own_result_ty v ->
  match result_of o with InArea t f => answers_with m o (f v) | AsCore _ _ => True end.
Proof.
  intros Ho Hv. apply result_type in Hv as [(x & -> & h & -> & _)|(x & -> & ->)]; destruct o; try done; by eexists.
Qed.

Lemma future_answers m h v :
  has_type future_response_ty v -> pointers_ok m v -> answers_with m (FutureGet h) (as_future_response v).
Proof.
  intros Hv Hp. destruct v as [| | |k o]; [destruct Hv..|]. apply has_type_variant in Hv as (c & Hc & Ho).
  destruct k as [|[|k]]; cbn in Hc; [|injection Hc as <-|done].
  { injection Hc as <-. subst o. by eexists. }
  destruct Ho as (x & -> & Hx).
  apply result_type in Hx as [(o & -> & y & -> & Hy)|(o & -> & ->)]; [|by eexists].
  destruct (handled_ok m (payload as_handle) _ _ Hy Hp) as (a & Ha & Ht & He).
  unfold answers_with. cbn [as_future_response as_option as_result answer_of opt_content].
  change (payload as_handle_result (Some y)) with (as_handle_result y). unfold as_handle_result. rewrite Ha.
  eexists. split; [reflexivity|]. destruct a, (as_result _ _ y); try done.
Qed.

Lemma entries_answers m h v : stored_ok m (FieldsEntries h) v -> answers_with m (FieldsEntries h) (as_fields v).
Proof. intros [l Hl]. by exists l. Qed.
Lemma handle_answers m h v :
  has_type handle_result_ty v -> pointers_ok m v -> answers_with m (OutgoingHandlerHandle h) (as_handle_result v).
Proof.
  intros Hv Hp. destruct (handled_ok m (payload as_handle) _ _ Hv Hp) as (a & Ha & Ht & He).
  exists a. split; [exact Ha|]. unfold as_handle_result. destruct a, (as_result _ _ v); try done.
Qed.
Lemma finish_answers m h v :
  has_type finish_result_ty v -> pointers_ok m v -> answers_with m (OutgoingBodyFinish h) (as_finish_result v).
Proof.
  intros Hv Hp. destruct (handled_ok m unit_of _ _ Hv Hp) as (a & Ha & Ht & He).
  exists a. split; [exact Ha|]. unfold as_finish_result. destruct a, (as_result _ _ v); try done.
Qed.

Lemma read_answers m h n v :
  has_type list_u8_result_ty v -> pointers_ok m v -> answers_with m (BlockingRead h n) (as_list_u8_result v).
Proof.
  intros [(o & -> & x & -> & Hx)|(o & -> & x & -> & Hx)]%result_type Hp; [|by eexists].
  destruct x as [|p k| |]; try done. destruct Hp as [bs Hbs]. exists (ROk bs). split; [|done].
  cbn [answer_of as_list_u8_result as_result]. unfold payload, list_text. cbn. cbn in Hbs. by rewrite Hbs.
Qed.
End Conducts.

(** ** The property *)

(** Evaluate the host's reading of the parameters. *)
Ltac reads_now :=
  unfold text, list_text in *;
  repeat (cbn [op_of lifted mbind outcome_bind as_option opt_content];
          match goal with H : _ = Ok _ |- _ => rewrite H; clear H end);
  reflexivity.

Ltac area_call zs lem :=
  eapply (conducts_area _ _ _ _ _ zs); [reads_now|reflexivity| |exact lem|reflexivity|]; [reflexivity|intros ? ? ? ?].
Ltac core_call zs :=
  eapply (conducts_core _ _ _ _ _ zs); [reads_now|reflexivity|intros ?; reflexivity|by eexists].
(** A setter whose parameters are read back by [Hr]. *)
Ltac set_call zs :=
  eapply (conducts_core _ _ _ _ _ zs);
  [cbn [op_of]; unfold reads_back in *; match goal with H : lift_flat _ _ = Some _ |- _ => rewrite H end; reads_now
  |reflexivity| |by eexists].

(** C15. Every call the C sources make of the host is the machine's operation it is
    modelled by: the adapter makes one call, of that operation's import, with core
    parameters (and a return area) that the host reads - the strings, lists and
    variants in memory included - as exactly the operation's operands; and whatever
    the host returns, the result stands for an answer that the machine's host may
    give: the error codes are typed as the client relies on, and there is a handle
    exactly when the machine creates a resource. *)
Theorem adapters_are_the_machine_calls {W} (call : host W) m o i g :
  calls call m o i g -> conducts call m o i g.
Proof.
  destruct 1 as [|h s l name value Hn Hv|h|h|h v c Hv Hc|h v c Hv Hc|h v c Hv Hc|h v c Hv Hc|h|h|h|h l bs Hl|h|h|h|h|h|h|h|h|h n Hn|h|k i h Hk|level s l msg kv Hm Hkv].
  - core_call (@nil Z).
  - area_call [h; str_ptr s; str_len s; fv_ptr l; fv_len l] lift_header_result_canon. by eexists.
  - area_call [h] lift_fields_canon. by apply entries_answers.
  - core_call [h].
  - destruct (lower_method_reads v Hv) as (zs & Hzs & Hr). set_call (h :: zs).
    intros s. unfold wasi_http_types_method_outgoing_request_set_method. rewrite Hzs. apply flag_adapter.
  - destruct (lower_option_scheme_reads v Hv) as (zs & Hzs & Hr). set_call (h :: 1 :: zs).
    intros s. unfold wasi_http_types_method_outgoing_request_set_scheme. rewrite Hzs. apply flag_adapter.
  - pose proof (lower_option_string_reads v Hv) as Hr. set_call (h :: string_arg (as_option as_string v)).
    intros s. destruct (as_option as_string v); apply flag_adapter.
  - pose proof (lower_option_string_reads v Hv) as Hr. set_call (h :: string_arg (as_option as_string v)).
    intros s. destruct (as_option as_string v); apply flag_adapter.
  - area_call [h] lift_own_result_canon. by apply (own_answers _ (OutgoingRequestBody h)).
  - area_call [h; 0; 0] lift_handle_result_canon. by apply handle_answers.
  - area_call [h] lift_own_result_canon. by apply (own_answers _ (OutgoingBodyWrite h)).
  - area_call [h; lu8_ptr l; lu8_len l] lift_void_result_canon. by eexists.
  - area_call [h; 0; 0] lift_finish_result_canon. by apply finish_answers.
  - core_call [h].
  - core_call [h].
  - area_call [h] lift_future_response_canon. by apply future_answers.
  - core_call [h].
  - core_call [h].
  - area_call [h] lift_own_result_canon. by apply (own_answers _ (IncomingResponseConsume h)).
  - area_call [h] lift_own_result_canon. by apply (own_answers _ (IncomingBodyStream h)).
  - eapply (conducts_area _ _ _ _ _ [h; swrap 64 n]); [|reflexivity| |exact lift_list_u8_result_canon|reflexivity|];
      [cbn [op_of]; by rewrite uwrap_swrap_le, uwrap_id by lia|reflexivity|]. intros m3 v Hv Hs. by apply read_answers.
  - core_call [h].
  - apply (conducts_core call m (Drop k h) i _ [h] any_core (fun _ => tt)); [|done| |by eexists];
      by destruct i; try done; injection Hk as <-.
  - core_call [level; str_ptr s; str_len s; kvs_ptr l; kvs_len l].
Qed.

(** The name "a" and the value "bc" in memory, and a host that accepts the header:
    it stores a 0 at the return area. *)
Definition header_memory : wmem :=
  match (p ← g_malloc 1; _ ← g_store 1 p 97; q ← g_malloc 2; _ ← g_store 1 q 98; _ ← g_store 1 (q + 1) 99; mret (p, q) : guest unit (Z * Z))
          (mem_init 65536, tt) with
  | Ok (_, (m, _)) => m
  | Trap _ => mem_init 0
  end.
Definition accepting : host unit := fun i zs s =>
  match i, zs with
  | I_wasi_http_types_method_fields_append, [_; _; _; _; _; ptr] => (_ ← g_store 1 ptr 0; mret 0) s
  | _, _ => Trap HostTrap
  end.

Lemma adapters_are_the_machine_calls_witness :
  let g := wasi_http_types_method_fields_append accepting (Handle 7) (FStr 1024 1) (FieldValue 1040 2) in
  calls accepting header_memory (FieldsAppend 7 (lit "a") (lit "bc")) I_wasi_http_types_method_fields_append g /\
  conducts accepting header_memory (FieldsAppend 7 (lit "a") (lit "bc")) I_wasi_http_types_method_fields_append g /\
  match g (header_memory, tt) with Ok (r, _) => r = ROk tt | Trap _ => False end.
Proof.
  intros g. split; [|split; [|vm_compute; reflexivity]].
  - apply c_append; vm_compute; reflexivity.
  - apply adapters_are_the_machine_calls. apply c_append; vm_compute; reflexivity.
Defined.
