(* ===== verification/Placement.v ===== *)
(** The machine's heap in linear memory: [placed] is the memory injection between
    them, a map from blocks to addresses under which the allocator's blocks are the
    machine's and the bytes written in the one are in the other. The operations on
    blocks of bytes keep it, each the libc function's on addresses. [twin] is the way
    a program of the machine and one of linear memory are related: run side by
    side, the grants of the machine's allocator being what memory has room for. *)
From S2P Require Import Prelude LinMem BindTypes BindFree BindFreeSpec BindFreeList BindString Machine MachineLogic.
From Stdlib Require Import Strings.Byte.

(** ** The memory *)

(** What every reachable memory satisfies: the allocator's blocks are apart, of
    cells, and below [brk], which is within the memory. *)
Record tidy (m : wmem) : Prop := {
  td_ok : mem_ok m;
  td_room : brk m <= limit m <= memory_size;
  td_apart : forall p n q k, blocks m !! p = Some n -> blocks m !! q = Some k -> p <> q -> p + n <= q \/ q + k <= p;
  td_cells : forall p n x, blocks m !! p = Some n -> range p n x -> is_Some (cells m !! x);
}.

Definition grown (m : wmem) (n : Z) : wmem :=
  Wmem (add_cells (brk m) (Z.to_nat n) (cells m)) (<[brk m := n]> (blocks m)) (bump (brk m) n) (limit m).

Lemma bump_past a n : 0 <= n -> a + n + 8 <= bump a n.
Proof. intros. unfold bump. pose proof (Z.div_mod (a + n + 15) 8). pose proof (Z.mod_pos_bound (a + n + 15) 8). lia. Qed.

Lemma malloc_grown m n : bump (brk m) n <= limit m -> LinMem.malloc m n = (brk m, grown m n).
Proof. intros H. unfold LinMem.malloc. by rewrite (proj2 (Z.leb_le _ _)). Qed.

Lemma malloc_full m n : limit m < bump (brk m) n -> LinMem.malloc m n = (0, m).
Proof. intros H. unfold LinMem.malloc. by rewrite (proj2 (Z.leb_gt _ _)). Qed.

Lemma grown_cells m n x : mem_ok m -> is_Some (cells m !! x) -> cells (grown m n) !! x = cells m !! x.
Proof. intros M Hx. apply (ok_cells _ M) in Hx. cbn. rewrite lookup_add_cells, decide_False by lia. done. Qed.

Lemma tidy_grow m n : tidy m -> 0 <= n -> bump (brk m) n <= limit m -> tidy (grown m n).
Proof.
  intros [M Hroom Hapart Hcells] Hn Hfit. pose proof (bump_past (brk m) n Hn). pose proof (ok_brk _ M).
  split; [split| | |]; cbn [grown brk cells blocks limit].
  - lia.
  - intros x. rewrite lookup_add_cells. case_decide; [lia|]. intros Hx%(ok_cells _ M). lia.
  - intros p k. rewrite lookup_insert. case_decide; [intros; simplify_eq; lia|]. intros Hk%(ok_blocks _ M). lia.
  - lia.
  - intros p k q k'. rewrite !lookup_insert. intros Hp Hq Hne. repeat case_decide; simplify_eq;
      [apply (ok_blocks _ M) in Hp; lia|apply (ok_blocks _ M) in Hq; lia|by eapply Hapart].
  - intros p k x. rewrite lookup_insert, lookup_add_cells. unfold range. case_decide; intros Hk Hx; simplify_eq.
    + by rewrite decide_True by lia.
    + case_decide; [done|]. by eapply Hcells.
Qed.

(** Other cells' contents. *)
Lemma tidy_cells m c : tidy m -> (forall x, is_Some (c !! x) <-> is_Some (cells m !! x)) -> tidy (set_cells c m).
Proof.
  intros [[] ? ? Hcells] Hc. split; [split| | |]; cbn [set_cells brk cells blocks limit]; try done.
  - intros a Ha%Hc. auto.
  - intros p n x Hp Hx. apply Hc. by eapply Hcells.
Qed.

Definition shrunk (m : wmem) (p n : Z) : wmem :=
  Wmem (del_cells p (Z.to_nat n) (cells m)) (delete p (blocks m)) (brk m) (limit m).

Lemma free_shrunk m p n : p <> 0 -> blocks m !! p = Some n -> LinMem.free m p = Ok (shrunk m p n).
Proof. intros Hp Hn. unfold LinMem.free. by rewrite (proj2 (Z.eqb_neq _ _)), Hn. Qed.

Lemma shrunk_cells m p n x : 0 <= n -> ~ range p n x -> cells (shrunk m p n) !! x = cells m !! x.
Proof. intros Hn Hx. unfold range in Hx. cbn. by rewrite lookup_del_cells, decide_False by lia. Qed.

Lemma tidy_shrink m p n : tidy m -> blocks m !! p = Some n -> tidy (shrunk m p n).
Proof.
  intros [M Hroom Hapart Hcells] Hp. apply (ok_blocks _ M) in Hp as Hn.
  split; [split| | |]; cbn [shrunk brk cells blocks limit]; try apply M; try done.
  - intros a. rewrite lookup_del_cells. case_decide; [by intros []|]. apply (ok_cells _ M).
  - intros q k [_ Hk]%lookup_delete_Some. by apply (ok_blocks _ M).
  - intros q k q' k' [_ Hk]%lookup_delete_Some [_ Hk']%lookup_delete_Some. by apply Hapart.
  - intros q k x [Hne Hk]%lookup_delete_Some Hx. destruct (Hapart q k p n Hk Hp); [congruence|..];
      unfold range in Hx; rewrite lookup_del_cells, decide_False by lia; by eapply Hcells.
Qed.

Section Placed.
(** The cells of constants and static variables, with what a constant is. *)
Variable fixed : gmap Z (option byte).
(** The blocks the machine has for static variables, which are not the allocator's. *)
Variable own : gset Z.

Record placed (j : gmap Z Z) (s : cst) (m : wmem) : Prop := {
  pl_wf : wf s;
  pl_tidy : tidy m;
  pl_size : heap_size (heap s) <= brk m;
  pl_next : forall b a, j !! b = Some a -> b < next s;
  pl_block : forall b k, heap s !! b = Some k -> b ∉ own ->
    exists a, j !! b = Some a /\ 0 < a /\ blocks m !! a = Some (block_size k);
  pl_inj : forall b k b' k' a, heap s !! b = Some k -> heap s !! b' = Some k' -> b ∉ own -> b' ∉ own ->
    j !! b = Some a -> j !! b' = Some a -> b = b';
  pl_onto : forall a n, blocks m !! a = Some n -> exists b k, (b ∉ own) /\ heap s !! b = Some k /\ j !! b = Some a;
  pl_bytes : forall b cs a i c, heap s !! b = Some (Bytes cs) -> b ∉ own -> j !! b = Some a ->
    cs !! i = Some (Some c) -> cells m !! (a + Z.of_nat i) = Some (Some c);
  pl_own : forall b, b ∈ own -> is_Some (heap s !! b);
  pl_fixed : forall x o, fixed !! x = Some o ->
    (forall p n, blocks m !! p = Some n -> ~ range p n x) /\
    match o with Some c => cells m !! x = Some (Some c) | None => is_Some (cells m !! x) end;
}.

(** [a] is the address of [p]: 0 of NULL, a block's own of a block. *)
Definition points (j : gmap Z Z) (p : option Z) (a : Z) : Prop :=
  match p with Some b => j !! b = Some a /\ (b ∉ own) | None => a = 0 end.

Lemma points_grow j j' p a : points j p a -> j ⊆ j' -> points j' p a.
Proof. destruct p; [|done]. intros [Hj Hb] Hsub. split; [|done]. by eapply lookup_weaken. Qed.

(** A block and its address. *)
Lemma placed_at j s m b k a :
  placed j s m -> heap s !! b = Some k -> points j (Some b) a -> 0 < a /\ blocks m !! a = Some (block_size k).
Proof.
  intros P Hb [Hj Hn]. destruct (pl_block _ _ _ P b k Hb Hn) as (a' & Hj' & ? & ?).
  by assert (a' = a) as -> by congruence.
Qed.

(** Two blocks have addresses apart. *)
Lemma placed_two j s m b k b' k' a a' x :
  placed j s m -> heap s !! b = Some k -> heap s !! b' = Some k' -> points j (Some b) a -> points j (Some b') a' ->
  b <> b' -> range a (block_size k) x -> ~ range a' (block_size k') x.
Proof.
  intros P Hb Hb' Hj Hj' Hne Hx Hx'. unfold range in *.
  destruct (placed_at _ _ _ _ _ _ P Hb Hj) as (_ & E). destruct (placed_at _ _ _ _ _ _ P Hb' Hj') as (_ & E').
  destruct (td_apart _ (pl_tidy _ _ _ P) a _ a' _ E E'); [|lia..]. intros ->. apply Hne.
  destruct Hj, Hj'. by eapply (pl_inj _ _ _ P b k b' k').
Qed.

(** ** What the operations leave *)

Lemma next_not_own j s m : placed j s m -> next s ∉ own.
Proof. intros P [k Hk]%(pl_own _ _ _ P). by rewrite (wf_fresh s (pl_wf _ _ _ P)) in Hk. Qed.

(** A new block of bytes never written. *)
Lemma placed_grow j s m n :
  placed j s m -> 0 <= n -> bump (brk m) n <= limit m ->
  placed (<[next s := brk m]> j) (add_block (Bytes (replicate (Z.to_nat n) None)) s) (grown m n).
Proof.
  intros P Hn Hfit. pose proof (td_ok _ (pl_tidy _ _ _ P)) as M. pose proof (bump_past (brk m) n Hn).
  pose proof (td_room _ (pl_tidy _ _ _ P)). pose proof (pl_size _ _ _ P).
  pose proof (wf_fresh s (pl_wf _ _ _ P)) as Hf. pose proof (next_not_own _ _ _ P) as Hown.
  assert (block_size (Bytes (replicate (Z.to_nat n) None)) = n) as Hsz by (cbn; rewrite length_replicate; lia).
  assert (forall b k a, heap s !! b = Some k -> b ∉ own -> j !! b = Some a -> a < brk m) as Hlow.
  { intros b k a Hb Ho Hja. destruct (placed_at _ _ _ _ _ _ P Hb (conj Hja Ho)) as [_ Hk].
    apply (ok_blocks _ M) in Hk. lia. }
  split; cbn [heap next add_block grown limit blocks brk].
  - apply wf_add_block; [apply P|]. rewrite Hsz. lia.
  - by apply tidy_grow; [apply P|..].
  - rewrite heap_size_insert, Hsz by done. lia.
  - intros b a. rewrite lookup_insert. case_decide; [lia|]. intros ?%(pl_next _ _ _ P). lia.
  - intros b k. rewrite !lookup_insert. case_decide; intros Hb Hn'; simplify_eq.
    + exists (brk m). rewrite lookup_insert_eq, Hsz. pose proof (ok_brk _ M). split_and!; [done|lia|done].
    + destruct (pl_block _ _ _ P b k Hb Hn') as (a & Hja & Ha & Hk). exists a. split_and!; try done.
      rewrite lookup_insert_ne; [done|]. apply (ok_blocks _ M) in Hk. lia.
  - intros b k b' k' a. rewrite !lookup_insert. repeat case_decide; intros; simplify_eq; try done;
      try (exfalso; enough (brk m < brk m) by lia; by eapply Hlow).
    by eapply (pl_inj _ _ _ P).
  - intros a k. rewrite lookup_insert. case_decide as E; intros Hk; simplify_eq.
    + eexists (next s), _. by rewrite !lookup_insert_eq.
    + destruct (pl_onto _ _ _ P a k Hk) as (b & k' & ? & Hb & Hja). exists b, k'.
      rewrite !lookup_insert_ne by (apply (pl_next _ _ _ P) in Hja; lia). done.
  - intros b cs a i c. rewrite !lookup_insert. case_decide; intros Hb Ho Hja Hi; simplify_eq.
    + by apply lookup_replicate in Hi as [? _].
    + pose proof (pl_bytes _ _ _ P b cs a i c Hb Ho Hja Hi) as Hc. by rewrite (grown_cells m n) by done.
  - intros b Hb. rewrite lookup_insert. case_decide; [done|]. by apply (pl_own _ _ _ P).
  - intros x o Hx. destruct (pl_fixed _ _ _ P x o Hx) as [Hnb Hc].
    assert (is_Some (cells m !! x)) as Hs by (destruct o; [by eexists|done]).
    split; [|by rewrite (grown_cells m n x)].
    intros p k. rewrite lookup_insert. case_decide; intros Hk; simplify_eq; [|by apply Hnb].
    apply (ok_cells _ M) in Hs. unfold range. lia.
Qed.

(** A block given back. *)
Lemma placed_shrink j s m b k a :
  placed j s m -> heap s !! b = Some k -> points j (Some b) a ->
  placed j (set_heap (delete b (heap s)) s) (shrunk m a (block_size k)).
Proof.
  intros P Hb Hp. destruct (placed_at _ _ _ _ _ _ P Hb Hp) as [Ha Hk]. pose proof (block_size_nonneg k) as Hn.
  pose proof Hp as [Hj Ho].
  split; cbn [heap next set_heap shrunk brk blocks].
  - apply wf_delete, P.
  - by apply tidy_shrink; [apply P|].
  - pose proof (pl_size _ _ _ P) as Hs. rewrite (heap_size_delete _ _ _ Hb) in Hs. lia.
  - apply P.
  - intros b' k' [Hne Hb']%lookup_delete_Some Ho'. destruct (pl_block _ _ _ P b' k' Hb' Ho') as (a' & Hj' & ? & ?).
    exists a'. split_and!; try done. rewrite lookup_delete_ne; [done|]. intros <-. apply Hne.
    by eapply (pl_inj _ _ _ P b k b' k').
  - intros b1 k1 b2 k2 a' [_ H1]%lookup_delete_Some [_ H2]%lookup_delete_Some. by eapply (pl_inj _ _ _ P).
  - intros a' n [Hne Hn']%lookup_delete_Some. destruct (pl_onto _ _ _ P a' n Hn') as (b' & k' & ? & Hb' & Hj').
    exists b', k'. rewrite lookup_delete_ne by congruence. done.
  - intros b' cs a' i c [Hne Hb']%lookup_delete_Some Ho' Hj' Hi.
    rewrite shrunk_cells; [by eapply (pl_bytes _ _ _ P)|done|].
    eapply (placed_two j s m b' (Bytes cs) b k a' a); try done. cbn. unfold range.
    apply lookup_lt_Some in Hi. lia.
  - intros b' Hb'. rewrite lookup_delete_ne by congruence. by apply (pl_own _ _ _ P).
  - intros x o Hx. destruct (pl_fixed _ _ _ P x o Hx) as [Hnb Hc]. split.
    + intros p n [_ Hq]%lookup_delete_Some. by apply Hnb.
    + rewrite shrunk_cells; [done|done|by apply Hnb].
Qed.

(** Other content for a block, and for the cells it has. *)
Lemma placed_rewrite j s m b cs cs' c a :
  placed j s m -> heap s !! b = Some (Bytes cs) -> points j (Some b) a -> length cs' = length cs ->
  (forall x, is_Some (c !! x) <-> is_Some (cells m !! x)) ->
  (forall x, ~ range a (Z.of_nat (length cs)) x -> c !! x = cells m !! x) ->
  (forall i v, cs' !! i = Some (Some v) -> c !! (a + Z.of_nat i) = Some (Some v)) ->
  placed j (set_heap (<[b := Bytes cs']> (heap s)) s) (set_cells c m).
Proof.
  intros P Hb Hp Hl Hc Hrest Hv. destruct (placed_at _ _ _ _ _ _ P Hb Hp) as [Ha Hk].
  assert (block_size (Bytes cs') = block_size (Bytes cs)) as Hsz by (cbn; by rewrite Hl).
  assert (forall b' k', <[b := Bytes cs']> (heap s) !! b' = Some k' ->
            exists k0, heap s !! b' = Some k0 /\ block_size k' = block_size k0) as Hold.
  { intros b' k'. rewrite lookup_insert. case_decide; intros; simplify_eq; eauto. }
  split; cbn [heap next set_heap brk blocks set_cells cells].
  - by eapply wf_update; [apply P|..].
  - by apply tidy_cells; [apply P|].
  - rewrite (heap_size_update _ _ _ _ Hb), Hsz. pose proof (pl_size _ _ _ P). lia.
  - apply P.
  - intros b' k' (k0 & Hb' & ->)%Hold. by apply (pl_block _ _ _ P).
  - intros b1 k1 b2 k2 a' (? & H1 & _)%Hold (? & H2 & _)%Hold. by eapply (pl_inj _ _ _ P).
  - intros a' n Hn. destruct (pl_onto _ _ _ P a' n Hn) as (b' & k' & ? & Hb' & ?).
    destruct (decide (b' = b)) as [->|].
    + exists b, (Bytes cs'). by rewrite lookup_insert_eq.
    + exists b', k'. by rewrite lookup_insert_ne.
  - intros b' cs0 a' i v. rewrite lookup_insert. case_decide as E; intros Hb' Ho' Hj' Hi; simplify_eq.
    + destruct Hp as [Hj _]. assert (a' = a) as -> by congruence. by apply Hv.
    + rewrite Hrest; [by eapply (pl_bytes _ _ _ P)|].
      eapply (placed_two j s m b' (Bytes cs0) b (Bytes cs) a' a); try done. cbn. unfold range.
      apply lookup_lt_Some in Hi. lia.
  - intros b' Hb'. rewrite lookup_insert. case_decide; [done|]. by apply (pl_own _ _ _ P).
  - intros x o Hx. destruct (pl_fixed _ _ _ P x o Hx) as [Hnb Hco]. split; [done|].
    rewrite Hrest by by eapply (Hnb a). done.
Qed.

(** The bytes of a block are read at its address. *)
Lemma placed_read j s m b cs a off n bs :
  placed j s m -> heap s !! b = Some (Bytes cs) -> points j (Some b) a -> 0 <= off ->
  take n (drop (Z.to_nat off) cs) = map Some bs -> length bs = n -> read_bytes m (a + off) n = Ok bs.
Proof.
  intros P Hb [Hj Ho] Hoff Hbs Hl. apply read_bytes_cells. split; [done|]. intros i c Hi.
  replace (a + off + Z.of_nat i) with (a + Z.of_nat (Z.to_nat off + i)) by lia.
  eapply (pl_bytes _ _ _ P); [done..|]. rewrite <- lookup_drop, <- (lookup_take_lt _ n), Hbs.
  - by rewrite list_lookup_fmap, Hi.
  - apply lookup_lt_Some in Hi. lia.
Qed.
End Placed.

Section Twin.
Context {W : Type}.
(** The host's answers, which are the same on both sides. *)
Variable host_answers : list event -> forall o, ans o.

Definition env_of (gr : nat -> Z -> bool) : env := Env host_answers gr.

(** Grants that agree on the attempts from [lo] to [hi]. *)
Definition agree (lo hi : nat) (gr gr' : nat -> Z -> bool) : Prop :=
  forall k n, (lo <= k < hi)%nat -> gr' k n = gr k n.

(** What [g] does from [x], [c] does from [s]: the results and states are related by
    [Q], a trap is the same trap. The grants are given for the attempts [c] makes
    and free after them. *)
Definition twin {A B} (c : C A) (g : guest W B) (Q : A -> cst -> B -> wmem * W -> Prop)
    (s : cst) (x : wmem * W) : Prop :=
  match g x with
  | Ok (b, x') => exists a s' gr, (attempts s <= attempts s')%nat /\ Q a s' b x' /\
      forall gr', agree (attempts s) (attempts s') gr gr' -> c (env_of gr') s = Ok (a, s')
  | Trap t => exists n gr, forall gr', agree (attempts s) n gr gr' -> c (env_of gr') s = Trap t
  end.

Definition any_grant (_ : nat) (_ : Z) : bool := true.

Lemma twin_mono {A B} (c : C A) (g : guest W B) (Q Q' : A -> cst -> B -> wmem * W -> Prop) s x :
  twin c g Q s x -> (forall a s' b x', Q a s' b x' -> Q' a s' b x') -> twin c g Q' s x.
Proof.
  unfold twin. destruct (g x) as [[b x']|t]; [|done]. intros (a & s' & gr & Hle & HQ & Hc) H.
  exists a, s', gr. auto.
Qed.

(** Only what the programs do counts. *)
Lemma twin_eq {A B} (c c' : C A) (g g' : guest W B) (Q : A -> cst -> B -> wmem * W -> Prop) s x :
  twin c g Q s x -> (forall e, c' e s = c e s) -> g' x = g x -> twin c' g' Q s x.
Proof.
  unfold twin. intros H Hc ->. destruct (g x) as [[b x']|t].
  - destruct H as (a & s' & gr & Hle & HQ & H). exists a, s', gr. split_and!; try done. intros gr' Hg. rewrite Hc. auto.
  - destruct H as (n & gr & H). exists n, gr. intros gr' Hg. rewrite Hc. auto.
Qed.

(** A program that tries no allocation. *)
Lemma twin_step {A B} (c : C A) (g : guest W B) (Q : A -> cst -> B -> wmem * W -> Prop) a s' b x' s x :
  (forall e, c e s = Ok (a, s')) -> attempts s' = attempts s -> g x = Ok (b, x') -> Q a s' b x' -> twin c g Q s x.
Proof. intros Hc Ha Hg HQ. unfold twin. rewrite Hg. exists a, s', any_grant. split_and!; [lia|done|auto]. Qed.

Lemma twin_ret {A B} (a : A) (b : B) (Q : A -> cst -> B -> wmem * W -> Prop) s x :
  Q a s b x -> twin (mret a) (mret b) Q s x.
Proof. intros H. by eapply twin_step. Qed.

Lemma twin_stop {A B} t (Q : A -> cst -> B -> wmem * W -> Prop) s x :
  twin (stop t) (trap_with t : guest W B) Q s x.
Proof. exists 0%nat, any_grant. done. Qed.

(** The grants of two stretches, one after the other. *)
Definition splice (n : nat) (gr gr' : nat -> Z -> bool) (k : nat) : Z -> bool :=
  if (k <? n)%nat then gr k else gr' k.

Lemma splice_before lo n hi gr gr' h : (n <= hi)%nat -> agree lo hi (splice n gr gr') h -> agree lo n gr h.
Proof.
  intros Hn H k z Hk. rewrite H by lia. unfold splice. by rewrite (proj2 (Nat.ltb_lt _ _)) by lia.
Qed.
Lemma splice_after lo n hi gr gr' h : (lo <= n)%nat -> agree lo hi (splice n gr gr') h -> agree n hi gr' h.
Proof.
  intros Hn H k z Hk. rewrite H by lia. unfold splice. by rewrite (proj2 (Nat.ltb_ge _ _)) by lia.
Qed.

Lemma twin_seq {A A' B B'} (c : C A) (f : A -> C A') (g : guest W B) (h : B -> guest W B')
    (P : A -> cst -> B -> wmem * W -> Prop) Q s x :
  twin c g P s x -> (forall a s' b x', P a s' b x' -> twin (f a) (h b) Q s' x') ->
  twin (c ≫= f) (g ≫= h) Q s x.
Proof.
  intros Hc Hf. unfold twin in Hc |- *. unfold mbind, guest_bind, C_bind.
  destruct (g x) as [[b x1]|t].
  - destruct Hc as (a & s1 & gr1 & Hle & HP & Hc). specialize (Hf a s1 b x1 HP). unfold twin in Hf.
    destruct (h b x1) as [[b' x2]|t'].
    + destruct Hf as (a' & s2 & gr2 & Hle2 & HQ & Hf). exists a', s2, (splice (attempts s1) gr1 gr2).
      split; [lia|]. split; [done|]. intros gr' Hg. rewrite Hc; [apply Hf|].
      * eapply splice_after; [|done]. lia.
      * by eapply splice_before.
    + destruct Hf as (n & gr2 & Hf). exists (Nat.max n (attempts s1)), (splice (attempts s1) gr1 gr2).
      intros gr' Hg. rewrite Hc; [apply Hf|].
      * intros k z Hk. eapply splice_after; [|exact Hg|]; lia.
      * eapply splice_before; [|done]. lia.
  - destruct Hc as (n & gr & Hc). exists n, gr. intros gr' Hg. by rewrite Hc.
Qed.

(** What the machine's program satisfies whatever is granted, it satisfies here. *)
Lemma twin_wp {A B} (c : C A) (g : guest W B) (Q : A -> cst -> B -> wmem * W -> Prop) (T : trap -> Prop)
    (P : A -> cst -> Prop) s x :
  twin c g Q s x -> (forall gr, wp (env_of gr) T c P s) ->
  twin c g (fun a s' b x' => Q a s' b x' /\ P a s') s x.
Proof.
  unfold twin. destruct (g x) as [[b x']|t]; [|done]. intros (a & s' & gr & Hle & HQ & Hc) HP.
  exists a, s', gr. split_and!; try done. specialize (HP gr). unfold wp in HP. by rewrite Hc in HP.
Qed.

(** The run of the machine that a run of the linear memory is. *)
Lemma twin_run {A B} (c : C A) (g : guest W B) (Q : A -> cst -> B -> wmem * W -> Prop) s x :
  twin c g Q s x -> exists gr,
    match g x with
    | Ok (b, x') => exists a s', c (env_of gr) s = Ok (a, s') /\ Q a s' b x'
    | Trap t => c (env_of gr) s = Trap t
    end.
Proof.
  unfold twin. destruct (g x) as [[b x']|t].
  - intros (a & s' & gr & _ & HQ & Hc). exists gr, a, s'. split; [by apply Hc|done].
  - intros (n & gr & Hc). exists gr. by apply Hc.
Qed.
End Twin.
