(* ===== verification/Linked.v ===== *)
(** The operations of the machine's heap and libc's on linear memory, side by side:
    each of the second does what the first does under the memory's grants, and
    leaves the heap placed in memory. The same of the lists and strings of the
    bindings, which are made of them: the machine's [list_u8] is a pointer and a
    length in linear memory. *)
From S2P Require Import Prelude LinMem BindTypes BindFree BindFreeSpec BindFreeList BindString CString Machine MachineLogic Wasmfn WasmfnMem WasmfnSend Placement.
From Stdlib Require Import Strings.Byte.

Section Linked.
Context {W : Type} (host_answers : list event -> forall o, ans o).
Context (fixed : gmap Z (option byte)) (own : gset Z).
(** The world of the imports holds the calls made and the resources alive. *)
Variable world : list event -> gmap Z hentry -> W -> Prop.

Abbreviation twin := (twin host_answers).
Abbreviation points := (points own).

Definition linked (j : gmap Z Z) (s : cst) (x : wmem * W) : Prop :=
  placed fixed own j s x.1 /\ world (trace s) (handles s) x.2.

(** The blocks placed stay where they are. *)
Definition keeps {A B} (j : gmap Z Z) (Q : gmap Z Z -> A -> cst -> B -> Prop)
    (a : A) (s' : cst) (b : B) (x' : wmem * W) : Prop :=
  exists j', j ⊆ j' /\ linked j' s' x' /\ Q j' a s' b.

Lemma linked_wf j s x : linked j s x -> wf s.
Proof. intros [P _]. apply P. Qed.
Lemma linked_ok j s x : linked j s x -> mem_ok x.1.
Proof. intros [P _]. apply (pl_tidy _ _ _ _ _ P). Qed.

(** Both sides from a state, without a trap. *)
Lemma twin_ok {A B} (c : C A) (g : guest W B) j (Q : gmap Z Z -> A -> cst -> B -> Prop) a s' b x' s x :
  (forall e, c e s = Ok (a, s')) -> attempts s' = attempts s -> g x = Ok (b, x') ->
  linked j s' x' -> Q j a s' b -> twin c g (keeps j Q) s x.
Proof. intros Hc Ha Hg HL HQ. eapply twin_step; [done..|]. by exists j. Qed.

Lemma wp_run {A} e (c : C A) a0 s0 s :
  wp e (fun _ => False) c (fun a s' => a = a0 /\ s' = s0) s -> c e s = Ok (a0, s0).
Proof. unfold wp. destruct (c e s) as [[a s']|]; [|done]. by intros [-> ->]. Qed.

(** ** An allocation *)

(** A grant for one attempt. *)
Definition always (ok : bool) (_ : nat) (_ : Z) : bool := ok.

Lemma granted old k gr s :
  agree (attempts s) (S (attempts s)) (always true) gr -> heap_size (heap s) - old + block_size k < memory_size ->
  alloc_replacing old k (env_of host_answers gr) s = Ok (Some (next s), add_block k s).
Proof. intros Hg Hn. unfold alloc_replacing. cbn. rewrite Hg by lia. unfold always. by rewrite (proj2 (Z.ltb_lt _ _)). Qed.

Lemma refused old k gr s :
  agree (attempts s) (S (attempts s)) (always false) gr ->
  alloc_replacing old k (env_of host_answers gr) s = Ok (None, deny s).
Proof. intros Hg. unfold alloc_replacing. cbn. by rewrite Hg by lia. Qed.

Lemma linked_deny j s x : linked j s x -> linked j (deny s) x.
Proof. intros [[] ?]. split; [|done]. split; try done. by apply wf_deny. Qed.

(** A block given to [p], or nothing. *)
Definition got (k : block) (s : cst) (j : gmap Z Z) (p : option Z) (s' : cst) (a : Z) : Prop :=
  points j p a /\
  match p with Some b => b = next s /\ 0 < a /\ s' = add_block k s | None => s' = deny s end.

Lemma linked_grow j s m w n :
  linked j s (m, w) -> 0 <= n -> bump (brk m) n <= limit m ->
  let s' := add_block (Bytes (replicate (Z.to_nat n) None)) s in
  keeps j (got (Bytes (replicate (Z.to_nat n) None)) s) (Some (next s)) s' (brk m) (grown m n, w).
Proof.
  intros [P Hw] Hn Hfit s'. exists (<[next s := brk m]> j). split; [|split; [split; [by apply placed_grow|done]|]].
  - apply insert_subseteq, eq_None_not_Some. intros [a Ha%(pl_next _ _ _ _ _ P)]. lia.
  - split; [|split_and!; [done|apply (ok_brk _ (td_ok _ (pl_tidy _ _ _ _ _ P)))|done]].
    split; [apply lookup_insert_eq|]. eapply next_not_own. exact P.
Qed.

Lemma twin_malloc j s m w n :
  linked j s (m, w) -> 0 <= n ->
  twin (Machine.malloc n) (g_malloc n) (keeps j (got (Bytes (replicate (Z.to_nat n) None)) s)) s (m, w).
Proof.
  intros HL Hn. pose proof HL as [P _]. cbn [fst] in P. pose proof (pl_tidy _ _ _ _ _ P) as Ht. unfold twin, g_malloc.
  destruct (Z.leb_spec (bump (brk m) n) (limit m)) as [Hfit|Hfull].
  - rewrite malloc_grown by done. set (k := Bytes _). exists (Some (next s)), (add_block k s), (always true).
    split; [cbn; lia|]. split; [by apply linked_grow|].
    intros gr Hg. apply granted; [done|]. subst k. cbn [block_size]. rewrite length_replicate.
    pose proof (bump_past (brk m) n Hn). pose proof (td_room _ Ht). pose proof (pl_size _ _ _ _ _ P). lia.
  - rewrite malloc_full by done. exists None, (deny s), (always false). split; [cbn; lia|].
    split; [|intros gr; apply refused]. exists j. split_and!; [done|by apply linked_deny|]. done.
Qed.

(** ** Giving back *)

Lemma twin_free j s x p a :
  linked j s x -> points j p a -> (forall b, p = Some b -> is_Some (heap s !! b)) ->
  twin (Machine.free p) (g_free a)
    (keeps j (fun _ _ s' _ => s' = match p with Some b => set_heap (delete b (heap s)) s | None => s end)) s x.
Proof.
  intros [P Hw] Hp Hlive. destruct x as [m w]. destruct p as [b|].
  - destruct (Hlive b eq_refl) as [k Hk]. destruct (placed_at _ _ _ _ _ _ _ _ P Hk Hp) as [Ha Hbl].
    eapply twin_ok with (j := j); [intros e; unfold Machine.free; by rewrite Hk|done| | |done].
    + unfold g_free, updating. rewrite (free_shrunk m a (block_size k)); [done|lia|done].
    + split; [|done]. by apply placed_shrink.
  - cbn in Hp. subst a. by eapply twin_ok with (j := j).
Qed.

(** ** Reading and writing *)

Lemma twin_read j s x b off n cs bs a :
  linked j s x -> heap s !! b = Some (Bytes cs) -> points j (Some b) a -> 0 <= off -> 0 <= n ->
  off + n <= Z.of_nat (length cs) -> take (Z.to_nat n) (drop (Z.to_nat off) cs) = map Some bs ->
  twin (read b off n) (reading (fun m => read_bytes m (a + off) (Z.to_nat n)))
    (keeps j (fun _ r s' r' => r = bs /\ r' = bs /\ s' = s)) s x.
Proof.
  intros HL Hb Hp Ho Hn Hlen Hbs. destruct x as [m w]. pose proof HL as [P _]. cbn [fst] in P.
  assert (length bs = Z.to_nat n) as Hl.
  { apply (f_equal length) in Hbs. rewrite length_take, length_drop, length_map in Hbs. lia. }
  eapply twin_ok with (j := j) (a := bs) (b := bs) (s' := s) (x' := (m, w)); try done.
  - intros e. by eapply wp_run, wp_read.
  - unfold reading. by erewrite placed_read.
Qed.

(** The bytes of a block with [bs] at [off]. *)
Definition overwritten (cs : list (option byte)) (off : Z) (bs : bytes) : list (option byte) :=
  take (Z.to_nat off) cs ++ map Some bs ++ drop (Z.to_nat off + length bs) cs.

Lemma overwritten_lookup cs off bs i v :
  0 <= off -> off + Z.of_nat (length bs) <= Z.of_nat (length cs) -> overwritten cs off bs !! i = Some (Some v) ->
  (Z.of_nat i < off \/ off + Z.of_nat (length bs) <= Z.of_nat i) /\ cs !! i = Some (Some v) \/
  exists k, i = (Z.to_nat off + k)%nat /\ bs !! k = Some v.
Proof.
  intros Ho Hl. unfold overwritten. destruct (decide (i < Z.to_nat off)%nat) as [Hi|Hi].
  { rewrite lookup_app_l, lookup_take_lt by (rewrite ?length_take; lia). intros. left. split; [lia|done]. }
  rewrite lookup_app_r, length_take, Nat.min_l by (rewrite ?length_take; lia).
  destruct (decide (i < Z.to_nat off + length bs)%nat) as [Hi'|Hi'].
  - rewrite lookup_app_l, list_lookup_fmap by (rewrite length_map; lia). intros (v' & Hv & [= ->])%fmap_Some.
    right. exists (i - Z.to_nat off)%nat. split; [lia|done].
  - rewrite lookup_app_r, length_map, lookup_drop by (rewrite ?length_map; lia).
    replace (Z.to_nat off + length bs + (i - Z.to_nat off - length bs))%nat with i by lia. intros. left. split; [lia|done].
Qed.

Lemma length_overwritten cs off bs :
  0 <= off -> off + Z.of_nat (length bs) <= Z.of_nat (length cs) -> length (overwritten cs off bs) = length cs.
Proof. intros. unfold overwritten. rewrite !length_app, length_take, length_map, length_drop. lia. Qed.

Lemma twin_put j s x b off bs cs a :
  linked j s x -> heap s !! b = Some (Bytes cs) -> points j (Some b) a -> 0 <= off ->
  off + Z.of_nat (length bs) <= Z.of_nat (length cs) ->
  twin (put b off bs) (updating (fun m => write_bytes m (a + off) bs))
    (keeps j (fun _ _ s' _ => s' = set_heap (<[b := Bytes (overwritten cs off bs)]> (heap s)) s)) s x.
Proof.
  intros [P Hw] Hb Hp Ho Hl. destruct x as [m w]. cbn [fst snd] in *.
  destruct (placed_at _ _ _ _ _ _ _ _ P Hb Hp) as [Ha Hk].
  destruct (write_bytes_ok m (a + off) bs) as (c & E & Hrest & Hnone & Hv).
  { intros x Hx. eapply (td_cells _ (pl_tidy _ _ _ _ _ P)); [exact Hk|]. unfold range. cbn. lia. }
  eapply twin_ok with (j := j) (s' := set_heap (<[b := Bytes (overwritten cs off bs)]> (heap s)) s) (x' := (set_cells c m, w));
    [|done|unfold updating; by rewrite E| |done].
  - intros e. unfold put. rewrite Hb. rewrite (proj2 (Z.leb_le _ _)), (proj2 (Z.leb_le _ _)) by lia. done.
  - split; [|done]. cbn [fst]. eapply placed_rewrite; [done..| | | |].
    + by apply length_overwritten.
    + intros x. split; intros Hx; [|].
      * apply not_eq_None_Some. intros Hn. apply Hnone in Hn. rewrite Hn in Hx. by destruct Hx.
      * destruct (decide (a + off <= x < a + off + Z.of_nat (length bs))) as [Hin|Hout]; [|by rewrite Hrest].
        destruct (lookup_lt_is_Some_2 bs (Z.to_nat (x - (a + off)))) as [v Hi]; [lia|]. apply Hv in Hi.
        replace x with (a + off + Z.of_nat (Z.to_nat (x - (a + off)))) by lia. by rewrite Hi.
    + intros x Hx. apply Hrest. unfold range in Hx. lia.
    + intros i v [[Hi Hc]|(k & -> & Hk')]%overwritten_lookup; [| |done..].
      * rewrite Hrest by lia. eapply (pl_bytes _ _ _ _ _ P); [done|apply Hp|apply Hp|done].
      * replace (a + Z.of_nat (Z.to_nat off + k)) with (a + off + Z.of_nat k) by lia. by apply Hv.
Qed.

(** ** A block moved *)

Lemma copy_cells_ok m dst src n :
  (forall x, range src (Z.of_nat n) x -> is_Some (cells m !! x) /\ ~ range dst (Z.of_nat n) x) ->
  (forall x, range dst (Z.of_nat n) x -> is_Some (cells m !! x)) ->
  exists c, copy_cells m dst src n = Ok (set_cells c m) /\
    (forall x, is_Some (c !! x) <-> is_Some (cells m !! x)) /\
    (forall x, ~ range dst (Z.of_nat n) x -> c !! x = cells m !! x) /\
    (forall i, (i < n)%nat -> c !! (dst + Z.of_nat i) = cells m !! (src + Z.of_nat i)).
Proof.
  unfold range. revert m dst src. induction n as [|n IH]; intros m dst src Hs Hd.
  { exists (cells m). split_and!; try done; [by destruct m|lia]. }
  cbn [copy_cells]. destruct (Hs src ltac:(lia)) as [[o Ho] Hne]. destruct (Hd dst ltac:(lia)) as [o' Ho'].
  rewrite Ho, Ho'. destruct (IH (set_cells (<[dst:=o]> (cells m)) m) (dst + 1) (src + 1)) as (c & -> & Hp & Hr & Hv).
  - intros x Hx. cbn [cells set_cells]. destruct (Hs x ltac:(lia)) as [Hx1 Hx2]. split; [|lia].
    rewrite lookup_insert. by case_decide.
  - intros x Hx. cbn [cells set_cells]. rewrite lookup_insert. case_decide; [done|]. apply Hd. lia.
  - cbn [cells set_cells] in *. exists c. split; [done|]. split; [|split].
    + intros x. rewrite Hp, lookup_insert. case_decide; subst; [by rewrite Ho'|done].
    + intros x Hx. rewrite Hr by lia. apply lookup_insert_ne. lia.
    + intros [|i] Hi.
      * rewrite Hr by lia. by rewrite !Z.add_0_r, lookup_insert_eq.
      * replace (dst + Z.of_nat (S i)) with (dst + 1 + Z.of_nat i) by lia. rewrite Hv by lia.
        replace (src + Z.of_nat (S i)) with (src + 1 + Z.of_nat i) by lia. apply lookup_insert_ne.
        intros E. destruct (Hs (src + 1 + Z.of_nat i) ltac:(lia)) as [_ Hd']. lia.
Qed.

Lemma resize_lookup {A} n (x : option A) l i v :
  resize n x l !! i = Some v -> v <> x -> (i < n)%nat /\ l !! i = Some v.
Proof.
  intros H Hv. destruct (decide (i < n)%nat) as [Hn|Hn]; [|by rewrite lookup_resize_old in H by lia].
  destruct (decide (i < length l)%nat) as [Hl|Hl].
  - by rewrite lookup_resize in H.
  - rewrite lookup_resize_new in H by lia. congruence.
Qed.

(** The new block of a [realloc] before the old is given back. *)
Lemma placed_moved j s m b cs a n :
  placed fixed own j s m -> heap s !! b = Some (Bytes cs) -> points j (Some b) a -> 0 <= n ->
  bump (brk m) n <= limit m ->
  exists m', copy_cells (grown m n) (brk m) a (Z.to_nat (Z.min (Z.of_nat (length cs)) n)) = Ok m' /\
    placed fixed own (<[next s := brk m]> j) (add_block (Bytes (resize (Z.to_nat n) None cs)) s) m' /\
    blocks m' = blocks (grown m n).
Proof.
  intros P Hb Hp Hn Hfit. pose proof (pl_tidy _ _ _ _ _ P) as Ht. pose proof (td_ok _ Ht) as M.
  destruct (placed_at _ _ _ _ _ _ _ _ P Hb Hp) as [Ha Hk]. cbn [block_size] in Hk.
  pose proof (placed_grow _ _ _ _ _ _ P Hn Hfit) as Pg. apply (ok_blocks _ M) in Hk as Hbrk.
  assert (forall x, range a (Z.of_nat (length cs)) x -> is_Some (cells m !! x)) as Hold by (intros x; by apply (td_cells _ Ht)).
  destruct (copy_cells_ok (grown m n) (brk m) a (Z.to_nat (Z.min (Z.of_nat (length cs)) n))) as (c & E & Hpr & Hr & Hv);
    unfold range in *.
  { intros x Hx. split; [|lia]. rewrite grown_cells by (try done; apply Hold; lia). apply Hold. lia. }
  { intros x Hx. cbn. rewrite lookup_add_cells, decide_True by lia. done. }
  exists (set_cells c (grown m n)). split; [done|]. split; [|done].
  replace (add_block (Bytes (resize (Z.to_nat n) None cs)) s) with
    (let s' := add_block (Bytes (replicate (Z.to_nat n) None)) s in
     set_heap (<[next s := Bytes (resize (Z.to_nat n) None cs)]> (heap s')) s')
    by (unfold set_heap, add_block; cbn; by rewrite insert_insert_eq).
  eapply placed_rewrite; [exact Pg|apply lookup_insert_eq| |by rewrite length_resize, length_replicate|done| |].
  - split; [apply lookup_insert_eq|]. by eapply next_not_own.
  - intros x Hx. apply Hr. unfold range in Hx. rewrite length_replicate in Hx. lia.
  - intros i v Hi. apply resize_lookup in Hi as [Hi Hcs]; [|done]. pose proof (lookup_lt_Some _ _ _ Hcs).
    rewrite Hv by lia. rewrite grown_cells by (try done; apply Hold; lia).
    eapply (pl_bytes _ _ _ _ _ P); [done|apply Hp|apply Hp|done].
Qed.

(** What [realloc] leaves: the first bytes in a new block, the old one gone. *)
Definition moved (s : cst) (b : Z) (cs : list (option byte)) (n : Z) (j : gmap Z Z) (p : option Z) (s' : cst) (a : Z) : Prop :=
  points j p a /\
  match p with
  | Some b' => b' = next s /\ 0 < a /\
      let s1 := add_block (Bytes (resize (Z.to_nat n) None cs)) s in s' = set_heap (delete b (heap s1)) s1
  | None => s' = deny s
  end.

Lemma twin_realloc j s m w b cs a n :
  linked j s (m, w) -> heap s !! b = Some (Bytes cs) -> points j (Some b) a -> 0 <= n ->
  twin (Machine.realloc (Some b) n) (g_realloc a n) (keeps j (moved s b cs n)) s (m, w).
Proof.
  intros HL Hb Hp Hn. pose proof HL as [P Hw]. cbn [fst snd] in P, Hw. pose proof (pl_tidy _ _ _ _ _ P) as Ht.
  destruct (placed_at _ _ _ _ _ _ _ _ P Hb Hp) as [Ha Hk]. unfold twin, g_realloc, LinMem.realloc.
  rewrite (proj2 (Z.eqb_neq a 0)), Hk by lia. cbn [block_size].
  destruct (Z.leb_spec (bump (brk m) n) (limit m)) as [Hfit|Hfull].
  - rewrite malloc_grown by done. pose proof (ok_brk _ (td_ok _ Ht)). rewrite (proj2 (Z.eqb_neq (brk m) 0)) by lia.
    destruct (placed_moved _ _ _ _ _ _ _ P Hb Hp Hn Hfit) as (m2 & -> & P2 & Hbl). cbn [mbind outcome_bind].
    set (k := Bytes (resize (Z.to_nat n) None cs)) in *.
    assert (heap (add_block k s) !! b = Some (Bytes cs)) as Hb2.
    { cbn. rewrite lookup_insert_ne; [done|]. apply (wf_heap _ (pl_wf _ _ _ _ _ P)) in Hb. lia. }
    assert (j ⊆ <[next s := brk m]> j) as Hj.
    { apply insert_subseteq, eq_None_not_Some. intros [x Hx%(pl_next _ _ _ _ _ P)]. lia. }
    assert (points (<[next s := brk m]> j) (Some b) a) as Hp2 by by eapply points_grow.
    destruct (placed_at _ _ _ _ _ _ _ _ P2 Hb2 Hp2) as [_ Hk2]. cbn [block_size] in Hk2.
    rewrite (free_shrunk m2 a (Z.of_nat (length cs))) by (done || lia). cbn [mbind outcome_bind].
    exists (Some (next s)), (set_heap (delete b (heap (add_block k s))) (add_block k s)), (always true).
    split; [cbn; lia|]. split.
    + exists (<[next s := brk m]> j). split; [done|]. split; [split; [exact (placed_shrink _ _ _ _ _ _ _ _ P2 Hb2 Hp2)|done]|].
      split; [|done]. split; [apply lookup_insert_eq|]. by eapply next_not_own.
    + intros gr Hg. unfold Machine.realloc, mbind, C_bind, get. rewrite Hb. cbn [mbind outcome_bind].
      rewrite granted; [|done|].
      * cbv beta iota. unfold Machine.free. fold k. by rewrite Hb2.
      * subst k. cbn [block_size]. rewrite length_resize. pose proof (bump_past (brk m) n Hn).
        pose proof (td_room _ Ht). pose proof (pl_size _ _ _ _ _ P). lia.
  - rewrite malloc_full by done. cbn [mbind outcome_bind Z.eqb]. exists None, (deny s), (always false). split; [cbn; lia|].
    split; [|intros gr Hg; unfold Machine.realloc, mbind, C_bind, get; rewrite Hb; cbn [mbind outcome_bind]; by rewrite refused].
    exists j. split_and!; [done|by apply linked_deny|]. done.
Qed.
End Linked.

(** A C string literal among the constants. *)
Definition constant (fixed : gmap Z (option byte)) (a : Z) (s : bytes) : Prop :=
  (forall i b, (s ++ [x00]) !! i = Some b -> fixed !! (a + Z.of_nat i) = Some (Some b)) /\ x00 ∉ s.

Lemma lookup_zrange a n i : (i < n)%nat -> zrange a n !! i = Some (a + Z.of_nat i).
Proof.
  revert a i. induction n as [|n IH]; intros a [|i] Hi; try lia; cbn; [f_equal; lia|]. rewrite IH by lia. f_equal. lia.
Qed.

Lemma constant_check fixed a s :
  bool_decide (x00 ∉ s) = true ->
  map (fun x => fixed !! x) (zrange a (S (length s))) = map (fun b => Some (Some b)) (s ++ [x00]) -> constant fixed a s.
Proof.
  intros Hn%bool_decide_eq_true Hc. split; [|done]. intros i b Hi.
  assert (i < S (length s))%nat as Hl by (apply lookup_lt_Some in Hi; rewrite length_app in Hi; cbn in Hi; lia).
  apply (f_equal (lookup i)) in Hc. rewrite !list_lookup_fmap, lookup_zrange, Hi in Hc by done. by injection Hc.
Qed.

Section Lists.
Context {W : Type} (host_answers : list event -> forall o, ans o).
Context (fixed : gmap Z (option byte)) (own : gset Z) (world : list event -> gmap Z hentry -> W -> Prop).

Abbreviation twin := (twin host_answers).
Abbreviation points := (points own).
Abbreviation linked := (linked fixed own world).
Abbreviation keeps := (keeps fixed own world).

(** The pointer of an empty list is any. *)
Definition at_list (j : gmap Z Z) (l : list_u8) (p n : Z) : Prop :=
  u8_len l = n /\ (n <> 0 -> points j (u8_ptr l) p).

Lemma at_list_grow j j' l p n : at_list j l p n -> j ⊆ j' -> at_list j' l p n.
Proof. intros [Hn Hp] Hj. split; [done|]. intros H. eapply points_grow; [by apply Hp|done]. Qed.

(** Bytes at [a] that stay there as long as the blocks of [s] do: a constant's, or a
    block's. *)
Definition bytes_in (j : gmap Z Z) (s : cst) (a : Z) (bs : bytes) : Prop :=
  forall j' s' x', j ⊆ j' -> heap s ⊆ heap s' -> linked j' s' x' -> read_bytes x'.1 a (length bs) = Ok bs.
Definition string_in (j : gmap Z Z) (s : cst) (a : Z) (bs : bytes) : Prop :=
  forall j' s' x', j ⊆ j' -> heap s ⊆ heap s' -> linked j' s' x' -> c_string_at x'.1 a bs.

Lemma string_in_bytes j s a bs : string_in j s a bs -> bytes_in j s a bs.
Proof. intros H j' s' x' ? ? ?. by eapply c_string_content, H. Qed.

Lemma block_bytes_in j s b cs a off bs :
  heap s !! b = Some (Bytes cs) -> points j (Some b) a -> 0 <= off ->
  take (length bs) (drop (Z.to_nat off) cs) = map Some bs -> bytes_in j s (a + off) bs.
Proof.
  intros Hb Hp Ho Hbs j' s' x' Hj Hh [P _]. eapply placed_read; [exact P|by eapply lookup_weaken|by eapply points_grow|done..].
Qed.

Lemma block_string_in j s b cs a off bs r :
  heap s !! b = Some (Bytes cs) -> points j (Some b) a -> 0 <= off ->
  drop (Z.to_nat off) cs = map Some bs ++ Some NUL :: r -> x00 ∉ bs -> string_in j s (a + off) bs.
Proof.
  intros Hb Hp Ho Hbs Hn j' s' x' Hj Hh HL. split; [|done].
  replace (S (length bs)) with (length (bs ++ [x00])) by (rewrite length_app; cbn; lia).
  eapply (block_bytes_in j s b cs a off (bs ++ [x00])); try done.
  rewrite Hbs, map_app. cbn [map].
  rewrite length_app, take_app_ge by (rewrite length_map; lia). rewrite length_map.
  by replace (length bs + length [x00] - length bs)%nat with 1%nat by (cbn; lia).
Qed.

Lemma constant_at j s x a str : constant fixed a str -> linked j s x -> c_string_at x.1 a str.
Proof.
  intros [Hc Hn] [P _]. split; [|done]. apply read_bytes_cells. split; [by rewrite length_app, Nat.add_comm|].
  intros i b Hi. apply Hc in Hi. by apply (pl_fixed _ _ _ _ _ P) in Hi as [_ Hi].
Qed.

Lemma constant_in j s a str : constant fixed a str -> string_in j s a str.
Proof. intros Hc j' s' x' _ _ HL. by eapply constant_at. Qed.

Lemma twin_list_bytes j s x l bs p n :
  linked j s x -> holds s l bs -> at_list j l p n ->
  twin (list_bytes l) (reading (fun m => read_bytes m p (Z.to_nat n)))
    (keeps j (fun _ r s' r' => r = bs /\ r' = bs /\ s' = s)) s x.
Proof.
  intros HL [Hl Hh] [Hn Hp]. unfold list_bytes. destruct bs as [|b0 bs0] eqn:Eb.
  - cbn in Hl. replace n with 0 by lia. rewrite Hl. cbn [Z.eqb]. destruct x as [m w].
    by eapply twin_ok with (j := j) (s' := s) (x' := (m, w)).
  - rewrite <- Eb in *. assert (bs <> []) as Hne by (subst; done).
    assert (0 < n) as Hpos by (destruct bs; [done|simpl in *; lia]).
    destruct (Z.eqb_spec (u8_len l) 0) as [E|_]; [lia|].
    destruct (Hh Hne) as (b & Hlp & Hb). rewrite Hlp. rewrite <- (Z.add_0_r p). rewrite Hn.
    eapply twin_read; [done..| | | | |]; try (rewrite ?length_map; lia).
    + rewrite <- Hlp. apply Hp. lia.
    + rewrite drop_0, take_ge; [done|]. rewrite length_map. lia.
Qed.

Lemma twin_list_free j s x l bs p n :
  linked j s x -> holds s l bs -> at_list j l p n ->
  twin (list_u8_free l) (if 0 <? n then g_free p else mret tt)
    (keeps j (fun _ _ s' _ => heap s' = match bs, u8_ptr l with _ :: _, Some b => delete b (heap s) | _, _ => heap s end /\
       heap_step s s')) s x.
Proof.
  intros HL [Hl Hh] [Hn Hp]. unfold list_u8_free. rewrite Hn. pose proof (linked_wf _ _ _ _ _ _ HL) as Hs.
  destruct bs as [|b0 bs0] eqn:Eb.
  - cbn in Hl. rewrite (proj2 (Z.ltb_ge 0 n)) by lia. eapply twin_ok with (j := j) (s' := s) (x' := x); try done.
  - rewrite <- Eb in *. assert (bs <> []) as Hne by (subst; done).
    assert (0 < n) as Hpos by (destruct bs; [done|simpl in *; lia]). rewrite (proj2 (Z.ltb_lt 0 n)) by done.
    destruct (Hh Hne) as (b & Hlp & Hb). rewrite Hlp.
    assert (forall b', Some b = Some b' -> is_Some (heap s !! b')) as Hlive by (intros ? [= <-]; done).
    assert (points j (Some b) p) as Hpb by (rewrite <- Hlp; apply Hp; lia).
    eapply twin_mono; [eapply twin_wp; [by apply (twin_free host_answers fixed own world j)|]|].
    + intros gr. by apply (wp_free (T := fun _ => False)).
    + intros [] s' [] x' [(j' & Hj & HL' & ->) [Hst _]]. exists j'. split_and!; try done.
Qed.

(** A new list with the bytes that [fill] yields, as the host lowers one and as the
    bindings duplicate a string. *)
Definition alloc_filled (n : Z) (fill : wmem -> outcome bytes) : guest W Z :=
  p ← cabi_realloc 0 0 1 n;
  _ ← updating (fun m => bs ← fill m; write_bytes m p bs);
  mret p.

(** The host lowers a list or a string of its own. *)
Definition lower_bytes (bs : bytes) : guest W Z := alloc_filled (Z.of_nat (length bs)) (fun _ => Ok bs).

Lemma alloc_filled_nothing fill m (w : W) : fill m = Ok [] -> alloc_filled 0 fill (m, w) = Ok (1, (m, w)).
Proof.
  intros H. unfold alloc_filled, cabi_realloc. rewrite Z.eqb_refl. unfold mbind, guest_bind, updating, mret, guest_ret.
  by rewrite H.
Qed.

(** The same with the allocation first. *)
Definition filled (n : Z) (fill : wmem -> outcome bytes) (p : Z) : guest W Z :=
  if p =? 0 then trap_with Aborted
  else _ ← updating (fun m => bs ← fill m; write_bytes m p bs); mret p.

Lemma alloc_filled_malloc n fill x : n <> 0 -> alloc_filled n fill x = (g_malloc n ≫= filled n fill) x.
Proof.
  intros Hn. unfold alloc_filled, cabi_realloc. rewrite (proj2 (Z.eqb_neq n 0)) by done.
  change (g_realloc 0 n) with (g_malloc n : guest W Z). unfold mbind, guest_bind.
  destruct (g_malloc n x) as [[p y]|t]; [|done]. unfold filled. by destruct (p =? 0).
Qed.

Definition filled_list (bs : bytes) (p : option Z) : C list_u8 :=
  match p with None => stop Aborted | Some b => _ ← put b 0 bs; mret (Lu8 (Some b) (Z.of_nat (length bs))) end.

Lemma overwritten_all cs bs : length cs = length bs -> overwritten cs 0 bs = map Some bs.
Proof. intros H. unfold overwritten. cbn. rewrite drop_ge by lia. by rewrite app_nil_r. Qed.

Lemma linked_add_live (s : cst) k : heap (add_block k s) !! next s = Some k.
Proof. apply lookup_insert_eq. Qed.

Lemma filled_twin j s m w bs fill p a s1 :
  linked j s1 (m, w) -> got own (Bytes (replicate (length bs) None)) s j p s1 a -> fill m = Ok bs ->
  twin (filled_list bs p) (filled (Z.of_nat (length bs)) fill a)
    (keeps j (fun j' l _ a' => at_list j' l a' (Z.of_nat (length bs)))) s1 (m, w).
Proof.
  intros HL [Hp Hgot] Hfill. unfold filled, filled_list. destruct p as [b|]; [|cbn in Hp; subst a; apply twin_stop].
  destruct Hgot as (-> & Ha & ->). rewrite (proj2 (Z.eqb_neq a 0)) by lia. rewrite <- (Z.add_0_r a).
  eapply twin_seq.
  - eapply (twin_eq _ (put (next s) 0 bs) _ (updating (fun m => write_bytes m (a + 0) bs))); [|done|unfold updating; by rewrite Hfill].
    eapply twin_put; [exact HL|apply linked_add_live|exact Hp|lia|]. rewrite length_replicate. lia.
  - intros [] s2 [] x2 (j' & Hj & HL2 & ->). apply twin_ret. exists j'. split_and!; [done|done|]. split; [done|]. intros _.
    cbn [u8_ptr]. rewrite Z.add_0_r. by eapply points_grow.
Qed.

Lemma twin_lower j s m w bs fill :
  linked j s (m, w) -> 
  (forall j' s' x', j ⊆ j' -> heap s ⊆ heap s' -> linked j' s' x' -> fill x'.1 = Ok bs) ->
  twin (cabi_lower bs) (alloc_filled (Z.of_nat (length bs)) fill)
    (keeps j (fun j' l s' p => lowered bs s l s' /\ at_list j' l p (Z.of_nat (length bs)))) s (m, w).
Proof.
  intros HL Hfill. pose proof (linked_wf _ _ _ _ _ _ HL) as Hs. pose proof (linked_ok _ _ _ _ _ _ HL) as M.
  enough (twin (cabi_lower bs) (alloc_filled (Z.of_nat (length bs)) fill)
    (keeps j (fun j' l s' p => at_list j' l p (Z.of_nat (length bs)))) s (m, w)) as Ht.
  { eapply twin_mono; [eapply twin_wp; [exact Ht|]|].
    - intros gr. by apply (wp_cabi_lower (T := fun t => t = Aborted)).
    - intros l s' p x' [(j' & ? & ? & ?) ?]. by exists j'. }
  destruct (decide (bs = [])) as [->|Hne].
  { eapply twin_ok with (j := j) (s' := s) (x' := (m, w)) (b := 1); try done.
    apply alloc_filled_nothing. by apply (Hfill j s (m, w)). }
  assert (0 < Z.of_nat (length bs)) as Hn by (destruct bs; [done|simpl in *; lia]).
  eapply (twin_eq _ (Machine.malloc (Z.of_nat (length bs)) ≫= filled_list bs)); [|intros e; by destruct bs|apply alloc_filled_malloc; lia].
  eapply twin_seq; [apply twin_malloc; [done|lia]|]. intros p s1 a [m1 w1] (j1 & Hj1 & HL1 & Hgot).
  rewrite Nat2Z.id in Hgot. eapply twin_mono; [eapply filled_twin; [done..|apply (Hfill j1 s1 (m1, w1)); [done| |done]]|].
  { destruct Hgot as [_ Hgot]. destruct p as [b|]; [destruct Hgot as (_ & _ & ->)|by subst s1].
    apply insert_subseteq, wf_fresh, Hs. }
  intros l s2 a2 x2 (j2 & Hj2 & HL2 & Hl). exists j2. split_and!; [by etransitivity|done|done].
Qed.

(** ** The bindings' own *)

Lemma twin_list_u8_free j s x l bs p n :
  linked j s x -> holds s l bs -> at_list j l p n ->
  twin (list_u8_free l) (function_list_u8_free (ListU8 p n))
    (keeps j (fun _ _ s' _ => heap s' = match bs, u8_ptr l with _ :: _, Some b => delete b (heap s) | _, _ => heap s end /\
       heap_step s s')) s x.
Proof. apply twin_list_free. Qed.

Lemma twin_string_free j s x l bs p n :
  linked j s x -> holds s l bs -> at_list j l p n ->
  twin (list_u8_free l) (function_string_free (FStr p n))
    (keeps j (fun _ _ s' r => r = null_string /\
       heap s' = match bs, u8_ptr l with _ :: _, Some b => delete b (heap s) | _, _ => heap s end)) s x.
Proof.
  intros HL Hh Hp. eapply (twin_eq _ (list_u8_free l ≫= mret)); [| |done].
  - eapply twin_seq; [by eapply twin_list_free|]. intros [] s1 [] x1 (j1 & Hj & HL1 & Hh1 & _). apply twin_ret. by exists j1.
  - intros e. unfold mbind, C_bind. by destruct (list_u8_free l e s) as [[[]]|].
Qed.

(** The copy of [n] bytes at [a], as both [dup] functions make it. *)
Lemma twin_dup_bytes j s m w a bs :
  linked j s (m, w) -> bytes_in j s a bs ->
  twin (cabi_lower bs) (dup_bytes a (Z.of_nat (length bs)))
    (keeps j (fun j' l s' r => lowered bs s l s' /\ at_list j' l (str_ptr r) (str_len r))) s (m, w).
Proof.
  intros HL Hm. set (n := Z.of_nat (length bs)). set (fill := fun m => read_bytes m a (Z.to_nat (n * 1))).
  eapply (twin_eq _ (cabi_lower bs ≫= mret) _ (p ← alloc_filled n fill; mret (FStr p n))).
  - eapply twin_seq.
    + apply twin_lower; [done|]. intros j' s' x' Hj Hh HL'. unfold fill, n. rewrite Z.mul_1_r, Nat2Z.id. by eapply Hm.
    + intros l s' p x' (j' & Hj & HL' & Hl & Hp). apply twin_ret. by exists j'.
  - intros e. unfold mbind, C_bind. by destruct (cabi_lower bs e s) as [[]|].
  - unfold dup_bytes, alloc_filled, mbind, guest_bind, g_memcpy. rewrite Z.mul_1_r.
    destruct (cabi_realloc 0 0 1 n (m, w)) as [[p y]|]; [|done]. unfold fill. rewrite Z.mul_1_r.
    by destruct (updating _ y) as [[]|].
Qed.

Lemma twin_string_dup j s m w a bs :
  linked j s (m, w) -> string_in j s a bs ->
  twin (string_dup bs) (function_string_dup a)
    (keeps j (fun j' l s' r => lowered bs s l s' /\ at_list j' l (str_ptr r) (str_len r))) s (m, w).
Proof.
  intros HL Hin. assert (c_string_at m a bs) as Hm by by eapply (Hin j s (m, w)).
  eapply twin_eq; [apply twin_dup_bytes; [exact HL|by apply string_in_bytes]| |].
  - intros e. unfold string_dup, string_dup_n. by rewrite Nat2Z.id, firstn_all.
  - unfold function_string_dup, mbind at 1, guest_bind, reading. by rewrite (strlen_spec _ _ _ Hm).
Qed.

Lemma twin_string_dup_n j s m w a bs n :
  linked j s (m, w) -> 0 <= n <= Z.of_nat (length bs) -> bytes_in j s a (take (Z.to_nat n) bs) ->
  twin (string_dup_n bs n) (function_string_dup_n a n)
    (keeps j (fun j' l s' r => lowered (take (Z.to_nat n) bs) s l s' /\ at_list j' l (str_ptr r) (str_len r))) s (m, w).
Proof.
  intros HL Hn Hin. pose proof (twin_dup_bytes j s m w a _ HL Hin) as H. rewrite length_take in H.
  replace (Z.of_nat (Nat.min (Z.to_nat n) (length bs))) with n in H by lia. exact H.
Qed.
End Lists.
