(* ===== verification/WasmfnProps.v ===== *)
(** The properties of the C glue's HTTP client and logger. *)
From S2P Require Import Prelude BindTypes CString Mbedtls Machine MachineLogic Wasmfn WasmfnMem WasmfnSend WasmfnBody WasmfnHeaders WasmfnRead WasmfnReadBody WasmfnSpec WasmfnText.
From Stdlib Require Import Strings.Byte.

(** ** Instances used by the witnesses *)

(** A host that grants everything and answers 200 with the body in two chunks. *)
Definition kind_host (tr : list event) (o : op) : ans o :=
  match o return ans o with
  | FieldsAppend _ _ _ => ROk tt
  | FieldsEntries _ => [(lit "content-type", lit "text/plain")]
  | SetMethod _ _ | SetScheme _ _ | SetAuthority _ _ | SetPathWithQuery _ _ => true
  | OutgoingRequestBody _ | OutgoingBodyWrite _ => true
  | IncomingResponseConsume _ | IncomingBodyStream _ => true
  | OutgoingHandlerHandle _ | OutgoingBodyFinish _ => ROk tt
  | BlockingWriteAndFlush _ _ => ROk tt
  | FutureGet _ => Some (ROk (ROk tt))
  | IncomingResponseStatus _ => 200
  | BlockingRead _ _ =>
      match reads tr with
      | O => ROk (lit " hel")
      | S O => ROk (lit "lo ")
      | _ => RErr (StreamError 1 None)
      end
  | Time => 1700000000
  | GetEntropy n => Some (replicate (Z.to_nat n) x00)
  | Mbedtls c => working_mbedtls c
  | _ => tt
  end.
(** The same with the handler refusing. *)
Definition refusing_host (tr : list event) (o : op) : ans o :=
  match o return ans o with
  | OutgoingHandlerHandle _ => RErr (ErrorCode 38 (V_internal_error (Some (lit "not granted"))))
  | o => kind_host tr o
  end.
Definition kind_env : env := Env kind_host (fun _ _ => true).
Definition refusing_env : env := Env refusing_host (fun _ _ => true).
Definition start : cst := Cst ∅ 1 {[ 0 := None ]} ∅ 1 [] 0 0.
Definition post_request : wasmfn_http_request :=
  HttpRequest (Some (lit "POST")) (Some (lit "https://example.org/a?b"))
    (Some [lit "accept"; lit "text/plain"]) (Some (lit "body")) 4.

Lemma kind_typed : typed_host kind_env.
Proof. by intros tr []. Qed.
Lemma refusing_typed : typed_host refusing_env.
Proof. intros tr []; simpl; try done. split; [cbn; lia|eauto]. Qed.
Lemma kind_closes : closes_after 2 kind_env.
Proof. intros tr h len bs. simpl. destruct (reads tr) as [|[|n]]; [lia|lia|done]. Qed.
Lemma refusing_closes : closes_after 2 refusing_env.
Proof. intros tr h len bs. simpl. destruct (reads tr) as [|[|n]]; [lia|lia|done]. Qed.
Lemma start_wf : wf start.
Proof. by split. Qed.
Lemma start_valid : valid (Some 0) start.
Proof. intros a [= <-]. done. Qed.
Lemma post_body_ok : body_ok post_request.
Proof. intros bs [= <-]. done. Qed.

(** ** The client *)

(** What stops the client: an allocation the bindings cannot do without, or the
    bound on the reading loop. *)
Definition only_fuel_or_memory (t : trap) : Prop := t = Aborted \/ t = OutOfFuel.
Definition only_memory (t : trap) : Prop := t = Aborted.

(** C1. Safety, for every host, every allocator and every request: the client
    never touches memory out of bounds, uninitialised or freed, never uses a
    handle that is dead or of another kind, never drops or hands over a resource
    with a live child, never writes more than 4096 bytes at once; and what it
    returns is consistent with the URL and the host's answers. *)
Theorem http_send_safe e fuel req rsp err s :
  typed_host e -> wf s -> valid err s -> body_ok req ->
  wp e only_fuel_or_memory (wasmfn_http_send Wasi fuel req rsp err)
    (fun _ s' => wf s' /\ heap s ⊆ heap s') s.
Proof.
  intros Hh Hs Hv Hb. eapply wp_mono.
  - apply wp_send_through_host; try done; [by left|]. left. by right.
  - intros [ok rsp'] s' H. unfold send_spec in H. destruct (url_parts _) as [m|[[tag a] p]].
    + destruct H as [_ Ht]. destruct Ht as [[] _ _ _]. done.
    + destruct ok; [destruct H as (x & _ & [[] _ _ _] & _)|destruct H as (evs & [] & _)]; done.
Qed.

Lemma http_send_safe_witness :
  typed_host kind_env /\
  wp kind_env only_fuel_or_memory (wasmfn_http_send Wasi 3 post_request response_zero (Some 0))
    (fun _ s' => wf s' /\ heap start ⊆ heap s') start.
Proof.
  split; [exact kind_typed|].
  apply (http_send_safe kind_env 3 post_request response_zero (Some 0) start
           kind_typed start_wf start_valid post_body_ok).
Defined.

(** C2. A successful send conducted exactly one exchange with the host: the
    URL's scheme, authority and path, the method, the header pairs in order and
    the body in chunks went out, every call was granted, the response holds the
    status, headers and concatenated chunks the host gave, and every resource
    the exchange created has been dropped or handed over. *)
Theorem http_send_exchange e fuel req rsp err s :
  typed_host e -> wf s -> valid err s -> body_ok req ->
  wp e only_fuel_or_memory (wasmfn_http_send Wasi fuel req rsp err) (fun res s' =>
    res.1 = true -> exists tag authority path x,
      url_parts (rq_url req) = inr (tag, authority, path) /\
      trace s' = trace s ++ exchange_events (next_h s) req tag authority path x /\
      refusals (exchange_events (next_h s) req tag authority path x) = [] /\
      handles s' = handles s /\ vars s' = vars s /\ response_is x s s' res.2) s.
Proof.
  intros Hh Hs Hv Hb. eapply wp_mono.
  - apply wp_send_through_host; try done; [by left|]. left. by right.
  - intros [ok rsp'] s' H; cbn [fst snd]; intros ->. unfold send_spec in H. destruct (url_parts _) as [m|[[tag a] p]].
    + by destruct H.
    + destruct H as (x & _ & [Hp ? ? ?] & ?). exists tag, a, p, x. split_and!; try done. apply Hp.
Qed.

Lemma http_send_exchange_witness :
  typed_host kind_env /\
  wp kind_env only_fuel_or_memory (wasmfn_http_send Wasi 3 post_request response_zero (Some 0)) (fun res s' =>
    res.1 = true -> exists tag authority path x,
      url_parts (rq_url post_request) = inr (tag, authority, path) /\
      trace s' = trace start ++ exchange_events (next_h start) post_request tag authority path x /\
      refusals (exchange_events (next_h start) post_request tag authority path x) = [] /\
      handles s' = handles start /\ vars s' = vars start /\ response_is x start s' res.2) start.
Proof.
  split; [exact kind_typed|].
  apply (http_send_exchange kind_env 3 post_request response_zero (Some 0) start
           kind_typed start_wf start_valid post_body_ok).
Defined.

(** C13. A send that returns false says why: the URL was refused before any call
    was made and [*err] is the reason; or exactly one call was refused by the
    host and [*err] is that refusal - an error-code's own reason verbatim for
    internal-error, its WIT name otherwise; or an allocation failed. *)
Theorem http_send_failure e fuel req rsp err s :
  typed_host e -> wf s -> valid err s -> body_ok req ->
  wp e only_fuel_or_memory (wasmfn_http_send Wasi fuel req rsp err) (fun res s' =>
    res.1 = false ->
    (exists m, url_parts (rq_url req) = inl m /\ trace s' = trace s /\ reported err m s s') \/
    (exists evs m, trace s' = trace s ++ evs /\ refusals evs = [m] /\ reported err m s s') \/
    (denied s < denied s')%nat) s.
Proof.
  intros Hh Hs Hv Hb. eapply wp_mono.
  - apply wp_send_through_host; try done; [by left|]. left. by right.
  - intros [ok rsp'] s' H; cbn [fst snd]; intros ->. unfold send_spec in H. destruct (url_parts _) as [m|[[tag a] p]].
    + left. exists m. destruct H as [_ [Hp _ _ ?]]. split_and!; try done.
      by rewrite (pr_trace _ _ _ Hp), app_nil_r.
    + right. destruct H as (evs & Hp & [(m & ? & ?)|(? & ? & ?)]); [left|by right].
      exists evs, m. split_and!; try done. apply Hp.
Qed.

Lemma http_send_failure_witness :
  typed_host refusing_env /\
  wp refusing_env only_fuel_or_memory (wasmfn_http_send Wasi 3 post_request response_zero (Some 0)) (fun res s' =>
    res.1 = false ->
    (exists m, url_parts (rq_url post_request) = inl m /\ trace s' = trace start /\ reported (Some 0) m start s') \/
    (exists evs m, trace s' = trace start ++ evs /\ refusals evs = [m] /\ reported (Some 0) m start s') \/
    (denied start < denied s')%nat) start.
Proof.
  split; [exact refusing_typed|].
  apply (http_send_failure refusing_env 3 post_request response_zero (Some 0) start
           refusing_typed start_wf start_valid post_body_ok).
Defined.

(** C14. Termination: if the host gives at most [n] chunks in all before it ends
    a stream, [n] turns of the reading loop and the one that sees the end are
    enough - the client returns, or aborts for want of memory. *)
Theorem http_send_terminates e n fuel req rsp err s :
  typed_host e -> closes_after n e -> (reads (trace s) <= n < reads (trace s) + fuel)%nat ->
  wf s -> valid err s -> body_ok req ->
  wp e only_memory (wasmfn_http_send Wasi fuel req rsp err) (send_spec req err s) s.
Proof.
  intros Hh Hc Hn Hs Hv Hb. apply wp_send_through_host; try done. right. exists n. split; [done|lia].
Qed.

Lemma http_send_terminates_witness :
  closes_after 2 kind_env /\
  wp kind_env only_memory (wasmfn_http_send Wasi 3 post_request response_zero (Some 0))
    (send_spec post_request (Some 0) start) start.
Proof.
  split; [exact kind_closes|].
  apply (http_send_terminates kind_env 2 3 post_request response_zero (Some 0) start
           kind_typed kind_closes ltac:(vm_compute; lia) start_wf start_valid post_body_ok).
Defined.

(** C29. The request body reaches the host whole: a [write_body] that succeeds
    wrote, in order, chunks of 1 to 4096 bytes whose concatenation is the body,
    then dropped the stream and finished the body. *)
Theorem write_body_whole e body bs len err s :
  typed_host e -> wf s -> valid err s ->
  handles s !! body = Some (Hentry OutgoingBody None) -> childless body (handles s) ->
  0 <= len <= Z.of_nat (length bs) -> len <= 2 ^ 32 - write_chunk ->
  wp e only_memory (write_body body bs len err) (fun ok s' => ok = true ->
    exists cs, trace s' = trace s ++ [Ev (OutgoingBodyWrite body) true] ++
                 write_events (next_h s) cs ++
                 [Ev (Drop OutputStream (next_h s)) tt; Ev (OutgoingBodyFinish body) (ROk tt)] /\
      concat cs = take (Z.to_nat len) bs /\
      Forall (fun c => 0 < Z.of_nat (length c) <= 4096) cs) s.
Proof.
  intros Hh Hs Hv Hl Hc Hn Hm. eapply wp_mono; [by eapply wp_write_body|].
  intros ok s' H ->. destruct H as [[[] _ _ _] _]. exists (chunked (take (Z.to_nat len) bs)).
  split_and!; [done|apply concat_chunked|apply chunked_sizes].
Qed.

Definition with_body : cst :=
  Cst ∅ 1 {[ 0 := None ]} {[ 1 := Hentry OutgoingBody None ]} 2 [] 0 0.

Lemma write_body_whole_witness :
  wf with_body /\
  wp kind_env only_memory (write_body 1 (lit "some body") 9 (Some 0)) (fun ok s' => ok = true ->
    exists cs, trace s' = trace with_body ++ [Ev (OutgoingBodyWrite 1) true] ++
                 write_events (next_h with_body) cs ++
                 [Ev (Drop OutputStream (next_h with_body)) tt; Ev (OutgoingBodyFinish 1) (ROk tt)] /\
      concat cs = take (Z.to_nat 9) (lit "some body") /\
      Forall (fun c => 0 < Z.of_nat (length c) <= 4096) cs) with_body.
Proof.
  assert (wf with_body) as Hwf.
  { split; try done; intros h r; [|intros p]; unfold with_body; cbn [handles next_h];
      intros [<- <-]%lookup_singleton_Some; [lia|done]. }
  split; [exact Hwf|].
  apply (write_body_whole kind_env 1 (lit "some body") 9 (Some 0) with_body kind_typed Hwf).
  - intros a [= <-]. done.
  - done.
  - intros k r. unfold with_body. cbn [handles]. by intros [<- <-]%lookup_singleton_Some.
  - vm_compute. split; discriminate.
  - vm_compute. discriminate.
Defined.

(** ** URLs and error codes *)

Definition has_scheme (u : bytes) (tag : Z) (rest : bytes) : Prop :=
  (tag = WASI_HTTP_TYPES_SCHEME_HTTPS /\ u = lit "https://" ++ rest) \/
  (tag = WASI_HTTP_TYPES_SCHEME_HTTP /\ u = lit "http://" ++ rest).

Lemma strncmp_prefix_drop u p n :
  length p = n -> strncmp_eq u p n = true -> u = p ++ drop n u.
Proof. intros <- H. apply strncmp_eq_prefix in H as [r ->]. by rewrite drop_app_length. Qed.

(** The parts found are the parts there are. *)
Lemma url_parts_sound u tag a p :
  url_parts (Some u) = inr (tag, a, p) ->
  exists rest, has_scheme u tag (a ++ rest) /\ a <> [] /\ x2f ∉ a /\
    ((rest = [] /\ p = lit "/") \/ (rest = p /\ exists r, p = x2f :: r)).
Proof.
  unfold url_parts.
  assert (forall t rest, match strchr rest x2f with
     | Some O => inl (lit "the URL has no host")
     | Some i => inr (t, take i rest, drop i rest)
     | None => if decide (rest = []) then inl (lit "the URL has no host") else inr (t, rest, lit "/")
     end = inr (tag, a, p) ->
     t = tag /\ exists rest', rest = a ++ rest' /\ a <> [] /\ x2f ∉ a /\
       ((rest' = [] /\ p = lit "/") \/ (rest' = p /\ exists r, p = x2f :: r))) as Hgo.
  { intros t rest. destruct (strchr rest x2f) as [[|i]|] eqn:E; [done| |].
    - intros [= <- <- <-]. apply strchr_Some in E as (r & Hr & Hn & Hi). split; [done|].
      exists (drop (S i) rest). rewrite take_drop. split_and!; [done| |done|].
      + intros Hz. apply (f_equal length) in Hz. rewrite length_take in Hz. cbn [length] in Hz. lia.
      + right. split; [done|]. exists r. rewrite Hr at 1. rewrite drop_app_ge by (rewrite length_take; lia).
        replace (S i - length (take (S i) rest))%nat with O by (rewrite length_take; lia). done.
    - destruct (decide (rest = [])); [done|]. intros [= <- <- <-]. apply strchr_None in E.
      split; [done|]. exists []. rewrite app_nil_r. split_and!; try done. by left. }
  destruct (strncmp_eq u (lit "https://") 8) eqn:E1; [|destruct (strncmp_eq u (lit "http://") 7) eqn:E2; [|done]].
  - apply (strncmp_prefix_drop u (lit "https://") 8 eq_refl) in E1. intros H.
    apply Hgo in H as (<- & rest & Hr & H). exists rest. split; [|done]. left. by rewrite <- Hr.
  - apply (strncmp_prefix_drop u (lit "http://") 7 eq_refl) in E2. intros H.
    apply Hgo in H as (<- & rest & Hr & H). exists rest. split; [|done]. right. by rewrite <- Hr.
Qed.

(** C30. [split_url] accepts a URL only with one of the two schemes and a
    nonempty authority, which is everything up to the first slash; the path is
    the rest from that slash on, or "/". The copies it returns are the parts. *)
Theorem split_url_parts e url err s :
  wf s -> valid err s ->
  wp e only_memory (split_url (Some url) err) (fun r s' =>
    match r with
    | Some (scheme, authority, path) => exists a p rest,
        has_scheme url (sc_tag scheme) (a ++ rest) /\ a <> [] /\ x2f ∉ a /\
        ((rest = [] /\ p = lit "/") \/ (rest = p /\ exists r, p = x2f :: r)) /\
        holds s' authority a /\ holds s' path p
    | None => exists m, url_parts (Some url) = inl m /\ told err m s s'
    end) s.
Proof.
  intros Hs Hv. eapply wp_mono; [by apply wp_split_url|]. intros r s' H.
  destruct r as [[[sc l] l']|], (url_parts (Some url)) as [m|[[tag a] p]] eqn:E; try done; [|by eauto].
  destruct H as (_ & _ & -> & Ha & Hp). apply url_parts_sound in E as (rest & Hu & Hne & Hn & Hr).
  exists a, p, rest. done.
Qed.

Lemma split_url_parts_witness :
  wf start /\
  wp kind_env only_memory (split_url (Some (lit "http://h:80/x?y")) (Some 0)) (fun r s' =>
    match r with
    | Some (scheme, authority, path) => exists a p rest,
        has_scheme (lit "http://h:80/x?y") (sc_tag scheme) (a ++ rest) /\ a <> [] /\ x2f ∉ a /\
        ((rest = [] /\ p = lit "/") \/ (rest = p /\ exists r, p = x2f :: r)) /\
        holds s' authority a /\ holds s' path p
    | None => exists m, url_parts (Some (lit "http://h:80/x?y")) = inl m /\ told (Some 0) m start s'
    end) start.
Proof.
  split; [exact start_wf|].
  apply (split_url_parts kind_env (lit "http://h:80/x?y") (Some 0) start start_wf start_valid).
Defined.

(** Every error code is worded: internal-error by the host's own reason (to
    its first NUL), any other case, and an internal-error without a reason, as
    "wasi:http error-code" and its name - the WIT name of the case of that tag,
    "unknown" for a tag the WIT does not have. *)
Theorem describe_error_code_text e T c s :
  typed_code c -> wf s ->
  wp e T (describe_error_code c) (worded (code_text c) s) s /\
  match ec_val c with
  | V_internal_error (Some reason) =>
      ec_tag c = 38 -> code_text c = until_nul reason
  | _ => code_text c = lit "wasi:http error-code " ++
           match error_code_names !! Z.to_nat (ec_tag c) with Some n => n | None => lit "unknown" end
  end.
Proof.
  intros Hc Hs. split; [by apply wp_describe_error_code|]. unfold code_text.
  destruct (decide (ec_tag c = WASI_HTTP_TYPES_ERROR_CODE_INTERNAL_ERROR)) as [E|E];
    destruct (ec_val c) as [| | | | | | | | | | | | | | |[r|]]; try done; by destruct (error_code_names !! _).
Qed.

Lemma describe_error_code_text_witness :
  typed_code (ErrorCode 6 V_none) /\ code_text (ErrorCode 6 V_none) = lit "wasi:http error-code connection-refused".
Proof.
  assert (typed_code (ErrorCode 6 V_none)) as Hc by (split; [cbn; lia|done]).
  split; [exact Hc|].
  exact (proj2 (describe_error_code_text kind_env only_memory (ErrorCode 6 V_none) start Hc start_wf)).
Defined.

(** ** Reading the response *)

(** [wasmfn_http_header] finds the first header of the name, compared
    without case, in the array [response_headers] built, and touches nothing. *)
Theorem http_header_first e s0 s fuel rsp x name :
  response_is x s0 s rsp -> denied s = denied s0 -> (length (x_entries x) < fuel)%nat ->
  wp e (fun _ => False) (wasmfn_http_header fuel rsp name) (fun r s' => s' = s /\
    match r, first_value (x_entries x) name with
    | Some b, Some v => heap s !! b = Some (c_string v)
    | None, None => True
    | _, _ => False
    end) s.
Proof.
  intros (_ & (hb & Hb & Harr) & _) Hd Hf. unfold wasmfn_http_header. rewrite Hb.
  destruct (header_array_strings _ _ _ _ Harr Hd) as (ps & Hps & Hstr).
  exact (wp_find_header fuel hb (x_entries x) name [] ps s Hps Hstr Hf).
Qed.

Definition got_headers : cst :=
  Cst {[ 5 := Ptrs [Some 6; Some 7; None]; 6 := c_string (lit "content-type");
         7 := c_string (lit "text/plain"); 8 := Bytes [Some NUL] ]} 9 ∅ ∅ 1 [] 0 0.
Definition got_rsp : wasmfn_http_response := HttpResponse 200 (Some 5) (Some 8) 0.
Definition got_x : exchange :=
  Exchange 200 [(lit "content-type", lit "text/plain")] [] (StreamError 1 None).

Lemma http_header_first_witness :
  response_is got_x start got_headers got_rsp /\
  wp kind_env (fun _ => False) (wasmfn_http_header 2 got_rsp (lit "Content-TYPE")) (fun r s' =>
    s' = got_headers /\
    match r, first_value (x_entries got_x) (lit "Content-TYPE") with
    | Some b, Some v => heap got_headers !! b = Some (c_string v)
    | None, None => True
    | _, _ => False
    end) got_headers.
Proof.
  assert (response_is got_x start got_headers got_rsp) as H.
  { split; [done|]. split; [|split; [|done]].
    - exists 5. split; [done|]. exists [Some 6; Some 7]. split; [done|].
      repeat constructor; done.
    - by exists 8. }
  split; [exact H|].
  apply (http_header_first kind_env start got_headers 2 got_rsp got_x (lit "Content-TYPE") H eq_refl).
  vm_compute. lia.
Defined.

(** [wasmfn_http_get_text] returns, for a 200, the body up to its first NUL
    with the white space around it trimmed; for any other status it reports that
    status; otherwise it reports why the request failed. *)
Theorem get_text_trimmed e fuel url err s :
  typed_host e -> wf s -> valid err s -> Z.of_nat (length (arg_s url)) < 2 ^ 30 ->
  wp e only_fuel_or_memory (wasmfn_http_get_text Wasi fuel url err) (fun r s' =>
    match r with
    | Some (b, off) => exists tag a p x,
        url_parts url = inr (tag, a, p) /\ x_status x = 200 /\ 0 <= off /\
        trace s' = trace s ++ exchange_events (next_h s) (get_request url) tag a p x /\
        handles s' = handles s /\
        exists cs, heap s' !! b = Some (Bytes cs) /\
          scan (drop (Z.to_nat off) cs) = Ok (until_nul (trim (concat (x_chunks x))))
    | None =>
        (exists tag a p x, trace s' = trace s ++ exchange_events (next_h s) (get_request url) tag a p x /\
           x_status x <> 200 /\
           (reported err (status_text url (x_status x)) s s' \/ (denied s < denied s')%nat)) \/
        (exists m, url_parts url = inl m /\ reported err m s s') \/
        (exists evs, failure err evs s s')
    end) s.
Proof.
  intros Hh Hs Hv Hu. eapply wp_mono.
  - apply wp_get_text; try done; [by left|]. left. by right.
  - intros r s' (_ & _ & H). exact H.
Qed.

Lemma get_text_trimmed_witness :
  match wasmfn_http_get_text Wasi 3 (Some (lit "https://example.org")) (Some 0) kind_env start with
  | Ok (Some (b, off), s') => c_str b off kind_env s' = Ok (lit "hello", s')
  | _ => False
  end /\
  wp kind_env only_fuel_or_memory (wasmfn_http_get_text Wasi 3 (Some (lit "https://example.org")) (Some 0))
    (fun r s' =>
    match r with
    | Some (b, off) => exists tag a p x,
        url_parts (Some (lit "https://example.org")) = inr (tag, a, p) /\ x_status x = 200 /\ 0 <= off /\
        trace s' = trace start ++ exchange_events (next_h start) (get_request (Some (lit "https://example.org"))) tag a p x /\
        handles s' = handles start /\
        exists cs, heap s' !! b = Some (Bytes cs) /\
          scan (drop (Z.to_nat off) cs) = Ok (until_nul (trim (concat (x_chunks x))))
    | None =>
        (exists tag a p x, trace s' = trace start ++ exchange_events (next_h start) (get_request (Some (lit "https://example.org"))) tag a p x /\
           x_status x <> 200 /\
           (reported (Some 0) (status_text (Some (lit "https://example.org")) (x_status x)) start s' \/ (denied start < denied s')%nat)) \/
        (exists m, url_parts (Some (lit "https://example.org")) = inl m /\ reported (Some 0) m start s') \/
        (exists evs, failure (Some 0) evs start s')
    end) start.
Proof.
  split; [vm_compute; reflexivity|].
  apply (get_text_trimmed kind_env 3 (Some (lit "https://example.org")) (Some 0) start
           kind_typed start_wf start_valid).
  vm_compute. reflexivity.
Defined.

(** ** The logger *)

(** [log_record] makes one call of the host's log with the message and all
    the pairs, NULL values as empty strings, and leaves the heap as it was; it
    logs nothing only when the array of pairs could not be allocated. *)
Theorem log_record_once e level msg kv s :
  wf s ->
  wp e (fun _ => False) (log_record level msg kv) (fun _ s' =>
    wf s' /\ heap s' = heap s /\ handles s' = handles s /\
    (trace s' = trace s ++ [Ev (Log level msg (pair_values kv)) tt] \/
     (trace s' = trace s /\ kv <> [] /\ (denied s < denied s')%nat))) s.
Proof. intros Hs. eapply wp_mono; [by apply wp_log_record|]. intros [] s' [H _]. exact H. Qed.

Lemma log_record_once_witness :
  wf start /\
  wp kind_env (fun _ => False) (log_record level_info (lit "Running") [(lit "tag", None)]) (fun _ s' =>
    wf s' /\ heap s' = heap start /\ handles s' = handles start /\
    (trace s' = trace start ++ [Ev (Log level_info (lit "Running") [(lit "tag", [])]) tt] \/
     (trace s' = trace start /\ [(lit "tag", None : option bytes)] <> [] /\ (denied start < denied s')%nat))) start.
Proof.
  split; [exact start_wf|].
  apply (log_record_once kind_env level_info (lit "Running") [(lit "tag", None)] start start_wf).
Defined.
