(* ===== verification/LinkedProps.v ===== *)
(** What a guest starts from, and the refinement of the machine's heap by linear
    memory. *)
From S2P Require Import Prelude LinMem BindTypes BindFree BindFreeSpec BindFreeList BindString Proto Machine MachineLogic Wasmfn WasmfnMem WasmfnSend WasmfnProps Placement Linked.
From Stdlib Require Import Strings.Byte.

(** ** A fresh instance *)

(** No block is the allocator's yet: the cells are the static data. *)
Lemma placed_init s m :
  wf s -> mem_ok m -> blocks m = ∅ -> brk m <= limit m <= memory_size -> heap_size (heap s) <= brk m ->
  placed (cells m) (dom (heap s)) ∅ s m.
Proof.
  intros Hs M Hb Hroom Hsz. split; try done.
  - split; try done; rewrite Hb; intros p n *; by rewrite lookup_empty.
  - intros b k Hk Hn. apply elem_of_dom_2 in Hk. done.
  - intros a n. by rewrite Hb, lookup_empty.
  - intros b Hd. by apply elem_of_dom in Hd.
  - intros x o Hx. rewrite Hb. split; [intros p n; by rewrite lookup_empty|]. destruct o; [done|by eexists].
Qed.

(** A memory with the shim's return area at 1024 and the literal at 1048. *)
Definition cannot_encode_text : bytes := lit "cannot encode RunFunctionResponse".
Definition guest_memory : wmem :=
  let '(area, m1) := area_alloc (mem_init 65536) 12 in
  let '(text, m2) := area_alloc m1 (Z.of_nat (length cannot_encode_text) + 1) in
  match write_bytes m2 text (cannot_encode_text ++ [x00]) with Ok m => m | Trap _ => m2 end.

(** The static result is the one block the machine has at first. *)
Definition guest_state : cst := Cst {[ 1 := ResultArr [fnv1_Result_zero] ]} 2 ∅ ∅ 1 [] 0 0.

Lemma guest_state_wf : wf guest_state.
Proof.
  split; try done. intros b k. cbn. rewrite lookup_singleton. case_decide; [|done]. intros _. lia.
Qed.

Definition no_world (_ : list event) (_ : gmap Z hentry) (_ : unit) : Prop := True.

Lemma guest_linked : linked (cells guest_memory) (dom (heap guest_state)) no_world ∅ guest_state (guest_memory, tt).
Proof.
  split; [|done]. apply placed_init; [apply guest_state_wf|by apply mem_ok_check|reflexivity|by vm_compute|by vm_compute].
Qed.

(** ** The heap *)

(** The machine's heap is refined by linear memory: on placed blocks, [malloc],
    [free], [realloc], reading bytes and writing them do what libc's functions do at
    the blocks' addresses - the same results, NULL exactly when the memory has no
    room, the same bytes, the old block's first bytes in the new one - and leave the
    heap placed, with every block kept at its address. *)
Theorem memory_refines_heap {W} host_answers fixed own (world : list event -> gmap Z hentry -> W -> Prop) j s m w :
  linked fixed own world j s (m, w) ->
  (forall n, 0 <= n -> twin host_answers (Machine.malloc n) (g_malloc n)
     (keeps fixed own world j (got own (Bytes (replicate (Z.to_nat n) None)) s)) s (m, w)) /\
  (forall b k a, heap s !! b = Some k -> points own j (Some b) a ->
     twin host_answers (Machine.free (Some b)) (g_free a)
       (keeps fixed own world j (fun _ _ s' _ => s' = set_heap (delete b (heap s)) s)) s (m, w)) /\
  (forall b cs a n, heap s !! b = Some (Bytes cs) -> points own j (Some b) a -> 0 <= n ->
     twin host_answers (Machine.realloc (Some b) n) (g_realloc a n) (keeps fixed own world j (moved own s b cs n)) s (m, w)) /\
  (forall b cs a off n bs, heap s !! b = Some (Bytes cs) -> points own j (Some b) a -> 0 <= off -> 0 <= n ->
     off + n <= Z.of_nat (length cs) -> take (Z.to_nat n) (drop (Z.to_nat off) cs) = map Some bs ->
     twin host_answers (read b off n) (reading (fun m => read_bytes m (a + off) (Z.to_nat n)))
       (keeps fixed own world j (fun _ r s' r' => r = bs /\ r' = bs /\ s' = s)) s (m, w)) /\
  (forall b cs a off bs, heap s !! b = Some (Bytes cs) -> points own j (Some b) a -> 0 <= off ->
     off + Z.of_nat (length bs) <= Z.of_nat (length cs) ->
     twin host_answers (put b off bs) (updating (fun m => write_bytes m (a + off) bs))
       (keeps fixed own world j (fun _ _ s' _ => s' = set_heap (<[b := Bytes (overwritten cs off bs)]> (heap s)) s)) s (m, w)).
Proof.
  intros HL. split_and!; intros.
  - by apply twin_malloc.
  - apply (twin_free host_answers fixed own world j s (m, w) (Some b)); [done..|]. by intros ? [= <-].
  - by apply twin_realloc.
  - by eapply twin_read.
  - by eapply twin_put.
Qed.

(** A block of three bytes, allocated first. *)
Definition with_three : cst := add_block (Bytes (replicate 3 None)) guest_state.
Definition three_memory : wmem := grown guest_memory 3.
Definition three_at : gmap Z Z := <[2 := brk guest_memory]> ∅.

Lemma three_linked : linked (cells guest_memory) (dom (heap guest_state)) no_world three_at with_three (three_memory, tt).
Proof.
  split; [|done]. apply (placed_grow _ _ ∅ guest_state guest_memory 3); [apply guest_linked|done|by vm_compute].
Qed.

Lemma memory_refines_heap_witness :
  heap with_three !! 2 = Some (Bytes [None; None; None]) /\ points (dom (heap guest_state)) three_at (Some 2) 1096 /\
  twin (answers kind_env) (put 2 1 (lit "hi")) (updating (W := unit) (fun m => write_bytes m (1096 + 1) (lit "hi")))
    (keeps (cells guest_memory) (dom (heap guest_state)) no_world three_at
       (fun _ _ s' _ => s' = set_heap (<[2 := Bytes (overwritten [None; None; None] 1 (lit "hi"))]> (heap with_three)) with_three))
    with_three (three_memory, tt).
Proof.
  assert (heap with_three !! 2 = Some (Bytes [None; None; None])) as Hb by (vm_compute; reflexivity).
  assert (points (dom (heap guest_state)) three_at (Some 2) 1096) as Hp.
  { split; [vm_compute; reflexivity|]. apply (bool_decide_unpack _). vm_compute. exact I. }
  split; [exact Hb|]. split; [exact Hp|].
  pose proof (memory_refines_heap (answers kind_env) (cells guest_memory) (dom (heap guest_state)) no_world three_at
                with_three three_memory tt three_linked) as (_ & _ & _ & _ & H).
  apply (H 2 [None; None; None] 1096 1 (lit "hi") Hb Hp); [lia|cbn; lia].
Defined.

(** ** The bindings' strings and lists *)

(** C21. The bindings' strings and lists are the machine's: in memory as in the heap,
    [function_string_dup] and [function_string_dup_n] copy the bytes at an address
    into a new block, a list the host lowers with [cabi_realloc] is a new block, and
    [function_list_u8_free] and [function_string_free] give a list's block back,
    nothing of an empty one; what does not fit is [abort], on both sides; every
    other block stays where it is, as it was. *)
Theorem strings_refine_blocks {W} host_answers fixed own (world : list event -> gmap Z hentry -> W -> Prop) j s m w :
  linked fixed own world j s (m, w) ->
  (forall a bs, string_in fixed own world j s a bs ->
     twin host_answers (string_dup bs) (function_string_dup a)
       (keeps fixed own world j (fun j' l s' r => lowered bs s l s' /\ at_list own j' l (str_ptr r) (str_len r))) s (m, w)) /\
  (forall a bs n, 0 <= n <= Z.of_nat (length bs) -> bytes_in fixed own world j s a (take (Z.to_nat n) bs) ->
     twin host_answers (string_dup_n bs n) (function_string_dup_n a n)
       (keeps fixed own world j (fun j' l s' r => lowered (take (Z.to_nat n) bs) s l s' /\
          at_list own j' l (str_ptr r) (str_len r))) s (m, w)) /\
  (forall bs, twin host_answers (cabi_lower bs) (lower_bytes bs)
     (keeps fixed own world j (fun j' l s' p => lowered bs s l s' /\ at_list own j' l p (Z.of_nat (length bs)))) s (m, w)) /\
  (forall l bs p n, holds s l bs -> at_list own j l p n ->
     let gone s' := heap s' = match bs, u8_ptr l with _ :: _, Some b => delete b (heap s) | _, _ => heap s end in
     twin host_answers (list_u8_free l) (function_list_u8_free (ListU8 p n))
       (keeps fixed own world j (fun _ _ s' _ => gone s' /\ heap_step s s')) s (m, w) /\
     twin host_answers (list_u8_free l) (function_string_free (FStr p n))
       (keeps fixed own world j (fun _ _ s' r => r = null_string /\ gone s')) s (m, w)).
Proof.
  intros HL. split_and!; intros.
  - by apply twin_string_dup.
  - by apply twin_string_dup_n.
  - by apply twin_lower.
  - split; [by apply twin_list_u8_free|by apply twin_string_free].
Qed.

(** The literal, copied. *)
Lemma strings_refine_blocks_witness :
  linked (cells guest_memory) (dom (heap guest_state)) no_world ∅ guest_state (guest_memory, tt) /\
  twin (answers kind_env) (string_dup cannot_encode_text) (function_string_dup 1048)
    (keeps (cells guest_memory) (dom (heap guest_state)) no_world ∅
       (fun j' l s' r => lowered cannot_encode_text guest_state l s' /\
          at_list (dom (heap guest_state)) j' l (str_ptr r) (str_len r))) guest_state (guest_memory, tt).
Proof.
  split; [apply guest_linked|].
  pose proof (strings_refine_blocks (answers kind_env) (cells guest_memory) (dom (heap guest_state)) no_world ∅
                guest_state guest_memory tt guest_linked) as [H _].
  apply (H 1048 cannot_encode_text), constant_in, constant_check; vm_compute; reflexivity.
Defined.
