(* ===== verification/Structpb.v ===== *)
(** The helpers over google.protobuf.Struct and Value
    (crates/guestfn/templates/c/src/structpb.c; the same file in
    crates/guestfn/testdata/c, examples/hello-c and examples/cert-rotator), on
    arrays in the heap: [structpb_set] overwrites an entry in place or
    reallocates the array, which frees the old one.

    [structpb_get] and [structpb_struct] return pointers into the message, which
    the callers read before anything changes: here they return what is pointed
    to. *)
From S2P Require Import Prelude BindTypes CString Proto Machine MachineLogic.
From Stdlib Require Import Strings.Byte.

(** ** Reading *)

Definition fields_arr (p : option Z) : C (list google_protobuf_Struct_FieldsEntry) :=
  k ← block_at p; match k with FieldsArr l => mret l | _ => stop UB end.

Definition field_at (p : option Z) (i : nat) : C google_protobuf_Struct_FieldsEntry :=
  l ← fields_arr p; match l !! i with Some e => mret e | None => stop UB end.

(** The loop from index [i], [n] entries before the end. *)
Fixpoint get_from (n : nat) (p : option Z) (i : nat) (key : bytes) : C (option google_protobuf_Value) :=
  match n with
  | O => mret None
  | S n =>
      e ← field_at p i;
      match fe_key e with
      | Some k =>
          if fe_has_value e && strcmp_eq k key then mret (Some (fe_value e)) else get_from n p (S i) key
      | None => get_from n p (S i) key
      end
  end.

Definition structpb_get (s : option google_protobuf_Struct) (key : option bytes)
    : C (option google_protobuf_Value) :=
  match s, key with
  | Some s, Some key => get_from (Z.to_nat (fields_count s)) (fields s) O key
  | _, _ => mret None
  end.

Definition structpb_string (v : option google_protobuf_Value) : option bytes :=
  match v with Some (string_value s) => s | _ => None end.

Definition structpb_struct (v : option google_protobuf_Value) : option google_protobuf_Struct :=
  match v with Some (struct_value s) => Some s | _ => None end.

(** The keys before the terminating NULL. *)
Fixpoint lookup_from (s : option google_protobuf_Struct) (keys : list bytes)
    (v : option google_protobuf_Value) : C (option google_protobuf_Value) :=
  match keys with
  | [] => mret v
  | key :: keys =>
      v ← structpb_get s (Some key);
      match v with
      | None => mret None
      | Some _ => lookup_from (structpb_struct v) keys v
      end
  end.
Definition structpb_lookup (s : option google_protobuf_Struct) (keys : list bytes)
    : C (option google_protobuf_Value) := lookup_from s keys None.

(** ** Building *)

Definition structpb_string_value (s : option bytes) : google_protobuf_Value := string_value s.
Definition structpb_number_value (d : spec_float) : google_protobuf_Value := number_value d.
Definition structpb_bool_value (b : bool) : google_protobuf_Value := bool_value b.
Definition structpb_struct_value (s : google_protobuf_Struct) : google_protobuf_Value := struct_value s.

(** [realloc] of an entries array to [n] entries; the new ones are written
    before they are read. *)
Definition realloc_fields (p : option Z) (n : nat) : C (option Z) :=
  match p with
  | None => alloc_replacing 0 (FieldsArr (replicate n FieldsEntry_zero))
  | Some b =>
      l ← fields_arr p;
      q ← alloc_replacing (block_size (FieldsArr l)) (FieldsArr (resize n FieldsEntry_zero l));
      match q with
      | None => mret None
      | Some b' => _ ← free (Some b); mret (Some b')
      end
  end.

Definition write_field (p : option Z) (i : nat) (e : google_protobuf_Struct_FieldsEntry) : C unit :=
  l ← fields_arr p;
  match p with
  | Some b => if decide (i < length l)%nat then set_block b (FieldsArr (<[i := e]> l)) else stop UB
  | None => stop UB
  end.

(** The loop that overwrites the entry of [key]: whether there was one. *)
Fixpoint set_from (n : nat) (p : option Z) (i : nat) (key : bytes) (v : google_protobuf_Value) : C bool :=
  match n with
  | O => mret false
  | S n =>
      e ← field_at p i;
      match fe_key e with
      | Some k =>
          if strcmp_eq k key
          then _ ← write_field p i (FieldsEntry (Some k) true v); mret true
          else set_from n p (S i) key v
      | None => set_from n p (S i) key v
      end
  end.

(** Whether it succeeded, and [*s]. A size past the end of memory would wrap
    round to an array too small to write to. *)
Definition structpb_set (s : google_protobuf_Struct) (key : bytes) (v : google_protobuf_Value)
    : C (bool * google_protobuf_Struct) :=
  let n := Z.to_nat (fields_count s) in
  found ← set_from n (fields s) O key v;
  if (found : bool) then mret (true, s) else
  if memory_size <=? 24 * (fields_count s + 1) then stop UB else
  p ← realloc_fields (fields s) (S n);
  match p with
  | None => mret (false, s)
  | Some b =>
      _ ← write_field (Some b) n (FieldsEntry (Some key) true v);
      mret (true, PbStruct (uwrap 32 (fields_count s + 1)) (Some b))
  end.

(** ** The object a Struct denotes *)

(** [st]'s fields are [l], in heap [h]. *)
Definition struct_is (h : gmap Z block) (st : google_protobuf_Struct)
    (l : list google_protobuf_Struct_FieldsEntry) : Prop :=
  fields_count st = Z.of_nat (length l) /\
  match fields st with
  | None => l = []
  | Some b => h !! b = Some (FieldsArr l)
  end.

Fixpoint get_field (l : list google_protobuf_Struct_FieldsEntry) (key : bytes) : option google_protobuf_Value :=
  match l with
  | [] => None
  | e :: l =>
      if decide (fe_key e = Some key /\ fe_has_value e = true) then Some (fe_value e) else get_field l key
  end.

Fixpoint set_field (l : list google_protobuf_Struct_FieldsEntry) (key : bytes) (v : google_protobuf_Value)
    : list google_protobuf_Struct_FieldsEntry :=
  match l with
  | [] => [FieldsEntry (Some key) true v]
  | e :: l =>
      if decide (fe_key e = Some key) then FieldsEntry (Some key) true v :: l else e :: set_field l key v
  end.

Definition has_key (l : list google_protobuf_Struct_FieldsEntry) (key : bytes) : bool :=
  existsb (fun e => bool_decide (fe_key e = Some key)) l.

Lemma set_field_new l key v : has_key l key = false -> set_field l key v = l ++ [FieldsEntry (Some key) true v].
Proof.
  induction l as [|e l IH]; cbn; [done|]. intros H. apply orb_false_iff in H as [H1 H2].
  apply bool_decide_eq_false in H1. rewrite decide_False by done. by rewrite IH.
Qed.

Lemma get_set_field l key v : get_field (set_field l key v) key = Some v.
Proof.
  induction l as [|e l IH]; cbn; [by rewrite decide_True|].
  destruct (decide (fe_key e = Some key)) as [E|E]; cbn; [by rewrite decide_True|].
  rewrite decide_False by tauto. exact IH.
Qed.

Lemma get_set_field_ne l key key' v : key' <> key -> get_field (set_field l key v) key' = get_field l key'.
Proof.
  intros Hne. induction l as [|e l IH]; cbn; [rewrite decide_False; [done|naive_solver]|].
  destruct (decide (fe_key e = Some key)) as [E|E]; cbn.
  - rewrite decide_False by naive_solver. rewrite decide_False by naive_solver. done.
  - by rewrite IH.
Qed.

Section Structpb.
Context {e : env} {T : trap -> Prop}.

Lemma wp_fields_arr b l s :
  heap s !! b = Some (FieldsArr l) -> wp e T (fields_arr (Some b)) (fun r s' => r = l /\ s' = s) s.
Proof. intros H. eapply wp_seq; [by apply wp_block_at|]. by intros ? ? [-> ->]. Qed.

Lemma wp_field_at b l i x s :
  heap s !! b = Some (FieldsArr l) -> l !! i = Some x ->
  wp e T (field_at (Some b) i) (fun r s' => r = x /\ s' = s) s.
Proof.
  intros H Hi. eapply wp_seq; [by apply wp_fields_arr|]. intros ? ? [-> ->]. by rewrite Hi.
Qed.

Lemma wp_get_from n b pre l key s :
  heap s !! b = Some (FieldsArr (pre ++ l)) -> n = length l ->
  wp e T (get_from n (Some b) (length pre) key) (fun r s' => s' = s /\ r = get_field l key) s.
Proof.
  revert pre n. induction l as [|x l IH]; intros pre n Hb ->; [by apply wp_ret|].
  cbn [get_from length]. eapply wp_seq.
  { eapply wp_field_at; [exact Hb|]. rewrite lookup_app_r, Nat.sub_diag by lia. done. }
  intros ? ? [-> ->]. cbn [get_field].
  assert (wp e T (get_from (length l) (Some b) (S (length pre)) key)
            (fun r s' => s' = s /\ r = get_field l key) s) as Hrest.
  { replace (S (length pre)) with (length (pre ++ [x])) by (rewrite length_app; simpl; lia).
    apply IH; [|done]. by rewrite <- app_assoc. }
  destruct (fe_key x) as [k|]; [|rewrite decide_False by naive_solver; exact Hrest].
  destruct (fe_has_value x); cbn [andb]; [|rewrite decide_False by naive_solver; exact Hrest].
  unfold strcmp_eq. destruct (decide (k = key)) as [->|Hne].
  - rewrite bool_decide_true, decide_True by done. by apply wp_ret.
  - rewrite bool_decide_false, decide_False by (done || naive_solver). exact Hrest.
Qed.

Lemma wp_structpb_get st l key s :
  struct_is (heap s) st l ->
  wp e T (structpb_get (Some st) (Some key)) (fun r s' => s' = s /\ r = get_field l key) s.
Proof.
  intros [Hc Hf]. unfold structpb_get. rewrite Hc, Nat2Z.id. destruct (fields st) as [b|].
  - apply (wp_get_from _ b [] l); done.
  - subst l. by apply wp_ret.
Qed.

Lemma wp_write_field b l i x s :
  wf s -> heap s !! b = Some (FieldsArr l) -> (i < length l)%nat ->
  wp e T (write_field (Some b) i x) (fun _ s' => heap_step s s' /\
    heap s' = <[b := FieldsArr (<[i := x]> l)]> (heap s)) s.
Proof.
  intros Hs Hb Hi. eapply wp_seq; [by apply wp_fields_arr|]. intros ? ? [-> ->].
  rewrite decide_True by done. eapply wp_set_block; [done|done|]. simpl. by rewrite length_insert.
Qed.

Lemma wp_set_from n b pre l key v s :
  wf s -> heap s !! b = Some (FieldsArr (pre ++ l)) -> n = length l ->
  wp e T (set_from n (Some b) (length pre) key v) (fun r s' => r = has_key l key /\
    if r then heap_step s s' /\ heap s' = <[b := FieldsArr (pre ++ set_field l key v)]> (heap s)
    else s' = s) s.
Proof.
  intros Hs. revert pre n. induction l as [|x l IH]; intros pre n Hb ->; [by apply wp_ret|].
  cbn [set_from length]. eapply wp_seq.
  { eapply wp_field_at; [exact Hb|]. rewrite lookup_app_r, Nat.sub_diag by lia. done. }
  intros ? ? [-> ->]. cbn [set_field has_key existsb].
  change (existsb (fun e0 => bool_decide (fe_key e0 = Some key)) l) with (has_key l key).
  assert (wp e T (set_from (length l) (Some b) (S (length pre)) key v)
            (fun r s' => r = has_key l key /\
               if r then heap_step s s' /\ heap s' = <[b := FieldsArr (pre ++ x :: set_field l key v)]> (heap s)
               else s' = s) s) as Hrest.
  { replace (S (length pre)) with (length (pre ++ [x])) by (rewrite length_app; simpl; lia).
    eapply wp_mono; [apply IH; [by rewrite <- app_assoc|done]|].
    intros r s' [-> H]. split; [done|]. rewrite <- app_assoc in H. exact H. }
  destruct (fe_key x) as [k|] eqn:Ek.
  2: { rewrite bool_decide_false, decide_False by done. exact Hrest. }
  unfold strcmp_eq. destruct (decide (k = key)) as [->|Hne].
  - rewrite !bool_decide_true, decide_True by done. cbn [orb].
    eapply wp_seq; [eapply wp_write_field; [done|exact Hb|rewrite length_app; simpl; lia]|].
    intros [] s' [Hst Hh]. apply wp_ret. split; [done|]. split; [done|]. rewrite Hh.
    replace (length pre) with (length pre + 0)%nat by lia. by rewrite insert_app_r.
  - rewrite !bool_decide_false, decide_False by congruence. exact Hrest.
Qed.

(** What [structpb_set] leaves: the object with the field set; every other block
    as it was; the array, when it had to grow, a new block in place of the old. *)
Definition set_done (st : google_protobuf_Struct) (l : list google_protobuf_Struct_FieldsEntry)
    (key : bytes) (v : google_protobuf_Value) (s : cst)
    (r : bool * google_protobuf_Struct) (s' : cst) : Prop :=
  heap_step s s' /\
  if r.1 then
    struct_is (heap s') r.2 (set_field l key v) /\
    (fields r.2 = fields st \/ exists b, fields r.2 = Some b /\ heap s !! b = None) /\
    (forall b k, fields st <> Some b -> heap s !! b = Some k -> heap s' !! b = Some k)
  else heap s' = heap s /\ (denied s < denied s')%nat /\ r.2 = st.

Lemma struct_size st l s :
  wf s -> struct_is (heap s) st l -> 24 * Z.of_nat (length l) < memory_size.
Proof.
  intros Hs [_ Hf]. destruct (fields st) as [b|]; [|subst; done].
  pose proof (wf_size s Hs) as Hz. rewrite (heap_size_delete _ _ _ Hf) in Hz.
  pose proof (heap_size_nonneg (delete b (heap s))). simpl block_size in Hz. lia.
Qed.

(** The entry written at the end of the array that has room for it. *)
Lemma wp_write_last st l key v s b s1 :
  fields_count st = Z.of_nat (length l) -> has_key l key = false ->
  24 * Z.of_nat (length l) + 24 < memory_size -> heap_step s s1 -> heap s !! b = None ->
  heap s1 !! b = Some (FieldsArr (resize (S (length l)) FieldsEntry_zero l)) ->
  (forall b' k, fields st <> Some b' -> heap s !! b' = Some k -> heap s1 !! b' = Some k) ->
  wp e T (_ ← write_field (Some b) (length l) (FieldsEntry (Some key) true v);
          mret (true, PbStruct (uwrap 32 (fields_count st + 1)) (Some b))) (set_done st l key v s) s1.
Proof.
  intros Hc Hk Hsz Hst1 Hb0 Hb1 Hframe.
  eapply wp_seq; [eapply wp_write_field; [apply Hst1|exact Hb1|rewrite length_resize; lia]|].
  intros [] s2 [Hst2 Hh2]. apply wp_ret. split; [by eapply heap_step_trans|]. cbn [fst snd].
  split; [|split].
  - rewrite set_field_new by done. split; cbn [fields_count fields].
    + rewrite Hc, length_app. simpl. rewrite uwrap_id; unfold memory_size in *; lia.
    + rewrite Hh2, lookup_insert_eq. do 2 f_equal.
      replace (S (length l)) with (length l + 1)%nat by lia.
      rewrite resize_ge by lia. replace (length l + 1 - length l)%nat with 1%nat by lia. cbn [replicate].
      rewrite insert_app_r_alt, Nat.sub_diag by lia. done.
  - right. by exists b.
  - intros b' k Hne Hb'. rewrite Hh2, lookup_insert_ne by congruence. by apply Hframe.
Qed.

(** Growing the array, with the entry appended. *)
Lemma wp_append_field st l key v s :
  wf s -> struct_is (heap s) st l -> has_key l key = false ->
  wp e T (p ← realloc_fields (fields st) (S (length l));
          match p with
          | None => mret (false, st)
          | Some b =>
              _ ← write_field (Some b) (length l) (FieldsEntry (Some key) true v);
              mret (true, PbStruct (uwrap 32 (fields_count st + 1)) (Some b))
          end) (set_done st l key v s) s.
Proof.
  intros Hs Hst Hk. pose proof Hst as [Hc Hf].
  unfold realloc_fields. destruct (fields st) as [b|] eqn:Ef.
  - apply wp_bind. eapply wp_seq; [by apply wp_fields_arr|]. intros ? ? [-> ->].
    unfold wp, mbind, C_bind, alloc_replacing. destruct (grants _ _ _ && _) eqn:E.
    + apply andb_prop in E as [_ E%Z.ltb_lt]. pose proof (wf_fresh s Hs) as Hfr.
      assert (b <> next s) as Hne by congruence.
      simpl free. cbn [heap add_block]. rewrite lookup_insert_ne, Hf by done. cbn beta iota.
      change (match ?c ?e ?s with Ok (a, s') => ?Q a s' | Trap t => ?T t end) with (wp e T c Q s).
      assert (heap_size (heap s) - 24 * Z.of_nat (length l) + 24 * Z.of_nat (S (length l)) < memory_size) as Hsz.
      { simpl block_size in E. rewrite length_resize in E. exact E. }
      apply wp_write_last; try done.
      * pose proof (heap_size_delete _ _ _ Hf) as Hd. pose proof (heap_size_nonneg (delete b (heap s))).
        simpl in Hd. lia.
      * split; simpl; try done; [|lia]. destruct Hs as [Hh ? ? ?]. split; simpl; try done.
        -- intros b' k. rewrite lookup_delete_Some, lookup_insert.
           intros [_ H]. case_decide; [lia|]. apply Hh in H. lia.
        -- rewrite delete_insert_ne by done.
           rewrite heap_size_insert by by rewrite lookup_delete_ne.
           rewrite (heap_size_delete _ _ _ Hf) in Hsz. simpl in Hsz |- *. rewrite length_resize. lia.
      * cbn [heap set_heap]. rewrite lookup_delete_ne by done. apply lookup_insert_eq.
      * intros b' k Hb' Hlk. cbn [heap set_heap]. rewrite lookup_delete_ne by congruence.
        rewrite lookup_insert_ne by congruence. done.
    + split; [|split; [done|split; [simpl; lia|done]]].
      split; simpl; try done; [by apply wf_deny|lia].
  - subst l. eapply wp_seq; [by apply wp_alloc|]. intros [b|] s1 [Hst1 H].
    + destruct H as (-> & Hfr & _ & Hh). apply wp_write_last; try done.
      * rewrite Hh. apply lookup_insert_eq.
      * intros b' k _ Hb'. rewrite Hh, lookup_insert_ne by congruence. done.
    + apply wp_ret. split; [done|]. cbn. destruct H. done.
Qed.

Lemma wp_structpb_set st l key v s :
  wf s -> struct_is (heap s) st l -> 24 * (Z.of_nat (length l) + 1) < memory_size ->
  wp e T (structpb_set st key v) (set_done st l key v s) s.
Proof.
  intros Hs Hst Hsz. pose proof Hst as [Hc Hf]. unfold structpb_set. rewrite Hc, Nat2Z.id, <- Hc.
  eapply (wp_seq _ _ (fun r s' => r = has_key l key /\
    if r then exists b, fields st = Some b /\ heap_step s s' /\
                heap s' = <[b := FieldsArr (set_field l key v)]> (heap s)
    else s' = s)).
  - destruct (fields st) as [b|] eqn:Ef.
    + eapply wp_mono; [by apply (wp_set_from _ b [] l)|]. intros r s' [-> H]. split; [done|].
      destruct (has_key l key); [|done]. exists b. by destruct H.
    + subst l. by apply wp_ret.
  - intros r s' [-> H]. destruct (has_key l key) eqn:Ek.
    + destruct H as (b & Eb & Hst1 & Hh). apply wp_ret. split; [done|]. cbn [fst snd].
      split; [|split; [by left|]].
      * split; [|by rewrite Eb, Hh, lookup_insert_eq]. rewrite Hc. f_equal.
        clear -Ek. induction l as [|x l IH]; [done|]. cbn in Ek |- *.
        destruct (decide (fe_key x = Some key)); [done|]. rewrite bool_decide_false in Ek by done.
        cbn. by rewrite IH.
      * intros b' k Hne Hb'. rewrite Hh, lookup_insert_ne by congruence. done.
    + subst s'. rewrite Hc. destruct (Z.leb_spec memory_size (24 * (Z.of_nat (length l) + 1))); [lia|].
      rewrite <- Hc. by apply wp_append_field.
Qed.
End Structpb.

(** ** The JSON value a message denotes *)

Inductive json :=
  | JNull
  | JNumber (d : spec_float)
  | JString (s : bytes)
  | JBool (b : bool)
  | JObject (l : list (bytes * json))
  | JList (l : list json).

Definition list_is (h : gmap Z block) (v : google_protobuf_ListValue) (l : list google_protobuf_Value) : Prop :=
  values_count v = Z.of_nat (length l) /\
  match values v with None => l = [] | Some b => h !! b = Some (ValuesArr l) end.

Inductive value_is (h : gmap Z block) : google_protobuf_Value -> json -> Prop :=
  | is_null : value_is h null_value JNull
  | is_number d : value_is h (number_value d) (JNumber d)
  | is_string s : value_is h (string_value (Some s)) (JString s)
  | is_bool b : value_is h (bool_value b) (JBool b)
  | is_object st es l :
      struct_is h st es ->
      Forall2 (fun e kj => fe_key e = Some kj.1 /\ fe_has_value e = true /\ value_is h (fe_value e) kj.2) es l ->
      value_is h (struct_value st) (JObject l)
  | is_list_value v vs l :
      list_is h v vs -> Forall2 (value_is h) vs l -> value_is h (list_value v) (JList l).

(** The object [st] denotes. *)
Definition object_is (h : gmap Z block) (st : google_protobuf_Struct) (l : list (bytes * json)) : Prop :=
  value_is h (struct_value st) (JObject l).

Fixpoint member (l : list (bytes * json)) (key : bytes) : option json :=
  match l with
  | [] => None
  | (k, j) :: l => if decide (k = key) then Some j else member l key
  end.

(** The value at a path of keys. *)
Fixpoint json_at (j : json) (keys : list bytes) : option json :=
  match keys with
  | [] => Some j
  | key :: keys =>
      match j with
      | JObject l => match member l key with Some j => json_at j keys | None => None end
      | _ => None
      end
  end.

Lemma get_field_member h es l key :
  Forall2 (fun e kj => fe_key e = Some kj.1 /\ fe_has_value e = true /\ value_is h (fe_value e) kj.2) es l ->
  option_Forall2 (value_is h) (get_field es key) (member l key).
Proof.
  induction 1 as [|e [k j] es l (Hk & Hv & Hj) _ IH]; [constructor|]. cbn in *. rewrite Hk.
  destruct (decide (k = key)) as [->|Hne].
  - rewrite decide_True by done. by constructor.
  - rewrite decide_False by naive_solver. exact IH.
Qed.

Lemma value_is_weaken h h' v j : value_is h v j -> h ⊆ h' -> value_is h' v j.
Proof.
  intros Hv Hsub. revert v j Hv. fix IH 3. intros v j [|d|s|b|st es l Hst Hl|lv vs l Hst Hl]; try constructor.
  - apply is_object with es.
    + destruct Hst as [? Hst]. split; [done|]. destruct (fields st); [by eapply lookup_weaken|done].
    + clear Hst. induction Hl as [|e kj es' l' (Hk & Hh & Hv) _ IHl]; constructor; [|exact IHl].
      split_and!; [done|done|by apply IH].
  - apply is_list_value with vs.
    + destruct Hst as [? Hst]. split; [done|]. destruct (values lv); [by eapply lookup_weaken|done].
    + clear Hst. induction Hl as [|x y vs' l' Hv _ IHl]; constructor; [by apply IH|exact IHl].
Qed.

Section Lookup.
Context {e : env} {T : trap -> Prop}.

Lemma wp_get_member st l key s :
  object_is (heap s) st l ->
  wp e T (structpb_get (Some st) (Some key)) (fun r s' => s' = s /\
    option_Forall2 (value_is (heap s)) r (member l key)) s.
Proof.
  intros H. inversion H as [| | | |st' es l' Hst Hes|]; subst.
  eapply wp_mono; [by apply wp_structpb_get|]. intros r s' [-> ->]. split; [done|]. by apply get_field_member.
Qed.

Lemma wp_lookup_from st v0 j0 keys s :
  match st with Some st => exists l, j0 = JObject l /\ object_is (heap s) st l
              | None => forall l, j0 <> JObject l end ->
  option_Forall2 (value_is (heap s)) v0 (Some j0) \/ keys <> [] ->
  wp e T (lookup_from st keys v0) (fun r s' => s' = s /\
    option_Forall2 (value_is (heap s)) r (json_at j0 keys)) s.
Proof.
  revert st v0 j0. induction keys as [|key keys IH]; intros st v0 j0 Hst Hv; [apply wp_ret; naive_solver|].
  cbn [lookup_from json_at]. destruct st as [st|].
  - destruct Hst as (l & -> & Hst). eapply wp_seq; [by apply wp_get_member|].
    intros r s' [-> Hr]. destruct Hr as [v j Hj|]; [|apply wp_ret; split; [done|constructor]].
    apply IH; [|left; by constructor]. destruct Hj; cbn; try done. eexists. split; [done|].
    by eapply is_object.
  - eapply wp_seq; [by apply wp_ret with (Q := fun r s' => r = None /\ s' = s)|]. intros ? ? [-> ->].
    apply wp_ret. split; [done|]. destruct j0; try constructor. naive_solver.
Qed.

Lemma wp_structpb_lookup st l keys s :
  object_is (heap s) st l -> keys <> [] ->
  wp e T (structpb_lookup (Some st) keys) (fun r s' => s' = s /\
    option_Forall2 (value_is (heap s)) r (json_at (JObject l) keys)) s.
Proof. intros Hst Hk. apply wp_lookup_from; [by exists l|by right]. Qed.
End Lookup.
