(* ===== verification/StructpbInv.v ===== *)
(** The invariant of a Struct under construction. The guest builds its objects
    from the empty Struct by [structpb_set] only, with other code running in
    between; the states it reaches are an inductive relation, and in each of them
    the Struct is a finite map from keys to values: its keys are distinct, every
    entry has a value, and [structpb_get] is the map's lookup. *)
From S2P Require Import Prelude BindTypes CString Proto Machine MachineLogic Structpb.
From Stdlib Require Import Strings.Byte.

#[export] Instance byte_countable : Countable byte.
Proof.
  refine (inj_countable' Byte.to_N (fun n => default NUL (Byte.of_N n)) _). intros b. by rewrite Byte.of_to_N.
Defined.

Abbreviation fields_map := (gmap bytes google_protobuf_Value).

(** ** The entries as a map *)

Definition keyed (x : google_protobuf_Struct_FieldsEntry) : Prop := is_Some (fe_key x) /\ fe_has_value x = true.

Record entries_are (l : list google_protobuf_Struct_FieldsEntry) (m : fields_map) : Prop := {
  ea_keyed : Forall keyed l;
  ea_distinct : NoDup (fe_key <$> l);
  ea_get : forall key, get_field l key = m !! key;
}.

Lemma entries_nil : entries_are [] ∅.
Proof. split; [constructor|constructor|]. intros key. by rewrite lookup_empty. Qed.

Lemma set_field_keyed l key v : Forall keyed l -> Forall keyed (set_field l key v).
Proof.
  induction 1 as [|x l Hx Hl IH]; cbn; [by repeat constructor|].
  case_decide; constructor; done || by split; eexists.
Qed.

(** The key is there once: where it was, or at the end. *)
Lemma set_field_keys l key v :
  fe_key <$> set_field l key v = (fe_key <$> l) ++ (if has_key l key then [] else [Some key]).
Proof.
  induction l as [|x l IH]; [done|]. cbn [set_field has_key existsb].
  change (existsb (fun e => bool_decide (fe_key e = Some key)) l) with (has_key l key).
  case_decide as E.
  - rewrite bool_decide_true by done. csimpl. by rewrite app_nil_r, E.
  - rewrite bool_decide_false by done. csimpl. by rewrite IH.
Qed.

Lemma has_key_elem l key : has_key l key = true <-> Some key ∈ (fe_key <$> l).
Proof.
  unfold has_key. rewrite existsb_exists, list_elem_of_fmap. split; intros (x & H1 & H2); exists x.
  - apply bool_decide_eq_true in H2. by rewrite list_elem_of_In.
  - rewrite <- list_elem_of_In. split; [done|]. by apply bool_decide_eq_true.
Qed.

Lemma set_field_distinct l key v : NoDup (fe_key <$> l) -> NoDup (fe_key <$> set_field l key v).
Proof.
  rewrite set_field_keys. destruct (has_key l key) eqn:E; [by rewrite app_nil_r|].
  intros H. apply NoDup_app. split_and!; [done| |apply NoDup_singleton].
  intros k Hk ->%list_elem_of_singleton. apply has_key_elem in Hk. congruence.
Qed.

Lemma entries_set l m key v : entries_are l m -> entries_are (set_field l key v) (<[key := v]> m).
Proof.
  intros [H1 H2 H3]. split; [by apply set_field_keyed|by apply set_field_distinct|]. intros key'.
  destruct (decide (key' = key)) as [->|Hne]; [by rewrite get_set_field, lookup_insert_eq|].
  by rewrite get_set_field_ne, lookup_insert_ne.
Qed.

(** Distinct keys with a value each: as many as the map has. *)
Lemma get_field_keys l key : Forall keyed l -> is_Some (get_field l key) <-> Some key ∈ (fe_key <$> l).
Proof.
  induction 1 as [|x l [Hk Hv] Hl IH]; csimpl.
  - split; [by intros []|]. by intros ?%not_elem_of_nil.
  - rewrite elem_of_cons. case_decide as E; [naive_solver|]. rewrite IH. naive_solver.
Qed.

Lemma keyed_keys l : Forall keyed l -> exists ks, fe_key <$> l = Some <$> ks.
Proof.
  induction 1 as [|x l [[k Hk] _] Hl [ks IH]]; [by exists []|]. exists (k :: ks). csimpl. by rewrite Hk, IH.
Qed.

Lemma entries_counted l m : entries_are l m -> size m = length l.
Proof.
  intros [H1 H2 H3]. destruct (keyed_keys l H1) as [ks Hks].
  assert (dom m = list_to_set (C := gset bytes) ks) as Hd.
  { apply set_eq. intros key. rewrite elem_of_dom, <- H3, get_field_keys, Hks, elem_of_list_to_set by done.
    rewrite list_elem_of_fmap. naive_solver. }
  rewrite <- (length_fmap fe_key l), Hks, length_fmap, <- size_dom, Hd. apply size_list_to_set.
  rewrite Hks in H2. by eapply NoDup_fmap_1.
Qed.

(** ** The states the guest reaches *)

Section Reach.
Variable e : env.

(** The map a Struct and the machine's state were built to: [structpb_set]s with
    memory for one more entry, and code that leaves the fields' array alone. *)
Inductive built : google_protobuf_Struct -> cst -> fields_map -> Prop :=
  | built_empty s : wf s -> built (PbStruct 0 None) s ∅
  | built_set st s m key v st' s' :
      built st s m -> 24 * (fields_count st + 1) < memory_size ->
      structpb_set st key v e s = Ok ((true, st'), s') -> built st' s' (<[key := v]> m)
  | built_failed st s m key v st' s' :
      built st s m -> 24 * (fields_count st + 1) < memory_size ->
      structpb_set st key v e s = Ok ((false, st'), s') -> built st' s' m
  | built_other st s m s' :
      built st s m -> wf s' -> (forall b, fields st = Some b -> heap s' !! b = heap s !! b) -> built st s' m.

Definition holds (st : google_protobuf_Struct) (s : cst) (m : fields_map) : Prop :=
  wf s /\ exists l, struct_is (heap s) st l /\ entries_are l m.

Lemma set_outcome st s m key v ok st' s' :
  holds st s m -> 24 * (fields_count st + 1) < memory_size ->
  structpb_set st key v e s = Ok ((ok, st'), s') -> holds st' s' (if ok then <[key := v]> m else m).
Proof.
  intros [Hs (l & Hst & Hm)] Hsz Hset. pose proof Hst as [Hc _]. rewrite Hc in Hsz.
  pose proof (wp_structpb_set (e := e) (T := fun _ => False) st l key v s Hs Hst Hsz) as Hw.
  unfold wp in Hw. rewrite Hset in Hw. destruct Hw as [Hstep Hr]. split; [apply Hstep|]. cbn in Hr. destruct ok.
  - exists (set_field l key v). split; [by destruct Hr|by apply entries_set].
  - exists l. destruct Hr as (Hh & _ & ->). by rewrite Hh.
Qed.

Lemma built_holds st s m : built st s m -> holds st s m.
Proof.
  induction 1 as [s Hs|st s m key v st' s' _ IH Hsz Hset|st s m key v st' s' _ IH Hsz Hset|st s m s' _ [Hs (l & Hst & Hm)] Hs' Hf].
  - split; [done|]. exists []. split; [done|apply entries_nil].
  - exact (set_outcome st s m key v true st' s' IH Hsz Hset).
  - exact (set_outcome st s m key v false st' s' IH Hsz Hset).
  - split; [done|]. exists l. split; [|done]. destruct Hst as [Hc Hb]. split; [done|].
    destruct (fields st) as [b|]; [|done]. by rewrite Hf.
Qed.

(** The keys and values set one after the other. *)
Fixpoint set_each (st : google_protobuf_Struct) (kvs : list (bytes * google_protobuf_Value))
    (s : cst) : outcome (google_protobuf_Struct * cst) :=
  match kvs with
  | [] => Ok (st, s)
  | (key, v) :: kvs =>
      if 24 * (fields_count st + 1) <? memory_size then
        match structpb_set st key v e s with
        | Ok ((true, st'), s') => set_each st' kvs s'
        | Ok ((false, _), _) => Trap Aborted
        | Trap t => Trap t
        end
      else Trap UB
  end.

Lemma set_each_built st kvs s m st' s' :
  built st s m -> set_each st kvs s = Ok (st', s') ->
  built st' s' (foldl (fun m '(key, v) => <[key := v]> m) m kvs).
Proof.
  revert st s m. induction kvs as [|[key v] kvs IH]; intros st s m Hb; cbn; [by intros [= <- <-]|].
  destruct (Z.ltb_spec (24 * (fields_count st + 1)) memory_size) as [Hsz|]; [|done].
  destruct (structpb_set _ _ _ _ _) as [[[[] st1] s1]|] eqn:Hset; try done. apply IH. by eapply built_set.
Qed.
End Reach.
