(* ===== verification/StructpbProps.v ===== *)
(** What the Struct helpers promise: a path lookup is the lookup in the JSON value
    the message denotes, and a field that was set is what [structpb_get] finds. *)
From S2P Require Import Prelude BindTypes CString Proto Machine MachineLogic Structpb StructpbInv WasmfnProps.
From Stdlib Require Import Strings.Byte.

(** C26. [structpb_lookup] walks the JSON value the message denotes along the keys:
    it returns the value there, [NULL] when a key is missing or a value on the
    way is not an object, and touches nothing. *)
Theorem structpb_lookup_path e st l keys s :
  object_is (heap s) st l -> keys <> [] ->
  wp e (fun _ => False) (structpb_lookup (Some st) keys) (fun r s' => s' = s /\
    option_Forall2 (value_is (heap s)) r (json_at (JObject l) keys)) s.
Proof. apply wp_structpb_lookup. Qed.

(** {"metadata": {"name": "xr"}} *)
Definition xr_struct : google_protobuf_Struct := PbStruct 1 (Some 1).
Definition xr_heap : gmap Z block :=
  {[ 1 := FieldsArr [FieldsEntry (Some (lit "metadata")) true (struct_value (PbStruct 1 (Some 2)))];
     2 := FieldsArr [FieldsEntry (Some (lit "name")) true (string_value (Some (lit "xr")))] ]}.
Definition xr_state : cst := Cst xr_heap 3 ∅ ∅ 1 [] 0 0.
Definition xr_json : list (bytes * json) :=
  [(lit "metadata", JObject [(lit "name", JString (lit "xr"))])].

Lemma xr_is : object_is xr_heap xr_struct xr_json.
Proof.
  eapply is_object; [split; cycle 1; reflexivity|]. constructor; [|constructor]. split_and!; [done|done|].
  eapply is_object; [split; cycle 1; reflexivity|]. constructor; [|constructor]. split_and!; [done|done|]. constructor.
Qed.

Lemma structpb_lookup_path_witness :
  json_at (JObject xr_json) [lit "metadata"; lit "name"] = Some (JString (lit "xr")) /\
  wp kind_env (fun _ => False) (structpb_lookup (Some xr_struct) [lit "metadata"; lit "name"]) (fun r s' =>
    s' = xr_state /\
    option_Forall2 (value_is (heap xr_state)) r (json_at (JObject xr_json) [lit "metadata"; lit "name"])) xr_state.
Proof.
  split; [reflexivity|].
  apply (structpb_lookup_path kind_env xr_struct xr_json [lit "metadata"; lit "name"] xr_state xr_is). discriminate.
Defined.

(** C25. After [structpb_set] of a key, [structpb_get] finds the value set under that
    key and under every other what it found before; the fields' array is the old
    one or a new block, and every other block is as it was. It fails only for
    want of memory, and then nothing has changed. *)
Theorem structpb_set_get e st l key v key' s :
  wf s -> struct_is (heap s) st l -> 24 * (Z.of_nat (length l) + 1) < memory_size ->
  wp e (fun _ => False)
    ('(ok, st') ← structpb_set st key v;
     if (ok : bool) then r ← structpb_get (Some st') (Some key'); mret (Some (st', r)) else mret None)
    (fun r s' => wf s' /\ trace s' = trace s /\
       match r with
       | Some (st', r) =>
           r = (if decide (key' = key) then Some v else get_field l key') /\
           struct_is (heap s') st' (set_field l key v) /\
           (fields st' = fields st \/ exists b, fields st' = Some b /\ heap s !! b = None) /\
           (forall b k, fields st <> Some b -> heap s !! b = Some k -> heap s' !! b = Some k)
       | None => heap s' = heap s /\ (denied s < denied s')%nat
       end) s.
Proof.
  intros Hs Hst Hsz. eapply wp_seq; [by apply wp_structpb_set|]. intros [[] st'] s1 [Hst1 H].
  - destruct H as (Hst' & Hnew & Hfr). eapply wp_seq; [by apply wp_structpb_get|].
    intros r s2 [-> ->]. apply wp_ret. split_and!; [apply Hst1|apply Hst1| |done..].
    destruct (decide (key' = key)) as [->|]; [apply get_set_field|by apply get_set_field_ne].
  - destruct H as (Hh & Hd & _). apply wp_ret. split_and!; [apply Hst1|apply Hst1|done..].
Qed.

Definition one_field : list google_protobuf_Struct_FieldsEntry :=
  [FieldsEntry (Some (lit "kind")) true (string_value (Some (lit "Pod")))].
Definition one_state : cst := Cst {[ 1 := FieldsArr one_field ]} 2 ∅ ∅ 1 [] 0 0.

Lemma one_state_wf : wf one_state.
Proof. split; try done. intros b k. cbn. rewrite lookup_singleton. case_decide; [lia|done]. Qed.

Lemma structpb_set_get_witness :
  struct_is (heap one_state) (PbStruct 1 (Some 1)) one_field /\
  match ('(_, st) ← structpb_set (PbStruct 1 (Some 1)) (lit "data") null_value;
         structpb_get (Some st) (Some (lit "data"))) kind_env one_state with
  | Ok (r, s') =>
      r = (if decide (lit "data" = lit "data") then Some null_value else get_field one_field (lit "data"))
  | Trap _ => False
  end.
Proof.
  assert (struct_is (heap one_state) (PbStruct 1 (Some 1)) one_field) as H by done.
  split; [exact H|].
  pose proof (structpb_set_get kind_env (PbStruct 1 (Some 1)) one_field (lit "data") null_value (lit "data")
                one_state one_state_wf H eq_refl) as Hw.
  unfold wp in Hw. revert Hw. vm_compute. tauto.
Defined.

(** C24. Every Struct the guest builds from the empty one by [structpb_set], with
    any other code in between that leaves its array alone, is a finite map: its
    keys are distinct and each has a value, the count is the number of keys, and
    [structpb_get] is the map's lookup, which touches nothing. A [structpb_set]
    that fails leaves the map as it was. *)
Theorem structpb_builds_map e st s m :
  built e st s m ->
  fields_count st = Z.of_nat (size m) /\
  (exists l, struct_is (heap s) st l /\ NoDup (fe_key <$> l) /\
     Forall (fun x => is_Some (fe_key x) /\ fe_has_value x = true) l) /\
  (forall key, structpb_get (Some st) (Some key) e s = Ok (m !! key, s)).
Proof.
  intros [_ (l & Hst & Hm)]%built_holds. split_and!.
  - rewrite (entries_counted l m Hm). apply Hst.
  - exists l. split_and!; [done|apply Hm|apply Hm].
  - intros key. pose proof (wp_structpb_get (e := e) (T := fun _ => False) st l key s Hst) as Hw.
    unfold wp in Hw. destruct (structpb_get _ _ _ _) as [[r s']|]; [|done]. destruct Hw as [-> ->].
    by rewrite (ea_get l m Hm).
Qed.

Definition empty_state : cst := Cst ∅ 1 ∅ ∅ 1 [] 0 0.
(** kind, then data, then kind again. *)
Definition pod_sets : list (bytes * google_protobuf_Value) :=
  [(lit "kind", null_value); (lit "data", null_value); (lit "kind", string_value (Some (lit "Pod")))].
Definition pod_run : outcome (google_protobuf_Struct * cst) :=
  set_each kind_env (PbStruct 0 None) pod_sets empty_state.
Definition pod_map : fields_map := foldl (fun m '(key, v) => <[key := v]> m) ∅ pod_sets.

Lemma structpb_builds_map_witness :
  match pod_run with
  | Ok (st, s) =>
      built kind_env st s pod_map /\ fields_count st = Z.of_nat (size pod_map) /\
      structpb_get (Some st) (Some (lit "kind")) kind_env s = Ok (Some (string_value (Some (lit "Pod"))), s)
  | Trap _ => False
  end.
Proof.
  destruct pod_run as [[st s]|] eqn:E; [|vm_compute in E; discriminate].
  assert (built kind_env st s pod_map) as Hb.
  { exact (set_each_built kind_env _ _ _ _ _ _ (built_empty kind_env empty_state ltac:(by split)) E). }
  destruct (structpb_builds_map kind_env st s pod_map Hb) as (Hn & _ & Hg).
  split; [exact Hb|]. split; [exact Hn|]. rewrite Hg. vm_compute. reflexivity.
Defined.
