(* ===== verification/Codec.v ===== *)
(** nanopb's generated codec: the descriptors, structs, enums, initialisers and
    tags of crates/guestfn/templates/c/src/fnv1 (run_function.pb.h, struct.pb.h,
    duration.pb.h and their .pb.c), as data. The runtime that reads the
    descriptors is not in the repository.

    A descriptor [M_msg] is what [PB_BIND(M, M, width)] makes of the X-macro list
    [M_FIELDLIST]; an entry's [MSGTYPE] or [ENUMTYPE] is the argument of its
    type. *)
From S2P Require Import Prelude.
#[local] Open Scope string_scope.
#[local] Open Scope Z_scope.
#[local] Open Scope list_scope.

(** ** Vocabulary *)

(** The messages, by descriptor. *)
Inductive msgdesc :=
  | google_protobuf_Duration_msg
  | google_protobuf_Struct_msg
  | google_protobuf_Struct_FieldsEntry_msg
  | google_protobuf_Value_msg
  | google_protobuf_ListValue_msg
  | fnv1_RunFunctionRequest_msg
  | fnv1_RunFunctionRequest_ExtraResourcesEntry_msg
  | fnv1_RunFunctionRequest_CredentialsEntry_msg
  | fnv1_RunFunctionRequest_RequiredResourcesEntry_msg
  | fnv1_RunFunctionRequest_RequiredSchemasEntry_msg
  | fnv1_Credentials_msg
  | fnv1_CredentialData_msg
  | fnv1_CredentialData_DataEntry_msg
  | fnv1_Resources_msg
  | fnv1_RunFunctionResponse_msg
  | fnv1_RequestMeta_msg
  | fnv1_Requirements_msg
  | fnv1_Requirements_ExtraResourcesEntry_msg
  | fnv1_Requirements_ResourcesEntry_msg
  | fnv1_Requirements_SchemasEntry_msg
  | fnv1_SchemaSelector_msg
  | fnv1_Schema_msg
  | fnv1_ResourceSelector_msg
  | fnv1_MatchLabels_msg
  | fnv1_MatchLabels_LabelsEntry_msg
  | fnv1_ResponseMeta_msg
  | fnv1_State_msg
  | fnv1_State_ResourcesEntry_msg
  | fnv1_Resource_msg
  | fnv1_Resource_ConnectionDetailsEntry_msg
  | fnv1_Result_msg
  | fnv1_Condition_msg.
#[export] Instance msgdesc_eq_dec : EqDecision msgdesc.
Proof. solve_decision. Defined.

Inductive enumdesc :=
  | google_protobuf_NullValue
  | fnv1_Capability
  | fnv1_Ready
  | fnv1_Severity
  | fnv1_Target
  | fnv1_Status.
#[export] Instance enumdesc_eq_dec : EqDecision enumdesc.
Proof. solve_decision. Defined.

(** [X(a, alloc, rule, type, name, tag)]; the union of a [ONEOF] is its
    argument. *)
Inductive allocation := STATIC | POINTER.
Inductive repetition := SINGULAR | OPTIONAL | REPEATED | ONEOF (union_name : string).
Inductive ltype :=
  | MESSAGE (submsg : msgdesc) | UENUM (e : enumdesc)
  | STRING | BYTES | BOOL | DOUBLE | INT64 | INT32.
Record field := X {
  f_alloc : allocation;
  f_rule : repetition;
  f_type : ltype;
  f_name : string;
  f_tag : Z;
}.
#[export] Instance allocation_eq_dec : EqDecision allocation.
Proof. solve_decision. Defined.
#[export] Instance repetition_eq_dec : EqDecision repetition.
Proof. solve_decision. Defined.
#[export] Instance ltype_eq_dec : EqDecision ltype.
Proof. solve_decision. Defined.
#[export] Instance field_eq_dec : EqDecision field.
Proof. solve_decision. Defined.

(** The C types of the structs' members. *)
Inductive ctype :=
  | Cbool | Cdouble | Cint64 | Cint32 | Cpb_size_t | Cchar | Cpb_bytes_array_t
  | Cenum (e : enumdesc)
  | Cstruct (m : msgdesc)
  | Cptr (t : ctype)
  | Cunion (members : list (string * ctype)).

(** An initialiser's items: [i_init m] is the initialiser macro of [m] of the same
    kind, [i_MIN e] the least value of [e]. *)
Inductive initializer :=
  | i_false | i_0 | i_NULL
  | i_init (m : msgdesc)
  | i_MIN (e : enumdesc)
  | i_braces (l : list initializer).

(** ** Enums: the values, and the values MIN, MAX and ARRAYSIZE are made of *)

Definition google_protobuf_NullValue_values : list (string * Z) :=
  [("NULL_VALUE", 0)].

Definition google_protobuf_NullValue_bounds : string * string * string :=
  ("NULL_VALUE", "NULL_VALUE", "NULL_VALUE").

Definition fnv1_Capability_values : list (string * Z) :=
  [("CAPABILITY_UNSPECIFIED", 0); ("CAPABILITY_CAPABILITIES", 1);
   ("CAPABILITY_REQUIRED_RESOURCES", 2); ("CAPABILITY_CREDENTIALS", 3); ("CAPABILITY_CONDITIONS", 4);
   ("CAPABILITY_REQUIRED_SCHEMAS", 5)].

Definition fnv1_Capability_bounds : string * string * string :=
  ("CAPABILITY_UNSPECIFIED", "CAPABILITY_REQUIRED_SCHEMAS", "CAPABILITY_REQUIRED_SCHEMAS").

Definition fnv1_Ready_values : list (string * Z) :=
  [("READY_UNSPECIFIED", 0); ("READY_TRUE", 1); ("READY_FALSE", 2)].

Definition fnv1_Ready_bounds : string * string * string :=
  ("READY_UNSPECIFIED", "READY_FALSE", "READY_FALSE").

Definition fnv1_Severity_values : list (string * Z) :=
  [("SEVERITY_UNSPECIFIED", 0); ("SEVERITY_FATAL", 1); ("SEVERITY_WARNING", 2); ("SEVERITY_NORMAL", 3)].

Definition fnv1_Severity_bounds : string * string * string :=
  ("SEVERITY_UNSPECIFIED", "SEVERITY_NORMAL", "SEVERITY_NORMAL").

Definition fnv1_Target_values : list (string * Z) :=
  [("TARGET_UNSPECIFIED", 0); ("TARGET_COMPOSITE", 1); ("TARGET_COMPOSITE_AND_CLAIM", 2)].

Definition fnv1_Target_bounds : string * string * string :=
  ("TARGET_UNSPECIFIED", "TARGET_COMPOSITE_AND_CLAIM", "TARGET_COMPOSITE_AND_CLAIM").

Definition fnv1_Status_values : list (string * Z) :=
  [("STATUS_CONDITION_UNSPECIFIED", 0); ("STATUS_CONDITION_UNKNOWN", 1);
   ("STATUS_CONDITION_TRUE", 2); ("STATUS_CONDITION_FALSE", 3)].

Definition fnv1_Status_bounds : string * string * string :=
  ("STATUS_CONDITION_UNSPECIFIED", "STATUS_CONDITION_FALSE", "STATUS_CONDITION_FALSE").

Definition enum_values (e : enumdesc) : list (string * Z) :=
  match e with
  | google_protobuf_NullValue => google_protobuf_NullValue_values
  | fnv1_Capability => fnv1_Capability_values
  | fnv1_Ready => fnv1_Ready_values
  | fnv1_Severity => fnv1_Severity_values
  | fnv1_Target => fnv1_Target_values
  | fnv1_Status => fnv1_Status_values
  end.
Definition enum_bounds (e : enumdesc) : string * string * string :=
  match e with
  | google_protobuf_NullValue => google_protobuf_NullValue_bounds
  | fnv1_Capability => fnv1_Capability_bounds
  | fnv1_Ready => fnv1_Ready_bounds
  | fnv1_Severity => fnv1_Severity_bounds
  | fnv1_Target => fnv1_Target_bounds
  | fnv1_Status => fnv1_Status_bounds
  end.

(** ** Structs *)

Definition google_protobuf_Duration_typedef : list (string * ctype) :=
  [("seconds", Cint64); ("nanos", Cint32)].

Definition google_protobuf_Struct_typedef : list (string * ctype) :=
  [("fields_count", Cpb_size_t); ("fields", Cptr (Cstruct google_protobuf_Struct_FieldsEntry_msg))].

Definition google_protobuf_Struct_FieldsEntry_typedef : list (string * ctype) :=
  [("key", Cptr Cchar); ("has_value", Cbool); ("value", Cstruct google_protobuf_Value_msg)].

Definition google_protobuf_Value_typedef : list (string * ctype) :=
  [("which_kind", Cpb_size_t);
   ("kind", Cunion [("null_value", Cenum google_protobuf_NullValue); ("number_value", Cdouble);
   ("string_value", Cptr Cchar); ("bool_value", Cbool);
   ("struct_value", Cstruct google_protobuf_Struct_msg);
   ("list_value", Cstruct google_protobuf_ListValue_msg)])].

Definition google_protobuf_ListValue_typedef : list (string * ctype) :=
  [("values_count", Cpb_size_t); ("values", Cptr (Cstruct google_protobuf_Value_msg))].

Definition fnv1_RunFunctionRequest_typedef : list (string * ctype) :=
  [("has_meta", Cbool); ("meta", Cstruct fnv1_RequestMeta_msg); ("has_observed", Cbool);
   ("observed", Cstruct fnv1_State_msg); ("has_desired", Cbool); ("desired", Cstruct fnv1_State_msg);
   ("has_input", Cbool); ("input", Cstruct google_protobuf_Struct_msg); ("has_context", Cbool);
   ("context", Cstruct google_protobuf_Struct_msg); ("extra_resources_count", Cpb_size_t);
   ("extra_resources", Cptr (Cstruct fnv1_RunFunctionRequest_ExtraResourcesEntry_msg));
   ("credentials_count", Cpb_size_t);
   ("credentials", Cptr (Cstruct fnv1_RunFunctionRequest_CredentialsEntry_msg));
   ("required_resources_count", Cpb_size_t);
   ("required_resources", Cptr (Cstruct fnv1_RunFunctionRequest_RequiredResourcesEntry_msg));
   ("required_schemas_count", Cpb_size_t);
   ("required_schemas", Cptr (Cstruct fnv1_RunFunctionRequest_RequiredSchemasEntry_msg))].

Definition fnv1_RunFunctionRequest_ExtraResourcesEntry_typedef : list (string * ctype) :=
  [("key", Cptr Cchar); ("has_value", Cbool); ("value", Cstruct fnv1_Resources_msg)].

Definition fnv1_RunFunctionRequest_CredentialsEntry_typedef : list (string * ctype) :=
  [("key", Cptr Cchar); ("has_value", Cbool); ("value", Cstruct fnv1_Credentials_msg)].

Definition fnv1_RunFunctionRequest_RequiredResourcesEntry_typedef : list (string * ctype) :=
  [("key", Cptr Cchar); ("has_value", Cbool); ("value", Cstruct fnv1_Resources_msg)].

Definition fnv1_RunFunctionRequest_RequiredSchemasEntry_typedef : list (string * ctype) :=
  [("key", Cptr Cchar); ("has_value", Cbool); ("value", Cstruct fnv1_Schema_msg)].

Definition fnv1_Credentials_typedef : list (string * ctype) :=
  [("which_source", Cpb_size_t);
   ("source", Cunion [("credential_data", Cstruct fnv1_CredentialData_msg)])].

Definition fnv1_CredentialData_typedef : list (string * ctype) :=
  [("data_count", Cpb_size_t); ("data", Cptr (Cstruct fnv1_CredentialData_DataEntry_msg))].

Definition fnv1_CredentialData_DataEntry_typedef : list (string * ctype) :=
  [("key", Cptr Cchar); ("value", Cptr Cpb_bytes_array_t)].

Definition fnv1_Resources_typedef : list (string * ctype) :=
  [("items_count", Cpb_size_t); ("items", Cptr (Cstruct fnv1_Resource_msg))].

Definition fnv1_RunFunctionResponse_typedef : list (string * ctype) :=
  [("has_meta", Cbool); ("meta", Cstruct fnv1_ResponseMeta_msg); ("has_desired", Cbool);
   ("desired", Cstruct fnv1_State_msg); ("results_count", Cpb_size_t);
   ("results", Cptr (Cstruct fnv1_Result_msg)); ("has_context", Cbool);
   ("context", Cstruct google_protobuf_Struct_msg); ("has_requirements", Cbool);
   ("requirements", Cstruct fnv1_Requirements_msg); ("conditions_count", Cpb_size_t);
   ("conditions", Cptr (Cstruct fnv1_Condition_msg)); ("has_output", Cbool);
   ("output", Cstruct google_protobuf_Struct_msg)].

Definition fnv1_RequestMeta_typedef : list (string * ctype) :=
  [("tag", Cptr Cchar); ("capabilities_count", Cpb_size_t);
   ("capabilities", Cptr (Cenum fnv1_Capability))].

Definition fnv1_Requirements_typedef : list (string * ctype) :=
  [("extra_resources_count", Cpb_size_t);
   ("extra_resources", Cptr (Cstruct fnv1_Requirements_ExtraResourcesEntry_msg));
   ("resources_count", Cpb_size_t);
   ("resources", Cptr (Cstruct fnv1_Requirements_ResourcesEntry_msg)); ("schemas_count", Cpb_size_t);
   ("schemas", Cptr (Cstruct fnv1_Requirements_SchemasEntry_msg))].

Definition fnv1_Requirements_ExtraResourcesEntry_typedef : list (string * ctype) :=
  [("key", Cptr Cchar); ("has_value", Cbool); ("value", Cstruct fnv1_ResourceSelector_msg)].

Definition fnv1_Requirements_ResourcesEntry_typedef : list (string * ctype) :=
  [("key", Cptr Cchar); ("has_value", Cbool); ("value", Cstruct fnv1_ResourceSelector_msg)].

Definition fnv1_Requirements_SchemasEntry_typedef : list (string * ctype) :=
  [("key", Cptr Cchar); ("has_value", Cbool); ("value", Cstruct fnv1_SchemaSelector_msg)].

Definition fnv1_SchemaSelector_typedef : list (string * ctype) :=
  [("api_version", Cptr Cchar); ("kind", Cptr Cchar)].

Definition fnv1_Schema_typedef : list (string * ctype) :=
  [("has_openapi_v3", Cbool); ("openapi_v3", Cstruct google_protobuf_Struct_msg)].

Definition fnv1_ResourceSelector_typedef : list (string * ctype) :=
  [("api_version", Cptr Cchar); ("kind", Cptr Cchar); ("which_match", Cpb_size_t);
   ("match", Cunion [("match_name", Cptr Cchar); ("match_labels", Cstruct fnv1_MatchLabels_msg)]);
   ("namespace", Cptr Cchar)].

Definition fnv1_MatchLabels_typedef : list (string * ctype) :=
  [("labels_count", Cpb_size_t); ("labels", Cptr (Cstruct fnv1_MatchLabels_LabelsEntry_msg))].

Definition fnv1_MatchLabels_LabelsEntry_typedef : list (string * ctype) :=
  [("key", Cptr Cchar); ("value", Cptr Cchar)].

Definition fnv1_ResponseMeta_typedef : list (string * ctype) :=
  [("tag", Cptr Cchar); ("has_ttl", Cbool); ("ttl", Cstruct google_protobuf_Duration_msg)].

Definition fnv1_State_typedef : list (string * ctype) :=
  [("has_composite", Cbool); ("composite", Cstruct fnv1_Resource_msg);
   ("resources_count", Cpb_size_t); ("resources", Cptr (Cstruct fnv1_State_ResourcesEntry_msg))].

Definition fnv1_State_ResourcesEntry_typedef : list (string * ctype) :=
  [("key", Cptr Cchar); ("has_value", Cbool); ("value", Cstruct fnv1_Resource_msg)].

Definition fnv1_Resource_typedef : list (string * ctype) :=
  [("has_resource", Cbool); ("resource", Cstruct google_protobuf_Struct_msg);
   ("connection_details_count", Cpb_size_t);
   ("connection_details", Cptr (Cstruct fnv1_Resource_ConnectionDetailsEntry_msg));
   ("ready", Cenum fnv1_Ready)].

Definition fnv1_Resource_ConnectionDetailsEntry_typedef : list (string * ctype) :=
  [("key", Cptr Cchar); ("value", Cptr Cpb_bytes_array_t)].

Definition fnv1_Result_typedef : list (string * ctype) :=
  [("severity", Cenum fnv1_Severity); ("message", Cptr Cchar); ("reason", Cptr Cchar);
   ("has_target", Cbool); ("target", Cenum fnv1_Target)].

Definition fnv1_Condition_typedef : list (string * ctype) :=
  [("type", Cptr Cchar); ("status", Cenum fnv1_Status); ("reason", Cptr Cchar);
   ("message", Cptr Cchar); ("has_target", Cbool); ("target", Cenum fnv1_Target)].

Definition typedef_of (m : msgdesc) : list (string * ctype) :=
  match m with
  | google_protobuf_Duration_msg => google_protobuf_Duration_typedef
  | google_protobuf_Struct_msg => google_protobuf_Struct_typedef
  | google_protobuf_Struct_FieldsEntry_msg => google_protobuf_Struct_FieldsEntry_typedef
  | google_protobuf_Value_msg => google_protobuf_Value_typedef
  | google_protobuf_ListValue_msg => google_protobuf_ListValue_typedef
  | fnv1_RunFunctionRequest_msg => fnv1_RunFunctionRequest_typedef
  | fnv1_RunFunctionRequest_ExtraResourcesEntry_msg => fnv1_RunFunctionRequest_ExtraResourcesEntry_typedef
  | fnv1_RunFunctionRequest_CredentialsEntry_msg => fnv1_RunFunctionRequest_CredentialsEntry_typedef
  | fnv1_RunFunctionRequest_RequiredResourcesEntry_msg => fnv1_RunFunctionRequest_RequiredResourcesEntry_typedef
  | fnv1_RunFunctionRequest_RequiredSchemasEntry_msg => fnv1_RunFunctionRequest_RequiredSchemasEntry_typedef
  | fnv1_Credentials_msg => fnv1_Credentials_typedef
  | fnv1_CredentialData_msg => fnv1_CredentialData_typedef
  | fnv1_CredentialData_DataEntry_msg => fnv1_CredentialData_DataEntry_typedef
  | fnv1_Resources_msg => fnv1_Resources_typedef
  | fnv1_RunFunctionResponse_msg => fnv1_RunFunctionResponse_typedef
  | fnv1_RequestMeta_msg => fnv1_RequestMeta_typedef
  | fnv1_Requirements_msg => fnv1_Requirements_typedef
  | fnv1_Requirements_ExtraResourcesEntry_msg => fnv1_Requirements_ExtraResourcesEntry_typedef
  | fnv1_Requirements_ResourcesEntry_msg => fnv1_Requirements_ResourcesEntry_typedef
  | fnv1_Requirements_SchemasEntry_msg => fnv1_Requirements_SchemasEntry_typedef
  | fnv1_SchemaSelector_msg => fnv1_SchemaSelector_typedef
  | fnv1_Schema_msg => fnv1_Schema_typedef
  | fnv1_ResourceSelector_msg => fnv1_ResourceSelector_typedef
  | fnv1_MatchLabels_msg => fnv1_MatchLabels_typedef
  | fnv1_MatchLabels_LabelsEntry_msg => fnv1_MatchLabels_LabelsEntry_typedef
  | fnv1_ResponseMeta_msg => fnv1_ResponseMeta_typedef
  | fnv1_State_msg => fnv1_State_typedef
  | fnv1_State_ResourcesEntry_msg => fnv1_State_ResourcesEntry_typedef
  | fnv1_Resource_msg => fnv1_Resource_typedef
  | fnv1_Resource_ConnectionDetailsEntry_msg => fnv1_Resource_ConnectionDetailsEntry_typedef
  | fnv1_Result_msg => fnv1_Result_typedef
  | fnv1_Condition_msg => fnv1_Condition_typedef
  end.

(** ** Descriptors *)

Definition google_protobuf_Duration_FIELDLIST : list field :=
  [X STATIC SINGULAR INT64 "seconds" 1;
   X STATIC SINGULAR INT32 "nanos" 2].

Definition google_protobuf_Struct_FIELDLIST : list field :=
  [X POINTER REPEATED (MESSAGE google_protobuf_Struct_FieldsEntry_msg) "fields" 1].

Definition google_protobuf_Struct_FieldsEntry_FIELDLIST : list field :=
  [X POINTER SINGULAR STRING "key" 1;
   X STATIC OPTIONAL (MESSAGE google_protobuf_Value_msg) "value" 2].

Definition google_protobuf_Value_FIELDLIST : list field :=
  [X STATIC (ONEOF "kind") (UENUM google_protobuf_NullValue) "null_value" 1;
   X STATIC (ONEOF "kind") DOUBLE "number_value" 2;
   X POINTER (ONEOF "kind") STRING "string_value" 3;
   X STATIC (ONEOF "kind") BOOL "bool_value" 4;
   X STATIC (ONEOF "kind") (MESSAGE google_protobuf_Struct_msg) "struct_value" 5;
   X STATIC (ONEOF "kind") (MESSAGE google_protobuf_ListValue_msg) "list_value" 6].

Definition google_protobuf_ListValue_FIELDLIST : list field :=
  [X POINTER REPEATED (MESSAGE google_protobuf_Value_msg) "values" 1].

Definition fnv1_RunFunctionRequest_FIELDLIST : list field :=
  [X STATIC OPTIONAL (MESSAGE fnv1_RequestMeta_msg) "meta" 1;
   X STATIC OPTIONAL (MESSAGE fnv1_State_msg) "observed" 2;
   X STATIC OPTIONAL (MESSAGE fnv1_State_msg) "desired" 3;
   X STATIC OPTIONAL (MESSAGE google_protobuf_Struct_msg) "input" 4;
   X STATIC OPTIONAL (MESSAGE google_protobuf_Struct_msg) "context" 5;
   X POINTER REPEATED (MESSAGE fnv1_RunFunctionRequest_ExtraResourcesEntry_msg) "extra_resources" 6;
   X POINTER REPEATED (MESSAGE fnv1_RunFunctionRequest_CredentialsEntry_msg) "credentials" 7;
   X POINTER REPEATED (MESSAGE fnv1_RunFunctionRequest_RequiredResourcesEntry_msg) "required_resources" 8;
   X POINTER REPEATED (MESSAGE fnv1_RunFunctionRequest_RequiredSchemasEntry_msg) "required_schemas" 9].

Definition fnv1_RunFunctionRequest_ExtraResourcesEntry_FIELDLIST : list field :=
  [X POINTER SINGULAR STRING "key" 1;
   X STATIC OPTIONAL (MESSAGE fnv1_Resources_msg) "value" 2].

Definition fnv1_RunFunctionRequest_CredentialsEntry_FIELDLIST : list field :=
  [X POINTER SINGULAR STRING "key" 1;
   X STATIC OPTIONAL (MESSAGE fnv1_Credentials_msg) "value" 2].

Definition fnv1_RunFunctionRequest_RequiredResourcesEntry_FIELDLIST : list field :=
  [X POINTER SINGULAR STRING "key" 1;
   X STATIC OPTIONAL (MESSAGE fnv1_Resources_msg) "value" 2].

Definition fnv1_RunFunctionRequest_RequiredSchemasEntry_FIELDLIST : list field :=
  [X POINTER SINGULAR STRING "key" 1;
   X STATIC OPTIONAL (MESSAGE fnv1_Schema_msg) "value" 2].

Definition fnv1_Credentials_FIELDLIST : list field :=
  [X STATIC (ONEOF "source") (MESSAGE fnv1_CredentialData_msg) "credential_data" 1].

Definition fnv1_CredentialData_FIELDLIST : list field :=
  [X POINTER REPEATED (MESSAGE fnv1_CredentialData_DataEntry_msg) "data" 1].

Definition fnv1_CredentialData_DataEntry_FIELDLIST : list field :=
  [X POINTER SINGULAR STRING "key" 1;
   X POINTER SINGULAR BYTES "value" 2].

Definition fnv1_Resources_FIELDLIST : list field :=
  [X POINTER REPEATED (MESSAGE fnv1_Resource_msg) "items" 1].

Definition fnv1_RunFunctionResponse_FIELDLIST : list field :=
  [X STATIC OPTIONAL (MESSAGE fnv1_ResponseMeta_msg) "meta" 1;
   X STATIC OPTIONAL (MESSAGE fnv1_State_msg) "desired" 2;
   X POINTER REPEATED (MESSAGE fnv1_Result_msg) "results" 3;
   X STATIC OPTIONAL (MESSAGE google_protobuf_Struct_msg) "context" 4;
   X STATIC OPTIONAL (MESSAGE fnv1_Requirements_msg) "requirements" 5;
   X POINTER REPEATED (MESSAGE fnv1_Condition_msg) "conditions" 6;
   X STATIC OPTIONAL (MESSAGE google_protobuf_Struct_msg) "output" 7].

Definition fnv1_RequestMeta_FIELDLIST : list field :=
  [X POINTER SINGULAR STRING "tag" 1;
   X POINTER REPEATED (UENUM fnv1_Capability) "capabilities" 2].

Definition fnv1_Requirements_FIELDLIST : list field :=
  [X POINTER REPEATED (MESSAGE fnv1_Requirements_ExtraResourcesEntry_msg) "extra_resources" 1;
   X POINTER REPEATED (MESSAGE fnv1_Requirements_ResourcesEntry_msg) "resources" 2;
   X POINTER REPEATED (MESSAGE fnv1_Requirements_SchemasEntry_msg) "schemas" 3].

Definition fnv1_Requirements_ExtraResourcesEntry_FIELDLIST : list field :=
  [X POINTER SINGULAR STRING "key" 1;
   X STATIC OPTIONAL (MESSAGE fnv1_ResourceSelector_msg) "value" 2].

Definition fnv1_Requirements_ResourcesEntry_FIELDLIST : list field :=
  [X POINTER SINGULAR STRING "key" 1;
   X STATIC OPTIONAL (MESSAGE fnv1_ResourceSelector_msg) "value" 2].

Definition fnv1_Requirements_SchemasEntry_FIELDLIST : list field :=
  [X POINTER SINGULAR STRING "key" 1;
   X STATIC OPTIONAL (MESSAGE fnv1_SchemaSelector_msg) "value" 2].

Definition fnv1_SchemaSelector_FIELDLIST : list field :=
  [X POINTER SINGULAR STRING "api_version" 1;
   X POINTER SINGULAR STRING "kind" 2].

Definition fnv1_Schema_FIELDLIST : list field :=
  [X STATIC OPTIONAL (MESSAGE google_protobuf_Struct_msg) "openapi_v3" 1].

Definition fnv1_ResourceSelector_FIELDLIST : list field :=
  [X POINTER SINGULAR STRING "api_version" 1;
   X POINTER SINGULAR STRING "kind" 2;
   X POINTER (ONEOF "match") STRING "match_name" 3;
   X STATIC (ONEOF "match") (MESSAGE fnv1_MatchLabels_msg) "match_labels" 4;
   X POINTER OPTIONAL STRING "namespace" 5].

Definition fnv1_MatchLabels_FIELDLIST : list field :=
  [X POINTER REPEATED (MESSAGE fnv1_MatchLabels_LabelsEntry_msg) "labels" 1].

Definition fnv1_MatchLabels_LabelsEntry_FIELDLIST : list field :=
  [X POINTER SINGULAR STRING "key" 1;
   X POINTER SINGULAR STRING "value" 2].

Definition fnv1_ResponseMeta_FIELDLIST : list field :=
  [X POINTER SINGULAR STRING "tag" 1;
   X STATIC OPTIONAL (MESSAGE google_protobuf_Duration_msg) "ttl" 2].

Definition fnv1_State_FIELDLIST : list field :=
  [X STATIC OPTIONAL (MESSAGE fnv1_Resource_msg) "composite" 1;
   X POINTER REPEATED (MESSAGE fnv1_State_ResourcesEntry_msg) "resources" 2].

Definition fnv1_State_ResourcesEntry_FIELDLIST : list field :=
  [X POINTER SINGULAR STRING "key" 1;
   X STATIC OPTIONAL (MESSAGE fnv1_Resource_msg) "value" 2].

Definition fnv1_Resource_FIELDLIST : list field :=
  [X STATIC OPTIONAL (MESSAGE google_protobuf_Struct_msg) "resource" 1;
   X POINTER REPEATED (MESSAGE fnv1_Resource_ConnectionDetailsEntry_msg) "connection_details" 2;
   X STATIC SINGULAR (UENUM fnv1_Ready) "ready" 3].

Definition fnv1_Resource_ConnectionDetailsEntry_FIELDLIST : list field :=
  [X POINTER SINGULAR STRING "key" 1;
   X POINTER SINGULAR BYTES "value" 2].

Definition fnv1_Result_FIELDLIST : list field :=
  [X STATIC SINGULAR (UENUM fnv1_Severity) "severity" 1;
   X POINTER SINGULAR STRING "message" 2;
   X POINTER OPTIONAL STRING "reason" 3;
   X STATIC OPTIONAL (UENUM fnv1_Target) "target" 4].

Definition fnv1_Condition_FIELDLIST : list field :=
  [X POINTER SINGULAR STRING "type" 1;
   X STATIC SINGULAR (UENUM fnv1_Status) "status" 2;
   X POINTER SINGULAR STRING "reason" 3;
   X POINTER OPTIONAL STRING "message" 4;
   X STATIC OPTIONAL (UENUM fnv1_Target) "target" 5].

Definition fields_of (m : msgdesc) : list field :=
  match m with
  | google_protobuf_Duration_msg => google_protobuf_Duration_FIELDLIST
  | google_protobuf_Struct_msg => google_protobuf_Struct_FIELDLIST
  | google_protobuf_Struct_FieldsEntry_msg => google_protobuf_Struct_FieldsEntry_FIELDLIST
  | google_protobuf_Value_msg => google_protobuf_Value_FIELDLIST
  | google_protobuf_ListValue_msg => google_protobuf_ListValue_FIELDLIST
  | fnv1_RunFunctionRequest_msg => fnv1_RunFunctionRequest_FIELDLIST
  | fnv1_RunFunctionRequest_ExtraResourcesEntry_msg => fnv1_RunFunctionRequest_ExtraResourcesEntry_FIELDLIST
  | fnv1_RunFunctionRequest_CredentialsEntry_msg => fnv1_RunFunctionRequest_CredentialsEntry_FIELDLIST
  | fnv1_RunFunctionRequest_RequiredResourcesEntry_msg => fnv1_RunFunctionRequest_RequiredResourcesEntry_FIELDLIST
  | fnv1_RunFunctionRequest_RequiredSchemasEntry_msg => fnv1_RunFunctionRequest_RequiredSchemasEntry_FIELDLIST
  | fnv1_Credentials_msg => fnv1_Credentials_FIELDLIST
  | fnv1_CredentialData_msg => fnv1_CredentialData_FIELDLIST
  | fnv1_CredentialData_DataEntry_msg => fnv1_CredentialData_DataEntry_FIELDLIST
  | fnv1_Resources_msg => fnv1_Resources_FIELDLIST
  | fnv1_RunFunctionResponse_msg => fnv1_RunFunctionResponse_FIELDLIST
  | fnv1_RequestMeta_msg => fnv1_RequestMeta_FIELDLIST
  | fnv1_Requirements_msg => fnv1_Requirements_FIELDLIST
  | fnv1_Requirements_ExtraResourcesEntry_msg => fnv1_Requirements_ExtraResourcesEntry_FIELDLIST
  | fnv1_Requirements_ResourcesEntry_msg => fnv1_Requirements_ResourcesEntry_FIELDLIST
  | fnv1_Requirements_SchemasEntry_msg => fnv1_Requirements_SchemasEntry_FIELDLIST
  | fnv1_SchemaSelector_msg => fnv1_SchemaSelector_FIELDLIST
  | fnv1_Schema_msg => fnv1_Schema_FIELDLIST
  | fnv1_ResourceSelector_msg => fnv1_ResourceSelector_FIELDLIST
  | fnv1_MatchLabels_msg => fnv1_MatchLabels_FIELDLIST
  | fnv1_MatchLabels_LabelsEntry_msg => fnv1_MatchLabels_LabelsEntry_FIELDLIST
  | fnv1_ResponseMeta_msg => fnv1_ResponseMeta_FIELDLIST
  | fnv1_State_msg => fnv1_State_FIELDLIST
  | fnv1_State_ResourcesEntry_msg => fnv1_State_ResourcesEntry_FIELDLIST
  | fnv1_Resource_msg => fnv1_Resource_FIELDLIST
  | fnv1_Resource_ConnectionDetailsEntry_msg => fnv1_Resource_ConnectionDetailsEntry_FIELDLIST
  | fnv1_Result_msg => fnv1_Result_FIELDLIST
  | fnv1_Condition_msg => fnv1_Condition_FIELDLIST
  end.

(** [PB_BIND(M, M, width)]: the descriptor, the FIELDLIST and struct it is made of,
    and the words a field takes ([None] for AUTO). *)
Definition duration_binds : list (msgdesc * option Z) :=
  [(google_protobuf_Duration_msg, None)].
Definition struct_binds : list (msgdesc * option Z) :=
  [(google_protobuf_Struct_msg, None);
   (google_protobuf_Struct_FieldsEntry_msg, None);
   (google_protobuf_Value_msg, None);
   (google_protobuf_ListValue_msg, None)].
Definition run_function_binds : list (msgdesc * option Z) :=
  [(fnv1_RunFunctionRequest_msg, Some 2);
   (fnv1_RunFunctionRequest_ExtraResourcesEntry_msg, None);
   (fnv1_RunFunctionRequest_CredentialsEntry_msg, None);
   (fnv1_RunFunctionRequest_RequiredResourcesEntry_msg, None);
   (fnv1_RunFunctionRequest_RequiredSchemasEntry_msg, None);
   (fnv1_Credentials_msg, None);
   (fnv1_CredentialData_msg, None);
   (fnv1_CredentialData_DataEntry_msg, None);
   (fnv1_Resources_msg, None);
   (fnv1_RunFunctionResponse_msg, None);
   (fnv1_RequestMeta_msg, None);
   (fnv1_Requirements_msg, None);
   (fnv1_Requirements_ExtraResourcesEntry_msg, None);
   (fnv1_Requirements_ResourcesEntry_msg, None);
   (fnv1_Requirements_SchemasEntry_msg, None);
   (fnv1_SchemaSelector_msg, None);
   (fnv1_Schema_msg, None);
   (fnv1_ResourceSelector_msg, None);
   (fnv1_MatchLabels_msg, None);
   (fnv1_MatchLabels_LabelsEntry_msg, None);
   (fnv1_ResponseMeta_msg, None);
   (fnv1_State_msg, None);
   (fnv1_State_ResourcesEntry_msg, None);
   (fnv1_Resource_msg, None);
   (fnv1_Resource_ConnectionDetailsEntry_msg, None);
   (fnv1_Result_msg, None);
   (fnv1_Condition_msg, None)].

(** ** Initialisers *)

Definition init_default (m : msgdesc) : list initializer :=
  match m with
  | google_protobuf_Duration_msg => [i_0; i_0]
  | google_protobuf_Struct_msg => [i_0; i_NULL]
  | google_protobuf_Struct_FieldsEntry_msg => [i_NULL; i_false; i_init google_protobuf_Value_msg]
  | google_protobuf_Value_msg => [i_0; i_braces [i_MIN google_protobuf_NullValue]]
  | google_protobuf_ListValue_msg => [i_0; i_NULL]
  | fnv1_RunFunctionRequest_msg => [i_false; i_init fnv1_RequestMeta_msg; i_false;
      i_init fnv1_State_msg; i_false; i_init fnv1_State_msg; i_false;
   i_init google_protobuf_Struct_msg; i_false; i_init google_protobuf_Struct_msg; i_0; i_NULL; i_0;
   i_NULL; i_0; i_NULL; i_0; i_NULL]
  | fnv1_RunFunctionRequest_ExtraResourcesEntry_msg => [i_NULL; i_false; i_init fnv1_Resources_msg]
  | fnv1_RunFunctionRequest_CredentialsEntry_msg => [i_NULL; i_false; i_init fnv1_Credentials_msg]
  | fnv1_RunFunctionRequest_RequiredResourcesEntry_msg => [i_NULL; i_false; i_init fnv1_Resources_msg]
  | fnv1_RunFunctionRequest_RequiredSchemasEntry_msg => [i_NULL; i_false; i_init fnv1_Schema_msg]
  | fnv1_Credentials_msg => [i_0; i_braces [i_init fnv1_CredentialData_msg]]
  | fnv1_CredentialData_msg => [i_0; i_NULL]
  | fnv1_CredentialData_DataEntry_msg => [i_NULL; i_NULL]
  | fnv1_Resources_msg => [i_0; i_NULL]
  | fnv1_RunFunctionResponse_msg => [i_false; i_init fnv1_ResponseMeta_msg; i_false;
      i_init fnv1_State_msg; i_0; i_NULL; i_false; i_init google_protobuf_Struct_msg; i_false;
   i_init fnv1_Requirements_msg; i_0; i_NULL; i_false; i_init google_protobuf_Struct_msg]
  | fnv1_RequestMeta_msg => [i_NULL; i_0; i_NULL]
  | fnv1_Requirements_msg => [i_0; i_NULL; i_0; i_NULL; i_0; i_NULL]
  | fnv1_Requirements_ExtraResourcesEntry_msg => [i_NULL; i_false; i_init fnv1_ResourceSelector_msg]
  | fnv1_Requirements_ResourcesEntry_msg => [i_NULL; i_false; i_init fnv1_ResourceSelector_msg]
  | fnv1_Requirements_SchemasEntry_msg => [i_NULL; i_false; i_init fnv1_SchemaSelector_msg]
  | fnv1_SchemaSelector_msg => [i_NULL; i_NULL]
  | fnv1_Schema_msg => [i_false; i_init google_protobuf_Struct_msg]
  | fnv1_ResourceSelector_msg => [i_NULL; i_NULL; i_0; i_braces [i_NULL]; i_NULL]
  | fnv1_MatchLabels_msg => [i_0; i_NULL]
  | fnv1_MatchLabels_LabelsEntry_msg => [i_NULL; i_NULL]
  | fnv1_ResponseMeta_msg => [i_NULL; i_false; i_init google_protobuf_Duration_msg]
  | fnv1_State_msg => [i_false; i_init fnv1_Resource_msg; i_0; i_NULL]
  | fnv1_State_ResourcesEntry_msg => [i_NULL; i_false; i_init fnv1_Resource_msg]
  | fnv1_Resource_msg => [i_false; i_init google_protobuf_Struct_msg; i_0; i_NULL; i_MIN fnv1_Ready]
  | fnv1_Resource_ConnectionDetailsEntry_msg => [i_NULL; i_NULL]
  | fnv1_Result_msg => [i_MIN fnv1_Severity; i_NULL; i_NULL; i_false; i_MIN fnv1_Target]
  | fnv1_Condition_msg => [i_NULL; i_MIN fnv1_Status; i_NULL; i_NULL; i_false; i_MIN fnv1_Target]
  end.
Definition init_zero (m : msgdesc) : list initializer :=
  match m with
  | google_protobuf_Duration_msg => [i_0; i_0]
  | google_protobuf_Struct_msg => [i_0; i_NULL]
  | google_protobuf_Struct_FieldsEntry_msg => [i_NULL; i_false; i_init google_protobuf_Value_msg]
  | google_protobuf_Value_msg => [i_0; i_braces [i_MIN google_protobuf_NullValue]]
  | google_protobuf_ListValue_msg => [i_0; i_NULL]
  | fnv1_RunFunctionRequest_msg => [i_false; i_init fnv1_RequestMeta_msg; i_false;
      i_init fnv1_State_msg; i_false; i_init fnv1_State_msg; i_false;
   i_init google_protobuf_Struct_msg; i_false; i_init google_protobuf_Struct_msg; i_0; i_NULL; i_0;
   i_NULL; i_0; i_NULL; i_0; i_NULL]
  | fnv1_RunFunctionRequest_ExtraResourcesEntry_msg => [i_NULL; i_false; i_init fnv1_Resources_msg]
  | fnv1_RunFunctionRequest_CredentialsEntry_msg => [i_NULL; i_false; i_init fnv1_Credentials_msg]
  | fnv1_RunFunctionRequest_RequiredResourcesEntry_msg => [i_NULL; i_false; i_init fnv1_Resources_msg]
  | fnv1_RunFunctionRequest_RequiredSchemasEntry_msg => [i_NULL; i_false; i_init fnv1_Schema_msg]
  | fnv1_Credentials_msg => [i_0; i_braces [i_init fnv1_CredentialData_msg]]
  | fnv1_CredentialData_msg => [i_0; i_NULL]
  | fnv1_CredentialData_DataEntry_msg => [i_NULL; i_NULL]
  | fnv1_Resources_msg => [i_0; i_NULL]
  | fnv1_RunFunctionResponse_msg => [i_false; i_init fnv1_ResponseMeta_msg; i_false;
      i_init fnv1_State_msg; i_0; i_NULL; i_false; i_init google_protobuf_Struct_msg; i_false;
   i_init fnv1_Requirements_msg; i_0; i_NULL; i_false; i_init google_protobuf_Struct_msg]
  | fnv1_RequestMeta_msg => [i_NULL; i_0; i_NULL]
  | fnv1_Requirements_msg => [i_0; i_NULL; i_0; i_NULL; i_0; i_NULL]
  | fnv1_Requirements_ExtraResourcesEntry_msg => [i_NULL; i_false; i_init fnv1_ResourceSelector_msg]
  | fnv1_Requirements_ResourcesEntry_msg => [i_NULL; i_false; i_init fnv1_ResourceSelector_msg]
  | fnv1_Requirements_SchemasEntry_msg => [i_NULL; i_false; i_init fnv1_SchemaSelector_msg]
  | fnv1_SchemaSelector_msg => [i_NULL; i_NULL]
  | fnv1_Schema_msg => [i_false; i_init google_protobuf_Struct_msg]
  | fnv1_ResourceSelector_msg => [i_NULL; i_NULL; i_0; i_braces [i_NULL]; i_NULL]
  | fnv1_MatchLabels_msg => [i_0; i_NULL]
  | fnv1_MatchLabels_LabelsEntry_msg => [i_NULL; i_NULL]
  | fnv1_ResponseMeta_msg => [i_NULL; i_false; i_init google_protobuf_Duration_msg]
  | fnv1_State_msg => [i_false; i_init fnv1_Resource_msg; i_0; i_NULL]
  | fnv1_State_ResourcesEntry_msg => [i_NULL; i_false; i_init fnv1_Resource_msg]
  | fnv1_Resource_msg => [i_false; i_init google_protobuf_Struct_msg; i_0; i_NULL; i_MIN fnv1_Ready]
  | fnv1_Resource_ConnectionDetailsEntry_msg => [i_NULL; i_NULL]
  | fnv1_Result_msg => [i_MIN fnv1_Severity; i_NULL; i_NULL; i_false; i_MIN fnv1_Target]
  | fnv1_Condition_msg => [i_NULL; i_MIN fnv1_Status; i_NULL; i_NULL; i_false; i_MIN fnv1_Target]
  end.

(** ** Tag macros *)

Definition duration_tags : list (msgdesc * string * Z) :=
  [(google_protobuf_Duration_msg, "seconds", 1);
   (google_protobuf_Duration_msg, "nanos", 2)].

Definition struct_tags : list (msgdesc * string * Z) :=
  [(google_protobuf_Struct_msg, "fields", 1);
   (google_protobuf_ListValue_msg, "values", 1);
   (google_protobuf_Value_msg, "null_value", 1);
   (google_protobuf_Value_msg, "number_value", 2);
   (google_protobuf_Value_msg, "string_value", 3);
   (google_protobuf_Value_msg, "bool_value", 4);
   (google_protobuf_Value_msg, "struct_value", 5);
   (google_protobuf_Value_msg, "list_value", 6);
   (google_protobuf_Struct_FieldsEntry_msg, "key", 1);
   (google_protobuf_Struct_FieldsEntry_msg, "value", 2)].

Definition run_function_tags : list (msgdesc * string * Z) :=
  [(fnv1_CredentialData_msg, "data", 1);
   (fnv1_Credentials_msg, "credential_data", 1);
   (fnv1_RunFunctionRequest_CredentialsEntry_msg, "key", 1);
   (fnv1_RunFunctionRequest_CredentialsEntry_msg, "value", 2);
   (fnv1_CredentialData_DataEntry_msg, "key", 1);
   (fnv1_CredentialData_DataEntry_msg, "value", 2);
   (fnv1_Resources_msg, "items", 1);
   (fnv1_RunFunctionRequest_ExtraResourcesEntry_msg, "key", 1);
   (fnv1_RunFunctionRequest_ExtraResourcesEntry_msg, "value", 2);
   (fnv1_RunFunctionRequest_RequiredResourcesEntry_msg, "key", 1);
   (fnv1_RunFunctionRequest_RequiredResourcesEntry_msg, "value", 2);
   (fnv1_RequestMeta_msg, "tag", 1);
   (fnv1_RequestMeta_msg, "capabilities", 2);
   (fnv1_Requirements_msg, "extra_resources", 1);
   (fnv1_Requirements_msg, "resources", 2);
   (fnv1_Requirements_msg, "schemas", 3);
   (fnv1_SchemaSelector_msg, "api_version", 1);
   (fnv1_SchemaSelector_msg, "kind", 2);
   (fnv1_Requirements_SchemasEntry_msg, "key", 1);
   (fnv1_Requirements_SchemasEntry_msg, "value", 2);
   (fnv1_Schema_msg, "openapi_v3", 1);
   (fnv1_RunFunctionRequest_RequiredSchemasEntry_msg, "key", 1);
   (fnv1_RunFunctionRequest_RequiredSchemasEntry_msg, "value", 2);
   (fnv1_MatchLabels_msg, "labels", 1);
   (fnv1_ResourceSelector_msg, "api_version", 1);
   (fnv1_ResourceSelector_msg, "kind", 2);
   (fnv1_ResourceSelector_msg, "match_name", 3);
   (fnv1_ResourceSelector_msg, "match_labels", 4);
   (fnv1_ResourceSelector_msg, "namespace", 5);
   (fnv1_Requirements_ExtraResourcesEntry_msg, "key", 1);
   (fnv1_Requirements_ExtraResourcesEntry_msg, "value", 2);
   (fnv1_Requirements_ResourcesEntry_msg, "key", 1);
   (fnv1_Requirements_ResourcesEntry_msg, "value", 2);
   (fnv1_MatchLabels_LabelsEntry_msg, "key", 1);
   (fnv1_MatchLabels_LabelsEntry_msg, "value", 2);
   (fnv1_ResponseMeta_msg, "tag", 1);
   (fnv1_ResponseMeta_msg, "ttl", 2);
   (fnv1_Resource_msg, "resource", 1);
   (fnv1_Resource_msg, "connection_details", 2);
   (fnv1_Resource_msg, "ready", 3);
   (fnv1_State_msg, "composite", 1);
   (fnv1_State_msg, "resources", 2);
   (fnv1_RunFunctionRequest_msg, "meta", 1);
   (fnv1_RunFunctionRequest_msg, "observed", 2);
   (fnv1_RunFunctionRequest_msg, "desired", 3);
   (fnv1_RunFunctionRequest_msg, "input", 4);
   (fnv1_RunFunctionRequest_msg, "context", 5);
   (fnv1_RunFunctionRequest_msg, "extra_resources", 6);
   (fnv1_RunFunctionRequest_msg, "credentials", 7);
   (fnv1_RunFunctionRequest_msg, "required_resources", 8);
   (fnv1_RunFunctionRequest_msg, "required_schemas", 9);
   (fnv1_RunFunctionResponse_msg, "meta", 1);
   (fnv1_RunFunctionResponse_msg, "desired", 2);
   (fnv1_RunFunctionResponse_msg, "results", 3);
   (fnv1_RunFunctionResponse_msg, "context", 4);
   (fnv1_RunFunctionResponse_msg, "requirements", 5);
   (fnv1_RunFunctionResponse_msg, "conditions", 6);
   (fnv1_RunFunctionResponse_msg, "output", 7);
   (fnv1_State_ResourcesEntry_msg, "key", 1);
   (fnv1_State_ResourcesEntry_msg, "value", 2);
   (fnv1_Resource_ConnectionDetailsEntry_msg, "key", 1);
   (fnv1_Resource_ConnectionDetailsEntry_msg, "value", 2);
   (fnv1_Result_msg, "severity", 1);
   (fnv1_Result_msg, "message", 2);
   (fnv1_Result_msg, "reason", 3);
   (fnv1_Result_msg, "target", 4);
   (fnv1_Condition_msg, "type", 1);
   (fnv1_Condition_msg, "status", 2);
   (fnv1_Condition_msg, "reason", 3);
   (fnv1_Condition_msg, "message", 4);
   (fnv1_Condition_msg, "target", 5)].

(** [google_protobuf_Duration_size]: the one message with a known bound. *)
Definition google_protobuf_Duration_size : Z := 22.
