(* ===== verification/Schema.v ===== *)
(** The protobuf schema of the codec (the .proto files and their nanopb options under
    crates/guestfn/templates/c/proto), as it is written, and the messages it declares:
    the reference the tables of Codec.v are compared with.

    A map is, as protobuf has it, a repeated field of messages with a key and a
    value. The options ask for pointers wherever a field has no fixed size
    ([fallback_type:FT_POINTER]) and for the package name fnv1. *)
From S2P Require Import Prelude Codec.
From Stdlib Require Import Strings.Ascii.
#[local] Open Scope string_scope.
#[local] Open Scope Z_scope.
#[local] Open Scope list_scope.

(** ** proto3 declarations *)

Inductive ptype := Pdouble | Pint64 | Pint32 | Pbool | Pstring | Pbytes | Pnamed (name : string).
Inductive plabel := plain | optional | repeated.
(** The key of every map is a [string]. *)
Inductive decl :=
  | Field (l : plabel) (t : ptype) (name : string) (tag : Z)
  | Map (value : ptype) (name : string) (tag : Z)
  | Oneof (name : string) (members : list (ptype * string * Z)).
Record proto := Proto {
  package : string;
  messages : list (string * list decl);
  enums : list (string * list (string * Z));
}.

(** ** The files *)

Definition message_Duration : list decl :=
  [Field plain Pint64 "seconds" 1;
   Field plain Pint32 "nanos" 2].

Definition message_Struct : list decl :=
  [Map (Pnamed "Value") "fields" 1].

Definition message_Value : list decl :=
  [Oneof "kind" [((Pnamed "NullValue"), "null_value", 1); (Pdouble, "number_value", 2);
   (Pstring, "string_value", 3); (Pbool, "bool_value", 4); ((Pnamed "Struct"), "struct_value", 5);
   ((Pnamed "ListValue"), "list_value", 6)]].

Definition enum_NullValue : list (string * Z) :=
  [("NULL_VALUE", 0)].

Definition message_ListValue : list decl :=
  [Field repeated (Pnamed "Value") "values" 1].

Definition message_RunFunctionRequest : list decl :=
  [Field plain (Pnamed "RequestMeta") "meta" 1;
   Field plain (Pnamed "State") "observed" 2;
   Field plain (Pnamed "State") "desired" 3;
   Field optional (Pnamed "google.protobuf.Struct") "input" 4;
   Field optional (Pnamed "google.protobuf.Struct") "context" 5;
   Map (Pnamed "Resources") "extra_resources" 6;
   Map (Pnamed "Credentials") "credentials" 7;
   Map (Pnamed "Resources") "required_resources" 8;
   Map (Pnamed "Schema") "required_schemas" 9].

Definition message_Credentials : list decl :=
  [Oneof "source" [((Pnamed "CredentialData"), "credential_data", 1)]].

Definition message_CredentialData : list decl :=
  [Map Pbytes "data" 1].

Definition message_Resources : list decl :=
  [Field repeated (Pnamed "Resource") "items" 1].

Definition message_RunFunctionResponse : list decl :=
  [Field plain (Pnamed "ResponseMeta") "meta" 1;
   Field plain (Pnamed "State") "desired" 2;
   Field repeated (Pnamed "Result") "results" 3;
   Field optional (Pnamed "google.protobuf.Struct") "context" 4;
   Field plain (Pnamed "Requirements") "requirements" 5;
   Field repeated (Pnamed "Condition") "conditions" 6;
   Field optional (Pnamed "google.protobuf.Struct") "output" 7].

Definition message_RequestMeta : list decl :=
  [Field plain Pstring "tag" 1;
   Field repeated (Pnamed "Capability") "capabilities" 2].

Definition enum_Capability : list (string * Z) :=
  [("CAPABILITY_UNSPECIFIED", 0); ("CAPABILITY_CAPABILITIES", 1);
   ("CAPABILITY_REQUIRED_RESOURCES", 2); ("CAPABILITY_CREDENTIALS", 3); ("CAPABILITY_CONDITIONS", 4);
   ("CAPABILITY_REQUIRED_SCHEMAS", 5)].

Definition message_Requirements : list decl :=
  [Map (Pnamed "ResourceSelector") "extra_resources" 1;
   Map (Pnamed "ResourceSelector") "resources" 2;
   Map (Pnamed "SchemaSelector") "schemas" 3].

Definition message_SchemaSelector : list decl :=
  [Field plain Pstring "api_version" 1;
   Field plain Pstring "kind" 2].

Definition message_Schema : list decl :=
  [Field optional (Pnamed "google.protobuf.Struct") "openapi_v3" 1].

Definition message_ResourceSelector : list decl :=
  [Field plain Pstring "api_version" 1;
   Field plain Pstring "kind" 2;
   Oneof "match" [(Pstring, "match_name", 3); ((Pnamed "MatchLabels"), "match_labels", 4)];
   Field optional Pstring "namespace" 5].

Definition message_MatchLabels : list decl :=
  [Map Pstring "labels" 1].

Definition message_ResponseMeta : list decl :=
  [Field plain Pstring "tag" 1;
   Field optional (Pnamed "google.protobuf.Duration") "ttl" 2].

Definition message_State : list decl :=
  [Field plain (Pnamed "Resource") "composite" 1;
   Map (Pnamed "Resource") "resources" 2].

Definition message_Resource : list decl :=
  [Field plain (Pnamed "google.protobuf.Struct") "resource" 1;
   Map Pbytes "connection_details" 2;
   Field plain (Pnamed "Ready") "ready" 3].

Definition enum_Ready : list (string * Z) :=
  [("READY_UNSPECIFIED", 0); ("READY_TRUE", 1); ("READY_FALSE", 2)].

Definition message_Result : list decl :=
  [Field plain (Pnamed "Severity") "severity" 1;
   Field plain Pstring "message" 2;
   Field optional Pstring "reason" 3;
   Field optional (Pnamed "Target") "target" 4].

Definition enum_Severity : list (string * Z) :=
  [("SEVERITY_UNSPECIFIED", 0); ("SEVERITY_FATAL", 1); ("SEVERITY_WARNING", 2); ("SEVERITY_NORMAL", 3)].

Definition enum_Target : list (string * Z) :=
  [("TARGET_UNSPECIFIED", 0); ("TARGET_COMPOSITE", 1); ("TARGET_COMPOSITE_AND_CLAIM", 2)].

Definition message_Condition : list decl :=
  [Field plain Pstring "type" 1;
   Field plain (Pnamed "Status") "status" 2;
   Field plain Pstring "reason" 3;
   Field optional Pstring "message" 4;
   Field optional (Pnamed "Target") "target" 5].

Definition enum_Status : list (string * Z) :=
  [("STATUS_CONDITION_UNSPECIFIED", 0); ("STATUS_CONDITION_UNKNOWN", 1);
   ("STATUS_CONDITION_TRUE", 2); ("STATUS_CONDITION_FALSE", 3)].

Definition duration_proto : proto := Proto "google_protobuf"
  [("Duration", message_Duration)]
  [].
Definition struct_proto : proto := Proto "google_protobuf"
  [("Struct", message_Struct); ("Value", message_Value); ("ListValue", message_ListValue)]
  [("NullValue", enum_NullValue)].
Definition run_function_proto : proto := Proto "fnv1"
  [("RunFunctionRequest", message_RunFunctionRequest); ("Credentials", message_Credentials);
   ("CredentialData", message_CredentialData); ("Resources", message_Resources);
   ("RunFunctionResponse", message_RunFunctionResponse); ("RequestMeta", message_RequestMeta);
   ("Requirements", message_Requirements); ("SchemaSelector", message_SchemaSelector);
   ("Schema", message_Schema); ("ResourceSelector", message_ResourceSelector);
   ("MatchLabels", message_MatchLabels); ("ResponseMeta", message_ResponseMeta);
   ("State", message_State); ("Resource", message_Resource); ("Result", message_Result);
   ("Condition", message_Condition)]
  [("Capability", enum_Capability); ("Ready", enum_Ready); ("Severity", enum_Severity);
   ("Target", enum_Target); ("Status", enum_Status)].
Definition protos : list proto := [duration_proto; struct_proto; run_function_proto].

(** ** Names *)

Definition all_msgs : list msgdesc :=
  [google_protobuf_Duration_msg; google_protobuf_Struct_msg; google_protobuf_Struct_FieldsEntry_msg;
   google_protobuf_Value_msg; google_protobuf_ListValue_msg; fnv1_RunFunctionRequest_msg;
   fnv1_RunFunctionRequest_ExtraResourcesEntry_msg; fnv1_RunFunctionRequest_CredentialsEntry_msg;
   fnv1_RunFunctionRequest_RequiredResourcesEntry_msg;
   fnv1_RunFunctionRequest_RequiredSchemasEntry_msg; fnv1_Credentials_msg; fnv1_CredentialData_msg;
   fnv1_CredentialData_DataEntry_msg; fnv1_Resources_msg; fnv1_RunFunctionResponse_msg;
   fnv1_RequestMeta_msg; fnv1_Requirements_msg; fnv1_Requirements_ExtraResourcesEntry_msg;
   fnv1_Requirements_ResourcesEntry_msg; fnv1_Requirements_SchemasEntry_msg; fnv1_SchemaSelector_msg;
   fnv1_Schema_msg; fnv1_ResourceSelector_msg; fnv1_MatchLabels_msg;
   fnv1_MatchLabels_LabelsEntry_msg; fnv1_ResponseMeta_msg; fnv1_State_msg;
   fnv1_State_ResourcesEntry_msg; fnv1_Resource_msg; fnv1_Resource_ConnectionDetailsEntry_msg;
   fnv1_Result_msg; fnv1_Condition_msg].
Definition all_enums : list enumdesc :=
  [google_protobuf_NullValue; fnv1_Capability; fnv1_Ready; fnv1_Severity; fnv1_Target; fnv1_Status].

Definition c_name (m : msgdesc) : string :=
  match m with
  | google_protobuf_Duration_msg => "google_protobuf_Duration"
  | google_protobuf_Struct_msg => "google_protobuf_Struct"
  | google_protobuf_Struct_FieldsEntry_msg => "google_protobuf_Struct_FieldsEntry"
  | google_protobuf_Value_msg => "google_protobuf_Value"
  | google_protobuf_ListValue_msg => "google_protobuf_ListValue"
  | fnv1_RunFunctionRequest_msg => "fnv1_RunFunctionRequest"
  | fnv1_RunFunctionRequest_ExtraResourcesEntry_msg => "fnv1_RunFunctionRequest_ExtraResourcesEntry"
  | fnv1_RunFunctionRequest_CredentialsEntry_msg => "fnv1_RunFunctionRequest_CredentialsEntry"
  | fnv1_RunFunctionRequest_RequiredResourcesEntry_msg => "fnv1_RunFunctionRequest_RequiredResourcesEntry"
  | fnv1_RunFunctionRequest_RequiredSchemasEntry_msg => "fnv1_RunFunctionRequest_RequiredSchemasEntry"
  | fnv1_Credentials_msg => "fnv1_Credentials"
  | fnv1_CredentialData_msg => "fnv1_CredentialData"
  | fnv1_CredentialData_DataEntry_msg => "fnv1_CredentialData_DataEntry"
  | fnv1_Resources_msg => "fnv1_Resources"
  | fnv1_RunFunctionResponse_msg => "fnv1_RunFunctionResponse"
  | fnv1_RequestMeta_msg => "fnv1_RequestMeta"
  | fnv1_Requirements_msg => "fnv1_Requirements"
  | fnv1_Requirements_ExtraResourcesEntry_msg => "fnv1_Requirements_ExtraResourcesEntry"
  | fnv1_Requirements_ResourcesEntry_msg => "fnv1_Requirements_ResourcesEntry"
  | fnv1_Requirements_SchemasEntry_msg => "fnv1_Requirements_SchemasEntry"
  | fnv1_SchemaSelector_msg => "fnv1_SchemaSelector"
  | fnv1_Schema_msg => "fnv1_Schema"
  | fnv1_ResourceSelector_msg => "fnv1_ResourceSelector"
  | fnv1_MatchLabels_msg => "fnv1_MatchLabels"
  | fnv1_MatchLabels_LabelsEntry_msg => "fnv1_MatchLabels_LabelsEntry"
  | fnv1_ResponseMeta_msg => "fnv1_ResponseMeta"
  | fnv1_State_msg => "fnv1_State"
  | fnv1_State_ResourcesEntry_msg => "fnv1_State_ResourcesEntry"
  | fnv1_Resource_msg => "fnv1_Resource"
  | fnv1_Resource_ConnectionDetailsEntry_msg => "fnv1_Resource_ConnectionDetailsEntry"
  | fnv1_Result_msg => "fnv1_Result"
  | fnv1_Condition_msg => "fnv1_Condition"
  end.
Definition enum_name (e : enumdesc) : string :=
  match e with
  | google_protobuf_NullValue => "google_protobuf_NullValue"
  | fnv1_Capability => "fnv1_Capability"
  | fnv1_Ready => "fnv1_Ready"
  | fnv1_Severity => "fnv1_Severity"
  | fnv1_Target => "fnv1_Target"
  | fnv1_Status => "fnv1_Status"
  end.

Definition dot_to_underscore (c : ascii) : ascii := if decide (c = "."%char) then "_"%char else c.
Fixpoint map_string (f : ascii -> ascii) (s : string) : string :=
  match s with EmptyString => EmptyString | String c s => String (f c) (map_string f s) end.

(** The C name of a name used in package [pkg]: a qualified one has its own
    package. *)
Definition mangle (pkg name : string) : string :=
  if existsb (fun c => bool_decide (c = "."%char)) (String.list_ascii_of_string name)
  then map_string dot_to_underscore name
  else String.append pkg (String.append "_" name).

Definition upper (c : ascii) : ascii :=
  let n := Ascii.nat_of_ascii c in
  if ((97 <=? n) && (n <=? 122))%nat then Ascii.ascii_of_nat (n - 32) else c.
(** [extra_resources] is [ExtraResources]. *)
Fixpoint camel (up : bool) (s : string) : string :=
  match s with
  | EmptyString => EmptyString
  | String c s =>
      if decide (c = "_"%char) then camel true s
      else String (if up then upper c else c) (camel false s)
  end.

Definition desc_named (n : string) : option msgdesc := List.find (fun m => bool_decide (c_name m = n)) all_msgs.
Definition enum_named (n : string) : option enumdesc := List.find (fun e => bool_decide (enum_name e = n)) all_enums.

(** ** What the files declare *)

(** A field of a message, as protobuf has it: when it is there, its type, its name
    and its number. *)
Inductive presence := Implicit | Explicit | Repeated | Member (oneof : string).
#[export] Instance presence_eq_dec : EqDecision presence.
Proof. solve_decision. Defined.
Record schema_field := SchemaField {
  s_presence : presence;
  s_type : ltype;
  s_name : string;
  s_number : Z;
}.
#[export] Instance schema_field_eq_dec : EqDecision schema_field.
Proof. solve_decision. Defined.

Definition type_of (pkg : string) (t : ptype) : option ltype :=
  match t with
  | Pdouble => Some DOUBLE | Pint64 => Some INT64 | Pint32 => Some INT32 | Pbool => Some BOOL
  | Pstring => Some STRING | Pbytes => Some BYTES
  | Pnamed n =>
      let c := mangle pkg n in
      match desc_named c with Some m => Some (MESSAGE m) | None => e ← enum_named c; Some (UENUM e) end
  end.

(** A submessage always has presence; of the rest, what is [optional]. *)
Definition presence_of (l : plabel) (t : ltype) : presence :=
  match l, t with
  | plain, MESSAGE _ => Explicit
  | plain, _ => Implicit
  | optional, _ => Explicit
  | repeated, _ => Repeated
  end.
Definition field_of (pkg : string) (l : plabel) (t : ptype) (name : string) (tag : Z) : option schema_field :=
  t ← type_of pkg t; mret (SchemaField (presence_of l t) t name tag).

(** The message of a map's entries: a map is a repeated field of messages with the
    key as field 1 and the value as field 2. *)
Definition entry_of (outer name : string) : string :=
  String.append outer (String.append "_" (String.append (camel true name) "Entry")).

(** The fields of a declaration, and the messages of its entries. *)
Definition declared_fields (pkg outer : string) (d : decl)
    : option (list schema_field * list (string * list schema_field)) :=
  match d with
  | Field l t name tag => f ← field_of pkg l t name tag; mret ([f], [])
  | Map v name tag =>
      let entry := entry_of outer name in
      m ← desc_named entry;
      k ← field_of pkg plain Pstring "key" 1;
      w ← field_of pkg plain v "value" 2;
      mret ([SchemaField Repeated (MESSAGE m) name tag], [(entry, [k; w])])
  | Oneof u members =>
      fs ← mapM (fun d : ptype * string * Z =>
        t ← type_of pkg d.1.1; mret (SchemaField (Member u) t d.1.2 d.2)) members;
      mret (fs, [])
  end.
Definition declared_message (pkg : string) (m : string * list decl) : option (list (string * list schema_field)) :=
  let outer := mangle pkg m.1 in
  ds ← mapM (declared_fields pkg outer) m.2;
  mret ((outer, ds ≫= fst) :: (ds ≫= snd)).
Definition declared_file (p : proto) : option (list (string * list schema_field)) :=
  ms ← mapM (declared_message (package p)) (messages p); mret (mjoin ms).

(** Every message, by C name. *)
Definition declared_messages : option (list (string * list schema_field)) :=
  ps ← mapM declared_file protos; mret (mjoin ps).
(** The enums by C name. *)
Definition declared_enums : list (string * list (string * Z)) :=
  protos ≫= fun p => (fun e : string * list (string * Z) => (mangle (package p) e.1, e.2)) <$> enums p.

(** What a descriptor says of a field: of the rule, when it is there. *)
Definition described (f : field) : schema_field :=
  SchemaField (match f_rule f with
               | SINGULAR => Implicit | OPTIONAL => Explicit | REPEATED => Repeated | ONEOF u => Member u
               end) (f_type f) (f_name f) (f_tag f).

(** What the options ask for: a pointer wherever there is no fixed size. *)
Definition unbounded (f : field) : bool :=
  match f_rule f, f_type f with REPEATED, _ | _, STRING | _, BYTES => true | _, _ => false end.

(** ** From descriptors to structs *)

Definition ctype_of (t : ltype) : ctype :=
  match t with
  | MESSAGE m => Cstruct m | UENUM e => Cenum e
  | STRING => Cchar | BYTES => Cpb_bytes_array_t
  | BOOL => Cbool | DOUBLE => Cdouble | INT64 => Cint64 | INT32 => Cint32
  end.
Definition held (f : field) : ctype :=
  match f_alloc f with STATIC => ctype_of (f_type f) | POINTER => Cptr (ctype_of (f_type f)) end.

(** Consecutive members of a [oneof] share one union, after its discriminant; an
    optional member that is not a pointer has a flag before it, a repeated one
    its count. *)
Fixpoint members_of (fs : list field) : list (string * ctype) :=
  match fs with
  | [] => []
  | f :: fs =>
      match f_rule f, f_alloc f with
      | SINGULAR, _ | OPTIONAL, POINTER => (f_name f, held f) :: members_of fs
      | OPTIONAL, STATIC => (String.append "has_" (f_name f), Cbool) :: (f_name f, held f) :: members_of fs
      | REPEATED, _ => (String.append (f_name f) "_count", Cpb_size_t) :: (f_name f, held f) :: members_of fs
      | ONEOF u, _ =>
          match members_of fs with
          | (w, Cpb_size_t) :: (u', Cunion ms) :: rest =>
              if decide (u = u') then (w, Cpb_size_t) :: (u, Cunion ((f_name f, held f) :: ms)) :: rest
              else (String.append "which_" u, Cpb_size_t) :: (u, Cunion [(f_name f, held f)]) :: members_of fs
          | rest => (String.append "which_" u, Cpb_size_t) :: (u, Cunion [(f_name f, held f)]) :: rest
          end
      end
  end.

(** The zero of a type, as an initialiser item. *)
Fixpoint zero_of (t : ctype) : initializer :=
  match t with
  | Cbool => i_false
  | Cdouble | Cint64 | Cint32 | Cpb_size_t | Cchar | Cpb_bytes_array_t => i_0
  | Cenum e => i_MIN e
  | Cstruct m => i_init m
  | Cptr _ => i_NULL
  | Cunion ms => i_braces (match ms with (_, t) :: _ => [zero_of t] | [] => [] end)
  end.

(** ** Sizes: wasm32's, with 32-bit counts ([PB_FIELD_32BIT]) *)

Definition round_up (n a : Z) : Z := (n + a - 1) / a * a.

(** The size and alignment of a type, structs nesting at most [n] deep. *)
Fixpoint size_align (n : nat) (t : ctype) {struct n} : option (Z * Z) :=
  match n with
  | O => None
  | S n =>
      match t with
      | Cbool | Cchar => Some (1, 1)
      | Cint32 | Cpb_size_t | Cenum _ | Cptr _ => Some (4, 4)
      | Cdouble | Cint64 => Some (8, 8)
      | Cpb_bytes_array_t => None
      | Cstruct m =>
          '(o, a) ← foldl (fun (acc : option (Z * Z)) (x : string * ctype) =>
            '(o, a) ← acc; '(s, b) ← size_align n x.2; mret (round_up o b + s, Z.max a b))
            (Some (0, 1)) (typedef_of m);
          mret (round_up o a, a)
      | Cunion ms =>
          '(s, a) ← foldl (fun (acc : option (Z * Z)) (x : string * ctype) =>
            '(o, a) ← acc; '(s, b) ← size_align n x.2; mret (Z.max o s, Z.max a b))
            (Some (0, 1)) ms;
          mret (round_up s a, a)
      end
  end.
(** Deep enough for every struct ([CodecProps.sizes_known]). *)
Definition nesting : nat := 16.
Definition sizeof (m : msgdesc) : option Z := fst <$> size_align nesting (Cstruct m).
