(* ===== verification/Wire.v ===== *)
(** Messages of the descriptors of Codec.v, their types, and an encoding of them by
    protobuf's rules (protobuf.dev's "Encoding"). nanopb, which reads the same
    descriptors, is not in the repository: the theorems are about any wire format it
    has (Handle.v), and this one is to try them on.

    A message is a list of slots, one per field of its descriptor in order, each
    the values the field has: none when it is absent (or zero, for a [SINGULAR]
    number), several only for a [REPEATED] one. Unknown fields are
    skipped, a submessage met twice is merged, the last of a [oneof] wins, and a
    repeated number may be packed or not. *)
From S2P Require Import Prelude Codec.
From Stdlib Require Import Strings.Byte.

(** ** Values *)

Inductive value :=
  | VInt (z : Z)
  | VBool (b : bool)
  | VDouble (bits : Z)
  | VText (bs : bytes)
  | VMsg (slots : list (list value)).
Abbreviation slots_t := (list (list value)).

Section slotwise.
Context {A : Type} (f : field -> list value -> A) (g : A -> A -> A) (z : A).
Fixpoint slotwise (fs : list field) (slots : slots_t) {struct slots} : A :=
  match slots, fs with
  | s :: slots, x :: fs => g (f x s) (slotwise fs slots)
  | _, _ => z
  end.
End slotwise.

Definition in_range (lo hi z : Z) : bool := (lo <=? z) && (z <? hi).

(** The values of a type; a message's slots match its fields. *)
Definition slot_shape (f : field) (s : list value) : bool :=
  match f_rule f, s with
  | REPEATED, _ | _, [] | _, [_] => true
  | _, _ => false
  end.
(** A [SINGULAR] number is not zero. Text and bytes are pointers here, whose presence
    is that of the pointer, also of an empty one. *)
Definition is_default (v : value) : bool :=
  match v with
  | VInt z | VDouble z => z =? 0
  | VBool b => negb b
  | VText _ | VMsg _ => false
  end.
Definition slot_present (f : field) (s : list value) : bool :=
  match f_rule f with SINGULAR => forallb (fun v => negb (is_default v)) s | _ => true end.
(** At most one member of a [oneof] is set. *)
Definition same_union (u : string) (f : field) : bool := bool_decide (f_rule f = ONEOF u).
Fixpoint exclusive (fs : list field) (slots : slots_t) : bool :=
  match fs, slots with
  | f :: fs, s :: slots =>
      match f_rule f, s with
      | ONEOF u, _ :: _ =>
          forallb (fun p : field * list value => negb (same_union u p.1) || bool_decide (length p.2 = 0%nat))
            (zip fs slots)
      | _, _ => true
      end && exclusive fs slots
  | _, _ => true
  end.

Fixpoint typed (t : ltype) (v : value) {struct v} : bool :=
  match t, v with
  | (INT32 | UENUM _), VInt z => in_range (- 2 ^ 31) (2 ^ 31) z
  | INT64, VInt z => in_range (- 2 ^ 63) (2 ^ 63) z
  | BOOL, VBool _ => true
  | DOUBLE, VDouble z => in_range 0 (2 ^ 64) z
  | (STRING | BYTES), VText _ => true
  | MESSAGE m, VMsg slots =>
      bool_decide (length slots = length (fields_of m)) && exclusive (fields_of m) slots
      && slotwise (fun f s => slot_shape f s && slot_present f s && forallb (typed (f_type f)) s) andb true
           (fields_of m) slots
  | _, _ => false
  end.
Definition typed_slots (m : msgdesc) (slots : slots_t) : Prop := typed (MESSAGE m) (VMsg slots) = true.
Definition empty (m : msgdesc) : slots_t := replicate (length (fields_of m)) [].

(** ** Encoding *)

Fixpoint varint_from (n : nat) (z : Z) : bytes :=
  match n with
  | O => []
  | S n => if z <? 128 then [val_byte z] else val_byte (z mod 128 + 128) :: varint_from n (z / 128)
  end.
(** Ten groups of seven bits hold any 64-bit number. *)
Definition varint (z : Z) : bytes := varint_from 10 z.

Definition wire_type (t : ltype) : Z :=
  match t with
  | UENUM _ | BOOL | INT64 | INT32 => 0
  | DOUBLE => 1
  | MESSAGE _ | STRING | BYTES => 2
  end.
(** Repeated numbers are packed. *)
Definition packed (f : field) : bool :=
  match f_rule f with REPEATED => negb (wire_type (f_type f) =? 2) | _ => false end.

Definition key (tag wt : Z) : bytes := varint (8 * tag + wt).
Definition delimited (bs : bytes) : bytes := varint (Z.of_nat (length bs)) ++ bs.

Definition encode_slot (f : field) (payloads : list bytes) : bytes :=
  if packed f then
    match payloads with
    | [] => []
    | _ => key (f_tag f) 2 ++ delimited (mjoin payloads)
    end
  else payloads ≫= fun p => key (f_tag f) (wire_type (f_type f)) ++ p.

Fixpoint encode_value (t : ltype) (v : value) {struct v} : bytes :=
  match t, v with
  | (INT32 | INT64 | UENUM _), VInt z => varint (uwrap 64 z)
  | BOOL, VBool b => varint (if b then 1 else 0)
  | DOUBLE, VDouble z => le_encode 8 z
  | (STRING | BYTES), VText bs => delimited bs
  | MESSAGE m, VMsg slots =>
      delimited (slotwise (fun f s => encode_slot f (map (encode_value (f_type f)) s)) app [] (fields_of m) slots)
  | _, _ => []
  end.
Definition encode_fields : list field -> slots_t -> bytes :=
  slotwise (fun f s => encode_slot f (map (encode_value (f_type f)) s)) app [].
Definition encode_message (m : msgdesc) (slots : slots_t) : bytes := encode_fields (fields_of m) slots.

(** ** Decoding *)

Fixpoint parse_varint_from (n : nat) (bs : bytes) : option (Z * bytes) :=
  match n, bs with
  | S n, b :: bs =>
      let z := byte_val b in
      if z <? 128 then Some (z, bs)
      else '(r, bs) ← parse_varint_from n bs; Some (z - 128 + 128 * r, bs)
  | _, _ => None
  end.
Definition parse_varint (bs : bytes) : option (Z * bytes) :=
  '(z, bs) ← parse_varint_from 10 bs; Some (uwrap 64 z, bs).
Definition parse_fixed (n : nat) (bs : bytes) : option (Z * bytes) :=
  if bool_decide (n <= length bs)%nat then Some (le_decode (take n bs), drop n bs) else None.
Definition parse_delimited (bs : bytes) : option (bytes * bytes) :=
  '(n, bs) ← parse_varint bs;
  if n <=? Z.of_nat (length bs) then Some (take (Z.to_nat n) bs, drop (Z.to_nat n) bs) else None.

(** A field's payload before its type is known. *)
Inductive raw := RVarint (z : Z) | RFixed64 (z : Z) | RDelimited (bs : bytes) | RFixed32 (z : Z).
Definition parse_payload (wt : Z) (bs : bytes) : option (raw * bytes) :=
  match wt with
  | 0 => '(z, bs) ← parse_varint bs; Some (RVarint z, bs)
  | 1 => '(z, bs) ← parse_fixed 8 bs; Some (RFixed64 z, bs)
  | 2 => '(p, bs) ← parse_delimited bs; Some (RDelimited p, bs)
  | 5 => '(z, bs) ← parse_fixed 4 bs; Some (RFixed32 z, bs)
  | _ => None
  end.
Definition parse_field (bs : bytes) : option (Z * raw * bytes) :=
  '(k, bs) ← parse_varint bs;
  if k / 8 =? 0 then None else
  '(r, bs) ← parse_payload (k mod 8) bs; Some (k / 8, r, bs).

(** A number of type [t] off the front. *)
Definition of_varint (t : ltype) (z : Z) : option value :=
  match t with
  | INT32 | UENUM _ => Some (VInt (swrap 32 z))
  | INT64 => Some (VInt (swrap 64 z))
  | BOOL => Some (VBool (negb (z =? 0)))
  | _ => None
  end.
Definition parse_number (t : ltype) (bs : bytes) : option (value * bytes) :=
  if wire_type t =? 1 then '(z, bs) ← parse_fixed 8 bs; Some (VDouble z, bs)
  else '(z, bs) ← parse_varint bs; v ← of_varint t z; Some (v, bs).
Fixpoint parse_packed (n : nat) (t : ltype) (bs : bytes) : option (list value) :=
  match n, bs with
  | _, [] => Some []
  | S n, _ => '(v, bs) ← parse_number t bs; vs ← parse_packed n t bs; Some (v :: vs)
  | O, _ => None
  end.

Fixpoint field_tagged (fs : list field) (tag : Z) : option (nat * field) :=
  match fs with
  | [] => None
  | f :: fs =>
      if f_tag f =? tag then Some (O, f) else '(i, g) ← field_tagged fs tag; Some (S i, g)
  end.

Definition clear_union (u : string) (fs : list field) (slots : slots_t) : slots_t :=
  zip_with (fun f s => if same_union u f then [] else s) fs slots.

(** The slots after the values [vs] of field [i]. *)
Definition put_values (fs : list field) (i : nat) (f : field) (vs : list value) (slots : slots_t) : slots_t :=
  match f_rule f with
  | REPEATED => alter (fun s => s ++ vs) i slots
  | SINGULAR => alter (fun s => default s ((fun v => if is_default v then [] else [v]) <$> last vs)) i slots
  | OPTIONAL => alter (fun s => default s ((fun v => [v]) <$> last vs)) i slots
  | ONEOF u => alter (fun s => default s ((fun v => [v]) <$> last vs)) i
                 (match vs with [] => slots | _ => clear_union u fs slots end)
  end.

(** What a submessage is merged into. *)
Definition merge_base (m : msgdesc) (f : field) (s : list value) : slots_t :=
  match f_rule f, s with
  | REPEATED, _ => empty m
  | _, [VMsg slots] => slots
  | _, _ => empty m
  end.

Section store.
Context (dec : msgdesc -> slots_t -> bytes -> option slots_t).
Definition read_values (f : field) (s : list value) (r : raw) : option (list value) :=
  match f_type f, r with
  | MESSAGE m, RDelimited bs => slots ← dec m (merge_base m f s) bs; Some [VMsg slots]
  | (STRING | BYTES), RDelimited bs => Some [VText bs]
  | DOUBLE, RFixed64 z => Some [VDouble z]
  | t, RVarint z => v ← of_varint t z; Some [v]
  | t, RDelimited bs => if packed f then parse_packed (length bs) t bs else None
  | _, _ => None
  end.
Definition store (m : msgdesc) (slots : slots_t) (tag : Z) (r : raw) : option slots_t :=
  match field_tagged (fields_of m) tag with
  | None => Some slots
  | Some (i, f) =>
      vs ← read_values f (default [] (slots !! i)) r;
      Some (put_values (fields_of m) i f vs slots)
  end.
End store.

(** Every field takes a byte at least, so a round per byte is enough. *)
Fixpoint decode_from (n : nat) (m : msgdesc) (slots : slots_t) (bs : bytes) : option slots_t :=
  match n, bs with
  | _, [] => Some slots
  | O, _ => None
  | S n, _ =>
      '(tag, r, bs) ← parse_field bs;
      slots ← store (decode_from n) m slots tag r;
      decode_from n m slots bs
  end.
Definition decode_message (m : msgdesc) (bs : bytes) : option slots_t :=
  decode_from (length bs) m (empty m) bs.
