(* ===== verification/WireProps.v ===== *)
(** The wire format read back: what the descriptors of Codec.v encode, they
    decode. *)
From S2P Require Import Prelude Codec Wire.
From Stdlib Require Import Strings.Byte.

(** ** Numbers *)

Lemma pow_128_succ n : 128 ^ Z.of_nat (S n) = 128 * 128 ^ Z.of_nat n.
Proof. rewrite Nat2Z.inj_succ, Z.pow_succ_r by lia. done. Qed.

Lemma parse_varint_from_spec n z rest :
  0 <= z < 128 ^ Z.of_nat n -> (0 < n)%nat -> parse_varint_from n (varint_from n z ++ rest) = Some (z, rest).
Proof.
  revert z. induction n as [|n IH]; intros z Hz Hn; [lia|]. simpl. destruct (Z.ltb_spec z 128).
  - simpl. rewrite byte_val_byte, Z.mod_small by lia. by destruct (Z.ltb_spec z 128); [|lia].
  - rewrite pow_128_succ in Hz. pose proof (Z.mod_pos_bound z 128 ltac:(lia)). simpl.
    rewrite byte_val_byte, Z.mod_small by lia. destruct (Z.ltb_spec (z mod 128 + 128) 128); [lia|].
    assert (0 < n)%nat by (destruct n; [simpl in Hz; lia|lia]).
    rewrite IH by (try done; Z.to_euclidean_division_equations; nia). simpl. do 2 f_equal.
    pose proof (Z.div_mod z 128). lia.
Qed.

Lemma parse_varint_spec z rest : 0 <= z < 2 ^ 64 -> parse_varint (varint z ++ rest) = Some (z, rest).
Proof.
  intros Hz. unfold parse_varint, varint. rewrite parse_varint_from_spec by (try lia; done).
  simpl. by rewrite uwrap_id.
Qed.

Lemma length_varint_from n z : (length (varint_from n z) <= n)%nat.
Proof. revert z. induction n as [|n IH]; intros z; simpl; [lia|]. destruct (_ <? _); simpl; [lia|]. specialize (IH (z / 128)). lia. Qed.

Lemma length_varint z : (1 <= length (varint z) <= 10)%nat.
Proof. split; [|apply length_varint_from]. unfold varint. simpl. destruct (_ <? _); simpl; lia. Qed.

Lemma length_key_small tag wt : 8 * tag + wt < 128 -> length (key tag wt) = 1%nat.
Proof. intros H. unfold key, varint. simpl. by destruct (Z.ltb_spec (8 * tag + wt) 128); [|lia]. Qed.

Lemma parse_fixed_spec n z rest :
  0 <= z < 256 ^ Z.of_nat n -> parse_fixed n (le_encode n z ++ rest) = Some (z, rest).
Proof.
  intros Hz. unfold parse_fixed. rewrite bool_decide_eq_true_2 by (rewrite length_app, length_le_encode; lia).
  rewrite take_app_length', drop_app_length' by (by rewrite length_le_encode). by rewrite le_decode_encode_small.
Qed.

Lemma parse_delimited_spec bs rest :
  Z.of_nat (length bs) < 2 ^ 64 -> parse_delimited (delimited bs ++ rest) = Some (bs, rest).
Proof.
  intros Hl. unfold parse_delimited, delimited. rewrite <- app_assoc, parse_varint_spec by lia. simpl.
  rewrite length_app. destruct (Z.leb_spec (Z.of_nat (length bs)) (Z.of_nat (length bs + length rest))); [|lia].
  by rewrite Nat2Z.id, take_app_length, drop_app_length.
Qed.

Lemma length_delimited bs : (length bs < length (delimited bs))%nat.
Proof. unfold delimited. rewrite length_app. pose proof (length_varint (Z.of_nat (length bs))). lia. Qed.

(** ** Values *)

(** The payload of an encoded value. *)
Definition raw_of (t : ltype) (v : value) : raw :=
  match t, v with
  | DOUBLE, VDouble z => RFixed64 z
  | _, VInt z => RVarint (uwrap 64 z)
  | _, VBool b => RVarint (if b then 1 else 0)
  | MESSAGE m, VMsg slots => RDelimited (encode_message m slots)
  | _, VText bs => RDelimited bs
  | _, _ => RVarint 0
  end.

Lemma in_range_spec lo hi z : in_range lo hi z = true <-> lo <= z < hi.
Proof. unfold in_range. lia. Qed.

Lemma encode_value_message m slots : encode_value (MESSAGE m) (VMsg slots) = delimited (encode_message m slots).
Proof. done. Qed.

Lemma parse_payload_spec t v rest :
  typed t v = true -> Z.of_nat (length (encode_value t v)) < 2 ^ 64 ->
  parse_payload (wire_type t) (encode_value t v ++ rest) = Some (raw_of t v, rest).
Proof.
  pose proof (fun z => uwrap_range 64 z ltac:(lia)) as Hw.
  intros Ht Hl. destruct t, v; try discriminate Ht; simpl wire_type; unfold parse_payload;
    try (rewrite encode_value_message in * ); cbn [encode_value raw_of] in *;
    try (rewrite parse_varint_spec by first [apply Hw | by destruct b]; done);
    try (rewrite parse_fixed_spec by (apply in_range_spec in Ht; lia); done);
    (rewrite parse_delimited_spec;
     [done|match goal with |- Z.of_nat (length ?x) < _ => pose proof (length_delimited x) end; lia]).
Qed.

Lemma swrap_uwrap w k z : 0 < w -> w <= k -> - 2 ^ (w - 1) <= z < 2 ^ (w - 1) -> swrap w (uwrap k z) = z.
Proof.
  intros Hw Hk Hz. rewrite <- (swrap_id w z) at 2 by lia. unfold swrap, uwrap.
  assert (z mod 2 ^ k mod 2 ^ w = z mod 2 ^ w) as ->; [|done].
  replace k with (w + (k - w)) by lia. rewrite Z.pow_add_r by lia. rewrite Z.rem_mul_r by lia.
  rewrite Z.mul_comm, Z.mod_add by lia. apply Z.mod_mod. lia.
Qed.

Lemma of_varint_spec t v :
  typed t v = true -> wire_type t = 0 ->
  exists z, raw_of t v = RVarint z /\ of_varint t z = Some v /\ 0 <= z < 2 ^ 64 /\ encode_value t v = varint z.
Proof.
  pose proof (fun z => uwrap_range 64 z ltac:(lia)) as Hw.
  intros Ht Hwt. destruct t, v; try discriminate Ht; try discriminate Hwt; cbn [encode_value raw_of of_varint] in *;
    eexists; (split; [reflexivity|]).
  all: try (apply in_range_spec in Ht; rewrite swrap_uwrap by (simpl; lia); split_and!; try done; apply Hw).
  by destruct b.
Qed.

Lemma parse_number_spec t v rest :
  typed t v = true -> wire_type t <> 2 ->
  parse_number t (encode_value t v ++ rest) = Some (v, rest) /\ encode_value t v <> [].
Proof.
  intros Ht Hw. unfold parse_number. destruct (Z.eqb_spec (wire_type t) 1) as [E|E].
  - destruct t, v; try discriminate. cbn [encode_value]. split; [|done].
    rewrite parse_fixed_spec; [done|]. apply in_range_spec in Ht. lia.
  - assert (wire_type t = 0) as E0 by (destruct t; done || (simpl in *; lia)).
    destruct (of_varint_spec t v Ht E0) as (z & _ & Hv & Hz & ->).
    rewrite parse_varint_spec by done. simpl. rewrite Hv. split; [done|].
    intros En. pose proof (length_varint z). rewrite En in *. simpl in *. lia.
Qed.

Lemma parse_packed_spec n t s :
  (length (mjoin (map (encode_value t) s)) <= n)%nat -> forallb (typed t) s = true -> wire_type t <> 2 ->
  parse_packed n t (mjoin (map (encode_value t) s)) = Some s.
Proof.
  revert n. induction s as [|v s IH]; intros n Hn Hs Hw; [by destruct n|]. simpl in *.
  apply andb_prop in Hs as [Hv Hs].
  destruct (parse_number_spec t v (mjoin (map (encode_value t) s)) Hv Hw) as [Hp Hne].
  rewrite length_app in Hn. destruct (encode_value t v) as [|b bs]; [done|]. simpl in Hn.
  destruct n as [|n]; [lia|]. cbn [app parse_packed] in *. rewrite Hp. simpl. rewrite IH by (done || lia). done.
Qed.

(** ** Fuel *)

Definition raw_size (r : raw) : nat := match r with RDelimited bs => length bs | _ => 0 end.

Lemma parse_varint_from_shrinks n bs z rest : parse_varint_from n bs = Some (z, rest) -> (length rest < length bs)%nat.
Proof.
  revert bs z. induction n as [|n IH]; intros [|b bs] z H; try done. simpl in H |- *.
  destruct (_ <? _); [simplify_eq; lia|]. destruct (parse_varint_from n bs) as [[r l]|] eqn:E; [|done].
  simplify_eq/=. apply IH in E. lia.
Qed.

Lemma parse_varint_shrinks bs z rest : parse_varint bs = Some (z, rest) -> (length rest < length bs)%nat.
Proof.
  unfold parse_varint. destruct (parse_varint_from 10 bs) as [[r l]|] eqn:E; [|done]. intros [= _ <-].
  by eapply parse_varint_from_shrinks.
Qed.

Lemma parse_fixed_shrinks n bs z rest : parse_fixed n bs = Some (z, rest) -> (length rest <= length bs)%nat.
Proof. unfold parse_fixed. case_bool_decide; [|done]. intros [= _ <-]. rewrite length_drop. lia. Qed.

Lemma parse_delimited_shrinks bs p rest :
  parse_delimited bs = Some (p, rest) -> (length p + length rest <= length bs)%nat.
Proof.
  unfold parse_delimited. intros H. apply bind_Some in H as ([n l] & E & H).
  apply parse_varint_shrinks in E. destruct (n <=? _); [|done]. simplify_eq.
  rewrite length_take, length_drop. lia.
Qed.

Lemma parse_payload_shrinks wt bs r rest :
  parse_payload wt bs = Some (r, rest) -> (raw_size r + length rest <= length bs)%nat.
Proof.
  unfold parse_payload. intros H.
  repeat (case_match; try done); apply bind_Some in H as ([x l] & E & H); simplify_eq; simpl;
    first [ apply parse_varint_shrinks in E; lia | apply parse_fixed_shrinks in E; lia
          | by apply parse_delimited_shrinks in E ].
Qed.

Lemma parse_field_shrinks bs tag r rest :
  parse_field bs = Some (tag, r, rest) -> (raw_size r + length rest < length bs)%nat.
Proof.
  unfold parse_field. intros H. apply bind_Some in H as ([k l] & E & H). apply parse_varint_shrinks in E.
  destruct (_ =? 0); [done|]. apply bind_Some in H as ([r' l'] & E' & H). simplify_eq.
  apply parse_payload_shrinks in E'. lia.
Qed.

(** The decoders agree on the submessages of [n] bytes at most. *)
Lemma store_ext dec dec' n m slots tag r :
  (forall m slots bs, (length bs <= n)%nat -> dec m slots bs = dec' m slots bs) -> (raw_size r <= n)%nat ->
  store dec m slots tag r = store dec' m slots tag r.
Proof.
  intros Hd Hr. unfold store. destruct (field_tagged _ _) as [[i f]|]; [|done]. f_equal.
  unfold read_values. destruct (f_type f), r; try done. by rewrite Hd.
Qed.

Lemma decode_fuel n n' m slots bs :
  (length bs <= n)%nat -> (length bs <= n')%nat -> decode_from n m slots bs = decode_from n' m slots bs.
Proof.
  revert n' m slots bs. induction n as [n IH] using lt_wf_ind. intros n' m slots bs Hn Hn'.
  destruct bs as [|b bs]; [by destruct n, n'|]. destruct n as [|n], n' as [|n']; simpl in Hn, Hn'; try lia.
  simpl. destruct (parse_field (b :: bs)) as [[[tag r] rest]|] eqn:E; [|done]. apply parse_field_shrinks in E.
  simpl in E |- *. rewrite (store_ext (decode_from n) (decode_from n') (length bs)) by (try lia; intros; apply IH; lia).
  destruct (store _ _ _ _ _) as [slots'|]; [|done]. simpl. apply IH; lia.
Qed.

(** Decoding with fuel enough, and its equation. *)
Definition dec (m : msgdesc) (slots : slots_t) (bs : bytes) : option slots_t := decode_from (length bs) m slots bs.

Lemma dec_step m slots bs tag r rest :
  parse_field bs = Some (tag, r, rest) ->
  dec m slots bs = (slots ← store dec m slots tag r; dec m slots rest).
Proof.
  intros E. pose proof (parse_field_shrinks _ _ _ _ E) as Hs. unfold dec at 1.
  destruct bs as [|b bs]; [done|]. simpl length in *. simpl decode_from. rewrite E. simpl.
  rewrite (store_ext (decode_from (length bs)) dec (length bs)) by (try lia; intros; apply decode_fuel; lia).
  destruct (store _ _ _ _ _) as [slots'|]; [|done]. simpl. apply decode_fuel; lia.
Qed.

(** ** Tables a decoder can use *)

Definition good_tags (fs : list field) : Prop :=
  NoDup (f_tag <$> fs) /\ Forall (fun f => 0 < f_tag f < 2 ^ 29) fs.

Lemma field_tagged_middle fs1 f fs2 :
  NoDup (f_tag <$> fs1 ++ f :: fs2) -> field_tagged (fs1 ++ f :: fs2) (f_tag f) = Some (length fs1, f).
Proof.
  induction fs1 as [|g fs1 IH]; simpl; intros Hn; [by rewrite Z.eqb_refl|].
  apply NoDup_cons in Hn as [Hg Hn]. rewrite IH by done.
  destruct (Z.eqb_spec (f_tag g) (f_tag f)) as [E|]; [|done].
  destruct Hg. rewrite E. apply list_elem_of_fmap. exists f. split; [done|]. set_solver.
Qed.

Lemma parse_key tag wt rest :
  0 < tag < 2 ^ 29 -> 0 <= wt < 8 ->
  parse_field (key tag wt ++ rest) = ('(r, bs) ← parse_payload wt rest; Some (tag, r, bs)).
Proof.
  intros Ht Hw. unfold parse_field, key. rewrite parse_varint_spec by lia. cbn [mbind option_bind].
  assert ((8 * tag + wt) / 8 = tag) as -> by (Z.to_euclidean_division_equations; lia).
  assert ((8 * tag + wt) mod 8 = wt) as -> by (Z.to_euclidean_division_equations; lia).
  by destruct (Z.eqb_spec tag 0); [lia|].
Qed.

Lemma alter_middle {A} (g : A -> A) l1 x l2 : alter g (length l1) (l1 ++ x :: l2) = l1 ++ g x :: l2.
Proof. induction l1 as [|y l1 IH]; [done|]. simpl. by f_equal. Qed.

Lemma wire_type_range t : 0 <= wire_type t < 8.
Proof. by destruct t. Qed.

(** One occurrence of a field read into its slot. *)
Lemma dec_occurrence m fs1 f fs2 s1 s s2 v rest :
  fields_of m = fs1 ++ f :: fs2 -> good_tags (fields_of m) -> length s1 = length fs1 ->
  typed (f_type f) v = true -> Z.of_nat (length (encode_value (f_type f) v)) < 2 ^ 64 ->
  (forall m' slots, f_type f = MESSAGE m' -> v = VMsg slots ->
     dec m' (merge_base m' f s) (encode_message m' slots) = Some slots) ->
  dec m (s1 ++ s :: s2) (key (f_tag f) (wire_type (f_type f)) ++ encode_value (f_type f) v ++ rest)
  = dec m (put_values (fields_of m) (length fs1) f [v] (s1 ++ s :: s2)) rest.
Proof.
  intros Hfs [Hnd Htags] Hlen Hv Hsize Hsub.
  assert (0 < f_tag f < 2 ^ 29) as Htag.
  { rewrite Hfs in Htags. apply Forall_app in Htags as [_ Htags]. by apply Forall_cons in Htags as [? _]. }
  assert (parse_field (key (f_tag f) (wire_type (f_type f)) ++ encode_value (f_type f) v ++ rest)
          = Some (f_tag f, raw_of (f_type f) v, rest)) as Hp.
  { rewrite parse_key by (done || apply wire_type_range). by rewrite parse_payload_spec. }
  rewrite (dec_step _ _ _ _ _ _ Hp). unfold store. rewrite Hfs at 1. rewrite field_tagged_middle by (by rewrite <- Hfs).
  rewrite <- Hlen, list_lookup_middle by done. change (default [] (Some s)) with s.
  assert (read_values dec f s (raw_of (f_type f) v) = Some [v]) as ->; [|by rewrite Hlen].
  unfold read_values. destruct (f_type f) as [m'| | | | | | |] eqn:Et, v; try discriminate Hv;
    cbn [raw_of]; try done.
  - rewrite (Hsub m' slots) by done. done.
  - destruct (of_varint_spec (UENUM e) (VInt z) Hv eq_refl) as (? & [= <-] & -> & _). done.
  - by destruct b.
  - destruct (of_varint_spec INT64 (VInt z) Hv eq_refl) as (? & [= <-] & -> & _). done.
  - destruct (of_varint_spec INT32 (VInt z) Hv eq_refl) as (? & [= <-] & -> & _). done.
Qed.

(** ** Slots *)

Definition ok_slot (f : field) (s : list value) : bool :=
  slot_shape f s && slot_present f s && forallb (typed (f_type f)) s.

Definition encoded_slot (f : field) (s : list value) : bytes := encode_slot f (map (encode_value (f_type f)) s).

Lemma clear_union_id u fs slots :
  Forall2 (fun g s => same_union u g = true -> s = []) fs slots -> clear_union u fs slots = slots.
Proof.
  induction 1 as [|g s fs slots Hg _ IH]; [done|]. simpl. f_equal; [|done].
  destruct (same_union u g); [by rewrite Hg|done].
Qed.

Lemma Forall2_replicate_nil {A B} (P : A -> list B -> Prop) l :
  (forall x, P x []) -> Forall2 P l (replicate (length l) []).
Proof. intros HP. induction l; simpl; constructor; auto. Qed.

Section slot.
Context (m : msgdesc) (fs1 : list field) (f : field) (fs2 : list field) (s1 s2 : slots_t).
Context (Hfs : fields_of m = fs1 ++ f :: fs2) (Hgood : good_tags (fields_of m))
  (Hlen : length s1 = length fs1) (Hs2 : s2 = replicate (length fs2) []).

Lemma slot_tag : 0 < f_tag f < 2 ^ 29.
Proof.
  destruct Hgood as [_ Htags]. rewrite Hfs in Htags. apply Forall_app in Htags as [_ Htags].
  by apply Forall_cons in Htags as [? _].
Qed.

Lemma put_repeated s vs :
  f_rule f = REPEATED -> put_values (fields_of m) (length fs1) f vs (s1 ++ s :: s2) = s1 ++ (s ++ vs) :: s2.
Proof. intros Hr. unfold put_values. by rewrite Hr, <- Hlen, alter_middle. Qed.

Lemma put_single v :
  f_rule f <> REPEATED -> slot_present f [v] = true ->
  (forall u, f_rule f = ONEOF u -> Forall2 (fun g s => same_union u g = true -> s = []) fs1 s1) ->
  put_values (fields_of m) (length fs1) f [v] (s1 ++ [] :: s2) = s1 ++ [v] :: s2.
Proof.
  intros Hr Hp Hu. unfold put_values. unfold slot_present in Hp. destruct (f_rule f) as [| | |u] eqn:Er; [..|].
  - rewrite <- Hlen, alter_middle. simpl in *. by destruct (is_default v).
  - by rewrite <- Hlen, alter_middle.
  - done.
  - rewrite clear_union_id; [by rewrite <- Hlen, alter_middle|]. rewrite Hfs.
    apply Forall2_app; [by apply Hu|]. constructor; [done|]. rewrite Hs2. by apply Forall2_replicate_nil.
Qed.

Lemma dec_repeated s done rest :
  f_rule f = REPEATED -> forallb (typed (f_type f)) s = true ->
  Z.of_nat (length (map (encode_value (f_type f)) s ≫= fun p => key (f_tag f) (wire_type (f_type f)) ++ p)) < 2 ^ 64 ->
  (forall m' slots, f_type f = MESSAGE m' -> VMsg slots ∈ s ->
     dec m' (empty m') (encode_message m' slots) = Some slots) ->
  dec m (s1 ++ done :: s2) ((map (encode_value (f_type f)) s ≫= fun p => key (f_tag f) (wire_type (f_type f)) ++ p) ++ rest)
  = dec m (s1 ++ (done ++ s) :: s2) rest.
Proof.
  intros Hr. revert done. induction s as [|v s IH]; intros done Ht Hl Hsub; [by rewrite app_nil_r|].
  cbn [map mbind list_bind forallb] in *. apply andb_prop in Ht as [Hv Ht]. rewrite !length_app in Hl.
  rewrite <- !app_assoc. rewrite (dec_occurrence m fs1 f fs2 s1 done s2 v); try assumption; try lia.
  - rewrite put_repeated, IH by (try assumption; try lia; intros; apply Hsub; set_solver).
    by rewrite <- app_assoc.
  - intros m' slots Ht' ->. unfold merge_base. rewrite Hr. apply Hsub; [done|set_solver].
Qed.

Lemma dec_packed s rest :
  packed f = true -> s <> [] -> forallb (typed (f_type f)) s = true ->
  Z.of_nat (length (mjoin (map (encode_value (f_type f)) s))) < 2 ^ 64 ->
  dec m (s1 ++ [] :: s2) (key (f_tag f) 2 ++ delimited (mjoin (map (encode_value (f_type f)) s)) ++ rest)
  = dec m (s1 ++ s :: s2) rest.
Proof.
  intros Hp Hne Ht Hl. set (body := mjoin _) in *.
  assert (f_rule f = REPEATED /\ wire_type (f_type f) <> 2) as [Hr Hw].
  { unfold packed in Hp. destruct (f_rule f); try done. split; [done|].
    by destruct (Z.eqb_spec (wire_type (f_type f)) 2). }
  assert (parse_field (key (f_tag f) 2 ++ delimited body ++ rest) = Some (f_tag f, RDelimited body, rest)) as E.
  { rewrite parse_key by (apply slot_tag || lia). cbn [parse_payload]. by rewrite parse_delimited_spec. }
  rewrite (dec_step _ _ _ _ _ _ E). unfold store. rewrite Hfs at 1.
  rewrite field_tagged_middle by (rewrite <- Hfs; apply Hgood).
  rewrite <- Hlen, list_lookup_middle by done. change (default [] (Some [])) with (@nil value).
  assert (read_values dec f [] (RDelimited body) = Some s) as ->; [|by rewrite Hlen; cbn; rewrite put_repeated].
  unfold read_values. destruct (f_type f) eqn:Et; try done; rewrite Hp; apply parse_packed_spec; try assumption; unfold body; lia.
Qed.

Lemma dec_slot s rest :
  ok_slot f s = true -> Z.of_nat (length (encoded_slot f s)) < 2 ^ 64 ->
  (forall u, s <> [] -> f_rule f = ONEOF u -> Forall2 (fun g s => same_union u g = true -> s = []) fs1 s1) ->
  (forall m' slots, f_type f = MESSAGE m' -> VMsg slots ∈ s ->
     dec m' (empty m') (encode_message m' slots) = Some slots) ->
  dec m (s1 ++ [] :: s2) (encoded_slot f s ++ rest) = dec m (s1 ++ s :: s2) rest.
Proof.
  unfold ok_slot, encoded_slot, encode_slot. intros Hok Hl Hu Hsub.
  apply andb_prop in Hok as [Hok Ht]. apply andb_prop in Hok as [Hsh Hp].
  destruct (packed f) eqn:Ep.
  - destruct s as [|v s]; [done|].
    change (match map _ (v :: s) with [] => _ | _ => ?x end) with x in Hl |- *.
    rewrite <- app_assoc. apply dec_packed; try done.
    revert Hl. rewrite length_app. pose proof (length_delimited (mjoin (map (encode_value (f_type f)) (v :: s)))).
    cbn [map] in *. lia.
  - destruct (decide (f_rule f = REPEATED)) as [Hr|Hr].
    + by rewrite (dec_repeated s []).
    + assert (s = [] \/ exists v, s = [v]) as [->|[v ->]].
      { unfold slot_shape in Hsh. destruct (f_rule f), s as [|v [|]]; try done; eauto. }
      { done. }
      cbn [map mbind list_bind forallb] in *. rewrite andb_true_r in Ht. rewrite app_nil_r in Hl |- *.
      rewrite length_app in Hl. rewrite <- app_assoc.
      rewrite (dec_occurrence m fs1 f fs2 s1 [] s2 v); try assumption; try lia.
      * rewrite put_single; try done. intros u Hf. by apply Hu.
      * intros m' slots Ht' ->. unfold merge_base.
        replace (match f_rule f with REPEATED => empty m' | _ => empty m' end) with (empty m') by by destruct (f_rule f).
        apply Hsub; [done|set_solver].
Qed.
End slot.

(** ** Messages *)

Lemma slotwise_andb (P : field -> list value -> bool) fs slots :
  length slots = length fs -> slotwise P andb true fs slots = true -> Forall2 (fun f s => P f s = true) fs slots.
Proof.
  revert slots. induction fs as [|f fs IH]; intros [|s slots] Hl H; try done.
  simpl in H. apply andb_prop in H as [Hs H]. constructor; [done|]. apply IH; [by injection Hl|done].
Qed.

Lemma typed_slots_ok m slots :
  typed_slots m slots -> exclusive (fields_of m) slots = true /\
  Forall2 (fun f s => ok_slot f s = true) (fields_of m) slots.
Proof.
  unfold typed_slots. intros H. cbn [typed] in H. apply andb_prop in H as [H Hs]. apply andb_prop in H as [Hl He].
  apply bool_decide_eq_true in Hl. split; [done|]. by apply slotwise_andb.
Qed.

Lemma exclusive_before u f s fs1 fs2 s1 s2 :
  exclusive (fs1 ++ f :: fs2) (s1 ++ s :: s2) = true -> length s1 = length fs1 -> s <> [] -> f_rule f = ONEOF u ->
  Forall2 (fun g s => same_union u g = true -> s = []) fs1 s1.
Proof.
  intros He Hl Hs Hf. revert s1 He Hl. induction fs1 as [|g fs1 IH]; intros [|x s1] He Hl; try done.
  simpl in He. apply andb_prop in He as [Hx He]. constructor; [|apply IH; [done|by injection Hl]].
  intros Hg. apply bool_decide_eq_true in Hg. rewrite Hg in Hx. destruct x as [|y x]; [done|].
  exfalso. apply (proj1 (forallb_forall _ _)) with (x := (f, s)) in Hx.
  - simpl in Hx. unfold same_union in Hx. rewrite Hf, bool_decide_eq_true_2 in Hx by done.
    simpl in Hx. apply bool_decide_eq_true in Hx. by destruct s.
  - apply list_elem_of_In. rewrite zip_with_app by (injection Hl; done). set_solver.
Qed.

Lemma good_tables m : good_tags (fields_of m).
Proof.
  split; [|by destruct m; repeat constructor]. apply (bool_decide_unpack _). by destruct m; vm_compute.
Qed.

Lemma sub_message_smaller f s m slots :
  f_type f = MESSAGE m -> VMsg slots ∈ s -> (length (encode_message m slots) < length (encoded_slot f s))%nat.
Proof.
  intros Ht Hs. apply list_elem_of_split in Hs as (l1 & l2 & ->). unfold encoded_slot, encode_slot.
  assert (packed f = false) as -> by (unfold packed; rewrite Ht; by destruct (f_rule f)).
  rewrite Ht, map_app, bind_app. cbn [map mbind list_bind]. rewrite encode_value_message, !length_app.
  pose proof (length_delimited (encode_message m slots)). lia.
Qed.

Lemma snoc_cons {A} (l1 : list A) x l2 : l1 ++ x :: l2 = (l1 ++ [x]) ++ l2.
Proof. by rewrite <- app_assoc. Qed.

Section fields.
Context (N : nat) (HN : Z.of_nat N < 2 ^ 64).
Context (IH : forall m slots, typed_slots m slots -> (length (encode_message m slots) < N)%nat ->
  dec m (empty m) (encode_message m slots) = Some slots).

Lemma dec_fields m fs2 s2 fs1 s1 :
  fields_of m = fs1 ++ fs2 -> length s1 = length fs1 -> Forall2 (fun f s => ok_slot f s = true) fs2 s2 ->
  exclusive (fs1 ++ fs2) (s1 ++ s2) = true -> (length (encode_fields fs2 s2) <= N)%nat ->
  dec m (s1 ++ replicate (length fs2) []) (encode_fields fs2 s2) = Some (s1 ++ s2).
Proof.
  intros Hfs Hlen Hok. revert fs1 s1 Hfs Hlen.
  induction Hok as [|f s fs2 s2 Hs Hok IHs]; intros fs1 s1 Hfs Hlen He Hl; [done|].
  change (encode_fields (f :: fs2) (s :: s2)) with (encoded_slot f s ++ encode_fields fs2 s2) in *.
  rewrite length_app in Hl. simpl length. simpl replicate.
  rewrite (dec_slot m fs1 f fs2 s1 (replicate (length fs2) []) Hfs (good_tables m) Hlen eq_refl s); try done; try lia.
  - rewrite (snoc_cons s1 s), (snoc_cons s1 s s2). apply (IHs (fs1 ++ [f])); try lia.
    + by rewrite <- snoc_cons.
    + rewrite !length_app. simpl. lia.
    + by rewrite <- (snoc_cons fs1), <- (snoc_cons s1).
  - intros u Hne Hu. by eapply exclusive_before.
  - intros m' slots Ht Hin. pose proof (sub_message_smaller f s m' slots Ht Hin). apply IH; [|lia].
    unfold ok_slot in Hs. apply andb_prop in Hs as [_ Hs]. rewrite Ht in Hs.
    by apply (proj1 (forallb_forall _ _) Hs), list_elem_of_In.
Qed.
End fields.

(** What is encoded is decoded: the descriptors leave nothing out and mix nothing
    up. *)
Lemma decode_encode m slots :
  typed_slots m slots -> Z.of_nat (length (encode_message m slots)) < 2 ^ 64 ->
  decode_message m (encode_message m slots) = Some slots.
Proof.
  remember (length (encode_message m slots)) as N eqn:EN. revert m slots EN.
  induction N as [N IH] using lt_wf_ind. intros m slots -> Ht HN.
  destruct (typed_slots_ok m slots Ht) as [He Hok].
  apply (dec_fields (length (encode_message m slots)) HN) with (m := m) (fs1 := []) (s1 := []); try done.
  intros m' slots' Ht' Hl. apply (IH _ Hl m' slots' eq_refl Ht'). lia.
Qed.
