(* ===== verification/CodecProps.v ===== *)
(** What the generated codec is: the messages of the schema, in structs whose layout
    the C sources' heap uses. *)
From S2P Require Import Prelude Proto Machine Codec Schema Wire WireProps.
From Stdlib Require Import Strings.Byte.

(** ** The tables *)

Lemma elem_of_all_msgs m : m ∈ all_msgs.
Proof. apply (bool_decide_unpack _). by destruct m. Qed.
Lemma elem_of_all_enums e : e ∈ all_enums.
Proof. apply (bool_decide_unpack _). by destruct e. Qed.

(** The tag macros there are, and those the descriptors want. *)
Definition tag_macros : list (msgdesc * string * Z) := duration_tags ++ struct_tags ++ run_function_tags.
Definition wanted_tags : list (msgdesc * string * Z) :=
  all_msgs ≫= fun m => (fun f => (m, f_name f, f_tag f)) <$> fields_of m.

Definition zeros (m : msgdesc) : list initializer := (fun x => zero_of x.2) <$> typedef_of m.

(** MIN is the first value and the least, MAX the last and the greatest, ARRAYSIZE
    one more than MAX. *)
Definition bounds_right (e : enumdesc) : Prop :=
  let '(lo, hi, size) := enum_bounds e in
  exists a b, head (enum_values e) = Some (lo, a) /\ last (enum_values e) = Some (hi, b) /\
    size = hi /\ Forall (fun v => a <= v.2 <= b) (enum_values e).

Lemma tag_macros_perm : tag_macros ≡ₚ wanted_tags.
Proof.
  apply NoDup_Permutation; [apply (bool_decide_unpack _); by vm_compute..|]. intros x.
  assert (Forall (fun x => x ∈ wanted_tags) tag_macros /\ Forall (fun x => x ∈ tag_macros) wanted_tags) as [H1 H2].
  { split; apply (bool_decide_unpack _); by vm_compute. }
  rewrite Forall_forall in H1, H2. split; auto.
Qed.

Lemma bounds_are_right e : bounds_right e.
Proof. destruct e; do 2 eexists; split_and!; try reflexivity; by repeat constructor. Qed.

(** ** The structs in the heap *)

(** The bytes of an array of [n] of the struct. *)
Definition array_size (m : msgdesc) (n : nat) : option Z := (fun s => s * Z.of_nat n) <$> sizeof m.

Definition arrays_sized (b : block) : Prop :=
  match b with
  | Bytes _ | Ptrs _ => True
  | FieldsArr l => array_size google_protobuf_Struct_FieldsEntry_msg (length l) = Some (block_size b)
  | ValuesArr l => array_size google_protobuf_Value_msg (length l) = Some (block_size b)
  | StateArr l => array_size fnv1_State_ResourcesEntry_msg (length l) = Some (block_size b)
  | ItemsArr l => array_size fnv1_Resource_msg (length l) = Some (block_size b)
  | DetailsArr l => array_size fnv1_Resource_ConnectionDetailsEntry_msg (length l) = Some (block_size b)
  | RequiredArr l => array_size fnv1_RunFunctionRequest_RequiredResourcesEntry_msg (length l) = Some (block_size b)
  | RequirementsArr l => array_size fnv1_Requirements_ResourcesEntry_msg (length l) = Some (block_size b)
  | ResultArr l => array_size fnv1_Result_msg (length l) = Some (block_size b)
  | ConditionArr l => array_size fnv1_Condition_msg (length l) = Some (block_size b)
  end.

(** ** Duration *)

Lemma length_encoded_varint tag t v :
  typed t v = true -> wire_type t = 0 -> 8 * tag < 128 -> (length (key tag 0 ++ encode_value t v) <= 11)%nat.
Proof.
  intros Ht Hw Hk. destruct (of_varint_spec t v Ht Hw) as (z & _ & _ & _ & ->).
  rewrite length_app, length_key_small by lia. pose proof (length_varint z). lia.
Qed.

Lemma length_number_slot f s :
  ok_slot f s = true -> f_rule f = SINGULAR -> wire_type (f_type f) = 0 -> 8 * f_tag f < 128 ->
  (length (encoded_slot f s) <= 11)%nat.
Proof.
  intros Hok Hr Hw Hk. unfold ok_slot in Hok. apply andb_prop in Hok as [Hok Hty].
  unfold slot_shape in Hok. rewrite Hr in Hok. unfold encoded_slot, encode_slot, packed. rewrite Hr.
  destruct s as [|v [|]]; [simpl; lia| |done]. cbn [map mbind list_bind forallb] in *.
  rewrite andb_true_r in Hty. rewrite app_nil_r, Hw. by apply length_encoded_varint.
Qed.

Lemma duration_bounded slots :
  typed_slots google_protobuf_Duration_msg slots ->
  Z.of_nat (length (encode_message google_protobuf_Duration_msg slots)) <= google_protobuf_Duration_size.
Proof.
  intros H. apply typed_slots_ok in H as [_ H].
  apply Forall2_cons_inv_l in H as (s & l & Hs & H & ->). apply Forall2_cons_inv_l in H as (s' & l' & Hs' & H & ->).
  apply Forall2_nil_inv_l in H as ->.
  pose proof (length_number_slot _ _ Hs eq_refl eq_refl eq_refl) as H1.
  pose proof (length_number_slot _ _ Hs' eq_refl eq_refl eq_refl) as H2.
  change (encode_message _ _) with (encoded_slot (X STATIC SINGULAR INT64 "seconds" 1) s ++
    encoded_slot (X STATIC SINGULAR INT32 "nanos" 2) s' ++ []).
  rewrite !length_app. change google_protobuf_Duration_size with 22. simpl (length []). lia.
Qed.

(** C11. The generated descriptors are the schema's: in order, each is of a message the
    .proto files declare (a map's entries among them) and lists its fields in
    order, each with its name, number and type, and there when protobuf says it is
    (implicitly, explicitly, repeated, in a oneof); pointers hold what has no fixed
    size, as the options ask. Its enums have the schema's values, and MIN and MAX
    their extremes; every message is bound once; field numbers are distinct and in
    protobuf's range, and the tag macros are them. *)
Theorem tables_follow_schema :
  declared_messages = Some ((fun m => (c_name m, described <$> fields_of m)) <$> all_msgs) /\
  (forall m, Forall (fun f => f_alloc f = if unbounded f then POINTER else STATIC) (fields_of m)) /\
  declared_enums = (fun e => (enum_name e, enum_values e)) <$> all_enums /\
  (forall m, m ∈ all_msgs /\ good_tags (fields_of m)) /\
  (forall e, e ∈ all_enums /\ bounds_right e) /\
  (duration_binds ++ struct_binds ++ run_function_binds).*1 = all_msgs /\
  tag_macros ≡ₚ wanted_tags.
Proof.
  split_and!; [by vm_compute| |by vm_compute| | | |].
  - intros m. destruct m; repeat (constructor; [reflexivity|]); constructor.
  - intros m. split; [apply elem_of_all_msgs|apply good_tables].
  - intros e. split; [apply elem_of_all_enums|apply bounds_are_right].
  - by vm_compute.
  - apply tag_macros_perm.
Qed.

(** C12. The structs fit the descriptors: each has exactly the members its fields
    need (flags, counts and discriminants with them), its two initialisers set
    every member to zero, and it has a size, the pointers breaking the recursion
    of Struct and Value; those sizes are the ones the arrays of the heap have, and
    a Duration takes at most the 22 bytes its size macro says, and some do. *)
Theorem structs_follow_tables :
  (forall m, members_of (fields_of m) = typedef_of m /\ init_default m = zeros m /\ init_zero m = zeros m /\
     exists n, sizeof m = Some n /\ 0 < n) /\
  (forall b, arrays_sized b) /\
  (forall slots, typed_slots google_protobuf_Duration_msg slots ->
     Z.of_nat (length (encode_message google_protobuf_Duration_msg slots)) <= google_protobuf_Duration_size) /\
  (exists slots, typed_slots google_protobuf_Duration_msg slots /\
     Z.of_nat (length (encode_message google_protobuf_Duration_msg slots)) = google_protobuf_Duration_size).
Proof.
  split_and!.
  - intros m. split_and!; [by destruct m..|]. destruct m; eexists; (split; [by vm_compute|done]).
  - intros b. destruct b; simpl; try done; unfold array_size;
      match goal with |- context [sizeof ?m] => let s := eval vm_compute in (sizeof m) in
        change (sizeof m) with s end; done.
  - apply duration_bounded.
  - by exists [[VInt (-1)]; [VInt (-1)]].
Qed.

(** A request: a tag, two capabilities, an observed composite whose spec holds a
    number, text and a null, and a credential. *)
Definition wire_request : slots_t :=
  let field k v := VMsg [[VText (lit k)]; [v]] in
  let kind i v := VMsg (<[i := [v]]> (empty google_protobuf_Value_msg)) in
  let spec := VMsg [[field "count" (kind 1%nat (VDouble 4611686018427387904));
                     field "host" (kind 2%nat (VText (lit "example.org")));
                     field "none" (kind 0%nat (VInt 0))]] in
  let cred := VMsg [[VMsg [[VMsg [[VText (lit "token")]; [VText (lit "t0")]]]]]] in
  [[VMsg [[VText (lit "req-1")]; [VInt 1; VInt 5]]];
   [VMsg [[VMsg [[spec]; []; [VInt 1]]]; []]];
   []; []; []; []; [field "creds" cred]; []; []].
