(* ===== verification/WireHeap.v ===== *)
(** The messages the nanopb structs of the machine's heap hold, in the slots Wire.v has
    them in: a response is read out of the heap through its pointers (an array
    through its count, text up to its NUL), and there is none of a response with a
    pointer to no such block. Of a request, [alloc_request] is one way to put its
    message into the heap.

    Of a request, what Proto.v leaves out (context, credentials, ...) is dropped. A
    response with a map the sources never fill (extra_resources, schemas,
    matchLabels), a [oneof] member set to NULL, a number that is no binary64 or a
    cyclic Struct has no message. *)
From S2P Require Import Prelude CString Proto Machine MachineLogic Codec Wire WireProps.
From Stdlib Require Import Strings.Byte.

(** ** Binary64 *)

Definition sign_bit (s : bool) : Z := if s then 2 ^ 63 else 0.
Definition bits_of_float (d : spec_float) : option Z :=
  match d with
  | S754_zero s => Some (sign_bit s)
  | S754_infinity s => Some (sign_bit s + 2047 * 2 ^ 52)
  | S754_nan => Some (2047 * 2 ^ 52 + 2 ^ 51)
  | S754_finite s m ex =>
      if (ex =? -1074) && (Z.pos m <? 2 ^ 52) then Some (sign_bit s + Z.pos m)
      else if (2 ^ 52 <=? Z.pos m) && (Z.pos m <? 2 ^ 53) && (-1074 <=? ex) && (ex <=? 971)
      then Some (sign_bit s + (ex + 1075) * 2 ^ 52 + (Z.pos m - 2 ^ 52))
      else None
  end.
Definition float_of_bits (z : Z) : spec_float :=
  let s := 2 ^ 63 <=? z in
  let ex := (z / 2 ^ 52) mod 2 ^ 11 in
  let m := z mod 2 ^ 52 in
  if ex =? 2047 then if m =? 0 then S754_infinity s else S754_nan
  else if ex =? 0 then match m with Z.pos p => S754_finite s p (-1074) | _ => S754_zero s end
  else match m + 2 ^ 52 with Z.pos p => S754_finite s p (ex - 1075) | _ => S754_nan end.

(** ** Reading messages out of the heap *)

Definition elements {A} (of_block : block -> option (list A)) (n : Z) (p : option Z) (h : gmap Z block)
    : option (list A) :=
  if n =? 0 then Some [] else
  b ← p; k ← h !! b; l ← of_block k;
  if n <=? Z.of_nat (length l) then Some (take (Z.to_nat n) l) else None.

Definition as_fields (k : block) := match k with FieldsArr l => Some l | _ => None end.
Definition as_values (k : block) := match k with ValuesArr l => Some l | _ => None end.
Definition as_state (k : block) := match k with StateArr l => Some l | _ => None end.
Definition as_items (k : block) := match k with ItemsArr l => Some l | _ => None end.
Definition as_details (k : block) := match k with DetailsArr l => Some l | _ => None end.
Definition as_required (k : block) := match k with RequiredArr l => Some l | _ => None end.
Definition as_requirements (k : block) := match k with RequirementsArr l => Some l | _ => None end.
Definition as_results (k : block) := match k with ResultArr l => Some l | _ => None end.
Definition as_conditions (k : block) := match k with ConditionArr l => Some l | _ => None end.

(** A [char *] or [pb_bytes_array_t *] field: NULL is absent, and only NULL. *)
Definition singular_bytes (t : option bytes) : list value :=
  match t with Some bs => [VText bs] | None => [] end.
Definition singular_text (t : option bytes) : list value := singular_bytes (until_nul <$> t).
Definition optional_text (t : option bytes) : list value :=
  match t with Some s => [VText (until_nul s)] | None => [] end.
Definition singular_int (z : Z) : list value := if z =? 0 then [] else [VInt z].
Definition optional_int (has : bool) (z : Z) : list value := if has then [VInt z] else [].

(** A part of a message, in any heap that has it. *)
Definition reader (A : Type) : Type := gmap Z block -> option A.
#[export] Instance reader_ret : MRet reader := fun A a _ => Some a.
#[export] Instance reader_bind : MBind reader := fun A B f r h => a ← r h; f a h.
Fixpoint read_all {A B} (f : A -> reader B) (l : list A) : reader (list B) :=
  match l with
  | [] => mret []
  | x :: l => y ← f x; ys ← read_all f l; mret (y :: ys)
  end.
Definition when {A} (b : bool) (r : reader A) : reader (list A) := if b then a ← r; mret [a] else mret [].
Definition no_reading {A} : reader A := fun _ => None.

(** Member [i] of the [oneof] of a message with [n] slots. *)
Definition one_of (n i : nat) (v : value) : value := VMsg (<[i := [v]]> (replicate n [])).

Definition entry_of_field (of_value : google_protobuf_Value -> reader value) (x : google_protobuf_Struct_FieldsEntry)
    : reader value :=
  v ← when (fe_has_value x) (of_value (fe_value x)); mret (VMsg [singular_text (fe_key x); v]).
Definition struct_with (of_value : google_protobuf_Value -> reader value) (s : google_protobuf_Struct) : reader value :=
  es ← elements as_fields (fields_count s) (fields s); vs ← read_all (entry_of_field of_value) es; mret (VMsg [vs]).

(** [n] bounds the nesting. *)
Fixpoint value_of (n : nat) (v : google_protobuf_Value) : reader value :=
  match v with
  | KindNone => mret (VMsg (empty google_protobuf_Value_msg))
  | null_value => mret (one_of 6 0 (VInt 0))
  | number_value d => fun _ => z ← bits_of_float d; Some (one_of 6 1 (VDouble z))
  | string_value (Some s) => mret (one_of 6 2 (VText (until_nul s)))
  | string_value None => no_reading
  | bool_value b => mret (one_of 6 3 (VBool b))
  | struct_value s =>
      match n with O => no_reading | S n => m ← struct_with (value_of n) s; mret (one_of 6 4 m) end
  | list_value l =>
      match n with
      | O => no_reading
      | S n => xs ← elements as_values (values_count l) (values l); vs ← read_all (value_of n) xs;
               mret (one_of 6 5 (VMsg [vs]))
      end
  end.
(** A Struct that is not cyclic nests no deeper than there are blocks. *)
Definition struct_of (s : google_protobuf_Struct) : reader value :=
  fun h => struct_with (value_of (size h)) s h.

Definition detail_of (d : fnv1_Resource_ConnectionDetailsEntry) : value :=
  VMsg [singular_text (cd_key d); singular_bytes (cd_value d)].
Definition resource_of (r : fnv1_Resource) : reader value :=
  s ← when (has_resource r) (struct_of (resource r));
  ds ← elements as_details (connection_details_count r) (connection_details r);
  mret (VMsg [s; map detail_of ds; singular_int (ready r)]).
Definition state_entry_of (x : fnv1_State_ResourcesEntry) : reader value :=
  r ← when (re_has_value x) (resource_of (re_value x)); mret (VMsg [singular_text (re_key x); r]).
Definition state_of (s : fnv1_State) : reader value :=
  c ← when (has_composite s) (resource_of (composite s));
  es ← elements as_state (resources_count s) (resources s); rs ← read_all state_entry_of es;
  mret (VMsg [c; rs]).
Definition result_of_response (r : fnv1_Result) : value :=
  VMsg [singular_int (severity r); singular_text (message r); optional_text (res_reason r);
        optional_int (has_target r) (target r)].
Definition condition_of (c : fnv1_Condition) : value :=
  VMsg [singular_text (cond_type c); singular_int (status c); singular_text (cond_reason c);
        optional_text (cond_message c); optional_int (cond_has_target c) (cond_target c)].
Definition match_of (m : selector_match) : reader (list value * list value) :=
  match m with
  | MatchNone => mret ([], [])
  | match_name (Some s) => mret ([VText (until_nul s)], [])
  | match_name None => no_reading
  | match_labels n _ => if n =? 0 then mret ([], [VMsg [[]]]) else no_reading
  end.
Definition selector_of (s : fnv1_ResourceSelector) : reader value :=
  '(name, labels) ← match_of (sel_match s);
  mret (VMsg [singular_text (api_version s); singular_text (sel_kind s); name; labels; optional_text (namespace s)]).
Definition requirement_of (x : fnv1_Requirements_ResourcesEntry) : reader value :=
  v ← when (rqe_has_value x) (selector_of (rqe_value x)); mret (VMsg [singular_text (rqe_key x); v]).
Definition requirements_of (q : fnv1_Requirements) : reader value :=
  if negb ((extra_resources q).1 =? 0) || negb ((schemas q).1 =? 0) then no_reading else
  es ← elements as_requirements (req_resources_count q) (req_resources q); rs ← read_all requirement_of es;
  mret (VMsg [[]; rs; []]).
Definition duration_of (seconds nanos : Z) : value := VMsg [singular_int seconds; singular_int nanos].
Definition meta_of (m : fnv1_ResponseMeta) : value :=
  VMsg [singular_text (tag m); if has_ttl m then [duration_of (ttl_seconds m) (ttl_nanos m)] else []].
Definition response_of (r : fnv1_RunFunctionResponse) : reader slots_t :=
  d ← when (has_desired r) (state_of (desired r));
  rs ← elements as_results (results_count r) (results r);
  c ← when (has_context r) (struct_of (context r));
  q ← when (has_requirements r) (requirements_of (requirements r));
  cs ← elements as_conditions (conditions_count r) (conditions r);
  o ← when (has_output r) (struct_of (output r));
  mret [if has_meta r then [meta_of (meta r)] else []; d; map result_of_response rs; c; q; map condition_of cs; o].

(** ** Allocating a request *)

(** An allocation that may be denied. *)
Definition and_then {A B} (c : C (option A)) (f : A -> C (option B)) : C (option B) :=
  a ← c; match a with Some a => f a | None => mret None end.
Definition done {A} (a : A) : C (option A) := mret (Some a).
Fixpoint each {A B} (f : A -> C (option B)) (l : list A) : C (option (list B)) :=
  match l with
  | [] => done []
  | x :: l => and_then (f x) (fun y => and_then (each f l) (fun ys => done (y :: ys)))
  end.
(** The count and pointer of an array. *)
Definition array {A} (mk : list A -> block) (l : list A) : C (option (Z * option Z)) :=
  match l with
  | [] => done (0, None)
  | _ => p ← alloc_replacing 0 (mk l);
         mret match p with Some b => Some (Z.of_nat (length l), Some b) | None => None end
  end.
Definition slot (slots : slots_t) (i : nat) : list value := default [] (slots !! i).
Definition msg_slots (v : value) : slots_t := match v with VMsg slots => slots | _ => [] end.
Definition text_in (s : list value) : option bytes :=
  match s with [VText bs] => Some (until_nul bs) | _ => None end.
Definition bytes_in (s : list value) : option bytes := match s with [VText bs] => Some bs | _ => None end.
Definition int_in (s : list value) : Z := match s with [VInt z] => z | _ => 0 end.

Fixpoint alloc_value (v : value) : C (option google_protobuf_Value) :=
  match v with
  | VMsg [[VInt _]; []; []; []; []; []] => done null_value
  | VMsg [[]; [VDouble z]; []; []; []; []] => done (number_value (float_of_bits z))
  | VMsg [[]; []; [VText s]; []; []; []] => done (string_value (Some (until_nul s)))
  | VMsg [[]; []; []; [VBool b]; []; []] => done (bool_value b)
  | VMsg [[]; []; []; []; [VMsg [entries]]; []] =>
      and_then (each (fun x => match x with
                               | VMsg [k; [w]] => and_then (alloc_value w) (fun w => done (FieldsEntry (text_in k) true w))
                               | VMsg (k :: _) => done (FieldsEntry (text_in k) false KindNone)
                               | _ => done FieldsEntry_zero
                               end) entries) (fun es =>
      and_then (array FieldsArr es) (fun a => done (struct_value (PbStruct a.1 a.2))))
  | VMsg [[]; []; []; []; []; [VMsg [xs]]] =>
      and_then (each alloc_value xs) (fun vs =>
      and_then (array ValuesArr vs) (fun a => done (list_value (PbList a.1 a.2))))
  | _ => done KindNone
  end.
(** The Struct of a field, and whether there is one. *)
Definition alloc_struct (s : list value) : C (option (bool * google_protobuf_Struct)) :=
  match s with
  | [v] =>
      and_then (alloc_value (one_of 6 4 v)) (fun w =>
      done (true, match w with struct_value st => st | _ => google_protobuf_Struct_init_zero end))
  | _ => done (false, google_protobuf_Struct_init_zero)
  end.
Definition detail_in (v : value) : fnv1_Resource_ConnectionDetailsEntry :=
  DetailsEntry (text_in (slot (msg_slots v) 0)) (bytes_in (slot (msg_slots v) 1)).
Definition alloc_resource (s : list value) : C (option (bool * fnv1_Resource)) :=
  match s with
  | [v] =>
      let m := msg_slots v in
      and_then (alloc_struct (slot m 0)) (fun st =>
      and_then (array DetailsArr (map detail_in (slot m 1))) (fun ds =>
      done (true, Resource st.1 st.2 ds.1 ds.2 (int_in (slot m 2)))))
  | _ => done (false, fnv1_Resource_init_zero)
  end.
Definition alloc_state_entry (v : value) : C (option fnv1_State_ResourcesEntry) :=
  and_then (alloc_resource (slot (msg_slots v) 1)) (fun r =>
  done (ResourcesEntry (text_in (slot (msg_slots v) 0)) r.1 r.2)).
Definition alloc_state (s : list value) : C (option (bool * fnv1_State)) :=
  match s with
  | [v] =>
      let m := msg_slots v in
      and_then (alloc_resource (slot m 0)) (fun c =>
      and_then (each alloc_state_entry (slot m 1)) (fun es =>
      and_then (array StateArr es) (fun a => done (true, State c.1 c.2 a.1 a.2))))
  | _ => done (false, fnv1_State_init_zero)
  end.
Definition alloc_required (v : value) : C (option fnv1_RequiredResourcesEntry) :=
  let key := text_in (slot (msg_slots v) 0) in
  match slot (msg_slots v) 1 with
  | [w] =>
      and_then (each (fun x => and_then (alloc_resource [x]) (fun r => done r.2)) (slot (msg_slots w) 0)) (fun rs =>
      and_then (array ItemsArr rs) (fun a => done (RequiredEntry key true (Resources a.1 a.2))))
  | _ => done (RequiredEntry key false fnv1_Resources_init_zero)
  end.
Definition alloc_request (m : slots_t) : C (option fnv1_RunFunctionRequest) :=
  and_then (alloc_state (slot m 1)) (fun observed =>
  and_then (alloc_state (slot m 2)) (fun desired =>
  and_then (alloc_struct (slot m 3)) (fun input =>
  and_then (each alloc_required (slot m 7)) (fun rs =>
  and_then (array RequiredArr rs) (fun a =>
  done (Request
    (match slot m 0 with [_] => true | _ => false end)
    (match slot m 0 with [v] => text_in (slot (msg_slots v) 0) | _ => None end)
    observed.1 observed.2 desired.1 desired.2 input.1 input.2 a.1 a.2)))))).
