(* ===== verification/WireFill.v ===== *)
(** What an allocated message puts in the heap, in general and of Values and Structs: the arrays
    WireHeap.v allocates hold what was decoded, each in a block of its own, and the
    Structs denote the JSON values their bytes do. *)
From S2P Require Import Prelude CString Proto Machine MachineLogic Structpb Codec Wire WireProps WireHeap.
From Stdlib Require Import Strings.Byte.

(** ** Readings survive more blocks *)

Definition steady {A} (r : reader A) : Prop := forall h h' a, r h = Some a -> h ⊆ h' -> r h' = Some a.

Lemma steady_ret {A} (a : A) : steady (mret a).
Proof. by intros h h' b. Qed.
Lemma steady_none {A} : steady (@no_reading A).
Proof. done. Qed.
Lemma steady_bind {A B} (r : reader A) (f : A -> reader B) :
  steady r -> (forall a, steady (f a)) -> steady (r ≫= f).
Proof.
  intros Hr Hf h h' b H Hsub. apply bind_Some in H as (a & Ha & Hb).
  unfold mbind, reader_bind. rewrite (Hr h h' a) by done. simpl. by eapply Hf.
Qed.
Lemma steady_reads {A B} (f : A -> reader B) l : (forall x, steady (f x)) -> steady (read_all f l).
Proof.
  intros Hf. induction l as [|x l IH]; [apply steady_ret|]. apply steady_bind; [done|]. intros y.
  apply steady_bind; [done|]. intros ys. apply steady_ret.
Qed.
Lemma steady_when {A} b (r : reader A) : steady r -> steady (when b r).
Proof. intros Hr. destruct b; [|apply steady_ret]. apply steady_bind; [done|]. intros a. apply steady_ret. Qed.
Lemma steady_elements {A} (of_block : block -> option (list A)) n p : steady (elements of_block n p).
Proof.
  intros h h' a H Hsub. unfold elements in *. destruct (n =? 0); [done|].
  apply bind_Some in H as (b & -> & H). apply bind_Some in H as (k & Hk & H). simpl.
  rewrite (lookup_weaken _ _ _ _ Hk Hsub). done.
Qed.
Lemma steady_const {A} (o : option A) : steady (fun _ => o).
Proof. by intros h h' a. Qed.
Create HintDb steady.
#[export] Hint Resolve steady_ret steady_none steady_const steady_bind steady_reads steady_when steady_elements : steady.

Lemma steady_struct_with f s : (forall v, steady (f v)) -> steady (struct_with f s).
Proof. intros Hf. unfold struct_with, entry_of_field. auto 8 with steady. Qed.

Lemma steady_value n v : steady (value_of n v).
Proof.
  revert v. induction n as [|n IH]; intros []; cbn [value_of]; try case_match; auto 8 using steady_struct_with with steady.
Qed.

(** More depth reads what less reads. *)
Lemma reads_mono {A B} (f g : A -> reader B) l h ys :
  (forall x y, f x h = Some y -> g x h = Some y) -> read_all f l h = Some ys -> read_all g l h = Some ys.
Proof.
  intros Hfg. revert ys. induction l as [|x l IH]; intros ys H; [done|].
  apply bind_Some in H as (y & Hy & H). apply bind_Some in H as (ys' & Hys & H).
  simpl. unfold mbind, reader_bind. rewrite (Hfg _ _ Hy). simpl. by rewrite (IH _ Hys).
Qed.

Lemma struct_with_mono f g s h m :
  (forall x y, f x h = Some y -> g x h = Some y) -> struct_with f s h = Some m -> struct_with g s h = Some m.
Proof.
  intros Hfg H. apply bind_Some in H as (es & Hes & H). apply bind_Some in H as (vs & Hvs & H).
  unfold struct_with, mbind, reader_bind. rewrite Hes. simpl.
  erewrite (reads_mono (entry_of_field f)); [exact H| |exact Hvs]. intros x y Hx.
  unfold entry_of_field, when in *. destruct (fe_has_value x); [|done].
  cbn beta iota in *. apply bind_Some in Hx as (v & Hv & Hx). apply bind_Some in Hv as (w & Hw & Hv).
  unfold mbind, reader_bind. rewrite (Hfg _ _ Hw). simpl. injection Hv as <-. exact Hx.
Qed.

Lemma value_of_deeper n n' v h w : (n <= n')%nat -> value_of n v h = Some w -> value_of n' v h = Some w.
Proof.
  revert n' v w. induction n as [|n IH]; intros n' v w Hn H; destruct n' as [|n']; try lia; destruct v; try done.
  - cbn [value_of] in *. apply bind_Some in H as (m & Hm & H). unfold mbind, reader_bind.
    erewrite struct_with_mono; [exact H| |exact Hm]. intros x y. apply IH. lia.
  - cbn [value_of] in *. apply bind_Some in H as (xs & Hxs & H). apply bind_Some in H as (vs & Hvs & H).
    unfold mbind, reader_bind. rewrite Hxs. simpl. erewrite reads_mono; [exact H| |exact Hvs].
    intros x y. apply IH. lia.
Qed.

Lemma steady_struct_of s : steady (struct_of s).
Proof.
  intros h h' m H Hsub. unfold struct_of in *. eapply struct_with_mono.
  - intros x y. apply value_of_deeper. by apply map_subseteq_size.
  - eapply steady_struct_with; [|exact H|exact Hsub]. intros v. apply steady_value.
Qed.
#[export] Hint Resolve steady_struct_of : steady.

Lemma steady_resource r : steady (resource_of r).
Proof. unfold resource_of. auto 8 with steady. Qed.
#[export] Hint Resolve steady_resource : steady.
Lemma steady_state s : steady (state_of s).
Proof. unfold state_of, state_entry_of. auto 12 with steady. Qed.
#[export] Hint Resolve steady_state : steady.
Lemma steady_selector s : steady (selector_of s).
Proof.
  unfold selector_of. apply steady_bind; [|intros []; auto with steady].
  unfold match_of. repeat case_match; auto with steady.
Qed.
#[export] Hint Resolve steady_selector : steady.
Lemma steady_requirements q : steady (requirements_of q).
Proof. unfold requirements_of, requirement_of. case_match; auto 8 with steady. Qed.
#[export] Hint Resolve steady_requirements : steady.
Lemma steady_response r : steady (response_of r).
Proof. unfold response_of. auto 20 with steady. Qed.

(** ** Filling the heap *)

(** A computation that only allocates: its result is [P] in the heap of the blocks
    it adds, or an allocation was denied. *)
Definition fills {A} (c : C (option A)) (P : gmap Z block -> A -> Prop) : Prop := forall e T s, wf s ->
  wp e T c (fun a s' => heap_step s s' /\ heap s ⊆ heap s' /\
    match a with Some a => P (heap s' ∖ heap s) a | None => (denied s < denied s')%nat end) s.
(** What more blocks leave true. *)
Definition lasting {A} (P : gmap Z block -> A -> Prop) : Prop := forall h h' a, P h a -> h ⊆ h' -> P h' a.

Lemma added_within (h h' : gmap Z block) : h' ∖ h ⊆ h'.
Proof. apply map_subseteq_spec. intros b k Hb. by apply lookup_difference_Some in Hb as [? _]. Qed.

Lemma added_twice (h h1 h2 : gmap Z block) :
  h ⊆ h1 -> h1 ⊆ h2 -> (h1 ∖ h) ##ₘ (h2 ∖ h1) /\ h2 ∖ h = (h1 ∖ h) ∪ (h2 ∖ h1).
Proof.
  intros H1 H2. assert ((h1 ∖ h) ##ₘ (h2 ∖ h1)) as Hd.
  { apply map_disjoint_spec. intros b k k' [Hb _]%lookup_difference_Some [_ Hn]%lookup_difference_Some. congruence. }
  split; [done|]. apply map_eq. intros b. apply option_eq. intros k.
  rewrite lookup_union_Some, !lookup_difference_Some by done. split.
  - intros [Hb Hn]. destruct (h1 !! b) as [k'|] eqn:E; [left|right; done].
    split; [|done]. rewrite <- Hb. symmetry. by eapply lookup_weaken.
  - intros [[Hb Hn]|[Hb Hn]]; split; try done; [by eapply lookup_weaken|].
    apply eq_None_not_Some. intros [k' Hk']. by rewrite (lookup_weaken _ _ _ _ Hk' H1) in Hn.
Qed.

Lemma fills_nothing {A} (a : A) (P : gmap Z block -> A -> Prop) : P ∅ a -> fills (done a) P.
Proof.
  intros HP e T s Hs. apply wp_ret. split_and!; [by apply heap_step_refl|done|by rewrite map_difference_diag].
Qed.
Lemma fills_done {A} (a : A) (P : gmap Z block -> A -> Prop) : (forall h, P h a) -> fills (done a) P.
Proof. intros HP. by apply fills_nothing. Qed.

Lemma fills_weaken {A} (c : C (option A)) (P Q : gmap Z block -> A -> Prop) :
  fills c P -> (forall h a, P h a -> Q h a) -> fills c Q.
Proof.
  intros Hc HPQ e T s Hs. eapply wp_mono; [by apply Hc|]. intros [a|] s' (Hst & Hsub & H); split_and!; auto.
Qed.

(** One computation after another: their blocks are apart. *)
Lemma fills_apart {A B} (c : C (option A)) (f : A -> C (option B)) P Q (R : gmap Z block -> B -> Prop) :
  fills c P -> (forall a, fills (f a) (Q a)) ->
  (forall h1 h2 a b, h1 ##ₘ h2 -> P h1 a -> Q a h2 b -> R (h1 ∪ h2) b) ->
  fills (and_then c f) R.
Proof.
  intros Hc Hf HR e T s Hs. eapply wp_seq; [by apply Hc|]. intros [a|] s1 (H1 & Hsub & Ha).
  - eapply wp_mono; [apply Hf, H1|]. intros b s2 (H2 & Hsub2 & Hb). pose proof (hs_denied _ _ H1).
    split_and!; [by eapply heap_step_trans|by etransitivity|]. destruct b as [b|]; [|lia].
    destruct (added_twice _ _ _ Hsub Hsub2) as [Hd ->]. by eapply HR.
  - apply wp_ret. auto.
Qed.

Lemma fills_and_then {A B} (c : C (option A)) (f : A -> C (option B)) P Q (R : gmap Z block -> B -> Prop) :
  fills c P -> lasting P -> (forall a, fills (f a) (Q a)) -> (forall a, lasting (Q a)) ->
  (forall h a b, P h a -> Q a h b -> R h b) -> fills (and_then c f) R.
Proof.
  intros Hc HP Hf HQ HR. eapply fills_apart; [exact Hc|exact Hf|]. intros h1 h2 a b Hd H1 H2.
  apply (HR _ a); [eapply HP; [exact H1|apply map_union_subseteq_l]|eapply HQ; [exact H2|by apply map_union_subseteq_r]].
Qed.

(** What follows takes nothing more. *)
Lemma fills_map {A B} (c : C (option A)) (f : A -> B) P (R : gmap Z block -> B -> Prop) :
  fills c P -> (forall h a, P h a -> R h (f a)) -> fills (and_then c (fun a => done (f a))) R.
Proof.
  intros Hc HR e T s Hs. eapply wp_seq; [by apply Hc|]. intros [a|] s1 (H1 & Hsub & Ha); apply wp_ret; auto.
Qed.

(** Both of two results of a computation. *)
Lemma fills_both {A} (c : C (option A)) (P Q : gmap Z block -> A -> Prop) :
  fills c P -> fills c Q -> fills c (fun h a => P h a /\ Q h a).
Proof.
  intros HP HQ e T s Hs. specialize (HP e T s Hs). specialize (HQ e T s Hs). unfold wp in *.
  destruct (c e s) as [[[a|] s']|]; [|done..]. destruct HP as (? & ? & ?), HQ as (_ & _ & ?). auto.
Qed.

(** The elements of [l], each in blocks of its own. *)
Inductive each_apart {A B} (P : A -> gmap Z block -> B -> Prop) : list A -> gmap Z block -> list B -> Prop :=
  | apart_nil : each_apart P [] ∅ []
  | apart_cons x l h1 h2 y ys :
      h1 ##ₘ h2 -> P x h1 y -> each_apart P l h2 ys -> each_apart P (x :: l) (h1 ∪ h2) (y :: ys).

Lemma fills_each_apart {A B} (f : A -> C (option B)) (P : A -> gmap Z block -> B -> Prop) l :
  (forall x, x ∈ l -> fills (f x) (P x)) -> fills (each f l) (each_apart P l).
Proof.
  intros Hf. induction l as [|x l IH]; [apply fills_nothing; constructor|].
  eapply (fills_apart _ _ (P x) (fun y h r => exists ys, each_apart P l h ys /\ r = y :: ys));
    [apply Hf; set_solver| |].
  - intros y. eapply fills_map; [apply IH; intros; apply Hf; set_solver|]. intros h ys H. by exists ys.
  - intros h1 h2 y r Hd Hy (ys & Hys & ->). by constructor.
Qed.

Lemma each_apart_all {A B} (P : A -> gmap Z block -> B -> Prop) l h ys :
  (forall x, lasting (P x)) -> each_apart P l h ys -> Forall2 (fun x y => P x h y) l ys.
Proof.
  intros HP H. induction H as [|x l h1 h2 y ys Hd Hy _ IH]; [constructor|]. constructor.
  - eapply HP; [exact Hy|apply map_union_subseteq_l].
  - eapply Forall2_impl; [exact IH|]. intros x' y' H'. eapply HP; [exact H'|by apply map_union_subseteq_r].
Qed.

Lemma fills_each {A B} (f : A -> C (option B)) (P : A -> gmap Z block -> B -> Prop) l :
  (forall x, x ∈ l -> fills (f x) (P x)) -> (forall x, lasting (P x)) ->
  fills (each f l) (fun h ys => Forall2 (fun x y => P x h y) l ys).
Proof.
  intros Hf HP. eapply fills_weaken; [by apply fills_each_apart|]. intros h ys. by apply each_apart_all.
Qed.

(** The array of [l]: its count and pointer. *)
Definition array_at {A} (mk : list A -> block) (l : list A) (h : gmap Z block) (a : Z * option Z) : Prop :=
  a.1 = Z.of_nat (length l) /\
  match a.2 with None => l = [] | Some b => l <> [] /\ h !! b = Some (mk l) end.

Lemma array_at_lasting {A} (mk : list A -> block) l : lasting (array_at mk l).
Proof.
  intros h h' [n p] [Hn Hp] Hsub. split; [done|]. destruct p as [b|]; [|done].
  destruct Hp as [? Hb]. split; [done|]. by eapply lookup_weaken.
Qed.

Lemma elements_array_at {A} (mk : list A -> block) of_block l h a :
  array_at mk l h a -> of_block (mk l) = Some l -> elements of_block a.1 a.2 h = Some l.
Proof.
  intros [-> Hp] Hof. unfold elements. destruct a as [n [b|]]; cbn [fst snd] in *.
  - destruct Hp as [Hl Hb]. destruct (Z.eqb_spec (Z.of_nat (length l)) 0); [by destruct l|].
    simpl. rewrite Hb. simpl. rewrite Hof. simpl. by rewrite Z.leb_refl, Nat2Z.id, firstn_all.
  - by rewrite Hp.
Qed.

(** The same, and the blocks are only that. *)
Definition array_own {A} (mk : list A -> block) (l : list A) (h : gmap Z block) (a : Z * option Z) : Prop :=
  a.1 = Z.of_nat (length l) /\
  match a.2 with None => l = [] /\ h = ∅ | Some b => l <> [] /\ h = {[ b := mk l ]} end.

Lemma array_own_at {A} (mk : list A -> block) l h a : array_own mk l h a -> array_at mk l h a.
Proof.
  intros [Hn Hp]. split; [done|]. destruct a.2 as [b|]; [|apply Hp]. destruct Hp as [? ->].
  split; [done|]. apply lookup_singleton_eq.
Qed.

Lemma added_block (h : gmap Z block) b k : h !! b = None -> <[b := k]> h ∖ h = {[ b := k ]}.
Proof.
  intros Hb. apply map_eq. intros b'. apply option_eq. intros k'.
  rewrite lookup_difference_Some, lookup_insert_Some, lookup_singleton_Some. split.
  - intros [[?|[Hne H]] Hn]; [done|congruence].
  - intros [<- <-]. split; [by left|done].
Qed.

Lemma fills_just_array {A} (mk : list A -> block) l : fills (array mk l) (array_own mk l).
Proof.
  intros e T s Hs. destruct l as [|x l].
  { apply wp_ret. split_and!; [by apply heap_step_refl|done|]. split; [done|]. by rewrite map_difference_diag. }
  unfold array. eapply wp_seq; [by apply wp_alloc|]. intros p s' H. apply wp_ret.
  pose proof (allocated_heap _ _ _ _ H) as Hsub. destruct H as [Hst H]. split; [done|]. split; [done|].
  destruct p as [b|]; [|apply H]. destruct H as (-> & Hb & _ & ->). split; [done|]. split; [done|].
  by apply added_block.
Qed.

(** What is computed, then the array of it in a block of its own. *)
Lemma fills_array_apart {A B} (c : C (option (list A))) (mk : list A -> block) (k : Z * option Z -> B) P :
  fills c P ->
  fills (and_then c (fun l => and_then (array mk l) (fun a => done (k a))))
    (fun h r => exists l a h0 h1, P h0 l /\ h0 ##ₘ h1 /\ h = h0 ∪ h1 /\ array_own mk l h1 a /\ r = k a).
Proof.
  intros Hc. eapply (fills_apart _ _ P (fun l h r => exists a, array_own mk l h a /\ r = k a)); [done| |].
  - intros l. eapply fills_map; [apply fills_just_array|]. intros h a Ha. by exists a.
  - intros h1 h2 l r Hd Hl (a & Ha & ->). by exists l, a, h1, h2.
Qed.

(** The heap has grown by a block. *)
Lemma array_apart {A} (mk : list A -> block) l h0 h1 a :
  h0 ##ₘ h1 -> array_at mk l h1 a ->
  h0 ⊆ h0 ∪ h1 /\ (l = [] \/ (size h0 < size (h0 ∪ h1))%nat) /\ array_at mk l (h0 ∪ h1) a.
Proof.
  intros Hd Ha. split; [apply map_union_subseteq_l|]. split.
  - destruct Ha as [_ Ha]. destruct a.2 as [b|]; [right|by left]. destruct Ha as [_ Hb].
    rewrite map_size_disj_union by done. enough (size h1 <> 0%nat) by lia.
    intros E%map_size_empty_iff. subst. by rewrite lookup_empty in Hb.
  - eapply array_at_lasting; [exact Ha|by apply map_union_subseteq_r].
Qed.

Lemma fills_array {A B} (c : C (option (list A))) (mk : list A -> block) (k : Z * option Z -> B) P :
  fills c P ->
  fills (and_then c (fun l => and_then (array mk l) (fun a => done (k a))))
    (fun h r => exists l a h0, P h0 l /\ h0 ⊆ h /\ (l = [] \/ (size h0 < size h)%nat) /\
       array_at mk l h a /\ r = k a).
Proof.
  intros Hc. eapply fills_weaken; [by apply fills_array_apart|].
  intros h r (l & a & h0 & h1 & Hl & Hd & -> & Ha & ->). exists l, a, h0.
  destruct (array_apart _ _ _ _ _ Hd (array_own_at _ _ _ _ Ha)) as (? & ? & ?). auto.
Qed.

(** ** What a C struct can hold *)

(** Without loss: no NUL in a string, no other NaN than the one, and [NULL_VALUE]
    for a null. *)
Fixpoint in_c (t : ltype) (v : value) {struct v} : bool :=
  match t, v with
  | STRING, VText bs => bool_decide (NUL ∉ bs)
  | DOUBLE, VDouble z => bool_decide (bits_of_float (float_of_bits z) = Some z)
  | UENUM google_protobuf_NullValue, VInt z => z =? 0
  | MESSAGE m, VMsg slots => slotwise (fun f s => forallb (in_c (f_type f)) s) andb true (fields_of m) slots
  | _, _ => true
  end.
(** A value of the type that is held so. *)
Definition fits (t : ltype) (v : value) : bool := typed t v && in_c t v.
Definition fits_slot (f : field) (s : list value) : bool :=
  slot_shape f s && slot_present f s && forallb (fits (f_type f)) s.

Lemma forallb_and {A} (f g : A -> bool) l : forallb (fun x => f x && g x) l = forallb f l && forallb g l.
Proof. induction l as [|x l IH]; [done|]. simpl. rewrite IH. by destruct (f x), (g x), (forallb f l). Qed.

Lemma fits_message m v :
  fits (MESSAGE m) v = true ->
  exists slots, v = VMsg slots /\ exclusive (fields_of m) slots = true /\
    Forall2 (fun f s => fits_slot f s = true) (fields_of m) slots.
Proof.
  unfold fits. intros H. apply andb_prop in H as [Ht Hc]. destruct v as [| | | |slots]; try done.
  exists slots. split; [done|]. cbn [typed in_c] in *. apply andb_prop in Ht as [Hl Ht].
  apply andb_prop in Hl as [Hl He]. split; [done|]. apply bool_decide_eq_true in Hl.
  apply slotwise_andb in Ht; [|done]. apply slotwise_andb in Hc; [|done].
  clear Hl He. revert Hc. induction Ht as [|f s fs slots Hs Ht IH]; intros Hc; [done|].
  apply Forall2_cons in Hc as [Hf Hc]. constructor; [|by apply IH].
  unfold fits_slot, fits. rewrite forallb_and, Hf, andb_true_r. exact Hs.
Qed.

(** A slot that is not repeated. *)
Lemma fits_one f s :
  fits_slot f s = true -> f_rule f <> REPEATED ->
  s = [] \/ exists v, s = [v] /\ fits (f_type f) v = true /\ (f_rule f = SINGULAR -> is_default v = false).
Proof.
  unfold fits_slot. intros H Hr. apply andb_prop in H as [H Hf]. apply andb_prop in H as [Hs Hp].
  unfold slot_shape, slot_present in *. destruct s as [|v []]; [by left| |by destruct (f_rule f)].
  right. exists v. split; [done|]. cbn [forallb] in *. rewrite andb_true_r in *. split; [done|].
  intros E. rewrite E in Hp. by destruct (is_default v).
Qed.

Lemma fits_all f s : fits_slot f s = true -> Forall (fun v => fits (f_type f) v = true) s.
Proof.
  unfold fits_slot. intros H. apply andb_prop in H as [_ H]. apply Forall_forall. intros v Hv.
  by apply (proj1 (forallb_forall _ _) H), list_elem_of_In.
Qed.

(** The shapes a message of few fields can have. *)
Ltac message_slots H :=
  apply fits_message in H as (?slots & -> & ?Hx & H); cbn [fields_of] in H;
  repeat (let Hs := fresh "Hs" in apply Forall2_cons_inv_l in H as (? & ? & Hs & H & ->));
  apply Forall2_nil_inv_l in H as ->.

Ltac one_slots :=
  repeat match goal with H : fits_slot _ ?s = true |- _ =>
    let v := fresh "v" in let Hv := fresh "Hv" in let Hd := fresh "Hd" in
    apply fits_one in H as [->|(v & -> & Hv & Hd)]; [| |done]; cbn [f_type f_rule] in * end.

(** A Value has no kind or one. *)
Inductive kinds : value -> Prop :=
  | kind_none : kinds (VMsg (empty google_protobuf_Value_msg))
  | kind_null : kinds (one_of 6 0 (VInt 0))
  | kind_number z : bits_of_float (float_of_bits z) = Some z -> kinds (one_of 6 1 (VDouble z))
  | kind_text s : NUL ∉ s -> kinds (one_of 6 2 (VText s))
  | kind_bool b : kinds (one_of 6 3 (VBool b))
  | kind_object es : Forall (fun x => fits (MESSAGE google_protobuf_Struct_FieldsEntry_msg) x = true) es ->
      kinds (one_of 6 4 (VMsg [es]))
  | kind_list xs : Forall (fun x => fits (MESSAGE google_protobuf_Value_msg) x = true) xs ->
      kinds (one_of 6 5 (VMsg [xs])).

Lemma value_kinds v : fits (MESSAGE google_protobuf_Value_msg) v = true -> kinds v.
Proof.
  intros H. message_slots H. one_slots; try discriminate.
  all: try match goal with H : fits (MESSAGE _) _ = true |- _ => message_slots H end.
  all: try match goal with H : fits ?t ?v = true |- _ =>
    lazymatch t with MESSAGE _ => fail | _ => destruct v; try discriminate H; cbn in H end end.
  - exact kind_none.
  - apply andb_prop in Hv as [_ ->%Z.eqb_eq]. exact kind_null.
  - apply andb_prop in Hv as [_ Hv%bool_decide_eq_true]. by apply kind_number.
  - apply bool_decide_eq_true in Hv. by apply kind_text.
  - apply kind_bool.
  - apply kind_object. exact (fits_all _ _ Hs).
  - apply kind_list. exact (fits_all _ _ Hs).
Qed.

(** A slot of a number or of a text is its C member and back. *)
Lemma text_slot_back a n g s :
  fits_slot (X a SINGULAR STRING n g) s = true ->
  singular_text (text_in s) = s /\ forall t, s = [VText t] -> text_in s = Some t.
Proof.
  intros Hs. apply fits_one in Hs as [->|(v & -> & Hv & Hd)]; [done| |done].
  destruct v as [| | |t|]; try done. cbn in Hv. apply bool_decide_eq_true in Hv.
  cbn [text_in]. rewrite until_nul_id by done.
  unfold singular_text. simpl. rewrite until_nul_id by done. split; [done|]. by intros ? [= ->].
Qed.

Lemma int_slot_back a ty n g s :
  (ty = INT32 \/ ty = INT64 \/ exists e, ty = UENUM e) ->
  fits_slot (X a SINGULAR ty n g) s = true -> singular_int (int_in s) = s.
Proof.
  intros Hty Hs. apply fits_one in Hs as [->|(v & -> & Hv & Hd)]; [done| |done].
  specialize (Hd eq_refl). destruct v; try by destruct Hty as [->|[->|[? ->]]]. cbn in *. unfold singular_int. by rewrite Hd.
Qed.

Lemma bytes_slot_back a n g s :
  fits_slot (X a SINGULAR BYTES n g) s = true -> singular_bytes (bytes_in s) = s.
Proof.
  intros Hs. apply fits_one in Hs as [->|(v & -> & Hv & Hd)]; [done| |done].
  by destruct v as [| | |t|].
Qed.

(** ** Values and Structs *)

(** The JSON value the bytes of a Value denote: every field of its Structs has a key
    and a value. *)
Section entry.
Variable json_of : value -> option json.
Definition json_entry (x : value) : option (bytes * json) :=
  match x with VMsg [[VText k]; [w]] => pair k <$> json_of w | _ => None end.
End entry.
Fixpoint json_of (v : value) : option json :=
  match v with
  | VMsg [[VInt _]; []; []; []; []; []] => Some JNull
  | VMsg [[]; [VDouble z]; []; []; []; []] => Some (JNumber (float_of_bits z))
  | VMsg [[]; []; [VText s]; []; []; []] => Some (JString s)
  | VMsg [[]; []; []; [VBool b]; []; []] => Some (JBool b)
  | VMsg [[]; []; []; []; [VMsg [es]]; []] => JObject <$> mapM (json_entry json_of) es
  | VMsg [[]; []; []; []; []; [VMsg [xs]]] => JList <$> mapM json_of xs
  | _ => None
  end.
(** The object a Struct denotes. *)
Definition json_object (v : value) : option (list (bytes * json)) :=
  match v with VMsg [es] => mapM (json_entry json_of) es | _ => None end.

(** [w] holds [v]. The bound on the nesting is one more than the blocks there are,
    for a value nests a level more than it has arrays. *)
Definition value_back (v : value) (h : gmap Z block) (w : google_protobuf_Value) : Prop :=
  fits (MESSAGE google_protobuf_Value_msg) v = true ->
  value_of (S (size h)) w h = Some v /\ forall j, json_of v = Some j -> value_is h w j.
Definition entry_back (x : value) (h : gmap Z block) (e : google_protobuf_Struct_FieldsEntry) : Prop :=
  fits (MESSAGE google_protobuf_Struct_FieldsEntry_msg) x = true ->
  entry_of_field (value_of (S (size h))) e h = Some x /\
  forall kj, json_entry json_of x = Some kj ->
    fe_key e = Some kj.1 /\ fe_has_value e = true /\ value_is h (fe_value e) kj.2.

Lemma value_back_lasting v : lasting (value_back v).
Proof.
  intros h h' w H Hsub Hv. destruct (H Hv) as [Hr Hj]. split.
  - eapply steady_value; [|exact Hsub]. eapply value_of_deeper; [|exact Hr].
    apply le_n_S. by apply map_subseteq_size.
  - intros j Hjv. eapply value_is_weaken; [|exact Hsub]. auto.
Qed.

Lemma entry_of_field_mono f g e h x :
  (forall w y, f w h = Some y -> g w h = Some y) -> entry_of_field f e h = Some x -> entry_of_field g e h = Some x.
Proof.
  intros Hfg H. unfold entry_of_field, when in *. destruct (fe_has_value e); [|done].
  apply bind_Some in H as (v & Hv & H). apply bind_Some in Hv as (w & Hw & Hv).
  unfold mbind, reader_bind. rewrite (Hfg _ _ Hw). simpl. injection Hv as <-. exact H.
Qed.

Lemma entry_back_lasting x : lasting (entry_back x).
Proof.
  intros h h' e H Hsub Hx. destruct (H Hx) as [Hr Hj]. split.
  - eapply entry_of_field_mono; [|eapply (steady_bind (when _ _)); [|intros; apply steady_ret|exact Hr|exact Hsub]].
    + intros w y. apply value_of_deeper. apply le_n_S. by apply map_subseteq_size.
    + auto using steady_value with steady.
  - intros kj Hkj. destruct (Hj kj Hkj) as (? & ? & ?). split_and!; [done|done|]. by eapply value_is_weaken.
Qed.

Lemma reads_back {A} (g : A -> reader value) xs ys h :
  Forall2 (fun x y => g y h = Some x) xs ys -> read_all g ys h = Some xs.
Proof.
  induction 1 as [|x y xs ys Hy _ IH]; [done|]. simpl. unfold mbind, reader_bind. rewrite Hy. simpl. by rewrite IH.
Qed.

(** All of [l] when its elements are. *)
Lemma mapM_back {A B} (f : A -> option B) l js : mapM f l = Some js -> Forall2 (fun x j => f x = Some j) l js.
Proof. apply mapM_Some_1. Qed.

Lemma reader_bind_at {A B} (r : reader A) (f : A -> reader B) h a : r h = Some a -> (r ≫= f) h = f a h.
Proof. intros H. unfold mbind, reader_bind. by rewrite H. Qed.

Lemma when_true {A} (r : reader A) h a : r h = Some a -> when true r h = Some [a].
Proof. intros H. unfold when. by rewrite (reader_bind_at _ _ _ _ H). Qed.

Lemma Forall2_with {A B} (P : A -> Prop) (Q R : A -> B -> Prop) xs ys :
  Forall P xs -> Forall2 Q xs ys -> (forall x y, P x -> Q x y -> R x y) -> Forall2 R xs ys.
Proof.
  intros HP HQ HR. induction HQ as [|x y xs ys Hxy HQ IH]; [done|]. apply Forall_cons in HP as [Hx HP].
  constructor; auto.
Qed.

Lemma Forall2_compose {A B C} (P : A -> B -> Prop) (Q : A -> C -> Prop) (R : B -> C -> Prop) xs ys zs :
  Forall2 P xs ys -> Forall2 Q xs zs -> (forall x y z, P x y -> Q x z -> R y z) -> Forall2 R ys zs.
Proof.
  intros HP HQ HR. revert zs HQ. induction HP as [|x y xs ys Hxy HP IH]; intros zs HQ; inversion HQ; subst; constructor; eauto.
Qed.

(** The Struct of filled entries. *)
Lemma struct_filled es fes h0 h a :
  Forall (fun x => fits (MESSAGE google_protobuf_Struct_FieldsEntry_msg) x = true) es ->
  Forall2 (fun x e => entry_back x h0 e) es fes -> h0 ⊆ h -> fes = [] \/ (size h0 < size h)%nat ->
  array_at FieldsArr fes h a ->
  struct_of (PbStruct a.1 a.2) h = Some (VMsg [es]) /\
  forall l, json_object (VMsg [es]) = Some l -> object_is h (PbStruct a.1 a.2) l.
Proof.
  intros Hf Hes Hsub Hsz Ha. split.
  - unfold struct_of, struct_with. cbn [fields_count fields].
    rewrite (reader_bind_at _ _ _ _ (elements_array_at _ as_fields _ _ _ Ha eq_refl)).
    rewrite (reader_bind_at _ _ _ es); [done|]. apply reads_back. destruct Hsz as [->|Hsz]; [by inversion Hes|].
    eapply Forall2_with; [exact Hf|exact Hes|]. intros x e Hx He. destruct (He Hx) as [Hr _].
    eapply entry_of_field_mono; [|eapply (steady_bind (when _ _)); [|intros; apply steady_ret|exact Hr|exact Hsub]];
      [|auto using steady_value with steady]. intros w y. by apply value_of_deeper.
  - intros l Hl. apply mapM_back in Hl. eapply is_object.
    + split; [apply Ha|]. cbn [fields]. destruct Ha as [_ Ha]. destruct a.2; [apply Ha|done].
    + eapply (Forall2_compose (fun x e => fits _ x = true /\ entry_back x h0 e)); [|exact Hl|].
      { eapply Forall2_with; [exact Hf|exact Hes|]. intros x e Hx He. exact (conj Hx He). }
      intros x e kj [Hx He] Hkj. by apply (entry_back_lasting _ _ _ _ He Hsub).
Qed.

Lemma list_filled xs vs h0 h a :
  Forall (fun x => fits (MESSAGE google_protobuf_Value_msg) x = true) xs ->
  Forall2 (fun x w => value_back x h0 w) xs vs -> h0 ⊆ h -> vs = [] \/ (size h0 < size h)%nat ->
  array_at ValuesArr vs h a -> value_back (one_of 6 5 (VMsg [xs])) h (list_value (PbList a.1 a.2)).
Proof.
  intros Hf Hxs Hsub Hsz Ha _. split.
  - cbn [value_of]. cbn [values_count values].
    rewrite (reader_bind_at _ _ _ _ (elements_array_at _ as_values _ _ _ Ha eq_refl)).
    rewrite (reader_bind_at _ _ _ xs); [done|]. apply reads_back. destruct Hsz as [->|Hsz]; [by inversion Hxs|].
    eapply Forall2_with; [exact Hf|exact Hxs|]. intros x w Hx Hw. destruct (Hw Hx) as [Hr _].
    eapply steady_value; [|exact Hsub]. by eapply value_of_deeper; [|exact Hr].
  - intros j Hj. cbn in Hj. apply fmap_Some in Hj as (l & Hl & ->). apply mapM_back in Hl. eapply is_list_value.
    + split; [apply Ha|]. cbn [values]. destruct Ha as [_ Ha]. destruct a.2; [apply Ha|done].
    + eapply (Forall2_compose (fun x w => fits _ x = true /\ value_back x h0 w)); [|exact Hl|].
      { eapply Forall2_with; [exact Hf|exact Hxs|]. intros x w Hx Hw. exact (conj Hx Hw). }
      intros x w j [Hx Hw] Hj. by apply (value_back_lasting _ _ _ _ Hw Hsub).
Qed.

(** Induction on the values within a value. *)
Fixpoint value_size (v : value) : nat :=
  match v with
  | VMsg slots => S (list_sum (map (fun s => list_sum (map value_size s)) slots))
  | _ => 1
  end.

Lemma value_size_in slots s v : s ∈ slots -> v ∈ s -> (value_size v < value_size (VMsg slots))%nat.
Proof.
  assert (forall {A} (f : A -> nat) l x, x ∈ l -> (f x <= list_sum (map f l))%nat) as Hsum.
  { intros A f l x Hx. apply list_elem_of_split in Hx as (l1 & l2 & ->).
    rewrite map_app, list_sum_app. simpl. lia. }
  intros Hs Hv. simpl. pose proof (Hsum _ (fun s => list_sum (map value_size s)) _ _ Hs).
  pose proof (Hsum _ value_size _ _ Hv). simpl in *. lia.
Qed.

Lemma in_list_message l x : x ∈ l -> (value_size x < value_size (VMsg [l]))%nat.
Proof. intros Hx. by apply (value_size_in [l] l); [apply list_elem_of_here|]. Qed.

Lemma in_entry k w l : VMsg [k; [w]] ∈ l -> (value_size w < value_size (VMsg [l]))%nat.
Proof.
  intros Hx. apply in_list_message in Hx.
  pose proof (value_size_in [k; [w]] [w] w ltac:(set_solver) ltac:(set_solver)). lia.
Qed.

Lemma entry_shape x :
  fits (MESSAGE google_protobuf_Struct_FieldsEntry_msg) x = true ->
  exists k s, x = VMsg [k; s] /\ fits_slot (X POINTER SINGULAR STRING "key" 1) k = true /\
    (s = [] \/ exists w, s = [w] /\ fits (MESSAGE google_protobuf_Value_msg) w = true).
Proof.
  intros H. message_slots H. eexists _, _. split; [done|]. split; [done|].
  apply fits_one in Hs0 as [->|(w & -> & Hw & _)]; [by left|by right; exists w|done].
Qed.

(** [e] holds the entry [x] of a Struct, and [Q] holds of its value. *)
Definition field_held (Q : value -> gmap Z block -> google_protobuf_Value -> Prop) (x : value)
    (h : gmap Z block) (e : google_protobuf_Struct_FieldsEntry) : Prop :=
  fits (MESSAGE google_protobuf_Struct_FieldsEntry_msg) x = true ->
  exists k s, x = VMsg [k; s] /\ fits_slot (X POINTER SINGULAR STRING "key" 1) k = true /\ fe_key e = text_in k /\
    match s with
    | [w] => fits (MESSAGE google_protobuf_Value_msg) w = true /\ fe_has_value e = true /\ Q w h (fe_value e)
    | _ => s = [] /\ fe_has_value e = false
    end.

Lemma field_held_lasting Q x : (forall w, lasting (Q w)) -> lasting (field_held Q x).
Proof.
  intros HQ h h' e H Hsub Hx. destruct (H Hx) as (k & s & -> & Hk & He & Hs). exists k, s. split_and!; try done.
  destruct s as [|w []]; [done| |done]. destruct Hs as (? & ? & Hw). split_and!; try done. by eapply HQ.
Qed.

(** An entry of a Struct. *)
Lemma fills_field (alloc : value -> C (option google_protobuf_Value)) Q x :
  (forall k w, x = VMsg [k; [w]] -> fills (alloc w) (Q w)) ->
  fills (match x with
         | VMsg [k; [w]] => and_then (alloc w) (fun w => done (FieldsEntry (text_in k) true w))
         | VMsg (k :: _) => done (FieldsEntry (text_in k) false KindNone)
         | _ => done FieldsEntry_zero
         end) (field_held Q x).
Proof.
  intros IH. repeat case_match; subst.
  all: try (apply fills_done; intros h Hx; destruct (entry_shape _ Hx) as (k & s & E & Hk & [->|(w & -> & Hw)]);
    simplify_eq; by exists k, []).
  match goal with |- fills _ (field_held _ (VMsg [?k; [?w]])) => rename k into key, w into v end.
  eapply fills_map; [by apply (IH key)|].
  intros h w Hw Hx. destruct (entry_shape _ Hx) as (k & s & [= <- <-] & Hk & [?|(w' & [= <-] & Hfw)]); [done|].
  by exists key, [v].
Qed.

Lemma field_held_back x h e : field_held value_back x h e -> entry_back x h e.
Proof.
  intros H Hx. destruct (H Hx) as (k & s & -> & Hk & Hke & Hs). destruct (text_slot_back _ _ _ _ Hk) as [Hb Ht].
  unfold entry_of_field. destruct s as [|w []]; [|destruct Hs as (Hfw & Hh & Hw)|by destruct Hs].
  - destruct Hs as [_ Hh]. split; [|by intros kj Hkj; cbn in Hkj; repeat case_match].
    rewrite Hh, Hke. cbn. by rewrite Hb.
  - destruct (Hw Hfw) as [Hr Hj]. split.
    + rewrite Hh, Hke. rewrite (reader_bind_at _ _ _ [w]); [by cbn; rewrite Hb|]. by apply when_true.
    + intros kj Hkj. cbn in Hkj. repeat case_match; try done. apply fmap_Some in Hkj as (j & Hj' & ->).
      split_and!; [by rewrite Hke; apply Ht|done|]. by apply Hj.
Qed.

Lemma fills_entry (alloc : value -> C (option google_protobuf_Value)) x :
  (forall k w, x = VMsg [k; [w]] -> fills (alloc w) (value_back w)) ->
  fills (match x with
         | VMsg [k; [w]] => and_then (alloc w) (fun w => done (FieldsEntry (text_in k) true w))
         | VMsg (k :: _) => done (FieldsEntry (text_in k) false KindNone)
         | _ => done FieldsEntry_zero
         end) (entry_back x).
Proof. intros IH. eapply fills_weaken; [by apply (fills_field alloc value_back)|apply field_held_back]. Qed.

Lemma fills_value v : fills (alloc_value v) (value_back v).
Proof.
  induction v as [v IH] using (induction_ltof1 _ value_size). unfold ltof in IH.
  destruct v; cbn [alloc_value]; repeat case_match; subst.
  all: try (apply fills_done; intros h Hv; pose proof (value_kinds _ Hv) as K; inversion K; subst; try discriminate).
  all: try (split; [done|intros ? [= <-]; constructor]).
  - match goal with |- fills (and_then (each _ ?l) _) _ => rename l into xs end. eapply fills_weaken.
    + apply (fills_array _ ValuesArr _ (fun h vs => Forall2 (fun x w => value_back x h w) xs vs)).
      apply fills_each; [|apply value_back_lasting]. intros x Hx. apply IH. pose proof (in_list_message _ _ Hx).
      pose proof (value_size_in [[]; []; []; []; []; [VMsg [xs]]] [VMsg [xs]] (VMsg [xs]) ltac:(set_solver) ltac:(set_solver)). lia.
    + intros h r (vs & a & h0 & Hvs & Hsub & Hsz & Ha & ->) Hv. pose proof (value_kinds _ Hv) as K.
      inversion K; subst; try discriminate. by eapply list_filled.
  - match goal with |- fills (and_then (each _ ?l) _) _ => rename l into xs end. eapply fills_weaken.
    + apply (fills_array _ FieldsArr _ (fun h es => Forall2 (fun x e => entry_back x h e) xs es)).
      apply fills_each; [|apply entry_back_lasting]. intros x Hx. apply fills_entry. intros k w ->. apply IH.
      apply in_entry in Hx.
      pose proof (value_size_in [[]; []; []; []; [VMsg [xs]]; []] [VMsg [xs]] (VMsg [xs]) ltac:(set_solver) ltac:(set_solver)). lia.
    + intros h r (es & a & h0 & Hes & Hsub & Hsz & Ha & ->) Hv. pose proof (value_kinds _ Hv) as K.
      inversion K; subst; try discriminate. edestruct struct_filled as [Hr Hj]; [done..|]. split.
      * cbn [value_of]. by rewrite (reader_bind_at _ _ _ (VMsg [xs])).
      * intros j Hjv. cbn in Hjv. apply fmap_Some in Hjv as (l & Hl & ->). by apply Hj.
  - rewrite until_nul_id by done. split; [cbn|intros ? [= <-]; constructor]. by rewrite until_nul_id.
  - split; [|intros ? [= <-]; constructor]. cbn. unfold mbind, reader_bind.
    match goal with H : bits_of_float _ = _ |- _ => by rewrite H end.
Qed.

(** What is built in the heap goes out the same way: the wire message of a JSON
    value, and how deep it nests. *)
Section field.
Variable json_wire : json -> option value.
Definition field_wire (kj : bytes * json) : option value :=
  v ← json_wire kj.2; Some (VMsg [singular_text (Some kj.1); [v]]).
End field.
Fixpoint json_wire (j : json) : option value :=
  match j with
  | JNull => Some (one_of 6 0 (VInt 0))
  | JNumber d => z ← bits_of_float d; Some (one_of 6 1 (VDouble z))
  | JString s => Some (one_of 6 2 (VText (until_nul s)))
  | JBool b => Some (one_of 6 3 (VBool b))
  | JObject l => es ← mapM (field_wire json_wire) l; Some (one_of 6 4 (VMsg [es]))
  | JList l => xs ← mapM json_wire l; Some (one_of 6 5 (VMsg [xs]))
  end.
Definition object_wire (l : list (bytes * json)) : option value :=
  es ← mapM (field_wire json_wire) l; Some (VMsg [es]).
Fixpoint json_depth (j : json) : nat :=
  match j with
  | JObject l => S (list_max (map (fun kj => json_depth kj.2) l))
  | JList l => S (list_max (map json_depth l))
  | _ => 0
  end.

Lemma array_elements {A} (mk : list A -> block) of_block l h n p :
  n = Z.of_nat (length l) -> (match p with None => l = [] | Some b => h !! b = Some (mk l) end) ->
  of_block (mk l) = Some l -> elements of_block n p h = Some l.
Proof.
  intros -> Hp Hof. destruct l as [|x l]; [done|]. destruct p as [b|]; [|done].
  apply (elements_array_at mk of_block (x :: l) h (Z.of_nat (length (x :: l)), Some b)); [|done]. by split.
Qed.

Lemma list_max_cons x l n : (list_max (x :: l) <= n)%nat -> (x <= n)%nat /\ (list_max l <= n)%nat.
Proof. unfold list_max. simpl. lia. Qed.

Lemma value_read h w j v n :
  value_is h w j -> json_wire j = Some v -> (json_depth j <= n)%nat -> value_of n w h = Some v.
Proof.
  intros H. revert w j H v n. fix IH 3. intros w j [|d|s|b|st es l [Hn Hp] Hl|lv vs l [Hn Hp] Hl] v n Hv Hd.
  - destruct n; by injection Hv as <-.
  - cbn in Hv. destruct n; exact Hv.
  - destruct n; by injection Hv as <-.
  - destruct n; by injection Hv as <-.
  - destruct n as [|n]; [cbn in Hd; lia|]. cbn [json_wire] in Hv. apply bind_Some in Hv as (xs & Hxs & [= <-]).
    cbn [value_of]. rewrite (reader_bind_at _ _ _ (VMsg [xs])); [done|]. unfold struct_with.
    rewrite (reader_bind_at _ _ _ _ (array_elements FieldsArr as_fields es h _ _ Hn Hp eq_refl)).
    rewrite (reader_bind_at _ _ _ xs); [done|]. apply mapM_back in Hxs. cbn [json_depth] in Hd.
    assert (list_max (map (fun kj => json_depth kj.2) l) <= n)%nat as Hm by lia. clear Hd Hn Hp.
    revert xs Hxs Hm. induction Hl as [|e kj es l (Hk & Hh & Hj) Hl IHl]; intros xs Hxs Hm; inversion Hxs as [|? x ? xs' Hx Hxs' E]; subst; [done|].
    apply list_max_cons in Hm as [Hm1 Hm]. cbn [read_all].
    apply bind_Some in Hx as (y & Hy & [= <-]).
    rewrite (reader_bind_at _ _ _ (VMsg [singular_text (Some kj.1); [y]])).
    { rewrite (reader_bind_at _ _ _ xs'); [done|]. by apply IHl. }
    unfold entry_of_field. rewrite (reader_bind_at _ _ _ [y]); [by rewrite Hk|]. rewrite Hh. apply when_true.
    by apply (IH _ _ Hj).
  - destruct n as [|n]; [cbn in Hd; lia|]. cbn [json_wire] in Hv. apply bind_Some in Hv as (xs & Hxs & [= <-]).
    cbn [value_of]. rewrite (reader_bind_at _ _ _ _ (array_elements ValuesArr as_values vs h _ _ Hn Hp eq_refl)).
    rewrite (reader_bind_at _ _ _ xs); [done|]. apply mapM_back in Hxs. cbn [json_depth] in Hd.
    assert (list_max (map json_depth l) <= n)%nat as Hm by lia. clear Hd Hn Hp.
    revert xs Hxs Hm. induction Hl as [|e kj es l Hj Hl IHl]; intros xs Hxs Hm; inversion Hxs as [|? x ? xs' Hx Hxs' E]; subst; [done|].
    apply list_max_cons in Hm as [Hm1 Hm]. cbn [read_all]. rewrite (reader_bind_at _ _ _ x).
    { rewrite (reader_bind_at _ _ _ xs'); [done|]. by apply IHl. }
    by apply (IH _ _ Hj).
Qed.
