(* ===== verification/WireRequest.v ===== *)
(** What decoding puts in the heap, of the messages of a request: they read back as
    what was decoded, and the desired state, which a function may take apart, is in
    blocks that nothing else of the request has. *)
From S2P Require Import Prelude CString Proto Machine MachineLogic Structpb Codec Wire WireProps WireHeap WireFill.
From Stdlib Require Import Strings.Byte.

(** ** Messages *)

Lemma slot_here s l : slot (s :: l) 0 = s.
Proof. done. Qed.
Lemma slot_next s l i : slot (s :: l) (S i) = slot l i.
Proof. done. Qed.

(** A slot of at most one value, which is held without loss. *)
Definition slot_fits (t : ltype) (s : list value) : Prop := s = [] \/ exists v, s = [v] /\ fits t v = true.
Definition present (s : list value) : bool := match s with [] => false | _ => true end.
(** A flag and what it says is there hold the slot. *)
Definition slot_held {A} (rd : A -> reader value) (s : list value) (h : gmap Z block) (has : bool) (a : A) : Prop :=
  has = present s /\ when has (rd a) h = Some s.
(** The Struct of a slot denotes what its bytes do. *)
Definition denotes (s : list value) (h : gmap Z block) (st : google_protobuf_Struct) : Prop :=
  forall v l, s = [v] -> json_object v = Some l -> object_is h st l.
(** Slot [i] of the message of a slot. *)
Definition within (s : list value) (i : nat) : list value :=
  match s with [v] => slot (msg_slots v) i | _ => [] end.
Definition struct_back (s : list value) (h : gmap Z block) (has : bool) (st : google_protobuf_Struct) : Prop :=
  slot_held struct_of s h has st /\ denotes s h st.
Definition resource_back (s : list value) (h : gmap Z block) (has : bool) (r : fnv1_Resource) : Prop :=
  slot_held resource_of s h has r /\ has_resource r = present (within s 0) /\ denotes (within s 0) h (resource r).
Definition state_back (s : list value) (h : gmap Z block) (has : bool) (st : fnv1_State) : Prop :=
  slot_held state_of s h has st /\
  (exists old, array_at StateArr old h (resources_count st, resources st)) /\
  (s <> [] -> resource_back (within s 0) h (has_composite st) (composite st)).

Lemma slot_held_lasting {A} (rd : A -> reader value) s has a :
  (forall a, steady (rd a)) -> lasting (fun h (_ : unit) => slot_held rd s h has a).
Proof. intros Hrd h h' _ [Hs Hr] Hsub. split; [done|]. by eapply steady_when. Qed.
Lemma denotes_lasting s st h h' : denotes s h st -> h ⊆ h' -> denotes s h' st.
Proof. intros H Hsub v l Hv Hl. eapply value_is_weaken; [|exact Hsub]. by apply (H v l). Qed.
Lemma struct_back_lasting s has st h h' : struct_back s h has st -> h ⊆ h' -> struct_back s h' has st.
Proof.
  intros [Hr Hd] Hsub. split; [|by eapply denotes_lasting].
  apply (slot_held_lasting struct_of s has st steady_struct_of h h' tt Hr Hsub).
Qed.
Lemma resource_back_lasting s has r h h' : resource_back s h has r -> h ⊆ h' -> resource_back s h' has r.
Proof.
  intros (Hr & Hh & Hd) Hsub. split; [|split; [done|by eapply denotes_lasting]].
  apply (slot_held_lasting resource_of s has r steady_resource h h' tt Hr Hsub).
Qed.
Lemma state_back_lasting s has st h h' : state_back s h has st -> h ⊆ h' -> state_back s h' has st.
Proof.
  intros (Hr & [old Ho] & Hc) Hsub. split; [|split].
  - apply (slot_held_lasting state_of s has st steady_state h h' tt Hr Hsub).
  - exists old. by eapply array_at_lasting.
  - intros Hs. eapply resource_back_lasting; [by apply Hc|done].
Qed.

Lemma value_object n w h m :
  value_of (S n) w h = Some (one_of 6 4 m) -> exists st, w = struct_value st /\ struct_with (value_of n) st h = Some m.
Proof.
  intros H. destruct w as [| |d|[s|]|b|st|l]; cbn [value_of] in H; try discriminate H.
  - apply bind_Some in H as (z & _ & H). discriminate H.
  - exists st. split; [done|]. apply bind_Some in H as (m' & Hm & H). by injection H as <-.
  - apply bind_Some in H as (xs & _ & H). apply bind_Some in H as (vs & _ & H). discriminate H.
Qed.

Lemma fits_object v :
  fits (MESSAGE google_protobuf_Struct_msg) v = true -> fits (MESSAGE google_protobuf_Value_msg) (one_of 6 4 v) = true.
Proof.
  intros H. unfold fits in *. apply andb_prop in H as [Ht Hc].
  change (one_of 6 4 v) with (VMsg [[]; []; []; []; [v]; []]). cbn. by rewrite Ht, Hc.
Qed.

Lemma fills_struct s :
  fills (alloc_struct s) (fun h p => slot_fits (MESSAGE google_protobuf_Struct_msg) s -> struct_back s h p.1 p.2).
Proof.
  destruct s as [|v [|v' s]].
  - apply fills_done. intros h _. split; [done|]. intros v l [=].
  - eapply fills_map; [apply fills_value|]. intros h w Hw [?|(v' & [= <-] & Hf)]; [done|].
    assert (fits (MESSAGE google_protobuf_Value_msg) (one_of 6 4 v) = true) as Hv.
    { by apply fits_object. }
    destruct (Hw Hv) as [Hr Hj]. apply value_object in Hr as (st & -> & Hr). split.
    + split; [done|]. by apply when_true.
    + intros v' l [= <-] Hl. apply Hj. message_slots Hf. cbn in Hl |- *. by rewrite Hl.
  - apply fills_done. intros h [?|(? & ? & _)]; done.
Qed.

Lemma detail_back x :
  fits (MESSAGE fnv1_Resource_ConnectionDetailsEntry_msg) x = true -> detail_of (detail_in x) = x.
Proof.
  intros H. message_slots H. unfold detail_of, detail_in. cbn.
  by rewrite (proj1 (text_slot_back _ _ _ _ Hs)), (bytes_slot_back _ _ _ _ Hs0).
Qed.

Lemma details_back l :
  Forall (fun x => fits (MESSAGE fnv1_Resource_ConnectionDetailsEntry_msg) x = true) l ->
  map detail_of (map detail_in l) = l.
Proof. induction 1 as [|x l Hx _ IH]; [done|]. simpl. by rewrite detail_back, IH. Qed.

Lemma optional_slot a m n g s : fits_slot (X a OPTIONAL (MESSAGE m) n g) s = true -> slot_fits (MESSAGE m) s.
Proof. intros Hs. apply fits_one in Hs as [->|(v & -> & Hv & _)]; [by left|by right; exists v|done]. Qed.

Lemma fills_resource s :
  fills (alloc_resource s) (fun h p => slot_fits (MESSAGE fnv1_Resource_msg) s -> resource_back s h p.1 p.2).
Proof.
  destruct s as [|v [|v' s]].
  - apply fills_done. intros h _. by split_and!.
  - cbn [alloc_resource]. set (m := msg_slots v).
    eapply (fills_and_then _ _ _ (fun st h r => exists ds, array_at DetailsArr (map detail_in (slot m 1)) h ds /\
              r = (true, Resource st.1 st.2 ds.1 ds.2 (int_in (slot m 2))))).
    + apply fills_struct.
    + intros h h' st H Hsub Hf. eapply struct_back_lasting; [by apply H|done].
    + intros st. eapply fills_map; [apply fills_just_array|]. intros h ds Hds. exists ds. split; [|done]. by apply array_own_at.
    + intros st h h' r (ds & Hds & ->) Hsub. exists ds. split; [|done]. by eapply array_at_lasting.
    + intros h st r Hst (ds & Hds & ->) [?|(v' & [= <-] & Hf)]; [done|]. message_slots Hf. subst m.
      cbn [msg_slots] in *. rewrite ?slot_next, ?slot_here in *.
      destruct (Hst (optional_slot _ _ _ _ _ Hs)) as [[Hh Hr] Hd].
      split; [split; [done|]|by split]. apply when_true. unfold resource_of. cbn [fst snd has_resource resource connection_details_count connection_details ready].
      rewrite (reader_bind_at _ _ _ _ Hr).
      rewrite (reader_bind_at _ _ _ _ (elements_array_at _ as_details _ _ _ Hds eq_refl)).
      by rewrite details_back, (int_slot_back _ _ _ _ _ ltac:(eauto) Hs1) by exact (fits_all _ _ Hs0).
  - apply fills_done. intros h [?|(? & ? & _)]; done.
Qed.

Definition state_entry_back (x : value) (h : gmap Z block) (e : fnv1_State_ResourcesEntry) : Prop :=
  fits (MESSAGE fnv1_State_ResourcesEntry_msg) x = true -> state_entry_of e h = Some x.

Lemma steady_state_entry e : steady (state_entry_of e).
Proof. unfold state_entry_of. auto 8 with steady. Qed.

Lemma fills_state_entry x : fills (alloc_state_entry x) (state_entry_back x).
Proof.
  eapply fills_map; [apply fills_resource|].
  intros h r Hr Hf. message_slots Hf. cbn [msg_slots] in *. rewrite ?slot_next, ?slot_here in *.
  destruct (Hr (optional_slot _ _ _ _ _ Hs0)) as [[Hh Hrd] _].
  unfold state_entry_of. cbn [re_has_value re_value re_key].
  rewrite (reader_bind_at _ _ _ _ Hrd). cbn. by rewrite (proj1 (text_slot_back _ _ _ _ Hs)).
Qed.

(** Reading what [each] filled. *)
Lemma reads_filled {A} (t : ltype) (rd : A -> reader value) xs ys h :
  Forall (fun x => fits t x = true) xs ->
  Forall2 (fun x y => fits t x = true -> rd y h = Some x) xs ys -> read_all rd ys h = Some xs.
Proof. intros Hf H. apply reads_back. eapply Forall2_with; [exact Hf|exact H|]. auto. Qed.

Lemma fills_state s :
  fills (alloc_state s) (fun h p => slot_fits (MESSAGE fnv1_State_msg) s -> state_back s h p.1 p.2).
Proof.
  destruct s as [|v [|v' s]].
  - apply fills_done. intros h _. split; [done|]. by split; [exists []|].
  - cbn [alloc_state]. set (m := msg_slots v).
    eapply (fills_and_then _ _ _ (fun c h r => exists es a, Forall2 (fun x e => state_entry_back x h e) (slot m 1) es /\
              array_at StateArr es h a /\ r = (true, State c.1 c.2 a.1 a.2))).
    + apply fills_resource.
    + intros h h' c H Hsub Hf. eapply resource_back_lasting; [by apply H|done].
    + intros c. eapply fills_weaken; [apply fills_array, fills_each|].
      * intros x _. apply fills_state_entry.
      * intros x h h' e H Hsub Hf. eapply steady_state_entry; [by apply H|done].
      * intros h r (es & a & h0 & Hes & Hsub & _ & Ha & ->). exists es, a. split; [|done].
        eapply Forall2_impl; [exact Hes|]. intros x e H Hf. eapply steady_state_entry; [by apply H|done].
    + intros c h h' r (es & a & Hes & Ha & ->) Hsub. exists es, a. split_and!; [|by eapply array_at_lasting|done].
      eapply Forall2_impl; [exact Hes|]. intros x e H Hf. eapply steady_state_entry; [by apply H|done].
    + intros h c r Hc (es & a & Hes & Ha & ->) [?|(v' & [= <-] & Hf)]; [done|]. message_slots Hf. subst m.
      cbn [msg_slots] in *. rewrite ?slot_next, ?slot_here in *.
      pose proof (Hc (optional_slot _ _ _ _ _ Hs)) as Hcb. destruct Hcb as [[Hh Hr] Hd].
      split; [split; [done|]|split].
      * apply when_true. unfold state_of. cbn [fst snd has_composite composite resources_count resources].
        rewrite (reader_bind_at _ _ _ _ Hr).
        rewrite (reader_bind_at _ _ _ _ (elements_array_at _ as_state _ _ _ Ha eq_refl)).
        by rewrite (reader_bind_at _ _ _ _ (reads_filled _ state_entry_of _ _ _ (fits_all _ _ Hs0) Hes)).
      * exists es. by destruct a.
      * intros _. by split.
  - apply fills_done. intros h [?|(? & ? & _)]; done.
Qed.

(** A required resource: its key, and its items when there are any. *)
Definition required_back (x : value) (h : gmap Z block) (e : fnv1_RequiredResourcesEntry) : Prop :=
  fits (MESSAGE fnv1_RunFunctionRequest_RequiredResourcesEntry_msg) x = true ->
  rr_key e = text_in (slot (msg_slots x) 0) /\ rr_has_value e = present (slot (msg_slots x) 1) /\
  exists rs, array_at ItemsArr rs h (items_count (rr_value e), items (rr_value e)) /\
    Forall2 (fun y r => resource_back [y] h true r) (within (slot (msg_slots x) 1) 0) rs.

Lemma required_back_lasting x : lasting (required_back x).
Proof.
  intros h h' e H Hsub Hx. destruct (H Hx) as (? & ? & rs & Ha & Hrs). split_and!; try done. exists rs.
  split; [by eapply array_at_lasting|]. eapply Forall2_impl; [exact Hrs|]. intros y r Hr. eapply resource_back_lasting; [exact Hr|done].
Qed.

Lemma resources_shape w :
  fits (MESSAGE fnv1_Resources_msg) w = true ->
  exists xs, w = VMsg [xs] /\ Forall (fun x => fits (MESSAGE fnv1_Resource_msg) x = true) xs.
Proof. intros H. message_slots H. eexists. split; [done|]. exact (fits_all _ _ Hs). Qed.

Lemma fills_required x : fills (alloc_required x) (required_back x).
Proof.
  unfold alloc_required. destruct (slot (msg_slots x) 1) as [|w [|w' s]] eqn:E.
  1, 3: apply fills_done; intros h Hf; rewrite E; message_slots Hf; cbn [msg_slots] in *; rewrite ?slot_next, ?slot_here in E; subst.
  - split; [done|]. split; [done|]. by exists [].
  - apply fits_one in Hs0 as [?|(? & ? & _)]; done.
  - eapply fills_weaken; [apply fills_array, (fills_each _ (fun x h r => fits (MESSAGE fnv1_Resource_msg) x = true -> resource_back [x] h true r))|].
    + intros y _. eapply fills_map; [apply fills_resource|].
      intros h r Hr Hf. pose proof (Hr (or_intror (ex_intro _ y (conj eq_refl Hf)))) as Hb.
      destruct Hb as [[Hh ?] ?]. rewrite Hh in *. done.
    + intros y h h' r H Hsub Hf. eapply resource_back_lasting; [by apply H|done].
    + intros h r (rs & a & h0 & Hrs & Hsub & _ & Ha & ->) Hf. rewrite E. message_slots Hf.
      cbn [msg_slots] in *. rewrite ?slot_next, ?slot_here in *. subst.
      destruct (fits_one _ _ Hs0) as [?|(v & [= <-] & Hv & _)]; [done..|].
      destruct (resources_shape _ Hv) as (xs & -> & Hxs). cbn [msg_slots within] in *. rewrite ?slot_here in *.
      split; [done|]. split; [done|]. exists rs. split; [by destruct a|].
      eapply Forall2_with; [exact Hxs|exact Hrs|]. intros y r Hy H. eapply resource_back_lasting; [by apply H|done].
Qed.

(** ** What is apart *)

(** Arrays of Values and of their fields only. *)
Definition value_block (k : block) : Prop := match k with FieldsArr _ | ValuesArr _ => True | _ => False end.
Definition only_values (h : gmap Z block) : Prop := map_Forall (fun _ k => value_block k) h.

Lemma only_values_union h1 h2 : only_values h1 -> only_values h2 -> only_values (h1 ∪ h2).
Proof. intros H1 H2 b k [Hb|[_ Hb]]%lookup_union_Some_raw; [by apply (H1 b)|by apply (H2 b)]. Qed.

Lemma only_values_array {A} (mk : list A -> block) l h a :
  (forall l, value_block (mk l)) -> array_own mk l h a -> only_values h.
Proof.
  intros Hmk [_ Ha]. destruct a.2 as [b|]; destruct Ha as [_ ->]; [|apply map_Forall_empty].
  by apply map_Forall_singleton.
Qed.

Lemma only_values_each {A B} (P : A -> gmap Z block -> B -> Prop) l h ys :
  (forall x h y, P x h y -> only_values h) -> each_apart P l h ys -> only_values h.
Proof.
  intros HP H. induction H as [|x l h1 h2 y ys Hd Hy _ IH]; [apply map_Forall_empty|].
  apply only_values_union; [by eapply HP|done].
Qed.

(** [w] holds [v], in arrays of its own. *)
Definition value_own (v : value) (h : gmap Z block) (w : google_protobuf_Value) : Prop :=
  value_back v h w /\ only_values h.

(** The array [a] holds the entries [es] of a Struct, each in blocks of its own, of
    which [Q] holds. *)
Definition object_apart (Q : value -> gmap Z block -> google_protobuf_Value -> Prop) (es : list value)
    (h : gmap Z block) (st : google_protobuf_Struct) : Prop :=
  exists fes h0 h1, h0 ##ₘ h1 /\ h = h0 ∪ h1 /\ each_apart (field_held Q) es h0 fes /\
    array_own FieldsArr fes h1 (fields_count st, fields st).

Lemma fills_object Q es :
  (forall k w, VMsg [k; [w]] ∈ es -> fills (alloc_value w) (Q w)) ->
  fills (alloc_value (one_of 6 4 (VMsg [es]))) (fun h w => exists st, w = struct_value st /\ object_apart Q es h st).
Proof.
  intros HQ. change (one_of 6 4 (VMsg [es])) with (VMsg [[]; []; []; []; [VMsg [es]]; []]). cbn [alloc_value].
  eapply fills_weaken.
  - apply (fills_array_apart _ FieldsArr _ (fun h fes => each_apart (field_held Q) es h fes)).
    apply fills_each_apart. intros x Hx. apply fills_field. intros k w ->. by eapply HQ.
  - intros h r (fes & a & h0 & h1 & Hes & Hd & -> & Ha & ->). eexists. split; [done|].
    exists fes, h0, h1. by destruct a.
Qed.

Lemma fills_only_values v : fills (alloc_value v) (fun h _ => only_values h).
Proof.
  induction v as [v IH] using (induction_ltof1 _ value_size). unfold ltof in IH.
  destruct v; cbn [alloc_value]; repeat case_match; subst; try (apply fills_nothing, map_Forall_empty).
  - match goal with |- fills (and_then (each _ ?l) _) _ => rename l into xs end. eapply fills_weaken.
    + apply (fills_array_apart _ ValuesArr _ (fun h vs => each_apart (fun _ h _ => only_values h) xs h vs)).
      apply fills_each_apart. intros x Hx. apply IH. pose proof (in_list_message _ _ Hx).
      pose proof (value_size_in [[]; []; []; []; []; [VMsg [xs]]] [VMsg [xs]] (VMsg [xs]) ltac:(set_solver) ltac:(set_solver)). lia.
    + intros h r (vs & a & h0 & h1 & Hvs & Hd & -> & Ha & ->). apply only_values_union.
      * eapply only_values_each; [|exact Hvs]. by intros ? ? ?.
      * by eapply only_values_array; [|exact Ha].
  - match goal with |- fills (and_then (each _ ?l) _) _ => rename l into xs end. eapply fills_weaken.
    + apply (fills_array_apart _ FieldsArr _ (fun h vs => each_apart (fun _ h _ => only_values h) xs h vs)).
      apply fills_each_apart. intros x Hx. repeat case_match; subst; try (apply fills_nothing, map_Forall_empty).
      eapply fills_map; [apply IH|done]. apply in_entry in Hx.
      pose proof (value_size_in [[]; []; []; []; [VMsg [xs]]; []] [VMsg [xs]] (VMsg [xs]) ltac:(set_solver) ltac:(set_solver)). lia.
    + intros h r (vs & a & h0 & h1 & Hvs & Hd & -> & Ha & ->). apply only_values_union.
      * eapply only_values_each; [|exact Hvs]. by intros ? ? ?.
      * by eapply only_values_array; [|exact Ha].
Qed.

Lemma fills_value_own v : fills (alloc_value v) (value_own v).
Proof. apply fills_both; [apply fills_value|apply fills_only_values]. Qed.

(** And when it is an object, so is each of its fields. *)
Definition value_apart (v : value) (h : gmap Z block) (w : google_protobuf_Value) : Prop :=
  value_own v h w /\
  match w with
  | struct_value st => exists es, v = one_of 6 4 (VMsg [es]) /\ object_apart value_own es h st
  | _ => forall es, v <> one_of 6 4 (VMsg [es])
  end.

Lemma fills_value_apart v : fills (alloc_value v) (value_apart v).
Proof.
  apply fills_both; [apply fills_value_own|].
  destruct v as [| | | |slots]; try (apply fills_done; done). cbn [alloc_value].
  repeat (case_match; subst; try (apply fills_done; intros; done)).
  - eapply fills_weaken.
    + apply fills_array. apply fills_each; [intros x _; apply fills_value|apply value_back_lasting].
    + intros h w (vs & a & h0 & _ & _ & _ & _ & ->). done.
  - eapply fills_weaken; [apply (fills_object value_own); intros; apply fills_value_own|].
    intros h w (st & -> & Hst). eexists. by split.
Qed.

(** The object of a slot for a Struct, the resource and the state of a slot. *)
Definition struct_apart (s : list value) (h : gmap Z block) (st : google_protobuf_Struct) : Prop :=
  match s with
  | [v] => exists es, v = VMsg [es] /\ object_apart value_apart es h st
  | _ => st = google_protobuf_Struct_init_zero
  end.
Definition resource_apart (s : list value) (h : gmap Z block) (r : fnv1_Resource) : Prop :=
  match s with
  | [v] => exists hs hd, hs ##ₘ hd /\ h = hs ∪ hd /\
      has_resource r = present (slot (msg_slots v) 0) /\ struct_apart (slot (msg_slots v) 0) hs (resource r) /\
      array_at DetailsArr (map detail_in (slot (msg_slots v) 1)) hd (connection_details_count r, connection_details r) /\
      ready r = int_in (slot (msg_slots v) 2)
  | _ => r = fnv1_Resource_init_zero
  end.
Definition entry_held (x : value) (h : gmap Z block) (e : fnv1_State_ResourcesEntry) : Prop :=
  fits (MESSAGE fnv1_State_ResourcesEntry_msg) x = true ->
  re_key e = text_in (slot (msg_slots x) 0) /\ re_has_value e = present (slot (msg_slots x) 1) /\
  (re_has_value e = false -> re_value e = fnv1_Resource_init_zero) /\ state_entry_of e h = Some x.
Definition state_apart (s : list value) (h : gmap Z block) (st : fnv1_State) : Prop :=
  match s with
  | [v] => exists hc he, hc ##ₘ he /\ h = hc ∪ he /\
      has_composite st = present (slot (msg_slots v) 0) /\ resource_apart (slot (msg_slots v) 0) hc (composite st) /\
      exists es, Forall2 (fun x e => entry_held x he e) (slot (msg_slots v) 1) es /\
        array_at StateArr es he (resources_count st, resources st)
  | _ => st = fnv1_State_init_zero
  end.

Lemma fills_struct_apart s :
  fills (alloc_struct s) (fun h p => slot_fits (MESSAGE google_protobuf_Struct_msg) s ->
    p.1 = present s /\ struct_apart s h p.2).
Proof.
  destruct s as [|v [|v' s]]; [by apply fills_done| |by apply fills_done; intros h [?|(? & ? & _)]].
  assert (forall es, v = VMsg [es] -> fits (MESSAGE google_protobuf_Struct_msg) v = true ->
    fills (alloc_struct [v]) (fun h p => p.1 = true /\ struct_apart [v] h p.2)) as Hobject.
  { intros es -> _. eapply fills_map; [apply (fills_object value_apart); intros; apply fills_value_apart|].
    intros h w (st & -> & Hst). split; [done|]. by exists es. }
  destruct (fits (MESSAGE google_protobuf_Struct_msg) v) eqn:Hf.
  - pose proof Hf as Hv. message_slots Hv. eapply fills_weaken; [by eapply Hobject|]. done.
  - eapply fills_map; [apply fills_value|]. intros h w _ [?|(v' & [= <-] & ?)]; [done|congruence].
Qed.

Lemma fills_resource_apart s :
  fills (alloc_resource s) (fun h p => slot_fits (MESSAGE fnv1_Resource_msg) s ->
    p.1 = present s /\ resource_apart s h p.2).
Proof.
  destruct s as [|v [|v' s]]; [by apply fills_done| |by apply fills_done; intros h [?|(? & ? & _)]].
  cbn [alloc_resource]. set (m := msg_slots v).
  eapply (fills_apart _ _ _ (fun st h r => exists ds, array_own DetailsArr (map detail_in (slot m 1)) h ds /\
            r = (true, Resource st.1 st.2 ds.1 ds.2 (int_in (slot m 2))))); [apply fills_struct_apart| |].
  - intros st. eapply fills_map; [apply fills_just_array|]. intros h ds Hds. by exists ds.
  - intros h1 h2 st r Hd Hst (ds & Hds & ->) [?|(v' & [= <-] & Hf)]; [done|]. split; [done|].
    assert (slot_fits (MESSAGE google_protobuf_Struct_msg) (slot m 0)) as Hs.
    { subst m. message_slots Hf. cbn [msg_slots]. rewrite slot_here. by eapply optional_slot. }
    destruct (Hst Hs) as [Hh Ha]. exists h1, h2. split_and!; try done. apply array_own_at. by destruct ds.
Qed.

Lemma fills_entry_held x : fills (alloc_state_entry x) (entry_held x).
Proof.
  eapply fills_weaken; [apply (fills_both _ (state_entry_back x) (fun _ e =>
    fits (MESSAGE fnv1_State_ResourcesEntry_msg) x = true ->
    re_key e = text_in (slot (msg_slots x) 0) /\ re_has_value e = present (slot (msg_slots x) 1) /\
    (re_has_value e = false -> re_value e = fnv1_Resource_init_zero))); [apply fills_state_entry|]|].
  - eapply fills_map; [apply fills_resource_apart|]. intros h r Hr Hf. message_slots Hf.
    cbn [msg_slots] in *. rewrite ?slot_next, ?slot_here in *.
    destruct (Hr (optional_slot _ _ _ _ _ Hs0)) as [Hh Ha]. cbn. split_and!; [done|done|].
    rewrite Hh. intros Hp. match goal with H : present ?s = false |- _ => destruct s; [exact Ha|done] end.
  - intros h e [Hr H] Hf. destruct (H Hf) as (? & ? & ?). split_and!; try done. by apply Hr.
Qed.

Lemma entry_held_lasting x : lasting (entry_held x).
Proof.
  intros h h' e H Hsub Hx. destruct (H Hx) as (? & ? & ? & Hr). split_and!; try done. by eapply steady_state_entry.
Qed.

Lemma fills_state_apart s :
  fills (alloc_state s) (fun h p => slot_fits (MESSAGE fnv1_State_msg) s -> state_apart s h p.2).
Proof.
  destruct s as [|v [|v' s]]; [by apply fills_done| |by apply fills_done; intros h [?|(? & ? & _)]].
  cbn [alloc_state]. set (m := msg_slots v).
  eapply (fills_apart _ _ _ (fun c h r => exists es a, Forall2 (fun x e => entry_held x h e) (slot m 1) es /\
            array_at StateArr es h a /\ r = (true, State c.1 c.2 a.1 a.2))); [apply fills_resource_apart| |].
  - intros c. eapply fills_weaken; [apply fills_array, fills_each; [intros x _; apply fills_entry_held|apply entry_held_lasting]|].
    intros h r (es & a & h0 & Hes & Hsub & _ & Ha & ->). exists es, a. split_and!; [|done|done].
    eapply Forall2_impl; [exact Hes|]. intros x e H. eapply entry_held_lasting; [exact H|done].
  - intros h1 h2 c r Hd Hc (es & a & Hes & Ha & ->) [?|(v' & [= <-] & Hf)]; [done|].
    assert (slot_fits (MESSAGE fnv1_Resource_msg) (slot m 0)) as Hs.
    { subst m. message_slots Hf. cbn [msg_slots]. rewrite slot_here. by eapply optional_slot. }
    destruct (Hc Hs) as [Hh Hap]. exists h1, h2. split_and!; try done. exists es. by destruct a.
Qed.

(** ** Requests *)

(** What a request in the heap says of each slot the model has: its tag, the observed
    and the desired state, the input and the required resources. *)
Record request_back (slots : slots_t) (h : gmap Z block) (req : fnv1_RunFunctionRequest) : Prop := {
  rb_meta : rq_has_meta req = present (slot slots 0) /\ rq_meta_tag req = text_in (within (slot slots 0) 0);
  rb_observed : state_back (slot slots 1) h (has_observed req) (observed req);
  rb_desired : state_back (slot slots 2) h (rq_has_desired req) (rq_desired req);
  rb_input : struct_back (slot slots 3) h (has_input req) (input req);
  rb_required : exists es, array_at RequiredArr es h (required_resources_count req, required_resources req) /\
    Forall2 (fun x e => required_back x h e) (slot slots 7) es;
  rb_apart : exists h', h' ⊆ h /\ state_apart (slot slots 2) h' (rq_desired req);
}.
Lemma request_back_lasting slots h h' req : request_back slots h req -> h ⊆ h' -> request_back slots h' req.
Proof.
  intros [Hm Ho Hd Hi (es & Ha & He) (h0 & H0 & Hap)] Hsub. split.
  - done.
  - by eapply state_back_lasting.
  - by eapply state_back_lasting.
  - by eapply struct_back_lasting.
  - exists es. split; [by eapply array_at_lasting|]. eapply Forall2_impl; [exact He|].
    intros x e H. eapply required_back_lasting; [exact H|done].
  - exists h0. split; [by etransitivity|done].
Qed.

(** The tag of a request's message, as the C string it becomes. *)
Definition wire_tag (slots : slots_t) : bytes := default [] (text_in (within (slot slots 0) 0)).

Section request.
Context (slots : slots_t) (Hf : fits (MESSAGE fnv1_RunFunctionRequest_msg) (VMsg slots) = true).

Lemma meta_slot : slot_fits (MESSAGE fnv1_RequestMeta_msg) (slot slots 0).
Proof.
  pose proof Hf as H. apply fits_message in H as (? & [= <-] & _ & H). cbn [fields_of] in H.
  apply Forall2_cons_inv_l in H as (? & ? & Hs & H & ->). by eapply optional_slot.
Qed.

Lemma request_slots :
  slot_fits (MESSAGE fnv1_State_msg) (slot slots 1) /\ slot_fits (MESSAGE fnv1_State_msg) (slot slots 2) /\
  slot_fits (MESSAGE google_protobuf_Struct_msg) (slot slots 3) /\
  Forall (fun x => fits (MESSAGE fnv1_RunFunctionRequest_RequiredResourcesEntry_msg) x = true) (slot slots 7).
Proof.
  pose proof Hf as H. apply fits_message in H as (? & [= <-] & _ & H). cbn [fields_of] in H.
  do 9 (let Hs := fresh "Hs" in apply Forall2_cons_inv_l in H as (? & ? & Hs & H & ->)).
  rewrite ?slot_next, ?slot_here.
  split_and!; [by eapply optional_slot..|exact (fits_all _ _ Hs6)].
Qed.

Definition the_request (o d : bool * fnv1_State) (i : bool * google_protobuf_Struct) (a : Z * option Z)
    : fnv1_RunFunctionRequest :=
  Request (match slot slots 0 with [_] => true | _ => false end)
    (match slot slots 0 with [v] => text_in (slot (msg_slots v) 0) | _ => None end)
    o.1 o.2 d.1 d.2 i.1 i.2 a.1 a.2.

(** The last part of the request: what each part before holds is kept. *)
Lemma fills_required_array o d i :
  fills (and_then (each alloc_required (slot slots 7)) (fun rs =>
         and_then (array RequiredArr rs) (fun a => done (the_request o d i a))))
    (fun h r => exists a, r = the_request o d i a /\ exists es, array_at RequiredArr es h a /\
       Forall2 (fun x e => required_back x h e) (slot slots 7) es).
Proof.
  eapply fills_weaken; [apply fills_array, fills_each; [intros x _; apply fills_required|apply required_back_lasting]|].
  intros h r (es & a & h0 & Hes & Hsub & _ & Ha & ->). exists a. split; [done|]. exists es. split; [done|].
  eapply Forall2_impl; [exact Hes|]. intros x e H. eapply required_back_lasting; [exact H|done].
Qed.

Definition state_filled (s : list value) (h : gmap Z block) (p : bool * fnv1_State) : Prop :=
  state_back s h p.1 p.2 /\ exists h', h' ⊆ h /\ state_apart s h' p.2.
Lemma state_filled_lasting s : lasting (state_filled s).
Proof.
  intros h h' p [Hb (h0 & H0 & Ha)] Hsub. split; [by eapply state_back_lasting|].
  exists h0. split; [by etransitivity|done].
Qed.
Lemma fills_state_filled s : slot_fits (MESSAGE fnv1_State_msg) s -> fills (alloc_state s) (state_filled s).
Proof.
  intros Hs. eapply fills_weaken; [apply fills_both; [apply fills_state|apply fills_state_apart]|].
  intros h p [Hb Ha]. split; [by apply Hb|]. exists h. split; [done|by apply Ha].
Qed.

Definition rest_filled (o d : bool * fnv1_State) (i : bool * google_protobuf_Struct) (h : gmap Z block)
    (r : fnv1_RunFunctionRequest) : Prop :=
  exists a, r = the_request o d i a /\ exists es, array_at RequiredArr es h a /\
    Forall2 (fun x e => required_back x h e) (slot slots 7) es.

Lemma fills_request : fills (alloc_request slots) (request_back slots).
Proof.
  destruct request_slots as (Ho & Hd & Hi & _). unfold alloc_request. fold the_request.
  assert (forall o d i, lasting (rest_filled o d i)) as Hl.
  { intros o d i h h' r (a & -> & es & Ha & He) Hsub. exists a. split; [done|]. exists es.
    split; [by eapply array_at_lasting|]. eapply Forall2_impl; [exact He|]. intros x e H.
    eapply required_back_lasting; [exact H|done]. }
  eapply (fills_and_then _ _ (state_filled (slot slots 1)) (fun o h r => exists d i, state_filled (slot slots 2) h d /\
            struct_back (slot slots 3) h i.1 i.2 /\ rest_filled o d i h r));
    [by apply fills_state_filled|apply state_filled_lasting| | |].
  - intros o. eapply (fills_and_then _ _ (state_filled (slot slots 2)) (fun d h r => exists i,
            struct_back (slot slots 3) h i.1 i.2 /\ rest_filled o d i h r));
      [by apply fills_state_filled|apply state_filled_lasting| | |].
    + intros d. eapply fills_and_then;
        [apply fills_struct|intros h h' i H Hsub Hs; eapply struct_back_lasting; [by apply H|done]
        |intros i; apply (fills_required_array o d i)|apply Hl|].
      intros h i r H Hr. exists i. split; [by apply H|exact Hr].
    + intros d h h' r (i & H & Hr) Hsub. exists i. split; [by eapply struct_back_lasting|by eapply Hl].
    + intros h d r H (i & ? & ?). by exists d, i.
  - intros o h h' r (d & i & H1 & H2 & H3) Hsub. exists d, i. split_and!;
      [by eapply state_filled_lasting|by eapply struct_back_lasting|by eapply Hl].
  - intros h o r H (d & i & H1 & H2 & a & -> & es & Ha & He). split.
    + destruct meta_slot as [E|(v & E & _)]; cbn [the_request rq_has_meta rq_meta_tag]; unfold the_request;
        cbn [rq_has_meta rq_meta_tag]; by rewrite E.
    + apply H.
    + apply H1.
    + done.
    + exists es. by destruct a.
    + apply H1.
Qed.
End request.
