(* ===== verification/Handle.v ===== *)
(** The guest half of the contract (crates/guestfn/templates/c/src/wasmfn.c):
    decode the request, run the function, encode the response; every failure
    becomes a fatal result.

    nanopb is an interface: what its functions do to the heap and the bytes they
    produce is stated as laws, from its documentation. [run_function] is a
    parameter (HelloFn.v and CertFn.v are instances). *)
From S2P Require Import Prelude BindTypes CString Proto Machine MachineLogic Wasmfn WasmfnMem Structpb Codec Wire WireHeap WireFill WireRequest.
From Stdlib Require Import Strings.Byte.

(** ** nanopb *)

(** [pb_decode] allocates the request's arrays and answers it or the stream's
    error text; [pb_get_encoded_size] and [pb_encode] (into a buffer of that many
    bytes) read the response's arrays. *)
Class Nanopb := {
  pb_decode : bytes -> C (fnv1_RunFunctionRequest + bytes);
  pb_get_encoded_size : fnv1_RunFunctionResponse -> C (option Z);
  pb_encode : fnv1_RunFunctionResponse -> Z -> C (option bytes);
}.

(** A wire format: the bytes of a message, and the message that bytes are. *)
Class WireFormat := {
  format : msgdesc -> slots_t -> bytes;
  parse : msgdesc -> bytes -> option slots_t;
}.

(** What the code relies on. Decoding only allocates; on success the bytes were a
    message and the request holds it, each array in a block of its own (so far as a C
    struct can hold it: see [fits]), and it fails only for bytes that are none or for
    want of memory. Of a response whose pointers are what its counts and flags say,
    the size is that of the bytes of the message it holds, if a [size_t] can say it,
    and those are the bytes written, if there is room for them. Nothing is said
    of a response with a dangling pointer. *)
Class NanopbLaws (N : Nanopb) (F : WireFormat) := {
  decode_request : forall e T data s, wf s ->
    wp e T (pb_decode data) (fun r s' => heap_step s s' /\ heap s ⊆ heap s' /\
      match r with
      | inl req => exists slots, parse fnv1_RunFunctionRequest_msg data = Some slots /\
          (fits (MESSAGE fnv1_RunFunctionRequest_msg) (VMsg slots) = true -> request_back slots (heap s' ∖ heap s) req)
      | inr _ => parse fnv1_RunFunctionRequest_msg data = None \/ (denied s < denied s')%nat
      end) s;
  encode_size : forall e r m s,
    response_of r (heap s) = Some m -> typed_slots fnv1_RunFunctionResponse_msg m ->
    exists size, pb_get_encoded_size r e s = Ok (size, s) /\
      (forall n, size = Some n -> 0 <= n < memory_size) /\
      let n := Z.of_nat (length (format fnv1_RunFunctionResponse_msg m)) in (n < memory_size -> size = Some n);
  encode_writes : forall e r m n s,
    response_of r (heap s) = Some m -> typed_slots fnv1_RunFunctionResponse_msg m ->
    n < memory_size ->
    let bs := format fnv1_RunFunctionResponse_msg m in
    pb_encode r n e s = Ok (if Z.of_nat (length bs) <=? n then Some bs else None, s);
  parse_format : forall m,
    typed_slots fnv1_RunFunctionResponse_msg m ->
    Z.of_nat (length (format fnv1_RunFunctionResponse_msg m)) < memory_size ->
    parse fnv1_RunFunctionResponse_msg (format fnv1_RunFunctionResponse_msg m) = Some m;
}.

(** ** The handle *)

Definition set_meta (tag : bytes) (rsp : fnv1_RunFunctionResponse) : fnv1_RunFunctionResponse :=
  with_meta (ResponseMeta (Some tag) true default_ttl_seconds 0) rsp.

Section Handle.
Context `{N : Nanopb}.
Variable run_function : fnv1_RunFunctionRequest -> fnv1_RunFunctionResponse ->
  C (option bytes * fnv1_RunFunctionResponse).
(** The block of [fatal_response]'s static [result]. *)
Variable result_cell : Z.

Definition fatal_response (tag msg : bytes) : C fnv1_RunFunctionResponse :=
  k ← block_at (Some result_cell);
  match k with
  | ResultArr [r] =>
      _ ← set_block result_cell (ResultArr [Result fnv1_Severity_SEVERITY_FATAL (Some msg) (res_reason r)
                                              true fnv1_Target_TARGET_COMPOSITE]);
      mret (with_results (Some result_cell) 1 (set_meta tag fnv1_RunFunctionResponse_init_zero))
  | _ => stop UB
  end.

(** The buffer and [*out_len]. *)
Definition encode (rsp : fnv1_RunFunctionResponse) : C (option Z * Z) :=
  n ← pb_get_encoded_size rsp;
  match n with
  | None => mret (None, 0)
  | Some size =>
      buf ← malloc (if size =? 0 then 1 else size);
      match buf with
      | None => mret (None, 0)
      | Some b =>
          out ← pb_encode rsp size;
          match out with
          | None => mret (None, 0)
          | Some bs => _ ← put b 0 bs; mret (Some b, Z.of_nat (length bs))
          end
      end
  end.

Definition request_tag (req : fnv1_RunFunctionRequest) : bytes :=
  if rq_has_meta req then default [] (rq_meta_tag req) else [].

Definition wasmfn_handle (data : bytes) : C (option Z * Z) :=
  req ← pb_decode data;
  match req with
  | inr err =>
      msg ← sprintf_text (lit "cannot decode RunFunctionRequest: " ++ err);
      rsp ← fatal_response [] (default (lit "cannot decode RunFunctionRequest") msg);
      encode rsp
  | inl req =>
      let tag := request_tag req in
      '(err, rsp) ← run_function req (set_meta tag fnv1_RunFunctionResponse_init_zero);
      rsp ← match err with Some msg => fatal_response tag msg | None => mret rsp end;
      encode rsp
  end.

(** The world's [run]: the encoded response, or an error string in a list of
    its own. *)
Definition exports_function_run (request : list_u8) : C (result_t list_u8 list_u8) :=
  data ← list_bytes request;
  '(out, n) ← wasmfn_handle data;
  _ ← list_u8_free request;
  match out with
  | None => err ← string_dup (lit "cannot encode RunFunctionResponse"); mret (RErr err)
  | Some b => mret (ROk (Lu8 (Some b) n))
  end.

(** ** What it promises *)

Context `{F : WireFormat} `{!NanopbLaws N F}.
Context {e : env} {T : trap -> Prop}.

(** The static result has its block. *)
Definition has_cell (s : cst) : Prop := exists r, heap s !! result_cell = Some (ResultArr [r]).

(** A response that holds a message: none of its pointers dangles. *)
Definition readable (r : fnv1_RunFunctionResponse) (h : gmap Z block) : Prop :=
  exists m, response_of r h = Some m /\ typed_slots fnv1_RunFunctionResponse_msg m.

(** When [data] decodes, the function returns with what was there before
    decoding - the request's bytes, the static result - as it was, and with a
    response that can be encoded, or an error. *)
Definition well_behaved (data : bytes) (s : cst) : Prop := forall req s1,
  pb_decode data e s = Ok (inl req, s1) ->
  wp e T (run_function req (set_meta (request_tag req) fnv1_RunFunctionResponse_init_zero))
    (fun out s' => wf s' /\ heap s ⊆ heap s' /\ (denied s1 <= denied s')%nat /\
       (out.1 = None -> readable out.2 (heap s'))) s1.

Definition fatal_result (msg : bytes) (reason : option bytes) : fnv1_Result :=
  Result fnv1_Severity_SEVERITY_FATAL (Some msg) reason true fnv1_Target_TARGET_COMPOSITE.

(** A fresh response under [tag] with [msg] as its one, fatal, result. *)
Definition is_fatal (h : gmap Z block) (tag msg : bytes) (r : fnv1_RunFunctionResponse) : Prop :=
  r = with_results (Some result_cell) 1 (set_meta tag fnv1_RunFunctionResponse_init_zero) /\
  exists reason, h !! result_cell = Some (ResultArr [fatal_result msg reason]).

(** The response to [data]: what the function composed, or a fatal result when it
    failed or there was nothing to call it with. *)
Inductive answered (data : bytes) (s : cst) : fnv1_RunFunctionResponse -> cst -> Prop :=
  | answered_composed req s1 rsp s2 :
      pb_decode data e s = Ok (inl req, s1) ->
      run_function req (set_meta (request_tag req) fnv1_RunFunctionResponse_init_zero) e s1 = Ok ((None, rsp), s2) ->
      answered data s rsp s2
  | answered_failed req s1 msg left s2 rsp s3 :
      pb_decode data e s = Ok (inl req, s1) ->
      run_function req (set_meta (request_tag req) fnv1_RunFunctionResponse_init_zero) e s1
        = Ok ((Some msg, left), s2) ->
      heap_step s2 s3 -> is_fatal (heap s3) (request_tag req) msg rsp ->
      answered data s rsp s3
  | answered_undecodable err s1 msg rsp s2 :
      pb_decode data e s = Ok (inr err, s1) ->
      let text := lit "cannot decode RunFunctionRequest: " ++ err in
      msg = until_nul text \/
      (msg = lit "cannot decode RunFunctionRequest" /\
       ((denied s < denied s2)%nat \/ INT_MAX < Z.of_nat (length text))) ->
      heap_step s1 s2 -> is_fatal (heap s2) [] msg rsp ->
      answered data s rsp s2.

(** An output buffer with the bytes of the message [r] holds, or nothing when an
    allocation failed or they do not fit the memory. *)
Definition encoded (r : fnv1_RunFunctionResponse) (s : cst) (out : option Z * Z) (s' : cst) : Prop :=
  heap_step s s' /\ heap s ⊆ heap s' /\
  exists m, response_of r (heap s) = Some m /\ typed_slots fnv1_RunFunctionResponse_msg m /\
    let bs := format fnv1_RunFunctionResponse_msg m in
    match out with
    | (Some b, n) => exists pad, n = Z.of_nat (length bs) /\ parse fnv1_RunFunctionResponse_msg bs = Some m /\
        heap s !! b = None /\ heap s' !! b = Some (Bytes (map Some bs ++ pad)) /\ (bs <> [] -> pad = [])
    | (None, n) => n = 0 /\ (memory_size <= Z.of_nat (length bs) \/ (denied s < denied s')%nat)
    end.

(** A computation whose run is known. *)
Lemma wp_computed {A} (c : C A) (Q : A -> cst -> Prop) s a s' : c e s = Ok (a, s') -> Q a s' -> wp e T c Q s.
Proof. intros H HQ. unfold wp. by rewrite H. Qed.

Lemma wp_encode r s : wf s -> readable r (heap s) -> wp e T (encode r) (encoded r s) s.
Proof.
  intros Hs (m & Hm & Ht). destruct (encode_size e r m s Hm Ht) as (size & Hn & Hrange & Hsize). cbn zeta in Hsize.
  set (bs := format fnv1_RunFunctionResponse_msg m) in *.
  assert (forall s', heap_step s s' -> heap s ⊆ heap s' -> memory_size <= Z.of_nat (length bs) \/ (denied s < denied s')%nat ->
    encoded r s (None, 0) s') as Hno.
  { intros s' Hst Hsub Hd. split; [done|]. split; [done|]. exists m. by split_and!. }
  unfold encode. apply wp_bind. eapply wp_computed; [exact Hn|]. destruct size as [n|].
  2: { apply wp_ret, Hno; [by apply heap_step_refl|done|left]. destruct (decide (Z.of_nat (length bs) < memory_size)) as [H|]; [by apply Hsize in H|lia]. }
  specialize (Hrange n eq_refl). set (k := if n =? 0 then 1 else n).
  assert (0 < k /\ n <= k /\ (n <> 0 -> k = n)) as (Hk1 & Hk2 & Hk3).
  { unfold k. destruct (Z.eqb_spec n 0); split_and!; try lia; done. }
  eapply wp_seq; [by apply wp_malloc|]. intros [b|] s1 Ha; pose proof (allocated_heap _ _ _ _ Ha) as Hsub.
  2: { apply wp_ret. destruct Ha as [Hst [_ Hd]]. apply Hno; [done|done|by right]. }
  destruct Ha as [Hst (-> & Hf & _ & Hh)]. apply wp_bind. eapply wp_computed.
  { apply (encode_writes e r m _ s1 (steady_response r _ _ _ Hm Hsub) Ht), Hrange. }
  fold bs. destruct (Z.leb_spec (Z.of_nat (length bs)) n) as [Hle|Hlt].
  2: { apply wp_ret, Hno; [done|done|left].
       destruct (decide (Z.of_nat (length bs) < memory_size)) as [H|]; [|lia]. apply Hsize in H. injection H as H. lia. }
  assert (n = Z.of_nat (length bs)) as En.
  { assert (Z.of_nat (length bs) < memory_size) as H by lia. apply Hsize in H. congruence. }
  rewrite En in *.
  eapply wp_seq.
  { eapply wp_put; [apply Hst|rewrite Hh; apply lookup_insert_eq|lia|rewrite length_replicate; lia]. }
  intros [] s2 [Hst2 Hh2]. apply wp_ret. split; [by eapply heap_step_trans|].
  split; [rewrite Hh2, Hh; apply subseteq_insert_fresh; [by apply insert_subseteq|done]|].
  exists m. split; [done|]. split; [done|]. exists (drop (length bs) (replicate (Z.to_nat k) None)).
  split; [done|]. split; [apply parse_format; [done|apply Hrange]|]. split; [done|]. split.
  - rewrite Hh2, lookup_insert_eq. done.
  - intros Hne. apply drop_ge. assert (length bs <> 0%nat) by by rewrite length_zero_iff_nil.
    rewrite length_replicate, Hk3; lia.
Qed.

(** A response with one result, fatal. *)
Definition fatal_slots (tag msg : bytes) (reason : option bytes) : slots_t :=
  [[meta_of (ResponseMeta (Some tag) true 60 0)]; []; [result_of_response (fatal_result msg reason)];
   []; []; []; []].

Lemma fatal_slots_spec h tag msg r :
  is_fatal h tag msg r -> exists reason, response_of r h = Some (fatal_slots tag msg reason).
Proof.
  intros [-> [reason Hr]]. exists reason.
  assert (elements as_results 1 (Some result_cell) h = Some [fatal_result msg reason]) as E.
  { unfold elements. simpl. by rewrite Hr. }
  unfold response_of, mbind, reader_bind. cbn -[elements]. by rewrite E.
Qed.

Lemma typed_fatal tag msg reason : typed_slots fnv1_RunFunctionResponse_msg (fatal_slots tag msg reason).
Proof. by destruct reason. Qed.

Lemma fatal_readable h tag msg r : is_fatal h tag msg r -> readable r h.
Proof. intros [reason H]%fatal_slots_spec. eexists. split; [exact H|apply typed_fatal]. Qed.

Lemma wp_fatal_response tag msg s :
  wf s -> has_cell s ->
  wp e T (fatal_response tag msg) (fun r s' => heap_step s s' /\ is_fatal (heap s') tag msg r /\
    forall b, b <> result_cell -> heap s' !! b = heap s !! b) s.
Proof.
  intros Hs [r Hr]. eapply wp_seq; [by apply wp_block_at|]. intros ? ? [-> ->].
  eapply wp_seq; [by eapply wp_set_block|]. intros [] s1 [Hst Hh]. apply wp_ret. rewrite Hh. split_and!; [done| |].
  - split; [done|]. exists (res_reason r). apply lookup_insert_eq.
  - intros b Hb. by apply lookup_insert_ne.
Qed.

(** The blocks other than the static result's. *)
Definition others (h : gmap Z block) : gmap Z block := delete result_cell h.

Lemma others_weaken h h' b k : others h ⊆ h' -> b <> result_cell -> h !! b = Some k -> h' !! b = Some k.
Proof. intros Hsub Hb Hk. eapply lookup_weaken; [|exact Hsub]. unfold others. by rewrite lookup_delete_ne. Qed.

Lemma others_fatal s s1 s2 :
  heap s ⊆ heap s1 -> (forall b, b <> result_cell -> heap s2 !! b = heap s1 !! b) -> others (heap s) ⊆ heap s2.
Proof.
  intros Hsub Hfr. apply map_subseteq_spec. intros b k Hk. unfold others in Hk. apply lookup_delete_Some in Hk as [Hb Hk].
  rewrite Hfr by congruence. by eapply lookup_weaken.
Qed.

(** What [wasmfn_handle] leaves. *)
Definition handled (data : bytes) (s : cst) (out : option Z * Z) (s' : cst) : Prop :=
  wf s' /\ others (heap s) ⊆ heap s' /\
  exists rsp s1, answered data s rsp s1 /\ encoded rsp s1 out s' /\ (denied s <= denied s1)%nat /\
    (forall b, is_Some (heap s !! b) -> is_Some (heap s1 !! b)).

Lemma wp_reply data s rsp s1 :
  wf s1 -> others (heap s) ⊆ heap s1 -> is_Some (heap s1 !! result_cell) ->
  (denied s <= denied s1)%nat -> readable rsp (heap s1) -> answered data s rsp s1 ->
  wp e T (encode rsp) (handled data s) s1.
Proof.
  intros Hs Hsub Hc Hd Hrd Ha. eapply wp_mono; [by apply wp_encode|]. intros out s2 He.
  pose proof He as (Hst & Hh & _). split_and!; [apply Hst|by etransitivity|]. exists rsp, s1.
  split_and!; try done. intros b [k Hk]. destruct (decide (b = result_cell)) as [->|Hne]; [done|].
  exists k. by eapply others_weaken.
Qed.

Lemma wp_wasmfn_handle data s :
  wf s -> has_cell s -> well_behaved data s -> wp e T (wasmfn_handle data) (handled data s) s.
Proof.
  intros Hs [r0 Hcell] Hw. unfold wasmfn_handle. pose proof (decode_request e T data s Hs) as Hdec.
  apply wp_bind. unfold wp in Hdec |- *. destruct (pb_decode data e s) as [[[req|err] s1]|t] eqn:Ed; [| |done];
    destruct Hdec as (Hst & Hsub & _); change (match ?c ?e ?s with Ok (a, s') => ?Q a s' | Trap t => ?T t end) with (wp e T c Q s).
  - specialize (Hw req s1 Ed). apply wp_bind. unfold wp in Hw |- *.
    destruct (run_function _ _ e s1) as [[[err rsp] s2]|t] eqn:Er; [|done]. destruct Hw as (Hs2 & Hsub2 & Hd2 & Hrd).
    pose proof (hs_denied _ _ Hst).
    change (match ?c ?e ?s with Ok (a, s') => ?Q a s' | Trap t => ?T t end) with (wp e T c Q s).
    destruct err as [msg|].
    + eapply wp_seq; [apply wp_fatal_response; [done|]|].
      { exists r0. by eapply lookup_weaken. }
      intros rsp' s3 (Hst3 & Hf & Hfr). apply wp_reply; [apply Hst3|eapply others_fatal; [|exact Hfr]; done| | | |].
      * destruct Hf as [_ [reason Hr]]. by rewrite Hr.
      * pose proof (hs_denied _ _ Hst3). lia.
      * by eapply fatal_readable.
      * by eapply answered_failed.
    + apply wp_bind, wp_ret. apply wp_reply; [done| | |lia|by apply Hrd|by eapply answered_composed].
      * transitivity (heap s); [apply delete_subseteq|done].
      * exists (ResultArr [r0]). by eapply lookup_weaken.
  - eapply wp_seq; [apply wp_sprintf_text, Hst|]. intros msg s2 (Hst2 & Hsub2 & Hmsg).
    pose proof (hs_denied _ _ Hst). pose proof (hs_denied _ _ Hst2).
    eapply wp_seq; [apply wp_fatal_response; [apply Hst2|]|].
    { exists r0. eapply lookup_weaken; [|exact Hsub2]. by eapply lookup_weaken. }
    intros rsp' s3 (Hst3 & Hf & Hfr). pose proof (hs_denied _ _ Hst3).
    apply wp_reply; [apply Hst3|eapply others_fatal; [|exact Hfr]; by etransitivity| |lia|by eapply fatal_readable|].
    { destruct Hf as [_ [reason Hr]]. by rewrite Hr. }
    eapply answered_undecodable; [done| |exact (heap_step_trans _ _ _ Hst2 Hst3)|exact Hf]. destruct msg as [m|]; [by left|]. right. split; [done|].
    destruct Hmsg; [left; lia|by right].
Qed.
End Handle.

(** ** A whole call *)

(** The host's call of the export: the request is lowered into a list of the guest's,
    the result's bytes are taken and its list is given back by the post-return. *)
Section Machine.
Context `{N : Nanopb}.
Variable run_function : fnv1_RunFunctionRequest -> fnv1_RunFunctionResponse ->
  C (option bytes * fnv1_RunFunctionResponse).
Variable cell : Z.

Definition result_list (r : result_t list_u8 list_u8) : list_u8 := match r with ROk l | RErr l => l end.
Definition result_with {A B} (f : A -> B) (r : result_t A A) : result_t B B :=
  match r with ROk a => ROk (f a) | RErr a => RErr (f a) end.

Definition machine_call (data : bytes) : C (result_t bytes bytes) :=
  l ← cabi_lower data;
  r ← exports_function_run run_function cell l;
  bs ← list_bytes (result_list r);
  _ ← list_u8_free (result_list r);
  mret (result_with (fun _ => bs) r).
End Machine.
