(* ===== verification/WireHeapProps.v ===== *)
(** A wire format of nanopb's kind, to try the theorems on: Wire.v's encoding of
    messages, with a decoder that allocates as [alloc_request] does. It keeps the
    laws. *)
From S2P Require Import Prelude CString Proto Machine MachineLogic Codec Wire WireProps WireHeap WireFill WireRequest Handle.
From Stdlib Require Import Strings.Byte.

Definition wire_format : WireFormat := {| format := encode_message; parse := decode_message |}.

Definition wire_encoding (h : gmap Z block) (r : fnv1_RunFunctionResponse) : option bytes :=
  slots ← response_of r h;
  let bs := encode_message fnv1_RunFunctionResponse_msg slots in
  if typed (MESSAGE fnv1_RunFunctionResponse_msg) (VMsg slots) && (Z.of_nat (length bs) <? memory_size)
  then Some bs else None.
Definition wire_decode (bs : bytes) : C (fnv1_RunFunctionRequest + bytes) :=
  match decode_message fnv1_RunFunctionRequest_msg bs with
  | None => mret (inr (lit "invalid wire data"))
  | Some slots =>
      r ← alloc_request slots;
      mret match r with Some req => inl req | None => inr (lit "realloc failed") end
  end.
Definition wire_codec : Nanopb := {|
  pb_decode := wire_decode;
  pb_get_encoded_size r := fun _ s => Ok ((fun bs => Z.of_nat (length bs)) <$> wire_encoding (heap s) r, s);
  pb_encode r n := fun _ s =>
    Ok (bs ← wire_encoding (heap s) r; if Z.of_nat (length bs) <=? n then Some bs else None, s);
|}.

(** ** Decoding only allocates *)

(** Whatever the message. *)
Definition allocates {A} (c : C (option A)) : Prop := fills c (fun _ _ => True).

Lemma allocates_fills {A} (c : C (option A)) P : fills c P -> allocates c.
Proof. intros H. by eapply fills_weaken. Qed.
Lemma allocates_done {A} (a : A) : allocates (done a).
Proof. by apply fills_done. Qed.
Lemma allocates_and_then {A B} (c : C (option A)) (f : A -> C (option B)) :
  allocates c -> (forall a, allocates (f a)) -> allocates (and_then c f).
Proof. intros Hc Hf. by apply (fills_and_then _ _ _ (fun _ _ _ => True) _ Hc). Qed.
Lemma allocates_each {A B} (f : A -> C (option B)) l : (forall x, allocates (f x)) -> allocates (each f l).
Proof. intros Hf. eapply allocates_fills, (fills_each f (fun _ _ _ => True)); [intros x _; apply Hf|done]. Qed.

Create HintDb allocates.
#[export] Hint Resolve allocates_done allocates_and_then allocates_each : allocates.

Lemma allocates_request m : allocates (alloc_request m).
Proof.
  unfold alloc_request. pose proof (fun s => allocates_fills _ _ (fills_state s)).
  pose proof (fun s => allocates_fills _ _ (fills_struct s)).
  pose proof (fun x => allocates_fills _ _ (fills_required x)).
  pose proof (fun l => allocates_fills _ _ (fills_just_array RequiredArr l)). auto 12 with allocates.
Qed.

(** ** The laws *)

Lemma wire_encoding_is h r m :
  response_of r h = Some m -> typed_slots fnv1_RunFunctionResponse_msg m ->
  wire_encoding h r = let bs := encode_message fnv1_RunFunctionResponse_msg m in
                      if Z.of_nat (length bs) <? memory_size then Some bs else None.
Proof.
  intros Hm Ht. unfold wire_encoding. rewrite Hm. cbn [mbind option_bind]. unfold typed_slots in Ht. by rewrite Ht.
Qed.

Lemma wire_codec_laws : NanopbLaws wire_codec wire_format.
Proof.
  split.
  - intros e T bs s Hs. cbn [pb_decode wire_codec parse wire_format]. unfold wire_decode.
    destruct (decode_message fnv1_RunFunctionRequest_msg bs) as [slots|].
    2: { apply wp_ret. split_and!; [by apply heap_step_refl|done|by left]. }
    destruct (fits (MESSAGE fnv1_RunFunctionRequest_msg) (VMsg slots)) eqn:Hf.
    + eapply wp_seq; [by apply fills_request|]. intros r s' (Hst & Hsub & Hr). apply wp_ret.
      split_and!; [done..|]. destruct r as [req|]; [|by right]. by exists slots.
    + eapply wp_seq; [by apply allocates_request|]. intros r s' (Hst & Hsub & Hd). apply wp_ret.
      split_and!; [done..|]. destruct r as [req|]; [|by right]. exists slots. split; [done|]. congruence.
  - intros e r m s Hm Ht. cbn zeta. cbn [pb_get_encoded_size wire_codec format wire_format].
    rewrite (wire_encoding_is _ _ _ Hm Ht). cbn zeta. eexists. split; [done|].
    destruct (Z.ltb_spec (Z.of_nat (length (encode_message fnv1_RunFunctionResponse_msg m))) memory_size);
      (split; [intros n E; try discriminate E; injection E as <-; lia|intros; try done; exfalso; lia]).
  - intros e r m n s Hm Ht Hn bs. cbn [pb_encode wire_codec]. rewrite (wire_encoding_is _ _ _ Hm Ht).
    cbn [format wire_format] in bs. fold bs. cbn zeta.
    destruct (Z.ltb_spec (Z.of_nat (length bs)) memory_size); [done|]. cbn [mbind option_bind].
    destruct (Z.leb_spec (Z.of_nat (length bs)) n); [lia|done].
  - intros m Ht Hl. apply decode_encode; [done|]. unfold memory_size in Hl. cbn in Hl. lia.
Qed.
