(* ===== verification/HandleProps.v ===== *)
(** What the guest half of the contract promises: the buffers that cross the boundary
    have one owner, and what is returned is the bytes of what the response holds. *)
From S2P Require Import Prelude BindTypes CString Proto Machine MachineLogic Wasmfn WasmfnMem WasmfnSend WasmfnProps Codec Wire WireProps CodecProps WireHeap WireFill WireRequest Handle WireHeapProps.
From Stdlib Require Import Strings.Byte.

Section Handle.
Context `{N : Nanopb} `{F : WireFormat} `{!NanopbLaws N F}.
Variable run_function : fnv1_RunFunctionRequest -> fnv1_RunFunctionResponse ->
  C (option bytes * fnv1_RunFunctionResponse).
Variable result_cell : Z.
Context {e : env} {T : trap -> Prop}.

(** A function that keeps the response's meta when it succeeds. *)
Definition keeps_meta (data : bytes) (s : cst) : Prop := forall req s1,
  pb_decode data e s = Ok (inl req, s1) ->
  wp e (fun _ => True) (run_function req (set_meta (request_tag req) fnv1_RunFunctionResponse_init_zero))
    (fun r _ => r.1 = None -> has_meta r.2 = true /\
       meta r.2 = ResponseMeta (Some (request_tag req)) true default_ttl_seconds 0) s1.

Definition under_tag (tag : bytes) (r : fnv1_RunFunctionResponse) : Prop :=
  has_meta r = true /\ meta r = ResponseMeta (Some tag) true 60 0.

Lemma is_fatal_tag h tag msg r : is_fatal result_cell h tag msg r -> under_tag tag r.
Proof. by intros [-> _]. Qed.

Lemma answered_tag data s rsp s1 :
  keeps_meta data s -> answered (e := e) run_function result_cell data s rsp s1 ->
  exists tag, under_tag tag rsp /\
    forall req s0, pb_decode data e s = Ok (inl req, s0) -> tag = request_tag req.
Proof.
  intros Hk [req s0 rsp' s2 Hd Hr|req s0 msg left s2 rsp' s3 Hd Hr _ Hf|err s0 msg rsp' s2 Hd text _ _ Hf].
  - exists (request_tag req). split; [|congruence].
    specialize (Hk req s0 Hd). unfold wp in Hk. rewrite Hr in Hk. by apply Hk.
  - exists (request_tag req). split; [by eapply is_fatal_tag|congruence].
  - exists []. split; [by eapply is_fatal_tag|congruence].
Qed.

(** [rsp] is the answer to [data], under the tag of the request if it decodes. *)
Definition tagged_answer (data : bytes) (s : cst) (rsp : fnv1_RunFunctionResponse) (s1 : cst) : Prop :=
  answered (e := e) run_function result_cell data s rsp s1 /\
  exists tag, under_tag tag rsp /\ forall req s0, pb_decode data e s = Ok (inl req, s0) -> tag = request_tag req.

(** The request's buffer is gone, the other blocks are as they were, and what is
    returned has a buffer of its own. *)
Definition owned (request : list_u8) (data : bytes) (s : cst) (r : result_t list_u8 list_u8) (s' : cst) : Prop :=
  wf s' /\ (data <> [] -> forall b, u8_ptr request = Some b -> heap s' !! b = None) /\
  (forall b k, Some b <> u8_ptr request -> b <> result_cell -> heap s !! b = Some k -> heap s' !! b = Some k) /\
  exists rsp s1 m, tagged_answer data s rsp s1 /\ response_of rsp (heap s1) = Some m /\
    let bs := format fnv1_RunFunctionResponse_msg m in
    match r with
    | ROk l => parse fnv1_RunFunctionResponse_msg bs = Some m /\ exists b pad,
        l = Lu8 (Some b) (Z.of_nat (length bs)) /\ heap s !! b = None /\
        heap s' !! b = Some (Bytes (map Some bs ++ pad)) /\ (bs <> [] -> pad = [])
    | RErr l => holds s' l (lit "cannot encode RunFunctionResponse") /\
        (memory_size <= Z.of_nat (length bs) \/ (denied s < denied s')%nat)
    end.
End Handle.

(** The export, for any function that behaves. *)
Lemma wp_exports_function_run (N : Nanopb) (F : WireFormat) (L : NanopbLaws N F) run_function result_cell e
    (T : trap -> Prop) request data s :
  T Aborted -> wf s -> has_cell result_cell s -> holds s request data -> u8_ptr request <> Some result_cell ->
  well_behaved (e := e) (T := T) run_function data s -> keeps_meta (e := e) run_function data s ->
  wp e T (exports_function_run run_function result_cell request)
    (owned run_function result_cell (e := e) request data s) s.
Proof.
  intros HT Hs Hc Hreq Hap Hw Hmeta. unfold exports_function_run.
  eapply wp_seq; [by apply wp_list_bytes|]. intros ? ? [-> ->].
  eapply wp_seq; [by apply (wp_wasmfn_handle run_function result_cell (F := F))|].
  intros [out n] s2 (Hs2 & Hsub & rsp & s1 & Ha & (Hst & Hsub1 & m & Hm & _ & Henc) & Hd & Hlive). cbn zeta in Henc.
  set (bs := format fnv1_RunFunctionResponse_msg m) in *.
  pose proof (answered_tag _ _ _ _ _ _ Hmeta Ha) as Ht.
  assert (holds s2 request data) as Hreq2.
  { destruct Hreq as [Hl Hp]. split; [done|]. intros Hne. destruct (Hp Hne) as (b & Hb & Hk).
    exists b. split; [done|]. eapply others_weaken; [exact Hsub| |done]. congruence. }
  eapply wp_seq; [by apply (wp_list_u8_free request data)|]. intros [] s3 [Hst3 Hh3].
  assert (forall b, Some b <> u8_ptr request -> heap s3 !! b = heap s2 !! b) as Hfr3.
  { intros b Hb. rewrite Hh3. destruct data, (u8_ptr request); try done. by rewrite lookup_delete_ne by congruence. }
  assert (forall b, data <> [] -> u8_ptr request = Some b -> heap s3 !! b = None) as Hgone.
  { intros b Hne Hb. rewrite Hh3, Hb. destruct data; [done|]. apply lookup_delete_eq. }
  destruct out as [b|].
  - destruct Henc as (pad & -> & Hparse & Hf & Hb & Hpad). apply wp_ret.
    assert (heap s !! b = None) as Hfresh.
    { apply eq_None_not_Some. intros H. apply Hlive in H. rewrite Hf in H. by destruct H. }
    split_and!; [apply Hst3|by auto| |].
    + intros b' k Hb' Hne Hk. rewrite Hfr3 by done. by eapply others_weaken.
    + exists rsp, s1, m. split; [done|]. split; [done|]. split; [done|]. exists b, pad. split_and!; try done.
      destruct data as [|d0 data'] eqn:Ed; [by rewrite Hh3|].
      rewrite Hfr3; [done|]. intros E. destruct Hreq as [_ Hp].
      destruct Hp as (b' & Hb' & Hk); [done|]. congruence.
  - destruct Henc as [-> Henc]. eapply wp_seq; [apply (wp_string_dup HT), Hst3|].
    intros l s4 Hl. apply wp_ret. pose proof (lowered_subseteq _ _ _ _ Hl) as Hsub4.
    pose proof Hl as (Hst4 & _ & Hl').
    split_and!; [apply Hst4| | |].
    + intros Hne b Hb. destruct Hreq2 as [_ Hp]. destruct (Hp Hne) as (b0 & Hb0 & Hk).
      apply (wf_heap _ Hs2) in Hk. pose proof (hs_next _ _ Hst3). assert (b0 = b) as -> by congruence.
      pose proof (Hgone b Hne Hb) as Hg. destruct (u8_ptr l) as [b'|]; [|by destruct Hl' as [_ ->]].
      destruct Hl' as (_ & _ & ? & ->). by rewrite lookup_insert_ne by lia.
    + intros b' k Hb' Hne Hk. eapply lookup_weaken; [|exact Hsub4]. rewrite Hfr3 by done. by eapply others_weaken.
    + exists rsp, s1, m. split; [done|]. split; [done|]. split; [by eapply lowered_holds|].
      destruct Henc as [?|Hden]; [by left|right].
      pose proof (hs_denied _ _ Hst3). pose proof (hs_denied _ _ Hst4). lia.
Qed.

Lemma decode_step {N : Nanopb} {F : WireFormat} {L : NanopbLaws N F} e data s req s1 :
  wf s -> pb_decode data e s = Ok (inl req, s1) ->
  heap_step s s1 /\ heap s ⊆ heap s1 /\ exists slots, parse fnv1_RunFunctionRequest_msg data = Some slots /\
    (fits (MESSAGE fnv1_RunFunctionRequest_msg) (VMsg slots) = true -> request_back slots (heap s1 ∖ heap s) req).
Proof.
  intros Hs Hd. pose proof (decode_request e (fun _ => False) data s Hs) as H. unfold wp in H. by rewrite Hd in H.
Qed.

Lemma request_tag_back slots h req : request_back slots h req -> request_tag req = wire_tag slots.
Proof.
  intros [[Hh Ht] _ _ _ _ _]. unfold request_tag, wire_tag. rewrite Hh, Ht. by destruct (slot slots 0).
Qed.

(** The response a function is called with can be encoded as it is. *)
Lemma fresh_readable tag h : readable (set_meta tag fnv1_RunFunctionResponse_init_zero) h.
Proof. by exists [[meta_of (ResponseMeta (Some tag) true 60 0)]; []; []; []; []; []; []]. Qed.

(** Text that says why a request did not decode. *)
Lemma until_nul_prefix pre s : NUL ∉ pre -> until_nul (pre ++ s) = pre ++ until_nul s.
Proof.
  induction pre as [|b pre IH]; intros Hn; [done|]. simpl. rewrite decide_False by set_solver.
  by rewrite IH by set_solver.
Qed.

Lemma undecodable_text err msg (P : Prop) :
  msg = until_nul (lit "cannot decode RunFunctionRequest: " ++ err) \/
  (msg = lit "cannot decode RunFunctionRequest" /\ P) ->
  lit "cannot decode RunFunctionRequest" `prefix_of` msg.
Proof.
  intros [-> | [-> _]]; [|done].
  change (lit "cannot decode RunFunctionRequest: ") with (lit "cannot decode RunFunctionRequest" ++ lit ": ").
  rewrite <- app_assoc, until_nul_prefix; [by apply prefix_app_r|]. apply (bool_decide_unpack _). by vm_compute.
Qed.

(** ** A function and a request, to try the theorems on *)

(** A function that fails on the tag "bad". *)
Definition picky (req : fnv1_RunFunctionRequest) (rsp : fnv1_RunFunctionResponse)
    : C (option bytes * fnv1_RunFunctionResponse) :=
  mret (if bool_decide (rq_meta_tag req = Some (lit "bad")) then Some (lit "bad tag") else None, rsp).

Definition called_with (data : bytes) : cst :=
  Cst {[ 1 := ResultArr [fnv1_Result_zero]; 2 := Bytes (map Some data) ]} 3 ∅ ∅ 1 [] 0 0.

Lemma called_with_data_wf data :
  20 + Z.of_nat (length data) < memory_size -> wf (called_with data).
Proof.
  intros Hl. split; try done.
  - intros b k. unfold called_with. cbn [heap next]. rewrite lookup_insert, lookup_singleton.
    repeat case_decide; intros; simplify_eq; lia.
  - unfold called_with. cbn [heap]. rewrite heap_size_insert by by apply lookup_singleton_ne.
    rewrite <- insert_empty, heap_size_insert by done. change (heap_size ∅) with 0.
    cbn [block_size length]. rewrite length_map. lia.
Qed.

Lemma called_with_holds data : holds (called_with data) (Lu8 (Some 2) (Z.of_nat (length data))) data.
Proof. split; [done|]. by exists 2. Qed.

Lemma picky_behaves (N : Nanopb) (F : WireFormat) (L : NanopbLaws N F) e T s data :
  wf s -> well_behaved (e := e) (T := T) picky data s.
Proof.
  intros Hs req s1 H. destruct (decode_step _ _ _ _ _ Hs H) as (Hst & Hsub & _). apply wp_ret.
  split_and!; [apply Hst|done|done|]. intros _. apply fresh_readable.
Qed.

Lemma picky_meta (N : Nanopb) e s data : keeps_meta (e := e) picky data s.
Proof. intros req s1 _. by apply wp_ret. Qed.

Definition wire_data : bytes := encode_message fnv1_RunFunctionRequest_msg wire_request.

(** C10. The [run] export frees the request's buffer, and returns either a buffer of
    its own with exactly the bytes of the response's message, or the error text when
    they do not fit the memory or there is none; it never commits undefined behaviour,
    and stops only where [run_function] may or by [abort] for want of memory. *)
Theorem run_export_owns (N : Nanopb) (F : WireFormat) (L : NanopbLaws N F) run_function result_cell e
    (T : trap -> Prop) request data s :
  T Aborted -> wf s -> has_cell result_cell s -> holds s request data -> u8_ptr request <> Some result_cell ->
  well_behaved (e := e) (T := T) run_function data s -> keeps_meta (e := e) run_function data s ->
  wp e T (exports_function_run run_function result_cell request)
    (owned run_function result_cell (e := e) request data s) s.
Proof. by apply wp_exports_function_run. Qed.

Lemma run_export_owns_witness :
  match exports_function_run (N := wire_codec) picky 1 (Lu8 (Some 2) (Z.of_nat (length wire_data))) kind_env (called_with wire_data) with
  | Ok (ROk (Lu8 (Some b) _), s) => heap s !! 2 = None /\ is_Some (heap s !! b)
  | _ => False
  end /\
  wp kind_env only_memory (exports_function_run (N := wire_codec) picky 1 (Lu8 (Some 2) (Z.of_nat (length wire_data))))
    (owned (N := wire_codec) (F := wire_format) picky 1 (e := kind_env) (Lu8 (Some 2) (Z.of_nat (length wire_data))) wire_data
       (called_with wire_data)) (called_with wire_data).
Proof.
  split; [vm_compute; split; [reflexivity|eexists; reflexivity]|].
  assert (wf (called_with wire_data)) as Hs by by apply called_with_data_wf; vm_compute.
  apply (run_export_owns wire_codec wire_format wire_codec_laws picky 1 kind_env only_memory _
           wire_data (called_with wire_data) eq_refl Hs).
  - by eexists.
  - apply called_with_holds.
  - discriminate.
  - apply (picky_behaves wire_codec wire_format wire_codec_laws _ _ _ _ Hs).
  - apply picky_meta.
Defined.
