(* ===== verification/GuestCall.v ===== *)
(** A whole call of the guest as the host makes it: the request lowered into linear
    memory, the [run] export with the shim of function.c around the
    [exports_function_run] of wasmfn.c, the result lifted out of it, and the
    post-return. What comes of it is what the machine of Handle.v does. *)
From S2P Require Import Prelude LinMem BindTypes CanonAbi BindLift Imports BindLower BindFree BindFreeSpec BindFreeList BindString BindExport CString Proto Machine MachineLogic Wasmfn WasmfnMem WasmfnSend BindMachine Placement Linked WasmfnProps LinkedProps Codec Handle HandleProps.
From Stdlib Require Import Strings.Byte.

(** ** The guest over linear memory *)

Section Guest.
Context {W : Type}.
(** [wasmfn_handle] as it is compiled: the address and length of the request to
    [out], NULL or the address of the response, and [n]. *)
Variable wasmfn_handle : Z -> Z -> guest W (Z * Z).
(** The addresses of the literal "cannot encode RunFunctionResponse" and of
    [RET_AREA]. *)
Variable cannot_encode RET_AREA : Z.

Definition exports_function_run (request : function_list_u8_t) : guest W (result_t function_list_u8_t function_string_t) :=
  '(out, n) ← wasmfn_handle (lu8_ptr request) (lu8_len request);
  _ ← function_list_u8_free request;
  if out =? 0 then err ← function_string_dup cannot_encode; mret (RErr err)
  else mret (ROk (ListU8 out n)).

(** ** The host's side of the call, by the Canonical ABI *)

Definition lift_value (v : wval) : reader (result_t bytes bytes) := fun m =>
  match v with
  | WCase 0 (Some (WPtrLen p n)) => bs ← read_bytes m p (Z.to_nat n); Ok (ROk bs)
  | WCase 1 (Some (WPtrLen p n)) => bs ← read_bytes m p (Z.to_nat n); Ok (RErr bs)
  | _ => Trap HostTrap
  end.
Definition lift_run_result (p : Z) : guest W (result_t bytes bytes) :=
  reading (v ← canon_load run_result_ty p; lift_value v).

Definition call_run (data : bytes) : guest W (result_t bytes bytes) :=
  p ← lower_bytes data;
  r ← __wasm_export_exports_function_run RET_AREA exports_function_run p (Z.of_nat (length data));
  v ← lift_run_result r;
  _ ← __wasm_export_exports_function_run_post_return r;
  mret v.
End Guest.

(** ** The glue, side by side *)

Section Refine.
Context {W : Type} (host_answers : list event -> forall o, ans o).
Context (fixed : gmap Z (option byte)) (own : gset Z) (world : list event -> gmap Z hentry -> W -> Prop).
Context (N : Nanopb).
Context (run_function : fnv1_RunFunctionRequest -> fnv1_RunFunctionResponse -> C (option bytes * fnv1_RunFunctionResponse)).
Context (cell : Z) (handle : Z -> Z -> guest W (Z * Z)) (cannot_encode RET_AREA : Z).

Abbreviation twin := (twin host_answers).
Abbreviation points := (points own).
Abbreviation linked := (linked fixed own world).
Abbreviation keeps := (keeps fixed own world).
Abbreviation at_list := (at_list own).
Abbreviation with_grants := (env_of host_answers).

(** The compiled [wasmfn_handle] does what the machine's does, wherever that is
    defined: the same bytes in memory, the same calls, a response in a block of the
    same content. *)
Definition compiled : Prop := forall j s x l data p n,
  linked j s x -> holds s l data -> at_list j l p n ->
  (forall gr, wp (with_grants gr) (fun t => t <> UB) (wasmfn_handle run_function cell data) (fun _ _ => True) s) ->
  twin (wasmfn_handle run_function cell data) (handle p n)
    (keeps j (fun j' out _ r => r.2 = out.2 /\ points j' out.1 r.1)) s x.

(** What the glue needs of [wasmfn_handle]'s result: a new block that is all the
    response. *)
Definition returned (s : cst) (out : option Z * Z) (s' : cst) : Prop :=
  wf s' /\ others cell (heap s) ⊆ heap s' /\
  match out with
  | (Some b, n) => heap s !! b = None /\ exists bs pad,
      n = Z.of_nat (length bs) /\ heap s' !! b = Some (Bytes (map Some bs ++ pad)) /\ (bs <> [] -> pad = [])
  | (None, _) => True
  end.

(** So it is for every function that behaves. *)
Lemma behaves_returned {F : WireFormat} {L : NanopbLaws N F} e (T : trap -> Prop) data s :
  wf s -> has_cell cell s -> well_behaved (e := e) (T := T) run_function data s ->
  wp e T (wasmfn_handle run_function cell data) (returned s) s.
Proof.
  intros Hs Hc Hw. eapply wp_mono; [by apply (wp_wasmfn_handle run_function cell)|].
  intros out s' (Hs' & Hsub & rsp & s1 & _ & (_ & _ & m & _ & _ & Henc) & _ & Hlive). split; [done|]. split; [done|].
  destruct out as [[b|] n]; [|done]. destruct Henc as (pad & -> & _ & Hf & Hb & Hpad).
  split; [|by eexists _, pad]. apply eq_None_not_Some. intros H. apply Hlive in H. rewrite Hf in H. by destruct H.
Qed.

(** A result and the result it is in memory. *)
Definition at_result (j : gmap Z Z) (r : result_t list_u8 list_u8) (r' : result_t function_list_u8_t function_string_t) : Prop :=
  is_err r = is_err r' /\ at_list j (result_list r) (result_ptr r') (result_len r').

Definition holds_result (s : cst) (r : result_t list_u8 list_u8) : Prop := exists bs, holds s (result_list r) bs.

(** What is returned, and that it is a 32-bit pointer and size. *)
Definition result_ok (j : gmap Z Z) (r : result_t list_u8 list_u8) (s' : cst) (r' : result_t function_list_u8_t function_string_t) : Prop :=
  at_result j r r' /\ holds_result s' r /\ result_range r'.

Lemma block_range j s x b k a :
  linked j s x -> heap s !! b = Some k -> points j (Some b) a -> 0 < a < 2 ^ 32 /\ 0 <= block_size k < 2 ^ 32.
Proof.
  intros [P _] Hb Hp. destruct (placed_at _ _ _ _ _ _ _ _ P Hb Hp) as [Ha Hk]. pose proof (pl_tidy _ _ _ _ _ P) as Ht.
  apply (ok_blocks _ (td_ok _ Ht)) in Hk. pose proof (td_room _ Ht) as [? Hm]. change memory_size with (2 ^ 32) in Hm. lia.
Qed.

(** ** The export's function *)

Section Run.
Context (Hcompiled : compiled) (Hliteral : constant fixed cannot_encode (lit "cannot encode RunFunctionResponse")).
Context (T : trap -> Prop) (HT : ~ T UB).

(** What is returned when the request's buffer is gone. *)
Lemma answer_twin j s s2 s3 x3 out n p request data :
  linked j s3 x3 -> returned s (out, n) s2 -> points j out p -> holds s request data ->
  heap s3 = match data, u8_ptr request with _ :: _, Some b => delete b (heap s2) | _, _ => heap s2 end ->
  twin (match out with
        | None => err ← string_dup (lit "cannot encode RunFunctionResponse"); mret (RErr err)
        | Some b => mret (ROk (Lu8 (Some b) n))
        end)
    (if p =? 0 then err ← function_string_dup cannot_encode; mret (RErr err) else mret (ROk (ListU8 p n)))
    (keeps j result_ok) s3 x3.
Proof.
  intros HL (_ & _ & Hout) Hp [_ Hh] Hheap. destruct out as [b|].
  - destruct Hout as (Hf & bs & pad & -> & Hb & Hpad).
    assert (heap s3 !! b = Some (Bytes (map Some bs ++ pad))) as Hb3.
    { rewrite Hheap. destruct data as [|d ds]; [done|]. destruct (u8_ptr request) as [q|] eqn:Eq; [|done].
      rewrite lookup_delete_ne; [done|]. intros ->. destruct (Hh ltac:(done)) as (b' & [= ->] & Hk). congruence. }
    destruct (block_range _ _ _ _ _ _ HL Hb3 Hp) as [Ha Hk]. cbn [block_size] in Hk. rewrite length_app, length_map in Hk.
    rewrite (proj2 (Z.eqb_neq p 0)) by lia. apply twin_ret. exists j. split; [done|]. split; [done|].
    split; [by split|split; [|split; cbn; lia]].
    exists bs. split; [done|]. intros Hne. exists b. split; [done|]. by rewrite Hb3, Hpad, app_nil_r.
  - cbn in Hp. subst p. destruct x3 as [m3 w3]. eapply twin_seq; [apply (twin_string_dup host_answers fixed own world); [done|by apply constant_in]|].
    intros l s4 r x4 (j4 & Hj & HL4 & Hl & Hr). apply lowered_holds in Hl. apply twin_ret. exists j4.
    split; [done|]. split; [done|]. split; [by split|]. split; [by eexists|].
    destruct Hl as [Hn Hl]. destruct (Hl ltac:(done)) as (b & Hb & Hk). destruct Hr as [Hr1 Hr2].
    rewrite Hn in Hr1. rewrite Hb in Hr2. unfold result_range. cbn [result_ptr result_len]. rewrite <- Hr1.
    destruct (block_range _ _ _ _ _ _ HL4 Hk (Hr2 ltac:(by rewrite <- Hr1))) as [? _]. cbn. lia.
Qed.

Lemma run_twin j s x request data p n :
  linked j s x -> holds s request data -> at_list j request p n -> u8_ptr request <> Some cell ->
  (forall gr, wp (with_grants gr) T (wasmfn_handle run_function cell data) (returned s) s) ->
  twin (Handle.exports_function_run run_function cell request)
    (exports_function_run handle cannot_encode (ListU8 p n))
    (keeps j result_ok) s x.
Proof.
  intros HL Hreq Hp Hne Hwp.
  eapply (twin_eq _ ('(out, n) ← wasmfn_handle run_function cell data; _ ← list_u8_free request;
     match out with
     | None => err ← string_dup (lit "cannot encode RunFunctionResponse"); mret (RErr err)
     | Some b => mret (ROk (Lu8 (Some b) n)) end)); [| |done].
  - eapply twin_seq.
    { eapply twin_wp; [|exact Hwp]. apply (Hcompiled j s x request data p n HL Hreq Hp). intros gr.
      specialize (Hwp gr). unfold wp in Hwp |- *. destruct (wasmfn_handle _ _ _ _ _) as [[]|t]; [done|]. by intros ->. }
    intros [out k] s2 [a k'] x2 [(j2 & Hj2 & HL2 & [= ->] & Hpa) Hret].
    assert (holds s2 request data) as Hreq2.
    { destruct Hreq as [Hl Hp']. split; [done|]. intros Hd. destruct (Hp' Hd) as (b & Hb & Hk).
      exists b. split; [done|]. eapply others_weaken; [apply Hret| |done]. congruence. }
    eapply twin_seq; [apply (twin_list_u8_free host_answers fixed own world j2 s2 x2 request data); [done|done|by eapply at_list_grow]|].
    intros [] s3 [] x3 (j3 & Hj3 & HL3 & Hh3 & _).
    cbn [fst snd] in *. eapply twin_mono; [apply (answer_twin j3 s s2 s3 x3 out k a request data); try done; by eapply points_grow|].
    intros r s4 r' x4 (j4 & Hj4 & HL4 & ?). exists j4. split; [by do 2 (etransitivity; [done|])|done].
  - intros e. unfold Handle.exports_function_run, mbind, C_bind.
    by rewrite (wp_run e (list_bytes request) data s s (wp_list_bytes request data s Hreq)).
Qed.

(** ** The shim and the lifting *)

(** The static area of the shim. *)
Context (Harea : forall x, range RET_AREA 12 x -> fixed !! x = Some None).

Lemma linked_area j s m m' w :
  linked j s (m, w) -> released (range RET_AREA 12) [] m m' ->
  (forall x, is_Some (cells m !! x) -> is_Some (cells m' !! x)) -> linked j s (m', w).
Proof.
  intros [P Hw] R Hpres. split; [|done]. cbn [fst] in *.
  assert (blocks m' = blocks m) as Hb.
  { apply map_eq. intros q. rewrite (rl_blocks _ _ _ _ R). by rewrite decide_False by apply not_elem_of_nil. }
  assert (exists c, m' = set_cells c m) as [c ->].
  { pose proof (rl_brk _ _ _ _ R). pose proof (rl_limit _ _ _ _ R). exists (cells m'). destruct m, m'. unfold set_cells. cbn in *. congruence. }
  assert (forall a, ~ range RET_AREA 12 a -> c !! a = cells m !! a) as Hrest
    by (intros a Ha; exact (released_nil_rest _ _ _ _ R Ha)).
  cbn [cells set_cells] in Hpres. destruct P. split; cbn [blocks brk cells set_cells]; try done.
  - apply tidy_cells; [done|]. intros x. split; [|apply Hpres]. intros Hx. apply not_eq_None_Some. intros Hn.
    apply (rl_absent _ _ _ _ R) in Hn. cbn in Hn. rewrite Hn in Hx. by destruct Hx.
  - intros b cs a i v Hbk Ho Hj Hi. rewrite Hrest; [by eapply pl_bytes|]. intros Hx.
    destruct (pl_fixed _ _ (Harea _ Hx)) as [Hn _]. destruct (pl_block _ _ Hbk Ho) as (a' & Hj' & _ & Hk).
    apply (Hn a' _ Hk). assert (a' = a) as -> by congruence. apply lookup_lt_Some in Hi. unfold range. cbn. lia.
  - intros x o Hx. destruct (pl_fixed _ _ Hx) as [Hn Hc]. split; [done|]. destruct o; [|by apply Hpres].
    rewrite Hrest; [done|]. intros H. rewrite (Harea _ H) in Hx. done.
Qed.

(** The result as the shim stores it. *)
Definition stored (m : wmem) (r : result_t function_list_u8_t function_string_t) : Prop :=
  load 1 m RET_AREA = Ok (Z.of_nat (result_tag r)) /\ load 4 m (RET_AREA + 4) = Ok (result_ptr r) /\
  load 4 m (RET_AREA + 8) = Ok (result_len r).

Lemma linked_area_ok j s x : linked j s x -> area_ok RET_AREA x.1.
Proof.
  intros [P _]. split; intros a Ha; destruct (pl_fixed _ _ _ _ _ P a None (Harea a Ha)) as [Hn Hc]; [done|].
  intros (p & n & Hp & Hr). by apply (Hn p n).
Qed.

Lemma export_twin {A} (c : C A) (Q : gmap Z Z -> A -> cst -> result_t function_list_u8_t function_string_t -> Prop) run j s x p n :
  twin c (run (ListU8 p n)) (keeps j (fun j' a s' r' => Q j' a s' r' /\ result_range r')) s x ->
  twin c (__wasm_export_exports_function_run RET_AREA run p n)
    (fun a s' q x' => q = RET_AREA /\ exists j' r', j ⊆ j' /\ linked j' s' x' /\ Q j' a s' r' /\ stored x'.1 r') s x.
Proof.
  unfold twin, Placement.twin. intros H. destruct (run (ListU8 p n) x) as [[r' [m1 w1]]|t] eqn:Er.
  - destruct H as (a & s' & gr & Hle & (j' & Hj & HL & HQ & Hr) & Hc).
    destruct (export_stores RET_AREA run p n x r' m1 w1 Er (linked_area_ok _ _ _ HL) Hr) as (m2 & E & R & Hpres & Hst).
    rewrite E. exists a, s', gr. split; [done|]. split; [|done]. split; [done|]. exists j', r'.
    split; [done|]. split; [by eapply linked_area|]. by split.
  - unfold __wasm_export_exports_function_run, mbind, guest_bind. by rewrite Er.
Qed.

Lemma lift_stored m (w : W) r :
  stored m r -> lift_run_result RET_AREA (m, w) =
    (bs ← reading (fun m => read_bytes m (result_ptr r) (Z.to_nat (result_len r)));
     mret (if is_err r then RErr bs else ROk bs)) (m, w).
Proof.
  intros (L1 & L2 & L3). pose proof (canon_load_result m RET_AREA r L1 L2 L3) as E.
  unfold lift_run_result, reading, mbind, reader_bind, guest_bind. rewrite E. cbn [mbind outcome_bind].
  unfold lift_value, result_value, result_tag. destruct (is_err r);
    by destruct (read_bytes m (result_ptr r) (Z.to_nat (result_len r))).
Qed.

(** The host takes the result and gives its buffer back. *)
Lemma taken_twin j s x r r' :
  linked j s x -> at_result j r r' -> holds_result s r -> stored x.1 r' ->
  twin (bs ← list_bytes (result_list r); _ ← list_u8_free (result_list r); mret (result_with (fun _ => bs) r))
    (v ← lift_run_result RET_AREA; _ ← __wasm_export_exports_function_run_post_return RET_AREA; mret v)
    (keeps j (fun _ v _ v' => v' = v)) s x.
Proof.
  intros HL [Htag Hp] [bs Hh] Hst. destruct x as [m w]. cbn [fst] in Hst.
  set (p := result_ptr r') in *. set (n := result_len r') in *.
  eapply (twin_eq _ _ _ (bs ← reading (fun m => read_bytes m p (Z.to_nat n)); _ ← (if 0 <? n then g_free p else mret tt);
     mret (if is_err r' then RErr bs else ROk bs))); [|done|].
  - eapply twin_seq; [by eapply twin_list_bytes|]. intros ? s1 ? x1 (j1 & Hj1 & HL1 & -> & -> & ->).
    eapply twin_seq; [eapply twin_list_free; [done|done|by eapply at_list_grow]|].
    intros [] s2 [] x2 (j2 & Hj2 & HL2 & _). apply twin_ret. exists j2. split; [by etransitivity|]. split; [done|].
    rewrite <- Htag. by destruct r.
  - unfold mbind, guest_bind. rewrite (lift_stored m w r' Hst). destruct Hst as (L1 & L2 & L3).
    unfold mbind, guest_bind, reading. fold p n. destruct (read_bytes m p (Z.to_nat n)) as [bs'|t]; [|done].
    cbn [mbind outcome_bind mret guest_ret]. unfold mret, guest_ret. cbv beta iota.
    by rewrite (post_return_is RET_AREA m w r' L1 L2 L3).
Qed.

(** ** The whole call *)

Lemma call_twin j s x data :
  linked j s x -> has_cell cell s ->
  (forall gr s1, heap_step s s1 -> heap s ⊆ heap s1 ->
     wp (with_grants gr) T (wasmfn_handle run_function cell data) (returned s1) s1) ->
  twin (machine_call run_function cell data) (call_run handle cannot_encode RET_AREA data)
    (keeps j (fun _ v _ v' => v' = v)) s x.
Proof.
  intros HL [r Hc] Hw. destruct x as [m w]. unfold machine_call, call_run, lower_bytes.
  eapply twin_seq; [by apply (twin_lower host_answers fixed own world j)|].
  intros l s1 p x1 (j1 & Hj1 & HL1 & Hl & Hp). pose proof (lowered_subseteq _ _ _ _ Hl) as Hsub.
  eapply twin_seq.
  { apply (export_twin _ (fun j' r s' r' => at_result j' r r' /\ holds_result s' r) _ j1).
    eapply twin_mono; [eapply run_twin; [exact HL1|by eapply lowered_holds|exact Hp| |]|].
    - destruct Hl as (_ & _ & Hl). intros E. rewrite E in Hl. destruct Hl as (_ & Hf & _). congruence.
    - intros gr. apply Hw; [apply Hl|done].
    - intros r1 s2 r2 x2 (j2 & ? & ? & Ha & ? & ?). by exists j2. }
  intros r1 s2 q x2 (-> & j2 & r2 & Hj2 & HL2 & [Ha Hh] & Hst).
  eapply twin_mono; [by eapply taken_twin|]. intros v s3 v' x3 (j3 & Hj3 & HL3 & ->). exists j3.
  split; [by do 2 (etransitivity; [done|])|done].
Qed.
End Run.
End Refine.

(** C20. The host's call of [run] through linear memory - the request lowered with
    cabi_realloc, the shim's export, [exports_function_run] with the bindings' own
    [_free] and [dup], the result lifted from the return area, the post-return - is
    the machine's call for the allocations that memory has room for: the same
    response or error, the same calls of the host, the same trap; and what is left
    in memory is what the machine's heap holds, each block where it was: the
    request's and the result's buffers are gone, and nothing else of the shim stays.
    It holds for every [wasmfn_handle] compiled as the machine runs it, wherever the
    machine's is safe and gives back a buffer of its own ([behaves_returned]: as it
    does with every function that behaves). *)
Theorem call_refines_machine {W} host_answers fixed own (world : list event -> gmap Z hentry -> W -> Prop)
    (N : Nanopb) run_function cell handle cannot_encode RET_AREA (T : trap -> Prop) j s x data :
  compiled host_answers fixed own world N run_function cell handle ->
  constant fixed cannot_encode (lit "cannot encode RunFunctionResponse") ->
  (forall a, range RET_AREA 12 a -> fixed !! a = Some None) ->
  linked fixed own world j s x -> has_cell cell s -> ~ T UB ->
  (forall gr s1, heap_step s s1 -> heap s ⊆ heap s1 ->
     wp (env_of host_answers gr) T (wasmfn_handle run_function cell data) (returned cell s1) s1) ->
  exists gr, match call_run handle cannot_encode RET_AREA data x with
  | Ok (v, x') => exists s' j', machine_call run_function cell data (env_of host_answers gr) s = Ok (v, s') /\
      j ⊆ j' /\ linked fixed own world j' s' x'
  | Trap t => machine_call run_function cell data (env_of host_answers gr) s = Trap t
  end.
Proof.
  intros Hc Hlit Harea HL Hcell HT Hw.
  destruct (twin_run _ _ _ _ _ _ (call_twin host_answers fixed own world N run_function cell handle cannot_encode RET_AREA
    Hc Hlit T HT Harea j s x data HL Hcell Hw)) as [gr H].
  exists gr. destruct (call_run handle cannot_encode RET_AREA data x) as [[v x']|t]; [|done].
  destruct H as (v' & s' & Hr & j' & Hj & HL' & ->). by exists s', j'.
Qed.

(** ** A guest to call *)

(** Every request decodes to its bytes as the tag; a response is encoded as its tag. *)
Definition tag_request (bs : bytes) : fnv1_RunFunctionRequest :=
  Request true (Some bs) false fnv1_State_init_zero false fnv1_State_init_zero false
    google_protobuf_Struct_init_zero 0 None.
Definition copy_codec : Nanopb := {|
  pb_decode bs := mret (inl (tag_request bs));
  pb_get_encoded_size r := mret ((fun out : bytes => Z.of_nat (length out)) <$> tag (meta r));
  pb_encode r n := mret (match tag (meta r) with
                         | Some bs => if Z.of_nat (length bs) <=? n then Some bs else None
                         | None => None end);
|}.

Definition accepts (req : fnv1_RunFunctionRequest) (rsp : fnv1_RunFunctionResponse)
    : C (option bytes * fnv1_RunFunctionResponse) := mret (None, rsp).

(** The whole of [wasmfn_handle] with them, as C. *)
Definition copy_handle (p n : Z) : guest unit (Z * Z) :=
  q ← g_malloc (if n =? 0 then 1 else n);
  if q =? 0 then mret (0, 0) else _ ← g_memcpy q p n; mret (q, n).

Definition copy_machine (data : bytes) : C (option Z * Z) :=
  p ← Machine.malloc (if Z.of_nat (length data) =? 0 then 1 else Z.of_nat (length data));
  match p with None => mret (None, 0) | Some b => _ ← put b 0 data; mret (Some b, Z.of_nat (length data)) end.

Lemma copy_machine_is data e s : wasmfn_handle (N := copy_codec) accepts 1 data e s = copy_machine data e s.
Proof.
  unfold wasmfn_handle, copy_machine, encode, mbind, C_bind, mret, C_ret. cbn.
  destruct (Machine.malloc _ e s) as [[[b|] s1]|t]; [|done..]. by rewrite Z.leb_refl.
Qed.

Lemma copy_compiled host_answers fixed own :
  compiled host_answers fixed own no_world copy_codec accepts 1 copy_handle.
Proof.
  intros j s [m w] l data p n HL Hh [Hn Hp] _. pose proof Hh as [Hlen Hd].
  assert (n = Z.of_nat (length data)) as -> by congruence.
  eapply (twin_eq _ (copy_machine data)); [|intros e; apply copy_machine_is|done].
  set (k := if Z.of_nat (length data) =? 0 then 1 else Z.of_nat (length data)).
  assert (0 <= k /\ Z.of_nat (length data) <= k) as [Hk Hk'] by (subst k; case_match; lia).
  eapply twin_seq; [by apply twin_malloc|]. intros q s1 a [m1 w1] (j1 & Hj1 & HL1 & Ha & Hgot).
  destruct q as [b|]; [|cbn in Ha; subst a; apply twin_ret; by exists j1].
  destruct Hgot as (-> & Hpos & ->). rewrite (proj2 (Z.eqb_neq a 0)) by lia.
  assert (read_bytes m1 p (Z.to_nat (Z.of_nat (length data))) = Ok data) as Hr.
  { rewrite Nat2Z.id. destruct (decide (data = [])) as [->|Hne]; [done|]. destruct (Hd Hne) as (b' & Hb' & Hk1).
    rewrite <- (Z.add_0_r p). destruct HL1 as [P1 _]. eapply placed_read; [exact P1| | |lia| |done].
    - cbn. rewrite lookup_insert_ne; [exact Hk1|]. destruct HL as [P _].
      apply (wf_heap _ (pl_wf _ _ _ _ _ P)) in Hk1. lia.
    - eapply points_grow; [|exact Hj1]. rewrite <- Hb'. apply Hp. destruct data; [done|cbn; lia].
    - rewrite drop_0, take_ge; [done|]. rewrite length_map. lia. }
  eapply twin_seq.
  - eapply (twin_eq _ (put (next s) 0 data) _ (updating (fun m => write_bytes m (a + 0) data))); [|done|].
    + eapply (twin_put _ _ _ _ j1); [exact HL1|apply lookup_insert_eq|exact Ha|lia|]. rewrite length_replicate. lia.
    + unfold g_memcpy, updating. by rewrite Hr, Z.add_0_r.
  - intros [] s2 [] x2 (j2 & Hj2 & HL2 & _). apply twin_ret. exists j2. split; [by etransitivity|]. split; [done|].
    split; [done|]. by eapply points_grow.
Qed.

Lemma copy_returned e data s :
  wf s -> wp e only_memory (wasmfn_handle (N := copy_codec) accepts 1 data) (returned 1 s) s.
Proof.
  intros Hs. unfold wp. rewrite copy_machine_is. change (wp e only_memory (copy_machine data) (returned 1 s) s).
  unfold copy_machine. set (k := if Z.of_nat (length data) =? 0 then 1 else Z.of_nat (length data)).
  assert (0 < k /\ Z.of_nat (length data) <= k /\ (data <> [] -> k = Z.of_nat (length data))) as (Hk1 & Hk2 & Hk3).
  { subst k. destruct data; [done|]. case_match; cbn in *; split_and!; try done; lia. }
  eapply wp_seq; [by apply wp_malloc|]. intros [b|] s1 Ha; pose proof (allocated_heap _ _ _ _ Ha) as Hsub.
  2: { apply wp_ret. destruct Ha as [Hst _]. split; [apply Hst|]. split; [|done]. etransitivity; [apply delete_subseteq|done]. }
  destruct Ha as [Hst (-> & Hf & _ & Hh)].
  eapply wp_seq.
  { eapply wp_put; [apply Hst|rewrite Hh; apply lookup_insert_eq|lia|rewrite length_replicate; lia]. }
  intros [] s2 [Hst2 Hh2]. apply wp_ret. split; [apply Hst2|]. split.
  - etransitivity; [apply delete_subseteq|]. rewrite Hh2, Hh. apply subseteq_insert_fresh; [by apply insert_subseteq|done].
  - split; [done|]. exists data, (drop (length data) (replicate (Z.to_nat k) None)). split; [done|].
    split; [by rewrite Hh2, lookup_insert_eq|]. intros Hne. apply drop_ge. rewrite length_replicate, (Hk3 Hne). lia.
Qed.

Lemma call_refines_machine_witness :
  match call_run copy_handle 1048 1024 (lit "hi") (guest_memory, tt) with
  | Ok (v, (m, _)) => v = ROk (lit "hi") /\ blocks m = ∅
  | Trap _ => False
  end /\
  exists gr, match call_run copy_handle 1048 1024 (lit "hi") (guest_memory, tt) with
  | Ok (v, x') => exists s' j', machine_call (N := copy_codec) accepts 1 (lit "hi") (env_of (answers kind_env) gr) guest_state = Ok (v, s') /\
      ∅ ⊆ j' /\ linked (cells guest_memory) (dom (heap guest_state)) no_world j' s' x'
  | Trap t => machine_call (N := copy_codec) accepts 1 (lit "hi") (env_of (answers kind_env) gr) guest_state = Trap t
  end.
Proof.
  split; [vm_compute; split; reflexivity|].
  apply (call_refines_machine (answers kind_env) (cells guest_memory) (dom (heap guest_state)) no_world copy_codec
           accepts 1 copy_handle 1048 1024 only_memory ∅ guest_state (guest_memory, tt) (lit "hi")).
  - apply copy_compiled.
  - apply constant_check; vm_compute; reflexivity.
  - intros a Ha. assert (a ∈ zrange 1024 12) as H by (apply elem_of_zrange; unfold range in Ha; lia). clear Ha. revert a H.
    apply Forall_forall, (bool_decide_unpack _). vm_compute. exact I.
  - apply guest_linked.
  - by eexists.
  - intros H. discriminate H.
  - intros gr s1 Hst _. apply copy_returned, Hst.
Defined.
