(* ===== verification/HelloFn.v ===== *)
(** The hello guest's composition function (crates/guestfn/templates/c/src/fn.c;
    the same file in crates/guestfn/testdata/c and examples/hello-c): it composes
    a ConfigMap that greets the composite resource. *)
From S2P Require Import Prelude BindTypes CString Proto Machine MachineLogic Wasmfn Structpb.
From Stdlib Require Import Strings.Byte.

(** ** The configuration and the composite *)

Inductive config_result := CONFIG_ABSENT | CONFIG_STRING | CONFIG_NOT_STRING.

(** The result and [*out]. *)
Definition config_string (req : fnv1_RunFunctionRequest) (key : bytes) (out : option bytes)
    : C (config_result * option bytes) :=
  v ← (if has_input req then structpb_lookup (Some (input req)) [lit "config"; key] else mret None);
  match v with
  | None => mret (CONFIG_ABSENT, out)
  | Some _ =>
      match structpb_string v with
      | None => mret (CONFIG_NOT_STRING, out)
      | Some s => mret (CONFIG_STRING, Some s)
      end
  end.

Definition observed_name (req : fnv1_RunFunctionRequest) : C (option bytes) :=
  if negb (has_observed req) || negb (has_composite (observed req))
     || negb (has_resource (composite (observed req)))
  then mret None
  else v ← structpb_lookup (Some (resource (composite (observed req)))) [lit "metadata"; lit "name"];
       mret (structpb_string v).

(** ** The desired state *)

Definition state_arr (p : option Z) : C (list fnv1_State_ResourcesEntry) :=
  k ← block_at p; match k with StateArr l => mret l | _ => stop UB end.

(** [memcpy] of [n] entries. *)
Definition copied_entries (p : option Z) (n : nat) : C (list fnv1_State_ResourcesEntry) :=
  if (n =? 0)%nat then mret [] else
  l ← state_arr p; if (length l <? n)%nat then stop UB else mret (take n l).

Definition composed_entry (key : bytes) (r : google_protobuf_Struct) : fnv1_State_ResourcesEntry :=
  ResourcesEntry (Some key) true (Resource true r 0 None 0).

(** Whether there was memory, and [*state]. [n + 1] is a [size_t]: the new entry
    is past the array when it wraps. *)
Definition state_add_resource (state : fnv1_State) (key : bytes) (r : google_protobuf_Struct)
    : C (bool * fnv1_State) :=
  let n := Z.to_nat (resources_count state) in
  let m := Z.to_nat (size_t (Z.of_nat n + 1)) in
  entries ← alloc_replacing 0 (StateArr (replicate m ResourcesEntry_zero));
  match entries with
  | None => mret (false, state)
  | Some b =>
      old ← copied_entries (resources state) n;
      if (m <=? n)%nat then stop UB else
      _ ← set_block b (StateArr (old ++ [composed_entry key r]));
      mret (true, State (has_composite state) (composite state) (uwrap 32 (Z.of_nat n + 1)) (Some b))
  end.

(** ** The function *)

(** The greeting fetched through the host, or why not. *)
Definition fetch_greeting (bd : build) (fuel : nat) (url : option bytes) : C (bytes + bytes) :=
  err ← new_var None;
  greeting ← wasmfn_http_get_text bd fuel url (Some err);
  match greeting with
  | Some (b, off) => text ← c_str b off; _ ← end_var err; mret (inr text)
  | None =>
      p ← deref err;
      why ← text_of p;
      msg ← sprintf_text (lit "cannot fetch greeting: " ++ default (lit "unknown error") why);
      _ ← end_var err;
      mret (inl (default (lit "cannot fetch greeting") msg))
  end.

Definition the_greeting (bd : build) (fuel : nat) (req : fnv1_RunFunctionRequest) : C (bytes + bytes) :=
  '(r, greeting) ← config_string req (lit "greeting") (Some (lit "hello"));
  match r with
  | CONFIG_NOT_STRING => mret (inl (lit "cannot read config: greeting must be a string"))
  | _ =>
      '(r, url) ← config_string req (lit "greetingUrl") None;
      match r with
      | CONFIG_NOT_STRING => mret (inl (lit "cannot read config: greetingUrl must be a string"))
      | CONFIG_STRING => fetch_greeting bd fuel url
      | CONFIG_ABSENT => match greeting with Some g => mret (inr g) | None => stop UB end
      end
  end.

(** [structpb_set] of each field in turn, while there is memory. *)
Fixpoint set_all (st : google_protobuf_Struct) (kvs : list (bytes * google_protobuf_Value))
    : C (option google_protobuf_Struct) :=
  match kvs with
  | [] => mret (Some st)
  | (k, v) :: kvs =>
      '(ok, st) ← structpb_set st k v;
      if (ok : bool) then set_all st kvs else mret None
  end.

Definition config_map (text : bytes) : C (option google_protobuf_Struct) :=
  data ← set_all google_protobuf_Struct_init_zero
           [(lit "greeting", structpb_string_value (Some text))];
  match data with
  | None => mret None
  | Some data =>
      set_all google_protobuf_Struct_init_zero
        [(lit "apiVersion", structpb_string_value (Some (lit "v1")));
         (lit "kind", structpb_string_value (Some (lit "ConfigMap")));
         (lit "data", structpb_struct_value data)]
  end.

Definition greeted_result (message : bytes) : fnv1_Result :=
  Result fnv1_Severity_SEVERITY_NORMAL (Some message) None true fnv1_Target_TARGET_COMPOSITE.
Definition success_condition : fnv1_Condition :=
  Condition (Some (lit "FunctionSuccess")) fnv1_Status_STATUS_CONDITION_TRUE (Some (lit "Success")) None
    true fnv1_Target_TARGET_COMPOSITE_AND_CLAIM.

(** The result and the condition of a composed response. *)
Definition report_success (name : bytes) (rsp : fnv1_RunFunctionResponse)
    : C (option bytes * fnv1_RunFunctionResponse) :=
  result ← alloc_replacing 0 (ResultArr [fnv1_Result_zero]);
  condition ← alloc_replacing 0 (ConditionArr [fnv1_Condition_zero]);
  message ← sprintf_text (lit "greeted " ++ name);
  match result, condition, message with
  | Some rb, Some cb, Some message =>
      _ ← set_block rb (ResultArr [greeted_result message]);
      _ ← set_block cb (ConditionArr [success_condition]);
      mret (None, with_conditions (Some cb) 1 (with_results (Some rb) 1 rsp))
  | _, _, _ => mret (Some (lit "out of memory"), rsp)
  end.

Definition compose (req : fnv1_RunFunctionRequest) (greeting name : bytes) (rsp : fnv1_RunFunctionResponse)
    : C (option bytes * fnv1_RunFunctionResponse) :=
  text ← sprintf_text (greeting ++ lit " " ++ name);
  cm ← match text with Some text => config_map text | None => mret None end;
  match cm with
  | None => mret (Some (lit "out of memory"), rsp)
  | Some cm =>
      let desired0 := if rq_has_desired req then rq_desired req else desired rsp in
      '(ok, desired1) ← state_add_resource desired0 (lit "greeting") cm;
      let rsp := with_desired desired1 rsp in
      if negb ok then mret (Some (lit "out of memory"), rsp) else report_success name rsp
  end.

(** The error, [NULL] when it succeeded, and [*rsp]. *)
Definition run_function (bd : build) (fuel : nat) (req : fnv1_RunFunctionRequest)
    (rsp : fnv1_RunFunctionResponse) : C (option bytes * fnv1_RunFunctionResponse) :=
  _ ← wasmfn_log_info bd (lit "Running function")
        [(lit "tag", Some (if rq_has_meta req then default [] (rq_meta_tag req) else []))];
  greeting ← the_greeting bd fuel req;
  match greeting with
  | inl msg => mret (Some msg, rsp)
  | inr greeting =>
      name ← observed_name req;
      match name with
      | None => mret (Some (lit "cannot get observed composite resource: none in request"), rsp)
      | Some name => compose req greeting name rsp
      end
  end.
