(* ===== verification/HelloSpec.v ===== *)
(** The specification of the hello function: what it reads in the request's JSON
    values, the ConfigMap it composes, and how it answers when it cannot. *)
From S2P Require Import Prelude BindTypes CString Proto Machine MachineLogic Wasmfn WasmfnMem WasmfnSend WasmfnRead WasmfnSpec WasmfnText Structpb HelloFn.
From Stdlib Require Import Strings.Byte.

(** ** What the function reads *)

(** The configuration object of the input, and the composite resource. *)
Definition config_is (h : gmap Z block) (req : fnv1_RunFunctionRequest) (cfg : list (bytes * json)) : Prop :=
  if has_input req then object_is h (input req) cfg else cfg = [].
Definition composite_is (h : gmap Z block) (req : fnv1_RunFunctionRequest) (xr : list (bytes * json)) : Prop :=
  if has_observed req && has_composite (observed req) && has_resource (composite (observed req))
  then object_is h (resource (composite (observed req))) xr else xr = [].

Definition setting (cfg : list (bytes * json)) (key : bytes) : option json :=
  json_at (JObject cfg) [lit "config"; key].
Definition text_at (j : option json) : option bytes :=
  match j with Some (JString t) => Some t | _ => None end.
Definition name_of (xr : list (bytes * json)) : option bytes :=
  text_at (json_at (JObject xr) [lit "metadata"; lit "name"]).

(** The entries of a state's resources. *)
Definition resources_are (h : gmap Z block) (st : fnv1_State) (l : list fnv1_State_ResourcesEntry) : Prop :=
  resources_count st = Z.of_nat (length l) /\
  (l <> [] -> exists b, resources st = Some b /\ h !! b = Some (StateArr l)).

Lemma resources_are_mono h h' st l : resources_are h st l -> h ⊆ h' -> resources_are h' st l.
Proof.
  intros [Hc H] Hsub. split; [done|]. intros Hl. destruct (H Hl) as (b & ? & ?).
  exists b. split; [done|]. by eapply lookup_weaken.
Qed.

Lemma resources_size s st l : wf s -> resources_are (heap s) st l -> 32 * Z.of_nat (length l) < memory_size.
Proof.
  intros Hs [_ H]. destruct l as [|x l]; [done|]. destruct H as (b & _ & Hb); [done|].
  pose proof (wf_size s Hs) as Hz. rewrite (heap_size_delete _ _ _ Hb) in Hz.
  pose proof (heap_size_nonneg (delete b (heap s))). cbn [block_size] in Hz. lia.
Qed.

Lemma value_text h v j : option_Forall2 (value_is h) v j -> structpb_string v = text_at j.
Proof. intros [? ? []|]; done. Qed.

Section Read.
Context {e : env} {T : trap -> Prop}.

Definition config_found (out : option bytes) (j : option json) : config_result * option bytes :=
  match j with
  | None => (CONFIG_ABSENT, out)
  | Some (JString t) => (CONFIG_STRING, Some t)
  | Some _ => (CONFIG_NOT_STRING, out)
  end.

Lemma wp_config_string req cfg key out s :
  config_is (heap s) req cfg ->
  wp e T (config_string req key out) (fun r s' => s' = s /\ r = config_found out (setting cfg key)) s.
Proof.
  intros Hc. unfold config_string, config_is in *.
  eapply (wp_seq _ _ (fun v s' => s' = s /\ option_Forall2 (value_is (heap s)) v (setting cfg key))).
  - destruct (has_input req); [by apply wp_structpb_lookup|]. subst. apply wp_ret. split; [done|constructor].
  - intros v s' [-> Hv]. destruct Hv as [v j Hj|]; [|by apply wp_ret].
    by destruct Hj; apply wp_ret.
Qed.

Lemma wp_observed_name req xr s :
  composite_is (heap s) req xr ->
  wp e T (observed_name req) (fun r s' => s' = s /\ r = name_of xr) s.
Proof.
  intros Hx. unfold observed_name, composite_is in *. rewrite <- !negb_andb.
  destruct (has_observed req && _ && _); cbn [negb].
  - eapply wp_seq; [by apply wp_structpb_lookup|]. intros v s' [-> Hv]. apply wp_ret. split; [done|].
    by eapply value_text.
  - subst. by apply wp_ret.
Qed.
End Read.

(** ** The greeting *)

(** Fetched from [url]: the trimmed text of a 200, or the client's reason. *)
Definition fetched (url : bytes) (s : cst) (r : bytes + bytes) (s' : cst) : Prop :=
  (exists evs, progress evs s s') /\
  match r with
  | inr text => exists tag a p x,
      url_parts (Some url) = inr (tag, a, p) /\ x_status x = 200 /\ handles s' = handles s /\
      trace s' = trace s ++ exchange_events (next_h s) (get_request (Some url)) tag a p x /\
      text = until_nul (trim (concat (x_chunks x)))
  | inl msg => (denied s < denied s')%nat \/ exists why,
      (msg = until_nul (lit "cannot fetch greeting: " ++ until_nul why) \/
       INT_MAX < Z.of_nat (length (lit "cannot fetch greeting: " ++ why))) /\
      ((url_parts (Some url) = inl why) \/
       (exists tag a p x, trace s' = trace s ++ exchange_events (next_h s) (get_request (Some url)) tag a p x /\
          x_status x <> 200 /\ why = status_text (Some url) (x_status x)) \/
       (exists evs, trace s' = trace s ++ evs /\ refusals evs = [why]))
  end.

(** What [text_spec]'s failures leave for the caller to read in [*err]. *)
Lemma reported_why a m s s1 :
  reported (Some a) m s s1 ->
  (denied s < denied s1)%nat \/ INT_MAX < Z.of_nat (length m) \/
  exists b, vars s1 !! a = Some (Some b) /\ heap s1 !! b = Some (c_string m).
Proof.
  intros (v & Hv & Hn & Hb). destruct v as [b|]; [|by left; apply Hn].
  destruct (Hb b eq_refl) as (_ & txt & Ht & [->|[_ [?|?]]]); [|by left|by right; left].
  right; right. exists b. rewrite Hv, lookup_insert_eq. done.
Qed.

Lemma length_c_text m : (length (until_nul m) <= length m)%nat.
Proof. apply length_until_nul. Qed.

Section Greeting.
Context {e : env} {T : trap -> Prop} (HA : T Aborted) (Hhost : typed_host e).

(** The message made of the reason in [*err]. *)
Lemma wp_word_reason a s1 :
  wf s1 -> readable (Some a) s1 ->
  wp e T (p ← deref a; why ← text_of p;
          msg ← sprintf_text (lit "cannot fetch greeting: " ++ default (lit "unknown error") why);
          _ ← end_var a;
          mret (inl (default (lit "cannot fetch greeting") msg) : bytes + bytes))
    (fun r s' => progress [] s1 s' /\ trace s' = trace s1 /\ exists msg, r = inl msg /\
       forall why b, vars s1 !! a = Some (Some b) -> heap s1 !! b = Some (c_string why) ->
         (denied s1 < denied s')%nat \/
         msg = until_nul (lit "cannot fetch greeting: " ++ until_nul why) \/
         INT_MAX < Z.of_nat (length (lit "cannot fetch greeting: " ++ why))) s1.
Proof.
  intros Hs Hr. destruct (Hr a eq_refl) as (v & Hv & Hb).
  eapply wp_seq; [by apply wp_deref|]. intros ? ? [-> ->].
  eapply (wp_seq _ _ (fun t s' => s' = s1 /\ forall b why, v = Some b -> heap s1 !! b = Some (c_string why) ->
                        t = Some (until_nul why))).
  - destruct v as [b|]; [|by apply wp_ret]. destruct (Hb b eq_refl) as [txt Ht].
    unfold wp, text_of, c_str, get, mbind, C_bind. rewrite Ht. change (0 <=? 0) with true. cbv iota.
    change (Z.to_nat 0) with O. cbn [c_string]. rewrite drop_0, scan_strdup. split; [done|].
    intros b' why [= <-] H. rewrite Ht in H. unfold c_string in H. injection H as H.
    apply (inj (map Some)) in H. apply (inj (.++ [NUL])) in H. by subst.
  - intros t s' [-> Ht]. eapply wp_seq; [by apply wp_sprintf_text|]. intros msg s2 (Hst2 & Hsub2 & Hmsg).
    eapply wp_seq; [apply wp_end_var, Hst2|]. intros [] s3 [-> Hs3]. apply wp_ret. split; [|split].
    + pose proof (progress_heap_step _ _ Hst2 Hsub2) as []. by split.
    + apply Hst2.
    + eexists. split; [done|]. intros why b Hvb Hw. assert (v = Some b) as -> by congruence.
      rewrite (Ht b why eq_refl Hw) in Hmsg. change (default ?d (Some ?x)) with x in Hmsg. destruct msg as [m|]; [right; by left|].
      destruct Hmsg as [?|Hl]; [by left|right; right]. pose proof (length_c_text why).
      rewrite length_app in Hl |- *. lia.
Qed.

Lemma wp_fetch_greeting fuel url s :
  wf s -> Z.of_nat (length url) < 2 ^ 30 -> enough e T fuel s ->
  wp e T (fetch_greeting Wasi fuel (Some url)) (fetched url s) s.
Proof.
  intros Hs Hu Hf. eapply wp_seq; [by apply wp_new_var|]. intros a s0 (-> & Hs0 & Hfresh).
  set (s0 := set_vars _ s) in *.
  assert (readable (Some a) s0) as Hr0.
  { intros ? [= <-]. exists None. split; [apply lookup_insert_eq|done]. }
  eapply wp_seq; [apply wp_get_text; try done; by apply readable_valid|].
  intros [[b off]|] s1 ((evs & Hp) & Hrd & H).
  - destruct H as (tag & ha & p & x & Hparts & Hx & Hoff & Htr & Hh & cs & Hcs & Hscan).
    eapply (wp_seq _ _ (fun t s' => s' = s1 /\ t = until_nul (trim (concat (x_chunks x))))).
    { unfold wp, c_str, get, mbind, C_bind. rewrite Hcs. destruct (Z.leb_spec 0 off); [|lia]. by rewrite Hscan. }
    intros ? ? [-> ->]. eapply wp_seq; [apply wp_end_var, Hp|]. intros [] s2 [-> Hs2]. apply wp_ret. split.
    + exists evs. destruct Hp. by split.
    + exists tag, ha, p, x. done.
  - specialize (Hrd Hr0). eapply wp_mono; [apply (wp_word_reason a s1); [apply Hp|done]|].
    intros r s2 (Hp2 & Htr2 & msg & -> & Hmsg). pose proof (pr_denied _ _ _ Hp2). pose proof (pr_denied _ _ _ Hp).
    split.
    { exists (evs ++ []). pose proof (progress_trans _ _ _ _ _ Hp Hp2) as []. by split. }
    assert (forall m, reported (Some a) m s0 s1 -> (denied s < denied s2)%nat \/
              (msg = until_nul (lit "cannot fetch greeting: " ++ until_nul m) \/
               INT_MAX < Z.of_nat (length (lit "cannot fetch greeting: " ++ m)))) as Hwhy.
    { intros m Hm. destruct (reported_why _ _ _ _ Hm) as [Hd|[Hl|(b & Hv & Hb)]].
      - left. change (denied s < denied s1)%nat in Hd. lia.
      - right; right. rewrite length_app. lia.
      - destruct (Hmsg m b Hv Hb) as [?|?]; [left; change (denied s) with (denied s0); lia|by right]. }
    destruct H as [(tag & ha & p & x & Htr & Hx & Hrep)|[(m & Hparts & Hrep)|(evs2 & Hp' & Hf')]].
    + destruct Hrep as [Hrep|Hd]; [|left; change (denied s < denied s1)%nat in Hd; lia].
      destruct (Hwhy _ Hrep) as [?|?]; [by left|right]. eexists. split; [done|]. right; left.
      exists tag, ha, p, x. by rewrite Htr2.
    + destruct (Hwhy _ Hrep) as [?|?]; [by left|right]. exists m. auto.
    + destruct Hf' as [(m & Hm & Hrep)|(_ & Hd & _)]; [|left; change (denied s < denied s1)%nat in Hd; lia].
      destruct (Hwhy _ Hrep) as [?|?]; [by left|right]. exists m. split; [done|]. right; right.
      exists evs2. split; [|done]. rewrite Htr2. apply Hp'.
Qed.
End Greeting.

(** ** The ConfigMap and the response *)

(** The fields after setting [kvs] in turn. *)
Definition fields_set (l : list google_protobuf_Struct_FieldsEntry)
    (kvs : list (bytes * google_protobuf_Value)) : list google_protobuf_Struct_FieldsEntry :=
  fold_left (fun l kv => set_field l kv.1 kv.2) kvs l.

Definition config_map_json (text : bytes) : list (bytes * json) :=
  [(lit "apiVersion", JString (lit "v1")); (lit "kind", JString (lit "ConfigMap"));
   (lit "data", JObject [(lit "greeting", JString text)])].

(** [st]'s array is not a block of [h]. *)
Definition own_fields (h : gmap Z block) (st : google_protobuf_Struct) : Prop :=
  forall b, fields st = Some b -> h !! b = None.

(** A step that leaves the blocks of [h0] alone. *)
Record kept (h0 : gmap Z block) (s s' : cst) : Prop := {
  kp_step : heap_step s s';
  kp_heap : h0 ⊆ heap s';
}.

Lemma kept_trans h0 s s1 s2 : kept h0 s s1 -> kept h0 s1 s2 -> kept h0 s s2.
Proof. intros [H1 _] [H2 ?]. split; [by eapply heap_step_trans|done]. Qed.

Lemma set_done_kept h0 st l key v s r s' :
  set_done st l key v s r s' -> h0 ⊆ heap s -> own_fields h0 st -> kept h0 s s'.
Proof.
  intros [Hst H] Hsub Hown. split; [done|]. destruct r as [[] st']; cbn in H.
  - destruct H as (_ & _ & Hfr). apply map_subseteq_spec. intros b k Hk. apply Hfr.
    + intros E. apply Hown in E. congruence.
    + by eapply lookup_weaken.
  - by destruct H as [-> _].
Qed.

Section Compose.
Context {e : env} {T : trap -> Prop}.

Lemma wp_set_all h0 st l kvs s :
  wf s -> h0 ⊆ heap s -> own_fields h0 st -> struct_is (heap s) st l ->
  24 * Z.of_nat (length l + length kvs) < memory_size ->
  wp e T (set_all st kvs) (fun r s' => kept h0 s s' /\
    match r with
    | Some st' => struct_is (heap s') st' (fields_set l kvs) /\ own_fields h0 st'
    | None => (denied s < denied s')%nat
    end) s.
Proof.
  revert st l s. induction kvs as [|[k v] kvs IH]; intros st l s Hs Hsub Hown Hst Hsz; cbn [set_all].
  - apply wp_ret. split; [by split; [apply heap_step_refl|]|done].
  - eapply wp_seq; [apply wp_structpb_set; [done|done|simpl in Hsz; lia]|].
    intros [ok st1] s1 Hd. pose proof (set_done_kept _ _ _ _ _ _ _ _ Hd Hsub Hown) as Hk.
    destruct Hd as [Hst1 H]. destruct ok; cbn in H.
    + destruct H as (Hf & Hnew & _). eapply wp_mono; [apply IH with (l := set_field l k v)|].
      * apply Hst1.
      * apply Hk.
      * intros b Hb. destruct Hnew as [Hnew|(b' & Hb' & Hf')].
        -- apply Hown. congruence.
        -- apply eq_None_not_Some. intros [k' Hk']. assert (b = b') as -> by congruence.
           by rewrite (lookup_weaken _ _ _ _ Hk' Hsub) in Hf'.
      * done.
      * assert (length (set_field l k v) <= S (length l))%nat as Hlen.
        { clear. induction l as [|x l IH]; cbn; [lia|]. case_decide; simpl; lia. }
        simpl in Hsz. lia.
      * intros r s2 [Hk2 H]. split; [by eapply kept_trans|]. destruct r; [done|].
        pose proof (hs_denied _ _ Hst1). lia.
    + apply wp_ret. split; [done|]. apply H.
Qed.

Lemma wp_config_map text s :
  wf s ->
  wp e T (config_map text) (fun r s' => kept (heap s) s s' /\
    match r with
    | Some cm => object_is (heap s') cm (config_map_json text)
    | None => (denied s < denied s')%nat
    end) s.
Proof.
  intros Hs. eapply wp_seq.
  { by apply (wp_set_all (heap s) _ [] _ s Hs). }
  intros [data|] s1 [Hk H]; [|by apply wp_ret].
  destruct H as [Hdata _]. eapply wp_mono.
  { by apply (wp_set_all (heap s1) _ [] _ s1 (hs_wf _ _ (kp_step _ _ _ Hk))). }
  intros r s2 [Hk2 H]. split.
  { eapply kept_trans; [exact Hk|]. destruct Hk2. split; [done|]. etransitivity; [apply Hk|done]. }
  destruct r as [cm|]; [|pose proof (hs_denied _ _ (kp_step _ _ _ Hk)); lia].
  destruct H as [Hcm _]. eapply is_object; [exact Hcm|].
  assert (forall k v j, value_is (heap s2) v j ->
    (fun e kj => fe_key e = Some kj.1 /\ fe_has_value e = true /\ value_is (heap s2) (fe_value e) kj.2)
      (FieldsEntry (Some k) true v) (k, j)) as Hfield by done.
  repeat (apply Forall2_cons; split; [apply Hfield|]); try constructor.
  eapply (value_is_weaken (heap s1)); [|apply Hk2]. eapply is_object; [exact Hdata|].
  constructor; [|constructor]. split_and!; [done|done|constructor].
Qed.

Lemma wp_state_add_resource st l key r s :
  wf s -> resources_are (heap s) st l ->
  wp e T (state_add_resource st key r) (fun '(ok, st') s' => kept (heap s) s s' /\
    if ok then exists b, heap s !! b = None /\
      st' = State (has_composite st) (composite st) (Z.of_nat (length l) + 1) (Some b) /\
      heap s' !! b = Some (StateArr (l ++ [composed_entry key r]))
    else st' = st /\ heap s' = heap s /\ (denied s < denied s')%nat) s.
Proof.
  intros Hs [Hc Hl]. unfold state_add_resource. rewrite Hc, Nat2Z.id.
  pose proof (resources_size _ _ _ Hs (conj Hc Hl)) as Hsz. unfold memory_size in Hsz. unfold size_t. rewrite uwrap_id by lia.
  replace (Z.to_nat (Z.of_nat (length l) + 1)) with (S (length l)) by lia.
  eapply wp_seq; [by apply wp_alloc|]. intros [b|] s1 Ha; pose proof (allocated_heap _ _ _ _ Ha) as Hsub;
    destruct Ha as [Hst H]; [|apply wp_ret; split; [by split|]; by destruct H].
  destruct H as (-> & Hfr & _ & Hh).
  eapply (wp_seq _ _ (fun old s' => s' = s1 /\ old = l)).
  { unfold copied_entries. destruct (Nat.eqb_spec (length l) 0) as [E|E].
    - apply wp_ret. split; [done|]. by destruct l.
    - destruct Hl as (b0 & -> & Hb0); [by intros ->|].
      eapply wp_seq.
      { eapply wp_seq; [apply wp_block_at; by eapply lookup_weaken|]. intros ? ? [-> ->].
        by apply wp_ret with (Q := fun r s' => r = l /\ s' = s1). }
      intros ? ? [-> ->]. rewrite Nat.ltb_irrefl, firstn_all. by apply wp_ret. }
  intros ? ? [-> ->]. destruct (Nat.leb_spec (S (length l)) (length l)); [lia|].
  eapply wp_seq.
  { eapply wp_set_block; [apply Hst|rewrite Hh; apply lookup_insert_eq|].
    cbn [block_size]. rewrite length_replicate, length_app. simpl. lia. }
  intros [] s2 [Hst2 Hh2]. apply wp_ret. split; [split; [by eapply heap_step_trans|]|].
  - rewrite Hh2. by apply subseteq_insert_fresh.
  - exists (next s). split; [done|]. split; [done|]. rewrite Hh2. apply lookup_insert_eq.
Qed.

(** A composed response: the ConfigMap with [text] after the resources desired so
    far, one normal result and the condition that the function succeeded. *)
Definition greeted (req : fnv1_RunFunctionRequest) (old : list fnv1_State_ResourcesEntry) (text name : bytes)
    (rsp rsp' : fnv1_RunFunctionResponse) (h : gmap Z block) : Prop :=
  let desired0 := if rq_has_desired req then rq_desired req else desired rsp in
  exists cm db rb cb,
    rsp' = with_conditions (Some cb) 1 (with_results (Some rb) 1
             (with_desired (State (has_composite desired0) (composite desired0)
                              (Z.of_nat (length old) + 1) (Some db)) rsp)) /\
    h !! db = Some (StateArr (old ++ [composed_entry (lit "greeting") cm])) /\
    object_is h cm (config_map_json text) /\
    h !! rb = Some (ResultArr [greeted_result (until_nul (lit "greeted " ++ name))]) /\
    h !! cb = Some (ConditionArr [success_condition]).

(** Reporting, as both functions do it: one result made of the message [m], one
    condition. *)
Lemma wp_report_with m (f : bytes -> fnv1_Result) c rsp s :
  wf s ->
  wp e T
    (result ← alloc_replacing 0 (ResultArr [fnv1_Result_zero]);
     condition ← alloc_replacing 0 (ConditionArr [fnv1_Condition_zero]);
     message ← sprintf_text m;
     match result, condition, message with
     | Some rb, Some cb, Some message =>
         _ ← set_block rb (ResultArr [f message]);
         _ ← set_block cb (ConditionArr [c]);
         mret (None, with_conditions (Some cb) 1 (with_results (Some rb) 1 rsp))
     | _, _, _ => mret (Some (lit "out of memory"), rsp)
     end)
    (fun '(err, rsp') s' => kept (heap s) s s' /\
     match err with
     | None => exists rb cb, rsp' = with_conditions (Some cb) 1 (with_results (Some rb) 1 rsp) /\
         heap s' !! rb = Some (ResultArr [f (until_nul m)]) /\ heap s' !! cb = Some (ConditionArr [c])
     | Some msg => msg = lit "out of memory" /\ ((denied s < denied s')%nat \/ INT_MAX < Z.of_nat (length m))
     end) s.
Proof.
  intros Hs.
  eapply wp_seq; [by apply wp_alloc|]. intros rb s1 Ha. pose proof (allocated_heap _ _ _ _ Ha) as Hsub.
  destruct Ha as [Hst H].
  eapply wp_seq; [by apply wp_alloc, Hst|]. intros cb s2 Ha2. pose proof (allocated_heap _ _ _ _ Ha2) as Hsub2.
  destruct Ha2 as [Hst2 H2].
  eapply wp_seq; [by apply wp_sprintf_text, Hst2|]. intros message s3 (Hst3 & Hsub3 & Hm).
  pose proof (hs_denied _ _ Hst). pose proof (hs_denied _ _ Hst2). pose proof (hs_denied _ _ Hst3).
  assert (kept (heap s) s s3) as Hk.
  { split; [exact (heap_step_trans _ _ _ Hst (heap_step_trans _ _ _ Hst2 Hst3))|].
    etransitivity; [exact Hsub|]. by etransitivity. }
  destruct rb as [rb|], cb as [cb|], message as [text|]; try (apply wp_ret; split; [done|]; split; [done|];
    repeat match goal with H : _ /\ (_ < _)%nat |- _ => destruct H as [_ H] end; intuition lia).
  subst text. destruct H as (_ & Hf1 & _ & Hh1), H2 as (_ & Hf2 & _ & Hh2).
  assert (heap s1 !! rb = Some (ResultArr [fnv1_Result_zero])) as Hrb by (rewrite Hh1; apply lookup_insert_eq).
  assert (heap s2 !! cb = Some (ConditionArr [fnv1_Condition_zero])) as Hcb by (rewrite Hh2; apply lookup_insert_eq).
  assert (rb <> cb) as Hne by congruence.
  assert (heap s !! cb = None) as Hf2'.
  { apply eq_None_not_Some. intros [k Hk']. by rewrite (lookup_weaken _ _ _ _ Hk' Hsub) in Hf2. }
  eapply wp_seq; [eapply wp_set_block; [apply Hst3| |]|].
  { eapply lookup_weaken; [|exact Hsub3]. by eapply lookup_weaken. }
  { done. }
  intros [] s4 [Hst4 Hh4]. eapply wp_seq; [eapply wp_set_block; [apply Hst4| |]|].
  { rewrite Hh4, lookup_insert_ne by done. by eapply lookup_weaken. }
  { done. }
  intros [] s5 [Hst5 Hh5]. apply wp_ret. split.
  { eapply kept_trans; [exact Hk|]. split; [by eapply heap_step_trans|]. rewrite Hh5, Hh4.
    apply subseteq_insert_fresh; [|done]. apply subseteq_insert_fresh; [apply Hk|done]. }
  exists rb, cb. split; [done|]. rewrite Hh5. split; [|apply lookup_insert_eq].
  rewrite lookup_insert_ne by done. rewrite Hh4. apply lookup_insert_eq.
Qed.

Lemma wp_report_success name rsp s :
  wf s ->
  wp e T (report_success name rsp) (fun '(err, rsp') s' => kept (heap s) s s' /\
    match err with
    | None => exists rb cb, rsp' = with_conditions (Some cb) 1 (with_results (Some rb) 1 rsp) /\
        heap s' !! rb = Some (ResultArr [greeted_result (until_nul (lit "greeted " ++ name))]) /\
        heap s' !! cb = Some (ConditionArr [success_condition])
    | Some msg => msg = lit "out of memory" /\
        ((denied s < denied s')%nat \/ INT_MAX < Z.of_nat (length (lit "greeted " ++ name)))
    end) s.
Proof. apply wp_report_with. Qed.

Lemma wp_compose req greeting name old rsp s :
  wf s -> resources_are (heap s) (if rq_has_desired req then rq_desired req else desired rsp) old ->
  wp e T (compose req greeting name rsp) (fun '(err, rsp') s' => kept (heap s) s s' /\
    match err with
    | None => greeted req old (until_nul (greeting ++ lit " " ++ name)) name rsp rsp' (heap s')
    | Some msg => msg = lit "out of memory" /\
        ((denied s < denied s')%nat \/ INT_MAX < Z.of_nat (length greeting + length name + 8))
    end) s.
Proof.
  intros Hs Hold. unfold compose.
  eapply wp_seq; [by apply wp_sprintf_text|]. intros text s1 (Hst1 & Hsub1 & Ht).
  pose proof (hs_denied _ _ Hst1).
  destruct text as [text|].
  2: { apply wp_bind, wp_ret, wp_ret. split; [done|]. split; [done|]. destruct Ht as [?|Ht]; [by left|right].
       rewrite !length_app in Ht. change (length (lit " ")) with 1%nat in Ht. lia. }
  subst text. eapply wp_seq; [apply wp_config_map, Hst1|]. intros cm s2 [[Hst2 Hsub2] Hcm].
  pose proof (hs_denied _ _ Hst2).
  assert (kept (heap s) s s2) as Hk2 by (split; [by eapply heap_step_trans|by etransitivity]).
  destruct cm as [cm|].
  2: { apply wp_ret. split; [done|]. split; [done|]. left. lia. }
  eapply wp_seq; [eapply wp_state_add_resource; [apply Hst2|]|].
  { eapply resources_are_mono; [exact Hold|]. apply Hk2. }
  intros [ok st'] s3 [[Hst3 Hsub3] H3]. pose proof (hs_denied _ _ Hst3).
  assert (kept (heap s) s s3) as Hk3.
  { eapply kept_trans; [exact Hk2|]. split; [done|]. etransitivity; [apply Hk2|done]. }
  destruct ok; cbn [negb].
  2: { apply wp_ret. split; [done|]. split; [done|]. left. destruct H3 as (_ & _ & ?). lia. }
  destruct H3 as (db & Hfd & -> & Hdb).
  eapply wp_mono; [apply wp_report_success, Hst3|]. intros [err rsp'] s4 [[Hst4 Hsub4] H4].
  split. { eapply kept_trans; [exact Hk3|]. split; [done|]. etransitivity; [apply Hk3|done]. }
  destruct err as [msg|].
  - destruct H4 as [-> H4]. split; [done|]. destruct H4 as [?|Hl]; [left; lia|right].
    rewrite length_app in Hl. change (length (lit "greeted ")) with 8%nat in Hl. lia.
  - destruct H4 as (rb & cb & -> & Hrb & Hcb). exists cm, db, rb, cb. split_and!; try done.
    + by eapply lookup_weaken.
    + eapply value_is_weaken; [exact Hcm|]. by etransitivity.
Qed.
End Compose.
