(* ===== verification/HelloProps.v ===== *)
(** The hello guest: what its function composes for every request and host. *)
From S2P Require Import Prelude BindTypes CString Proto Machine MachineLogic Wasmfn WasmfnMem WasmfnSend WasmfnRead WasmfnSpec WasmfnText WasmfnProps Structpb Codec Handle HandleProps HelloFn HelloSpec.
From Stdlib Require Import Strings.Byte.

(** ** The specification of [run_function] *)

Definition tag_pairs (req : fnv1_RunFunctionRequest) : va_pairs :=
  [(lit "tag", Some (if rq_has_meta req then default [] (rq_meta_tag req) else []))].

(** The greeting: fetched from "greetingUrl", else "greeting", else "hello". *)
Definition greeting_spec (cfg : list (bytes * json)) (s : cst) (r : bytes + bytes) (s' : cst) : Prop :=
  match setting cfg (lit "greeting"), setting cfg (lit "greetingUrl") with
  | None, None => r = inr (lit "hello") /\ s' = s
  | Some (JString g), None => r = inr g /\ s' = s
  | None, Some (JString url) | Some (JString _), Some (JString url) => fetched url s r s'
  | None, Some _ | Some (JString _), Some _ =>
      r = inl (lit "cannot read config: greetingUrl must be a string") /\ s' = s
  | Some _, _ => r = inl (lit "cannot read config: greeting must be a string") /\ s' = s
  end.

(** The log line, then the greeting, then the response, or the error of the
    first that failed and the response untouched. *)
Definition hello_spec (req : fnv1_RunFunctionRequest) (cfg xr : list (bytes * json))
    (old : list fnv1_State_ResourcesEntry) (rsp : fnv1_RunFunctionResponse) (s : cst)
    (out : option bytes * fnv1_RunFunctionResponse) (s' : cst) : Prop :=
  wf s' /\ heap s ⊆ heap s' /\ (denied s <= denied s')%nat /\
  exists s1 s2 g, logged level_info (lit "Running function") (tag_pairs req) s s1 /\
    greeting_spec cfg s1 g s2 /\
    match g, name_of xr with
    | inl msg, _ => out = (Some msg, rsp) /\ s' = s2
    | inr _, None => out = (Some (lit "cannot get observed composite resource: none in request"), rsp) /\ s' = s2
    | inr greeting, Some name =>
        trace s' = trace s2 /\ handles s' = handles s2 /\
        match out with
        | (None, rsp') => greeted req old (until_nul (greeting ++ lit " " ++ name)) name rsp rsp' (heap s')
        | (Some msg, _) => msg = lit "out of memory" /\
            ((denied s < denied s')%nat \/ INT_MAX < Z.of_nat (length greeting + length name + 8))
        end
    end.

(** A request as the codec hands it over: its objects and arrays are in the heap. *)
Record readable_request (h : gmap Z block) (req : fnv1_RunFunctionRequest) (cfg xr : list (bytes * json))
    (old : list fnv1_State_ResourcesEntry) : Prop := {
  rd_config : config_is h req cfg;
  rd_composite : composite_is h req xr;
  rd_desired : resources_are h (if rq_has_desired req then rq_desired req else fnv1_State_init_zero) old;
  rd_url : forall url, setting cfg (lit "greetingUrl") = Some (JString url) -> Z.of_nat (length url) < 2 ^ 30;
}.

Section Hello.
Context {e : env} {T : trap -> Prop} (HA : T Aborted) (Hhost : typed_host e).

Lemma wp_the_greeting fuel req cfg s :
  wf s -> config_is (heap s) req cfg -> enough e T fuel s ->
  (forall url, setting cfg (lit "greetingUrl") = Some (JString url) -> Z.of_nat (length url) < 2 ^ 30) ->
  wp e T (the_greeting Wasi fuel req) (fun r s' => greeting_spec cfg s r s' /\
    (s' = s \/ exists evs, progress evs s s')) s.
Proof.
  intros Hs Hc Hf Hu. unfold the_greeting, greeting_spec.
  eapply wp_seq; [by apply wp_config_string|]. intros [r g] ? [-> E1].
  assert (wp e T
    ('(r, url) ← config_string req (lit "greetingUrl") None;
     match r with
     | CONFIG_NOT_STRING => mret (inl (lit "cannot read config: greetingUrl must be a string"))
     | CONFIG_STRING => fetch_greeting Wasi fuel url
     | CONFIG_ABSENT => match g with Some g => mret (inr g) | None => stop UB end
     end)
    (fun r s' => (match setting cfg (lit "greetingUrl") with
                  | None => forall g', g = Some g' -> r = inr g' /\ s' = s
                  | Some (JString url) => fetched url s r s'
                  | Some _ => r = inl (lit "cannot read config: greetingUrl must be a string") /\ s' = s
                  end) /\ (s' = s \/ exists evs, progress evs s s')) s \/ g = None) as Hurl.
  { destruct g as [g|]; [left|by right].
    eapply wp_seq; [by apply wp_config_string|]. intros [r' url] ? [-> E2].
    unfold config_found in E2. destruct (setting cfg (lit "greetingUrl")) as [[]|] eqn:Eu; injection E2 as -> ->;
      try (apply wp_ret; split; [|by left]; naive_solver).
    eapply wp_mono; [apply wp_fetch_greeting; auto|]. intros r0 s' H. split; [done|]. right. apply H. }
  unfold config_found in E1.
  destruct (setting cfg (lit "greeting")) as [[]|]; injection E1 as -> ->;
    try (apply wp_ret; split; [|by left]; done); destruct Hurl as [Hurl|?]; try done;
    (eapply wp_mono; [exact Hurl|]; intros r s' [H Hp]; split; [|exact Hp];
     destruct (setting cfg (lit "greetingUrl")) as [[]|]; try done; by apply H).
Qed.

Lemma enough_step fuel s s1 : heap_step s s1 -> enough e T fuel s -> enough e T fuel s1.
Proof. intros Hst. unfold enough. by rewrite (hs_trace _ _ Hst). Qed.

Lemma enough_logged fuel level msg kv s s' : logged level msg kv s s' -> enough e T fuel s -> enough e T fuel s'.
Proof.
  intros [(_ & _ & _ & Ht) _] [?|(n & Hn & H)]; [by left|]. right. exists n. split; [done|].
  destruct Ht as [->|[-> _]]; [|done]. rewrite reads_app. change (reads [Ev (Log _ _ _) _]) with O. lia.
Qed.

Lemma wp_hello fuel req cfg xr old rsp s :
  wf s -> readable_request (heap s) req cfg xr old -> desired rsp = fnv1_State_init_zero ->
  enough e T fuel s ->
  wp e T (run_function Wasi fuel req rsp) (hello_spec req cfg xr old rsp s) s.
Proof.
  intros Hs [Hc Hx Hd Hu] Hr Hf. unfold run_function. eapply wp_seq; [by apply wp_log_record|].
  intros [] s1 Hl. pose proof Hl as [(Hs1 & Hh1 & _ & _) [_ Hd1]].
  eapply wp_seq; [apply (wp_the_greeting fuel req cfg); [done|by rewrite Hh1|by eapply enough_logged|done]|].
  intros g s2 [Hg Hp].
  assert (wf s2 /\ heap s ⊆ heap s2 /\ (denied s <= denied s2)%nat) as (Hs2 & Hsub & Hd2).
  { rewrite <- Hh1. destruct Hp as [->|[evs []]]; [done|]. split_and!; [done|done|lia]. }
  destruct g as [msg|greeting].
  { apply wp_ret. split_and!; try done. by exists s1, s2, (inl msg). }
  assert (composite_is (heap s2) req xr) as Hx2.
  { revert Hx. unfold composite_is. destruct (_ && _); [|done]. intros. by eapply value_is_weaken. }
  eapply wp_seq; [by apply wp_observed_name|]. intros ? ? [-> ->].
  destruct (name_of xr) as [name|] eqn:En.
  2: { apply wp_ret. split_and!; try done. exists s1, s2, (inr greeting). by rewrite En. }
  eapply wp_mono; [eapply wp_compose; [done|]|].
  { rewrite Hr. by eapply resources_are_mono. }
  intros [err rsp'] s3 [[Hst3 Hsub3] H3]. pose proof (hs_denied _ _ Hst3).
  split_and!; [apply Hst3|by etransitivity|lia|]. exists s1, s2, (inr greeting). rewrite En.
  split_and!; [done|done|apply Hst3|apply Hst3|].
  destruct err; [|done]. destruct H3 as [-> [?|?]]; split; auto. left; lia.
Qed.
End Hello.

(** C5. The hello function logs once, then composes, for a composite whose
    [metadata.name] is a string, the ConfigMap {apiVersion, kind, data.greeting}
    that greets it after the resources desired so far, with one normal result
    and the condition "FunctionSuccess"; the greeting is the trimmed body a GET
    of [config.greetingUrl] returned with a 200, else [config.greeting], else
    "hello". Otherwise it answers the reason with the response untouched. No
    block of the request changes. *)
Theorem hello_composes e T fuel req cfg xr old rsp s :
  T Aborted -> typed_host e -> wf s -> readable_request (heap s) req cfg xr old ->
  desired rsp = fnv1_State_init_zero -> enough e T fuel s ->
  wp e T (run_function Wasi fuel req rsp) (hello_spec req cfg xr old rsp s) s.
Proof. intros. by apply wp_hello. Qed.

(** A request of a composite named "xr" that asks for a greeting from
    https://example.org, and one resource desired so far. *)
Definition hello_heap : gmap Z block :=
  {[ 1 := FieldsArr [FieldsEntry (Some (lit "metadata")) true (struct_value (PbStruct 1 (Some 2)))];
     2 := FieldsArr [FieldsEntry (Some (lit "name")) true (string_value (Some (lit "xr")))];
     3 := FieldsArr [FieldsEntry (Some (lit "config")) true (struct_value (PbStruct 1 (Some 4)))];
     4 := FieldsArr [FieldsEntry (Some (lit "greetingUrl")) true (string_value (Some (lit "https://example.org")))];
     5 := StateArr [ResourcesEntry_zero] ]}.
Definition hello_state : cst := Cst hello_heap 6 ∅ ∅ 1 [] 0 0.
Definition hello_request : fnv1_RunFunctionRequest :=
  Request true (Some (lit "t")) true (State true (Resource true (PbStruct 1 (Some 1)) 0 None 0) 0 None)
    true (State false fnv1_Resource_init_zero 1 (Some 5)) true (PbStruct 1 (Some 3)) 0 None.
Definition hello_cfg : list (bytes * json) :=
  [(lit "config", JObject [(lit "greetingUrl", JString (lit "https://example.org"))])].
Definition hello_xr : list (bytes * json) := [(lit "metadata", JObject [(lit "name", JString (lit "xr"))])].

Lemma one_field_is h b k v j :
  h !! b = Some (FieldsArr [FieldsEntry (Some k) true v]) -> value_is h v j ->
  value_is h (struct_value (PbStruct 1 (Some b))) (JObject [(k, j)]).
Proof. intros Hb Hv. eapply is_object; [split; [|exact Hb]; done|]. by repeat constructor. Qed.

Lemma hello_state_wf : wf hello_state.
Proof.
  split; try done. intros b k H. cbn in *. unfold hello_heap in H.
  rewrite !lookup_insert, lookup_singleton in H. repeat case_decide; simplify_eq; lia.
Qed.

Lemma hello_readable : readable_request hello_heap hello_request hello_cfg hello_xr [ResourcesEntry_zero].
Proof.
  split.
  - eapply one_field_is; [reflexivity|]. eapply one_field_is; [reflexivity|constructor].
  - eapply one_field_is; [reflexivity|]. eapply one_field_is; [reflexivity|constructor].
  - split; [done|]. intros _. by exists 5.
  - intros url [= <-]. done.
Qed.

Lemma hello_composes_witness :
  match run_function Wasi 3 hello_request fnv1_RunFunctionResponse_init_zero kind_env hello_state with
  | Ok ((err, rsp), _) => err = None /\ resources_count (desired rsp) = 2
  | Trap _ => False
  end /\
  wp kind_env only_fuel_or_memory (run_function Wasi 3 hello_request fnv1_RunFunctionResponse_init_zero)
    (hello_spec hello_request hello_cfg hello_xr [ResourcesEntry_zero] fnv1_RunFunctionResponse_init_zero
       hello_state) hello_state.
Proof.
  split; [vm_compute; split; reflexivity|].
  apply (hello_composes kind_env only_fuel_or_memory 3 hello_request hello_cfg hello_xr [ResourcesEntry_zero]
           fnv1_RunFunctionResponse_init_zero hello_state (or_introl eq_refl) kind_typed hello_state_wf
           hello_readable eq_refl).
  left. right. reflexivity.
Defined.
