(* ===== verification/Tls.v ===== *)
(** The certificate work of the cert-rotator guest over mbedTLS
    (examples/cert-rotator/src/tls.cpp, tls.h). A [std::string] is its content,
    and [std::string &err] with a [nullopt] is the left of a sum. *)
From S2P Require Import Prelude CString Calendar Mbedtls Machine.
From Stdlib Require Import Strings.Byte.

Definition mbed (c : mcall) : C (mans c) := '(a, _) ← call (Mbedtls c); mret a.

(** [if (rc == 0) rc = ...;] *)
Definition if_ok (rc : Z) (c : C Z) : C Z := if rc =? 0 then c else mret rc.

Definition words (code : Z) : C bytes := t ← mbed (Strerror code 160); mret (until_nul t).

Record Certificate := MkCertificate {
  subject : bytes;
  serial : bytes;
  not_before : Z;
  not_after : Z;
}.
Record Issued := MkIssued {
  certificate_pem : bytes;
  key_pem : bytes;
  certificate : Certificate;
}.

(** A distinguished name's value with the special characters escaped; [strchr]
    finds the terminating NUL too. *)
Definition dn_special (ch : byte) : bool := bool_decide (ch ∈ lit ",=+<>#;" ++ [x22; x5c; NUL]).
Definition escaped (value : bytes) : bytes :=
  concat (map (fun ch => if dn_special ch then [x5c; ch] else [ch]) value).

(** [read], of the certificate parsed last. *)
Definition read_certificate (valid_from valid_to : x509_time) : C Certificate :=
  '(n, buf) ← mbed (DnGets 512);
  let subject := if 0 <? n then until_nul buf else [] in
  '(n, buf) ← mbed (SerialGets 512);
  let serial := if 0 <? n then until_nul buf else [] in
  not_before ← get (fun _ => to_unix valid_from);
  not_after ← get (fun _ => to_unix valid_to);
  mret (MkCertificate subject serial not_before not_after).

Definition parse (pem : bytes) : C (bytes + Certificate) :=
  _ ← mbed CrtInit;
  '(rc, (valid_from, valid_to)) ← mbed (CrtParse (pem ++ [NUL]));
  if negb (rc =? 0) then
    err ← words rc;
    _ ← mbed CrtFree;
    mret (inl err)
  else
    c ← read_certificate valid_from valid_to;
    _ ← mbed CrtFree;
    mret (inr c).

(** ** issue *)

Definition failed {A} (what : bytes) (rc : Z) : C (bytes + A) := w ← words rc; mret (inl (what ++ w)).

Definition personalization : bytes := lit "function-wasm cert-rotator".

(** [serial[0] &= 0x7f] *)
Definition positive_serial (raw : bytes) : bytes :=
  match raw with [] => [] | b :: raw => val_byte (Z.land (byte_val b) 127) :: raw end.

(** [int64_t] addition. *)
Definition add64 (a b : Z) : C Z :=
  if bool_decide (int64_range (a + b)) then mret (a + b) else stop UB.

Definition san_names (common_name : bytes) (dns_names : list bytes) : list bytes :=
  if existsb (fun n => bool_decide (n = common_name)) dns_names then dns_names else common_name :: dns_names.

(** The certificate and the key as PEM, and the certificate read back. *)
Definition write_issued : C (bytes + Issued) :=
  '(rc, buf) ← mbed (WriteCrtPem 4096);
  let certificate_pem := until_nul buf in
  if negb (rc =? 0) then failed (lit "cannot write the certificate: ") rc else
  '(rc, buf) ← mbed (WriteKeyPem 2048);
  let key_pem := until_nul buf in
  if negb (rc =? 0) then failed (lit "cannot write the key: ") rc else
  written ← parse certificate_pem;
  match written with
  | inl parse_err => mret (inl (lit "cannot read the certificate back: " ++ parse_err))
  | inr c => mret (inr (MkIssued certificate_pem key_pem c))
  end.

(** From the subject on. *)
Definition fill_certificate (common_name : bytes) (dns_names : list bytes) (now validity_days : Z)
    : C (bytes + Issued) :=
  _ ← mbed SetVersion3;
  _ ← mbed SetMdSha256;
  _ ← mbed SetSubjectKey;
  _ ← mbed SetIssuerKey;
  let dn := lit "CN=" ++ escaped common_name in
  rc ← mbed (SetSubjectName dn);
  rc ← if_ok rc (mbed (SetIssuerName dn));
  if negb (rc =? 0) then failed (lit "cannot set the subject " ++ dn ++ lit ": ") rc else
  '(rc, raw) ← mbed (DrbgRandom 16);
  rc ← if_ok rc (mbed (SetSerialRaw (positive_serial raw)));
  if negb (rc =? 0) then failed (lit "cannot set the serial: ") rc else
  until ← add64 now (validity_days * 86400);
  rc ← mbed (SetValidity (stamp now) (stamp until));
  rc ← if_ok rc (mbed (SetBasicConstraints 0 (-1)));
  rc ← if_ok rc (mbed (SetKeyUsage [DIGITAL_SIGNATURE; KEY_ENCIPHERMENT]));
  rc ← if_ok rc (mbed SetExtKeyUsageServerAuth);
  if negb (rc =? 0) then failed (lit "cannot set the extensions: ") rc else
  rc ← mbed (SetSubjectAlternativeName (san_names common_name dns_names));
  if negb (rc =? 0) then failed (lit "cannot set the subject alternative names: ") rc else
  write_issued.

Definition issue_with (common_name : bytes) (dns_names : list bytes) (now validity_days : Z)
    : C (bytes + Issued) :=
  rc ← mbed (DrbgSeed personalization);
  if negb (rc =? 0) then failed (lit "cannot seed the random generator: ") rc else
  rc ← mbed PkSetupEckey;
  rc ← if_ok rc (mbed GenKeySecp256r1);
  if negb (rc =? 0) then failed (lit "cannot generate the key: ") rc else
  fill_certificate common_name dns_names now validity_days.

(** With an [Issuer]: its constructor, the body, its destructor on the way out. *)
Definition Issuer {A} (body : C A) : C A :=
  _ ← mbed EntropyInit; _ ← mbed DrbgInit; _ ← mbed PkInit; _ ← mbed WriteInit;
  r ← body;
  _ ← mbed WriteFree; _ ← mbed PkFree; _ ← mbed DrbgFree; _ ← mbed EntropyFree;
  mret r.

Definition issue (common_name : bytes) (dns_names : list bytes) (now validity_days : Z) : C (bytes + Issued) :=
  Issuer (issue_with common_name dns_names now validity_days).

(** ** Base64 *)

(** A string of [size] zero bytes that a call then wrote [bs] over, resized. *)
Definition written (size n : Z) (bs : bytes) : bytes :=
  resize (Z.to_nat n) NUL (take (Z.to_nat size) (bs ++ replicate (Z.to_nat size) NUL)).

Definition base64_encode (raw : bytes) : C bytes :=
  '(_, needed, _) ← mbed (Base64Encode 0 raw);
  '(rc, n, out) ← mbed (Base64Encode needed raw);
  mret (if negb (rc =? 0) then [] else written needed n out).

Section Base64.
(** MBEDTLS_ERR_BASE64_INVALID_CHARACTER *)
Variable INVALID_CHARACTER : Z.

Definition base64_decode (encoded : bytes) : C (option bytes) :=
  '(probe, needed, _) ← mbed (Base64Decode 0 encoded);
  if probe =? INVALID_CHARACTER then mret None else
  '(rc, n, out) ← mbed (Base64Decode needed encoded);
  mret (if negb (rc =? 0) then None else Some (written needed n out)).
End Base64.
