(* ===== verification/TlsSpec.v ===== *)
(** What the certificate work does with mbedTLS, call by call. *)
From S2P Require Import Prelude CString Calendar Mbedtls Machine MachineLogic Tls.
From Stdlib Require Import Strings.Byte.

(** ** Calls of mbedTLS change nothing else *)

Definition mev (c : mcall) (a : mans c) : event := Ev (Mbedtls c) a.

(** The calls [evs] were made, and nothing else happened. *)
Record calls (evs : list event) (s s' : cst) : Prop := {
  ca_wf : wf s';
  ca_heap : heap s' = heap s;
  ca_next : next s' = next s;
  ca_vars : vars s' = vars s;
  ca_handles : handles s' = handles s;
  ca_next_h : next_h s' = next_h s;
  ca_denied : denied s' = denied s;
  ca_trace : trace s' = trace s ++ evs;
}.

Lemma calls_refl s : wf s -> calls [] s s.
Proof. intros. split; try done. by rewrite app_nil_r. Qed.

Lemma calls_trans evs evs' s s1 s2 : calls evs s s1 -> calls evs' s1 s2 -> calls (evs ++ evs') s s2.
Proof. intros [] []. split; try done; try congruence. rewrite app_assoc. congruence. Qed.

(** A library whose certificates carry valid times. *)
Definition typed_mbedtls (e : env) : Prop := forall tr buf rc vf vt,
  answers e tr (Mbedtls (CrtParse buf)) = (rc, (vf, vt)) -> rc = 0 -> valid_time vf /\ valid_time vt.

(** ** The events *)

(** Reading a parsed certificate. *)
Definition read_events (dn serial : Z * bytes) : list event :=
  [mev (DnGets 512) dn; mev (SerialGets 512) serial].
Definition read_text (a : Z * bytes) : bytes := if 0 <? a.1 then until_nul a.2 else [].

(** [c] is what the library said of the certificate in [pem], by the calls [evs]. *)
Definition parsed (pem : bytes) (evs : list event) (c : Certificate) : Prop :=
  exists vf vt dn serial,
    evs = [mev CrtInit tt; mev (CrtParse (pem ++ [NUL])) (0, (vf, vt))] ++ read_events dn serial ++ [mev CrtFree tt] /\
    Tls.subject c = read_text dn /\ Tls.serial c = read_text serial /\
    to_unix vf = Ok (not_before c) /\ to_unix vt = Ok (not_after c) /\
    - 2 ^ 57 <= not_after c < 2 ^ 57.
Definition unparsed (pem : bytes) (evs : list event) (err : bytes) : Prop :=
  exists rc times t, rc <> 0 /\ err = until_nul t /\
    evs = [mev CrtInit tt; mev (CrtParse (pem ++ [NUL])) (rc, times); mev (Strerror rc 160) t; mev CrtFree tt].

(** The calls of an issue that succeeds, in order. *)
Definition issue_events (common_name : bytes) (dns_names : list bytes) (now validity_days : Z)
    (raw certificate_buf key_buf : bytes) : list event :=
  let dn := lit "CN=" ++ escaped common_name in
  [mev (DrbgSeed personalization) 0; mev PkSetupEckey 0; mev GenKeySecp256r1 0;
   mev SetVersion3 tt; mev SetMdSha256 tt; mev SetSubjectKey tt; mev SetIssuerKey tt;
   mev (SetSubjectName dn) 0; mev (SetIssuerName dn) 0;
   mev (DrbgRandom 16) (0, raw); mev (SetSerialRaw (positive_serial raw)) 0;
   mev (SetValidity (stamp now) (stamp (now + validity_days * 86400))) 0;
   mev (SetBasicConstraints 0 (-1)) 0; mev (SetKeyUsage [DIGITAL_SIGNATURE; KEY_ENCIPHERMENT]) 0;
   mev SetExtKeyUsageServerAuth 0;
   mev (SetSubjectAlternativeName (san_names common_name dns_names)) 0;
   mev (WriteCrtPem 4096) (0, certificate_buf); mev (WriteKeyPem 2048) (0, key_buf)].

(** What a failing call is reported as. *)
Definition unless_zero (what : bytes) (rc : Z) : option (bytes * Z) := if rc =? 0 then None else Some (what, rc).
Definition mfailure_of (c : mcall) : mans c -> option (bytes * Z) :=
  match c return mans c -> option (bytes * Z) with
  | DrbgSeed _ => unless_zero (lit "cannot seed the random generator: ")
  | PkSetupEckey | GenKeySecp256r1 => unless_zero (lit "cannot generate the key: ")
  | SetSubjectName dn | SetIssuerName dn => unless_zero (lit "cannot set the subject " ++ dn ++ lit ": ")
  | DrbgRandom _ => fun a => unless_zero (lit "cannot set the serial: ") a.1
  | SetSerialRaw _ => unless_zero (lit "cannot set the serial: ")
  | SetValidity _ _ | SetBasicConstraints _ _ | SetKeyUsage _ | SetExtKeyUsageServerAuth =>
      unless_zero (lit "cannot set the extensions: ")
  | SetSubjectAlternativeName _ => unless_zero (lit "cannot set the subject alternative names: ")
  | WriteCrtPem _ => fun a => unless_zero (lit "cannot write the certificate: ") a.1
  | WriteKeyPem _ => fun a => unless_zero (lit "cannot write the key: ") a.1
  | CrtParse _ => fun a => unless_zero (lit "cannot read the certificate back: ") a.1
  | _ => fun _ => None
  end.
Definition mfailure (ev : event) : option (bytes * Z) :=
  match ev with Ev (Mbedtls c) a => mfailure_of c a | _ => None end.
Definition mfailures (evs : list event) : list (bytes * Z) := omap mfailure evs.

(** The events that open or close an issuer's context. *)
Definition is_context (ev : event) : bool :=
  match ev with
  | Ev (Mbedtls (EntropyInit | DrbgInit | PkInit | WriteInit | WriteFree | PkFree | DrbgFree | EntropyFree)) _ => true
  | _ => false
  end.

Definition no_context (evs : list event) : Prop := forallb (fun ev => negb (is_context ev)) evs = true.
Lemma no_context_app evs evs' : no_context evs -> no_context evs' -> no_context (evs ++ evs').
Proof. unfold no_context. rewrite forallb_app. by intros -> ->. Qed.

(** Exactly one call failed, and the message is what it was for and mbedTLS's
    words for its status. *)
Definition blamed (evs : list event) (err : bytes) : Prop :=
  exists what rc t, mfailures evs = [(what, rc)] /\ mev (Strerror rc 160) t ∈ evs /\ err = what ++ until_nul t.

(** The calls between the constructor and the destructor of the issuer. *)
Definition issue_spec (common_name : bytes) (dns_names : list bytes) (now validity_days : Z)
    (evs : list event) (r : bytes + Issued) : Prop :=
  no_context evs /\
  match r with
  | inl err => blamed evs err
  | inr i => mfailures evs = [] /\ exists raw certificate_buf key_buf pevs,
      evs = issue_events common_name dns_names now validity_days raw certificate_buf key_buf ++ pevs /\
      certificate_pem i = until_nul certificate_buf /\ key_pem i = until_nul key_buf /\
      parsed (certificate_pem i) pevs (certificate i)
  end.

Lemma mfailures_app evs evs' : mfailures (evs ++ evs') = mfailures evs ++ mfailures evs'.
Proof. apply omap_app. Qed.

Lemma mfailures_last evs ev f : mfailures evs = [] -> mfailure ev = Some f -> mfailures (evs ++ [ev]) = [f].
Proof. intros H1 H2. rewrite mfailures_app, H1. unfold mfailures. cbn [omap list_omap]. by rewrite H2. Qed.

Section Calls.
Context {e : env} {T : trap -> Prop}.

Lemma wp_mbed c Q s :
  wf s -> (forall a s', a = answers e (trace s) (Mbedtls c) -> calls [mev c a] s s' -> Q a s') -> wp e T (mbed c) Q s.
Proof.
  intros Hs HQ. unfold mbed. eapply wp_call_then; [done|done|by apply enter_none|]. intros a s' Ha [].
  apply wp_ret. apply HQ; [done|]. by split.
Qed.

(** The same at the head of a sequence, after the calls [evs]. *)
Lemma wp_mbed_then {B} c (f : mans c -> C B) Q evs s0 s :
  calls evs s0 s ->
  (forall a s', a = answers e (trace s) (Mbedtls c) -> calls (evs ++ [mev c a]) s0 s' -> wp e T (f a) Q s') ->
  wp e T (mbed c ≫= f) Q s.
Proof.
  intros Hc Hf. apply wp_bind. apply wp_mbed; [apply Hc|]. intros a s' Ha Hc'. apply Hf; [done|].
  by eapply calls_trans.
Qed.

End Calls.

(** The next statement is a call of mbedTLS, the calls so far being [H]. *)
Ltac wmbed H :=
  match goal with
  | |- wp _ _ (mbind ?f (mbed ?c)) ?Q _ => refine (wp_mbed_then c f Q _ _ _ H _)
  end.

Section Tls.
Context {e : env} {T : trap -> Prop}.

Lemma wp_words rc s : wf s -> wp e T (words rc) (fun w s' => exists t, w = until_nul t /\ calls [mev (Strerror rc 160) t] s s') s.
Proof.
  intros Hs. unfold words. wmbed (calls_refl s Hs). intros t s' _ Hc. apply wp_ret. by exists t.
Qed.

Lemma wp_parse pem s :
  typed_mbedtls e -> wf s ->
  wp e T (parse pem) (fun r s' => exists evs, calls evs s s' /\
    match r with inl err => unparsed pem evs err | inr c => parsed pem evs c end) s.
Proof.
  intros Ht Hs. unfold parse. wmbed (calls_refl s Hs). intros [] s1 _ H1.
  wmbed H1. intros [rc [vf vt]] s2 Ha H2. destruct (Z.eqb_spec rc 0) as [E|E]; cbn [negb].
  - destruct (Ht _ _ _ _ _ (eq_sym Ha) E) as [Hvf Hvt]. subst rc.
    apply wp_bind. unfold read_certificate.
    wmbed H2. intros [n1 b1] s3 _ H3. wmbed H3. intros [n2 b2] s4 _ H4.
    destruct (to_unix_valid vf Hvf) as (u & Hu & _), (to_unix_valid vt Hvt) as (u' & Hu' & Hb').
    eapply (wp_seq _ _ (fun r s' => r = u /\ s' = s4)); [unfold wp, get; by rewrite Hu|]. intros ? ? [-> ->].
    eapply (wp_seq _ _ (fun r s' => r = u' /\ s' = s4)); [unfold wp, get; by rewrite Hu'|]. intros ? ? [-> ->].
    apply wp_ret. wmbed H4. intros [] s5 _ H5. apply wp_ret.
    eexists. split; [exact H5|]. by exists vf, vt, (n1, b1), (n2, b2).
  - eapply wp_seq; [apply wp_words, H2|]. intros w s3 (t & -> & H3).
    wmbed (calls_trans _ _ _ _ _ H2 H3). intros [] s4 _ H4. apply wp_ret.
    eexists. split; [exact H4|]. by exists rc, (vf, vt), t.
Qed.

(** A failure reported. *)
Definition reported_failure {A} (evs : list event) (r : bytes + A) : Prop :=
  no_context evs /\
  match r with inl err => blamed evs err | inr _ => False end.

Lemma wp_failed {A} what rc evs s0 s :
  calls evs s0 s -> mfailures evs = [(what, rc)] -> no_context evs ->
  wp e T (failed (A := A) what rc) (fun r s' => exists evs', calls evs' s0 s' /\ reported_failure evs' r) s.
Proof.
  intros Hc Hf Hn. eapply wp_seq; [apply wp_words, Hc|]. intros w s' (t & -> & Hw). apply wp_ret.
  eexists. split; [by eapply calls_trans|]. split; [by apply no_context_app|].
  exists what, rc, t. split_and!; [|set_solver|done]. rewrite mfailures_app, Hf. done.
Qed.

(** The status of the call just made, [rc], is not zero: skip to the report. *)
Ltac skip_to_failure E H :=
  cbv beta iota zeta; unfold if_ok; rewrite ?E; cbn [negb];
  repeat (match goal with |- wp _ _ (mbind _ (mret _)) _ _ => apply wp_bind, wp_ret end;
          cbv beta iota zeta; rewrite ?E; cbn [negb]);
  eapply wp_mono; [eapply wp_failed;
    [exact H|apply mfailures_last; [reflexivity|cbv [mfailure mfailure_of unless_zero mev fst]; rewrite ?E; reflexivity]
    |reflexivity]|].

Lemma issue_spec_failure cn dns now days evs r : reported_failure evs r -> issue_spec cn dns now days evs r.
Proof. intros [H1 H2]. split; [done|]. by destruct r. Qed.

(** The status is zero, or the report of it is as specified. *)
Ltac accepted rc H :=
  let E := fresh in
  destruct (Z.eqb rc 0) eqn:E;
  [apply Z.eqb_eq in E; subst rc; cbv beta iota zeta; unfold if_ok; cbn [negb Z.eqb]
  |skip_to_failure E H; intros r s' (evs & ? & ?); exists evs; (split; [done|]); by apply issue_spec_failure].

Lemma wp_issue_with cn dns now days s :
  typed_mbedtls e -> wf s -> int64_range (now + days * 86400) ->
  wp e T (issue_with cn dns now days) (fun r s' => exists evs, calls evs s s' /\
    issue_spec cn dns now days evs r) s.
Proof.
  intros Ht Hs Hr. unfold issue_with, fill_certificate, write_issued.
  wmbed (calls_refl s Hs). intros rc s1 _ H1. accepted rc H1.
  wmbed H1. intros rc s2 _ H2. accepted rc H2.
  wmbed H2. intros rc s3 _ H3. accepted rc H3.
  wmbed H3. intros [] s4 _ H4. wmbed H4. intros [] s5 _ H5. wmbed H5. intros [] s6 _ H6. wmbed H6. intros [] s7 _ H7.
  cbv zeta. wmbed H7. intros rc s8 _ H8. accepted rc H8. wmbed H8. intros rc s9 _ H9. accepted rc H9.
  wmbed H9. intros [rc raw] s10 _ H10. accepted rc H10. wmbed H10. intros rc s11 _ H11. accepted rc H11.
  eapply (wp_seq _ _ (fun r s' => r = now + days * 86400 /\ s' = s11)).
  { unfold add64. rewrite bool_decide_true by done. by apply wp_ret. }
  intros ? ? [-> ->].
  wmbed H11. intros rc s12 _ H12. accepted rc H12. wmbed H12. intros rc s13 _ H13. accepted rc H13.
  wmbed H13. intros rc s14 _ H14. accepted rc H14. wmbed H14. intros rc s15 _ H15. accepted rc H15.
  wmbed H15. intros rc s16 _ H16. accepted rc H16.
  wmbed H16. intros [rc certificate_buf] s17 _ H17. accepted rc H17.
  wmbed H17. intros [rc key_buf] s18 _ H18. accepted rc H18.
  eapply wp_seq; [apply wp_parse; [done|apply H18]|]. intros [err|c] s19 (pevs & H19 & Hp); apply wp_ret.
  - eexists. split; [eapply calls_trans; [exact H18|exact H19]|]. apply issue_spec_failure.
    destruct Hp as (rc & times & t & Hrc & -> & ->). split.
    + by apply no_context_app.
    + exists (lit "cannot read the certificate back: "), rc, t. split_and!; [|set_solver|done].
      rewrite mfailures_app. change (mfailures (_ ++ [mev (WriteKeyPem 2048) _])) with (@nil (bytes * Z)).
      apply Z.eqb_neq in Hrc. cbv [mfailures omap list_omap mfailure mfailure_of unless_zero mev app fst].
      rewrite Hrc. reflexivity.
  - eexists. split; [eapply calls_trans; [exact H18|exact H19]|].
    pose proof Hp as (vf & vt & dn & serial & -> & _). split; [|split].
    + by apply no_context_app.
    + reflexivity.
    + exists raw, certificate_buf, key_buf. eexists. split; [reflexivity|]. done.
Qed.

(** The issuer's contexts around the calls of its body. *)
Definition opened : list event := [mev EntropyInit tt; mev DrbgInit tt; mev PkInit tt; mev WriteInit tt].
Definition closed : list event := [mev WriteFree tt; mev PkFree tt; mev DrbgFree tt; mev EntropyFree tt].

Lemma wp_Issuer {A} (body : C A) (P : list event -> A -> Prop) s :
  wf s ->
  (forall s1, wf s1 -> wp e T body (fun r s' => exists evs, calls evs s1 s' /\ P evs r) s1) ->
  wp e T (Issuer body) (fun r s' => exists evs, calls (opened ++ evs ++ closed) s s' /\ P evs r) s.
Proof.
  intros Hs Hb. unfold Issuer. wmbed (calls_refl s Hs). intros [] s1 _ H1. wmbed H1. intros [] s2 _ H2.
  wmbed H2. intros [] s3 _ H3. wmbed H3. intros [] s4 _ H4.
  eapply wp_seq; [apply Hb, H4|]. intros r s5 (evs & H5 & Hr).
  wmbed (calls_trans _ _ _ _ _ H4 H5). intros [] s6 _ H6. wmbed H6. intros [] s7 _ H7.
  wmbed H7. intros [] s8 _ H8. wmbed H8. intros [] s9 _ H9. apply wp_ret.
  exists evs. split; [|done]. by rewrite <- !app_assoc in H9.
Qed.

Lemma wp_issue cn dns now days s :
  typed_mbedtls e -> wf s -> int64_range (now + days * 86400) ->
  wp e T (issue cn dns now days) (fun r s' => exists evs, calls (opened ++ evs ++ closed) s s' /\
    issue_spec cn dns now days evs r) s.
Proof. intros Ht Hs Hr. apply wp_Issuer; [done|]. intros s1 Hs1. by apply wp_issue_with. Qed.
End Tls.

(** ** Base64 *)

(** mbedTLS's documentation of its base64 functions: with a buffer too small they
    answer the size they need (the encoder's with a terminating NUL), else they
    write the whole, and for nothing to encode nothing; the decoder answers [INVALID_CHARACTER] for what is not
    base64, whatever the buffer. *)
Record base64_laws (e : env) (INVALID_CHARACTER : Z) (enc : bytes -> bytes) (dec : bytes -> option bytes) : Prop := {
  encode_empty : enc [] = [] /\ forall tr dlen, exists out, answers e tr (Mbedtls (Base64Encode dlen [])) = (0, 0, out);
  encode_small : forall tr dlen src, src <> [] -> dlen <= Z.of_nat (length (enc src)) ->
    exists rc out, answers e tr (Mbedtls (Base64Encode dlen src)) = (rc, Z.of_nat (length (enc src)) + 1, out);
  encode_fits : forall tr dlen src, src <> [] -> Z.of_nat (length (enc src)) < dlen ->
    exists out, answers e tr (Mbedtls (Base64Encode dlen src)) = (0, Z.of_nat (length (enc src)), enc src ++ out);
  decode_invalid : forall tr dlen src, dec src = None ->
    exists n out, answers e tr (Mbedtls (Base64Decode dlen src)) = (INVALID_CHARACTER, n, out);
  decode_small : forall tr dlen src raw, dec src = Some raw -> dlen < Z.of_nat (length raw) ->
    exists rc out, rc <> INVALID_CHARACTER /\
      answers e tr (Mbedtls (Base64Decode dlen src)) = (rc, Z.of_nat (length raw), out);
  decode_fits : forall tr dlen src raw, dec src = Some raw -> Z.of_nat (length raw) <= dlen ->
    exists out, answers e tr (Mbedtls (Base64Decode dlen src)) = (0, Z.of_nat (length raw), raw ++ out);
  invalid_not_zero : INVALID_CHARACTER <> 0;
}.

Lemma written_whole size bs out : Z.of_nat (length bs) <= size -> written size (Z.of_nat (length bs)) (bs ++ out) = bs.
Proof.
  intros H. unfold written. rewrite Nat2Z.id, <- app_assoc, take_app_ge by lia.
  rewrite resize_app_le, resize_all by lia. done.
Qed.

Section Base64.
Context {e : env} {T : trap -> Prop} (inv : Z) (enc : bytes -> bytes) (dec : bytes -> option bytes).
Hypothesis Hlaws : base64_laws e inv enc dec.

Lemma wp_base64_encode raw s :
  wf s -> wp e T (base64_encode raw) (fun r s' => r = enc raw /\ exists evs, calls evs s s') s.
Proof.
  intros Hs. unfold base64_encode. wmbed (calls_refl s Hs). intros [[rc n] out] s1 Ha H1.
  destruct (decide (raw = [])) as [->|Hraw].
  { destruct (encode_empty _ _ _ _ Hlaws) as [He Hans]. destruct (Hans (trace s) 0) as [out1 E1].
    rewrite E1 in Ha. injection Ha as -> -> ->. wmbed H1. intros [[rc n] out] s2 Ha H2.
    destruct (Hans (trace s1) 0) as [out2 E2]. rewrite E2 in Ha. injection Ha as -> -> ->. apply wp_ret.
    split; [by rewrite He|]. by eexists. }
  destruct (encode_small _ _ _ _ Hlaws (trace s) 0 raw) as (rc' & out' & E); [done|lia|].
  rewrite E in Ha. injection Ha as -> -> ->.
  wmbed H1. intros [[rc n] out] s2 Ha H2.
  destruct (encode_fits _ _ _ _ Hlaws (trace s1) (Z.of_nat (length (enc raw)) + 1) raw) as (out2 & E2); [done|lia|].
  rewrite E2 in Ha. injection Ha as -> -> ->. apply wp_ret. cbn [Z.eqb negb].
  split; [apply written_whole; lia|]. by eexists.
Qed.

Lemma wp_base64_decode encoded s :
  wf s -> wp e T (base64_decode inv encoded) (fun r s' => r = dec encoded /\ exists evs, calls evs s s') s.
Proof.
  intros Hs. unfold base64_decode. wmbed (calls_refl s Hs). intros [[rc n] out] s1 Ha H1.
  destruct (dec encoded) as [raw|] eqn:Ed.
  2: { destruct (decode_invalid _ _ _ _ Hlaws (trace s) 0 encoded Ed) as (n' & out' & E).
       rewrite E in Ha. injection Ha as -> -> ->. rewrite Z.eqb_refl. apply wp_ret. split; [done|]. by eexists. }
  assert (rc <> inv /\ n = Z.of_nat (length raw)) as [Hrc ->].
  { destruct (Z.ltb_spec 0 (Z.of_nat (length raw))).
    - destruct (decode_small _ _ _ _ Hlaws (trace s) 0 encoded raw Ed) as (rc' & out' & Hrc & E); [lia|].
      rewrite E in Ha. by injection Ha as -> -> ->.
    - destruct (decode_fits _ _ _ _ Hlaws (trace s) 0 encoded raw Ed) as (out' & E); [lia|].
      rewrite E in Ha. injection Ha as -> -> ->. split; [|done].
      pose proof (invalid_not_zero _ _ _ _ Hlaws). congruence. }
  rewrite (proj2 (Z.eqb_neq rc inv) Hrc). wmbed H1. intros [[rc2 n2] out2] s2 Ha2 H2.
  destruct (decode_fits _ _ _ _ Hlaws (trace s1) (Z.of_nat (length raw)) encoded raw Ed) as (out' & E); [lia|].
  rewrite E in Ha2. injection Ha2 as -> -> ->. apply wp_ret. cbn [Z.eqb negb].
  split; [by rewrite written_whole|]. by eexists.
Qed.
End Base64.
