(* ===== verification/Rotator.v ===== *)
(** The decision of the cert-rotator guest (examples/cert-rotator/src/rotator.cpp,
    rotator.h). The strings of the result are never written again: each is its
    content. *)
From S2P Require Import Prelude CString Calendar Mbedtls Machine Tls.
From Stdlib Require Import Strings.Byte.

Record rotator_request := RotatorRequest {
  common_name : bytes;
  dns_names : list bytes;
  validity_days : Z;
  renew_before_days : Z;
  secret_found : bool;
  certificate_b64 : option bytes;
  key_b64 : option bytes;
  now : Z;
}.

Record rotator_result := RotatorResult {
  rotated : bool;
  reason : bytes;
  out_certificate_b64 : bytes;
  out_key_b64 : bytes;
  out_subject : bytes;
  out_serial : bytes;
  out_not_before : bytes;
  out_not_after : bytes;
  seconds_left : Z;
}.

(** A copy in the C heap; the empty string when there is no memory for it. *)
Definition keep (s : bytes) : C bytes :=
  out ← malloc (Z.of_nat (length s) + 1);
  match out with
  | None => mret []
  | Some b => _ ← put b 0 (s ++ [NUL]); c_str b 0
  end.

(** [c.not_after - now] in [int64_t]. *)
Definition sub64 (a b : Z) : C Z :=
  if bool_decide (int64_range (a - b)) then mret (a - b) else stop UB.

(** [report] on top of what is set already. *)
Definition report (rotated : bool) (reason cert key : bytes) (c : Certificate) (now : Z) : C rotator_result :=
  subject ← keep (subject c);
  serial ← keep (serial c);
  not_before ← keep (rfc3339 (not_before c));
  not_after' ← keep (rfc3339 (not_after c));
  left ← sub64 (not_after c) now;
  mret (RotatorResult rotated reason cert key subject serial not_before not_after' left).

Section Rotator.
Variable INVALID_CHARACTER : Z.

(** The certificate the Secret holds, or the reason it cannot be read. *)
Definition held (req : rotator_request) : C (bytes + Certificate) :=
  if negb (secret_found req) then mret (inl (lit "absent")) else
  match certificate_b64 req with
  | None | Some [] => mret (inl (lit "unreadable: the Secret has no tls.crt"))
  | Some cert =>
      pem ← base64_decode INVALID_CHARACTER cert;
      match pem with
      | None => mret (inl (lit "unreadable: tls.crt is not base64"))
      | Some pem =>
          c ← parse pem;
          match c with
          | inl err => mret (inl (lit "unreadable: " ++ err))
          | inr c => mret (inr c)
          end
      end
  end.

(** Issuing and reporting a new certificate, for the reason [why]. *)
Definition rotate (req : rotator_request) (why : bytes) : C (bytes + rotator_result) :=
  issued ← issue (common_name req) (dns_names req) (now req) (validity_days req);
  match issued with
  | inl err =>
      msg ← keep (lit "cannot issue a certificate for " ++ common_name req ++ lit ": " ++ err);
      mret (inl msg)
  | inr issued =>
      reason ← keep why;
      pem ← base64_encode (certificate_pem issued);
      cert ← keep pem;
      pem ← base64_encode (key_pem issued);
      key ← keep pem;
      out ← report true reason cert key (certificate issued) (now req);
      mret (inr out)
  end.

(** The message of a fatal result, or [*out]. *)
Definition rotator_decide (req : rotator_request) : C (bytes + rotator_result) :=
  current ← held req;
  match current with
  | inl why => rotate req why
  | inr c =>
      left ← sub64 (not_after c) (now req);
      if renew_before_days req * 86400 <? left then
        out ← report false (lit "valid") (default [] (certificate_b64 req)) (default [] (key_b64 req)) c (now req);
        mret (inr out)
      else rotate req (if left <=? 0 then lit "expired" else lit "expiring")
  end.
End Rotator.
