(* ===== verification/RotatorSpec.v ===== *)
(** What [rotator_decide] promises: the certificate the Secret holds is kept while
    it has more than [renew_before_days] left and replaced otherwise. *)
From S2P Require Import Prelude CString Calendar Mbedtls Machine MachineLogic Wasmfn WasmfnMem Tls TlsSpec Rotator.
From Stdlib Require Import Strings.Byte.

(** ** The decision *)

Inductive verdict := Keep (c : Certificate) | Rotate (why : bytes).

Definition verdict_of (req : rotator_request) (current : bytes + Certificate) : verdict :=
  match current with
  | inl why => Rotate why
  | inr c =>
      let left := not_after c - now req in
      if renew_before_days req * 86400 <? left then Keep c
      else Rotate (if left <=? 0 then lit "expired" else lit "expiring")
  end.

(** What the Secret holds, by the calls [evs], with [dec] for base64. *)
Definition held_spec (dec : bytes -> option bytes) (req : rotator_request) (evs : list event)
    (r : bytes + Certificate) : Prop :=
  match secret_found req, certificate_b64 req with
  | false, _ => r = inl (lit "absent") /\ evs = []
  | true, None | true, Some [] => r = inl (lit "unreadable: the Secret has no tls.crt") /\ evs = []
  | true, Some cert =>
      match dec cert with
      | None => r = inl (lit "unreadable: tls.crt is not base64")
      | Some pem => exists devs pevs, evs = devs ++ pevs /\
          match r with
          | inl why => exists err, why = lit "unreadable: " ++ err /\ unparsed pem pevs err
          | inr c => parsed pem pevs c
          end
      end
  end.

(** ** The report *)

Definition result_of (rotated : bool) (reason cert key : bytes) (c : Certificate) (now : Z) : rotator_result :=
  RotatorResult rotated reason cert key (until_nul (subject c)) (until_nul (serial c))
    (rfc3339 (not_before c)) (rfc3339 (not_after c)) (not_after c - now).

(** A step by the calls [evs] that leaves what was live as it was. *)
Record ran (evs : list event) (s s' : cst) : Prop := {
  ra_progress : progress evs s s';
  ra_vars : vars s' = vars s;
  ra_handles : handles s' = handles s;
}.

Lemma ran_refl s : wf s -> ran [] s s.
Proof. intros. split; try done. by apply progress_refl. Qed.
Lemma ran_trans evs evs' s s1 s2 : ran evs s s1 -> ran evs' s1 s2 -> ran (evs ++ evs') s s2.
Proof. intros [] []. split; [by eapply progress_trans|congruence..]. Qed.
Lemma ran_heap evs s s1 s2 : ran evs s s1 -> ran [] s1 s2 -> ran evs s s2.
Proof. intros H1 H2. rewrite <- (app_nil_r evs). by eapply ran_trans. Qed.
Lemma ran_calls evs s s' : calls evs s s' -> ran evs s s'.
Proof.
  intros H. split; [|apply H..]. split; try apply H.
  - by rewrite (ca_heap _ _ _ H).
  - by rewrite (ca_next _ _ _ H).
  - by rewrite (ca_next_h _ _ _ H).
  - by rewrite (ca_denied _ _ _ H).
Qed.
Lemma ran_wf evs s s' : ran evs s s' -> wf s'.
Proof. intros [[]]. done. Qed.
Lemma ran_denied evs s s' : ran evs s s' -> (denied s <= denied s')%nat.
Proof. intros [[]]. done. Qed.

(** Stamps have no NUL. *)
Lemma digits_no_nul f z : 0 <= z -> NUL ∉ digits f z.
Proof.
  revert z. assert (forall z, 0 <= z < 10 -> NUL ∉ [digit z]) as Hd.
  { intros z Hz [E%(f_equal byte_val)|H%elem_of_nil]%elem_of_cons; [|done].
    rewrite byte_val_digit in E by lia. change (byte_val NUL) with 0 in E. lia. }
  induction f as [|f IH]; intros z Hz; cbn [digits]; [set_solver|].
  destruct (Z.ltb_spec z 10); [by apply Hd|]. rewrite not_elem_of_app. split.
  - apply IH. Z.to_euclidean_division_equations; lia.
  - apply Hd. Z.to_euclidean_division_equations; lia.
Qed.

Lemma fmt_0d_no_nul w z : NUL ∉ fmt_0d w z.
Proof.
  unfold fmt_0d. rewrite !not_elem_of_app. split_and!.
  - destruct (z <? 0); [|set_solver]. by apply (bool_decide_unpack (NUL ∉ lit "-")).
  - intros H%elem_of_replicate_inv. vm_compute in H. discriminate H.
  - apply digits_no_nul. lia.
Qed.

Lemma until_nul_rfc3339 t : until_nul (rfc3339 t) = rfc3339 t.
Proof.
  apply until_nul_id. unfold rfc3339, snprintf. cbv zeta.
  assert (forall n (l : bytes), NUL ∉ l -> NUL ∉ take n l) as Ht.
  { intros n l Hl H. apply Hl. rewrite <- (take_drop n l). apply elem_of_app. by left. }
  apply Ht.
  assert (forall s : string, forallb (fun b => negb (bool_decide (b = NUL))) (lit s) = true -> NUL ∉ lit s) as Hl.
  { intros s Hs H. rewrite forallb_forall in Hs. apply list_elem_of_In, Hs in H. by rewrite bool_decide_true in H. }
  rewrite !not_elem_of_app. split_and!; try apply fmt_0d_no_nul; by apply Hl.
Qed.

(** What is handed to the C side: the text, or the empty string without memory. *)
Definition kept_text (m : bytes) (s : cst) (r : bytes) (s' : cst) : Prop :=
  ran [] s s' /\ (r = until_nul m \/ r = [] /\ (denied s < denied s')%nat).

(** What the report holds, whatever memory there was, and with enough of it. *)
Definition report_spec (rotated' : bool) (reason' cert key : bytes) (c : Certificate) (now : Z) (s : cst)
    (out : rotator_result) (s' : cst) : Prop :=
  rotated out = rotated' /\ reason out = reason' /\ out_certificate_b64 out = cert /\ out_key_b64 out = key /\
  seconds_left out = not_after c - now /\
  (out = result_of rotated' reason' cert key c now \/ (denied s < denied s')%nat).

Section Rotator.
Context {e : env} {T : trap -> Prop}.

Lemma wp_keep m s : wf s -> wp e T (keep m) (kept_text m s) s.
Proof.
  intros Hs. unfold keep. eapply wp_seq; [by apply wp_malloc|]. intros [b|] s1 Ha.
  - eapply wp_seq; [apply (wp_put_whole s b s1 _ _ Ha); rewrite length_app; simpl; lia|].
    intros [] s2 Ha2. pose proof (allocated_heap _ _ _ _ Ha2) as Hsub. destruct Ha2 as [Hst (-> & _ & _ & Hh)].
    assert (wp e T (c_str (next s) 0) (fun r s' => r = until_nul m /\ s' = s2) s2) as Hc.
    { unfold wp, c_str, get. rewrite Hh, lookup_insert_eq. change (0 <=? 0) with true. cbv iota.
      change (Z.to_nat 0) with O. rewrite drop_0, scan_strdup. done. }
    eapply wp_mono; [exact Hc|]. intros r s' [-> ->]. split; [|by left].
    split; [by apply progress_heap_step|apply Hst|apply Hst].
  - apply wp_ret. pose proof (allocated_heap _ _ _ _ Ha) as Hsub. destruct Ha as [Hst [_ Hd]].
    split; [|by right]. split; [by apply progress_heap_step|apply Hst|apply Hst].
Qed.

Lemma wp_report rotated' reason' cert key c now s :
  wf s -> int64_range (not_after c - now) ->
  wp e T (report rotated' reason' cert key c now) (fun out s' => ran [] s s' /\
    report_spec rotated' reason' cert key c now s out s') s.
Proof.
  intros Hs Hr. unfold report.
  eapply wp_seq; [by apply wp_keep|]. intros t1 s1 [R1 H1].
  eapply wp_seq; [eapply wp_keep, ran_wf, R1|]. intros t2 s2 [R2 H2].
  eapply wp_seq; [eapply wp_keep, ran_wf, R2|]. intros t3 s3 [R3 H3].
  eapply wp_seq; [eapply wp_keep, ran_wf, R3|]. intros t4 s4 [R4 H4].
  eapply (wp_seq _ _ (fun r s' => r = not_after c - now /\ s' = s4)).
  { unfold sub64. rewrite bool_decide_true by done. by apply wp_ret. }
  intros ? ? [-> ->]. apply wp_ret. split.
  { eapply ran_heap; [exact R1|]. eapply ran_heap; [exact R2|]. by eapply ran_heap. }
  split_and!; try done. rewrite until_nul_rfc3339 in H3, H4.
  pose proof (ran_denied _ _ _ R1). pose proof (ran_denied _ _ _ R2). pose proof (ran_denied _ _ _ R3).
  pose proof (ran_denied _ _ _ R4).
  destruct H1 as [->|[_ ?]]; [|right; lia]. destruct H2 as [->|[_ ?]]; [|right; lia].
  destruct H3 as [->|[_ ?]]; [|right; lia]. destruct H4 as [->|[_ ?]]; [|right; lia]. by left.
Qed.
End Rotator.

(** ** The whole decision *)

Section Decide.
Context {e : env} {T : trap -> Prop} (inv : Z) (enc : bytes -> bytes) (dec : bytes -> option bytes).
Hypothesis Hlaws : base64_laws e inv enc dec.
Hypothesis Htyped : typed_mbedtls e.

Lemma wp_held req s :
  wf s -> wp e T (held inv req) (fun r s' => exists evs, calls evs s s' /\ held_spec dec req evs r) s.
Proof.
  intros Hs. unfold held, held_spec. destruct (secret_found req); cbn [negb].
  2: { apply wp_ret. exists []. split; [by apply calls_refl|done]. }
  destruct (certificate_b64 req) as [[|b cert]|];
    [apply wp_ret; exists []; split; [by apply calls_refl|done]| |apply wp_ret; exists []; split; [by apply calls_refl|done]].
  eapply wp_seq; [by apply (wp_base64_decode inv enc dec Hlaws)|]. intros pem s1 [-> [devs H1]].
  destruct (dec (b :: cert)) as [pem|]; [|apply wp_ret; by exists devs].
  eapply wp_seq; [apply wp_parse; [done|apply H1]|]. intros [err|c] s2 (pevs & H2 & Hp); apply wp_ret;
    (eexists; split; [by eapply calls_trans|]); exists devs, pevs; (split; [done|]); [|done].
  by exists err.
Qed.

(** The clock and the certificate's end are far from the ends of [int64_t]. *)
Definition sane_clock (now : Z) : Prop := - 2 ^ 62 <= now < 2 ^ 62.

Lemma parsed_left pem evs c now : parsed pem evs c -> sane_clock now -> int64_range (not_after c - now).
Proof. intros (vf & vt & dn & sn & _ & _ & _ & _ & _ & H) Hn. unfold int64_range, sane_clock in *. lia. Qed.

Lemma held_left req evs c now : held_spec dec req evs (inr c) -> sane_clock now -> int64_range (not_after c - now).
Proof.
  unfold held_spec. destruct (secret_found req); [|by intros []].
  destruct (certificate_b64 req) as [[|b cert]|]; [by intros []| |by intros []].
  destruct (dec (b :: cert)) as [pem|]; [|done]. intros (devs & pevs & _ & H). by eapply parsed_left.
Qed.

(** What issuing leaves: the message, or the new certificate. *)
Definition rotated_spec (req : rotator_request) (why : bytes) (ir : bytes + Issued) (s : cst)
    (r : bytes + rotator_result) (s' : cst) : Prop :=
  match ir, r with
  | inl err, inl msg =>
      msg = until_nul (lit "cannot issue a certificate for " ++ common_name req ++ lit ": " ++ err) \/
      (denied s < denied s')%nat
  | inr i, inr out =>
      rotated out = true /\ seconds_left out = not_after (certificate i) - now req /\
      (out = result_of true (until_nul why) (until_nul (enc (certificate_pem i)))
               (until_nul (enc (key_pem i))) (certificate i) (now req) \/
       (denied s < denied s')%nat)
  | _, _ => False
  end.

Lemma wp_rotate req why s :
  wf s -> int64_range (now req + validity_days req * 86400) -> sane_clock (now req) ->
  wp e T (rotate req why) (fun r s' => exists ievs ir eevs,
    issue_spec (common_name req) (dns_names req) (now req) (validity_days req) ievs ir /\
    ran (opened ++ ievs ++ closed ++ eevs) s s' /\ rotated_spec req why ir s r s') s.
Proof.
  intros Hs Hr Hn. unfold rotate. eapply wp_seq; [by apply wp_issue|].
  intros ir s1 (ievs & H1 & Hi). apply ran_calls in H1. pose proof (ran_denied _ _ _ H1). destruct ir as [err|i].
  - eapply wp_seq; [eapply wp_keep, ran_wf, H1|]. intros msg s2 [R2 H2]. apply wp_ret.
    exists ievs, (inl err), []. split; [done|]. rewrite app_nil_r. split; [by eapply ran_heap|].
    destruct H2 as [->|[_ ?]]; [by left|right; lia].
  - eapply wp_seq; [eapply wp_keep, ran_wf, H1|]. intros t s2 [R2 H2].
    eapply wp_seq; [apply (wp_base64_encode inv enc dec Hlaws); eapply ran_wf, R2|].
    intros ? s3 [-> [b1 H3]]. apply ran_calls in H3.
    eapply wp_seq; [eapply wp_keep, ran_wf, H3|]. intros cert s4 [R4 H4].
    eapply wp_seq; [apply (wp_base64_encode inv enc dec Hlaws); eapply ran_wf, R4|].
    intros ? s5 [-> [b2 H5]]. apply ran_calls in H5.
    eapply wp_seq; [eapply wp_keep, ran_wf, H5|]. intros key s6 [R6 H6].
    assert (int64_range (not_after (certificate i) - now req)) as Hleft.
    { destruct Hi as [_ (_ & raw & cb & kb & pevs & _ & _ & _ & Hp)]. by eapply parsed_left. }
    eapply wp_seq; [apply wp_report; [eapply ran_wf, R6|done]|]. intros out s7 [R7 Hout]. apply wp_ret.
    exists ievs, (inr i), (b1 ++ b2). split; [done|]. split.
    { replace (opened ++ ievs ++ closed ++ b1 ++ b2) with (((opened ++ ievs ++ closed) ++ b1) ++ b2)
        by by rewrite <- !app_assoc.
      eapply ran_heap; [|exact R7]. eapply ran_heap; [|exact R6]. eapply ran_trans; [|exact H5].
      eapply ran_heap; [|exact R4]. eapply ran_trans; [|exact H3]. by eapply ran_heap. }
    destruct Hout as (Hrot & _ & _ & _ & Hsec & Hout). split; [done|]. split; [done|].
    pose proof (ran_denied _ _ _ R2). pose proof (ran_denied _ _ _ H3). pose proof (ran_denied _ _ _ R4).
    pose proof (ran_denied _ _ _ H5). pose proof (ran_denied _ _ _ R6). pose proof (ran_denied _ _ _ R7).
    destruct Hout as [->|?]; [|right; lia]. destruct H2 as [->|[_ ?]]; [|right; lia].
    destruct H4 as [->|[_ ?]]; [|right; lia]. destruct H6 as [->|[_ ?]]; [by left|right; lia].
Qed.

Definition decide_spec (req : rotator_request) (s : cst) (r : bytes + rotator_result) (s' : cst) : Prop :=
  exists hevs current, held_spec dec req hevs current /\
  match verdict_of req current with
  | Keep c => ran hevs s s' /\ exists out, r = inr out /\
      report_spec false (lit "valid") (default [] (certificate_b64 req)) (default [] (key_b64 req)) c (now req) s out s'
  | Rotate why => exists ievs ir eevs,
      issue_spec (common_name req) (dns_names req) (now req) (validity_days req) ievs ir /\
      ran (hevs ++ opened ++ ievs ++ closed ++ eevs) s s' /\ rotated_spec req why ir s r s'
  end.

Lemma wp_rotate_after req why hevs s s1 :
  ran hevs s s1 -> int64_range (now req + validity_days req * 86400) -> sane_clock (now req) ->
  wp e T (rotate req why) (fun r s' => exists ievs ir eevs,
    issue_spec (common_name req) (dns_names req) (now req) (validity_days req) ievs ir /\
    ran (hevs ++ opened ++ ievs ++ closed ++ eevs) s s' /\ rotated_spec req why ir s r s') s1.
Proof.
  intros H1 Hr Hn. eapply wp_mono; [apply wp_rotate; [by eapply ran_wf|done|done]|].
  intros r s2 (ievs & ir & eevs & Hi & H2 & Hs). exists ievs, ir, eevs. split; [done|].
  split; [by eapply ran_trans|]. pose proof (ran_denied _ _ _ H1). unfold rotated_spec in *.
  destruct ir, r; try done; [destruct Hs; [by left|right; lia]|].
  destruct Hs as (? & ? & Hs). split_and!; try done. destruct Hs; [by left|right; lia].
Qed.

Lemma wp_rotator_decide req s :
  wf s -> int64_range (now req + validity_days req * 86400) -> sane_clock (now req) ->
  wp e T (rotator_decide inv req) (decide_spec req s) s.
Proof.
  intros Hs Hr Hn. unfold rotator_decide. eapply wp_seq; [by apply wp_held|].
  intros current s1 (hevs & H1 & Hheld). apply ran_calls in H1. destruct current as [why|c].
  - eapply wp_mono; [by eapply wp_rotate_after|]. intros r s2 H. by exists hevs, (inl why).
  - pose proof (held_left _ _ _ _ Hheld Hn) as Hleft.
    eapply (wp_seq _ _ (fun r s' => r = not_after c - now req /\ s' = s1)).
    { unfold sub64. rewrite bool_decide_true by done. by apply wp_ret. }
    intros ? ? [-> ->]. destruct (renew_before_days req * 86400 <? not_after c - now req) eqn:E.
    + eapply wp_seq; [apply wp_report; [by eapply ran_wf|done]|]. intros out s2 [R2 Hout]. apply wp_ret.
      exists hevs, (inr c). split; [done|]. cbn [verdict_of]. rewrite E. split; [by eapply ran_heap|].
      exists out. split; [done|]. pose proof (ran_denied _ _ _ H1).
      destruct Hout as (? & ? & ? & ? & ? & Hout). split_and!; try done. destruct Hout; [by left|right; lia].
    + eapply wp_mono; [by eapply wp_rotate_after|]. intros r s2 H. exists hevs, (inr c). split; [done|].
      cbn [verdict_of]. by rewrite E.
Qed.
End Decide.
