(* ===== verification/CertFn.v ===== *)
(** The cert-rotator guest's composition function (examples/cert-rotator/src/fn.c):
    it reads the composite resource, asks Crossplane for the Secret, has
    [rotator_decide] (Rotator.v) decide and composes the Secret again. *)
From S2P Require Import Prelude BindTypes CString Proto Calendar Mbedtls Machine MachineLogic Wasmfn Structpb HelloFn Rotator.
From Stdlib Require Import Strings.Byte.

Definition resource_key : bytes := lit "certificate".
Definition default_validity_days : Z := 90.
Definition default_renew_before_days : Z := 30.

Definition observed_composite (req : fnv1_RunFunctionRequest) : option google_protobuf_Struct :=
  if negb (has_observed req) || negb (has_composite (observed req))
     || negb (has_resource (composite (observed req)))
  then None else Some (resource (composite (observed req))).

(** ** Numbers and lists *)

(** Rounded to the nearest integer, halfway cases away from zero; [None] for what
    is not finite. *)
Definition round_away (d : spec_float) : option Z :=
  match d with
  | S754_zero _ => Some 0
  | S754_finite sign m e =>
      let n := if 0 <=? e then Zpos m * 2 ^ e else (2 * Zpos m + 2 ^ (- e)) / (2 * 2 ^ (- e)) in
      Some (if sign then - n else n)
  | _ => None
  end.

Section Lround.
(** [lround] of what is not a 32-bit [long]: the result is unspecified. *)
Variable unspecified : spec_float -> Z.

Definition lround (d : spec_float) : Z :=
  match round_away d with
  | Some n => if int_range n then n else unspecified d
  | None => unspecified d
  end.

(** Whether it was a number, and [*out]. *)
Definition number_of (v : option google_protobuf_Value) (out : Z) : bool * Z :=
  match v with Some (number_value d) => (true, swrap 32 (lround d)) | _ => (false, out) end.
End Lround.

Definition values_arr (p : option Z) : C (list google_protobuf_Value) :=
  k ← block_at p; match k with ValuesArr l => mret l | _ => stop UB end.

(** The loop that fills [out] from index [i], with [n] values left: whether every
    element was a string. The strings are read back from the array as content:
    it is written nowhere else. *)
Fixpoint strings_from (n : nat) (p : option Z) (i : nat) : C (option (list bytes)) :=
  match n with
  | O => mret (Some [])
  | S n =>
      l ← values_arr p;
      match l !! i with
      | None => stop UB
      | Some v =>
          match structpb_string (Some v) with
          | None => mret None
          | Some s => r ← strings_from n p (S i); mret (cons s <$> r)
          end
      end
  end.

(** The strings, [NULL] being [None]; [*count] is their number, 0 with [NULL]. The
    array of [n + 1] pointers is allocated first ([n] comes from an array in
    memory, so [n + 1] does not wrap). *)
Definition strings_of (v : option google_protobuf_Value) : C (option (list bytes)) :=
  match v with
  | Some (list_value l) =>
      let n := values_count l in
      out ← calloc_ptrs (n + 1);
      match out with
      | None => mret None
      | Some _ => strings_from (Z.to_nat n) (values l) O
      end
  | _ => mret None
  end.

(** ** The desired state *)

(** The loop that copies the entries: the index of the last one under [key]. *)
Fixpoint last_at (entries : list fnv1_State_ResourcesEntry) (i : nat) (key : bytes) (at_ : nat) : nat :=
  match entries with
  | [] => at_
  | x :: entries =>
      last_at entries (S i) key
        (match re_key x with Some k => if strcmp_eq k key then i else at_ | None => at_ end)
  end.

Definition set_entry (x : fnv1_State_ResourcesEntry) (key : bytes) (r : google_protobuf_Struct)
    : fnv1_State_ResourcesEntry :=
  ResourcesEntry (Some key) true
    (Resource true r (connection_details_count (re_value x)) (connection_details (re_value x)) (ready (re_value x))).

Definition state_set_resource (state : fnv1_State) (key : bytes) (r : google_protobuf_Struct)
    : C (bool * fnv1_State) :=
  let n := Z.to_nat (resources_count state) in
  let m := Z.to_nat (size_t (Z.of_nat n + 1)) in
  entries ← alloc_replacing 0 (StateArr (replicate m ResourcesEntry_zero));
  match entries with
  | None => mret (false, state)
  | Some b =>
      old ← copied_entries (resources state) n;
      if (m <=? n)%nat then stop UB else
      let i := last_at old O key n in
      let all := old ++ [ResourcesEntry_zero] in
      let new := <[i := set_entry (default ResourcesEntry_zero (all !! i)) key r]> all in
      _ ← set_block b (StateArr new);
      mret (true, State (has_composite state) (composite state)
                    (uwrap 32 (Z.of_nat (if (i =? n)%nat then S n else n))) (Some b))
  end.

(** ** The ask and its answer *)

Definition secret_selector (name ns : bytes) : fnv1_ResourceSelector :=
  Selector (Some (lit "v1")) (Some (lit "Secret")) (match_name (Some name)) (Some ns).

Definition require_secret (rsp : fnv1_RunFunctionResponse) (name ns : bytes)
    : C (bool * fnv1_RunFunctionResponse) :=
  entry ← alloc_replacing 0 (RequirementsArr [RequirementsEntry_zero]);
  match entry with
  | None => mret (false, rsp)
  | Some b =>
      _ ← set_block b (RequirementsArr [RequirementsEntry (Some resource_key) true (secret_selector name ns)]);
      let q := requirements rsp in
      mret (true, with_requirements (Requirements (extra_resources q) (schemas q) 1 (Some b)) rsp)
  end.

Definition required_arr (p : option Z) : C (list fnv1_RequiredResourcesEntry) :=
  k ← block_at p; match k with RequiredArr l => mret l | _ => stop UB end.

Fixpoint answer_from (n : nat) (p : option Z) (i : nat) : C (option fnv1_Resources) :=
  match n with
  | O => mret None
  | S n =>
      l ← required_arr p;
      match l !! i with
      | None => stop UB
      | Some x =>
          match rr_key x with
          | Some k =>
              if strcmp_eq k resource_key
              then mret (Some (if rr_has_value x then rr_value x else fnv1_Resources_init_zero))
              else answer_from n p (S i)
          | None => answer_from n p (S i)
          end
      end
  end.

Definition answer (req : fnv1_RunFunctionRequest) : C (option fnv1_Resources) :=
  answer_from (Z.to_nat (required_resources_count req)) (required_resources req) O.

Definition items_arr (p : option Z) : C (list fnv1_Resource) :=
  k ← block_at p; match k with ItemsArr l => mret l | _ => stop UB end.

(** The resource of the first item, if there is one. *)
Definition first_item (secret : fnv1_Resources) : C (option google_protobuf_Struct) :=
  if 0 <? items_count secret then
    l ← items_arr (items secret);
    match l !! O with
    | None => stop UB
    | Some r => mret (if has_resource r then Some (resource r) else None)
    end
  else mret None.

(** ** What is composed *)

(** [*ok] and the Secret; the fields not set for want of memory are missing from
    it. *)
Definition secret_of (name : bytes) (out : rotator_result) : C (bool * google_protobuf_Struct) :=
  let zero := google_protobuf_Struct_init_zero in
  data ← set_all zero [(lit "tls.crt", structpb_string_value (Some (out_certificate_b64 out)));
                       (lit "tls.key", structpb_string_value (Some (out_key_b64 out)))];
  match data with
  | None => mret (false, zero)
  | Some data =>
      metadata ← set_all zero [(lit "name", structpb_string_value (Some name))];
      match metadata with
      | None => mret (false, zero)
      | Some metadata =>
          secret ← set_all zero
            [(lit "apiVersion", structpb_string_value (Some (lit "v1")));
             (lit "kind", structpb_string_value (Some (lit "Secret")));
             (lit "type", structpb_string_value (Some (lit "kubernetes.io/tls")));
             (lit "metadata", structpb_struct_value metadata);
             (lit "data", structpb_struct_value data)];
          mret (match secret with Some secret => (true, secret) | None => (false, zero) end)
      end
  end.

(** [(double)n] *)
Definition double_of (n : Z) : spec_float := binary_normalize 53 1024 n 0 false.

Definition certificate_status (secret_name : bytes) (out : rotator_result)
    : list (bytes * google_protobuf_Value) :=
  [(lit "secretName", structpb_string_value (Some secret_name));
   (lit "subject", structpb_string_value (Some (out_subject out)));
   (lit "serialNumber", structpb_string_value (Some (out_serial out)));
   (lit "notBefore", structpb_string_value (Some (out_not_before out)));
   (lit "notAfter", structpb_string_value (Some (out_not_after out)));
   (lit "daysLeft", structpb_number_value (double_of (Z.quot (seconds_left out) 86400)));
   (lit "rotated", structpb_bool_value (rotated out));
   (lit "reason", structpb_string_value (Some (reason out)))].

(** [structpb_set] works on copies of the desired composite's Structs: the arrays
    they point to are the request's. *)
Definition set_status (rsp : fnv1_RunFunctionResponse) (secret_name : bytes) (out : rotator_result)
    : C (bool * fnv1_RunFunctionResponse) :=
  let zero := google_protobuf_Struct_init_zero in
  certificate ← set_all zero (certificate_status secret_name out);
  match certificate with
  | None => mret (false, rsp)
  | Some certificate =>
      let d := desired rsp in
      '(resource, status) ←
        (if has_composite d && has_resource (composite d) then
           let r := resource (composite d) in
           v ← structpb_get (Some r) (Some (lit "status"));
           mret (r, default zero (structpb_struct v))
         else mret (zero, zero));
      '(ok, status) ← structpb_set status (lit "certificate") (structpb_struct_value certificate);
      if negb ok then mret (false, rsp) else
      '(ok, resource) ← structpb_set resource (lit "status") (structpb_struct_value status);
      if negb ok then mret (false, rsp) else
      let c := composite d in
      mret (true, with_desired
                    (State true (Resource true resource (connection_details_count c) (connection_details c) (ready c))
                       (resources_count d) (resources d)) rsp)
  end.

(** ** The function *)

Definition string_at (xr : google_protobuf_Struct) (keys : list bytes) : C (option bytes) :=
  v ← structpb_lookup (Some xr) keys; mret (structpb_string v).

(** What the composite resource asks for. *)
Record spec_of := Spec {
  sp_secret_name : bytes;
  sp_namespace : bytes;
  sp_common_name : bytes;
  sp_dns_names : list bytes;
  sp_validity_days : Z;
  sp_renew_before_days : Z;
}.

Section CertFn.
Variable unspecified : spec_float -> Z.
Variable INVALID_CHARACTER : Z.
Variable bd : build.

(** The numbers, checked. *)
Definition read_days (xr : google_protobuf_Struct) : C (bytes + Z * Z) :=
  v ← structpb_lookup (Some xr) [lit "spec"; lit "validityDays"];
  let '(_, validity_days) := number_of unspecified v default_validity_days in
  v ← structpb_lookup (Some xr) [lit "spec"; lit "renewBeforeDays"];
  let '(_, renew_before_days) := number_of unspecified v default_renew_before_days in
  mret (if validity_days <? 1 then inl (lit "spec.validityDays must be at least 1")
        else if (renew_before_days <? 0) || (validity_days <=? renew_before_days)
        then inl (lit "spec.renewBeforeDays must be at least 0 and less than spec.validityDays, or every run would rotate")
        else inr (validity_days, renew_before_days)).

(** The name of the Secret, asked for or made up. *)
Definition read_secret_name (xr : google_protobuf_Struct) (name : bytes) : C (option bytes) :=
  secret_name ← string_at xr [lit "spec"; lit "secretName"];
  match secret_name with
  | Some s => mret (Some s)
  | None => sprintf_text (name ++ lit "-tls")
  end.

Definition read_spec (xr : google_protobuf_Struct) : C (bytes + spec_of) :=
  name ← string_at xr [lit "metadata"; lit "name"];
  ns ← string_at xr [lit "metadata"; lit "namespace"];
  match name, ns with
  | None, _ => mret (inl (lit "cannot get observed composite resource: it has no metadata.name"))
  | Some _, None =>
      mret (inl (lit "the composite resource has no namespace: a Secret is namespaced, so the composite resource that owns it must be"))
  | Some name, Some ns =>
      secret_name ← read_secret_name xr name;
      match secret_name with
      | None => mret (inl (lit "out of memory"))
      | Some secret_name =>
          common_name ← string_at xr [lit "spec"; lit "commonName"];
          names ← structpb_lookup (Some xr) [lit "spec"; lit "dnsNames"];
          dns_names ← strings_of names;
          match names, dns_names with
          | Some _, None => mret (inl (lit "cannot read spec.dnsNames: it must be a list of strings"))
          | _, _ =>
              days ← read_days xr;
              mret (match days with
                    | inl msg => inl msg
                    | inr (validity_days, renew_before_days) =>
                        inr (Spec secret_name ns (default name common_name) (default [] dns_names)
                               validity_days renew_before_days)
                    end)
          end
      end
  end.

(** What [rotator_decide] is asked. *)
Definition ask_of (sp : spec_of) (secret : fnv1_Resources) : C rotator_request :=
  '(now, _) ← call Time;
  found ← first_item secret;
  match found with
  | None =>
      mret (RotatorRequest (sp_common_name sp) (sp_dns_names sp) (sp_validity_days sp) (sp_renew_before_days sp)
              false None None now)
  | Some found =>
      crt ← string_at found [lit "data"; lit "tls.crt"];
      key ← string_at found [lit "data"; lit "tls.key"];
      mret (RotatorRequest (sp_common_name sp) (sp_dns_names sp) (sp_validity_days sp) (sp_renew_before_days sp)
              true crt key now)
  end.

Definition verdict_message (secret_name : bytes) (out : rotator_result) : bytes :=
  if rotated out
  then lit "rotated the certificate in Secret " ++ secret_name ++ lit " (" ++ reason out ++ lit "): valid until " ++ out_not_after out
  else lit "the certificate in Secret " ++ secret_name ++ lit " is valid until " ++ out_not_after out.

Definition normal_result (message : bytes) : fnv1_Result :=
  Result fnv1_Severity_SEVERITY_NORMAL (Some message) None true fnv1_Target_TARGET_COMPOSITE.
Definition ready_condition (rotated : bool) : fnv1_Condition :=
  Condition (Some (lit "CertificateReady")) fnv1_Status_STATUS_CONDITION_TRUE
    (Some (if rotated then lit "Rotated" else lit "Valid")) None true fnv1_Target_TARGET_COMPOSITE_AND_CLAIM.

Definition report_ready (secret_name : bytes) (out : rotator_result) (rsp : fnv1_RunFunctionResponse)
    : C (option bytes * fnv1_RunFunctionResponse) :=
  result ← alloc_replacing 0 (ResultArr [fnv1_Result_zero]);
  condition ← alloc_replacing 0 (ConditionArr [fnv1_Condition_zero]);
  message ← sprintf_text (verdict_message secret_name out);
  match result, condition, message with
  | Some rb, Some cb, Some message =>
      _ ← set_block rb (ResultArr [normal_result message]);
      _ ← set_block cb (ConditionArr [ready_condition (rotated out)]);
      mret (None, with_conditions (Some cb) 1 (with_results (Some rb) 1 rsp))
  | _, _, _ => mret (Some (lit "out of memory"), rsp)
  end.

(** The Secret and the status composed, and reported. *)
Definition compose_secret (secret_name : bytes) (out : rotator_result) (rsp : fnv1_RunFunctionResponse)
    : C (option bytes * fnv1_RunFunctionResponse) :=
  '(ok, composed) ← secret_of secret_name out;
  if negb ok then mret (Some (lit "out of memory"), rsp) else
  '(ok, d) ← state_set_resource (desired rsp) resource_key composed;
  let rsp := with_desired d rsp in
  if negb ok then mret (Some (lit "out of memory"), rsp) else
  '(ok, rsp) ← set_status rsp secret_name out;
  if (ok : bool) then report_ready secret_name out rsp else mret (Some (lit "out of memory"), rsp).

(** With the spec read: the desired state carried forward, the ask, and the
    decision when Crossplane has answered it. *)
Definition reconcile (req : fnv1_RunFunctionRequest) (sp : spec_of) (rsp : fnv1_RunFunctionResponse)
    : C (option bytes * fnv1_RunFunctionResponse) :=
  let rsp := with_desired (if rq_has_desired req then rq_desired req else desired rsp) rsp in
  '(ok, rsp) ← require_secret rsp (sp_secret_name sp) (sp_namespace sp);
  if negb ok then mret (Some (lit "out of memory"), rsp) else
  secret ← answer req;
  match secret with
  | None =>
      _ ← wasmfn_log_debug bd (lit "Asking Crossplane for the Secret")
            [(lit "name", Some (sp_secret_name sp)); (lit "namespace", Some (sp_namespace sp))];
      mret (None, rsp)
  | Some secret =>
      ask ← ask_of sp secret;
      decided ← rotator_decide INVALID_CHARACTER ask;
      match decided with
      | inl err => mret (Some err, rsp)
      | inr out =>
          _ ← wasmfn_log_info bd
                (if rotated out then lit "Rotating the certificate" else lit "Keeping the certificate")
                [(lit "secret", Some (sp_secret_name sp)); (lit "reason", Some (reason out));
                 (lit "notAfter", Some (out_not_after out))];
          compose_secret (sp_secret_name sp) out rsp
      end
  end.

Definition run_function (req : fnv1_RunFunctionRequest) (rsp : fnv1_RunFunctionResponse)
    : C (option bytes * fnv1_RunFunctionResponse) :=
  _ ← wasmfn_log_info bd (lit "Running function")
        [(lit "tag", Some (if rq_has_meta req then default [] (rq_meta_tag req) else []))];
  match observed_composite req with
  | None => mret (Some (lit "cannot get observed composite resource: none in request"), rsp)
  | Some xr =>
      sp ← read_spec xr;
      match sp with
      | inl msg => mret (Some msg, rsp)
      | inr sp => reconcile req sp rsp
      end
  end.
End CertFn.
