(* ===== verification/CertSpec.v ===== *)
(** What the cert-rotator function reads: the composite resource's JSON value, the
    Secret Crossplane answered, and how the desired state is extended. *)
From S2P Require Import Prelude BindTypes CString Proto Calendar Mbedtls Machine MachineLogic Wasmfn WasmfnMem Structpb HelloFn HelloSpec Tls TlsSpec Rotator RotatorSpec CertFn.
From Stdlib Require Import Strings.Byte.

(** ** The spec, as JSON *)

Section SpecJson.
Variable unspecified : spec_float -> Z.

Definition number_json (j : option json) (d : Z) : Z :=
  match j with Some (JNumber f) => swrap 32 (lround unspecified f) | _ => d end.

(** A list of strings; anything else is [None]. *)
Definition strings_json (j : json) : option (list bytes) :=
  match j with JList l => mapM (fun j => text_at (Some j)) l | _ => None end.

Definition days_json (xr : json) : bytes + Z * Z :=
  let validity := number_json (json_at xr [lit "spec"; lit "validityDays"]) default_validity_days in
  let renew := number_json (json_at xr [lit "spec"; lit "renewBeforeDays"]) default_renew_before_days in
  if validity <? 1 then inl (lit "spec.validityDays must be at least 1")
  else if (renew <? 0) || (validity <=? renew)
  then inl (lit "spec.renewBeforeDays must be at least 0 and less than spec.validityDays, or every run would rotate")
  else inr (validity, renew).

Definition spec_json (xr : json) : bytes + spec_of :=
  let text keys := text_at (json_at xr (map lit keys)) in
  match text ["metadata"; "name"]%string, text ["metadata"; "namespace"]%string with
  | None, _ => inl (lit "cannot get observed composite resource: it has no metadata.name")
  | Some _, None =>
      inl (lit "the composite resource has no namespace: a Secret is namespaced, so the composite resource that owns it must be")
  | Some name, Some ns =>
      let secret_name := default (until_nul (name ++ lit "-tls")) (text ["spec"; "secretName"]%string) in
      let common_name := default name (text ["spec"; "commonName"]%string) in
      match default (Some []) (strings_json <$> json_at xr [lit "spec"; lit "dnsNames"]) with
      | None => inl (lit "cannot read spec.dnsNames: it must be a list of strings")
      | Some dns_names =>
          match days_json xr with
          | inl msg => inl msg
          | inr (validity, renew) => inr (Spec secret_name ns common_name dns_names validity renew)
          end
      end
  end.
End SpecJson.

Section Read.
Context {e : env} {T : trap -> Prop} (unspecified : spec_float -> Z).

Lemma wp_string_at xr l keys s :
  object_is (heap s) xr l -> keys <> [] ->
  wp e T (string_at xr keys) (fun r s' => s' = s /\ r = text_at (json_at (JObject l) keys)) s.
Proof.
  intros Hx Hk. eapply wp_seq; [by apply wp_structpb_lookup|]. intros v s' [-> Hv]. apply wp_ret.
  split; [done|]. by eapply value_text.
Qed.

Lemma number_of_json h v j d : option_Forall2 (value_is h) v j -> (number_of unspecified v d).2 = number_json unspecified j d.
Proof. intros [? ? []|]; done. Qed.

Lemma wp_read_days xr l s :
  object_is (heap s) xr l ->
  wp e T (read_days unspecified xr) (fun r s' => s' = s /\ r = days_json unspecified (JObject l)) s.
Proof.
  intros Hx. unfold read_days, days_json.
  eapply wp_seq; [by apply wp_structpb_lookup|]. intros v s' [-> Hv]. apply number_of_json with (d := default_validity_days) in Hv.
  destruct (number_of unspecified v default_validity_days) as [b1 validity]. cbn [snd] in Hv. subst validity.
  eapply wp_seq; [by apply wp_structpb_lookup|]. intros v' s' [-> Hv]. apply number_of_json with (d := default_renew_before_days) in Hv.
  destruct (number_of unspecified v' default_renew_before_days) as [b2 renew]. cbn [snd] in Hv. subst renew.
  apply wp_ret. done.
Qed.

Lemma wp_strings_from b pre vs js s :
  heap s !! b = Some (ValuesArr (pre ++ vs)) -> Forall2 (value_is (heap s)) vs js ->
  wp e T (strings_from (length vs) (Some b) (length pre))
    (fun r s' => s' = s /\ r = mapM (fun j => text_at (Some j)) js) s.
Proof.
  revert pre js. induction vs as [|v vs IH]; intros pre js Hb Hv; inversion Hv as [|? j ? js' Hj Hvs]; subst.
  { by apply wp_ret. }
  cbn [length strings_from]. eapply wp_seq.
  { eapply wp_seq; [by apply wp_block_at|]. intros ? ? [-> ->].
    by apply wp_ret with (Q := fun r s' => r = pre ++ v :: vs /\ s' = s). }
  intros ? ? [-> ->]. rewrite lookup_app_r, Nat.sub_diag by lia. cbn [lookup list_lookup].
  rewrite (value_text (heap s) (Some v) (Some j)) by by constructor. cbn [mapM].
  destruct (text_at (Some j)) as [t|]; [|by apply wp_ret].
  eapply wp_seq.
  { replace (S (length pre)) with (length (pre ++ [v])) by (rewrite length_app; simpl; lia).
    apply IH with (js := js'); [by rewrite <- app_assoc|done]. }
  intros ? ? [-> ->]. apply wp_ret. split; [done|].
  by destruct (mapM (fun j => text_at (Some j)) js').
Qed.

Lemma wp_strings_of v j s :
  wf s -> option_Forall2 (value_is (heap s)) v j ->
  wp e T (strings_of v) (fun r s' => ran [] s s' /\
    (r = (j ≫= strings_json) \/ r = None /\ (denied s < denied s')%nat)) s.
Proof.
  intros Hs Hv. unfold strings_of.
  destruct Hv as [v j Hv|]; [|apply wp_ret; split; [by apply ran_refl|by left]].
  destruct Hv as [| | | | |lv vs l [Hc Hl] Hvs];
    try (apply wp_ret; split; [by apply ran_refl|by left]).
  eapply wp_seq; [by apply wp_calloc_ptrs|]. intros out s1 Ha.
  pose proof (progress_allocated _ _ _ _ Ha) as Hp. destruct Ha as [Hst Ha].
  assert (ran [] s s1) as Hran by (split; [done|apply Hst|apply Hst]).
  destruct out as [b|]; [|apply wp_ret; split; [done|]; right; split; [done|apply Ha]].
  rewrite Hc, Nat2Z.id. destruct (values lv) as [vb|].
  - eapply wp_mono; [apply (wp_strings_from vb [] vs l)|].
    + by eapply progress_lookup.
    + eapply Forall2_impl; [exact Hvs|]. intros. eapply value_is_weaken; [done|apply Hp].
    + intros r s2 [-> ->]. split; [done|]. by left.
  - subst vs. inversion Hvs; subst. apply wp_ret. split; [done|]. by left.
Qed.

Definition too_long (m : bytes) : Prop := INT_MAX < Z.of_nat (length m).

Lemma wp_read_secret_name xr l name s :
  wf s -> object_is (heap s) xr l ->
  wp e T (read_secret_name xr name) (fun r s' => ran [] s s' /\
    (r = Some (default (until_nul (name ++ lit "-tls")) (text_at (json_at (JObject l) [lit "spec"; lit "secretName"])))
     \/ r = None /\ ((denied s < denied s')%nat \/ too_long (name ++ lit "-tls")))) s.
Proof.
  intros Hs Hx. eapply wp_seq; [by apply wp_string_at|]. intros ? ? [-> ->].
  destruct (text_at _) as [t|]; [apply wp_ret; split; [by apply ran_refl|by left]|].
  eapply wp_mono; [by apply wp_sprintf_text|]. intros r s' (Hst & Hsub & Hr).
  split; [split; [by apply progress_heap_step|apply Hst|apply Hst]|].
  destruct r as [t|]; [left; by subst|by right].
Qed.

Lemma wp_with_days (f : Z -> Z -> spec_of) xr l s :
  object_is (heap s) xr l ->
  wp e T (days ← read_days unspecified xr;
          mret (match days with inl msg => inl msg | inr (validity, renew) => inr (f validity renew) end))
    (fun r s' => s' = s /\ r = match days_json unspecified (JObject l) with
       | inl msg => inl msg | inr (validity, renew) => inr (f validity renew) end) s.
Proof. intros Hx. eapply wp_seq; [by apply wp_read_days|]. intros ? ? [-> ->]. by apply wp_ret. Qed.

Lemma wp_read_spec xr l s :
  wf s -> object_is (heap s) xr l ->
  wp e T (read_spec unspecified xr) (fun r s' => ran [] s s' /\
    (r = spec_json unspecified (JObject l) \/
     (exists msg, r = inl msg) /\
     ((denied s < denied s')%nat \/
      exists name, text_at (json_at (JObject l) [lit "metadata"; lit "name"]) = Some name /\ too_long (name ++ lit "-tls")))) s.
Proof.
  intros Hs Hx. unfold read_spec, spec_json. cbn [map].
  eapply wp_seq; [by apply wp_string_at|]. intros ? ? [-> ->].
  eapply wp_seq; [by apply wp_string_at|]. intros ? ? [-> ->].
  destruct (text_at (json_at (JObject l) [lit "metadata"; lit "name"])) as [name|] eqn:En;
    [|apply wp_ret; split; [by apply ran_refl|by left]].
  destruct (text_at (json_at (JObject l) [lit "metadata"; lit "namespace"])) as [ns|];
    [|apply wp_ret; split; [by apply ran_refl|by left]].
  eapply wp_seq; [by apply wp_read_secret_name|]. intros sn s1 [R1 H1].
  assert (object_is (heap s1) xr l) as Hx1 by (eapply value_is_weaken; [exact Hx|apply R1]).
  destruct sn as [sn|].
  2: { apply wp_ret. split; [done|]. right. split; [by eexists|]. destruct H1 as [?|[_ [?|?]]]; [done|by left|].
       right. by exists name. }
  destruct H1 as [[= ->]|[? _]]; [|done].
  eapply wp_seq; [by apply wp_string_at|]. intros ? ? [-> ->].
  eapply wp_seq; [by apply wp_structpb_lookup|]. intros v ? [-> Hv].
  eapply wp_seq; [by apply wp_strings_of; [eapply ran_wf, R1|]|]. intros dns s2 [R2 H2].
  pose proof (ran_heap _ _ _ _ R1 R2) as R. pose proof (ran_denied _ _ _ R1).
  assert (object_is (heap s2) xr l) as Hx2 by (eapply value_is_weaken; [exact Hx|apply R]).
  destruct H2 as [->|[-> Hd]].
  - destruct Hv as [v j Hj|]; cbn [mbind option_bind] in *.
    + cbn [fmap option_fmap option_map]. change (default ?d (Some ?x)) with x. destruct (strings_json j) as [dns|].
      * eapply wp_mono; [by eapply wp_with_days|]. intros r s3 [-> ->]. split; [exact R|]. by left.
      * apply wp_ret. split; [exact R|]. by left.
    + eapply wp_mono; [by eapply wp_with_days|]. intros r s3 [-> ->]. split; [exact R|]. by left.
  - destruct Hv as [v j Hj|].
    + apply wp_ret. split; [exact R|]. right. split; [by eexists|]. left. lia.
    + eapply wp_mono; [by eapply wp_with_days|]. intros r s3 [-> ->]. split; [exact R|]. by left.
Qed.
End Read.
