(* ===== verification/CertState.v ===== *)
(** The desired state the cert-rotator function extends: the Secret set among the
    resources, the status set on the composite, the ask and its answer. *)
From S2P Require Import Prelude BindTypes CString Proto Calendar Mbedtls Machine MachineLogic Wasmfn WasmfnMem Structpb HelloFn HelloSpec Rotator CertFn.
From Stdlib Require Import Strings.Byte.

(** ** The resources *)

Definition has_resource_key (key : bytes) (x : fnv1_State_ResourcesEntry) : bool :=
  bool_decide (re_key x = Some key).

(** The last entry under [key] replaced, or a new one at the end. *)
Fixpoint set_last (l : list fnv1_State_ResourcesEntry) (key : bytes) (r : google_protobuf_Struct)
    : list fnv1_State_ResourcesEntry :=
  match l with
  | [] => [set_entry ResourcesEntry_zero key r]
  | x :: l =>
      if has_resource_key key x && negb (existsb (has_resource_key key) l)
      then set_entry x key r :: l else x :: set_last l key r
  end.

(** The index the code's loop stops at, counted from the front. *)
Lemma last_at_shift l i key d : last_at l i key d =
  if existsb (has_resource_key key) l then (i + last_at l 0 key 0)%nat else d.
Proof.
  revert i d. induction l as [|x l IH]; intros i d; [done|]. cbn [last_at existsb].
  assert (match re_key x with Some k => if strcmp_eq k key then i else d | None => d end
          = if has_resource_key key x then i else d) as ->.
  { unfold has_resource_key, strcmp_eq. destruct (re_key x) as [k|]; [|done].
    destruct (decide (k = key)) as [->|Hne]; [by rewrite !bool_decide_true|].
    rewrite !bool_decide_false; [done|congruence|done]. }
  rewrite (IH (S i)). rewrite (IH 1%nat). destruct (existsb (has_resource_key key) l).
  - rewrite orb_true_r. lia.
  - rewrite orb_false_r. destruct (has_resource_key key x); [|done].
    destruct (re_key x); [case_match; lia|lia].
Qed.

Lemma last_at_lt l key : existsb (has_resource_key key) l = true -> (last_at l 0 key 0 < length l)%nat.
Proof.
  induction l as [|x l IH]; [done|]. cbn [existsb last_at length]. intros H. rewrite last_at_shift.
  destruct (existsb (has_resource_key key) l) eqn:E; [specialize (IH eq_refl); lia|].
  destruct (re_key x); [case_match; lia|lia].
Qed.

(** What the code writes: the array with one more entry, of which the count takes
    the first ones. *)
Lemma set_last_spec l key r :
  let i := last_at l 0 key (length l) in
  let all := l ++ [ResourcesEntry_zero] in
  let new := <[i := set_entry (default ResourcesEntry_zero (all !! i)) key r]> all in
  take (if (i =? length l)%nat then S (length l) else length l) new = set_last l key r.
Proof.
  cbv zeta. rewrite last_at_shift. destruct (existsb (has_resource_key key) l) eqn:E.
  - cbn [Nat.add]. pose proof (last_at_lt l key E) as Hlt.
    rewrite (proj2 (Nat.eqb_neq _ _)) by lia. rewrite lookup_app_l by lia.
    rewrite insert_app_l, take_app_le, take_ge by (rewrite ?length_insert; lia). clear Hlt.
    induction l as [|x l IH]; [done|]. cbn [existsb last_at set_last] in *. rewrite last_at_shift.
    destruct (existsb (has_resource_key key) l) eqn:El.
    + rewrite andb_false_r. cbn [Nat.add insert list_insert lookup list_lookup]. f_equal. by apply IH.
    + rewrite orb_false_r in E. rewrite E. cbn [andb negb].
      assert (match re_key x with Some k => if strcmp_eq k key then 0%nat else 0%nat | None => 0%nat end = O) as ->
        by (destruct (re_key x); [by case_match|done]). done.
  - rewrite Nat.eqb_refl. rewrite lookup_app_r, Nat.sub_diag by lia. cbn [lookup list_lookup default].
    rewrite insert_app_r_alt, Nat.sub_diag by lia. cbn [insert list_insert].
    rewrite take_ge by (rewrite length_app; simpl; lia).
    induction l as [|x l IH]; [done|]. cbn [existsb set_last app] in *. apply orb_false_iff in E as [-> E].
    cbn [andb]. f_equal. by apply IH.
Qed.

Lemma length_set_last l key r :
  length (set_last l key r) = if existsb (has_resource_key key) l then length l else S (length l).
Proof.
  induction l as [|x l IH]; [done|]. cbn [existsb set_last].
  destruct (has_resource_key key x), (existsb (has_resource_key key) l); cbn [andb negb orb length] in *; lia.
Qed.

(** A state's entries are the first of its array. *)
Definition entries_are (h : gmap Z block) (st : fnv1_State) (l : list fnv1_State_ResourcesEntry) : Prop :=
  resources_count st = Z.of_nat (length l) /\
  (l <> [] -> exists b more, resources st = Some b /\ h !! b = Some (StateArr (l ++ more))).

Section State.
Context {e : env} {T : trap -> Prop}.

Lemma entries_size s st l : wf s -> entries_are (heap s) st l -> 32 * Z.of_nat (length l) < memory_size.
Proof.
  intros Hs [_ H]. destruct l as [|x l]; [done|]. destruct H as (b & more & _ & Hb); [done|].
  pose proof (wf_size s Hs) as Hz. rewrite (heap_size_delete _ _ _ Hb) in Hz.
  pose proof (heap_size_nonneg (delete b (heap s))). cbn [block_size] in Hz. rewrite length_app in Hz. lia.
Qed.

Lemma wp_copied_entries h0 st l s :
  entries_are h0 st l -> h0 ⊆ heap s ->
  wp e T (copied_entries (resources st) (length l)) (fun r s' => s' = s /\ r = l) s.
Proof.
  intros [_ Hl] Hsub. unfold copied_entries. destruct (Nat.eqb_spec (length l) 0) as [E|E].
  - apply wp_ret. split; [done|]. by destruct l.
  - destruct Hl as (b & more & -> & Hb); [by intros ->|].
    eapply wp_seq.
    { eapply wp_seq; [apply wp_block_at; by eapply lookup_weaken|]. intros ? ? [-> ->].
      by apply wp_ret with (Q := fun r s' => r = l ++ more /\ s' = s). }
    intros ? ? [-> ->]. destruct (Nat.ltb_spec (length (l ++ more)) (length l)) as [H|_].
    { rewrite length_app in H. lia. }
    apply wp_ret. by rewrite take_app_length.
Qed.

Lemma wp_state_set_resource st l key r s :
  wf s -> entries_are (heap s) st l ->
  wp e T (state_set_resource st key r) (fun '(ok, st') s' => kept (heap s) s s' /\
    if ok then entries_are (heap s') st' (set_last l key r) /\
      has_composite st' = has_composite st /\ composite st' = composite st /\
      (exists b, resources st' = Some b /\ heap s !! b = None)
    else st' = st /\ heap s' = heap s /\ (denied s < denied s')%nat) s.
Proof.
  intros Hs Hl. pose proof (entries_size _ _ _ Hs Hl) as Hsz. unfold memory_size in Hsz.
  unfold state_set_resource. rewrite (proj1 Hl), Nat2Z.id.
  unfold size_t. rewrite uwrap_id by lia.
  replace (Z.to_nat (Z.of_nat (length l) + 1)) with (S (length l)) by lia.
  eapply wp_seq; [by apply wp_alloc|]. intros [b|] s1 Ha; pose proof (allocated_heap _ _ _ _ Ha) as Hsub;
    destruct Ha as [Hst H]; [|apply wp_ret; split; [by split|]; by destruct H].
  destruct H as (-> & Hfr & _ & Hh).
  eapply wp_seq; [by eapply wp_copied_entries|]. intros ? ? [-> ->].
  destruct (Nat.leb_spec (S (length l)) (length l)); [lia|].
  eapply wp_seq.
  { eapply wp_set_block; [apply Hst|rewrite Hh; apply lookup_insert_eq|].
    cbn [block_size]. rewrite length_replicate, length_insert, length_app. simpl. lia. }
  intros [] s2 [Hst2 Hh2]. apply wp_ret. split; [split; [by eapply heap_step_trans|]|].
  { rewrite Hh2. by apply subseteq_insert_fresh. }
  split; [|split_and!; [done|done|by exists (next s)]].
  pose proof (set_last_spec l key r) as Hset. cbv zeta in Hset.
  set (i := last_at l 0 key (length l)) in *. set (new := <[i := _]> _) in *.
  assert (length new = S (length l)) as Hnew by (unfold new; rewrite length_insert, length_app; simpl; lia).
  split; cbn [resources_count resources].
  - rewrite <- Hset, length_take, Hnew. destruct (i =? length l)%nat; rewrite uwrap_id by lia; lia.
  - intros _. exists (next s), (drop (if (i =? length l)%nat then S (length l) else length l) new).
    split; [done|]. rewrite <- Hset, take_drop, Hh2. apply lookup_insert_eq.
Qed.

(** ** The ask *)

Lemma wp_require_secret rsp name ns s :
  wf s ->
  wp e T (require_secret rsp name ns) (fun '(ok, rsp') s' => kept (heap s) s s' /\
    if ok then exists b, heap s !! b = None /\
      rsp' = with_requirements (Requirements (extra_resources (requirements rsp)) (schemas (requirements rsp)) 1 (Some b)) rsp /\
      heap s' !! b = Some (RequirementsArr [RequirementsEntry (Some resource_key) true (secret_selector name ns)])
    else rsp' = rsp /\ (denied s < denied s')%nat) s.
Proof.
  intros Hs. unfold require_secret. eapply wp_seq; [by apply wp_alloc|].
  intros [b|] s1 Ha; pose proof (allocated_heap _ _ _ _ Ha) as Hsub; destruct Ha as [Hst H].
  2: { apply wp_ret. split; [by split|]. split; [done|]. apply H. }
  destruct H as (-> & Hfr & _ & Hh).
  eapply wp_seq; [eapply wp_set_block; [apply Hst|rewrite Hh; apply lookup_insert_eq|done]|].
  intros [] s2 [Hst2 Hh2]. apply wp_ret. split; [split; [by eapply heap_step_trans|]|].
  - rewrite Hh2. by apply subseteq_insert_fresh.
  - exists (next s). split; [done|]. split; [done|]. rewrite Hh2. apply lookup_insert_eq.
Qed.

(** The required resources of the request. *)
Definition required_are (h : gmap Z block) (req : fnv1_RunFunctionRequest) (l : list fnv1_RequiredResourcesEntry) : Prop :=
  required_resources_count req = Z.of_nat (length l) /\
  (l <> [] -> exists b, required_resources req = Some b /\ h !! b = Some (RequiredArr l)).

(** What the entry under the key holds: nothing is an empty answer. *)
Fixpoint answered_with (l : list fnv1_RequiredResourcesEntry) : option fnv1_Resources :=
  match l with
  | [] => None
  | x :: l =>
      if decide (rr_key x = Some resource_key)
      then Some (if rr_has_value x then rr_value x else fnv1_Resources_init_zero)
      else answered_with l
  end.

Lemma wp_answer_from b pre l s :
  heap s !! b = Some (RequiredArr (pre ++ l)) ->
  wp e T (answer_from (length l) (Some b) (length pre)) (fun r s' => s' = s /\ r = answered_with l) s.
Proof.
  revert pre. induction l as [|x l IH]; intros pre Hb; [by apply wp_ret|]. cbn [length answer_from].
  eapply wp_seq.
  { eapply wp_seq; [by apply wp_block_at|]. intros ? ? [-> ->].
    by apply wp_ret with (Q := fun r s' => r = pre ++ x :: l /\ s' = s). }
  intros ? ? [-> ->]. rewrite lookup_app_r, Nat.sub_diag by lia. cbn [lookup list_lookup answered_with].
  assert (wp e T (answer_from (length l) (Some b) (S (length pre))) (fun r s' => s' = s /\ r = answered_with l) s) as Hrest.
  { replace (S (length pre)) with (length (pre ++ [x])) by (rewrite length_app; simpl; lia).
    apply IH. by rewrite <- app_assoc. }
  destruct (rr_key x) as [k|]; [|by rewrite decide_False by done]. unfold strcmp_eq.
  destruct (decide (k = resource_key)) as [->|Hne].
  - rewrite bool_decide_true, decide_True by done. by apply wp_ret.
  - rewrite bool_decide_false, decide_False by congruence. exact Hrest.
Qed.

Lemma wp_answer req l s :
  required_are (heap s) req l -> wp e T (answer req) (fun r s' => s' = s /\ r = answered_with l) s.
Proof.
  intros [Hc Hl]. unfold answer. rewrite Hc, Nat2Z.id. destruct l as [|x l]; [by apply wp_ret|].
  destruct Hl as (b & -> & Hb); [done|]. by apply (wp_answer_from b []).
Qed.

(** The first resource of an answer. *)
Definition items_are (h : gmap Z block) (rs : fnv1_Resources) (l : list fnv1_Resource) : Prop :=
  items_count rs = Z.of_nat (length l) /\
  (l <> [] -> exists b, items rs = Some b /\ h !! b = Some (ItemsArr l)).

Definition first_of (l : list fnv1_Resource) : option google_protobuf_Struct :=
  match l with r :: _ => if has_resource r then Some (resource r) else None | [] => None end.

Lemma wp_first_item rs l s :
  items_are (heap s) rs l -> wp e T (first_item rs) (fun r s' => s' = s /\ r = first_of l) s.
Proof.
  intros [Hc Hl]. unfold first_item. rewrite Hc. destruct l as [|x l]; [by apply wp_ret|].
  destruct (Z.ltb_spec 0 (Z.of_nat (length (x :: l)))); [|simpl in *; lia].
  destruct Hl as (b & -> & Hb); [done|]. eapply wp_seq.
  { eapply wp_seq; [by apply wp_block_at|]. intros ? ? [-> ->].
    by apply wp_ret with (Q := fun r s' => r = x :: l /\ s' = s). }
  intros ? ? [-> ->]. by apply wp_ret.
Qed.
End State.
