(* ===== verification/CertCompose.v ===== *)
(** What the cert-rotator function composes: the Secret, the status of the
    composite, and the report. [set_status] changes arrays that belong to the
    request; the relation [touched] says which. *)
From S2P Require Import Prelude BindTypes CString Proto Calendar Mbedtls Machine MachineLogic Wasmfn WasmfnMem Structpb HelloFn HelloSpec Rotator CertFn CertState.
From Stdlib Require Import Strings.Byte.

(** ** Steps that touch only some arrays *)

Record touched (ps : list (option Z)) (s s' : cst) : Prop := {
  tc_step : heap_step s s';
  tc_rest : forall b k, Some b ∉ ps -> heap s !! b = Some k -> heap s' !! b = Some k;
}.

Lemma touched_refl ps s : wf s -> touched ps s s.
Proof. intros. split; [by apply heap_step_refl|done]. Qed.
Lemma touched_trans ps s s1 s2 : touched ps s s1 -> touched ps s1 s2 -> touched ps s s2.
Proof. intros [H1 R1] [H2 R2]. split; [by eapply heap_step_trans|]. eauto. Qed.
Lemma touched_kept ps s s' : kept (heap s) s s' -> touched ps s s'.
Proof. intros [H Hsub]. split; [done|]. intros b k _ Hk. by eapply lookup_weaken. Qed.
Lemma touched_wf ps s s' : touched ps s s' -> wf s'.
Proof. intros [H _]. apply H. Qed.
Lemma touched_denied ps s s' : touched ps s s' -> (denied s <= denied s')%nat.
Proof. intros [H _]. apply H. Qed.

(** [st]'s array is not one of [ps]. *)
Definition off (ps : list (option Z)) (st : google_protobuf_Struct) : Prop :=
  forall b, fields st = Some b -> Some b ∉ ps.

Definition live (ps : list (option Z)) (h : gmap Z block) : Prop :=
  forall b, Some b ∈ ps -> is_Some (h !! b).

Lemma own_off ps h st : live ps h -> own_fields h st -> off ps st.
Proof. intros Hl Ho b Hb Hin. apply Hl in Hin as [k Hk]. apply Ho in Hb. congruence. Qed.

Lemma own_mono h h' st : own_fields h' st -> h ⊆ h' -> own_fields h st.
Proof.
  intros Ho Hsub b Hb. apply eq_None_not_Some. intros [k Hk]. apply Ho in Hb.
  by rewrite (lookup_weaken _ _ _ _ Hk Hsub) in Hb.
Qed.

Lemma struct_touched ps s s' st l : touched ps s s' -> off ps st -> struct_is (heap s) st l -> struct_is (heap s') st l.
Proof.
  intros [_ Hr] Ho [Hc Hf]. split; [done|]. destruct (fields st) as [b|] eqn:E; [|done]. apply Hr; [by apply Ho|done].
Qed.

(** ** The Secret *)

Definition secret_json (name : bytes) (out : rotator_result) : list (bytes * json) :=
  [(lit "apiVersion", JString (lit "v1")); (lit "kind", JString (lit "Secret"));
   (lit "type", JString (lit "kubernetes.io/tls"));
   (lit "metadata", JObject [(lit "name", JString name)]);
   (lit "data", JObject [(lit "tls.crt", JString (out_certificate_b64 out)); (lit "tls.key", JString (out_key_b64 out))])].

Definition text_field (k v : bytes) : google_protobuf_Struct_FieldsEntry := FieldsEntry (Some k) true (string_value (Some v)).

(** The three Structs it is made of. *)
Record secret_parts (h : gmap Z block) (secret metadata data : google_protobuf_Struct) (name : bytes)
    (out : rotator_result) : Prop := {
  sc_data : struct_is h data [text_field (lit "tls.crt") (out_certificate_b64 out); text_field (lit "tls.key") (out_key_b64 out)];
  sc_metadata : struct_is h metadata [text_field (lit "name") name];
  sc_secret : struct_is h secret
    [text_field (lit "apiVersion") (lit "v1"); text_field (lit "kind") (lit "Secret");
     text_field (lit "type") (lit "kubernetes.io/tls");
     FieldsEntry (Some (lit "metadata")) true (struct_value metadata);
     FieldsEntry (Some (lit "data")) true (struct_value data)];
}.

Lemma text_fields_are h kvs :
  Forall2 (fun e kj => fe_key e = Some kj.1 /\ fe_has_value e = true /\ value_is h (fe_value e) kj.2)
    (map (fun kv => text_field kv.1 kv.2) kvs) (map (fun kv => (kv.1, JString kv.2)) kvs).
Proof. induction kvs as [|kv kvs IH]; constructor; [|done]. split_and!; [done|done|constructor]. Qed.

Lemma secret_object h secret metadata data name out :
  secret_parts h secret metadata data name out -> object_is h secret (secret_json name out).
Proof.
  intros [Hd Hm Hs]. eapply is_object; [exact Hs|].
  do 3 (constructor; [split_and!; [done|done|constructor]|]).
  constructor; [split_and!; [done|done|]|constructor; [split_and!; [done|done|]|constructor]].
  - eapply is_object; [exact Hm|]. exact (text_fields_are h [(lit "name", name)]).
  - eapply is_object; [exact Hd|].
    exact (text_fields_are h [(lit "tls.crt", out_certificate_b64 out); (lit "tls.key", out_key_b64 out)]).
Qed.

Section Compose.
Context {e : env} {T : trap -> Prop}.

(** A new Struct of the fields set in turn. *)
Lemma wp_new_struct kvs s :
  wf s -> (length kvs <= 1000)%nat ->
  wp e T (set_all google_protobuf_Struct_init_zero kvs) (fun r s' => kept (heap s) s s' /\
    match r with
    | Some st => struct_is (heap s') st (fields_set [] kvs) /\ own_fields (heap s) st
    | None => (denied s < denied s')%nat
    end) s.
Proof.
  intros Hs Hl. apply wp_set_all; [done|done|done|done|]. unfold memory_size. cbn [length Nat.add]. lia.
Qed.

Lemma kept_steps s s1 s2 : kept (heap s) s s1 -> kept (heap s1) s1 s2 -> kept (heap s) s s2.
Proof. intros H1 [H2 Hsub]. eapply kept_trans; [exact H1|]. split; [done|]. etransitivity; [apply H1|done]. Qed.

Lemma struct_mono h h' st l : struct_is h st l -> h ⊆ h' -> struct_is h' st l.
Proof. intros [Hc Hf] Hsub. split; [done|]. destruct (fields st); [by eapply lookup_weaken|done]. Qed.

Lemma wp_secret_of name out s :
  wf s ->
  wp e T (secret_of name out) (fun '(ok, secret) s' => kept (heap s) s s' /\
    if ok then exists metadata data, secret_parts (heap s') secret metadata data name out /\
      own_fields (heap s) secret /\ own_fields (heap s) metadata /\ own_fields (heap s) data
    else (denied s < denied s')%nat) s.
Proof.
  intros Hs. unfold secret_of. eapply wp_seq; [apply wp_new_struct; [done|cbn; lia]|].
  intros [data|] s1 [K1 H1]; [|by apply wp_ret]. destruct H1 as [Hd Od].
  pose proof (hs_denied _ _ (kp_step _ _ _ K1)).
  eapply wp_seq; [apply wp_new_struct; [apply K1|cbn; lia]|].
  intros [metadata|] s2 [K2 H2]; pose proof (kept_steps _ _ _ K1 K2) as K12; [|apply wp_ret; split; [done|]; lia].
  destruct H2 as [Hm Om]. pose proof (hs_denied _ _ (kp_step _ _ _ K2)).
  eapply wp_seq; [apply wp_new_struct; [apply K2|cbn; lia]|].
  intros [secret|] s3 [K3 H3]; pose proof (kept_steps _ _ _ K12 K3) as K; apply wp_ret; split; try done; [|lia].
  destruct H3 as [Hsec Os]. exists metadata, data. split_and!.
  - split; [|by eapply struct_mono; [|apply K3]|exact Hsec].
    eapply struct_mono; [|apply K3]. by eapply struct_mono; [|apply K2].
  - eapply own_mono; [exact Os|apply K12].
  - eapply own_mono; [exact Om|apply K1].
  - exact Od.
Qed.

(** ** The status *)

(** The desired composite's object, and the status in it: their Structs with
    their fields, in arrays of their own. *)
Definition status_of (l : list google_protobuf_Struct_FieldsEntry) : google_protobuf_Struct :=
  default google_protobuf_Struct_init_zero (structpb_struct (get_field l (lit "status"))).
Definition composite_of (d : fnv1_State) : google_protobuf_Struct :=
  if has_composite d && has_resource (composite d) then resource (composite d) else google_protobuf_Struct_init_zero.

Record desired_object (h : gmap Z block) (d : fnv1_State)
    (lr lst : list google_protobuf_Struct_FieldsEntry) : Prop := {
  do_composite : struct_is h (composite_of d) lr;
  do_status : struct_is h (status_of lr) lst;
  do_apart : forall b, fields (composite_of d) = Some b -> fields (status_of lr) <> Some b;
  do_room : 24 * (Z.of_nat (length lr) + 1) < memory_size /\ 24 * (Z.of_nat (length lst) + 1) < memory_size;
}.

(** The arrays [set_status] may change. *)
Definition shared (d : fnv1_State) (lr : list google_protobuf_Struct_FieldsEntry) : list (option Z) :=
  [fields (composite_of d); fields (status_of lr)].

Lemma shared_live h d lr lst : desired_object h d lr lst -> live (shared d lr) h.
Proof.
  intros [[_ Hr] [_ Hst] _ _] b Hin. unfold shared in Hin.
  apply elem_of_cons in Hin as [Hb|Hin]; [|apply list_elem_of_singleton in Hin as Hb]; rewrite <- Hb in *; by eexists.
Qed.

(** The parts of the composite with its new status. *)
Record status_parts (h : gmap Z block) (lr lst : list google_protobuf_Struct_FieldsEntry)
    (secret_name : bytes) (out : rotator_result) (r st cert : google_protobuf_Struct) : Prop := {
  sp_composite : struct_is h r (set_field lr (lit "status") (struct_value st));
  sp_status : struct_is h st (set_field lst (lit "certificate") (struct_value cert));
  sp_certificate : struct_is h cert (fields_set [] (certificate_status secret_name out));
}.

Definition with_composite (r : google_protobuf_Struct) (d : fnv1_State) : fnv1_State :=
  let c := composite d in
  State true (Resource true r (connection_details_count c) (connection_details c) (ready c))
    (resources_count d) (resources d).

Lemma set_done_touched ps st l key v s r s' :
  set_done st l key v s r s' -> (forall b, fields st = Some b -> Some b ∈ ps) -> touched ps s s'.
Proof.
  intros [Hst H] Hps. split; [done|]. intros b k Hb Hk. destruct r as [[] st']; cbn in H.
  - destruct H as (_ & _ & Hfr). apply Hfr; [|done]. intros E. by apply Hps in E.
  - by destruct H as [-> _].
Qed.

Lemma set_done_fields st l key v s st' s' b :
  set_done st l key v s (true, st') s' -> fields st' = Some b -> fields st = Some b \/ heap s !! b = None.
Proof.
  intros [_ (_ & Hn & _)] Hb. cbn [snd] in Hn. destruct Hn as [Hn|(b' & Hb' & Hf)]; [left; congruence|right; congruence].
Qed.

(** The two Structs the status goes into. *)
Lemma wp_status_base d lr lst s :
  desired_object (heap s) d lr lst ->
  wp e T (if has_composite d && has_resource (composite d) then
            let r := resource (composite d) in
            v ← structpb_get (Some r) (Some (lit "status"));
            mret (r, default google_protobuf_Struct_init_zero (structpb_struct v))
          else mret (google_protobuf_Struct_init_zero, google_protobuf_Struct_init_zero))
    (fun r s' => s' = s /\ r = (composite_of d, status_of lr)) s.
Proof.
  intros [[Hc Hf] Hst Hap _]. unfold composite_of in *. destruct (has_composite d && has_resource (composite d)).
  - cbv zeta. eapply wp_seq; [by apply wp_structpb_get|]. intros v s' [-> ->]. by apply wp_ret.
  - cbn in Hf. subst lr. by apply wp_ret.
Qed.

Lemma wp_set_status rsp secret_name out lr lst s :
  wf s -> desired_object (heap s) (desired rsp) lr lst ->
  wp e T (set_status rsp secret_name out) (fun '(ok, rsp') s' => touched (shared (desired rsp) lr) s s' /\
    if ok then exists r st cert, rsp' = with_desired (with_composite r (desired rsp)) rsp /\
      status_parts (heap s') lr lst secret_name out r st cert
    else rsp' = rsp /\ (denied s < denied s')%nat) s.
Proof.
  intros Hs Hd. set (ps := shared (desired rsp) lr). pose proof (shared_live _ _ _ _ Hd) as Hlive. fold ps in Hlive.
  assert (forall b, fields (composite_of (desired rsp)) = Some b -> Some b ∈ ps) as Hinr.
  { intros b Hb. unfold ps, shared. rewrite Hb. set_solver. }
  assert (forall b, fields (status_of lr) = Some b -> Some b ∈ ps) as Hins.
  { intros b Hb. unfold ps, shared. rewrite Hb. set_solver. }
  unfold set_status. eapply wp_seq; [apply wp_new_struct; [done|cbn; lia]|].
  intros [cert|] s1 [K1 H1]; [|apply wp_ret; split; [by apply touched_kept|done]].
  destruct H1 as [Hcert Ocert]. destruct Hd as [Hr Hst Hap [Hroom1 Hroom2]].
  pose proof (hs_denied _ _ (kp_step _ _ _ K1)).
  assert (desired_object (heap s1) (desired rsp) lr lst) as Hd1.
  { split; [by eapply struct_mono; [|apply K1]|by eapply struct_mono; [|apply K1]|done|done]. }
  eapply wp_seq; [by eapply wp_status_base|]. intros ? ? [-> ->]. destruct Hd1 as [Hr1 Hst1 _ _].
  eapply wp_seq; [apply (wp_structpb_set (status_of lr) lst); [apply K1|done|done]|].
  intros [ok st] s2 D2. pose proof (set_done_touched ps _ _ _ _ _ _ _ D2 Hins) as T2.
  pose proof (touched_denied _ _ _ T2). pose proof (touched_kept ps _ _ K1) as T1.
  destruct ok; cbn [negb]; [|apply wp_ret; split; [by eapply touched_trans|]; destruct D2 as [_ (_ & ? & _)]; split; [done|lia]].
  assert (struct_is (heap s2) (composite_of (desired rsp)) lr) as Hr2.
  { destruct Hr1 as [Hc Hf]. split; [done|]. destruct (fields (composite_of (desired rsp))) as [b|] eqn:E; [|done].
    apply D2; [|done]. by apply Hap. }
  eapply wp_seq; [apply (wp_structpb_set (composite_of (desired rsp)) lr); [apply T2|done|done]|].
  intros [ok r] s3 D3. pose proof (set_done_touched ps _ _ _ _ _ _ _ D3 Hinr) as T3.
  pose proof (touched_trans _ _ _ _ T1 (touched_trans _ _ _ _ T2 T3)) as T13.
  destruct ok; cbn [negb]; [|apply wp_ret; split; [done|]; destruct D3 as [_ (_ & ? & _)]; split; [done|lia]].
  apply wp_ret. split; [done|]. exists r, st, cert. split; [done|].
  assert (off ps cert) as Hoff by (by eapply own_off).
  assert (own_fields (heap s) st \/ fields st = fields (status_of lr)) as Ost.
  { destruct D2 as [_ (_ & [Hn|(b & Hb & Hf)] & _)]; [by right|left]. intros b' Hb'.
    assert (b' = b) as -> by (cbn in Hb; congruence). apply eq_None_not_Some. intros [k Hk].
    by rewrite (lookup_weaken _ _ _ _ Hk (kp_heap _ _ _ K1)) in Hf. }
  assert (forall b, fields st = Some b -> fields (composite_of (desired rsp)) <> Some b) as Hne.
  { intros b Hb E. destruct Ost as [Ost|Ost]; [|apply (Hap b); congruence].
    apply Ost in Hb. destruct Hr as [_ Hf]. rewrite E in Hf. congruence. }
  split.
  - apply D3.
  - destruct D2 as [_ ([Hc Hf] & _)]. cbn [snd] in *. split; [done|].
    destruct (fields st) as [b|]; [|done]. apply D3; [by apply Hne|done].
  - eapply struct_touched; [exact T3|done|]. by eapply struct_touched.
Qed.

(** ** The whole *)

Definition status_json (secret_name : bytes) (out : rotator_result) : list (bytes * json) :=
  [(lit "secretName", JString secret_name); (lit "subject", JString (out_subject out));
   (lit "serialNumber", JString (out_serial out)); (lit "notBefore", JString (out_not_before out));
   (lit "notAfter", JString (out_not_after out));
   (lit "daysLeft", JNumber (double_of (Z.quot (seconds_left out) 86400)));
   (lit "rotated", JBool (rotated out)); (lit "reason", JString (reason out))].

Lemma status_object h cert secret_name out :
  struct_is h cert (fields_set [] (certificate_status secret_name out)) ->
  object_is h cert (status_json secret_name out).
Proof.
  intros H. eapply is_object; [exact H|].
  do 8 (constructor; [split_and!; [done|done|constructor]|]). constructor.
Qed.

(** A composed response: the Secret among the desired resources [entries], the
    certificate in the status of the desired composite, the result, the
    condition. *)
Definition rotated_response (secret_name : bytes) (out : rotator_result)
    (entries : list fnv1_State_ResourcesEntry) (lr lst : list google_protobuf_Struct_FieldsEntry)
    (rsp rsp' : fnv1_RunFunctionResponse) (h : gmap Z block) : Prop :=
  exists secret r st cert d rb cb,
    rsp' = with_conditions (Some cb) 1 (with_results (Some rb) 1 (with_desired (with_composite r d) rsp)) /\
    entries_are h d (set_last entries resource_key secret) /\ composite d = composite (desired rsp) /\
    object_is h secret (secret_json secret_name out) /\
    struct_is h r (set_field lr (lit "status") (struct_value st)) /\
    struct_is h st (set_field lst (lit "certificate") (struct_value cert)) /\
    object_is h cert (status_json secret_name out) /\
    h !! rb = Some (ResultArr [normal_result (until_nul (verdict_message secret_name out))]) /\
    h !! cb = Some (ConditionArr [ready_condition (rotated out)]).

Lemma entries_mono h h' st l : entries_are h st l -> h ⊆ h' -> entries_are h' st l.
Proof.
  intros [Hc H] Hsub. split; [done|]. intros Hl. destruct (H Hl) as (b & more & ? & ?).
  exists b, more. split; [done|]. by eapply lookup_weaken.
Qed.

Lemma composite_of_eq d d' :
  has_composite d' = has_composite d -> composite d' = composite d -> composite_of d' = composite_of d.
Proof. unfold composite_of. by intros -> ->. Qed.

Lemma desired_object_mono h h' d d' lr lst :
  desired_object h d lr lst -> h ⊆ h' -> has_composite d' = has_composite d -> composite d' = composite d ->
  desired_object h' d' lr lst.
Proof.
  intros [H1 H2 H3 H4] Hsub Hc Hc'. pose proof (composite_of_eq _ _ Hc Hc') as E.
  split; rewrite ?E; [by eapply struct_mono|by eapply struct_mono|done|done].
Qed.

(** What survives [set_status]: the Secret and the resources, in new arrays. *)
Lemma parts_touched ps s s' secret metadata data name out :
  touched ps s s' -> off ps secret -> off ps metadata -> off ps data ->
  secret_parts (heap s) secret metadata data name out -> secret_parts (heap s') secret metadata data name out.
Proof. intros Ht O1 O2 O3 [H1 H2 H3]. split; by eapply struct_touched. Qed.

Lemma wp_compose_secret secret_name out rsp entries lr lst s :
  wf s -> entries_are (heap s) (desired rsp) entries -> desired_object (heap s) (desired rsp) lr lst ->
  wp e T (compose_secret secret_name out rsp) (fun '(err, rsp') s' => touched (shared (desired rsp) lr) s s' /\
    match err with
    | None => rotated_response secret_name out entries lr lst rsp rsp' (heap s')
    | Some msg => msg = lit "out of memory" /\
        ((denied s < denied s')%nat \/ INT_MAX < Z.of_nat (length (verdict_message secret_name out)))
    end) s.
Proof.
  intros Hs He Hd. pose proof (shared_live _ _ _ _ Hd) as Hlive. set (ps := shared (desired rsp) lr) in *.
  unfold compose_secret. eapply wp_seq; [by apply wp_secret_of|].
  intros [ok secret] s1 [K1 H1]. pose proof (hs_denied _ _ (kp_step _ _ _ K1)).
  destruct ok; cbn [negb]; [|apply wp_ret; split; [by apply touched_kept|]; split; [done|by left]].
  destruct H1 as (metadata & data & Hparts & O1 & O2 & O3).
  eapply wp_seq; [apply wp_state_set_resource; [apply K1|eapply entries_mono; [exact He|apply K1]]|].
  intros [ok d] s2 [K2 H2]. pose proof (hs_denied _ _ (kp_step _ _ _ K2)).
  pose proof (kept_steps _ _ _ K1 K2) as K12. pose proof (touched_kept ps _ _ K12) as T12.
  destruct ok; cbn [negb]; [|apply wp_ret; split; [done|]; split; [done|]; left; destruct H2 as (_ & _ & ?); lia].
  destruct H2 as (Hent & Hhc & Hc & (db & Hdb & Hfdb)).
  eapply wp_seq.
  { eapply wp_set_status with (rsp := with_desired d rsp); [apply K2|]. cbn [desired with_desired].
    eapply desired_object_mono; [exact Hd|apply K12|done|done]. }
  assert (shared (desired (with_desired d rsp)) lr = ps) as Eps.
  { unfold ps, shared. cbn [desired with_desired]. by rewrite (composite_of_eq _ _ Hhc Hc). }
  intros [ok rsp3] s3 [T3 H3]. rewrite Eps in T3. pose proof (touched_denied _ _ _ T3).
  pose proof (touched_trans _ _ _ _ T12 T3) as T123.
  destruct ok; [|apply wp_ret; split; [done|]; split; [done|]; left; destruct H3 as [_ ?]; lia].
  destruct H3 as (r & st & cert & -> & [Hr Hst Hcert]). cbn [desired with_desired].
  eapply wp_mono; [apply wp_report_with, T3|]. intros [err rsp4] s4 [K4 H4].
  pose proof (hs_denied _ _ (kp_step _ _ _ K4)).
  split; [eapply touched_trans; [exact T123|by apply touched_kept]|]. destruct err as [msg|].
  { destruct H4 as [-> H4]. split; [done|]. destruct H4; [left; lia|by right]. }
  destruct H4 as (rb & cb & -> & Hrb & Hcb).
  exists secret, r, st, cert, d, rb, cb. split_and!; try done; try (by eapply struct_mono; [|apply K4]).
  - eapply entries_mono; [|apply K4]. destruct Hent as [Hn Hb]. split; [done|]. intros Hne.
    destruct (Hb Hne) as (b & more & Hb1 & Hb2). exists b, more. split; [done|]. apply T3; [|done].
    assert (b = db) as -> by congruence. intros Hin. apply Hlive in Hin as [k Hk].
    by rewrite (lookup_weaken _ _ _ _ Hk (kp_heap _ _ _ K1)) in Hfdb.
  - eapply value_is_weaken; [|apply K4]. eapply secret_object. eapply parts_touched; [exact T3|exact (own_off _ _ _ Hlive O1)|exact (own_off _ _ _ Hlive O2)
      |exact (own_off _ _ _ Hlive O3)|].
    destruct Hparts as [P1 P2 P3]. split; by eapply struct_mono; [|apply K2].
  - eapply value_is_weaken; [|apply K4]. by apply status_object.
Qed.
End Compose.
