(* ===== verification/CertRun.v ===== *)
(** The cert-rotator function as a whole: the ask, its answer, the decision and
    what is composed, for every host, library and allocator. *)
From S2P Require Import Prelude BindTypes CString Proto Calendar Mbedtls Machine MachineLogic Wasmfn WasmfnMem Structpb HelloFn HelloSpec Tls TlsSpec Rotator RotatorSpec CertFn CertSpec CertState CertCompose.
From Stdlib Require Import Strings.Byte.

(** ** The request *)

Definition desired_of (req : fnv1_RunFunctionRequest) : fnv1_State :=
  if rq_has_desired req then rq_desired req else fnv1_State_init_zero.

(** The Secret Crossplane answered, if any: the first item's object. *)
Definition found_is (h : gmap Z block) (rs : fnv1_Resources) (found : option (list (bytes * json))) : Prop :=
  exists l, items_are h rs l /\
    match first_of l, found with
    | Some st, Some js => object_is h st js
    | None, None => True
    | _, _ => False
    end.

Record readable_cert (h : gmap Z block) (req : fnv1_RunFunctionRequest) (xr : list (bytes * json))
    (entries : list fnv1_State_ResourcesEntry) (lr lst : list google_protobuf_Struct_FieldsEntry)
    (required : list fnv1_RequiredResourcesEntry) (found : option (list (bytes * json))) : Prop := {
  rc_composite : forall st, observed_composite req = Some st -> object_is h st xr;
  rc_entries : entries_are h (desired_of req) entries;
  rc_desired : desired_object h (desired_of req) lr lst;
  rc_required : required_are h req required;
  rc_found : forall rs, answered_with required = Some rs -> found_is h rs found;
}.

(** What [rotator_decide] is asked. *)
Definition ask_json (sp : spec_of) (found : option (list (bytes * json))) (now : Z) : rotator_request :=
  let data key := found ≫= fun js => text_at (json_at (JObject js) [lit "data"; lit key]) in
  RotatorRequest (sp_common_name sp) (sp_dns_names sp) (sp_validity_days sp) (sp_renew_before_days sp)
    (match found with Some _ => true | None => false end) (data "tls.crt"%string) (data "tls.key"%string) now.

(** ** Steps *)

(** A step that may change the arrays [ps] and no other live block. *)
Record spared (ps : list (option Z)) (s s' : cst) : Prop := {
  sd_wf : wf s';
  sd_rest : forall b k, Some b ∉ ps -> heap s !! b = Some k -> heap s' !! b = Some k;
  sd_denied : (denied s <= denied s')%nat;
  sd_handles : handles s' = handles s;
}.

Lemma spared_refl ps s : wf s -> spared ps s s.
Proof. by split. Qed.
Lemma spared_trans ps s s1 s2 : spared ps s s1 -> spared ps s1 s2 -> spared ps s s2.
Proof. intros [] []. split; eauto; [lia|congruence]. Qed.
Lemma spared_touched ps s s' : touched ps s s' -> spared ps s s'.
Proof. intros [[] H]. by split. Qed.
Lemma spared_sub ps s s' : wf s' -> heap s ⊆ heap s' -> (denied s <= denied s')%nat -> handles s' = handles s -> spared ps s s'.
Proof. intros ? Hsub ? ?. split; try done. intros b k _ Hk. by eapply lookup_weaken. Qed.
Lemma spared_ran ps evs s s' : ran evs s s' -> spared ps s s'.
Proof. intros [[] _ ?]. by apply spared_sub. Qed.
Lemma spared_logged ps level msg kv s s' : logged level msg kv s s' -> spared ps s s'.
Proof. intros [(? & Hh & ? & _) [_ ?]]. apply spared_sub; try done. by rewrite Hh. Qed.

Lemma decide_ran enc dec req s r s' : decide_spec enc dec req s r s' -> exists evs, ran evs s s'.
Proof.
  intros (hevs & current & _ & H). destruct (verdict_of req current); [eexists; apply H|].
  destruct H as (ievs & ir & eevs & _ & H & _). by eexists.
Qed.

(** The numbers a spec was read with. *)
Lemma days_json_range unspecified xr v r :
  days_json unspecified xr = inr (v, r) -> 1 <= v < 2 ^ 31 /\ 0 <= r < v.
Proof.
  unfold days_json. assert (forall j d, d < 2 ^ 31 -> number_json unspecified j d < 2 ^ 31) as Hn.
  { intros j d Hd. unfold number_json. destruct j as [[]|]; try done.
    match goal with |- swrap 32 ?z < _ => exact (proj2 (swrap_range 32 z ltac:(lia))) end. }
  pose proof (Hn (json_at xr [lit "spec"; lit "validityDays"]) default_validity_days ltac:(done)).
  revert H. generalize (number_json unspecified (json_at xr [lit "spec"; lit "validityDays"]) default_validity_days).
  generalize (number_json unspecified (json_at xr [lit "spec"; lit "renewBeforeDays"]) default_renew_before_days).
  intros b a Ha. destruct (Z.ltb_spec a 1), (Z.ltb_spec b 0); cbn [orb]; [done..|].
  destruct (Z.leb_spec a b); [done|]. intros [= <- <-]. lia.
Qed.

Lemma spec_json_range unspecified xr sp :
  spec_json unspecified xr = inr sp ->
  1 <= sp_validity_days sp < 2 ^ 31 /\ 0 <= sp_renew_before_days sp < sp_validity_days sp.
Proof.
  unfold spec_json. destruct (text_at _); [|done]. destruct (text_at _); [|done].
  destruct (default _ _) as [dns|]; [|done]. destruct (days_json unspecified xr) as [msg|[v r]] eqn:E; [done|].
  intros [= <-]. by eapply days_json_range.
Qed.

Section Run.
Context {e : env} {T : trap -> Prop} (unspecified : spec_float -> Z) (inv : Z).
Context (enc : bytes -> bytes) (dec : bytes -> option bytes).
Hypothesis Hlaws : base64_laws e inv enc dec.
Hypothesis Htyped : typed_mbedtls e.
Hypothesis Hclock : forall tr, sane_clock (answers e tr Time).

Lemma wp_ask_of sp rs found s :
  wf s -> found_is (heap s) rs found ->
  wp e T (ask_of sp rs) (fun r s' => exists now, sane_clock now /\ r = ask_json sp found now /\
    ran [Ev Time now] s s') s.
Proof.
  intros Hs (l & Hl & Hf). unfold ask_of.
  wcall; [done|done|by apply enter_none|]. intros now s1 Hnow H1.
  assert (ran [Ev Time now] s s1) as Hran.
  { split; [by eapply progress_called|apply H1|]. by rewrite (cl_handles _ _ _ _ _ H1). }
  assert (sane_clock now) as Hsane by (rewrite Hnow; apply Hclock).
  rewrite <- (cl_heap _ _ _ _ _ H1) in Hl, Hf.
  eapply wp_seq; [by apply wp_first_item|]. intros ? ? [-> ->]. unfold ask_json.
  destruct (first_of l) as [st|], found as [js|]; try done.
  - eapply wp_seq; [by apply wp_string_at|]. intros ? ? [-> ->].
    eapply wp_seq; [by apply wp_string_at|]. intros ? ? [-> ->]. apply wp_ret. by exists now.
  - apply wp_ret. by exists now.
Qed.

(** What a decision is composed into. *)
Definition decided_spec (sp : spec_of) (entries : list fnv1_State_ResourcesEntry)
    (lr lst : list google_protobuf_Struct_FieldsEntry) (rsp1 : fnv1_RunFunctionResponse) (s2 : cst)
    (decided : bytes + rotator_result) (r : option bytes * fnv1_RunFunctionResponse) (s' : cst) : Prop :=
  match decided with
  | inl msg => r = (Some msg, rsp1) /\ s' = s2
  | inr out => exists s3,
      logged level_info (if rotated out then lit "Rotating the certificate" else lit "Keeping the certificate")
        [(lit "secret", Some (sp_secret_name sp)); (lit "reason", Some (reason out));
         (lit "notAfter", Some (out_not_after out))] s2 s3 /\ trace s' = trace s3 /\
      match r with
      | (None, rsp') => rotated_response (sp_secret_name sp) out entries lr lst rsp1 rsp' (heap s')
      | (Some msg, _) => msg = lit "out of memory" /\
          ((denied s3 < denied s')%nat \/ INT_MAX < Z.of_nat (length (verdict_message (sp_secret_name sp) out)))
      end
  end.

(** The first call of a reconcile asks and returns; a later one decides. *)
Definition reconcile_spec (req : fnv1_RunFunctionRequest) (sp : spec_of) (entries : list fnv1_State_ResourcesEntry)
    (lr lst : list google_protobuf_Struct_FieldsEntry) (required : list fnv1_RequiredResourcesEntry)
    (found : option (list (bytes * json))) (rsp : fnv1_RunFunctionResponse) (s : cst)
    (r : option bytes * fnv1_RunFunctionResponse) (s' : cst) : Prop :=
  spared (shared (desired_of req) lr) s s' /\
  ((r.1 = Some (lit "out of memory") /\ (denied s < denied s')%nat /\ trace s' = trace s) \/
   exists b, heap s !! b = None /\
     heap s' !! b = Some (RequirementsArr [RequirementsEntry (Some resource_key) true
                            (secret_selector (sp_secret_name sp) (sp_namespace sp))]) /\
     let rsp0 := with_desired (desired_of req) rsp in
     let rsp1 := with_requirements (Requirements (extra_resources (requirements rsp)) (schemas (requirements rsp)) 1 (Some b)) rsp0 in
     match answered_with required with
     | None => r = (None, rsp1) /\ exists s1, heap s ⊆ heap s1 /\ trace s1 = trace s /\ (denied s <= denied s1)%nat /\
         logged level_debug (lit "Asking Crossplane for the Secret")
           [(lit "name", Some (sp_secret_name sp)); (lit "namespace", Some (sp_namespace sp))] s1 s'
     | Some _ => exists now s1 s2 decided, sane_clock now /\ trace s1 = trace s ++ [Ev Time now] /\ (denied s <= denied s1)%nat /\
         decide_spec enc dec (ask_json sp found now) s1 decided s2 /\
         decided_spec sp entries lr lst rsp1 s2 decided r s'
     end).

(** The decision, and what is composed of it. *)
Lemma wp_decided req sp entries lr lst ask rsp1 s :
  wf s -> entries_are (heap s) (desired rsp1) entries -> desired_object (heap s) (desired rsp1) lr lst ->
  desired rsp1 = desired_of req -> sane_clock (now ask) -> 1 <= validity_days ask < 2 ^ 31 ->
  wp e T (decided ← rotator_decide inv ask;
          match decided with
          | inl err => mret (Some err, rsp1)
          | inr out =>
              _ ← wasmfn_log_info Wasi
                    (if rotated out then lit "Rotating the certificate" else lit "Keeping the certificate")
                    [(lit "secret", Some (sp_secret_name sp)); (lit "reason", Some (reason out));
                     (lit "notAfter", Some (out_not_after out))];
              compose_secret (sp_secret_name sp) out rsp1
          end)
    (fun r s' => spared (shared (desired_of req) lr) s s' /\ exists decided s2,
       decide_spec enc dec ask s decided s2 /\ decided_spec sp entries lr lst rsp1 s2 decided r s') s.
Proof.
  intros Hs He Hd Heq Hnow Hv. eapply wp_seq.
  { apply (wp_rotator_decide inv enc dec Hlaws Htyped); [done| |done].
    unfold int64_range, sane_clock in *. lia. }
  intros decided s2 Hdec. destruct (decide_ran _ _ _ _ _ _ Hdec) as [evs Hran].
  pose proof (spared_ran (shared (desired_of req) lr) _ _ _ Hran) as Hsp. destruct decided as [msg|out].
  { apply wp_ret. split; [done|]. by exists (inl msg), s2. }
  eapply wp_seq; [apply wp_log_record, Hsp|]. intros [] s3 Hl.
  assert (heap s ⊆ heap s3) as Hsub3.
  { destruct Hl as [(_ & -> & _) _]. apply Hran. }
  eapply wp_mono; [apply wp_compose_secret; [apply Hl|by eapply entries_mono|by eapply desired_object_mono]|].
  intros [err rsp'] s4 [T4 H4]. rewrite Heq in T4. split.
  { eapply spared_trans; [exact Hsp|]. eapply spared_trans; [by eapply spared_logged|by apply spared_touched]. }
  exists (inr out), s2. split; [done|]. exists s3. split; [done|]. split; [apply T4|]. by destruct err.
Qed.

Lemma wp_reconcile req sp xr entries lr lst required found rsp s :
  wf s -> readable_cert (heap s) req xr entries lr lst required found -> desired rsp = fnv1_State_init_zero ->
  1 <= sp_validity_days sp < 2 ^ 31 ->
  wp e T (reconcile inv Wasi req sp rsp) (reconcile_spec req sp entries lr lst required found rsp s) s.
Proof.
  intros Hs [_ He Hd Hreq Hfound] Hr Hv. unfold reconcile.
  assert ((if rq_has_desired req then rq_desired req else desired rsp) = desired_of req) as ->
    by (unfold desired_of; by rewrite Hr).
  eapply wp_seq; [by apply wp_require_secret|]. intros [ok rsp1] s1 [K1 H1].
  pose proof (touched_kept (shared (desired_of req) lr) _ _ K1) as T1.
  destruct ok; cbn [negb].
  2: { apply wp_ret. split; [by apply spared_touched|]. left. split; [done|]. split; [apply H1|apply K1]. }
  destruct H1 as (b & Hb0 & -> & Hb). cbn [requirements with_desired] in *.
  set (rsp1 := with_requirements _ _).
  assert (Some b ∉ shared (desired_of req) lr) as Hbp.
  { intros Hin. apply (shared_live _ _ _ _ Hd) in Hin as [k Hk]. congruence. }
  assert (required_are (heap s1) req required) as Hreq1.
  { destruct Hreq as [Hc H]. split; [done|]. intros Hne. destruct (H Hne) as (b' & ? & ?). exists b'.
    split; [done|]. eapply lookup_weaken; [done|apply K1]. }
  eapply wp_seq; [by apply wp_answer|]. intros ? ? [-> ->].
  destruct (answered_with required) as [rs|] eqn:Ea.
  - assert (found_is (heap s1) rs found) as Hf1.
    { destruct (Hfound rs eq_refl) as (l & [Hc Hl] & Hf). exists l. split.
      - split; [done|]. intros Hne. destruct (Hl Hne) as (b' & ? & ?). exists b'. split; [done|].
        eapply lookup_weaken; [done|apply K1].
      - destruct (first_of l), found; try done. eapply value_is_weaken; [done|apply K1]. }
    eapply wp_seq; [apply wp_ask_of; [apply K1|done]|]. intros ask s2 (now & Hnow & -> & R2).
    assert (heap s ⊆ heap s2) as Hsub2 by (etransitivity; [apply K1|apply R2]).
    eapply wp_mono; [apply (wp_decided req sp entries lr lst)|].
    + eapply ran_wf, R2.
    + eapply entries_mono; [exact He|done].
    + by eapply desired_object_mono.
    + done.
    + done.
    + done.
    + intros r s3 [Hsp3 (decided & s4 & Hdec & Hspec)]. split.
      { eapply spared_trans; [by apply spared_touched|]. eapply spared_trans; [by eapply spared_ran|exact Hsp3]. }
      right. exists b. split; [done|]. split.
      { apply Hsp3; [done|]. eapply progress_lookup; [apply R2|done]. }
      cbv zeta. rewrite Ea. exists now, s2, s4, decided. split_and!; try done.
      * rewrite (pr_trace _ _ _ (ra_progress _ _ _ R2)). by rewrite (hs_trace _ _ (tc_step _ _ _ T1)).
      * pose proof (ran_denied _ _ _ R2). pose proof (touched_denied _ _ _ T1). lia.
  - eapply wp_seq; [apply wp_log_record, K1|]. intros [] s2 Hl. apply wp_ret. split.
    { eapply spared_trans; [by apply spared_touched|by eapply spared_logged]. }
    right. exists b. split; [done|]. split.
    { destruct Hl as [(_ & -> & _) _]. done. }
    cbv zeta. rewrite Ea. split; [done|]. exists s1. split; [apply K1|]. split; [apply T1|]. split; [apply T1|done].
Qed.

(** ** The function *)

Definition cert_spec (req : fnv1_RunFunctionRequest) (xr : list (bytes * json)) (entries : list fnv1_State_ResourcesEntry)
    (lr lst : list google_protobuf_Struct_FieldsEntry) (required : list fnv1_RequiredResourcesEntry)
    (found : option (list (bytes * json))) (rsp : fnv1_RunFunctionResponse) (s : cst)
    (r : option bytes * fnv1_RunFunctionResponse) (s' : cst) : Prop :=
  spared (shared (desired_of req) lr) s s' /\
  exists s1, logged level_info (lit "Running function")
      [(lit "tag", Some (if rq_has_meta req then default [] (rq_meta_tag req) else []))] s s1 /\
  match observed_composite req with
  | None => r = (Some (lit "cannot get observed composite resource: none in request"), rsp) /\ s' = s1
  | Some _ => exists s2, ran [] s1 s2 /\
      (match spec_json unspecified (JObject xr) with
      | inl msg => r = (Some msg, rsp) /\ s' = s2
      | inr sp => reconcile_spec req sp entries lr lst required found rsp s2 r s'
       end \/
       (exists msg, r = (Some msg, rsp) /\ s' = s2 /\
        ((denied s1 < denied s2)%nat \/ exists name,
           text_at (json_at (JObject xr) [lit "metadata"; lit "name"]) = Some name /\ too_long (name ++ lit "-tls"))))
  end.

Lemma readable_mono h h' req xr entries lr lst required found :
  readable_cert h req xr entries lr lst required found -> h ⊆ h' ->
  readable_cert h' req xr entries lr lst required found.
Proof.
  intros [H1 H2 H3 H4 H5] Hsub. split.
  - intros st Hst. eapply value_is_weaken; [by apply H1|done].
  - by eapply entries_mono.
  - by eapply desired_object_mono.
  - destruct H4 as [Hc H]. split; [done|]. intros Hne. destruct (H Hne) as (b' & ? & ?). exists b'.
    split; [done|]. by eapply lookup_weaken.
  - intros rs Hrs. destruct (H5 rs Hrs) as (l & [Hc Hl] & Hf). exists l. split.
    + split; [done|]. intros Hne. destruct (Hl Hne) as (b' & ? & ?). exists b'. split; [done|]. by eapply lookup_weaken.
    + destruct (first_of l), found; try done. by eapply value_is_weaken.
Qed.

Lemma wp_cert req xr entries lr lst required found rsp s :
  wf s -> readable_cert (heap s) req xr entries lr lst required found -> desired rsp = fnv1_State_init_zero ->
  wp e T (run_function unspecified inv Wasi req rsp)
    (cert_spec req xr entries lr lst required found rsp s) s.
Proof.
  intros Hs Hreq Hr. unfold run_function. eapply wp_seq; [by apply wp_log_record|]. intros [] s1 Hl.
  pose proof (spared_logged (shared (desired_of req) lr) _ _ _ _ _ Hl) as S1.
  assert (heap s1 = heap s) as Hh1 by apply Hl.
  destruct (observed_composite req) as [st|] eqn:Ex.
  2: { apply wp_ret. split; [done|]. exists s1. split; [done|]. by rewrite Ex. }
  eapply wp_seq; [apply wp_read_spec; [apply Hl|]|].
  { rewrite Hh1. by apply (rc_composite _ _ _ _ _ _ _ _ Hreq). }
  intros sp s2 [R2 H2]. pose proof (spared_ran (shared (desired_of req) lr) _ _ _ R2) as S2.
  destruct H2 as [->|[[msg ->] Hbad]].
  - destruct (spec_json unspecified (JObject xr)) as [msg|sp] eqn:Esp.
    + apply wp_ret. split; [by eapply spared_trans|]. exists s1. split; [done|]. rewrite Ex.
      exists s2. split; [exact R2|]. left. by rewrite Esp.
    + eapply wp_mono; [eapply wp_reconcile; [apply S2|eapply readable_mono; [exact Hreq|]|done|]|].
      * rewrite <- Hh1. apply R2.
      * by eapply spec_json_range.
      * intros r s3 H3. split; [eapply spared_trans; [exact S1|]; eapply spared_trans; [exact S2|apply H3]|].
        exists s1. split; [done|]. rewrite Ex. exists s2. split; [exact R2|]. left. by rewrite Esp.
  - apply wp_ret. split; [by eapply spared_trans|]. exists s1. split; [done|]. rewrite Ex. exists s2. split; [exact R2|].
    right. by exists msg.
Qed.
End Run.
