(* ===== verification/TlsProps.v ===== *)
(** The properties of the certificate work: what a certificate is issued with,
    how an issue fails, that every mbedTLS context is freed, and that a name
    cannot break out of its attribute. *)
From S2P Require Import Prelude BindTypes CString Calendar Mbedtls Machine MachineLogic Wasmfn WasmfnMem WasmfnProps Tls TlsSpec Rotator RotatorSpec.
From Stdlib Require Import Strings.Byte.

(** ** The library of the witnesses *)

Definition no_base64 : Z := -44.
Lemma kind_base64 : base64_laws kind_env no_base64 id Some.
Proof.
  split.
  - split; [done|]. intros tr dlen. exists [NUL]. cbn. done.
  - intros tr dlen [|b src] Hne Hd; [done|]. eexists _, _. cbn [answers kind_env kind_host working_mbedtls].
    destruct (Z.eqb_spec (Z.of_nat (length (b :: src))) 0); [simpl in *; lia|].
    destruct (Z.leb_spec dlen (Z.of_nat (length (b :: src)))); [reflexivity|unfold id in *; lia].
  - intros tr dlen src Hne Hd. exists [NUL]. cbn [answers kind_env kind_host working_mbedtls].
    destruct (Z.leb_spec dlen (Z.of_nat (length src))); [unfold id in *; lia|]. by rewrite andb_false_r.
  - done.
  - intros tr dlen src raw [= ->] Hd. eexists _, _. split; cycle 1.
    + cbn [answers kind_env kind_host working_mbedtls]. rewrite (proj2 (Z.ltb_lt _ _) Hd). reflexivity.
    + done.
  - intros tr dlen src raw [= ->] Hd. exists []. cbn [answers kind_env kind_host working_mbedtls].
    rewrite (proj2 (Z.ltb_ge _ _) Hd), app_nil_r. done.
  - done.
Qed.

Lemma kind_mbedtls : typed_mbedtls kind_env.
Proof. intros tr buf rc vf vt [= <- <- <-] _. split; (split; [vm_compute; split; congruence|cbn; lia]). Qed.

(** ** Issuing *)

(** C28. [issue] opens its four mbedTLS contexts and frees each of them once, in the
    reverse order, whatever happens in between. When it succeeds it made exactly
    the calls of [issue_events], every one answered 0: the subject and the issuer
    are the escaped common name, the serial is positive, the validity is
    [validity_days] from now, the names include the common name, and the
    certificate returned is the one written, read back. When it fails, exactly
    one call failed and the error is what it was for with mbedTLS's words. *)
Theorem issue_conducts e cn dns now days s :
  typed_mbedtls e -> wf s -> int64_range (now + days * 86400) ->
  wp e (fun _ => False) (issue cn dns now days) (fun r s' => exists evs,
    calls (opened ++ evs ++ closed) s s' /\ issue_spec cn dns now days evs r) s.
Proof. apply wp_issue. Qed.

Lemma issue_conducts_witness :
  int64_range (1700000000 + 90 * 86400) /\
  wp kind_env (fun _ => False) (issue (lit "a.test") [lit "b.test"] 1700000000 90) (fun r s' => exists evs,
    calls (opened ++ evs ++ closed) start s' /\ issue_spec (lit "a.test") [lit "b.test"] 1700000000 90 evs r) start.
Proof.
  assert (int64_range (1700000000 + 90 * 86400)) as H by (vm_compute; split; congruence).
  split; [exact H|].
  apply (issue_conducts kind_env (lit "a.test") [lit "b.test"] 1700000000 90 start kind_mbedtls start_wf H).
Defined.

(** ** Names *)

(** RFC 4514's string of an attribute value (section 3): a backslash is followed by
    one of these characters or by two hexadecimal digits, and the characters of
    [rfc_escaped] and NUL do not stand bare; nor does a space at either end or a
    number sign in front. A comma or a plus sign ends the value. *)
Definition rfc_escaped : list byte := [x22; x2b; x2c; x3b; x3c; x3e].
Definition rfc_pair : list byte := [x5c; x20; x23; x3d] ++ rfc_escaped.
Definition hex_digit (c : byte) : option Z :=
  let z := byte_val c in
  if (48 <=? z) && (z <=? 57) then Some (z - 48)
  else if (65 <=? z) && (z <=? 70) then Some (z - 55)
  else if (97 <=? z) && (z <=? 102) then Some (z - 87) else None.
Definition ends_value (bs : bytes) : bool :=
  match bs with [] => true | c :: _ => bool_decide (c = x2c \/ c = x2b) end.

(** The value, and what is left. *)
Fixpoint rfc_chars (bs : bytes) : option (bytes * bytes) :=
  match bs with
  | [] => Some ([], [])
  | c :: rest =>
      if ends_value bs then Some ([], bs)
      else if bool_decide (c = x5c) then
        match rest with
        | d :: rest' =>
            if bool_decide (d ∈ rfc_pair) then '(v, r) ← rfc_chars rest'; Some (d :: v, r)
            else
              match rest' with
              | d' :: rest' =>
                  h ← hex_digit d; l ← hex_digit d'; '(v, r) ← rfc_chars rest'; Some (val_byte (16 * h + l) :: v, r)
              | [] => None
              end
        | [] => None
        end
      else if bool_decide (c ∈ NUL :: rfc_escaped) || bool_decide (c = x20) && ends_value rest then None
      else '(v, r) ← rfc_chars rest; Some (c :: v, r)
  end.
Definition rfc_value (bs : bytes) : option (bytes * bytes) :=
  match bs with
  | c :: _ => if bool_decide (c = x20 \/ c = x23) then None else rfc_chars bs
  | [] => rfc_chars bs
  end.

(** A text without NUL that neither begins nor ends with a space. *)
Definition plain_name (cn : bytes) : Prop := NUL ∉ cn /\ head cn <> Some x20 /\ last cn <> Some x20.

Lemma escaped_cons c v : escaped (c :: v) = (if dn_special c then [x5c; c] else [c]) ++ escaped v.
Proof. done. Qed.

(** The characters that are escaped may be, and those that are not need not. *)
Lemma escaped_pair c : dn_special c = true -> c <> NUL -> c ∈ rfc_pair.
Proof. intros H Hn. apply bool_decide_eq_true in H. set_solver. Qed.
Lemma bare_char c : dn_special c = false -> c <> x5c /\ c ∉ NUL :: rfc_escaped /\ c <> x23 /\ ~ (c = x2c \/ c = x2b).
Proof. intros H. apply bool_decide_eq_false in H. set_solver. Qed.

Lemma ends_escaped c v rest : ends_value (escaped (c :: v) ++ rest) = false.
Proof.
  rewrite escaped_cons. destruct (dn_special c) eqn:E; [done|]. apply bare_char in E as (_ & _ & _ & E).
  by apply bool_decide_eq_false.
Qed.

Lemma rfc_chars_escaped v rest :
  ends_value rest = true -> NUL ∉ v -> last v <> Some x20 -> rfc_chars (escaped v ++ rest) = Some (v, rest).
Proof.
  intros Hr. induction v as [|c v IH]; intros Hn Hl.
  - destruct rest as [|d rest]; [done|]. cbn [escaped map concat app rfc_chars]. by rewrite Hr.
  - assert (rfc_chars (escaped v ++ rest) = Some (v, rest)) as IHv.
    { apply IH; [set_solver|]. destruct v; [done|exact Hl]. }
    pose proof (ends_escaped c v rest) as He. rewrite escaped_cons in He |- *. destruct (dn_special c) eqn:Es.
    + cbn [app rfc_chars]. cbn [app] in He. rewrite He, bool_decide_true by done.
      rewrite bool_decide_true by (apply escaped_pair; [done|set_solver]). by rewrite IHv.
    + destruct (bare_char c Es) as (H1 & H2 & _ & _). cbn [app rfc_chars]. cbn [app] in He.
      rewrite He, !bool_decide_false by done. cbn [orb]. rewrite IHv.
      destruct (decide (c = x20)) as [->|Hc]; [|by rewrite bool_decide_false by done].
      destruct v as [|d v]; [done|]. by rewrite ends_escaped, andb_false_r.
Qed.

Lemma rfc_value_escaped cn rest :
  plain_name cn -> ends_value rest = true -> rfc_value (escaped cn ++ rest) = Some (cn, rest).
Proof.
  intros (Hn & Hh & Hl) Hr. rewrite <- (rfc_chars_escaped cn rest) by done. unfold rfc_value.
  destruct cn as [|c cn].
  - destruct rest as [|d rest]; [done|]. cbn [escaped map concat app]. rewrite bool_decide_false; [done|].
    apply bool_decide_eq_true in Hr. set_solver.
  - rewrite escaped_cons. destruct (dn_special c) eqn:Es; cbn [app]; [done|].
    rewrite bool_decide_false; [done|]. apply bare_char in Es as (_ & _ & Hs & _). simpl in Hh. naive_solver.
Qed.

Lemma san_names_spec cn dns :
  cn ∈ san_names cn dns /\ (forall n, n ∈ dns -> n ∈ san_names cn dns) /\
  (forall n, n ∈ san_names cn dns -> n = cn \/ n ∈ dns) /\ (NoDup dns -> NoDup (san_names cn dns)).
Proof.
  unfold san_names. destruct (existsb _ dns) eqn:E.
  - apply existsb_exists in E as (n & Hn%list_elem_of_In & ->%bool_decide_eq_true). set_solver.
  - assert (cn ∉ dns) as Hn.
    { intros Hin%list_elem_of_In. assert (existsb (fun n => bool_decide (n = cn)) dns = true) as E'; [|congruence].
      apply existsb_exists. exists cn. by rewrite bool_decide_true. }
    split_and!; [set_solver..|]. intros. by constructor.
Qed.

Lemma positive_serial_spec raw : raw <> [] ->
  exists b r, positive_serial raw = b :: r /\ byte_val b < 128 /\ r = tail raw /\ byte_val b mod 128 = byte_val (hd NUL raw) mod 128.
Proof.
  destruct raw as [|b raw]; [done|]. intros _. eexists _, _. split; [done|].
  change 127 with (Z.ones 7). rewrite Z.land_ones by lia. rewrite byte_val_byte.
  pose proof (Z.mod_pos_bound (byte_val b) (2 ^ 7) ltac:(lia)). rewrite Z.mod_small by lia.
  split; [lia|]. split; [done|]. cbn [hd]. by rewrite Z.mod_mod.
Qed.

(** C37. What the certificate is issued for cannot be confused: whatever the common
    name (without NUL, and with no space at its ends), RFC 4514 reads the attribute
    value that is written for it as the common name itself, ending where it was
    meant to; the alternative names are the DNS names with the common name among
    them, none twice if none was; and the serial number is positive and keeps the
    other bits drawn. *)
Theorem issued_names cn dns raw rest :
  plain_name cn -> ends_value rest = true -> raw <> [] ->
  rfc_value (escaped cn ++ rest) = Some (cn, rest) /\
  (cn ∈ san_names cn dns /\ (forall n, n ∈ dns -> n ∈ san_names cn dns) /\
   (forall n, n ∈ san_names cn dns -> n = cn \/ n ∈ dns) /\ (NoDup dns -> NoDup (san_names cn dns))) /\
  exists b r, positive_serial raw = b :: r /\ byte_val b < 128 /\ r = tail raw /\
    byte_val b mod 128 = byte_val (hd NUL raw) mod 128.
Proof.
  intros Hcn Hr Hraw. split; [by apply rfc_value_escaped|]. split; [apply san_names_spec|by apply positive_serial_spec].
Qed.

Lemma issued_names_witness :
  escaped (lit "#a,CN=evil+b <c>;") = lit "\#a\,CN\=evil\+b \<c\>\;" /\
  rfc_value (escaped (lit "#a,CN=evil+b <c>;") ++ lit ",O=x") = Some (lit "#a,CN=evil+b <c>;", lit ",O=x").
Proof.
  split; [reflexivity|].
  apply (issued_names (lit "#a,CN=evil+b <c>;") [] [xff] (lit ",O=x")); [|reflexivity|discriminate].
  split; [apply (bool_decide_unpack _); vm_compute; exact I|split; vm_compute; discriminate].
Defined.

(** ** Base64 *)

(** With an mbedTLS that does base64 as documented, [base64_encode] returns the
    whole encoding without the terminator and [base64_decode] the whole decoding,
    or nothing for what is not base64; so what is encoded decodes to itself. *)
Theorem base64_round_trip e inv enc dec raw s :
  base64_laws e inv enc dec -> wf s -> dec (enc raw) = Some raw ->
  wp e (fun _ => False) (text ← base64_encode raw; back ← base64_decode inv text; mret (text, back))
    (fun r s' => r = (enc raw, Some raw) /\ exists evs, calls evs s s') s.
Proof.
  intros Hl Hs Hd. eapply wp_seq; [by apply (wp_base64_encode inv enc dec Hl)|]. intros ? s1 [-> [evs H1]].
  eapply wp_seq; [apply (wp_base64_decode inv enc dec Hl), H1|]. intros ? s2 [-> [evs2 H2]].
  apply wp_ret. rewrite Hd. split; [done|]. eexists. by eapply calls_trans.
Qed.

Lemma base64_round_trip_witness :
  base64_laws kind_env no_base64 id Some /\
  wp kind_env (fun _ => False)
    (text ← base64_encode (lit "abc"); back ← base64_decode no_base64 text; mret (text, back))
    (fun r s' => r = (lit "abc", Some (lit "abc")) /\ exists evs, calls evs start s') start.
Proof.
  split; [exact kind_base64|].
  apply (base64_round_trip kind_env no_base64 id Some (lit "abc") start kind_base64 start_wf eq_refl).
Defined.

(** C27. [rotator_decide] keeps the certificate the Secret holds exactly when it is
    readable and has more than [renew_before_days] left, handing on the Secret's
    own data without a call but those that read it; otherwise it issues a new one
    and says why: absent, unreadable, expired or expiring. What it reports is the
    certificate that is then in the Secret. It fails only when issuing fails, and
    it never commits undefined behaviour nor changes a live block. *)
Theorem rotator_decides e inv enc dec req s :
  base64_laws e inv enc dec -> typed_mbedtls e -> wf s ->
  int64_range (now req + validity_days req * 86400) -> sane_clock (now req) ->
  wp e (fun _ => False) (rotator_decide inv req) (decide_spec enc dec req s) s.
Proof. intros Hl Ht. by apply wp_rotator_decide. Qed.

Definition held_request : rotator_request :=
  RotatorRequest (lit "a.test") [] 90 30 true (Some (lit "PEM")) (Some (lit "KEY")) 1700000000.

Lemma rotator_decides_witness :
  match rotator_decide no_base64 held_request kind_env start with
  | Ok (inr out, _) => rotated out = false /\ out_key_b64 out = lit "KEY" /\ out_not_after out = lit "2030-01-01T00:00:00Z"
  | _ => False
  end /\
  wp kind_env (fun _ => False) (rotator_decide no_base64 held_request) (decide_spec id Some held_request start) start.
Proof.
  split; [vm_compute; split_and!; reflexivity|].
  apply (rotator_decides kind_env no_base64 id Some held_request start kind_base64 kind_mbedtls start_wf);
    vm_compute; split; congruence.
Defined.
