(* ===== verification/Reconcile.v ===== *)
(** The rotator across reconciles: each run of the guest is a new instance, asked
    about the Secret the run before it composed. The certificate in place is
    always good for more than [renewBeforeDays], and one that comes within them is
    replaced by the run that sees it.

    mbedTLS is one library for all runs: what a PEM certificate's dates are does
    not change ([dates]), and one it writes carries the validity it was given. *)
From S2P Require Import Prelude CString Calendar Mbedtls Machine MachineLogic Wasmfn WasmfnMem Tls TlsSpec Rotator RotatorSpec.
From Stdlib Require Import Strings.Byte.

(** ** Every answer in the trace is the host's *)

Inductive heard (e : env) : list event -> Prop :=
  | heard_nil : heard e []
  | heard_next tr o : heard e tr -> heard e (tr ++ [Ev o (answers e tr o)]).

Lemma heard_last e tr ev : heard e (tr ++ [ev]) -> heard e tr /\ exists o, ev = Ev o (answers e tr o).
Proof.
  intros H. inversion H as [E|tr' o H' E].
  - by destruct tr.
  - apply app_inj_tail in E as [-> <-]. split; [done|]. by exists o.
Qed.
Lemma heard_prefix e tr1 tr2 : heard e (tr1 ++ tr2) -> heard e tr1.
Proof.
  induction tr2 as [|ev tr2 IH] using rev_ind; [by rewrite app_nil_r|].
  rewrite app_assoc. intros H. by apply heard_last in H as [H _]; apply IH.
Qed.
(** The event after [tr1]. *)
Lemma heard_at e tr1 ev tr2 : heard e (tr1 ++ ev :: tr2) -> exists o, ev = Ev o (answers e tr1 o).
Proof.
  intros H. replace (tr1 ++ ev :: tr2) with ((tr1 ++ [ev]) ++ tr2) in H by by rewrite <- app_assoc.
  apply heard_prefix in H. by apply heard_last in H as [_ H].
Qed.

(** Computations that only record what the host answers. *)
Definition hears {A} (c : C A) : Prop := forall e s, heard e (trace s) ->
  match c e s with Ok (_, s') => heard e (trace s') | Trap _ => True end.

Lemma hears_ret {A} (a : A) : hears (mret a).
Proof. by intros e s Hs. Qed.
Lemma hears_stop {A} t : hears (stop (A := A) t).
Proof. by intros e s Hs. Qed.
Lemma hears_bind {A B} (c : C A) (f : A -> C B) : hears c -> (forall a, hears (f a)) -> hears (c ≫= f).
Proof.
  intros Hc Hf e s Hs. unfold mbind, C_bind. specialize (Hc e s Hs). destruct (c e s) as [[a s1]|t]; [|done].
  by apply Hf.
Qed.
Lemma hears_get {A} (f : cst -> outcome A) : hears (get f).
Proof. intros e s Hs. unfold get, mbind, outcome_bind. by destruct (f s). Qed.
Lemma hears_call o : hears (call o).
Proof.
  intros e s Hs. unfold call. destruct (negb _); [done|]. destruct (enter _ _); [|done].
  destruct (creates _ _); by apply heard_next.
Qed.
Lemma hears_alloc old b : hears (alloc_replacing old b).
Proof. intros e s Hs. unfold alloc_replacing. by destruct (_ && _). Qed.
Lemma hears_put b off bs : hears (put b off bs).
Proof. intros e s Hs. unfold put. destruct (heap s !! b) as [[]|]; try done. by destruct (_ && _). Qed.

Create HintDb hears.
#[export] Hint Resolve hears_ret hears_stop hears_get hears_call hears_alloc hears_put : hears.
Ltac hears :=
  repeat first
    [ solve [auto with hears]
    | progress cbv beta iota zeta
    | apply hears_bind; [|intros]
    | case_match ].

Lemma hears_mbed c : hears (mbed c).
Proof. unfold mbed. hears. Qed.
#[export] Hint Resolve hears_mbed : hears.
Lemma hears_words rc : hears (words rc).
Proof. unfold words. hears. Qed.
#[export] Hint Resolve hears_words : hears.
Lemma hears_parse pem : hears (parse pem).
Proof. unfold parse, read_certificate. hears. Qed.
#[export] Hint Resolve hears_parse : hears.
Lemma hears_issue cn dns now days : hears (issue cn dns now days).
Proof.
  unfold issue, Issuer, issue_with, fill_certificate, write_issued, if_ok, failed, add64. hears.
Qed.
Lemma hears_keep m : hears (keep m).
Proof. unfold keep, malloc, c_str. hears. Qed.
Lemma hears_base64_encode raw : hears (base64_encode raw).
Proof. unfold base64_encode. hears. Qed.
Lemma hears_base64_decode inv raw : hears (base64_decode inv raw).
Proof. unfold base64_decode. hears. Qed.
#[export] Hint Resolve hears_issue hears_keep hears_base64_encode hears_base64_decode : hears.
Lemma hears_report r w cert key c now : hears (report r w cert key c now).
Proof. unfold report, sub64. hears. Qed.
#[export] Hint Resolve hears_report : hears.
Lemma hears_decide inv req : hears (rotator_decide inv req).
Proof. unfold rotator_decide, held, rotate, sub64. hears. Qed.

(** ** The library *)

(** The validity of the certificate being written: that of the last call. *)
Definition validity_in (ev : event) : option (bytes * bytes) :=
  match ev with
  | Ev (Mbedtls (SetValidity nb na)) _ => Some (nb, na)
  | _ => None
  end.
Definition validity_set (tr : list event) : option (bytes * bytes) := last (omap validity_in tr).

(** The dates of a PEM certificate ([dates], none for what is no certificate) are
    what parsing it answers; one that is written has the validity set, to the
    second. Base64 text has no NUL and reads back. *)
Record library (inv : Z) (enc : bytes -> bytes) (dec : bytes -> option bytes) (dates : bytes -> option (Z * Z))
    (e : env) : Prop := {
  lib_typed : typed_mbedtls e;
  lib_base64 : base64_laws e inv enc dec;
  lib_reads_back : forall raw, (NUL ∉ enc raw) /\ dec (enc raw) = Some raw;
  lib_nothing : dates [] = None;
  lib_parses : forall tr pem, exists rc vf vt, answers e tr (Mbedtls (CrtParse (pem ++ [NUL]))) = (rc, (vf, vt)) /\
    match dates pem with
    | Some (nb, na) => rc = 0 /\ to_unix vf = Ok nb /\ to_unix vt = Ok na
    | None => rc <> 0
    end;
  lib_writes : forall tr buf nb na,
    four_digit_years nb -> four_digit_years na -> validity_set tr = Some (stamp nb, stamp na) ->
    answers e tr (Mbedtls (WriteCrtPem 4096)) = (0, buf) -> dates (until_nul buf) = Some (nb, na);
}.

(** What the calls say, of events that were heard. *)
Definition parse_in (ev : event) : option (bytes * (Z * (x509_time * x509_time))) :=
  match ev with Ev (Mbedtls (CrtParse buf)) a => Some (buf, a) | _ => None end.
Definition write_in (ev : event) : option (Z * (Z * bytes)) :=
  match ev with Ev (Mbedtls (WriteCrtPem n)) a => Some (n, a) | _ => None end.

Lemma heard_parse e tr1 buf a tr2 :
  heard e (tr1 ++ mev (CrtParse buf) a :: tr2) -> a = answers e tr1 (Mbedtls (CrtParse buf)).
Proof.
  intros H. apply heard_at in H as [o Ho]. apply (f_equal parse_in) in Ho. unfold mev in Ho. cbn [parse_in] in Ho.
  destruct o as [| | | | | | | | | | | | | | | | | | | | | | | | | | |[]]; try discriminate. by simplify_eq.
Qed.
Lemma heard_write e tr1 n a tr2 :
  heard e (tr1 ++ mev (WriteCrtPem n) a :: tr2) -> a = answers e tr1 (Mbedtls (WriteCrtPem n)).
Proof.
  intros H. apply heard_at in H as [o Ho]. apply (f_equal write_in) in Ho. unfold mev in Ho. cbn [write_in] in Ho.
  destruct o as [| | | | | | | | | | | | | | | | | | | | | | | | | | |[]]; try discriminate. by simplify_eq.
Qed.

(** ** One reconcile *)

(** What a Secret holds: its tls.crt and tls.key. *)
Definition secret : Type := option (option bytes * option bytes).

Section Reconcile.
Context (inv : Z) (enc : bytes -> bytes) (dec : bytes -> option bytes) (dates : bytes -> option (Z * Z)).
(** The composite resource's spec, as fn.c reads and checks it. *)
Context (common_name : bytes) (dns_names : list bytes) (validity_days renew_before_days : Z).
Context (Hspec : 0 <= renew_before_days < validity_days).

Definition ask (sec : secret) (now : Z) : rotator_request :=
  RotatorRequest common_name dns_names validity_days renew_before_days
    (match sec with Some _ => true | None => false end)
    (match sec with Some (crt, _) => crt | None => None end)
    (match sec with Some (_, key) => key | None => None end) now.

(** The dates of the certificate in the Secret, if there is one that reads. *)
Definition dates_in (sec : secret) : option (Z * Z) := '(crt, _) ← sec; crt ← crt; pem ← dec crt; dates pem.

(** A new instance decides with memory enough, and what it composes is the Secret
    from then on; the moments are ones x509 can write. *)
Record reconciled (sec : secret) (now : Z) (out : rotator_result) (sec' : secret) : Prop := {
  rec_calendar : four_digit_years now /\ four_digit_years (now + validity_days * 86400);
  rec_ran : exists e s s', library inv enc dec dates e /\ wf s /\ heard e (trace s) /\
    rotator_decide inv (ask sec now) e s = Ok (inr out, s') /\ denied s' = denied s;
  rec_composed : sec' = Some (Some (out_certificate_b64 out), Some (out_key_b64 out));
}.

Lemma parsed_dates e s pem pevs c tr1 tr2 :
  library inv enc dec dates e -> heard e (trace s) -> trace s = tr1 ++ pevs ++ tr2 -> parsed pem pevs c ->
  exists nb, dates pem = Some (nb, not_after c).
Proof.
  intros L Hh Ht (vf & vt & dn & sn & -> & _ & _ & _ & Hna & _).
  rewrite Ht in Hh. replace (tr1 ++ (([mev CrtInit tt; mev (CrtParse (pem ++ [NUL])) (0, (vf, vt))] ++ read_events dn sn ++ [mev CrtFree tt]) ++ tr2))
    with ((tr1 ++ [mev CrtInit tt]) ++ mev (CrtParse (pem ++ [NUL])) (0, (vf, vt)) :: (read_events dn sn ++ [mev CrtFree tt]) ++ tr2) in Hh
    by by rewrite <- !app_assoc.
  apply heard_parse in Hh. destruct (lib_parses _ _ _ _ _ L (tr1 ++ [mev CrtInit tt]) pem) as (rc & vf' & vt' & Ha & Hd).
  rewrite Ha in Hh. simplify_eq. destruct (dates pem) as [[nb na]|]; [|done].
  destruct Hd as (_ & _ & Hna'). exists nb. congruence.
Qed.

Lemma unparsed_dates e s pem pevs err tr1 tr2 :
  library inv enc dec dates e -> heard e (trace s) -> trace s = tr1 ++ pevs ++ tr2 -> unparsed pem pevs err ->
  dates pem = None.
Proof.
  intros L Hh Ht (rc & times & t & Hrc & _ & ->).
  rewrite Ht in Hh. replace (tr1 ++ [mev CrtInit tt; mev (CrtParse (pem ++ [NUL])) (rc, times); mev (Strerror rc 160) t; mev CrtFree tt] ++ tr2)
    with ((tr1 ++ [mev CrtInit tt]) ++ mev (CrtParse (pem ++ [NUL])) (rc, times) :: [mev (Strerror rc 160) t; mev CrtFree tt] ++ tr2) in Hh
    by by rewrite <- !app_assoc.
  apply heard_parse in Hh. destruct (lib_parses _ _ _ _ _ L (tr1 ++ [mev CrtInit tt]) pem) as (rc' & vf' & vt' & Ha & Hd).
  rewrite Ha in Hh. simplify_eq. destruct (dates pem) as [[nb na]|]; [|done]. by destruct Hd.
Qed.

(** Reading the Secret finds its dates. *)
Lemma held_dates e s sec now hevs current tr1 tr2 :
  library inv enc dec dates e -> heard e (trace s) -> trace s = tr1 ++ hevs ++ tr2 ->
  held_spec dec (ask sec now) hevs current ->
  match current with
  | inr c => exists nb, dates_in sec = Some (nb, not_after c)
  | inl _ => dates_in sec = None
  end.
Proof.
  intros L Hh Ht Hs. unfold held_spec, ask in Hs. cbn [secret_found certificate_b64] in Hs.
  destruct sec as [[[[|b crt]|] key]|]; cbn [dates_in mbind option_bind].
  - destruct Hs as [-> _]. unfold dates_in. cbn. pose proof (lib_base64 _ _ _ _ _ L) as Lb.
    destruct (encode_empty _ _ _ _ Lb) as [E _]. destruct (lib_reads_back _ _ _ _ _ L []) as [_ Hd].
    rewrite E in Hd. rewrite Hd. apply (lib_nothing _ _ _ _ _ L).
  - unfold dates_in. cbn [mbind option_bind]. destruct (dec (b :: crt)) as [pem|]; [|by subst].
    destruct Hs as (devs & pevs & -> & Hs). rewrite <- app_assoc, app_assoc in Ht. cbn. destruct current as [why|c].
    + destruct Hs as (err & _ & Hu). by eapply unparsed_dates.
    + by eapply parsed_dates.
  - by destruct Hs as [-> _].
  - by destruct Hs as [-> _].
Qed.

(** A new certificate is good for the whole validity. *)
Lemma issued_dates e s now ievs i tr1 tr2 :
  library inv enc dec dates e -> heard e (trace s) -> trace s = tr1 ++ ievs ++ tr2 ->
  four_digit_years now -> four_digit_years (now + validity_days * 86400) ->
  issue_spec common_name dns_names now validity_days ievs (inr i) ->
  dates (certificate_pem i) = Some (now, now + validity_days * 86400).
Proof.
  intros L Hh Ht Hnow Huntil (_ & _ & raw & cb & kb & pevs & -> & -> & _ & _).
  set (pre := take 16 (issue_events common_name dns_names now validity_days raw cb kb)).
  rewrite Ht in Hh.
  assert (issue_events common_name dns_names now validity_days raw cb kb
    = pre ++ [mev (WriteCrtPem 4096) (0, cb); mev (WriteKeyPem 2048) (0, kb)]) as E by done.
  rewrite E in Hh. rewrite <- !app_assoc, app_assoc in Hh. cbn [app] in Hh.
  apply heard_write in Hh. eapply (lib_writes _ _ _ _ _ L (tr1 ++ pre)); [done|done| |by symmetry].
  unfold validity_set. rewrite omap_app. unfold pre. cbn. by rewrite last_snoc.
Qed.

Lemma dates_of_text crt key pem :
  (forall raw, (NUL ∉ enc raw) /\ dec (enc raw) = Some raw) -> crt = until_nul (enc pem) ->
  dates_in (Some (Some crt, key)) = dates pem.
Proof.
  intros Hl ->. destruct (Hl pem) as [Hn Hd]. rewrite until_nul_id by done. unfold dates_in. cbn. by rewrite Hd.
Qed.

(** What a run does to the Secret. *)
Definition step_spec (sec : secret) (now : Z) (r : bool) (sec' : secret) : Prop :=
  if r then dates_in sec' = Some (now, now + validity_days * 86400) /\
            forall nb na, dates_in sec = Some (nb, na) -> na <= now + renew_before_days * 86400
  else (fst <$> sec') = (fst <$> sec) /\
       exists nb na, dates_in sec = Some (nb, na) /\ now + renew_before_days * 86400 < na.

Lemma four_digit_sane now : four_digit_years now -> sane_clock now.
Proof. unfold four_digit_years, sane_clock. lia. Qed.

Lemma reconciled_step sec now out sec' :
  reconciled sec now out sec' -> step_spec sec now (rotated out) sec'.
Proof.
  intros [[Hnow Huntil] (e & s & s' & L & Hwf & Hh & Hrun & Hden) ->].
  assert (int64_range (now + validity_days * 86400)) as Hr.
  { unfold four_digit_years, int64_range in *. lia. }
  pose proof (wp_rotator_decide (T := fun _ => True) inv enc dec (lib_base64 _ _ _ _ _ L) (lib_typed _ _ _ _ _ L)
    (ask sec now) s Hwf Hr (four_digit_sane _ Hnow)) as Hw.
  pose proof (hears_decide inv (ask sec now) e s Hh) as Hh'.
  unfold wp in Hw. rewrite Hrun in Hw, Hh'.
  destruct Hw as (hevs & current & Hheld & Hv). destruct (verdict_of (ask sec now) current) as [c|why] eqn:Ev.
  - destruct Hv as (Hran & o & [= <-] & Hrot & _ & Hc & _ & _ & _). rewrite Hrot, Hc.
    unfold verdict_of in Ev. destruct current as [|c']; [done|]. cbv zeta in Ev.
    destruct (Z.ltb_spec (Rotator.renew_before_days (ask sec now) * 86400) (not_after c' - Rotator.now (ask sec now))) as [Hl|]; [|done].
    injection Ev as ->. cbn in Hl.
    assert (trace s' = trace s ++ hevs ++ []) as Ht.
    { rewrite app_nil_r. destruct Hran as [[]]. done. }
    pose proof (held_dates e s' sec now hevs (inr c) _ _ L Hh' Ht Hheld) as [nb Hd]. cbn beta iota in Hd.
    split; [|exists nb, (not_after c); split; [done|lia]].
    destruct sec as [[[crt|] key]|]; [done|done..].
  - destruct Hv as (ievs & ir & eevs & Hi & Hran & Hrs).
    assert (trace s' = trace s ++ hevs ++ opened ++ ievs ++ closed ++ eevs) as Ht by (destruct Hran as [[]]; done).
    destruct ir as [|i]; [done|]. destruct Hrs as (Hrot & _ & Hout). rewrite Hrot.
    destruct Hout as [->|Hd]; [|lia].
    pose proof (held_dates e s' sec now hevs current _ _ L Hh' Ht Hheld) as Hcur.
    assert (dates (certificate_pem i) = Some (now, now + validity_days * 86400)) as Hdates.
    { eapply (issued_dates e s' now ievs i (trace s ++ hevs ++ opened)); try done. rewrite Ht. by rewrite <- !app_assoc. }
    split.
    + erewrite dates_of_text; [exact Hdates|apply (lib_reads_back _ _ _ _ _ L)|done].
    + intros nb na Hna. destruct current as [w|c]; [by rewrite Hcur in Hna|]. destruct Hcur as [nb' Hc].
      unfold verdict_of in Ev. cbv zeta in Ev. rewrite Hna in Hc. injection Hc as <- ->.
      destruct (Z.ltb_spec (Rotator.renew_before_days (ask sec now) * 86400) (not_after c - Rotator.now (ask sec now))) as [|Hl]; [done|].
      cbn in Hl. lia.
Qed.
End Reconcile.
