(* ===== verification/RenewalProps.v ===== *)
(** What the rotator's decisions add up to over a sequence of reconciles. *)
From S2P Require Import Prelude CString Calendar Mbedtls Machine MachineLogic WasmfnProps Tls TlsSpec Rotator RotatorSpec Reconcile Paper.
From Stdlib Require Import Strings.Byte.

(** There was a rotation by run [i], or a first certificate that was valid already. *)
Definition valid_by (dec : bytes -> option bytes) (dates : bytes -> option (Z * Z)) (sec : nat -> secret)
    (time : nat -> Z) (out : nat -> rotator_result) (i : nat) : Prop :=
  (forall nb na, dates_in dec dates (sec 0%nat) = Some (nb, na) -> nb <= time 0%nat) \/
  (exists k, (k <= i)%nat /\ rotated (out k) = true).

Section Renewal.
Context (inv : Z) (enc : bytes -> bytes) (dec : bytes -> option bytes) (dates : bytes -> option (Z * Z)).
Context (common_name : bytes) (dns_names : list bytes) (validity_days renew_before_days : Z).

(** [n] reconciles, one after the other: the Secret each finds is the one the last
    composed. *)
Record history (n : nat) (sec : nat -> secret) (time : nat -> Z) (out : nat -> rotator_result) : Prop := {
  his_runs : forall i, (i < n)%nat ->
    reconciled inv enc dec dates common_name dns_names validity_days renew_before_days (sec i) (time i) (out i) (sec (S i));
  his_time : forall i, (S i < n)%nat -> time i <= time (S i);
}.

Abbreviation days d := (d * 86400).
Abbreviation dates_of := (dates_in dec dates).
Context (Hspec : 0 <= renew_before_days < validity_days).
Context {n : nat} {sec : nat -> secret} {time : nat -> Z} {out : nat -> rotator_result} (H : history n sec time out).

Lemma his_step i : (i < n)%nat ->
  step_spec dec dates validity_days renew_before_days (sec i) (time i) (rotated (out i)) (sec (S i)).
Proof. intros Hi. eapply reconciled_step. by apply (his_runs _ _ _ _ H). Qed.

Lemma kept_dates i : (i < n)%nat -> rotated (out i) = false -> dates_of (sec (S i)) = dates_of (sec i).
Proof.
  intros Hi Hr. pose proof (his_step i Hi) as Hs. rewrite Hr in Hs. destruct Hs as [Hf _].
  unfold dates_in. destruct (sec i) as [[]|], (sec (S i)) as [[]|]; try done. simpl in *. by simplify_eq.
Qed.

Lemma time_mono i j : (i <= j)%nat -> (j < n)%nat -> time i <= time j.
Proof.
  intros Hij. induction Hij as [|j Hij IH]; intros Hj; [lia|].
  pose proof (his_time _ _ _ _ H j Hj). specialize (IH ltac:(lia)). lia.
Qed.

(** After each run the certificate in place outlasts the next [renewBefore]. *)
Lemma in_place i : (i < n)%nat -> exists nb na, dates_of (sec (S i)) = Some (nb, na) /\ time i + days renew_before_days < na.
Proof.
  intros Hi. pose proof (his_step i Hi) as Hs. destruct (rotated (out i)) eqn:Er.
  - destruct Hs as [Hd _]. do 2 eexists. split; [exact Hd|]. lia.
  - rewrite (kept_dates i Hi Er). by destruct Hs as [_ Hs].
Qed.

Lemma started i nb na : (i < n)%nat -> valid_by dec dates sec time out i -> dates_of (sec (S i)) = Some (nb, na) -> nb <= time i.
Proof.
  revert nb na. induction i as [|i IH]; intros nb na Hi Hv Hd; pose proof (his_step _ Hi) as Hs.
  - destruct (rotated (out 0%nat)) eqn:Er; [destruct Hs as [Hs _]; rewrite Hd in Hs; by simplify_eq|].
    rewrite kept_dates in Hd by done. destruct Hv as [Hv|(k & Hk & Hr)]; [by eapply Hv|].
    assert (k = 0%nat) as -> by lia. congruence.
  - destruct (rotated (out (S i))) eqn:Er; [destruct Hs as [Hs _]; rewrite Hd in Hs; by simplify_eq|].
    rewrite kept_dates in Hd by done. pose proof (his_time _ _ _ _ H i Hi).
    enough (nb <= time i) by lia. apply (IH nb na); [lia| |done].
    destruct Hv as [Hv|(k & Hk & Hr)]; [by left|right]. exists k. split; [|done].
    destruct (decide (k = S i)) as [->|]; [congruence|lia].
Qed.

(** A run that sees the certificate too near its end is not passed without a
    rotation. *)
Lemma leads_to i j nb na :
  (i <= j)%nat -> (j < n)%nat -> dates_of (sec i) = Some (nb, na) -> na <= time j + days renew_before_days ->
  exists k, (i <= k <= j)%nat /\ rotated (out k) = true.
Proof.
  intros Hij Hj. remember (j - i)%nat as d eqn:Ed. revert i Hij Ed. induction d as [|d IH]; intros i Hij Ed Hd Hna.
  - assert (i = j) as -> by lia. exists j. split; [lia|]. destruct (rotated (out j)) eqn:Er; [done|].
    pose proof (his_step j Hj) as Hs. rewrite Er in Hs. destruct Hs as (_ & nb' & na' & Hd' & Hl).
    rewrite Hd in Hd'. simplify_eq. lia.
  - destruct (rotated (out i)) eqn:Er; [by exists i|].
    destruct (IH (S i)) as (k & Hk & Hrot); [lia|lia|by rewrite kept_dates by (done || lia)|done|].
    exists k. split; [lia|done].
Qed.

(** Between rotations the dates are those of the last. *)
Lemma since_rotation i j :
  (i < j)%nat -> (j <= n)%nat -> rotated (out i) = true ->
  exists k, (i <= k < j)%nat /\ rotated (out k) = true /\ dates_of (sec j) = Some (time k, time k + days validity_days).
Proof.
  intros Hij Hj Hr. induction Hij as [|j Hij IH].
  - exists i. split; [lia|]. split; [done|]. pose proof (his_step i ltac:(lia)) as Hs. rewrite Hr in Hs. apply Hs.
  - destruct (rotated (out j)) eqn:Er.
    + exists j. split; [lia|]. split; [done|]. pose proof (his_step j ltac:(lia)) as Hs. rewrite Er in Hs. apply Hs.
    + destruct (IH ltac:(lia)) as (k & Hk & Hrk & Hd). exists k. split; [lia|]. split; [done|].
      by rewrite kept_dates by (done || lia).
Qed.

Lemma rotations_apart i j :
  (i < j)%nat -> (j < n)%nat -> rotated (out i) = true -> rotated (out j) = true ->
  time i + days (validity_days - renew_before_days) <= time j.
Proof.
  intros Hij Hj Hi Hrj. destruct (since_rotation i j Hij ltac:(lia) Hi) as (k & Hk & _ & Hd).
  pose proof (his_step j Hj) as Hs. rewrite Hrj in Hs. destruct Hs as [_ Hs]. specialize (Hs _ _ Hd).
  pose proof (time_mono i k ltac:(lia) ltac:(lia)). lia.
Qed.

Lemma unreadable_rotates i : (i < n)%nat -> dates_of (sec i) = None -> rotated (out i) = true.
Proof.
  intros Hi Hd. destruct (rotated (out i)) eqn:Er; [done|]. pose proof (his_step i Hi) as Hs. rewrite Er in Hs.
  destruct Hs as (_ & nb & na & Hd' & _). congruence.
Qed.
End Renewal.

(** ** A history: issued, kept twice, rotated *)

Definition history_times : list Z := [0; 10; 25; 65].
Definition history_time (i : nat) : Z := test_now + nth i history_times 0 * 86400.
Definition run_paper (sec : secret) (now : Z) : option rotator_result :=
  match rotator_decide bad_base64 (ask (lit "shop") [] 90 30 sec now) paper_env start with
  | Ok (inr out, s') => if Nat.eqb (denied s') 0 then Some out else None
  | _ => None
  end.
Definition no_result : rotator_result := RotatorResult false [] [] [] [] [] [] [] 0.
Definition stored (o : rotator_result) : secret := Some (Some (out_certificate_b64 o), Some (out_key_b64 o)).
Fixpoint history_sec (i : nat) : secret :=
  match i with
  | O => None
  | S i => stored (default no_result (run_paper (history_sec i) (history_time i)))
  end.
Definition history_out (i : nat) : rotator_result := default no_result (run_paper (history_sec i) (history_time i)).

Lemma paper_history :
  history bad_base64 b64_encode b64_decode paper_dates (lit "shop") [] 90 30 4 history_sec history_time history_out.
Proof.
  assert (forall i o, (i < 4)%nat -> run_paper (history_sec i) (history_time i) = Some o ->
    reconciled bad_base64 b64_encode b64_decode paper_dates (lit "shop") [] 90 30
      (history_sec i) (history_time i) (history_out i) (history_sec (S i))) as Hrun.
  { intros i o Hi Ho. unfold history_out. cbn [history_sec]. rewrite Ho. cbn [default from_option id]. split.
    - unfold history_time, history_times, four_digit_years, test_now. do 4 (destruct i; [cbn; lia|]). lia.
    - unfold run_paper in Ho. destruct (rotator_decide _ _ paper_env start) as [[[|out'] s']|] eqn:Er; try done.
      destruct (Nat.eqb_spec (denied s') 0); [|done]. injection Ho as ->.
      exists paper_env, start, s'. split_and!; [apply paper_library|apply start_wf|constructor|exact Er|done].
    - done. }
  split.
  - intros i Hi. destruct (run_paper (history_sec i) (history_time i)) as [o|] eqn:Eo; [by eapply Hrun|].
    exfalso. revert Eo. do 4 (destruct i; [vm_compute; discriminate|]). lia.
  - intros i Hi. unfold history_time, history_times. do 3 (destruct i; [cbn; lia|]). lia.
Qed.

(** C7. Renewal never lapses. Over any sequence of reconciles, each a new instance
    asked about the Secret the one before composed: after every run the Secret
    holds a certificate with more than [renewBeforeDays] left, and one that is valid
    already, once there was a rotation or if the first was (the code does not look
    at when a certificate begins); so that with runs no further apart than that
    there is a valid certificate at every moment between them; a run that sees a
    certificate within [renewBeforeDays] of its end does not pass without a
    rotation, nor one that finds none; what is kept is kept as it is; and two
    rotations are at least the difference of the two periods apart. *)
Theorem renewal_never_lapses inv enc dec dates cn dns validity renew n sec time out :
  0 <= renew < validity -> history inv enc dec dates cn dns validity renew n sec time out ->
  (forall i, (i < n)%nat -> exists nb na, dates_in dec dates (sec (S i)) = Some (nb, na) /\
     time i + renew * 86400 < na /\ (valid_by dec dates sec time out i -> nb <= time i)) /\
  (forall i u, (S i < n)%nat -> time (S i) - time i <= renew * 86400 -> time i <= u <= time (S i) ->
     valid_by dec dates sec time out i ->
     exists nb na, dates_in dec dates (sec (S i)) = Some (nb, na) /\ nb <= u < na) /\
  (forall i j nb na, (i <= j < n)%nat -> dates_in dec dates (sec i) = Some (nb, na) -> na <= time j + renew * 86400 ->
     exists k, (i <= k <= j)%nat /\ rotated (out k) = true) /\
  (forall i, (i < n)%nat -> dates_in dec dates (sec i) = None -> rotated (out i) = true) /\
  (forall i, (i < n)%nat -> rotated (out i) = false -> fst <$> sec (S i) = fst <$> sec i) /\
  (forall i j, (i < j < n)%nat -> rotated (out i) = true -> rotated (out j) = true ->
     time i + (validity - renew) * 86400 <= time j).
Proof.
  intros Hs H. split_and!.
  - intros i Hi. destruct (in_place inv enc dec dates cn dns validity renew Hs H i Hi) as (nb & na & Hd & Hl).
    exists nb, na. split_and!; try done. intros Hv.
    by apply (started inv enc dec dates cn dns validity renew H i nb na).
  - intros i u Hi Hgap Hu Hv.
    destruct (in_place inv enc dec dates cn dns validity renew Hs H i) as (nb & na & Hd & Hl); [lia|].
    exists nb, na. split; [done|].
    pose proof (started inv enc dec dates cn dns validity renew H i nb na ltac:(lia) Hv Hd). lia.
  - intros i j nb na [Hij Hj]. by apply (leads_to inv enc dec dates cn dns validity renew H).
  - by apply (unreadable_rotates inv enc dec dates cn dns validity renew H).
  - intros i Hi Hr. pose proof (his_step inv enc dec dates cn dns validity renew H i Hi) as Hst.
    rewrite Hr in Hst. apply Hst.
  - intros i j [Hij Hj]. by apply (rotations_apart inv enc dec dates cn dns validity renew H).
Qed.

Lemma renewal_never_lapses_witness :
  (rotated <$> (history_out <$> seq 0 4)) = [true; false; false; true] /\
  exists nb na, dates_in b64_decode paper_dates (history_sec 2) = Some (nb, na) /\
    nb <= history_time 1 + 1 < na.
Proof.
  split; [vm_compute; reflexivity|].
  destruct (renewal_never_lapses bad_base64 b64_encode b64_decode paper_dates (lit "shop") [] 90 30 4
    history_sec history_time history_out ltac:(lia) paper_history) as (_ & Hat & _).
  apply (Hat 1%nat); [lia|vm_compute; discriminate|vm_compute; split; discriminate|].
  right. exists 0%nat. split; [lia|]. vm_compute. reflexivity.
Defined.
