(* ===== verification/Entropy.v ===== *)
(** The entropy source of the cert-rotator guest's mbedTLS
    (examples/cert-rotator/src/entropy.c), which fills the buffer with what
    [getentropy] answers, in calls of at most 256 bytes. *)
From S2P Require Import Prelude BindTypes CString Machine MachineLogic WasmfnProps.
From Stdlib Require Import Strings.Byte.

(** The loop: [off] bytes are written at [output], [len] are left. [getentropy]
    fills the buffer with [chunk] bytes or fails. *)
Fixpoint poll_loop (fuel : nat) (output off len olen : Z) : C (Z * Z) :=
  match fuel with
  | O => stop OutOfFuel
  | S fuel =>
      if 0 <? len then
        let chunk := if 256 <? len then 256 else len in
        '(r, _) ← call (GetEntropy chunk);
        match r with
        | None => mret (-1, olen)
        | Some bs =>
            _ ← put output off (resize (Z.to_nat chunk) x00 bs);
            poll_loop fuel output (off + chunk) (len - chunk) (olen + chunk)
        end
      else mret (0, olen)
  end.

(** The status and [*olen]. *)
Definition mbedtls_hardware_poll (fuel : nat) (output len : Z) : C (Z * Z) := poll_loop fuel output 0 len 0.

(** The calls that were answered: how much each asked for, and the bytes. *)
Definition answered (got : list (Z * bytes)) : list event :=
  map (fun '(n, bs) => Ev (GetEntropy n) (Some bs)) got.

(** What they put in the buffer. *)
Definition received (got : list (Z * bytes)) : bytes :=
  concat (map (fun '(n, bs) => resize (Z.to_nat n) x00 bs) got).

(** Each asks for what is left of [len] bytes, but for no more than 256. *)
Definition planned (len : Z) (got : list (Z * bytes)) : Prop :=
  forall i n bs, got !! i = Some (n, bs) -> n = Z.min 256 (len - 256 * Z.of_nat i) /\ 0 < n.

(** [old] with [bs] written at [off]. *)
Definition written_at (off : Z) (bs : bytes) (old : list (option byte)) : list (option byte) :=
  take (Z.to_nat off) old ++ map Some bs ++ drop (Z.to_nat off + length bs) old.

Lemma written_nothing off old : written_at off [] old = old.
Proof. unfold written_at. cbn [map app length]. by rewrite Nat.add_0_r, take_drop. Qed.

Lemma length_written off bs old :
  0 <= off -> off + Z.of_nat (length bs) <= Z.of_nat (length old) ->
  length (written_at off bs old) = length old.
Proof. intros. unfold written_at. rewrite !length_app, length_map, length_take, length_drop. lia. Qed.

Lemma written_twice off bs bs' old :
  0 <= off -> off + Z.of_nat (length bs) <= Z.of_nat (length old) ->
  written_at (off + Z.of_nat (length bs)) bs' (written_at off bs old) = written_at off (bs ++ bs') old.
Proof.
  intros H1 H2. unfold written_at.
  assert (Z.to_nat (off + Z.of_nat (length bs)) = Z.to_nat off + length bs)%nat as -> by lia.
  assert (length (take (Z.to_nat off) old ++ map Some bs) = Z.to_nat off + length bs)%nat as Hl
    by (rewrite length_app, length_take, length_map; lia).
  rewrite !(assoc_L app (take (Z.to_nat off) old) (map Some bs)), <- Hl.
  rewrite take_app_length, drop_app_add, drop_drop, length_app, map_app, <- !(assoc_L app).
  rewrite length_app in Hl. rewrite Hl, length_app. do 4 f_equal. lia.
Qed.

Lemma planned_nil len : planned len [].
Proof. by intros []. Qed.

Lemma planned_cons len bs got :
  0 < len -> planned (len - Z.min 256 len) got -> planned len ((Z.min 256 len, bs) :: got).
Proof.
  intros Hl H [|i] n bs'; cbn [lookup list_lookup].
  - intros [= <- <-]. lia.
  - intros Hi. apply H in Hi. lia.
Qed.

Section Entropy.
Context {e : env} {T : trap -> Prop}.

(** What a poll of [len] bytes at [off] leaves: the status and [*olen], and the
    buffer, all of it when every call was answered. *)
Definition poll_spec (output off len olen : Z) (old : list (option byte)) (s : cst)
    (r : Z * Z) (s' : cst) : Prop :=
  exists got,
    planned len got /\ wf s' /\ handles s' = handles s /\
    heap s' = <[output := Bytes (written_at off (received got) old)]> (heap s) /\
    r.2 = olen + Z.of_nat (length (received got)) /\
    (r.1 = 0 /\ trace s' = trace s ++ answered got /\ Z.of_nat (length (received got)) = len \/
     r.1 = -1 /\ Z.of_nat (length (received got)) < len /\
     exists n, trace s' = trace s ++ answered got ++ [Ev (GetEntropy n) None]).

Lemma wp_poll_loop fuel output off len olen old s :
  wf s -> heap s !! output = Some (Bytes old) -> 0 <= off -> 0 <= len ->
  off + len <= Z.of_nat (length old) -> len <= 256 * (Z.of_nat fuel - 1) ->
  wp e T (poll_loop fuel output off len olen) (poll_spec output off len olen old s) s.
Proof.
  revert off len olen old s. induction fuel as [|fuel IH]; intros off len olen old s Hs Hb Ho Hl Hol Hf; [lia|].
  cbn [poll_loop].
  destruct (Z.ltb_spec 0 len).
  2: { apply wp_ret. exists []. split; [apply planned_nil|]. split_and!; try done.
       - cbn [received concat map]. by rewrite written_nothing, insert_id.
       - cbn. lia.
       - left. cbn. rewrite app_nil_r. split_and!; [done|done|lia]. }
  assert ((if 256 <? len then 256 else len) = Z.min 256 len) as -> by (destruct (Z.ltb_spec 256 len); lia).
  wcall; [done|done|by apply enter_none|]. intros a s1 _ Hc.
  assert (heap s1 = heap s) as Hh1 by apply Hc.
  destruct a as [bs|].
  - assert (length (resize (Z.to_nat (Z.min 256 len)) x00 bs) = Z.to_nat (Z.min 256 len)) as Hlen by apply length_resize.
    eapply wp_seq; [apply (wp_put output off _ old); [apply Hc|by rewrite Hh1|done|rewrite Hlen; lia]|].
    intros [] s2 [Hstep Hh2].
    change (heap s2 = <[output := Bytes (written_at off (resize (Z.to_nat (Z.min 256 len)) x00 bs) old)]> (heap s1)) in Hh2.
    assert (heap s2 !! output = Some (Bytes (written_at off (resize (Z.to_nat (Z.min 256 len)) x00 bs) old))) as Hb2
      by (rewrite Hh2; apply lookup_insert_eq).
    eapply wp_mono; [eapply (IH _ _ _ _ s2); [apply Hstep|exact Hb2|lia|lia|rewrite length_written; lia|lia]|].
    intros r s3 (got & Hp & Hwf & Hhd & Hh & Hr & Hend). exists ((Z.min 256 len, bs) :: got).
    assert (received ((Z.min 256 len, bs) :: got)
            = resize (Z.to_nat (Z.min 256 len)) x00 bs ++ received got) as Hrec by done.
    assert (trace s2 = trace s ++ [Ev (GetEntropy (Z.min 256 len)) (Some bs)]) as Ht
      by (rewrite (hs_trace _ _ Hstep); apply Hc).
    rewrite Hrec, length_app, Hlen. split_and!; try done.
    + by apply planned_cons.
    + rewrite Hhd, (hs_handles _ _ Hstep). apply Hc.
    + rewrite Hh, Hh2, Hh1, insert_insert_eq. do 2 f_equal.
      rewrite <- written_twice by (rewrite ?Hlen; lia). by rewrite Hlen, Z2Nat.id by lia.
    + lia.
    + destruct Hend as [(? & Htr & ?)|(? & ? & n & Htr)]; [left|right]; split_and!; try done; try lia.
      * by rewrite Htr, Ht, <- (assoc_L app).
      * exists n. by rewrite Htr, Ht, <- (assoc_L app).
  - apply wp_ret. exists []. split; [apply planned_nil|]. split_and!; try apply Hc.
    + cbn [received concat map]. by rewrite written_nothing, Hh1, insert_id.
    + cbn. lia.
    + right. cbn. split_and!; [done|lia|]. exists (Z.min 256 len). apply Hc.
Qed.
End Entropy.

(** C33. The poll terminates and commits no undefined behaviour. When every call is
    answered it returns 0 and has filled the whole buffer with the answers, in
    order; when one fails it returns -1 at once, [*olen] being the bytes that
    were put in the buffer. No call asks for more than the 256 bytes
    [getentropy] accepts, and the bytes outside the buffer stay. *)
Theorem hardware_poll_fills e output len old s fuel :
  wf s -> heap s !! output = Some (Bytes old) -> 0 <= len <= Z.of_nat (length old) ->
  len <= 256 * (Z.of_nat fuel - 1) ->
  wp e (fun _ => False) (mbedtls_hardware_poll fuel output len) (poll_spec output 0 len 0 old s) s.
Proof. intros Hs Hb Hl Hf. apply wp_poll_loop; try done; lia. Qed.

(** A state with a buffer of 300 bytes at block 1. *)
Definition buffer_start : cst :=
  Cst {[ 1 := Bytes (replicate 300 None) ]} 2 ∅ ∅ 0 [] 0 0.

Lemma hardware_poll_fills_witness :
  match mbedtls_hardware_poll 3 1 300 kind_env buffer_start with
  | Ok (r, s') => r = (0, 300) /\ heap s' !! 1 = Some (Bytes (replicate 300 (Some x00)))
                  /\ length (trace s') = 2%nat
  | Trap _ => False
  end /\
  wp kind_env (fun _ => False) (mbedtls_hardware_poll 3 1 300)
    (poll_spec 1 0 300 0 (replicate 300 None) buffer_start) buffer_start.
Proof.
  split; [vm_compute; split_and!; reflexivity|].
  apply (hardware_poll_fills kind_env 1 300 (replicate 300 None) buffer_start 3); [|reflexivity|vm_compute; split; congruence|lia].
  split; cbn; [|reflexivity| |]; intros *; rewrite ?lookup_empty, ?lookup_singleton; try done.
  case_decide; [lia|done].
Defined.
