(* ===== verification/CertProps.v ===== *)
(** The cert-rotator guest: what its function does for every request, host,
    library and allocator. *)
From S2P Require Import Prelude BindTypes CString Proto Calendar Mbedtls Machine MachineLogic Wasmfn WasmfnMem WasmfnProps Structpb Handle HandleProps HelloFn HelloSpec HelloProps Tls TlsSpec TlsProps Rotator RotatorSpec CertFn CertSpec CertState CertCompose CertRun.
From Stdlib Require Import Strings.Byte.

Lemma rotated_keeps_meta name out entries lr lst rsp rsp' h :
  rotated_response name out entries lr lst rsp rsp' h -> meta rsp' = meta rsp /\ has_meta rsp' = has_meta rsp.
Proof. by intros (secret & r & st & cert & d & rb & cb & -> & _). Qed.

(** A run that succeeds keeps the response's meta. *)
Lemma cert_keeps_meta unspecified enc dec req xr entries lr lst required found rsp s r s' :
  cert_spec unspecified enc dec req xr entries lr lst required found rsp s r s' -> r.1 = None ->
  meta r.2 = meta rsp /\ has_meta r.2 = has_meta rsp.
Proof.
  intros (_ & s1 & _ & H) Hr. destruct (observed_composite req); [|destruct H as [-> _]; discriminate Hr].
  destruct H as (s2 & _ & [H|(msg & -> & _)]); [|discriminate Hr].
  destruct (spec_json unspecified (JObject xr)) as [msg|sp]; [destruct H as [-> _]; discriminate Hr|].
  destruct H as (_ & [(Hom & _)|(b & _ & _ & H)]); [congruence|]. cbv zeta in H.
  destruct (answered_with required); [|destruct H as [-> _]; done].
  destruct H as (now & s3 & s4 & decided & _ & _ & _ & _ & H). unfold decided_spec in H.
  destruct decided as [msg|out]; [destruct H as [-> _]; discriminate Hr|].
  destruct H as (s5 & _ & _ & H). destruct r as [[msg|] rsp']; [discriminate Hr|]. cbn [snd].
  by apply rotated_keeps_meta in H as [-> ->].
Qed.

(** ** The function *)

(** C6. [run_function] logs once and reads the composite. When it has no object or
    its spec is wrong the answer is the reason, and the response is untouched;
    else the desired state is carried over and the Secret asked for. On the call
    that has Crossplane's answer the clock is read once, [rotator_decide] decides
    on the Secret's own data, and the Secret with the certificate it holds, the
    composite's [status.certificate], the result and the condition are composed
    of the decision; an error is the decision's, or want of memory. The only live
    blocks that change are the two arrays of the desired composite. It commits no
    undefined behaviour and terminates, for every host and allocator. *)
Theorem cert_rotates e unspecified inv enc dec req xr entries lr lst required found rsp s :
  base64_laws e inv enc dec -> typed_mbedtls e -> (forall tr, sane_clock (answers e tr Time)) ->
  wf s -> readable_cert (heap s) req xr entries lr lst required found -> desired rsp = fnv1_State_init_zero ->
  wp e (fun _ => False) (CertFn.run_function unspecified inv Wasi req rsp)
    (cert_spec unspecified enc dec req xr entries lr lst required found rsp s) s.
Proof. intros. by apply wp_cert. Qed.

(** A composite "xr" in the namespace "ns", with an answer in which the Secret
    does not exist yet. *)
Definition cert_heap : gmap Z block :=
  {[ 1 := FieldsArr [FieldsEntry (Some (lit "metadata")) true (struct_value (PbStruct 2 (Some 2)))];
     2 := FieldsArr [FieldsEntry (Some (lit "name")) true (string_value (Some (lit "xr")));
                     FieldsEntry (Some (lit "namespace")) true (string_value (Some (lit "ns")))];
     3 := RequiredArr [RequiredEntry (Some resource_key) false fnv1_Resources_init_zero] ]}.
Definition cert_state : cst := Cst cert_heap 4 ∅ ∅ 1 [] 0 0.
Definition cert_request : fnv1_RunFunctionRequest :=
  Request true (Some (lit "t")) true (State true (Resource true (PbStruct 1 (Some 1)) 0 None 0) 0 None)
    false fnv1_State_init_zero false google_protobuf_Struct_init_zero 1 (Some 3).
Definition cert_xr : list (bytes * json) :=
  [(lit "metadata", JObject [(lit "name", JString (lit "xr")); (lit "namespace", JString (lit "ns"))])].
Definition cert_required : list fnv1_RequiredResourcesEntry :=
  [RequiredEntry (Some resource_key) false fnv1_Resources_init_zero].

Lemma cert_state_wf : wf cert_state.
Proof.
  split; try done. intros b k H. cbn in *. unfold cert_heap in H.
  rewrite !lookup_insert, lookup_singleton in H. repeat case_decide; simplify_eq; lia.
Qed.

Lemma zero_struct_is h : struct_is h google_protobuf_Struct_init_zero [].
Proof. by split. Qed.

Lemma cert_xr_is : object_is cert_heap (PbStruct 1 (Some 1)) cert_xr.
Proof.
  eapply one_field_is; [reflexivity|]. eapply is_object; [split; [|reflexivity]; done|].
  repeat constructor.
Qed.

Lemma cert_readable : readable_cert cert_heap cert_request cert_xr [] [] [] cert_required None.
Proof.
  split.
  - intros st [= <-]. exact cert_xr_is.
  - by split.
  - split; try done; by apply zero_struct_is.
  - split; [done|]. intros _. by exists 3.
  - intros rs [= <-]. exists []. by split.
Qed.

Lemma kind_clock tr : sane_clock (answers kind_env tr Time).
Proof. vm_compute. split; congruence. Qed.

Lemma cert_rotates_witness :
  match CertFn.run_function (fun _ => 0) no_base64 Wasi cert_request fnv1_RunFunctionResponse_init_zero kind_env cert_state with
  | Ok ((err, rsp), _) => err = None /\ resources_count (desired rsp) = 1 /\ has_composite (desired rsp) = true
  | Trap _ => False
  end /\
  wp kind_env (fun _ => False)
    (CertFn.run_function (fun _ => 0) no_base64 Wasi cert_request fnv1_RunFunctionResponse_init_zero)
    (cert_spec (fun _ => 0) id Some cert_request cert_xr [] [] [] cert_required None fnv1_RunFunctionResponse_init_zero cert_state)
    cert_state.
Proof.
  split; [vm_compute; split_and!; reflexivity|].
  apply (cert_rotates kind_env (fun _ => 0) no_base64 id Some cert_request cert_xr [] [] [] cert_required None
           fnv1_RunFunctionResponse_init_zero cert_state kind_base64 kind_mbedtls kind_clock cert_state_wf
           cert_readable eq_refl).
Defined.

(** ** Its parts *)

(** C31. The spec is read from the composite's JSON as [spec_json] says, and its numbers
    are then in bounds: at least one day of validity, less than 2^31, and a
    renewal between 0 and that; so the seconds computed of them fit 64 bits. Any
    other outcome is an error, for want of memory or for a name too long for
    [snprintf]. Reading changes no live block. *)
Theorem cert_reads_spec e unspecified xr l s :
  wf s -> object_is (heap s) xr l ->
  wp e (fun _ => False) (read_spec unspecified xr) (fun r s' => ran [] s s' /\
    (forall sp, r = inr sp -> 1 <= sp_validity_days sp < 2 ^ 31 /\ 0 <= sp_renew_before_days sp < sp_validity_days sp) /\
    (r = spec_json unspecified (JObject l) \/
     (exists msg, r = inl msg) /\
     ((denied s < denied s')%nat \/
      exists name, text_at (json_at (JObject l) [lit "metadata"; lit "name"]) = Some name /\ too_long (name ++ lit "-tls")))) s.
Proof.
  intros Hs Hx. eapply wp_mono; [by apply wp_read_spec|]. intros r s' [Hran H]. split_and!; [done| |done].
  intros sp ->. destruct H as [H|[[msg H] _]]; [|done]. by eapply spec_json_range.
Qed.

Lemma cert_reads_spec_witness :
  spec_json (fun _ => 0) (JObject cert_xr) = inr (Spec (lit "xr-tls") (lit "ns") (lit "xr") [] 90 30) /\
  wp kind_env (fun _ => False) (read_spec (fun _ => 0) (PbStruct 1 (Some 1))) (fun r s' => ran [] cert_state s' /\
    (forall sp, r = inr sp -> 1 <= sp_validity_days sp < 2 ^ 31 /\ 0 <= sp_renew_before_days sp < sp_validity_days sp) /\
    (r = spec_json (fun _ => 0) (JObject cert_xr) \/
     (exists msg, r = inl msg) /\
     ((denied cert_state < denied s')%nat \/
      exists name, text_at (json_at (JObject cert_xr) [lit "metadata"; lit "name"]) = Some name /\ too_long (name ++ lit "-tls"))))
    cert_state.
Proof.
  split; [reflexivity|].
  apply (cert_reads_spec kind_env (fun _ => 0) (PbStruct 1 (Some 1)) cert_xr cert_state cert_state_wf cert_xr_is).
Defined.

(** C39. [state_set_resource] replaces the last resource under the key, or appends one
    when there is none, in an array of its own: the state it was given, its
    composite and every live block stay. It fails only for want of memory. *)
Theorem state_set_resource_replaces e st l key r s :
  wf s -> entries_are (heap s) st l ->
  wp e (fun _ => False) (CertFn.state_set_resource st key r) (fun '(ok, st') s' => kept (heap s) s s' /\
    if ok then entries_are (heap s') st' (set_last l key r) /\
      has_composite st' = has_composite st /\ composite st' = composite st /\
      (exists b, resources st' = Some b /\ heap s !! b = None)
    else st' = st /\ heap s' = heap s /\ (denied s < denied s')%nat) s.
Proof. apply wp_state_set_resource. Qed.

Definition desired_entries : list fnv1_State_ResourcesEntry :=
  [set_entry ResourcesEntry_zero (lit "other") google_protobuf_Struct_init_zero;
   set_entry ResourcesEntry_zero resource_key google_protobuf_Struct_init_zero].
Definition desired_start : cst := Cst {[ 1 := StateArr desired_entries ]} 2 ∅ ∅ 1 [] 0 0.
Definition desired_state : fnv1_State := State false fnv1_Resource_init_zero 2 (Some 1).

Lemma state_set_resource_replaces_witness :
  length (set_last desired_entries resource_key (PbStruct 0 None)) = 2%nat /\
  wp kind_env (fun _ => False) (CertFn.state_set_resource desired_state resource_key (PbStruct 0 None))
    (fun '(ok, st') s' => kept (heap desired_start) desired_start s' /\
    if ok then entries_are (heap s') st' (set_last desired_entries resource_key (PbStruct 0 None)) /\
      has_composite st' = has_composite desired_state /\ composite st' = composite desired_state /\
      (exists b, resources st' = Some b /\ heap desired_start !! b = None)
    else st' = desired_state /\ heap s' = heap desired_start /\ (denied desired_start < denied s')%nat) desired_start.
Proof.
  split; [reflexivity|].
  apply (state_set_resource_replaces kind_env desired_state desired_entries resource_key (PbStruct 0 None) desired_start).
  - split; try done. intros b k. cbn. rewrite lookup_singleton. case_decide; intros; simplify_eq; lia.
  - split; [done|]. intros _. exists 1, []. split; [done|]. reflexivity.
Defined.

(** C32. [set_status] sets "certificate" in the composite's "status" to what the
    decision reports and keeps every other field of both; the copies it works on
    share their arrays with the request, and these two arrays are the only live
    blocks it may change. It fails only for want of memory. *)
Theorem set_status_spares e rsp secret_name out lr lst s :
  wf s -> desired_object (heap s) (desired rsp) lr lst ->
  wp e (fun _ => False) (set_status rsp secret_name out) (fun '(ok, rsp') s' => touched (shared (desired rsp) lr) s s' /\
    if ok then exists r st cert, rsp' = with_desired (with_composite r (desired rsp)) rsp /\
      status_parts (heap s') lr lst secret_name out r st cert
    else rsp' = rsp /\ (denied s < denied s')%nat) s.
Proof. apply wp_set_status. Qed.

Definition some_result : rotator_result :=
  RotatorResult true (lit "absent") (lit "CRT") (lit "KEY") (lit "CN=a.test") (lit "01") (lit "2023-11-14T22:13:20Z")
    (lit "2024-02-12T22:13:20Z") 7776000.
Definition status_response : fnv1_RunFunctionResponse :=
  with_desired (State true (Resource true (PbStruct 1 (Some 1)) 0 None 0) 0 None) fnv1_RunFunctionResponse_init_zero.
Definition status_fields : list google_protobuf_Struct_FieldsEntry :=
  [FieldsEntry (Some (lit "status")) true (struct_value (PbStruct 1 (Some 2)))].
Definition status_start : cst :=
  Cst {[ 1 := FieldsArr status_fields; 2 := FieldsArr [text_field (lit "phase") (lit "Ready")] ]} 3 ∅ ∅ 1 [] 0 0.

Lemma set_status_spares_witness :
  match set_status status_response (lit "xr-tls") some_result kind_env status_start with
  | Ok ((ok, _), s') => ok = true /\ heap s' !! 2 = None
  | Trap _ => False
  end /\
  wp kind_env (fun _ => False) (set_status status_response (lit "xr-tls") some_result)
    (fun '(ok, rsp') s' => touched (shared (desired status_response) status_fields) status_start s' /\
    if ok then exists r st cert, rsp' = with_desired (with_composite r (desired status_response)) status_response /\
      status_parts (heap s') status_fields [text_field (lit "phase") (lit "Ready")] (lit "xr-tls") some_result r st cert
    else rsp' = status_response /\ (denied status_start < denied s')%nat) status_start.
Proof.
  split; [vm_compute; split_and!; reflexivity|].
  apply (set_status_spares kind_env status_response (lit "xr-tls") some_result status_fields
           [text_field (lit "phase") (lit "Ready")] status_start).
  - split; try done. intros b k. cbn. rewrite lookup_insert, lookup_singleton.
    repeat case_decide; intros; simplify_eq; lia.
  - split; [by split|by split| |done]. by intros b [= <-].
Defined.

(** [structpb_get] passes over an entry without a value and [structpb_set] overwrites
    it: of a status that comes twice, first without its value, the second entry is
    left with the array that [structpb_set] has grown and freed. *)
Definition twice_fields : list google_protobuf_Struct_FieldsEntry :=
  [FieldsEntry (Some (lit "status")) false KindNone; FieldsEntry (Some (lit "status")) true (struct_value (PbStruct 1 (Some 2)))].
Definition twice_start : cst :=
  Cst {[ 1 := FieldsArr twice_fields; 2 := FieldsArr [text_field (lit "phase") (lit "Ready")] ]} 3 ∅ ∅ 1 [] 0 0.
Definition twice_response : fnv1_RunFunctionResponse :=
  with_desired (State true (Resource true (PbStruct 2 (Some 1)) 0 None 0) 0 None) fnv1_RunFunctionResponse_init_zero.

Lemma status_twice_dangles :
  match set_status twice_response (lit "xr-tls") some_result kind_env twice_start with
  | Ok ((true, _), s') => heap s' !! 2 = None /\ exists first,
      heap s' !! 1 = Some (FieldsArr [first; FieldsEntry (Some (lit "status")) true (struct_value (PbStruct 1 (Some 2)))])
  | _ => False
  end.
Proof. vm_compute. split; [done|]. by eexists. Qed.
