(* ===== verification/WireAnswer.v ===== *)
(** What the answers of the guests on the wire share: the parts of a request as the
    functions see them, and the parts of a response and their types. *)
From S2P Require Import Prelude BindTypes CString Proto Machine MachineLogic Wasmfn WasmfnMem WasmfnSend Structpb Codec Wire WireProps WireHeap WireFill WireRequest Handle HandleProps HelloFn HelloSpec.
From Stdlib Require Import Strings.Byte.

(** ** The request *)

(** The object of a slot for a Struct, empty when there is none. *)
Definition wire_json (s : list value) : option (list (bytes * json)) :=
  match s with [] => Some [] | [v] => json_object v | _ => None end.

Lemma decoded_back {N : Nanopb} {F : WireFormat} {L : NanopbLaws N F} e data slots s req s0 :
  wf s -> parse fnv1_RunFunctionRequest_msg data = Some slots ->
  fits (MESSAGE fnv1_RunFunctionRequest_msg) (VMsg slots) = true -> pb_decode data e s = Ok (inl req, s0) ->
  heap_step s s0 /\ heap s ⊆ heap s0 /\ request_back slots (heap s0 ∖ heap s) req /\ request_tag req = wire_tag slots.
Proof.
  intros Hs Hdec Hf H. destruct (decode_step _ _ _ _ _ Hs H) as (Hst & Hsub & slots' & Hp & Hb).
  assert (slots' = slots) as -> by congruence. split_and!; [done|done|by apply Hb|]. by eapply request_tag_back, Hb.
Qed.

Lemma struct_composite slots h req xr :
  request_back slots h req -> wire_json (within (within (slot slots 1) 0) 0) = Some xr -> composite_is h req xr.
Proof.
  intros [_ [[Hh _] [_ Hc]] _ _ _ _] Hj. unfold composite_is. rewrite Hh.
  destruct (slot slots 1) as [|o os] eqn:Eo; [by injection Hj|].
  destruct (Hc ltac:(done)) as [[Hh2 _] [Hh3 Hd]]. rewrite Hh2, Hh3.
  destruct (within (o :: os) 0) as [|c cs] eqn:Ec; [by injection Hj|]. cbn [present andb].
  destruct (within (c :: cs) 0) as [|v []] eqn:Er; [by injection Hj| |done]. by apply (Hd v).
Qed.

(** ** The response *)

Definition wire_field (k : string) (v : value) : value := VMsg [[VText (lit k)]; [v]].
Definition wire_text (t : bytes) : value := one_of 6 2 (VText t).
Lemma object_heap h st kj l : object_is h st (kj :: l) -> (1 <= size h)%nat.
Proof.
  intros H. inversion H as [| | | |? es ? [_ Hst] Hes|]; subst. destruct (fields st) as [b|].
  - enough (size h <> 0%nat) by lia. intros E%map_size_empty_iff. subst. by rewrite lookup_empty in Hst.
  - subst. inversion Hes.
Qed.

Lemma read_all_app {A B} (f : A -> reader B) l1 l2 h ys1 ys2 :
  read_all f l1 h = Some ys1 -> read_all f l2 h = Some ys2 -> read_all f (l1 ++ l2) h = Some (ys1 ++ ys2).
Proof.
  revert ys1. induction l1 as [|x l1 IH]; intros ys1 H1 H2; [by injection H1 as <-|].
  apply bind_Some in H1 as (y & Hy & H1). apply bind_Some in H1 as (ys & Hys & [= <-]).
  cbn [app read_all]. rewrite (reader_bind_at _ _ _ _ Hy). by rewrite (reader_bind_at _ _ _ _ (IH ys Hys H2)).
Qed.

(** The array of one element more than [old]. *)
Lemma elements_block {A} (mk : list A -> block) of_block l h b n :
  h !! b = Some (mk l) -> of_block (mk l) = Some l -> n = Z.of_nat (length l) ->
  elements of_block n (Some b) h = Some l.
Proof. intros Hb Hof ->. by eapply (array_elements mk). Qed.

(** ** Types *)

Lemma typed_meta tag : typed (MESSAGE fnv1_ResponseMeta_msg) (meta_of (ResponseMeta (Some tag) true 60 0)) = true.
Proof. done. Qed.

Lemma forallb_typed t xs : Forall (fun x => fits t x = true) xs -> forallb (typed t) xs = true.
Proof.
  induction 1 as [|x xs Hx _ IH]; [done|]. simpl. unfold fits in Hx. apply andb_prop in Hx as [-> _]. exact IH.
Qed.

(** The parts of the desired state that pass through. *)
Lemma desired_slots slots :
  fits (MESSAGE fnv1_RunFunctionRequest_msg) (VMsg slots) = true ->
  slot_fits (MESSAGE fnv1_Resource_msg) (within (slot slots 2) 0) /\
  Forall (fun x => fits (MESSAGE fnv1_State_ResourcesEntry_msg) x = true) (within (slot slots 2) 1).
Proof.
  intros Hf. destruct (request_slots slots Hf) as (_ & [->|(v & -> & Hv)] & _); [by split; [left|]|].
  message_slots Hv. cbn [within msg_slots]. rewrite ?slot_next, ?slot_here.
  split; [by eapply optional_slot|exact (fits_all _ _ Hs0)].
Qed.

(** ** Replies *)

Section replied.
Context {N : Nanopb} {F : WireFormat} {L : NanopbLaws N F}.
Variable run_function : fnv1_RunFunctionRequest -> fnv1_RunFunctionResponse ->
  C (option bytes * fnv1_RunFunctionResponse).
Context {e : env} {T : trap -> Prop} (cell : Z) (data : bytes) (slots : slots_t) (s : cst).
(** What is to hold of an answer and the state it is given in. *)
Variable said : slots_t -> cst -> Prop.

(** A run that ended: whatever answer is made of an error, and the answer its response
    reads as, is one that can be sent and is as [said]. *)
Definition run_said (out : option bytes * fnv1_RunFunctionResponse) (s' : cst) : Prop :=
  match out with
  | (Some msg, _) => forall reason, said (fatal_slots (wire_tag slots) msg reason) s'
  | (None, rsp) => exists answer, response_of rsp (heap s') = Some answer /\
      typed_slots fnv1_RunFunctionResponse_msg answer /\ said answer s'
  end.

(** The answer to a request memory ran out for. *)
Definition undecoded (answer : slots_t) (s' : cst) : Prop :=
  (denied s < denied s')%nat /\ trace s' = trace s /\ exists msg reason,
    lit "cannot decode RunFunctionRequest" `prefix_of` msg /\ answer = fatal_slots [] msg reason.

(** The reply's bytes are those of the answer; there are none only when
    memory ran out or they do not fit it. *)
Definition replied (out : option Z * Z) (s' : cst) : Prop :=
  wf s' /\ others cell (heap s) ⊆ heap s' /\
  exists answer, said answer s' /\
    let bs := format fnv1_RunFunctionResponse_msg answer in
    match out with
    | (Some b, n) => n = Z.of_nat (length bs) /\ parse fnv1_RunFunctionResponse_msg bs = Some answer /\
        heap s !! b = None /\
        exists pad, heap s' !! b = Some (Bytes (map Some bs ++ pad)) /\ (bs <> [] -> pad = [])
    | (None, n) => n = 0 /\ ((denied s < denied s')%nat \/ memory_size <= Z.of_nat (length bs))
    end.

Context (Hs : wf s) (Hcell : has_cell cell s)
  (Hdec : parse fnv1_RunFunctionRequest_msg data = Some slots).
Hypothesis Hrun : forall req s0, pb_decode data e s = Ok (inl req, s0) ->
  wp e T (run_function req (set_meta (request_tag req) fnv1_RunFunctionResponse_init_zero))
    (fun out s1 => wf s1 /\ heap s ⊆ heap s1 /\ (denied s0 <= denied s1)%nat /\
       request_tag req = wire_tag slots /\ run_said out s1) s0.
Hypothesis Hstep : forall answer s1 s2, said answer s1 -> heap_step s1 s2 -> said answer s2.
Hypothesis Hundecoded : forall answer s1, undecoded answer s1 -> said answer s1.

Lemma said_behaves : well_behaved (e := e) (T := T) run_function data s.
Proof.
  intros req s0 H. eapply wp_mono; [by apply Hrun|]. intros [[msg|] rsp] s1 (? & ? & ? & _ & Hsaid); split_and!; try done.
  destruct Hsaid as (answer & ? & ? & _). by exists answer.
Qed.

(** Every answer is a response that can be sent. *)
Lemma answered_said rsp s1 :
  answered (e := e) run_function cell data s rsp s1 ->
  exists answer, response_of rsp (heap s1) = Some answer /\ said answer s1.
Proof.
  assert (forall req s0 out s1, pb_decode data e s = Ok (inl req, s0) ->
    run_function req (set_meta (request_tag req) fnv1_RunFunctionResponse_init_zero) e s0 = Ok (out, s1) ->
    request_tag req = wire_tag slots /\ run_said out s1) as Hsaid.
  { intros req s0 out s2 Hd Hr. specialize (Hrun req s0 Hd). unfold wp in Hrun. rewrite Hr in Hrun. by apply Hrun. }
  intros [req s2 rsp' s3 Hd Hr|req s2 msg left s3 rsp' s4 Hd Hr Hst Hfa|err s2 msg rsp' s3 Hd text Hm Hst Hfa].
  - destruct (Hsaid _ _ _ _ Hd Hr) as [_ (answer & ? & _ & ?)]. by exists answer.
  - destruct (Hsaid _ _ _ _ Hd Hr) as [Ht H].
    destruct (fatal_slots_spec _ _ _ _ _ Hfa) as [reason E]. rewrite E, Ht.
    eexists. split; [done|]. by eapply Hstep.
  - destruct (fatal_slots_spec _ _ _ _ _ Hfa) as [reason E]. rewrite E.
    eexists. split; [done|]. apply Hundecoded.
    pose proof (decode_request e (fun _ => True) data s Hs) as Hw. unfold wp in Hw. rewrite Hd in Hw.
    destruct Hw as (Hst0 & _ & [?|Hden]); [congruence|].
    pose proof (hs_denied _ _ Hst). split; [lia|]. split; [by rewrite (hs_trace _ _ Hst), (hs_trace _ _ Hst0)|].
    exists msg, reason. split; [by eapply undecodable_text|done].
Qed.

Lemma wp_replies : wp e T (wasmfn_handle run_function cell data) replied s.
Proof.
  eapply wp_mono; [by apply (wp_wasmfn_handle run_function cell); [| |apply said_behaves]|].
  intros out s' (Hwf & Hsub & rsp & s1 & Ha & (Hst & _ & m & Hm & _ & Henc) & Hd & Hlive).
  split; [done|]. split; [done|]. destruct (answered_said _ _ Ha) as (answer & Hr & Hsaid).
  assert (m = answer) as -> by congruence. exists answer. split; [by eapply Hstep|].
  destruct out as [[b|] n]; cbn zeta in *.
  - destruct Henc as (pad & -> & Hp & Hfr & Hb & Hpad). split; [done|]. split; [done|].
    split; [|by exists pad]. apply eq_None_not_Some. intros Hk. apply Hlive in Hk. rewrite Hfr in Hk. by destruct Hk.
  - destruct Henc as [-> [?|?]]; (split; [done|]); [by right|left; lia].
Qed.
End replied.

Lemma replied_weaken {F : WireFormat} cell s (said said' : slots_t -> cst -> Prop) out s' :
  (forall answer s', said answer s' -> said' answer s') -> replied cell s said out s' -> replied cell s said' out s'.
Proof. intros H (? & ? & answer & ? & ?). split; [done|]. split; [done|]. exists answer. auto. Qed.

(** ** Calls *)

Section called.
Context {N : Nanopb} {F : WireFormat}.
Variable run_function : fnv1_RunFunctionRequest -> fnv1_RunFunctionResponse ->
  C (option bytes * fnv1_RunFunctionResponse).
Context {e : env} {T : trap -> Prop} (HA : T Aborted) (cell : Z) (data : bytes).
(** What is to hold of an answer and the state it is given in. *)
Variable said : slots_t -> cst -> Prop.
Hypothesis Hstep : forall answer s1 s2, said answer s1 -> heap_step s1 s2 -> said answer s2.

(** The host gets the bytes of the answer, or the error text when memory ran out or
    they do not fit it; the guest's live blocks are as they were. *)
Definition called (s : cst) (v : result_t bytes bytes) (s' : cst) : Prop :=
  wf s' /\ others cell (heap s) ⊆ heap s' /\
  exists answer, said answer s' /\
    let bs := format fnv1_RunFunctionResponse_msg answer in
    match v with
    | ROk out => out = bs /\ parse fnv1_RunFunctionResponse_msg bs = Some answer
    | RErr text => text = lit "cannot encode RunFunctionResponse" /\
        ((denied s < denied s')%nat \/ memory_size <= Z.of_nat (length bs))
    end.

(** The list of the result holds what the host is to get, in a block of its own. *)
Definition holds_answer (s : cst) (r : result_t list_u8 list_u8) (s' : cst) : Prop :=
  exists text, holds s' (result_list r) text /\ called s (result_with (fun _ => text) r) s' /\
    (text <> [] -> forall b, u8_ptr (result_list r) = Some b -> others cell (heap s) !! b = None).

Lemma called_step s v s1 s2 :
  called s v s1 -> heap_step s1 s2 -> others cell (heap s) ⊆ heap s2 -> called s v s2.
Proof.
  intros (_ & _ & answer & Ha & Hv) Hst Hsub. split; [apply Hst|]. split; [done|].
  exists answer. split; [by eapply Hstep|]. pose proof (hs_denied _ _ Hst). destruct v as [out|text]; [done|].
  destruct Hv as [-> [Hd|Hm]]; (split; [done|]); [left; lia|by right].
Qed.

(** The result's list is taken and given back. *)
Lemma wp_taken s r s1 :
  holds_answer s r s1 ->
  wp e T (bs ← list_bytes (result_list r); _ ← list_u8_free (result_list r); mret (result_with (fun _ => bs) r))
    (called s) s1.
Proof.
  intros (text & Hh & Hc & Hfresh). pose proof Hc as (Hwf & Hsub & _).
  eapply wp_seq; [by apply wp_list_bytes|]. intros ? ? [-> ->].
  eapply wp_seq; [by apply (wp_list_u8_free _ text)|]. intros [] s2 [Hst Hheap]. apply wp_ret.
  eapply called_step; [done|done|]. rewrite Hheap. destruct text as [|c cs]; [done|].
  destruct (u8_ptr (result_list r)) as [b|]; [|done].
  rewrite <- (delete_id (others cell (heap s)) b) by by apply Hfresh. by apply delete_mono.
Qed.

(** The request's buffer, while the reply was made. *)
Lemma request_kept s l s1 h :
  lowered data s l s1 -> has_cell cell s -> others cell (heap s1) ⊆ heap h -> holds h l data.
Proof.
  intros (_ & Hn & Hl) [r0 Hc] Hsub. split; [done|]. intros Hne. destruct (u8_ptr l) as [b|]; [|by destruct Hl].
  destruct Hl as (_ & Hf & _ & Hh). exists b. split; [done|]. eapply others_weaken; [done|congruence|].
  rewrite Hh. apply lookup_insert_eq.
Qed.

(** The reply as the export's result, the request's buffer given back first. *)
Lemma wp_lifted s l s1 out s2 :
  lowered data s l s1 -> has_cell cell s -> replied cell s1 said out s2 ->
  wp e T (_ ← list_u8_free l; match out.1 with
     | None => err ← string_dup (lit "cannot encode RunFunctionResponse"); mret (RErr err)
     | Some b => mret (ROk (Lu8 (Some b) out.2)) end) (holds_answer s) s2.
Proof.
  intros Hl Hcell (Hs2 & Hsub & answer & Ha & Hout). pose proof (lowered_subseteq _ _ _ _ Hl) as Hsub1.
  assert (others cell (heap s) ⊆ heap s2) as Hsub2 by (etransitivity; [by apply delete_mono|done]).
  pose proof (request_kept _ _ _ _ Hl Hcell Hsub) as Hh. pose proof (hs_denied _ _ (proj1 Hl)) as Hd1.
  eapply wp_seq; [by apply (wp_list_u8_free l data)|]. intros [] s3 [Hst3 Hh3].
  pose proof (hs_denied _ _ Hst3) as Hd3. destruct Hl as (_ & _ & Hl).
  assert (others cell (heap s) ⊆ heap s3) as Hsub3.
  { rewrite Hh3. destruct data as [|c cs]; [done|]. destruct (u8_ptr l) as [q|]; [|done].
    destruct Hl as (_ & Hf & _). rewrite <- (delete_id (others cell (heap s)) q); [by apply delete_mono|].
    unfold others. rewrite lookup_delete. by case_decide. }
  destruct out as [[b|] n]; cbn [fst snd] in *; cbn zeta in Hout.
  - apply wp_ret. destruct Hout as (-> & Hdec & Hfr & pad & Hb & Hpad).
    eexists. split; [|split; [|intros _ b' [= <-]]].
    + split; [done|]. intros Hne. exists b. split; [done|]. rewrite Hpad, app_nil_r in Hb by done. rewrite Hh3.
      destruct data as [|c cs]; [done|]. destruct (u8_ptr l) as [q|]; [|done].
      rewrite lookup_delete_ne; [done|]. intros ->. destruct Hl as (_ & _ & _ & Hq). by rewrite Hq, lookup_insert_eq in Hfr.
    + split; [apply Hst3|]. split; [done|]. exists answer. split; [by eapply Hstep|done].
    + eapply lookup_weaken_None; [exact Hfr|]. etransitivity; [apply delete_subseteq|done].
  - eapply wp_seq; [by apply (wp_string_dup HA), Hst3|]. intros err s4 He. apply wp_ret.
    pose proof (lowered_subseteq _ _ _ _ He) as Hsub4. pose proof (hs_denied _ _ (proj1 He)) as Hd4.
    exists (lit "cannot encode RunFunctionResponse"). split; [by eapply lowered_holds|split].
    + split; [apply (proj1 He)|]. split; [by etransitivity|]. exists answer.
      split; [eapply Hstep; [by eapply Hstep|apply (proj1 He)]|]. split; [done|].
      destruct Hout as [_ [?|?]]; [left; lia|by right].
    + intros _ b Hb. destruct He as (_ & _ & He). cbn [result_list] in Hb. rewrite Hb in He. destruct He as (_ & Hn & _).
      by eapply lookup_weaken_None.
Qed.

(** A whole call. *)
Lemma wp_called s :
  wf s -> has_cell cell s ->
  (forall s1, heap_step s s1 -> heap s ⊆ heap s1 -> has_cell cell s1 ->
     wp e T (wasmfn_handle run_function cell data) (replied cell s1 said) s1) ->
  wp e T (machine_call run_function cell data) (called s) s.
Proof.
  intros Hs [r0 Hc] Hw. eapply wp_seq; [by apply wp_cabi_lower|]. intros l s1 Hl.
  pose proof (lowered_subseteq _ _ _ _ Hl) as Hsub. pose proof (lowered_holds _ _ _ _ Hl) as Hh.
  eapply wp_seq; [|intros r s2 Hr; by apply wp_taken].
  eapply wp_seq; [by apply wp_list_bytes|]. intros ? ? [-> ->].
  eapply wp_seq; [apply Hw; [apply Hl|done|exists r0; by eapply lookup_weaken]|].
  intros [out n] s2 H2. eapply (wp_lifted _ _ _ (out, n)); [done|by exists r0|done].
Qed.
End called.
