(* ===== verification/HelloWire.v ===== *)
(** The hello guest from bytes to bytes, over any wire format: what [wasmfn_handle]
    answers, composed of what a decoded request holds (WireRequest), what the function
    does (HelloProps) and what its response reads as (WireHeap). And the component,
    whatever the bytes. *)
From S2P Require Import Prelude BindTypes CString Proto Machine MachineLogic Wasmfn WasmfnMem WasmfnSend WasmfnRead WasmfnSpec WasmfnText WasmfnProps Structpb Codec Wire WireProps WireHeap WireFill WireRequest Handle WireHeapProps HandleProps HelloFn HelloSpec HelloProps WireAnswer.
From Stdlib Require Import Strings.Byte.

(** ** The request *)

Lemma struct_config slots h req cfg :
  request_back slots h req -> wire_json (slot slots 3) = Some cfg -> config_is h req cfg.
Proof.
  intros [_ _ _ [[Hh _] Hd] _ _] Hj. unfold config_is. rewrite Hh.
  destruct (slot slots 3) as [|v []] eqn:E; [by injection Hj| |done]. by apply (Hd v).
Qed.

Lemma array_resources old h n p :
  array_at StateArr old h (n, p) -> forall st, resources_count st = n -> resources st = p -> resources_are h st old.
Proof.
  intros [Hn Hp] st Ec Er. split; [by rewrite Ec|]. intros Hl. rewrite Er. cbn [fst snd] in Hp.
  destruct p as [b|]; [|done]. exists b. split; [done|]. apply Hp.
Qed.

(** The desired state as the function finds it. *)
Lemma state_desired slots h req :
  request_back slots h req ->
  exists old, resources_are h (if rq_has_desired req then rq_desired req else fnv1_State_init_zero) old /\
    read_all state_entry_of old h = Some (within (slot slots 2) 1) /\
    (rq_has_desired req = true -> when (has_composite (rq_desired req)) (resource_of (composite (rq_desired req))) h
       = Some (within (slot slots 2) 0)) /\
    (rq_has_desired req = false -> slot slots 2 = []).
Proof.
  intros [_ _ [[Hh Hr] [[old Ho] _]] _ _ _]. destruct (rq_has_desired req).
  - apply bind_Some in Hr as (v & Hv & [= Hs]). rewrite <- Hs. cbn [within].
    unfold state_of in Hv. apply bind_Some in Hv as (c & Hc & Hv).
    apply bind_Some in Hv as (es & Hes & Hv). apply bind_Some in Hv as (rs & Hrs & [= <-]).
    pose proof (elements_array_at _ as_state _ _ _ Ho eq_refl) as He. cbn [fst snd] in He. rewrite He in Hes.
    injection Hes as <-. exists old. split; [by eapply array_resources|]. done.
  - injection Hr as Hs. rewrite <- Hs. exists []. done.
Qed.

(** ** The response *)

Definition wire_config_map (text : bytes) : value :=
  VMsg [[wire_field "apiVersion" (wire_text (lit "v1")); wire_field "kind" (wire_text (lit "ConfigMap"));
         wire_field "data" (one_of 6 4 (VMsg [[wire_field "greeting" (wire_text text)]]))]].
Definition greeting_entry (text : bytes) : value :=
  VMsg [[VText (lit "greeting")]; [VMsg [[wire_config_map text]; []; []]]].

(** The desired state of the request with the ConfigMap after its resources, a
    result that greets and the condition, under the request's tag. *)
Definition hello_answer (slots : slots_t) (text name : bytes) : slots_t :=
  [[meta_of (ResponseMeta (Some (wire_tag slots)) true 60 0)];
   [VMsg [within (slot slots 2) 0; within (slot slots 2) 1 ++ [greeting_entry text]]];
   [VMsg [[VInt fnv1_Severity_SEVERITY_NORMAL]; [VText (lit "greeted " ++ until_nul name)]; [];
          [VInt fnv1_Target_TARGET_COMPOSITE]]];
   []; [];
   [VMsg [[VText (lit "FunctionSuccess")]; [VInt fnv1_Status_STATUS_CONDITION_TRUE]; [VText (lit "Success")]; [];
          [VInt fnv1_Target_TARGET_COMPOSITE_AND_CLAIM]]]; []].

Lemma config_map_read h cm text :
  NUL ∉ text -> object_is h cm (config_map_json text) -> struct_of cm h = Some (wire_config_map text).
Proof.
  intros Ht H. pose proof (object_heap _ _ _ _ H) as Hsz.
  assert (json_wire (JObject (config_map_json text)) = Some (one_of 6 4 (wire_config_map text))) as Hj.
  { cbn. by rewrite (until_nul_id text). }
  apply (value_read h _ _ _ (S (size h)) H) in Hj; [|cbn; lia].
  apply value_object in Hj as (st & [= <-] & Hr). exact Hr.
Qed.

Lemma greeting_read h cm text :
  NUL ∉ text -> object_is h cm (config_map_json text) ->
  state_entry_of (composed_entry (lit "greeting") cm) h = Some (greeting_entry text).
Proof.
  intros Ht H. unfold state_entry_of, composed_entry. cbn [re_has_value re_value re_key].
  rewrite (reader_bind_at _ _ _ [VMsg [[wire_config_map text]; []; []]]); [done|]. apply when_true.
  unfold resource_of. cbn [has_resource resource].
  rewrite (reader_bind_at _ _ _ [wire_config_map text]); [done|]. apply when_true. by apply config_map_read.
Qed.

(** A response with a desired state, a result and a condition. *)
Lemma composed_read tag d dv rb r cb c h :
  state_of d h = Some dv -> h !! rb = Some (ResultArr [r]) -> h !! cb = Some (ConditionArr [c]) ->
  response_of (with_conditions (Some cb) 1 (with_results (Some rb) 1
                 (with_desired d (set_meta tag fnv1_RunFunctionResponse_init_zero)))) h
  = Some [[meta_of (ResponseMeta (Some tag) true 60 0)]; [dv]; [result_of_response r]; []; []; [condition_of c]; []].
Proof.
  intros Hd Hr Hc. unfold response_of.
  rewrite (reader_bind_at _ _ _ [dv]) by by apply when_true.
  rewrite (reader_bind_at _ _ _ [r]) by by eapply elements_block.
  rewrite (reader_bind_at _ _ _ []) by done. rewrite (reader_bind_at _ _ _ []) by done.
  rewrite (reader_bind_at _ _ _ [c]) by by eapply elements_block.
  by rewrite (reader_bind_at _ _ _ []) by done.
Qed.

Lemma greeted_wire name :
  result_of_response (greeted_result (until_nul (lit "greeted " ++ name))) =
  VMsg [[VInt fnv1_Severity_SEVERITY_NORMAL]; [VText (lit "greeted " ++ until_nul name)]; [];
        [VInt fnv1_Target_TARGET_COMPOSITE]].
Proof.
  assert (NUL ∉ lit "greeted ") as Hn by (apply (bool_decide_unpack _); by vm_compute).
  rewrite until_nul_prefix by done. unfold result_of_response, greeted_result, singular_text.
  cbn [severity message res_reason has_target target fmap option_fmap option_map].
  rewrite until_nul_id; [done|]. intros [?|H]%elem_of_app; [done|]. by apply until_nul_no_nul in H.
Qed.

(** What is composed, as it is read for the wire. *)
Lemma greeted_read slots h0 h req old text name rsp' :
  request_back slots h0 req -> h0 ⊆ h ->
  read_all state_entry_of old h0 = Some (within (slot slots 2) 1) ->
  (rq_has_desired req = true -> when (has_composite (rq_desired req)) (resource_of (composite (rq_desired req))) h0
     = Some (within (slot slots 2) 0)) ->
  (rq_has_desired req = false -> slot slots 2 = []) -> NUL ∉ text ->
  greeted req old text name (set_meta (wire_tag slots) fnv1_RunFunctionResponse_init_zero) rsp' h ->
  response_of rsp' h = Some (hello_answer slots text name).
Proof.
  intros Hb Hsub Hrd Hc Hnone Ht (cm & db & rb & cb & -> & Hdb & Hcm & Hrb & Hcb).
  set (d0 := if rq_has_desired req then _ else _) in *.
  assert (when (has_composite d0) (resource_of (composite d0)) h = Some (within (slot slots 2) 0)) as Hcomp.
  { subst d0. destruct (rq_has_desired req); [|by rewrite Hnone].
    eapply steady_when; [apply steady_resource|by apply Hc|done]. }
  rewrite (composed_read _ _ (VMsg [within (slot slots 2) 0; within (slot slots 2) 1 ++ [greeting_entry text]]) rb
    (greeted_result (until_nul (lit "greeted " ++ name))) cb success_condition h);
    [unfold hello_answer; by rewrite greeted_wire| |exact Hrb|exact Hcb].
  unfold state_of. cbn [has_composite composite resources resources_count].
  rewrite (reader_bind_at _ _ _ _ Hcomp).
  rewrite (reader_bind_at _ _ _ (old ++ [composed_entry (lit "greeting") cm])).
  - rewrite (reader_bind_at _ _ _ (within (slot slots 2) 1 ++ [greeting_entry text])); [done|].
    apply read_all_app.
    + eapply steady_reads; [apply steady_state_entry|exact Hrd|done].
    + simpl. by rewrite (reader_bind_at _ _ _ _ (greeting_read _ _ _ Ht Hcm)).
  - eapply elements_block; [exact Hdb|done|]. rewrite length_app. simpl. lia.
Qed.

(** ** It has the type of a response *)

Lemma typed_greeting text : typed (MESSAGE fnv1_State_ResourcesEntry_msg) (greeting_entry text) = true.
Proof. reflexivity. Qed.

Lemma typed_answer slots text name :
  fits (MESSAGE fnv1_RunFunctionRequest_msg) (VMsg slots) = true ->
  typed_slots fnv1_RunFunctionResponse_msg (hello_answer slots text name).
Proof.
  intros Hf. destruct (desired_slots slots Hf) as [Hc He]. apply forallb_typed in He.
  unfold typed_slots, hello_answer. pose proof (typed_meta (wire_tag slots)) as Hm.
  pose proof (typed_greeting text) as Hg. generalize dependent (greeting_entry text). generalize dependent (meta_of (ResponseMeta (Some (wire_tag slots)) true 60 0)).
  intros m Hm g Hg.
  assert (typed (MESSAGE fnv1_State_msg) (VMsg [within (slot slots 2) 0; within (slot slots 2) 1 ++ [g]]) = true) as Hd.
  { cbn. rewrite forallb_app, He. cbn. rewrite Hg. destruct Hc as [->|(v & -> & Hv)]; [done|].
    unfold fits in Hv. apply andb_prop in Hv as [Hv _]. cbn. by rewrite Hv. }
  generalize dependent (VMsg [within (slot slots 2) 0; within (slot slots 2) 1 ++ [g]]). intros d Hd.
  cbn. by rewrite Hm, Hd.
Qed.

(** ** The run *)

(** What was logged, asked of the host and found, and the answer it makes. Memory
    that runs out while the request is decoded makes another. *)
Definition hello_said (slots : slots_t) (cfg xr : list (bytes * json)) (s : cst) (answer : slots_t) (s' : cst) : Prop :=
  undecoded s answer s' \/
  exists s0 s1 s2 g,
    heap_step s s0 /\ logged level_info (lit "Running function") [(lit "tag", Some (wire_tag slots))] s0 s1 /\
    greeting_spec cfg s1 g s2 /\ trace s' = trace s2 /\ handles s' = handles s2 /\
    match g, name_of xr with
    | inl msg, _ => exists reason, answer = fatal_slots (wire_tag slots) msg reason
    | inr _, None => exists reason, answer = fatal_slots (wire_tag slots)
        (lit "cannot get observed composite resource: none in request") reason
    | inr greeting, Some name =>
        answer = hello_answer slots (until_nul (greeting ++ lit " " ++ name)) name \/
        exists reason, answer = fatal_slots (wire_tag slots) (lit "out of memory") reason /\
          ((denied s < denied s')%nat \/ INT_MAX < Z.of_nat (length greeting + length name + 8))
    end.

Lemma hello_said_step slots cfg xr s answer s1 s2 :
  hello_said slots cfg xr s answer s1 -> heap_step s1 s2 -> hello_said slots cfg xr s answer s2.
Proof.
  intros H Hst. pose proof (hs_denied _ _ Hst). pose proof (hs_trace _ _ Hst) as Ht.
  pose proof (hs_handles _ _ Hst) as Hh.
  destruct H as [(Hd & Htr & Ha)|(s0 & s1' & s2' & g & Hs0 & Hl & Hg & Htr & Hha & Ha)]; [left|right].
  - split; [lia|]. split; [congruence|done].
  - exists s0, s1', s2', g. split_and!; try done; try congruence.
    destruct g; [done|]. destruct (name_of xr); [|done].
    destruct Ha as [->|(r & -> & Hd)]; [by left|right]. exists r. split; [done|]. destruct Hd; [left; lia|by right].
Qed.

(** Nor does it matter what was allocated before. *)
Lemma hello_said_back slots cfg xr s s1 answer s' :
  heap_step s s1 -> hello_said slots cfg xr s1 answer s' -> hello_said slots cfg xr s answer s'.
Proof.
  intros Hst H. pose proof (hs_denied _ _ Hst).
  destruct H as [(Hd & Htr & Ha)|(s0 & s1' & s2' & g & Hs0 & Hl & Hg & Htr & Hha & Ha)]; [left|right].
  - split; [lia|]. split; [by rewrite Htr, (hs_trace _ _ Hst)|done].
  - exists s0, s1', s2', g. split; [by eapply heap_step_trans|]. split_and!; try done.
    destruct g; [done|]. destruct (name_of xr); [|done].
    destruct Ha as [->|(r & -> & Hd)]; [by left|right]. exists r. split; [done|]. destruct Hd; [left; lia|by right].
Qed.

Section run.
Context {N : Nanopb} {F : WireFormat} {L : NanopbLaws N F}.
Context {e : env} {T : trap -> Prop} (HA : T Aborted) (Hhost : typed_host e) (fuel : nat) (cell : Z) (data : bytes)
  (slots : slots_t) (cfg xr : list (bytes * json)) (s : cst).
Context (Hs : wf s) (Hdec : parse fnv1_RunFunctionRequest_msg data = Some slots)
  (Hf : fits (MESSAGE fnv1_RunFunctionRequest_msg) (VMsg slots) = true)
  (Hcfg : wire_json (slot slots 3) = Some cfg)
  (Hxr : wire_json (within (within (slot slots 1) 0) 0) = Some xr)
  (Hurl : forall url, setting cfg (lit "greetingUrl") = Some (JString url) -> Z.of_nat (length url) < 2 ^ 30).

(** What the function is called with. *)
Lemma wire_readable req s0 :
  pb_decode data e s = Ok (inl req, s0) -> exists old, readable_request (heap s0) req cfg xr old /\
    read_all state_entry_of old (heap s0) = Some (within (slot slots 2) 1) /\
    (rq_has_desired req = true -> when (has_composite (rq_desired req)) (resource_of (composite (rq_desired req))) (heap s0)
       = Some (within (slot slots 2) 0)) /\
    (rq_has_desired req = false -> slot slots 2 = []).
Proof.
  intros H. destruct (decoded_back _ _ _ _ _ _ Hs Hdec Hf H) as (_ & _ & Hb & _).
  apply (request_back_lasting _ _ (heap s0)) in Hb; [|apply added_within].
  destruct (state_desired _ _ _ Hb) as (old & Hold & Hread). exists old. split; [|exact Hread].
  split; [by eapply struct_config|by eapply struct_composite|done|done].
Qed.

(** The function's run on what was decoded. *)
Lemma hello_run req s0 :
  enough e T fuel s -> pb_decode data e s = Ok (inl req, s0) ->
  wp e T (run_function Wasi fuel req (set_meta (request_tag req) fnv1_RunFunctionResponse_init_zero))
    (fun out s1 => wf s1 /\ heap s ⊆ heap s1 /\ (denied s0 <= denied s1)%nat /\
       request_tag req = wire_tag slots /\ run_said slots (hello_said slots cfg xr s) out s1) s0.
Proof.
  intros He Hd. destruct (decoded_back _ _ _ _ _ _ Hs Hdec Hf Hd) as (Hst & Hsub & Hb & Ht).
  apply (request_back_lasting _ _ (heap s0)) in Hb; [|apply added_within].
  destruct (wire_readable _ _ Hd) as (old & Hrd & Hold & Hc & Hn).
  eapply wp_mono; [apply (wp_hello HA Hhost fuel req cfg xr old _ s0); [apply Hst|done|done|by eapply enough_step]|].
  intros out s1 (Hwf & Hsub1 & Hden & s2 & s3 & g & Hlog & Hg & Hm).
  split_and!; [done|by etransitivity|done|done|].
  change (tag_pairs req) with [(lit "tag", Some (request_tag req))] in Hlog. rewrite Ht in *.
  pose proof (hs_denied _ _ Hst). destruct out as [[msg|] rsp].
  - intros reason. right. exists s0, s2, s3, g.
    destruct g as [m|greeting]; [|destruct (name_of xr) as [name|]].
    + destruct Hm as [[= -> ->] ->]. split_and!; try done. by eexists.
    + destruct Hm as (Htr & Hha & -> & Hm). split_and!; try done. right. eexists. split; [done|].
      destruct Hm; [left; lia|by right].
    + destruct Hm as [[= -> ->] ->]. split_and!; try done. by eexists.
  - destruct g as [m|greeting]; [by destruct Hm|]. destruct (name_of xr) as [name|] eqn:En; [|by destruct Hm].
    destruct Hm as (Htr & Hha & Hm). exists (hello_answer slots (until_nul (greeting ++ lit " " ++ name)) name).
    split; [|split; [by apply typed_answer|]].
    + eapply greeted_read; try done. apply until_nul_no_nul.
    + right. exists s0, s2, s3, (inr greeting). rewrite En. split_and!; try done. by left.
Qed.

Lemma hello_meta : keeps_meta (e := e) (run_function Wasi fuel) data s.
Proof.
  intros req s1 Hr. destruct (decode_step _ _ _ _ _ Hs Hr) as (Hst & Hsub & _).
  destruct (wire_readable _ _ Hr) as (old & Hrd & _).
  eapply wp_mono; [apply (wp_hello (T := fun _ => True) I Hhost fuel req cfg xr old); [apply Hst|done|done|by left]|].
  intros [err rsp] s2 (_ & _ & _ & s3 & s4 & g & _ & _ & H) E. cbn [fst snd] in *. subst err.
  destruct g as [msg|greeting]; [destruct H as [H _]; discriminate H|].
  destruct (name_of xr) as [name|]; [|destruct H as [H _]; discriminate H].
  destruct H as (_ & _ & (cm & db & rb & cb & -> & _)). done.
Qed.

Lemma wp_hello_on_wire :
  has_cell cell s -> enough e T fuel s ->
  wp e T (wasmfn_handle (run_function Wasi fuel) cell data) (replied cell s (hello_said slots cfg xr s)) s.
Proof.
  intros Hc He. apply (wp_replies _ _ _ slots); try done.
  - intros req s0. by apply hello_run.
  - intros answer s1 s2. apply hello_said_step.
  - by left.
Qed.
End run.

(** What is taken for granted of a request that decodes: its text and numbers are
    those a C struct holds, its input and observed composite are JSON objects, and a
    "greetingUrl" is not as long as a quarter of the memory. *)
Definition hello_wellformed (slots : slots_t) (cfg xr : list (bytes * json)) : Prop :=
  fits (MESSAGE fnv1_RunFunctionRequest_msg) (VMsg slots) = true /\
  wire_json (slot slots 3) = Some cfg /\ wire_json (within (within (slot slots 1) 0) 0) = Some xr /\
  (forall url, setting cfg (lit "greetingUrl") = Some (JString url) -> Z.of_nat (length url) < 2 ^ 30).

(** What the host is given, and that the guest's live blocks are as they were. *)
Definition hello_called {F : WireFormat} (cell : Z) (slots : slots_t) (cfg xr : list (bytes * json)) (s : cst)
    : result_t bytes bytes -> cst -> Prop :=
  called cell (hello_said slots cfg xr s) s.

(** C4. The hello guest from bytes to bytes, for every host, allocator and wire format
    nanopb implements: the host lowers a request into the guest's memory, calls the
    export, takes the bytes of its result and gives the buffer back. A request that
    parses, without NUL in its strings and with JSON objects for input and composite
    ([hello_wellformed]), is answered with the bytes that parse as: the request's desired
    state, passed through unchanged, with the ConfigMap that greets the composite
    after its resources, a result and a condition; or one fatal result that says why
    not; under the request's tag with a 60 s time to live. The host is asked for a
    log line and, for a configured "greetingUrl", the GET that fetches it. An error
    text instead of bytes comes back only when memory ran out or could not hold
    them. No block that was live before the call has changed. *)
Theorem hello_on_the_wire (N : Nanopb) (F : WireFormat) (L : NanopbLaws N F) e T fuel cell data slots cfg xr s :
  T Aborted -> typed_host e -> wf s -> has_cell cell s -> enough e T fuel s ->
  parse fnv1_RunFunctionRequest_msg data = Some slots -> hello_wellformed slots cfg xr ->
  wp e T (machine_call (run_function Wasi fuel) cell data) (hello_called cell slots cfg xr s) s.
Proof.
  intros HA Hh Hs Hc He Hdec (Hf & Hcfg & Hxr & Hurl). apply (wp_called _ HA); [apply hello_said_step|done|done|].
  intros s1 Hst _ Hc1. eapply wp_mono; [apply (wp_hello_on_wire HA Hh fuel cell data slots); try done; [apply Hst|by eapply enough_step]|].
  intros out s2. apply replied_weaken. intros answer s'. by apply hello_said_back.
Qed.

(** A request for "xr", configured to greet with "hi", one resource desired so far. *)
Definition hello_slots : slots_t :=
  let object k v := VMsg [[wire_field k v]] in
  [[VMsg [[VText (lit "t1")]; []]];
   [VMsg [[VMsg [[object "metadata" (one_of 6 4 (object "name" (wire_text (lit "xr"))))]; []; []]]; []]];
   [VMsg [[]; [wire_field "other" (VMsg [[]; []; [VInt 1]])]]];
   [object "config" (one_of 6 4 (object "greeting" (wire_text (lit "hi"))))];
   []; []; []; []; []].
Definition hello_bytes : bytes := encode_message fnv1_RunFunctionRequest_msg hello_slots.
Definition hello_wire_cfg : list (bytes * json) := [(lit "config", JObject [(lit "greeting", JString (lit "hi"))])].

Lemma hello_slots_wellformed : hello_wellformed hello_slots hello_wire_cfg hello_xr.
Proof. split_and!; [by vm_compute..|by intros url [=]]. Qed.

Lemma hello_enough s : enough kind_env only_fuel_or_memory 3 s.
Proof. left. by right. Qed.

Lemma hello_on_the_wire_witness :
  match machine_call (N := wire_codec) (run_function Wasi 3) 1 hello_bytes kind_env (called_with []) with
  | Ok (ROk bs, _) => decode_message fnv1_RunFunctionResponse_msg bs
  | _ => None
  end = Some (hello_answer hello_slots (lit "hi xr") (lit "xr")) /\
  wp kind_env only_fuel_or_memory (machine_call (N := wire_codec) (run_function Wasi 3) 1 hello_bytes)
    (hello_called (F := wire_format) 1 hello_slots hello_wire_cfg hello_xr (called_with [])) (called_with []).
Proof.
  split; [by vm_compute|].
  assert (wf (called_with [])) as Hs by by apply called_with_data_wf; vm_compute.
  assert (has_cell 1 (called_with [])) as Hc by by eexists.
  apply (hello_on_the_wire wire_codec wire_format wire_codec_laws kind_env only_fuel_or_memory 3 1 hello_bytes
           hello_slots hello_wire_cfg hello_xr (called_with []) (or_introl eq_refl) kind_typed Hs Hc);
    [apply hello_enough|by vm_compute|apply hello_slots_wellformed].
Defined.

(** ** The component *)

(** C8. The hello component, for every host, allocator and wire format nanopb
    implements, and for request bytes that are no request at all or one as
    [hello_wellformed] says: the [run] export never commits undefined behaviour nor
    breaks the host's resource protocol, frees the request's buffer and returns one
    buffer of its own with the bytes of the message its response holds, under the
    request's tag (or the error text, when memory ran out or could not hold them);
    only [abort] for want of memory stops it. *)
Theorem hello_component (N : Nanopb) (F : WireFormat) (L : NanopbLaws N F) e (T : trap -> Prop) fuel cell
    request data s :
  T Aborted -> typed_host e -> wf s -> has_cell cell s -> holds s request data -> u8_ptr request <> Some cell ->
  (forall slots, parse fnv1_RunFunctionRequest_msg data = Some slots -> exists cfg xr, hello_wellformed slots cfg xr) ->
  enough e T fuel s ->
  wp e T (exports_function_run (run_function Wasi fuel) cell request)
    (owned (run_function Wasi fuel) cell (e := e) request data s) s.
Proof.
  intros HA Hh Hs Hc Hr Hne Hreq He. apply (wp_exports_function_run N F L); try done;
    intros req s0 Hd; destruct (decode_step _ _ _ _ _ Hs Hd) as (_ & _ & slots & Hp & _);
    destruct (Hreq slots Hp) as (cfg & xr & Hf & Hcfg & Hxr & Hurl).
  - eapply said_behaves; [|exact Hd]. intros req' s1 Hd'.
    by apply (hello_run HA Hh fuel data slots cfg xr s Hs Hp Hf Hcfg Hxr Hurl).
  - by eapply (hello_meta Hh fuel data slots cfg xr s Hs Hp Hf Hcfg Hxr Hurl).
Qed.

Lemma hello_component_witness :
  match exports_function_run (N := wire_codec) (run_function Wasi 3) 1 (Lu8 (Some 2) (Z.of_nat (length hello_bytes)))
          kind_env (called_with hello_bytes) with
  | Ok (ROk (Lu8 (Some b) n), s) => heap s !! 2 = None /\ match heap s !! b with
      | Some (Bytes bs) => decode_message fnv1_RunFunctionResponse_msg (omap id bs)
          = Some (hello_answer hello_slots (lit "hi xr") (lit "xr"))
      | _ => False
      end
  | _ => False
  end /\
  wp kind_env only_fuel_or_memory
    (exports_function_run (N := wire_codec) (run_function Wasi 3) 1 (Lu8 (Some 2) (Z.of_nat (length hello_bytes))))
    (owned (N := wire_codec) (F := wire_format) (run_function Wasi 3) 1 (e := kind_env) (Lu8 (Some 2) (Z.of_nat (length hello_bytes)))
       hello_bytes (called_with hello_bytes)) (called_with hello_bytes).
Proof.
  split; [vm_compute; split; reflexivity|].
  assert (wf (called_with hello_bytes)) as Hs by by apply called_with_data_wf; vm_compute.
  assert (has_cell 1 (called_with hello_bytes)) as Hc by by eexists.
  apply (hello_component wire_codec wire_format wire_codec_laws kind_env only_fuel_or_memory 3 1 _
           hello_bytes (called_with hello_bytes) (or_introl eq_refl) kind_typed Hs Hc (called_with_holds _)).
  - discriminate.
  - intros slots E. exists hello_wire_cfg, hello_xr.
    assert (parse (WireFormat := wire_format) fnv1_RunFunctionRequest_msg hello_bytes = Some hello_slots) as E' by by vm_compute.
    rewrite E' in E. injection E as <-. apply hello_slots_wellformed.
  - apply hello_enough.
Defined.
