(* ===== verification/CertWire.v ===== *)
(** What the cert-rotator composes, as it is read for the wire: the desired state of
    the request with the Secret among its resources and the certificate in the
    status of its composite. The status is set in arrays the response shares with
    the request (CertCompose); what else was decoded is in blocks apart from them
    (WireRequest) and reads as it did. *)
From S2P Require Import Prelude BindTypes CString Proto Calendar Mbedtls Machine MachineLogic Structpb Codec Wire WireProps WireHeap WireFill WireRequest Handle HandleProps HelloFn HelloSpec Rotator RotatorSpec CertFn CertSpec CertState CertCompose CertRun WireAnswer.
From Stdlib Require Import Strings.Byte.

(** ** Maps on the wire *)

(** Whether the entry [x] of a map has the key [k]. *)
Definition under (k : bytes) (x : value) : bool :=
  match slot (msg_slots x) 0 with [VText k'] => bool_decide (k' = k) | _ => false end.

(** The first value under [k]; the entry [k] set. *)
Fixpoint wire_get (es : list value) (k : bytes) : option value :=
  match es with
  | [] => None
  | x :: es => match slot (msg_slots x) 1 with
               | [w] => if under k x then Some w else wire_get es k
               | _ => wire_get es k
               end
  end.
Fixpoint wire_set (es : list value) (k : bytes) (w : value) : list value :=
  match es with
  | [] => [VMsg [[VText k]; [w]]]
  | x :: es => if under k x then VMsg [[VText k]; [w]] :: es else x :: wire_set es k w
  end.

(** The entries of the object that a slot for a Struct, or a Value, holds. *)
Definition wire_fields (s : list value) : list value := match s with [VMsg [es]] => es | _ => [] end.
Definition wire_object (v : option value) : list value :=
  match v with Some (VMsg [[]; []; []; []; s; []]) => wire_fields s | _ => [] end.
Definition wire_struct (es : list value) : value := one_of 6 4 (VMsg [es]).

Abbreviation entry_fits := (fun x => fits (MESSAGE google_protobuf_Struct_FieldsEntry_msg) x = true).

(** The key of an entry on the wire and in the heap. *)
Lemma text_under k s w :
  fits_slot (X POINTER SINGULAR STRING "key" 1) s = true ->
  under k (VMsg [s; w]) = bool_decide (text_in s = Some k).
Proof.
  intros Hs. pose proof (text_slot_back _ _ _ _ Hs) as [_ Ht].
  unfold under. cbn [msg_slots]. rewrite slot_here.
  apply fits_one in Hs as [->|(v & -> & Hv & _)]; [done| |done].
  destruct v as [| | |t|]; try done. rewrite (Ht t eq_refl).
  apply bool_decide_ext. split; [by intros ->|by intros [= ->]].
Qed.

Lemma held_under Q k x h e :
  entry_fits x -> field_held Q x h e -> under k x = bool_decide (fe_key e = Some k).
Proof. intros Hx H. destruct (H Hx) as (s & w & -> & Hs & -> & _). by apply text_under. Qed.

Lemma held_mono (Q Q' : value -> gmap Z block -> google_protobuf_Value -> Prop) x h e :
  field_held Q x h e -> (forall w v, Q w h v -> Q' w h v) -> field_held Q' x h e.
Proof.
  intros H HQ Hx. destruct (H Hx) as (k & s & -> & Hk & He & Hs). exists k, s. split_and!; try done.
  destruct s as [|w []]; [done| |done]. destruct Hs as (? & ? & Hw). split_and!; auto.
Qed.

(** ** Fields that are as they were *)

Section kept.
Variable h : gmap Z block.

(** [e] holds [x] in blocks that are in [h]. *)
Definition still (x : value) (e : google_protobuf_Struct_FieldsEntry) : Prop :=
  exists g, g ⊆ h /\ field_held value_own x g e.
(** All fields do, but the one under [k]. *)
Inductive still_but (k : bytes) : list value -> list google_protobuf_Struct_FieldsEntry -> Prop :=
  | still_nil : still_but k [] []
  | still_here x e es l : entry_fits x -> under k x = true -> fe_key e = Some k ->
      Forall entry_fits es -> Forall2 still es l -> still_but k (x :: es) (e :: l)
  | still_next x e es l : entry_fits x -> under k x = false -> fe_key e <> Some k ->
      still x e -> still_but k es l -> still_but k (x :: es) (e :: l).

Lemma still_all k es l : Forall entry_fits es -> Forall2 still es l -> still_but k es l.
Proof.
  intros Hf H. induction H as [|x e es l Hx H IH]; [constructor|]. apply Forall_cons in Hf as [Hfx Hf].
  pose proof Hx as (g & _ & Hh). pose proof (held_under _ k _ _ _ Hfx Hh) as E.
  destruct (decide (fe_key e = Some k)) as [Hk|Hk].
  - constructor; try done. by rewrite bool_decide_true in E.
  - constructor; try done; [by rewrite bool_decide_false in E|by apply IH].
Qed.

(** Levels enough for what the arrays of Values hold. *)
Definition deep (n : nat) : Prop := forall g, g ⊆ h -> only_values g -> (S (size g) <= n)%nat.

Lemma still_read n x e : deep n -> entry_fits x -> still x e -> entry_of_field (value_of n) e h = Some x.
Proof.
  intros Hn Hx (g & Hg & He). destruct (He Hx) as (k & s & -> & Hk & Hke & Hs).
  destruct (text_slot_back _ _ _ _ Hk) as [Hb _]. unfold entry_of_field.
  destruct s as [|w []]; [|destruct Hs as (Hw & Hh & Hv & Ho)|by destruct Hs].
  - destruct Hs as [_ Hh]. rewrite Hh, Hke. cbn. by rewrite Hb.
  - destruct (Hv Hw) as [Hr _]. rewrite Hh, Hke. rewrite (reader_bind_at _ _ _ [w]); [by cbn; rewrite Hb|].
    apply when_true. eapply steady_value; [|exact Hg]. eapply value_of_deeper; [|exact Hr]. by apply Hn.
Qed.

Lemma still_reads n es l :
  deep n -> Forall entry_fits es -> Forall2 still es l -> read_all (entry_of_field (value_of n)) l h = Some es.
Proof.
  intros Hn Hf H. apply reads_back. eapply Forall2_with; [exact Hf|exact H|]. intros x e Hx He. by apply still_read.
Qed.

(** The field set and the others read as on the wire. *)
Lemma set_field_read n k es l v w :
  deep n -> still_but k es l -> k <> [] -> NUL ∉ k -> value_of n v h = Some w ->
  read_all (entry_of_field (value_of n)) (set_field l k v) h = Some (wire_set es k w).
Proof.
  intros Hn H Hk0 Hkn Hv.
  assert (entry_of_field (value_of n) (FieldsEntry (Some k) true v) h = Some (VMsg [[VText k]; [w]])) as Hnew.
  { unfold entry_of_field. cbn [fe_has_value fe_value fe_key].
    rewrite (reader_bind_at _ _ _ [w]) by by apply when_true.
    unfold singular_text. cbn. rewrite until_nul_id by done. by destruct k. }
  induction H as [|x e es l Hx Hu He Hf Hs|x e es l Hx Hu He Hs H IH]; cbn [set_field wire_set].
  - cbn [read_all]. by rewrite (reader_bind_at _ _ _ _ Hnew).
  - rewrite Hu, decide_True by done. cbn [read_all]. rewrite (reader_bind_at _ _ _ _ Hnew).
    by rewrite (reader_bind_at _ _ _ _ (still_reads _ _ _ Hn Hf Hs)).
  - rewrite Hu, decide_False by done. cbn [read_all].
    rewrite (reader_bind_at _ _ _ _ (still_read _ _ _ Hn Hx Hs)). by rewrite (reader_bind_at _ _ _ _ IH).
Qed.

Lemma set_struct_read n k es l v w st :
  deep n -> still_but k es l -> k <> [] -> NUL ∉ k -> value_of n v h = Some w ->
  struct_is h st (set_field l k v) -> struct_with (value_of n) st h = Some (VMsg [wire_set es k w]).
Proof.
  intros Hn Hl Hk0 Hkn Hv [Hc Hf]. unfold struct_with.
  rewrite (reader_bind_at _ _ _ _ (array_elements FieldsArr as_fields _ h _ _ Hc Hf eq_refl)).
  by rewrite (reader_bind_at _ _ _ _ (set_field_read _ _ _ _ _ _ Hn Hl Hk0 Hkn Hv)).
Qed.
End kept.

(** ** What was decoded, apart from the status *)

Lemma apart_nothing {A B} (P : A -> gmap Z block -> B -> Prop) (mk : list B -> block) :
  each_apart P [] ∅ [] /\ array_own mk [] ∅ (0, None).
Proof. split; [constructor|by split]. Qed.

Lemma zero_apart Q : object_apart Q [] ∅ google_protobuf_Struct_init_zero.
Proof.
  exists [], ∅, ∅. destruct (apart_nothing (field_held Q) FieldsArr) as [? ?].
  split_and!; try done; apply map_disjoint_empty_l.
Qed.

(** An object's array is among its blocks. *)
Lemma object_owned Q es g st b : object_apart Q es g st -> fields st = Some b -> is_Some (g !! b).
Proof.
  intros (fes & h0 & h1 & Hd & -> & _ & [_ Ha]) Hb. cbn [snd] in Ha. rewrite Hb in Ha. destruct Ha as [_ ->].
  exists (FieldsArr fes). apply lookup_union_Some; [done|]. right. apply lookup_singleton_eq.
Qed.

Lemma each_still Q h es g l :
  (forall w h v, Q w h v -> value_own w h v) -> each_apart (field_held Q) es g l -> g ⊆ h -> Forall2 (still h) es l.
Proof.
  intros HQ H. induction H as [|x es h1 h2 e l Hd He _ IH]; intros Hsub; [constructor|].
  constructor; [|by apply IH; etransitivity; [apply map_union_subseteq_r|]].
  exists h1. split; [etransitivity; [apply map_union_subseteq_l|done]|]. eapply held_mono; [exact He|]. auto.
Qed.

(** The value [structpb_get] finds. *)
Lemma get_held k es g l :
  each_apart (field_held value_apart) es g l -> Forall entry_fits es ->
  match get_field l k with
  | Some v => exists w gw, wire_get es k = Some w /\ gw ⊆ g /\ fits (MESSAGE google_protobuf_Value_msg) w = true /\
                value_apart w gw v
  | None => wire_get es k = None
  end.
Proof.
  intros H. induction H as [|x es h1 h2 e l Hd He _ IH]; intros Hf; [done|].
  apply Forall_cons in Hf as [Hx Hf]. specialize (IH Hf). cbn [get_field wire_get].
  rewrite (held_under _ k _ _ _ Hx He). destruct (He Hx) as (s & t & -> & Hs & Hke & Hv).
  cbn [msg_slots]. rewrite slot_next, slot_here.
  assert (match get_field l k with
          | Some v => exists w gw, wire_get es k = Some w /\ gw ⊆ h1 ∪ h2 /\
              fits (MESSAGE google_protobuf_Value_msg) w = true /\ value_apart w gw v
          | None => wire_get es k = None
          end) as Hrest.
  { destruct (get_field l k); [|done]. destruct IH as (w & gw & ? & ? & ?). exists w, gw. split; [done|]. split; [|done].
    etransitivity; [done|by apply map_union_subseteq_r]. }
  destruct t as [|w []]; [|destruct Hv as (Hw & Hh & Hv)|by destruct Hv].
  - destruct Hv as [_ Hh]. rewrite decide_False by (rewrite Hh; naive_solver). exact Hrest.
  - destruct (decide (fe_key e = Some k)) as [Hk|Hk].
    + rewrite bool_decide_true, decide_True by done. exists w, h1. split_and!; try done. apply map_union_subseteq_l.
    + rewrite bool_decide_false, decide_False by (done || naive_solver). exact Hrest.
Qed.

(** The object under [k], an empty one when there is none. *)
Definition object_of (k : bytes) (l : list google_protobuf_Struct_FieldsEntry) : google_protobuf_Struct :=
  default google_protobuf_Struct_init_zero (structpb_struct (get_field l k)).

Lemma object_held k es g l :
  each_apart (field_held value_apart) es g l -> Forall entry_fits es ->
  exists go, go ⊆ g /\ object_apart value_own (wire_object (wire_get es k)) go (object_of k l) /\
    Forall entry_fits (wire_object (wire_get es k)).
Proof.
  intros H Hf. pose proof (get_held k _ _ _ H Hf) as Hg. unfold object_of.
  assert (exists go, go ⊆ g /\ object_apart value_own [] go google_protobuf_Struct_init_zero /\ Forall entry_fits []) as Hzero.
  { exists ∅. split_and!; [apply map_empty_subseteq|apply zero_apart|done]. }
  destruct (get_field l k) as [v|]; [|by rewrite Hg].
  destruct Hg as (w & gw & -> & Hgw & Hw & _ & Hv).
  assert ((forall es', w <> one_of 6 4 (VMsg [es'])) -> wire_object (Some w) = []) as Hnone.
  { intros Hno. pose proof (value_kinds _ Hw) as K. inversion K; subst; try done. by exfalso; eapply Hno. }
  destruct v as [| | | | |st|]; try (rewrite Hnone by done; exact Hzero).
  destruct Hv as (es' & -> & Ho). exists gw. split_and!; [done|exact Ho|].
  pose proof (value_kinds _ Hw) as K. inversion K. by subst.
Qed.

(** Changing the array of the object under [k] leaves the other fields. *)
Lemma others_still h k es g l :
  each_apart (field_held value_apart) es g l -> Forall entry_fits es -> Forall (fun x => slot (msg_slots x) 1 <> []) es ->
  (forall b kb, fields (object_of k l) <> Some b -> g !! b = Some kb -> h !! b = Some kb) ->
  still_but h k es l.
Proof.
  intros H. induction H as [|x es h1 h2 e l Hd He Hes IH]; intros Hf Hv Hkeep; [constructor|].
  apply Forall_cons in Hf as [Hx Hf]. apply Forall_cons in Hv as [Hvx Hv].
  pose proof (held_under _ k _ _ _ Hx He) as Hu. destruct (He Hx) as (s & t & -> & Hs & Hke & Ht).
  cbn [msg_slots] in Hvx. rewrite slot_next, slot_here in Hvx.
  destruct t as [|w []]; [done| |by destruct Ht]. destruct Ht as (Hw & Hh & Hap).
  destruct (decide (fe_key e = Some k)) as [Hk|Hk].
  - rewrite bool_decide_true in Hu by done. apply still_here; try done.
    eapply (each_still value_apart); [intros ? ? ? H0; apply H0|exact Hes|].
    apply map_subseteq_spec. intros b kb Hb. apply Hkeep; [|apply lookup_union_Some; [done|by right]].
    unfold object_of. cbn [get_field]. rewrite decide_True by done. intros Hp.
    destruct Hap as [_ Hap]. destruct (fe_value e) as [| | | | |st|]; try done. destruct Hap as (es' & _ & Ho).
    destruct (object_owned _ _ _ _ _ Ho Hp) as [kb' Hb']. by pose proof (proj1 (map_disjoint_spec _ _) Hd _ _ _ Hb' Hb).
  - rewrite bool_decide_false in Hu by done.
    assert (object_of k (e :: l) = object_of k l) as E.
    { unfold object_of. cbn [get_field]. by rewrite decide_False by naive_solver. }
    rewrite E in Hkeep. apply still_next; try done.
    + exists h1. split; [|eapply held_mono; [exact He|intros ? ? H0; apply H0]].
      apply map_subseteq_spec. intros b kb Hb. apply Hkeep; [|apply lookup_union_Some; [done|by left]].
      intros Hp. destruct (object_held k _ _ _ Hes Hf) as (go & Hgo & Ho & _).
      destruct (object_owned _ _ _ _ _ Ho Hp) as [kb' Hb']. apply (lookup_weaken _ h2) in Hb'; [|done].
      by pose proof (proj1 (map_disjoint_spec _ _) Hd _ _ _ Hb Hb').
    + apply IH; [done|done|]. intros b kb Hne Hb. apply Hkeep; [done|]. apply lookup_union_Some; [done|by right].
Qed.

(** An object's fields are read where its blocks are. *)
Lemma object_struct Q es g st h : object_apart Q es g st -> g ⊆ h ->
  exists l h0 h1, struct_is h st l /\ h0 ##ₘ h1 /\ g = h0 ∪ h1 /\ each_apart (field_held Q) es h0 l /\
    forall b, fields st = Some b -> is_Some (h1 !! b).
Proof.
  intros (fes & h0 & h1 & Hd & -> & Hes & Ha) Hsub. exists fes, h0, h1.
  pose proof (array_own_at _ _ _ _ Ha) as [Hc Hp]. cbn [fst snd] in *.
  split; [split; [done|]|].
  - destruct (fields st) as [b|]; [|done]. destruct Hp as [_ Hb]. eapply lookup_weaken; [exact Hb|].
    etransitivity; [by apply map_union_subseteq_r|done].
  - split_and!; try done. intros b Hb. rewrite Hb in Hp. destruct Hp as [_ Hb']. by eexists.
Qed.

(** ** The desired state *)

Lemma json_valued es l : mapM (json_entry json_of) es = Some l -> Forall (fun x => slot (msg_slots x) 1 <> []) es.
Proof.
  intros H%mapM_back. induction H as [|x j es l Hx _ IH]; constructor; [|done].
  unfold json_entry in Hx. repeat case_match; try done.
Qed.

Lemma struct_slot_object s g st :
  slot_fits (MESSAGE google_protobuf_Struct_msg) s -> struct_apart s g st ->
  exists go, go ⊆ g /\ object_apart value_apart (wire_fields s) go st /\ Forall entry_fits (wire_fields s).
Proof.
  intros [->|(v & -> & Hv)] H.
  - cbn in H. subst. exists ∅. split_and!; [apply map_empty_subseteq|apply zero_apart|done].
  - destruct H as (es & -> & Ho). exists g. split_and!; [done|exact Ho|]. message_slots Hv. exact (fits_all _ _ Hs).
Qed.

(** The desired composite: its object, its details, and whether it is ready. *)
Lemma composite_object s g r :
  slot_fits (MESSAGE fnv1_Resource_msg) s -> resource_apart s g r ->
  exists go gd, go ##ₘ gd /\ go ∪ gd ⊆ g /\ object_apart value_apart (wire_fields (within s 0)) go (resource r) /\
    Forall entry_fits (wire_fields (within s 0)) /\
    (has_resource r = false -> resource r = google_protobuf_Struct_init_zero) /\
    exists ds, array_at DetailsArr ds gd (connection_details_count r, connection_details r) /\
      map detail_of ds = within s 1 /\ singular_int (ready r) = within s 2.
Proof.
  intros [->|(v & -> & Hv)] H.
  - cbn in H. subst. exists ∅, ∅. split; [apply map_disjoint_empty_l|].
    split; [rewrite map_union_empty; apply map_empty_subseteq|]. split; [apply zero_apart|].
    split; [done|]. split; [done|]. by exists [].
  - destruct H as (hs & hd & Hd & -> & Hh & Hst & Hds & Hr). message_slots Hv. cbn [msg_slots within] in *.
    rewrite ?slot_next, ?slot_here in *.
    destruct (struct_slot_object _ _ _ (optional_slot _ _ _ _ _ Hs) Hst) as (go & Hgo & Ho & Hes).
    exists go, hd. split; [by eapply map_disjoint_weaken_l|]. split; [by apply map_union_mono_r|].
    split; [exact Ho|]. split; [done|]. split.
    { rewrite Hh. match goal with |- present ?l = false -> _ => destruct l; [by intros _|done] end. }
    eexists. split; [exact Hds|]. split; [apply details_back, (fits_all _ _ Hs0)|].
    rewrite Hr. eapply int_slot_back; [eauto|exact Hs1].
Qed.

(** Blocks apart from those that may change are as they were. *)
Definition unchanged (ps : list (option Z)) (g h : gmap Z block) : Prop :=
  forall b k, Some b ∉ ps -> g !! b = Some k -> h !! b = Some k.

Lemma apart_unchanged ps g h owner part :
  unchanged ps g h -> (forall b, Some b ∈ ps -> is_Some (owner !! b)) -> owner ##ₘ part -> part ⊆ g -> part ⊆ h.
Proof.
  intros Hh Hps Hd Hsub. apply map_subseteq_spec. intros b k Hb. apply Hh; [|by eapply lookup_weaken].
  intros Hin. apply Hps in Hin as [k' Hk']. by pose proof (proj1 (map_disjoint_spec _ _) Hd _ _ _ Hk' Hb).
Qed.

(** The composite [r] of a slot in the heap [g]: the fields of its object, [lr], and
    of the status in it, [lst]. The arrays of the two may change and the rest is
    as it was. *)
Definition arrays_of (r : fnv1_Resource) (lr : list google_protobuf_Struct_FieldsEntry) : list (option Z) :=
  [fields (resource r); fields (status_of lr)].

Record composite_held (s : list value) (g : gmap Z block) (r : fnv1_Resource)
    (lr lst : list google_protobuf_Struct_FieldsEntry) : Prop := {
  ch_object : struct_is g (resource r) lr;
  ch_status : struct_is g (status_of lr) lst;
  ch_apart : forall b, fields (resource r) = Some b -> fields (status_of lr) <> Some b;
  ch_arrays : forall b, Some b ∈ arrays_of r lr -> is_Some (g !! b);
  ch_none : has_resource r = false -> resource r = google_protobuf_Struct_init_zero;
  ch_rest : exists ds, map detail_of ds = within s 1 /\ singular_int (ready r) = within s 2 /\
    forall h, unchanged (arrays_of r lr) g h ->
      array_at DetailsArr ds h (connection_details_count r, connection_details r) /\
      still_but h (lit "status") (wire_fields (within s 0)) lr /\
      still_but h (lit "certificate") (wire_object (wire_get (wire_fields (within s 0)) (lit "status"))) lst;
}.

Lemma arrays_in r lr b :
  Some b ∈ arrays_of r lr <-> fields (resource r) = Some b \/ fields (status_of lr) = Some b.
Proof. unfold arrays_of. rewrite !elem_of_cons, elem_of_nil. naive_solver. Qed.

Lemma composite_held_mono s g g' r lr lst : composite_held s g r lr lst -> g ⊆ g' -> composite_held s g' r lr lst.
Proof.
  intros [H1 H2 H3 H4 H5 (ds & Hm & Hr & H6)] Hsub. split; try done.
  - by eapply struct_mono.
  - by eapply struct_mono.
  - intros b [k Hk]%H4. exists k. by eapply lookup_weaken.
  - exists ds. split; [done|]. split; [done|]. intros h Hh. apply H6. intros b k Hb Hk. apply Hh; [done|].
    by eapply lookup_weaken.
Qed.

Lemma composite_is_held s g r js :
  slot_fits (MESSAGE fnv1_Resource_msg) s -> resource_apart s g r -> wire_json (within s 0) = Some js ->
  exists lr lst, composite_held s g r lr lst.
Proof.
  intros Hs Ha Hj. destruct (composite_object _ _ _ Hs Ha) as (go & gd & Hgd & Hsub & Ho & Hfe & Hno & ds & Hds & Hmap & Hready).
  assert (Forall (fun x => slot (msg_slots x) 1 <> []) (wire_fields (within s 0))) as Hval.
  { unfold wire_json in Hj. destruct (within s 0) as [|v []]; [done| |done]. unfold json_object in Hj. cbn [wire_fields].
    repeat case_match; try done. by eapply json_valued. }
  assert (go ⊆ g) as Hgo by (etransitivity; [apply map_union_subseteq_l|exact Hsub]).
  destruct (object_struct _ _ _ _ _ Ho Hgo) as (lr & h0 & h1 & Hlr & Hd & Ego & Helr & Hown).
  destruct (object_held (lit "status") _ _ _ Helr Hfe) as (gs & Hgs & Host & Hfst).
  change (object_of (lit "status") lr) with (status_of lr) in *.
  assert (h0 ⊆ go /\ h1 ⊆ go) as [H0 H1].
  { rewrite Ego. split; [apply map_union_subseteq_l|by apply map_union_subseteq_r]. }
  destruct (object_struct _ _ _ _ g Host) as (lst & k0 & k1 & Hlst & Hdk & Egs & Helst & Hownst).
  { by etransitivity; [exact Hgs|etransitivity; [exact H0|]]. }
  assert (k0 ⊆ gs /\ k1 ⊆ gs) as [K0 K1].
  { rewrite Egs. split; [apply map_union_subseteq_l|by apply map_union_subseteq_r]. }
  assert (h1 ##ₘ gs) as Hd1 by (eapply map_disjoint_weaken_r; [by symmetry|exact Hgs]).
  exists lr, lst. split; try done.
  - intros b [k Hk]%Hown [k' Hk']%Hownst. apply (lookup_weaken _ gs) in Hk'; [|done].
    by pose proof (proj1 (map_disjoint_spec _ _) Hd1 _ _ _ Hk Hk').
  - intros b [Hb|Hb]%arrays_in; [apply Hown in Hb as [k Hk]|apply Hownst in Hb as [k Hk]]; exists k;
      (eapply lookup_weaken; [exact Hk|]); [by etransitivity|].
    by etransitivity; [exact K1|etransitivity; [exact Hgs|etransitivity]].
  - exists ds. split; [done|]. split; [done|]. intros h Hh.
    assert (forall b, Some b ∈ arrays_of r lr -> is_Some ((h1 ∪ k1) !! b)) as Hin.
    { intros b [Hb|Hb]%arrays_in; [apply Hown in Hb as [k Hk]|apply Hownst in Hb as [k Hk]]; exists k.
      - by apply lookup_union_Some_l.
      - apply lookup_union_Some; [|by right]. by eapply map_disjoint_weaken_r. }
    assert (h1 ∪ k1 ⊆ go) as Hown2.
    { apply map_union_least; [done|]. by etransitivity; [exact K1|etransitivity; [exact Hgs|]]. }
    split_and!.
    + eapply array_at_lasting; [exact Hds|]. eapply (apart_unchanged _ _ _ go); [exact Hh| |done|].
      * intros b [k Hk]%Hin. exists k. by eapply lookup_weaken.
      * etransitivity; [by apply map_union_subseteq_r|exact Hsub].
    + eapply others_still; [exact Helr|done|done|]. intros b kb Hne Hb. apply Hh.
      * intros [E|E]%arrays_in; [|done]. apply Hown in E as [k Hk].
        by pose proof (proj1 (map_disjoint_spec _ _) Hd _ _ _ Hb Hk).
      * eapply lookup_weaken; [exact Hb|]. by etransitivity.
    + apply still_all; [done|]. eapply (each_still value_own); [done|exact Helst|].
      eapply (apart_unchanged _ _ _ (h1 ∪ k1)); [exact Hh|exact Hin| |].
      * apply map_disjoint_union_l. split; [|by symmetry]. by eapply map_disjoint_weaken_r.
      * etransitivity; [exact K0|]. by etransitivity; [exact Hgs|etransitivity].
Qed.

Section desired.
Context (slots : slots_t) (Hf : fits (MESSAGE fnv1_RunFunctionRequest_msg) (VMsg slots) = true).

(** The desired composite's slot, the fields of its object, and of the status in it. *)
Definition wire_composite : list value := within (slot slots 2) 0.
Definition composite_fields : list value := wire_fields (within wire_composite 0).
Definition status_fields : list value := wire_object (wire_get composite_fields (lit "status")).
(** The desired resources. *)
Definition wire_resources : list value := within (slot slots 2) 1.

Record desired_held (g : gmap Z block) (d : fnv1_State) (entries : list fnv1_State_ResourcesEntry)
    (lr lst : list google_protobuf_Struct_FieldsEntry) : Prop := {
  dh_composite : composite_held wire_composite g (composite d) lr lst;
  dh_of : composite_of d = resource (composite d);
  dh_entries : array_at StateArr entries g (resources_count d, resources d);
  dh_held : Forall2 (fun x e => entry_held x g e) wire_resources entries;
  dh_kept : forall h, unchanged (shared d lr) g h -> Forall2 (fun x e => entry_held x h e) wire_resources entries;
}.

Lemma desired_held_mono g g' d entries lr lst :
  desired_held g d entries lr lst -> g ⊆ g' -> desired_held g' d entries lr lst.
Proof.
  intros [H1 H2 H3 H4 H5] Hsub. split; [by eapply composite_held_mono|done|by eapply array_at_lasting| |].
  - eapply Forall2_impl; [exact H4|]. intros x e He. eapply entry_held_lasting; [exact He|done].
  - intros h Hh. apply H5. intros b k Hb Hk. apply Hh; [done|]. by eapply lookup_weaken.
Qed.

Lemma desired_parts g d :
  state_apart (slot slots 2) g d ->
  exists hc he, hc ##ₘ he /\ g = hc ∪ he /\ has_composite d = present wire_composite /\
    resource_apart wire_composite hc (composite d) /\
    exists es, Forall2 (fun x e => entry_held x he e) wire_resources es /\
      array_at StateArr es he (resources_count d, resources d).
Proof.
  unfold wire_composite, wire_resources.
  destruct (request_slots _ Hf) as (_ & [E|(v & E & _)] & _); rewrite E; cbn [state_apart within].
  - intros ->. exists ∅, g. split; [apply map_disjoint_empty_l|]. split; [by rewrite map_empty_union|].
    split; [done|]. split; [done|]. by exists [].
  - intros (hc & he & ? & -> & ? & ? & ?). by exists hc, he.
Qed.

Lemma desired_is_held g d js :
  state_apart (slot slots 2) g d -> wire_json (within wire_composite 0) = Some js ->
  exists entries lr lst, desired_held g d entries lr lst.
Proof.
  intros Ha Hj. destruct (desired_slots _ Hf) as [Hc _]. fold wire_composite in Hc.
  destruct (desired_parts _ _ Ha) as (hc & he & Hd & -> & Hhc & Hcomp & es & Hes & Harr).
  destruct (composite_is_held _ _ _ _ Hc Hcomp Hj) as (lr & lst & H).
  assert (composite_of d = resource (composite d)) as Ec.
  { unfold composite_of. rewrite Hhc.
    destruct wire_composite as [|v []] eqn:E; [by cbn in Hcomp; rewrite Hcomp| |by destruct Hc as [?|(? & ? & _)]].
    cbn [present andb]. destruct (has_resource (composite d)) eqn:Eh; [done|].
    by rewrite (ch_none _ _ _ _ _ H). }
  assert (hc ⊆ hc ∪ he /\ he ⊆ hc ∪ he) as [Hcg Heg].
  { split; [apply map_union_subseteq_l|by apply map_union_subseteq_r]. }
  assert (forall h, he ⊆ h -> Forall2 (fun x e => entry_held x h e) wire_resources es) as Hheld.
  { intros h Hsub. eapply Forall2_impl; [exact Hes|]. intros x e He. eapply entry_held_lasting; [exact He|done]. }
  exists es, lr, lst. split; [|done|by eapply array_at_lasting|by apply Hheld|].
  - by eapply composite_held_mono.
  - intros h Hh. apply Hheld. eapply (apart_unchanged _ _ _ hc); [exact Hh| |done|exact Heg].
    intros b Hb. apply (ch_arrays _ _ _ _ _ H). unfold shared in Hb. rewrite Ec in Hb. exact Hb.
Qed.
End desired.

(** ** The request, as the function sees it *)

Section request.
Context (slots : slots_t) (Hf : fits (MESSAGE fnv1_RunFunctionRequest_msg) (VMsg slots) = true).

(** The items Crossplane answered the ask with, and the Secret: the object of the
    first. *)
Fixpoint wire_answered (es : list value) : option (list value) :=
  match es with
  | [] => None
  | x :: es => if under resource_key x then Some (within (slot (msg_slots x) 1) 0) else wire_answered es
  end.
Definition wire_found : option (option (list (bytes * json))) :=
  match wire_answered (slot slots 7) with
  | Some (x :: _) =>
      match slot (msg_slots x) 0 with [] => Some None | [v] => Some <$> json_object v | _ => None end
  | _ => Some None
  end.

Lemma answered_wire es h required :
  Forall (fun x => fits (MESSAGE fnv1_RunFunctionRequest_RequiredResourcesEntry_msg) x = true) es ->
  Forall2 (fun x e => required_back x h e) es required ->
  match answered_with required with
  | Some rs => exists ys l, wire_answered es = Some ys /\ array_at ItemsArr l h (items_count rs, items rs) /\
      Forall2 (fun y r => resource_back [y] h true r) ys l
  | None => wire_answered es = None
  end.
Proof.
  intros Hfs H. induction H as [|x e es required He H IH]; [done|]. apply Forall_cons in Hfs as [Hx Hfs].
  cbn [answered_with wire_answered]. destruct (He Hx) as (Hk & Hh & l & Hl & Hr). message_slots Hx.
  cbn [msg_slots] in *. rewrite ?slot_next, ?slot_here in *. rewrite text_under, <- Hk by exact Hs.
  destruct (decide (rr_key e = Some resource_key)); [|rewrite bool_decide_false by done; exact (IH Hfs)].
  rewrite bool_decide_true by done. eexists _, l. split; [done|]. split; [|exact Hr].
  destruct (rr_has_value e) eqn:E; [exact Hl|].
  match type of Hh with false = present ?s => destruct s; [|done] end. cbn [within] in Hr.
  by apply Forall2_nil_inv_l in Hr as ->.
Qed.

Lemma array_items l h rs : array_at ItemsArr l h (items_count rs, items rs) -> items_are h rs l.
Proof.
  intros [Hc Hp]. split; [done|]. cbn [snd] in Hp. intros Hl. destruct (items rs) as [b|]; [|done].
  destruct Hp as [_ Hb]. by exists b.
Qed.

Lemma found_wire h required found :
  Forall2 (fun x e => required_back x h e) (slot slots 7) required -> wire_found = Some found ->
  forall rs, answered_with required = Some rs -> found_is h rs found.
Proof.
  intros Hreq Hw rs Hrs. destruct (request_slots _ Hf) as (_ & _ & _ & H7).
  pose proof (answered_wire _ _ _ H7 Hreq) as H. rewrite Hrs in H. destruct H as (ys & l & Hys & Hl & Hyl).
  exists l. split; [by apply array_items|]. unfold wire_found in Hw. rewrite Hys in Hw.
  destruct Hyl as [|y r ys l (_ & Hh & Hd) _]; [by injection Hw as <-|]. cbn [first_of within] in *.
  rewrite Hh. destruct (slot (msg_slots y) 0) as [|v []]; [by injection Hw as <-| |done]. cbn [present].
  destruct (json_object v) as [js|] eqn:Ej; [|done]. injection Hw as <-. by apply (Hd v).
Qed.
End request.
