(* ===== verification/CertAnswer.v ===== *)
(** The cert-rotator's answers on the wire, and that what it leaves in the heap reads
    as them: the ask, and the desired state with the Secret and the status. First,
    whole numbers as doubles: [binary_normalize] of at most 53 bits is exact, and has
    the binary64 encoding of WireHeap. *)
From S2P Require Import Prelude BindTypes CString Proto Calendar Mbedtls Machine MachineLogic Structpb Codec Wire WireProps WireHeap WireFill WireRequest Handle HandleProps HelloFn HelloSpec Rotator RotatorSpec CertFn CertSpec CertState CertCompose CertRun WireAnswer CertWire.
From Stdlib Require Import Strings.Byte.
From Stdlib Require Import SpecFloat.

(** ** Whole numbers *)

Lemma digits_bounds m : 0 < Z.pos (digits2_pos m) /\ 2 ^ (Z.pos (digits2_pos m) - 1) <= Z.pos m < 2 ^ Z.pos (digits2_pos m).
Proof.
  induction m as [m IH|m IH|]; [..|done]; cbn [digits2_pos]; rewrite Pos2Z.inj_succ;
    (split; [lia|]); rewrite Z.pow_succ_r by lia;
    replace (Z.succ (Z.pos (digits2_pos m)) - 1) with (Z.succ (Z.pos (digits2_pos m) - 1)) by lia;
    rewrite Z.pow_succ_r by lia; lia.
Qed.

Lemma shift_pos m d : Z.pos (Pos.iter xO m d) = Z.pos m * 2 ^ Z.pos d.
Proof.
  induction d as [|d IH] using Pos.peano_ind; [simpl; lia|].
  rewrite Pos.iter_succ, Pos2Z.inj_succ, Z.pow_succ_r by lia. 
  rewrite Pos2Z.inj_xO, IH. lia.
Qed.

(** A mantissa of 53 bits is rounded to itself. *)
Lemma rounded_exactly sx m ex :
  2 ^ 52 <= Z.pos m < 2 ^ 53 -> -1074 <= ex <= 971 ->
  binary_round_aux 53 1024 sx (Z.pos m) ex loc_Exact = S754_finite sx m ex.
Proof.
  intros Hm He. destruct (digits_bounds m) as [Hd0 Hd].
  assert (Z.pos (digits2_pos m) = 53) as E.
  { assert (Z.pos (digits2_pos m) - 1 < 53) by (apply (Z.pow_lt_mono_r_iff 2); lia).
    assert (52 < Z.pos (digits2_pos m)) by (apply (Z.pow_lt_mono_r_iff 2); lia). lia. }
  unfold binary_round_aux, shr_fexp. cbn [Zdigits2]. rewrite E.
  assert (fexp 53 1024 (53 + ex) - ex = 0) as Ef by (unfold fexp, emin; lia). rewrite Ef.
  cbn [shr shr_m shr_record_of_loc loc_of_shr_record round_nearest_even]. cbn [Zdigits2]. rewrite E, Ef.
  cbn [shr shr_m shr_record_of_loc]. destruct (Z.leb_spec ex (1024 - 53)); [done|lia].
Qed.

(** An integer of at most 53 bits is a double. *)
Lemma double_bits n : - 2 ^ 53 < n < 2 ^ 53 -> is_Some (bits_of_float (double_of n)).
Proof.
  intros Hn. assert (forall sx m, Z.pos m < 2 ^ 53 -> is_Some (bits_of_float (binary_round 53 1024 sx m 0))) as Hr.
  { intros sx m Hm. destruct (digits_bounds m) as [Hd0 Hd]. set (d := Z.pos (digits2_pos m)) in *.
    assert (d <= 53). { assert (d - 1 < 53) by (apply (Z.pow_lt_mono_r_iff 2); lia). lia. }
    assert (exists mz, shl_align m 0 (d - 53) = (mz, d - 53) /\ Z.pos mz = Z.pos m * 2 ^ (53 - d)) as (mz & Ha & Hz).
    { unfold shl_align. rewrite Z.sub_0_r. destruct (d - 53) as [|p|p] eqn:E; [|lia|].
      - exists m. replace (53 - d) with 0 by lia. split; [done|lia].
      - eexists. split; [done|]. rewrite shift_pos. do 2 f_equal. lia. }
    unfold binary_round. fold d. replace (fexp 53 1024 (d + 0)) with (d - 53) by (unfold fexp, emin; lia).
    rewrite Ha.
    assert (2 ^ 52 <= Z.pos mz < 2 ^ 53) as Hmz.
    { rewrite Hz. replace (2 ^ 52) with (2 ^ (d - 1) * 2 ^ (53 - d)) by (rewrite <- Z.pow_add_r by lia; f_equal; lia).
      replace (2 ^ 53) with (2 ^ d * 2 ^ (53 - d)) by (rewrite <- Z.pow_add_r by lia; f_equal; lia).
      pose proof (Z.pow_pos_nonneg 2 (53 - d) ltac:(lia) ltac:(lia)). nia. }
    rewrite rounded_exactly by lia. cbn [bits_of_float].
    destruct (Z.eqb_spec (d - 53) (-1074)); [lia|]. cbn [andb].
    destruct (Z.leb_spec (2 ^ 52) (Z.pos mz)), (Z.ltb_spec (Z.pos mz) (2 ^ 53)), (Z.leb_spec (-1074) (d - 53)),
      (Z.leb_spec (d - 53) 971); try lia. by eexists. }
  unfold double_of, binary_normalize. destruct n; [by eexists|apply Hr; lia|apply Hr; lia].
Qed.

Lemma bits_range d z : bits_of_float d = Some z -> 0 <= z < 2 ^ 64.
Proof.
  destruct d as [s|s| |s m ex]; cbn [bits_of_float]; unfold sign_bit.
  1-3: intros [= <-]; try destruct s; lia.
  destruct (Z.eqb_spec ex (-1074)), (Z.ltb_spec (Z.pos m) (2 ^ 52)); cbn [andb];
  try (intros [= <-]; destruct s; lia).
  all: destruct (Z.leb_spec (2 ^ 52) (Z.pos m)), (Z.ltb_spec (Z.pos m) (2 ^ 53)), (Z.leb_spec (-1074) ex),
      (Z.leb_spec ex 971); cbn [andb]; try done; intros [= <-]; destruct s; lia.
Qed.

(** ** What is composed *)

Definition text_of (t : bytes) : value := wire_text (until_nul t).
Definition number_wire (d : spec_float) : value := one_of 6 1 (VDouble (default 0 (bits_of_float d))).

(** The Secret, and [status.certificate]. *)
Definition wire_secret (name : bytes) (out : rotator_result) : value :=
  VMsg [[wire_field "apiVersion" (wire_text (lit "v1")); wire_field "kind" (wire_text (lit "Secret"));
         wire_field "type" (wire_text (lit "kubernetes.io/tls"));
         wire_field "metadata" (wire_struct [wire_field "name" (text_of name)]);
         wire_field "data" (wire_struct [wire_field "tls.crt" (text_of (out_certificate_b64 out));
                                         wire_field "tls.key" (text_of (out_key_b64 out))])]].
Definition wire_certificate (name : bytes) (out : rotator_result) : value :=
  wire_struct
    [wire_field "secretName" (text_of name); wire_field "subject" (text_of (out_subject out));
     wire_field "serialNumber" (text_of (out_serial out)); wire_field "notBefore" (text_of (out_not_before out));
     wire_field "notAfter" (text_of (out_not_after out));
     wire_field "daysLeft" (number_wire (double_of (Z.quot (seconds_left out) 86400)));
     wire_field "rotated" (one_of 6 3 (VBool (rotated out))); wire_field "reason" (text_of (reason out))].

(** The last resource under [k] replaced by [r], its details and readiness kept, or a
    new one at the end. *)
Definition entry_with (k : bytes) (r : value) (x : value) : value :=
  VMsg [[VText k]; [VMsg [[r]; within (slot (msg_slots x) 1) 1; within (slot (msg_slots x) 1) 2]]].
Fixpoint wire_set_last (l : list value) (k : bytes) (r : value) : list value :=
  match l with
  | [] => [VMsg [[VText k]; [VMsg [[r]; []; []]]]]
  | x :: l => if under k x && negb (existsb (under k) l) then entry_with k r x :: l else x :: wire_set_last l k r
  end.

Section answer.
Variable slots : slots_t.

Definition with_certificate (name : bytes) (out : rotator_result) : list value :=
  wire_set (composite_fields slots) (lit "status")
    (wire_struct (wire_set (status_fields slots) (lit "certificate") (wire_certificate name out))).
Definition wire_ask (name ns : bytes) : value :=
  VMsg [[]; [VMsg [[VText resource_key];
                   [VMsg [[VText (lit "v1")]; [VText (lit "Secret")]; [VText (until_nul name)]; []; [VText (until_nul ns)]]]]];
        []].

(** The desired state as it came, and the Secret asked for. *)
Definition ask_answer (sp : spec_of) : slots_t :=
  [[meta_of (ResponseMeta (Some (wire_tag slots)) true 60 0)];
   [VMsg [wire_composite slots; wire_resources slots]]; []; [];
   [wire_ask (sp_secret_name sp) (sp_namespace sp)]; []; []].

(** The desired state with the status and the Secret, a result and a condition, and
    the Secret asked for again. *)
Definition rotated_answer (sp : spec_of) (out : rotator_result) : slots_t :=
  [[meta_of (ResponseMeta (Some (wire_tag slots)) true 60 0)];
   [VMsg [[VMsg [[VMsg [with_certificate (sp_secret_name sp) out]];
                 within (wire_composite slots) 1; within (wire_composite slots) 2]];
          wire_set_last (wire_resources slots) resource_key (wire_secret (sp_secret_name sp) out)]];
   [VMsg [[VInt fnv1_Severity_SEVERITY_NORMAL]; [VText (until_nul (verdict_message (sp_secret_name sp) out))]; [];
          [VInt fnv1_Target_TARGET_COMPOSITE]]];
   []; [wire_ask (sp_secret_name sp) (sp_namespace sp)];
   [VMsg [[VText (lit "CertificateReady")]; [VInt fnv1_Status_STATUS_CONDITION_TRUE];
          [VText (if rotated out then lit "Rotated" else lit "Valid")]; [];
          [VInt fnv1_Target_TARGET_COMPOSITE_AND_CLAIM]]]; []].
End answer.

(** ** It reads so *)

Lemma secret_read h secret name out :
  object_is h secret (secret_json name out) -> struct_of secret h = Some (wire_secret name out).
Proof.
  intros H. pose proof (object_heap _ _ _ _ H) as Hsz.
  assert (json_wire (JObject (secret_json name out)) = Some (one_of 6 4 (wire_secret name out))) as Hj by reflexivity.
  apply (value_read h _ _ _ (S (size h)) H) in Hj; [|cbn; lia].
  by apply value_object in Hj as (st & [= <-] & Hr).
Qed.

Lemma certificate_read h n cert name out :
  object_is h cert (status_json name out) -> (1 <= n)%nat -> int64_range (seconds_left out) ->
  value_of n (struct_value cert) h = Some (wire_certificate name out).
Proof.
  intros H Hn Hr. eapply value_read; [exact H| |cbn; lia].
  destruct (double_bits (Z.quot (seconds_left out) 86400)) as [z Hz].
  { unfold int64_range in Hr. Z.to_euclidean_division_equations. lia. }
  unfold status_json, wire_certificate, number_wire. cbn. by rewrite Hz.
Qed.

(** A result and a condition are no arrays of Values. *)
Lemma deep_enough h rb rs cb cs :
  h !! rb = Some (ResultArr rs) -> h !! cb = Some (ConditionArr cs) ->
  exists n, size h = S n /\ (1 <= n)%nat /\ deep h n /\ deep h (S n).
Proof.
  intros Hrb Hcb. assert (rb <> cb) as Hne by congruence.
  assert (forall g, g ⊆ h -> only_values g -> (2 + size g <= size h)%nat) as H2.
  { intros g Hg Ho.
    assert (g !! cb = None) as Hc.
    { destruct (g !! cb) as [k|] eqn:E; [|done]. pose proof (lookup_weaken _ _ _ _ E Hg).
      apply Ho in E. by simplify_eq. }
    assert (g !! rb = None) as Hr.
    { destruct (g !! rb) as [k|] eqn:E; [|done]. pose proof (lookup_weaken _ _ _ _ E Hg).
      apply Ho in E. by simplify_eq. }
    assert (<[rb := ResultArr rs]> (<[cb := ConditionArr cs]> g) ⊆ h) as Hsub.
    { apply insert_subseteq_l; [done|]. by apply insert_subseteq_l. }
    apply map_subseteq_size in Hsub. rewrite map_size_insert_None in Hsub by by rewrite lookup_insert_ne.
    rewrite map_size_insert_None in Hsub by done. lia. }
  pose proof (H2 ∅ (map_empty_subseteq h) (map_Forall_empty _)) as H0. rewrite map_size_empty in H0.
  exists (pred (size h)). split; [lia|]. split; [lia|]. split; intros g Hg Ho; pose proof (H2 g Hg Ho); lia.
Qed.

Lemma entries_elements h st l :
  entries_are h st l -> elements as_state (resources_count st) (resources st) h = Some l.
Proof.
  intros [Hc Hl]. unfold elements. rewrite Hc. destruct l as [|x l]; [done|].
  destruct Hl as (b & more & -> & Hb); [done|]. destruct (Z.eqb_spec (Z.of_nat (length (x :: l))) 0); [done|].
  cbn [mbind option_bind]. rewrite Hb. cbn [mbind option_bind as_state].
  rewrite (proj2 (Z.leb_le _ _)) by (rewrite length_app; lia). by rewrite Nat2Z.id, take_app_length.
Qed.

Abbreviation state_entry_fits := (fun x => fits (MESSAGE fnv1_State_ResourcesEntry_msg) x = true).

Lemma entry_under k x h e : state_entry_fits x -> entry_held x h e -> has_resource_key k e = under k x.
Proof.
  intros Hx H. destruct (H Hx) as (Hk & _). message_slots Hx. cbn [msg_slots] in Hk. rewrite slot_here in Hk.
  rewrite text_under by exact Hs. unfold has_resource_key. by rewrite Hk.
Qed.

Lemma entries_under k es h l :
  Forall state_entry_fits es -> Forall2 (fun x e => entry_held x h e) es l ->
  existsb (has_resource_key k) l = existsb (under k) es.
Proof.
  intros Hf H. induction H as [|x e es l He _ IH]; [done|]. apply Forall_cons in Hf as [Hx Hf]. cbn [existsb].
  by rewrite (entry_under k _ _ _ Hx He), IH.
Qed.

(** The entry with the Secret in it. *)
Lemma set_entry_read h k x e r v :
  k <> [] -> NUL ∉ k -> state_entry_fits x -> entry_held x h e -> struct_of r h = Some v ->
  state_entry_of (set_entry e k r) h = Some (entry_with k v x).
Proof.
  intros Hk0 Hkn Hx H Hv. destruct (H Hx) as (_ & Hh & Hz & Hr).
  assert (elements as_details (connection_details_count (re_value e)) (connection_details (re_value e)) h ≫= (fun ds =>
            Some (map detail_of ds)) = Some (within (slot (msg_slots x) 1) 1) /\
          singular_int (ready (re_value e)) = within (slot (msg_slots x) 1) 2) as [Hd Hrd].
  { unfold state_entry_of in Hr. destruct (re_has_value e).
    - apply bind_Some in Hr as (s & Hs & [= <-]). apply bind_Some in Hs as (w & Hw & [= <-]).
      apply bind_Some in Hw as (st & _ & Hw). apply bind_Some in Hw as (ds & Hds & [= <-]). rewrite Hds. done.
    - rewrite Hz by done. cbn in Hr. injection Hr as <-. done. }
  apply bind_Some in Hd as (ds & Hds & [= Hd]).
  unfold state_entry_of, set_entry. cbn [re_has_value re_value re_key].
  rewrite (reader_bind_at _ _ _ [VMsg [[v]; within (slot (msg_slots x) 1) 1; within (slot (msg_slots x) 1) 2]]).
  - unfold singular_text, entry_with. cbn. rewrite until_nul_id by done. by destruct k.
  - apply when_true. unfold resource_of. cbn [has_resource resource connection_details_count connection_details ready].
    rewrite (reader_bind_at _ _ _ [v]) by by apply when_true. rewrite (reader_bind_at _ _ _ ds) by done.
    by rewrite Hd, Hrd.
Qed.

Lemma set_last_read h k es l r v :
  k <> [] -> NUL ∉ k -> Forall state_entry_fits es -> Forall2 (fun x e => entry_held x h e) es l ->
  struct_of r h = Some v -> read_all state_entry_of (set_last l k r) h = Some (wire_set_last es k v).
Proof.
  intros Hk0 Hkn Hf H Hv. induction H as [|x e es l He Hes IH].
  - cbn [set_last wire_set_last read_all].
    rewrite (reader_bind_at _ _ _ (VMsg [[VText k]; [VMsg [[v]; []; []]]])); [done|].
    unfold state_entry_of, set_entry. cbn [re_has_value re_value re_key].
    rewrite (reader_bind_at _ _ _ [VMsg [[v]; []; []]]).
    + unfold singular_text. cbn. rewrite until_nul_id by done. by destruct k.
    + apply when_true. unfold resource_of. cbn [has_resource resource].
      by rewrite (reader_bind_at _ _ _ [v]) by by apply when_true.
  - apply Forall_cons in Hf as [Hx Hf]. cbn [set_last wire_set_last].
    rewrite (entry_under k _ _ _ Hx He), (entries_under k _ _ _ Hf Hes).
    destruct (under k x && negb (existsb (under k) es)); cbn [read_all].
    + rewrite (reader_bind_at _ _ _ _ (set_entry_read _ _ _ _ _ _ Hk0 Hkn Hx He Hv)).
      rewrite (reader_bind_at _ _ _ es); [done|]. apply reads_back. eapply Forall2_with; [exact Hf|exact Hes|].
      intros x' e' Hx' He'. by apply (He' Hx').
    + destruct (He Hx) as (_ & _ & _ & Hr). rewrite (reader_bind_at _ _ _ _ Hr).
      by rewrite (reader_bind_at _ _ _ _ (IH Hf)).
Qed.

Lemma no_nul_lit (s : string) : forallb (fun b => negb (bool_decide (b = NUL))) (lit s) = true -> NUL ∉ lit s.
Proof. intros Hs H. rewrite forallb_forall in Hs. apply list_elem_of_In, Hs in H. by rewrite bool_decide_true in H. Qed.

Section read.
Context (slots : slots_t) (Hf : fits (MESSAGE fnv1_RunFunctionRequest_msg) (VMsg slots) = true).

(** The composite's object with the status. *)
Lemma composite_read g h n c lr lst r st cert name out :
  composite_held (wire_composite slots) g c lr lst -> unchanged (arrays_of c lr) g h ->
  struct_is h r (set_field lr (lit "status") (struct_value st)) ->
  struct_is h st (set_field lst (lit "certificate") (struct_value cert)) ->
  object_is h cert (status_json name out) -> int64_range (seconds_left out) ->
  size h = S n -> (1 <= n)%nat -> deep h n -> deep h (S n) ->
  struct_of r h = Some (VMsg [with_certificate slots name out]).
Proof.
  intros Hc Hh Hr Hst Hcert Hout Hsz Hn D1 D2. unfold struct_of. rewrite Hsz.
  destruct (ch_rest _ _ _ _ _ Hc) as (ds & _ & _ & H). destruct (H h Hh) as (_ & S1 & S2).
  eapply set_struct_read; [exact D2|exact S1|done|by apply no_nul_lit| |exact Hr].
  cbn [value_of]. erewrite reader_bind_at; [done|].
  eapply set_struct_read; [exact D1|exact S2|done|by apply no_nul_lit| |exact Hst].
  by apply certificate_read.
Qed.

Lemma ask_read h b name ns :
  h !! b = Some (RequirementsArr [RequirementsEntry (Some resource_key) true (secret_selector name ns)]) ->
  requirements_of (Requirements (0, None) (0, None) 1 (Some b)) h = Some (wire_ask name ns).
Proof.
  intros Hb. unfold requirements_of. cbn [extra_resources schemas fst Z.eqb negb orb req_resources_count req_resources].
  by rewrite (reader_bind_at _ _ _ _ (elements_block RequirementsArr as_requirements _ h b 1 Hb eq_refl eq_refl)).
Qed.

(** The desired state passed through. *)
Lemma desired_read g req :
  request_back slots g req ->
  rq_desired req = desired_of req /\
  state_of (desired_of req) g = Some (VMsg [wire_composite slots; wire_resources slots]).
Proof.
  intros [_ _ [[Hh Hr] _] _ _ (g' & _ & Ha)]. unfold desired_of, wire_composite, wire_resources. rewrite Hh.
  destruct (request_slots _ Hf) as (_ & [E|(v & E & Hv)] & _); rewrite E in *; cbn [present within state_apart] in *.
  - split; [exact Ha|done].
  - split; [done|]. rewrite Hh in Hr. apply bind_Some in Hr as (w & Hw & [= ->]). rewrite Hw. by message_slots Hv.
Qed.

(** The response that asks. *)
Definition asking (tag : bytes) (d : fnv1_State) (b : Z) : fnv1_RunFunctionResponse :=
  with_requirements (Requirements (0, None) (0, None) 1 (Some b))
    (with_desired d (set_meta tag fnv1_RunFunctionResponse_init_zero)).

Lemma ask_answer_read h d b sp :
  state_of d h = Some (VMsg [wire_composite slots; wire_resources slots]) ->
  h !! b = Some (RequirementsArr [RequirementsEntry (Some resource_key) true
             (secret_selector (sp_secret_name sp) (sp_namespace sp))]) ->
  response_of (asking (wire_tag slots) d b) h = Some (ask_answer slots sp).
Proof.
  intros Hd Hb. unfold response_of, asking.
  cbn [has_desired desired results_count results has_context has_requirements requirements conditions_count conditions has_output has_meta meta
       with_desired with_requirements set_meta with_meta fnv1_RunFunctionResponse_init_zero].
  erewrite reader_bind_at; [|by apply when_true]. rewrite (reader_bind_at _ _ _ []) by done.
  rewrite (reader_bind_at _ _ _ []) by done.
  rewrite (reader_bind_at _ _ _ [wire_ask (sp_secret_name sp) (sp_namespace sp)]) by (apply when_true; by apply ask_read).
  rewrite (reader_bind_at _ _ _ []) by done. by rewrite (reader_bind_at _ _ _ []) by done.
Qed.

Lemma rotated_wire out name :
  result_of_response (normal_result (until_nul (verdict_message name out))) =
    VMsg [[VInt fnv1_Severity_SEVERITY_NORMAL]; [VText (until_nul (verdict_message name out))]; [];
          [VInt fnv1_Target_TARGET_COMPOSITE]].
Proof.
  unfold result_of_response, normal_result, singular_text.
  cbn [severity message res_reason has_target target fmap option_fmap option_map].
  rewrite (until_nul_id (until_nul _)) by apply until_nul_no_nul.
  unfold verdict_message. by destruct (rotated out).
Qed.

(** What a run composes reads as the answer. *)
Lemma rotated_read g h d0 entries lr lst sp out b rsp' :
  desired_held slots g d0 entries lr lst -> unchanged (shared d0 lr) g h -> int64_range (seconds_left out) ->
  h !! b = Some (RequirementsArr [RequirementsEntry (Some resource_key) true
             (secret_selector (sp_secret_name sp) (sp_namespace sp))]) ->
  rotated_response (sp_secret_name sp) out entries lr lst
    (asking (wire_tag slots) d0 b) rsp' h ->
  response_of rsp' h = Some (rotated_answer slots sp out).
Proof.
  intros [Hc Ec _ _ Hkept] Hh Hout Hb (secret & r & st & cert & d & rb & cb & -> & Hd & Ecd & Hsec & Hr & Hst & Hcert & Hrb & Hcb).
  assert (unchanged (arrays_of (composite d0) lr) g h) as Hh'.
  { unfold shared in Hh. rewrite Ec in Hh. exact Hh. }
  destruct (deep_enough _ _ _ _ _ Hrb Hcb) as (n & Hsz & Hn & D1 & D2).
  pose proof (composite_read _ _ _ _ _ _ _ _ _ _ _ Hc Hh' Hr Hst Hcert Hout Hsz Hn D1 D2) as Hobj.
  destruct (ch_rest _ _ _ _ _ Hc) as (ds & Hds & Hrdy & H). destruct (H h Hh') as (Hda & _ & _).
  cbn [asking desired with_requirements with_desired] in Ecd.
  assert (state_of (with_composite r d) h = Some (VMsg
      [[VMsg [[VMsg [with_certificate slots (sp_secret_name sp) out]]; within (wire_composite slots) 1; within (wire_composite slots) 2]];
       wire_set_last (wire_resources slots) resource_key (wire_secret (sp_secret_name sp) out)])) as Hstate.
  { unfold state_of, with_composite. cbn [has_composite composite resources_count resources]. rewrite Ecd.
    rewrite (reader_bind_at _ _ _ [VMsg [[VMsg [with_certificate slots (sp_secret_name sp) out]]; within (wire_composite slots) 1; within (wire_composite slots) 2]]).
    - rewrite (reader_bind_at _ _ _ _ (entries_elements _ _ _ Hd)).
      erewrite reader_bind_at; [done|].
      apply set_last_read; [done|by apply no_nul_lit| |by apply Hkept|by apply secret_read].
      by destruct (desired_slots _ Hf).
    - apply when_true. unfold resource_of. cbn [has_resource resource connection_details_count connection_details ready].
      rewrite (reader_bind_at _ _ _ [VMsg [with_certificate slots (sp_secret_name sp) out]]) by by apply when_true.
      rewrite (reader_bind_at _ _ _ _ (elements_array_at _ as_details _ _ _ Hda eq_refl)). by rewrite Hds, Hrdy. }
  unfold response_of, asking.
  cbn [has_desired desired results_count results has_context has_requirements requirements conditions_count conditions has_output has_meta meta
       with_conditions with_results with_desired with_requirements set_meta with_meta fnv1_RunFunctionResponse_init_zero].
  erewrite reader_bind_at; [|by apply when_true].
  rewrite (reader_bind_at _ _ _ _ (elements_block ResultArr as_results _ h rb 1 Hrb eq_refl eq_refl)).
  rewrite (reader_bind_at _ _ _ []) by done.
  rewrite (reader_bind_at _ _ _ [wire_ask (sp_secret_name sp) (sp_namespace sp)]) by (apply when_true; by apply ask_read).
  rewrite (reader_bind_at _ _ _ _ (elements_block ConditionArr as_conditions _ h cb 1 Hcb eq_refl eq_refl)).
  rewrite (reader_bind_at _ _ _ []) by done.
  cbn [map]. rewrite rotated_wire. unfold rotated_answer. by destruct (rotated out).
Qed.
End read.

(** ** It has the type of a response *)

Section types.
Context (slots : slots_t) (Hf : fits (MESSAGE fnv1_RunFunctionRequest_msg) (VMsg slots) = true).
Abbreviation entry_typed := (typed (MESSAGE google_protobuf_Struct_FieldsEntry_msg)).

Lemma typed_field k w :
  k <> [] -> typed (MESSAGE google_protobuf_Value_msg) w = true -> entry_typed (VMsg [[VText k]; [w]]) = true.
Proof. intros Hk Hw. destruct k; [done|]. cbn. by rewrite Hw. Qed.

Lemma typed_set es k w :
  Forall entry_fits es -> k <> [] -> typed (MESSAGE google_protobuf_Value_msg) w = true ->
  forallb entry_typed (wire_set es k w) = true.
Proof.
  intros Hfs Hk Hw. induction Hfs as [|x es Hx Hfs IH]; cbn [wire_set forallb].
  - by rewrite typed_field.
  - destruct (under k x); cbn [forallb].
    + by rewrite typed_field, forallb_typed.
    + unfold fits in Hx. apply andb_prop in Hx as [-> _]. exact IH.
Qed.

Lemma typed_struct es :
  forallb entry_typed es = true -> typed (MESSAGE google_protobuf_Value_msg) (wire_struct es) = true.
Proof. intros H. unfold wire_struct. change (one_of 6 4 (VMsg [es])) with (VMsg [[]; []; []; []; [VMsg [es]]; []]). cbn. by rewrite H. Qed.

Lemma typed_certificate name out : typed (MESSAGE google_protobuf_Value_msg) (wire_certificate name out) = true.
Proof.
  apply typed_struct. unfold number_wire.
  assert (in_range 0 (2 ^ 64) (default 0 (bits_of_float (double_of (Z.quot (seconds_left out) 86400)))) = true) as Hz.
  { destruct (bits_of_float _) as [z|] eqn:E; [|done]. apply bits_range in E. unfold in_range. cbn [default].
    by rewrite (proj2 (Z.leb_le _ _)), (proj2 (Z.ltb_lt _ _)) by apply E. }
  generalize dependent (default 0 (bits_of_float (double_of (Z.quot (seconds_left out) 86400)))). intros z Hz.
  cbn -[Z.pow]. by rewrite Hz.
Qed.

Lemma fits_slot_typed f s : fits_slot f s = true -> slot_shape f s && slot_present f s && forallb (typed (f_type f)) s = true.
Proof.
  unfold fits_slot, fits. rewrite forallb_and. intros H. apply andb_prop in H as [-> H].
  by apply andb_prop in H as [-> _].
Qed.

(** A resource with another object. *)
Lemma typed_resource s es :
  slot_fits (MESSAGE fnv1_Resource_msg) s -> forallb entry_typed es = true ->
  typed (MESSAGE fnv1_Resource_msg) (VMsg [[VMsg [es]]; within s 1; within s 2]) = true.
Proof.
  intros Hs Hes.
  assert (typed (MESSAGE google_protobuf_Struct_msg) (VMsg [es]) = true) as Hv by (cbn; by rewrite Hes).
  generalize dependent (VMsg [es]). intros v Hv. destruct Hs as [->|(w & -> & Hw)]; [cbn; by rewrite Hv|].
  message_slots Hw. cbn [within msg_slots]. rewrite ?slot_next, ?slot_here.
  apply fits_slot_typed in Hs0, Hs1. revert Hs0 Hs1. cbn. rewrite Hv. cbn. by intros -> ->.
Qed.

Lemma typed_entry_with k es x :
  k <> [] -> state_entry_fits x -> forallb entry_typed es = true ->
  typed (MESSAGE fnv1_State_ResourcesEntry_msg) (entry_with k (VMsg [es]) x) = true.
Proof.
  intros Hk Hx Hes. unfold entry_with. message_slots Hx. cbn [msg_slots]. rewrite slot_next, slot_here.
  pose proof (typed_resource _ es (optional_slot _ _ _ _ _ Hs0) Hes) as Hr.
  match type of Hr with typed _ ?w = true => generalize dependent w end. intros v Hv. destruct k; [done|]. cbn. by rewrite Hv.
Qed.

Lemma typed_set_last l k es :
  k <> [] -> Forall state_entry_fits l -> forallb entry_typed es = true ->
  forallb (typed (MESSAGE fnv1_State_ResourcesEntry_msg)) (wire_set_last l k (VMsg [es])) = true.
Proof.
  intros Hk Hl Hes. induction Hl as [|x l Hx Hl IH]; cbn [wire_set_last forallb].
  - destruct k; [done|]. cbn. by rewrite Hes.
  - destruct (_ && _); cbn [forallb].
    + by rewrite typed_entry_with, forallb_typed.
    + unfold fits in Hx. apply andb_prop in Hx as [-> _]. exact IH.
Qed.

Lemma typed_state c es :
  slot_fits (MESSAGE fnv1_Resource_msg) c \/ (exists v, c = [v] /\ typed (MESSAGE fnv1_Resource_msg) v = true) ->
  forallb (typed (MESSAGE fnv1_State_ResourcesEntry_msg)) es = true ->
  typed (MESSAGE fnv1_State_msg) (VMsg [c; es]) = true.
Proof.
  intros Hc Hes. assert (c = [] \/ exists v, c = [v] /\ typed (MESSAGE fnv1_Resource_msg) v = true) as [->|(v & -> & Hv)].
  { destruct Hc as [[?|(v & -> & Hv)]|?]; [by left| |by right]. right. exists v. split; [done|].
    unfold fits in Hv. by apply andb_prop in Hv as [Hv _]. }
  - cbn. by rewrite Hes.
  - cbn. by rewrite Hv, Hes.
Qed.

Lemma typed_ask name ns : typed (MESSAGE fnv1_Requirements_msg) (wire_ask name ns) = true.
Proof. unfold wire_ask. cbn. done. Qed.

Lemma typed_ask_answer sp : typed_slots fnv1_RunFunctionResponse_msg (ask_answer slots sp).
Proof.
  destruct (desired_slots slots Hf) as [Hc He]. apply forallb_typed in He.
  unfold typed_slots, ask_answer. pose proof (typed_meta (wire_tag slots)) as Hm.
  pose proof (typed_ask (sp_secret_name sp) (sp_namespace sp)) as Hq.
  pose proof (typed_state (wire_composite slots) (wire_resources slots) (or_introl Hc) He) as Hd.
  generalize dependent (wire_ask (sp_secret_name sp) (sp_namespace sp)). intros q Hq.
  generalize dependent (meta_of (ResponseMeta (Some (wire_tag slots)) true 60 0)). intros m Hm.
  generalize dependent (VMsg [wire_composite slots; wire_resources slots]). intros d Hd.
  cbn. by rewrite Hm, Hd, Hq.
Qed.

(** The fields of the composite's object and of the status fit. *)
Lemma composite_fits : Forall entry_fits (composite_fields slots) /\ Forall entry_fits (status_fields slots).
Proof.
  assert (Forall entry_fits (composite_fields slots)) as H.
  { unfold composite_fields. destruct (desired_slots slots Hf) as [Hc _]. fold (wire_composite slots) in Hc.
    destruct Hc as [->|(v & -> & Hv)]; [done|]. message_slots Hv. cbn [within msg_slots]. rewrite slot_here.
    apply optional_slot in Hs as [->|(w & -> & Hw)]; [done|]. message_slots Hw. exact (fits_all _ _ Hs). }
  split; [exact H|]. unfold status_fields.
  assert (forall es, Forall entry_fits es -> match wire_get es (lit "status") with
    Some w => fits (MESSAGE google_protobuf_Value_msg) w = true | None => True end) as Hget.
  { induction 1 as [|x es Hx _ IH]; [done|]. cbn [wire_get]. message_slots Hx. cbn [msg_slots]. rewrite slot_next, slot_here.
    apply optional_slot in Hs0 as [->|(w & -> & Hw)]; [exact IH|]. by destruct (under _ _). }
  specialize (Hget _ H). destruct (wire_get _ _) as [w|]; [|done].
  pose proof (value_kinds _ Hget) as K. by inversion K.
Qed.

Lemma typed_rotated_answer sp out : typed_slots fnv1_RunFunctionResponse_msg (rotated_answer slots sp out).
Proof.
  destruct (desired_slots slots Hf) as [Hc He]. destruct composite_fits as [Hcf Hsf].
  assert (forallb entry_typed (with_certificate slots (sp_secret_name sp) out) = true) as Hobj.
  { apply typed_set; [done|done|]. apply typed_struct, typed_set; [done|done|apply typed_certificate]. }
  pose proof (typed_resource _ _ Hc Hobj) as Hr.
  assert (forallb (typed (MESSAGE fnv1_State_ResourcesEntry_msg))
            (wire_set_last (wire_resources slots) resource_key (wire_secret (sp_secret_name sp) out)) = true) as Hl.
  { by apply typed_set_last. }
  pose proof (typed_state _ _ (or_intror (ex_intro _ _ (conj eq_refl Hr))) Hl) as Hd.
  pose proof (typed_meta (wire_tag slots)) as Hm. pose proof (typed_ask (sp_secret_name sp) (sp_namespace sp)) as Hq.
  unfold typed_slots, rotated_answer.
  generalize dependent (wire_ask (sp_secret_name sp) (sp_namespace sp)). intros q Hq.
  generalize dependent (meta_of (ResponseMeta (Some (wire_tag slots)) true 60 0)). intros m Hm.
  fold (wire_composite slots) in Hd. match type of Hd with typed _ ?v = true => generalize dependent v end. intros d Hd.
  assert (exists t ts, until_nul (verdict_message (sp_secret_name sp) out) = t :: ts) as (t & ts & ->).
  { unfold verdict_message. destruct (rotated out); by eexists _, _. }
  cbn. rewrite Hm, Hd, Hq. by destruct (rotated out).
Qed.
End types.
