(* ===== verification/CertOnWire.v ===== *)
(** The cert-rotator guest from bytes to bytes, over any wire format: what
    [wasmfn_handle] answers, composed of what a decoded request holds (WireRequest),
    what the function does (CertRun) and what its response reads as (CertAnswer). And
    the component, whatever the bytes. *)
From S2P Require Import Prelude BindTypes CString Proto Calendar Mbedtls Machine MachineLogic Wasmfn WasmfnMem WasmfnProps Structpb Codec Wire WireProps WireHeap WireFill WireRequest Handle WireHeapProps HandleProps HelloFn HelloSpec HelloProps Tls TlsSpec TlsProps Rotator RotatorSpec CertFn CertSpec CertState CertCompose CertRun CertProps WireAnswer CertWire CertAnswer.
From Stdlib Require Import Strings.Byte.

(** A certificate that was decided on ends less than 2^63 seconds away. *)
Lemma decide_left enc dec req s out s' :
  decide_spec enc dec req s (inr out) s' -> sane_clock (now req) -> int64_range (seconds_left out).
Proof.
  intros (hevs & current & Hheld & H) Hn. destruct current as [why|c]; cbn [verdict_of] in H.
  2: destruct (_ <? _) eqn:E.
  2: { destruct H as (_ & out' & [= <-] & _ & _ & _ & _ & -> & _). by eapply held_left. }
  all: destruct H as (ievs & ir & eevs & Hi & _ & H); unfold rotated_spec in H; destruct ir as [?|i]; [done|];
    destruct H as (_ & -> & _); destruct Hi as [_ (_ & raw & cb & kb & pevs & _ & _ & _ & Hp)]; by eapply parsed_left.
Qed.

(** Room for a field more: the static result is in memory too. *)
Lemma field_room s c x st l :
  wf s -> heap s !! c = Some (ResultArr [x]) -> struct_is (heap s) st l ->
  24 * (Z.of_nat (length l) + 1) < memory_size.
Proof.
  intros Hs Hc [_ Hf]. destruct (fields st) as [b|]; [|by subst].
  assert (b <> c) as Hne by congruence. pose proof (heap_size_two _ _ _ _ _ Hne Hf Hc) as H.
  pose proof (wf_size s Hs) as Hz. simpl block_size in H. unfold memory_size in *. lia.
Qed.

Lemma observed_wire slots h req :
  request_back slots h req ->
  (observed_composite req = None <-> within (within (slot slots 1) 0) 0 = []).
Proof.
  intros [_ [[Hh _] [_ Hc]] _ _ _ _]. unfold observed_composite. rewrite Hh.
  destruct (slot slots 1) as [|o os] eqn:Eo; [done|]. destruct (Hc ltac:(done)) as [[Hh2 _] [Hh3 _]].
  rewrite Hh2, Hh3. destruct (within (o :: os) 0) as [|c cs]; [done|]. cbn [present negb orb].
  by destruct (within (c :: cs) 0).
Qed.

Lemma array_entries l h st : array_at StateArr l h (resources_count st, resources st) -> entries_are h st l.
Proof.
  intros [Hc Hp]. split; [done|]. cbn [snd] in Hp. intros Hl. destruct (resources st) as [b|]; [|done].
  destruct Hp as [_ Hb]. exists b, []. by rewrite app_nil_r.
Qed.

Section run.
Context {N : Nanopb} {F : WireFormat} {L : NanopbLaws N F}.
Context {e : env} (unspecified : spec_float -> Z) (inv : Z) (enc : bytes -> bytes) (dec : bytes -> option bytes).
Context (Hlaws : base64_laws e inv enc dec) (Htyped : typed_mbedtls e)
  (Hclock : forall tr, sane_clock (answers e tr Time)).
Context (cell : Z) (data : bytes) (slots : slots_t) (xr cur : list (bytes * json)) (found : option (list (bytes * json))) (s : cst).
Context (Hs : wf s) (Hcell : has_cell cell s) (Hdec : Handle.parse fnv1_RunFunctionRequest_msg data = Some slots)
  (Hf : fits (MESSAGE fnv1_RunFunctionRequest_msg) (VMsg slots) = true)
  (Hxr : wire_json (within (within (slot slots 1) 0) 0) = Some xr)
  (Hcur : wire_json (within (wire_composite slots) 0) = Some cur)
  (Hfound : wire_found slots = Some found).

(** The decoded request is one the function can read. *)
Lemma wire_cert_readable req s0 :
  pb_decode data e s = Ok (inl req, s0) ->
  exists entries lr lst required, readable_cert (heap s0) req xr entries lr lst required found /\
    desired_held slots (heap s0 ∖ heap s) (desired_of req) entries lr lst /\
    (answered_with required = None <-> wire_answered (slot slots 7) = None).
Proof.
  intros H. destruct (decoded_back _ _ _ _ _ _ Hs Hdec Hf H) as (Hst & Hsub & Hb & _).
  set (g := heap s0 ∖ heap s) in *. assert (g ⊆ heap s0) as Hg by apply added_within.
  pose proof Hb as [_ _ _ _ (required & Hra & Hreq) (g' & Hg' & Ha)].
  destruct (desired_read _ Hf _ _ Hb) as [Ed _]. rewrite Ed in Ha.
  destruct (desired_is_held _ Hf _ _ _ Ha Hcur) as (entries & lr & lst & Hheld).
  apply (desired_held_mono _ _ g) in Hheld; [|done].
  apply (request_back_lasting _ _ (heap s0)) in Hb; [|done].
  exists entries, lr, lst, required. split; [|split; [done|]].
  - destruct Hheld as [Hc Ec He _ _].
    apply (composite_held_mono _ _ (heap s0)) in Hc; [|done]. destruct Hcell as [x Hx].
    pose proof (lookup_weaken _ _ _ _ Hx Hsub) as Hx0. pose proof (hs_wf _ _ Hst) as Hs0.
    split.
    + intros st Hobs. pose proof (struct_composite _ _ _ _ Hb Hxr) as Hcomp. unfold composite_is in Hcomp.
      unfold observed_composite in Hobs. destruct (has_observed req), (has_composite (observed req)),
        (has_resource (composite (observed req))); try done. by injection Hobs as <-.
    + apply array_entries. by eapply array_at_lasting.
    + split; rewrite ?Ec; [apply Hc|apply Hc|apply Hc|]. split; eapply (field_room s0); try done; apply Hc.
    + destruct Hra as [Hn Hp]. split; [done|]. intros Hne. cbn [snd] in Hp.
      destruct (required_resources req) as [b|]; [|done]. exists b. split; [done|].
      eapply lookup_weaken; [apply Hp|done].
    + intros rs Hrs. eapply found_wire; [exact Hf| |exact Hfound|exact Hrs].
      eapply Forall2_impl; [exact Hreq|]. intros y r Hy. eapply required_back_lasting; [exact Hy|done].
  - destruct (request_slots _ Hf) as (_ & _ & _ & H7). pose proof (answered_wire _ _ _ H7 Hreq) as Hw.
    destruct (answered_with required); [|done]. destruct Hw as (ys & l & -> & _). done.
Qed.

(** What [set_status] writes to is decoded, not what was there before. *)
Lemma shared_fresh (g : gmap Z block) dst entries lr lst b :
  desired_held slots (g ∖ heap s) dst entries lr lst -> Some b ∈ shared dst lr -> heap s !! b = None.
Proof.
  intros Hh Hin. unfold shared in Hin.
  rewrite (dh_of _ _ _ _ _ _ Hh) in Hin. apply (ch_arrays _ _ _ _ _ (dh_composite _ _ _ _ _ _ Hh)) in Hin as [k Hk].
  by apply lookup_difference_Some in Hk as [_ ?].
Qed.

(** What was logged, asked of the host and found, and the answer it makes. *)
Definition out_of_memory (answer : slots_t) : Prop :=
  exists reason, answer = fatal_slots (wire_tag slots) (lit "out of memory") reason.

Definition cert_decided (sp : spec_of) (s3 : cst) (decided : bytes + rotator_result) (answer : slots_t) (s' : cst) : Prop :=
  match decided with
  | inl msg => trace s' = trace s3 /\ exists reason, answer = fatal_slots (wire_tag slots) msg reason
  | inr out => exists s4,
      logged level_info (if rotated out then lit "Rotating the certificate" else lit "Keeping the certificate")
        [(lit "secret", Some (sp_secret_name sp)); (lit "reason", Some (reason out));
         (lit "notAfter", Some (out_not_after out))] s3 s4 /\ trace s' = trace s4 /\
      (answer = rotated_answer slots sp out \/
       out_of_memory answer /\ ((denied s < denied s')%nat \/ INT_MAX < Z.of_nat (length (verdict_message (sp_secret_name sp) out))))
  end.

Definition cert_reconciled (sp : spec_of) (s1 : cst) (answer : slots_t) (s' : cst) : Prop :=
  (out_of_memory answer /\ (denied s < denied s')%nat /\ trace s' = trace s1) \/
  match wire_answered (slot slots 7) with
  | None => answer = ask_answer slots sp /\ exists s2 s3, trace s2 = trace s1 /\
      logged level_debug (lit "Asking Crossplane for the Secret")
        [(lit "name", Some (sp_secret_name sp)); (lit "namespace", Some (sp_namespace sp))] s2 s3 /\ trace s' = trace s3
  | Some _ => exists now s2 s3 decided, trace s2 = trace s1 ++ [Ev Time now] /\
      decide_spec enc dec (ask_json sp found now) s2 decided s3 /\ cert_decided sp s3 decided answer s'
  end.

Definition cert_said (answer : slots_t) (s' : cst) : Prop :=
  undecoded s answer s' \/
  exists s0 s1, heap_step s s0 /\
    logged level_info (lit "Running function") [(lit "tag", Some (wire_tag slots))] s0 s1 /\
    (match within (within (slot slots 1) 0) 0, spec_json unspecified (JObject xr) with
    | [], _ => trace s' = trace s1 /\ exists reason, answer = fatal_slots (wire_tag slots)
        (lit "cannot get observed composite resource: none in request") reason
    | _, inl msg => trace s' = trace s1 /\ exists reason, answer = fatal_slots (wire_tag slots) msg reason
    | _, inr sp => cert_reconciled sp s1 answer s'
     end \/
     trace s' = trace s1 /\ (exists msg reason, answer = fatal_slots (wire_tag slots) msg reason) /\
    ((denied s < denied s')%nat \/ exists name,
       text_at (json_at (JObject xr) [lit "metadata"; lit "name"]) = Some name /\ too_long (name ++ lit "-tls"))).

Lemma cert_said_step answer s1 s2 : cert_said answer s1 -> heap_step s1 s2 -> cert_said answer s2.
Proof.
  intros H Hst. pose proof (hs_denied _ _ Hst) as Hd. unfold cert_said, undecoded, cert_reconciled, cert_decided in *.
  rewrite (hs_trace _ _ Hst). assert ((denied s < denied s1)%nat -> (denied s < denied s2)%nat) as Hlt by lia.
  clear Hd Hst. destruct H as [(Hd & H)|(s0 & s1' & Hs0 & Hl & H)]; [left; split; [by apply Hlt|done]|].
  right. exists s0, s1'. split; [done|]. split; [done|]. destruct H as [H|(Ht & Ha & H)]; [left|right].
  - destruct (within (within (slot slots 1) 0) 0); [done|].
    destruct (spec_json unspecified (JObject xr)) as [msg|sp]; [done|].
    destruct H as [(? & ? & ?)|H]; [left; auto|right]. destruct (wire_answered (slot slots 7)); [|done].
    destruct H as (now & s3 & s4 & decided & ? & ? & H). exists now, s3, s4, decided. split; [done|]. split; [done|].
    destruct decided as [msg|out]; [done|]. destruct H as (s5 & ? & ? & H). exists s5. split; [done|]. split; [done|].
    destruct H as [?|(? & [?|?])]; [by left|right; split; [done|left; auto]|right; split; [done|by right]].
  - split; [done|]. split; [done|]. destruct H; [left; auto|by right].
Qed.

Lemma spared_unchanged ps s1 s2 g : spared ps s1 s2 -> g ⊆ heap s1 -> unchanged ps g (heap s2).
Proof. intros H Hg b k Hb Hk. apply H; [done|]. by eapply lookup_weaken. Qed.

Lemma reconciled_said g req sp entries lr lst required s1 s2 out s' :
  reconcile_spec enc dec req sp entries lr lst required found (set_meta (wire_tag slots) fnv1_RunFunctionResponse_init_zero) s2 out s' ->
  trace s2 = trace s1 -> (denied s <= denied s2)%nat -> g ⊆ heap s2 ->
  desired_held slots g (desired_of req) entries lr lst ->
  state_of (desired_of req) g = Some (VMsg [wire_composite slots; wire_resources slots]) ->
  (answered_with required = None <-> wire_answered (slot slots 7) = None) ->
  run_said slots (cert_reconciled sp s1) out s'.
Proof.
  intros (Hsp & H) Ht Hden Hg Hheld Hstate Hans. pose proof (spared_unchanged _ _ _ _ Hsp Hg) as Hun.
  destruct out as [err rsp']. cbn [fst] in H. destruct H as [(-> & Hd & Htr)|(b & Hb0 & Hb & H)].
  { intros reason. left. split; [by eexists|]. split; [lia|congruence]. }
  cbv zeta in H. destruct (answered_with required) as [rs|].
  2: { destruct H as [[= -> ->] (s3 & Hsub & Ht3 & Hd3 & Hlog)]. exists (ask_answer slots sp).
       assert (heap s' = heap s3) as Eh by apply Hlog.
       split; [|split; [by apply typed_ask_answer|]].
       - apply ask_answer_read; [|exact Hb]. eapply steady_state; [exact Hstate|]. rewrite Eh. by etransitivity.
       - right. rewrite (proj1 Hans eq_refl). split; [done|]. exists s3, s'. split; [congruence|done]. }
  assert (exists ys, wire_answered (slot slots 7) = Some ys) as [ys Eys].
  { destruct (wire_answered (slot slots 7)) as [ys|]; [by exists ys|]. by discriminate (proj2 Hans eq_refl). }
  destruct H as (now & s3 & s4 & decided & Hnow & Ht3 & Hd3 & Hdec' & H).
  assert (forall answer, cert_decided sp s4 decided answer s' -> cert_reconciled sp s1 answer s') as Hwrap.
  { intros answer Ha. right. rewrite Eys. exists now, s3, s4, decided. split; [congruence|done]. }
  destruct decided as [msg|res].
  { destruct H as [[= -> ->] ->]. intros reason. apply Hwrap. split; [done|by eexists]. }
  destruct H as (s5 & Hlog & Htr & H). destruct err as [msg|].
  - destruct H as [-> H]. intros reason. apply Hwrap. exists s5. split; [done|]. split; [done|]. right.
    split; [by eexists|]. destruct H as [H|H]; [left|by right].
    destruct (decide_ran _ _ _ _ _ _ Hdec') as [evs Hran]. pose proof (ran_denied _ _ _ Hran).
    destruct Hlog as (_ & _ & ?). lia.
  - exists (rotated_answer slots sp res). split; [|split; [by apply typed_rotated_answer|]].
    + eapply rotated_read; [exact Hf|exact Hheld|exact Hun| |exact Hb|exact H].
      eapply decide_left; [exact Hdec'|exact Hnow].
    + apply Hwrap. exists s5. split; [done|]. split; [done|]. by left.
Qed.

(** The function's run on what was decoded. *)
Lemma cert_run (T : trap -> Prop) req s0 :
  pb_decode data e s = Ok (inl req, s0) ->
  wp e T (run_function unspecified inv Wasi req (set_meta (request_tag req) fnv1_RunFunctionResponse_init_zero))
    (fun out s' => wf s' /\ heap s ⊆ heap s' /\ (denied s0 <= denied s')%nat /\
       request_tag req = wire_tag slots /\ run_said slots cert_said out s') s0.
Proof.
  intros Hd. destruct (decoded_back _ _ _ _ _ _ Hs Hdec Hf Hd) as (Hst & Hsub & Hb & Ht).
  destruct (wire_cert_readable _ _ Hd) as (entries & lr & lst & required & Hread & Hheld & Hans).
  eapply wp_mono; [by apply (wp_cert unspecified inv enc dec Hlaws Htyped Hclock req xr entries lr lst required found
    (set_meta (request_tag req) fnv1_RunFunctionResponse_init_zero) s0 (hs_wf _ _ Hst) Hread)|].
  intros out s' (Hsp & s1 & Hlog & H). pose proof Hsp as [Hwf Hrest Hden _].
  split_and!; [done| |done|done|].
  { apply map_subseteq_spec. intros b k Hk. apply Hrest; [|by eapply lookup_weaken].
    intros Hin. eapply shared_fresh in Hin; [|exact Hheld]. congruence. }
  clear Hwf Hrest Hden.
  fold (request_tag req) in Hlog. rewrite Ht in *. pose proof (hs_denied _ _ Hst).
  destruct (observed_wire _ _ _ Hb) as [Hobs _]. pose proof (observed_wire _ _ _ Hb) as [_ Hobs'].
  pose proof Hlog as [(_ & Hh1 & _) [_ Hd1]].
  assert (forall answer s'', (match within (within (slot slots 1) 0) 0, spec_json unspecified (JObject xr) with
    | [], _ => trace s'' = trace s1 /\ exists reason, answer = fatal_slots (wire_tag slots)
        (lit "cannot get observed composite resource: none in request") reason
    | _, inl msg => trace s'' = trace s1 /\ exists reason, answer = fatal_slots (wire_tag slots) msg reason
    | _, inr sp => cert_reconciled sp s1 answer s''
    end) -> cert_said answer s'') as Hsaid.
  { intros answer s'' Hm. right. exists s0, s1. split; [done|]. split; [done|]. by left. }
  destruct (observed_composite req) as [st|].
  2: { destruct H as [-> ->]. intros reason. apply Hsaid. rewrite Hobs by done. split; [done|by eexists]. }
  destruct (within (within (slot slots 1) 0) 0) as [|o os] eqn:Eo; [by discriminate Hobs'|].
  destruct H as (s2 & R2 & [H|(msg & -> & -> & Hbad)]).
  - destruct (spec_json unspecified (JObject xr)) as [msg|sp].
    + destruct H as [-> ->]. intros reason. apply Hsaid.
      split; [|by eexists]. rewrite (pr_trace _ _ _ (ra_progress _ _ _ R2)). by rewrite app_nil_r.
    + eapply (reconciled_said _ _ _ _ _ _ _ s1) in H; [| | |..|exact Hheld| |exact Hans].
      * destruct out as [[msg|] rsp']; [intros reason; by apply Hsaid|].
        destruct H as (answer & ? & ? & ?). exists answer. split_and!; try done. by apply Hsaid.
      * rewrite (pr_trace _ _ _ (ra_progress _ _ _ R2)). by rewrite app_nil_r.
      * pose proof (ran_denied _ _ _ R2). lia.
      * etransitivity; [apply added_within|]. rewrite <- Hh1. apply R2.
      * by eapply desired_read.
  - intros reason. right. exists s0, s1. split; [done|]. split; [done|]. right.
    split; [rewrite (pr_trace _ _ _ (ra_progress _ _ _ R2)); by rewrite app_nil_r|]. split; [by eexists _, _|].
    destruct Hbad as [?|?]; [left; lia|by right].
Qed.

Lemma cert_meta : keeps_meta (e := e) (run_function unspecified inv Wasi) data s.
Proof.
  intros req s1 Hr. destruct (decode_step _ _ _ _ _ Hs Hr) as (Hst & Hsub & _).
  destruct (wire_cert_readable _ _ Hr) as (entries & lr & lst & required & Hread & _).
  eapply wp_mono; [by apply (wp_cert unspecified inv enc dec Hlaws Htyped Hclock req xr entries lr lst required found);
                     [apply Hst| |]|].
  intros out s2 H E. by destruct (cert_keeps_meta _ _ _ _ _ _ _ _ _ _ _ _ _ _ H E) as [-> ->].
Qed.

Lemma wp_cert_on_wire (T : trap -> Prop) :
  wp e T (wasmfn_handle (run_function unspecified inv Wasi) cell data) (replied cell s cert_said) s.
Proof.
  apply (wp_replies _ _ _ slots); try done.
  - intros req s0. apply cert_run.
  - intros answer s1 s2. apply cert_said_step.
  - by left.
Qed.
End run.

(** It does not matter what was allocated before. *)
Lemma cert_said_back unspecified enc dec slots xr found s s1 answer s' :
  heap_step s s1 -> cert_said unspecified enc dec slots xr found s1 answer s' ->
  cert_said unspecified enc dec slots xr found s answer s'.
Proof.
  intros Hst H. pose proof (hs_denied _ _ Hst) as Hd. unfold cert_said, undecoded, cert_reconciled, cert_decided in *.
  rewrite (hs_trace _ _ Hst) in H. assert ((denied s1 < denied s')%nat -> (denied s < denied s')%nat) as Hlt by lia.
  clear Hd. destruct H as [(Hd & H)|(s0 & s1' & Hs0 & Hl & H)]; [left; split; [by apply Hlt|done]|].
  right. exists s0, s1'. split; [by eapply heap_step_trans|]. split; [done|].
  clear Hst. destruct H as [H|(Ht & Ha & H)]; [left|right].
  - destruct (within (within (slot slots 1) 0) 0); [done|].
    destruct (spec_json unspecified (JObject xr)) as [msg|sp]; [done|].
    destruct H as [(? & ? & ?)|H]; [left; auto|right]. destruct (wire_answered (slot slots 7)); [|done].
    destruct H as (now & s3 & s4 & decided & ? & ? & H). exists now, s3, s4, decided. split; [done|]. split; [done|].
    destruct decided as [msg|out]; [done|]. destruct H as (s5 & ? & ? & H). exists s5. split; [done|]. split; [done|].
    destruct H as [?|(? & [?|?])]; [by left|right; split; [done|left; auto]|right; split; [done|by right]].
  - split; [done|]. split; [done|]. destruct H; [left; auto|by right].
Qed.

(** What the host is given, and that the guest's live blocks are as they were. *)
Definition cert_called {F : WireFormat} unspecified (enc : bytes -> bytes) (dec : bytes -> option bytes) (cell : Z) (slots : slots_t)
    (xr : list (bytes * json)) (found : option (list (bytes * json))) (s : cst) : result_t bytes bytes -> cst -> Prop :=
  called cell (cert_said unspecified enc dec slots xr found s) s.

(** What is taken for granted of a request that decodes: its text and numbers are
    those a C struct holds, and its composites, observed ([xr]) and desired, and the
    Secret Crossplane found are JSON objects. *)
Definition cert_wellformed (slots : slots_t) (xr : list (bytes * json)) (found : option (list (bytes * json))) : Prop :=
  fits (MESSAGE fnv1_RunFunctionRequest_msg) (VMsg slots) = true /\
  wire_json (within (within (slot slots 1) 0) 0) = Some xr /\
  is_Some (wire_json (within (wire_composite slots) 0)) /\ wire_found slots = Some found.

(** A "status" that comes twice, first without its value, is in no JSON object. *)
Lemma status_twice_no_object w :
  wire_json [VMsg [[VMsg [[VText (lit "status")]; []]; wire_field "status" w]]] = None.
Proof. reflexivity. Qed.

(** C3. The cert-rotator guest from bytes to bytes, for every host, library, allocator
    and wire format nanopb implements: the host lowers a request into the guest's
    memory, calls the export, takes the bytes of its result and gives the buffer back.
    A request that parses, without NUL in its strings and with JSON objects for its
    composites and the Secret found ([cert_wellformed]), is answered under its tag with
    the bytes that parse as: the request's desired state as it came and the Secret
    asked for, as long as Crossplane has not answered; then, of what [rotator_decide]
    decides on the Secret Crossplane has, the desired state with the Secret under
    "certificate" (the last one there replaced, its details and readiness kept) and
    "status.certificate" of the desired composite set, every other field and resource
    passed through unchanged, a result and a condition; or one fatal result that says
    why not. An error text instead of bytes comes back only when memory ran out or
    could not hold them. No block that was live before the call has changed. *)
Theorem cert_on_the_wire (N : Nanopb) (F : WireFormat) (L : NanopbLaws N F) e (T : trap -> Prop)
    unspecified inv enc dec cell data slots xr found s :
  T Aborted -> base64_laws e inv enc dec -> typed_mbedtls e -> (forall tr, sane_clock (answers e tr Time)) ->
  wf s -> has_cell cell s ->
  Handle.parse fnv1_RunFunctionRequest_msg data = Some slots -> cert_wellformed slots xr found ->
  wp e T (machine_call (run_function unspecified inv Wasi) cell data)
    (cert_called unspecified enc dec cell slots xr found s) s.
Proof.
  intros HA Hb Ht Hclock Hs Hc Hdec (Hf & Hxr & [cur Hcur] & Hfound).
  apply (wp_called _ HA); [by apply cert_said_step|done|done|].
  intros s1 Hst _ Hc1. eapply wp_mono; [eapply (wp_cert_on_wire unspecified inv enc dec); try done; apply Hst|].
  intros out s2. apply replied_weaken. intros answer s'. by apply cert_said_back.
Qed.

(** A request for "xr" in "ns", whose status has a phase and whose Secret was desired
    before; Crossplane has none yet. *)
Definition cert_slots : slots_t :=
  [[VMsg [[VText (lit "t1")]; []]];
   [VMsg [[VMsg [[VMsg [[wire_field "metadata" (wire_struct [wire_field "name" (wire_text (lit "xr"));
                                                              wire_field "namespace" (wire_text (lit "ns"))])]]]; []; []]]; []]];
   [VMsg [[VMsg [[VMsg [[wire_field "spec" (wire_struct []);
                          wire_field "status" (wire_struct [wire_field "phase" (wire_text (lit "Ready"))])]]]; []; []]];
          [wire_field "certificate" (VMsg [[]; []; [VInt 1]]); wire_field "other" (VMsg [[]; []; []])]]];
   []; []; []; []; [VMsg [[VText resource_key]; [VMsg [[]]]]]; []].
Definition cert_bytes : bytes := encode_message fnv1_RunFunctionRequest_msg cert_slots.
Definition cert_asked : spec_of := Spec (lit "xr-tls") (lit "ns") (lit "xr") [] 90 30.
Definition cert_issued : rotator_result :=
  RotatorResult true (lit "absent") (lit "20240112221320") (lit "key") (lit "CN=a.test") (lit "2A")
    (lit "2023-11-14T22:13:20Z") (lit "2030-01-01T00:00:00Z") 193456000.

Lemma cert_slots_wellformed : cert_wellformed cert_slots cert_xr None.
Proof. split_and!; [by vm_compute|by vm_compute|eexists; by vm_compute|by vm_compute]. Qed.

Lemma cert_on_the_wire_witness :
  match machine_call (N := wire_codec) (run_function (fun _ => 0) no_base64 Wasi) 1 cert_bytes kind_env (called_with []) with
  | Ok (ROk bs, _) => decode_message fnv1_RunFunctionResponse_msg bs
  | _ => None
  end = Some (rotated_answer cert_slots cert_asked cert_issued) /\
  wp kind_env only_memory (machine_call (N := wire_codec) (run_function (fun _ => 0) no_base64 Wasi) 1 cert_bytes)
    (cert_called (F := wire_format) (fun _ => 0) id Some 1 cert_slots cert_xr None (called_with [])) (called_with []).
Proof.
  split; [by vm_compute|].
  assert (wf (called_with [])) as Hs by by apply called_with_data_wf; vm_compute.
  assert (has_cell 1 (called_with [])) as Hc by by eexists.
  apply (cert_on_the_wire wire_codec wire_format wire_codec_laws kind_env only_memory (fun _ => 0) no_base64 id Some 1
           cert_bytes cert_slots cert_xr None (called_with []) eq_refl kind_base64 kind_mbedtls kind_clock Hs Hc);
    [by vm_compute|apply cert_slots_wellformed].
Defined.

(** ** The component *)

(** C9. The cert-rotator component, for every host, library, allocator and wire format
    nanopb implements, and for request bytes that are no request at all or one as
    [cert_wellformed] says (which one with a map entry without its value in an object,
    as "status" twice, is not): the [run] export commits no undefined behaviour, frees
    the request's buffer and returns one buffer of its own with the bytes of the
    message its response holds, under the request's tag (or the error text, when
    memory ran out or could not hold them); only [abort] for want of memory stops it. *)
Theorem cert_component (N : Nanopb) (F : WireFormat) (L : NanopbLaws N F) e (T : trap -> Prop)
    unspecified inv enc dec cell request data s :
  T Aborted -> base64_laws e inv enc dec -> typed_mbedtls e -> (forall tr, sane_clock (answers e tr Time)) ->
  wf s -> has_cell cell s -> holds s request data -> u8_ptr request <> Some cell ->
  (forall slots, Handle.parse fnv1_RunFunctionRequest_msg data = Some slots -> exists xr found, cert_wellformed slots xr found) ->
  wp e T (exports_function_run (run_function unspecified inv Wasi) cell request)
    (owned (run_function unspecified inv Wasi) cell (e := e) request data s) s.
Proof.
  intros HA Hb Ht Hclock Hs Hc Hr Hne Hreq. apply (wp_exports_function_run N F L); try done;
    intros req s0 Hd; destruct (decode_step _ _ _ _ _ Hs Hd) as (_ & _ & slots & Hp & _);
    destruct (Hreq slots Hp) as (xr & found & Hf & Hxr & [cur Hcur] & Hfound).
  - eapply said_behaves; [|exact Hd]. intros req' s1 Hd'.
    by apply (cert_run unspecified inv enc dec Hb Ht Hclock cell data slots xr cur found s Hs Hc Hp Hf Hxr Hcur Hfound).
  - by eapply (cert_meta unspecified inv enc dec Hb Ht Hclock cell data slots xr cur found s Hs Hc Hp Hf Hxr Hcur Hfound).
Qed.

Lemma cert_component_witness :
  match exports_function_run (N := wire_codec) (run_function (fun _ => 0) no_base64 Wasi) 1
          (Lu8 (Some 2) (Z.of_nat (length cert_bytes))) kind_env (called_with cert_bytes) with
  | Ok (ROk (Lu8 (Some b) n), s) => heap s !! 2 = None /\ match heap s !! b with
      | Some (Bytes bs) => decode_message fnv1_RunFunctionResponse_msg (omap id bs)
          = Some (rotated_answer cert_slots cert_asked cert_issued)
      | _ => False
      end
  | _ => False
  end /\
  wp kind_env only_memory
    (exports_function_run (N := wire_codec) (run_function (fun _ => 0) no_base64 Wasi) 1 (Lu8 (Some 2) (Z.of_nat (length cert_bytes))))
    (owned (N := wire_codec) (F := wire_format) (run_function (fun _ => 0) no_base64 Wasi) 1 (e := kind_env)
       (Lu8 (Some 2) (Z.of_nat (length cert_bytes))) cert_bytes (called_with cert_bytes)) (called_with cert_bytes).
Proof.
  split; [vm_compute; split; reflexivity|].
  assert (wf (called_with cert_bytes)) as Hs by by apply called_with_data_wf; vm_compute.
  assert (has_cell 1 (called_with cert_bytes)) as Hc by by eexists.
  apply (cert_component wire_codec wire_format wire_codec_laws kind_env only_memory (fun _ => 0) no_base64 id Some 1 _
           cert_bytes (called_with cert_bytes) eq_refl kind_base64 kind_mbedtls kind_clock Hs Hc (called_with_holds _)).
  - discriminate.
  - intros slots E. exists cert_xr, None.
    assert (Handle.parse (WireFormat := wire_format) fnv1_RunFunctionRequest_msg cert_bytes = Some cert_slots) as E' by by vm_compute.
    rewrite E' in E. injection E as <-. apply cert_slots_wellformed.
Defined.
