(* ===== verification/TestSuite.v ===== *)
(** What the guests' native tests share (the first lines of
    crates/guestfn/templates/c/src/fn_test.c, examples/cert-rotator/src/fn_test.c
    and rotator_test.cpp): checks that report on stderr and are counted, and
    the Structs they build requests of. *)
From S2P Require Import Prelude BindTypes CString Proto Machine MachineLogic Wasmfn Structpb.
From Stdlib Require Import Strings.Byte.

Section checks.
(** The source file the reports name. *)
Variable file : string.

(** [failures] before and after. *)
Definition test_failed (line : Z) (text : bytes) (failures : Z) : C Z :=
  _ ← call (Stderr (lit file ++ lit ":" ++ fmt_d line ++ lit ": " ++ text ++ [x0a])); mret (failures + 1).
Definition expect (line : Z) (ok : bool) (what : string) (failures : Z) : C Z :=
  if ok then mret failures else test_failed line (lit what ++ lit " is false") failures.
Definition expect_str (line : Z) (want : bytes) (got : option bytes) (failures : Z) : C Z :=
  match got with
  | Some g => if strcmp_eq want g then mret failures
              else test_failed line (lit "want " ++ want ++ lit ", got " ++ g) failures
  | None => test_failed line (lit "want " ++ want ++ lit ", got (null)") failures
  end.
(** rotator_test.cpp's check: the whole strings are compared. *)
Definition expect_eq (line : Z) (want got : bytes) (failures : Z) : C Z :=
  if bool_decide (want = got) then mret failures
  else test_failed line (lit "want " ++ want ++ lit ", got " ++ got) failures.
(** [main]'s end: the exit status, after what it prints on stderr. *)
Definition exit_status (what : string) (failures : Z) : C Z :=
  if failures =? 0 then mret 0 else _ ← call (Stderr (fmt_d failures ++ lit what ++ [x0a])); mret 1.
End checks.

Definition is_NULL {A} (p : option A) : bool := match p with None => true | Some _ => false end.
Definition str (s : string) : google_protobuf_Value := structpb_string_value (Some (lit s)).

(** [if (!structpb_set(&s, key, v)) abort();] *)
Definition must_set (s : google_protobuf_Struct) (key : string) (v : google_protobuf_Value) : C google_protobuf_Struct :=
  '(ok, s) ← structpb_set s (lit key) v; if (ok : bool) then mret s else stop Aborted.
Definition object (key : string) (v : google_protobuf_Value) : C google_protobuf_Struct :=
  must_set google_protobuf_Struct_init_zero key v.

Definition fnv1_RunFunctionRequest_init_zero : fnv1_RunFunctionRequest :=
  Request false None false fnv1_State_init_zero false fnv1_State_init_zero false
    google_protobuf_Struct_init_zero 0 None.
Definition set_input (s : google_protobuf_Struct) (r : fnv1_RunFunctionRequest) : fnv1_RunFunctionRequest :=
  Request (rq_has_meta r) (rq_meta_tag r) (has_observed r) (observed r) (rq_has_desired r) (rq_desired r)
    true s (required_resources_count r) (required_resources r).
Definition set_observed (s : fnv1_State) (r : fnv1_RunFunctionRequest) : fnv1_RunFunctionRequest :=
  Request (rq_has_meta r) (rq_meta_tag r) true s (rq_has_desired r) (rq_desired r)
    (has_input r) (input r) (required_resources_count r) (required_resources r).
Definition set_desired (s : fnv1_State) (r : fnv1_RunFunctionRequest) : fnv1_RunFunctionRequest :=
  Request (rq_has_meta r) (rq_meta_tag r) (has_observed r) (observed r) true s
    (has_input r) (input r) (required_resources_count r) (required_resources r).
Definition set_required (n : Z) (p : option Z) (r : fnv1_RunFunctionRequest) : fnv1_RunFunctionRequest :=
  Request (rq_has_meta r) (rq_meta_tag r) (has_observed r) (observed r) (rq_has_desired r) (rq_desired r)
    (has_input r) (input r) n p.

(** Element [i] of an array. *)
Definition element {A} (of_block : block -> option (list A)) (p : option Z) (i : Z) : C A :=
  k ← block_at p;
  match of_block k with
  | Some l => match l !! Z.to_nat i with Some x => mret x | None => stop UB end
  | None => stop UB
  end.

(** The one element of an array, which a check reads when the count is 1. *)
Definition only {A} (of_block : block -> option (list A)) (p : option Z) (count : Z) : C (option A) :=
  if count =? 1 then x ← element of_block p 0; mret (Some x) else mret None.
(** [f] of it, false when the count is another. *)
Definition and_its {A} (x : option A) (f : A -> bool) : bool := match x with Some x => f x | None => false end.
(** [s && strncmp(s, prefix, strlen(prefix)) == 0] *)
Definition starts_with (s : option bytes) (prefix : string) : bool :=
  match s with Some s => strncmp_eq s (lit prefix) (length (lit prefix)) | None => false end.
(** [strcmp(s, text) == 0] of a string that is there. *)
Definition is_text (s : option bytes) (text : string) : bool :=
  match s with Some s => strcmp_eq s (lit text) | None => false end.
(** A string a check passes on as the wanted one. *)
Definition known (s : option bytes) : C bytes := match s with Some s => mret s | None => stop UB end.

(** The doubles the tests name. *)
Definition double_7 : spec_float := S754_finite false 7881299347898368 (-50).
Definition double_10 : spec_float := S754_finite false 5629499534213120 (-49).
