(* ===== verification/HelloTest.v ===== *)
(** The template's own tests (crates/guestfn/templates/c/src/fn_test.c), as code of
    the machine: the native build, with the host the tests install, and the wire
    format of WireHeapProps.v for nanopb.

    A failed check is counted and reported on stderr. *)
From S2P Require Import Prelude BindTypes CString Proto Machine MachineLogic Wasmfn Structpb Codec Wire WireHeap Handle WireHeapProps HelloFn TestSuite.
From Stdlib Require Import Strings.Byte.

Definition EXPECT : Z -> bool -> string -> Z -> C Z := expect "fn_test.c".
Definition EXPECT_STR (line : Z) (want : string) : option bytes -> Z -> C Z := expect_str "fn_test.c" line (lit want).

(** ** Fixtures *)

Definition xr (name : string) : C fnv1_State :=
  res ← object "apiVersion" (str "example.org/v1");
  res ← must_set res "kind" (str "XR");
  metadata ← object "name" (str name);
  res ← must_set res "metadata" (structpb_struct_value metadata);
  mret (State true (Resource true res 0 None 0) 0 None).

Definition request (tag name : string) : C fnv1_RunFunctionRequest :=
  state ← xr name;
  mret (set_observed state (Request true (Some (lit tag)) false fnv1_State_init_zero false fnv1_State_init_zero false
          google_protobuf_Struct_init_zero 0 None)).

Definition with_config (req : fnv1_RunFunctionRequest) (key : string) (v : google_protobuf_Value)
    : C fnv1_RunFunctionRequest :=
  inner ← object key v;
  s ← object "config" (structpb_struct_value inner);
  mret (set_input s req).

Definition response : fnv1_RunFunctionResponse := fnv1_RunFunctionResponse_init_zero.

Definition greeting_of (rsp : fnv1_RunFunctionResponse) : C (option bytes) :=
  if negb (has_desired rsp) || (resources_count (desired rsp) =? 0) then mret None else
  last ← element as_state (resources (desired rsp)) (resources_count (desired rsp) - 1);
  v ← structpb_lookup (Some (resource (re_value last))) [lit "data"; lit "greeting"];
  mret (structpb_string v).

(** ** Tests *)

Section tests.
(** The blocks of [fatal_response]'s static result and of [fake_host]'s headers,
    and the bound of the loops of wasmfn.c. *)
Variable result_cell host_headers : Z.
Variable fuel : nat.

Definition test_default_greeting (failures : Z) : C Z :=
  req ← request "hello" "my-xr";
  '(err, rsp) ← run_function (Native None) fuel req response;
  failures ← EXPECT 89 (is_NULL err) "run_function(&req, &rsp) == NULL" failures;
  greeting ← greeting_of rsp;
  failures ← EXPECT_STR 90 "hello my-xr" greeting failures;
  failures ← EXPECT 91 (results_count rsp =? 1) "rsp.results_count == 1" failures;
  r ← element as_results (results rsp) 0;
  failures ← EXPECT_STR 92 "greeted my-xr" (message r) failures;
  failures ← EXPECT 93 (severity r =? fnv1_Severity_SEVERITY_NORMAL)
               "rsp.results[0].severity == fnv1_Severity_SEVERITY_NORMAL" failures;
  failures ← EXPECT 94 (conditions_count rsp =? 1) "rsp.conditions_count == 1" failures;
  c ← element as_conditions (conditions rsp) 0;
  EXPECT_STR 95 "FunctionSuccess" (cond_type c) failures.

Definition other_entry : fnv1_State_ResourcesEntry :=
  ResourcesEntry (Some (lit "other")) true fnv1_Resource_init_zero.

(** The array of one entry is a local. *)
Definition test_configured_greeting_keeps_desired (failures : Z) : C Z :=
  req ← request "hello" "my-xr";
  req ← with_config req "greeting" (str "hi");
  other ← alloc_replacing 0 (StateArr [other_entry]);
  if is_NULL other then stop Aborted else
  let req := set_desired (State false fnv1_Resource_init_zero 1 other) req in
  '(err, rsp) ← run_function (Native None) fuel req response;
  failures ← EXPECT 108 (is_NULL err) "run_function(&req, &rsp) == NULL" failures;
  greeting ← greeting_of rsp;
  failures ← EXPECT_STR 109 "hi my-xr" greeting failures;
  failures ← EXPECT 110 (resources_count (desired rsp) =? 2) "rsp.desired.resources_count == 2" failures;
  x ← element as_state (resources (desired rsp)) 0;
  failures ← EXPECT_STR 111 "other" (re_key x) failures;
  EXPECT 112 (resources_count (rq_desired req) =? 1) "req.desired.resources_count == 1" failures.

Definition test_bad_config_is_an_error (failures : Z) : C Z :=
  req ← request "hello" "my-xr";
  req ← with_config req "greeting" (structpb_number_value double_7);
  '(err, _) ← run_function (Native None) fuel req response;
  EXPECT_STR 119 "cannot read config: greeting must be a string" err failures.

Definition evil : bytes :=
  lit "sandbox.egress: no rule admits host " ++ [x22] ++ lit "evil.example.com" ++ [x22].
Definition fake_host (req : wasmfn_http_request) (rsp : wasmfn_http_response) (err : option Z)
    : C (bool * wasmfn_http_response) :=
  match rq_url req with
  | None => stop UB
  | Some url =>
      if strcmp_eq url (lit "https://greetings.example.com/en") then
        body ← strdup (lit "howdy" ++ [x0a]);
        mret (true, HttpResponse 200 (Some host_headers) body 6)
      else
        v ← strdup evil;
        match err with
        | Some p => _ ← assign p v; mret (false, rsp)
        | None => stop UB
        end
  end.

Definition test_greeting_from_url_through_the_host (failures : Z) : C Z :=
  let host := Native (Some fake_host) in
  ok ← request "hello" "my-xr";
  ok ← with_config ok "greetingUrl" (str "https://greetings.example.com/en");
  '(err, rsp) ← run_function host fuel ok response;
  failures ← EXPECT 142 (is_NULL err) "run_function(&ok, &rsp) == NULL" failures;
  greeting ← greeting_of rsp;
  failures ← EXPECT_STR 143 "howdy my-xr" greeting failures;
  bad ← request "hello" "my-xr";
  bad ← with_config bad "greetingUrl" (str "https://evil.example.com/en");
  '(err, _) ← run_function host fuel bad response;
  failures ← expect_str "fn_test.c" 148 (lit "cannot fetch greeting: " ++ evil) err failures;
  err_var ← new_var None;
  '(sent, full) ← wasmfn_http_send host fuel
      (HttpRequest None (Some (lit "https://greetings.example.com/en")) None None 0) response_zero (Some err_var);
  failures ← EXPECT 153 sent "wasmfn_http_send(&get, &full, &err)" failures;
  failures ← EXPECT 154 (rs_status full =? 200) "full.status == 200" failures;
  h ← wasmfn_http_header fuel full (lit "content-type");
  h ← text_of h;
  failures ← EXPECT_STR 155 "text/plain" h failures;
  body ← text_of (rs_body full);
  failures ← expect_str "fn_test.c" 156 (lit "howdy" ++ [x0a]) body failures;
  '(err, _) ← run_function (Native None) fuel ok response;
  EXPECT_STR 160 "cannot fetch greeting: no host HTTP in this build" err failures.

(** [pb_encode] of a request with a tag and an observed state, and what the test
    reads of the response [pb_decode] makes. *)
Definition wire_of_request (r : fnv1_RunFunctionRequest) : C (option bytes) := get (fun s => Ok (
  o ← state_of (observed r) (heap s);
  Some (encode_message fnv1_RunFunctionRequest_msg
    [[VMsg [singular_text (rq_meta_tag r); []]]; [o]; []; []; []; []; []; []; []]))).
Definition result_in (v : value) : fnv1_Result :=
  let m := msg_slots v in
  Result (int_in (slot m 0)) (text_in (slot m 1)) (text_in (slot m 2)) (negb (bool_decide (slot m 3 = []))) (int_in (slot m 3)).
Definition response_of_wire (bs : bytes) : C (option fnv1_RunFunctionResponse) :=
  match decode_message fnv1_RunFunctionResponse_msg bs with
  | None => mret None
  | Some m =>
      and_then (alloc_state (slot m 1)) (fun d =>
      and_then (array ResultArr (map result_in (slot m 2))) (fun rs =>
      done (with_desired d.2 (with_results rs.2 rs.1
        (match slot m 0 with
         | [v] => with_meta (ResponseMeta (text_in (slot (msg_slots v) 0)) (negb (bool_decide (slot (msg_slots v) 1 = [])))
                    (match slot (msg_slots v) 1 with [t] => int_in (slot (msg_slots t) 0) | _ => 0 end) 0)
                    fnv1_RunFunctionResponse_init_zero
         | _ => fnv1_RunFunctionResponse_init_zero
         end)))))
  end.
Definition out_bytes (out : option Z * Z) : C bytes :=
  match out with (Some b, n) => read b 0 n | (None, _) => mret [] end.

(** [wasmfn_handle] on [data], its output decoded. *)
Definition handled_response (line : Z) (data : bytes) (failures : Z) : C (Z * fnv1_RunFunctionResponse) :=
  out ← wasmfn_handle (N := wire_codec) (run_function (Native None) fuel) result_cell data;
  failures ← EXPECT line (negb (is_NULL out.1) && (0 <? out.2)) "out != NULL && n > 0" failures;
  bs ← out_bytes out;
  rsp ← response_of_wire bs;
  failures ← EXPECT (line + 3) (negb (is_NULL rsp)) "pb_decode(&is, fnv1_RunFunctionResponse_fields, &rsp)" failures;
  mret (failures, default response rsp).

Definition test_handle_round_trip (failures : Z) : C Z :=
  req ← request "hello" "my-xr";
  data ← wire_of_request req;
  failures ← EXPECT 167 (negb (is_NULL data)) "pb_get_encoded_size(&size, fnv1_RunFunctionRequest_fields, &req)" failures;
  failures ← EXPECT 170 (negb (is_NULL data)) "pb_encode(&os, fnv1_RunFunctionRequest_fields, &req)" failures;
  '(failures, rsp) ← handled_response 174 (default [] data) failures;
  failures ← EXPECT_STR 178 "hello" (tag (meta rsp)) failures;
  failures ← EXPECT 179 (has_ttl (meta rsp) && (ttl_seconds (meta rsp) =? 60))
               "rsp.meta.has_ttl && rsp.meta.ttl.seconds == 60" failures;
  greeting ← greeting_of rsp;
  failures ← EXPECT_STR 180 "hello my-xr" greeting failures;
  '(failures, fatal) ← handled_response 185 [xff; xff; xff; xff] failures;
  r ← only as_results (results fatal) (results_count fatal);
  failures ← EXPECT 189 (and_its r (fun r => severity r =? fnv1_Severity_SEVERITY_FATAL))
               "fatal.results_count == 1 && fatal.results[0].severity == fnv1_Severity_SEVERITY_FATAL" failures;
  r ← element as_results (results fatal) 0;
  EXPECT 190 (starts_with (message r) "cannot decode RunFunctionRequest")
    "fatal.results[0].message" failures.

(** The process's exit status. *)
Definition main : C Z :=
  failures ← test_default_greeting 0;
  failures ← test_configured_greeting_keeps_desired failures;
  failures ← test_bad_config_is_an_error failures;
  failures ← test_greeting_from_url_through_the_host failures;
  failures ← test_handle_round_trip failures;
  exit_status " check(s) failed" failures.
End tests.

(** Memory when [main] starts: the static result, and the headers with their
    texts. *)
Definition main_start : cst :=
  Cst {[ 1 := ResultArr [fnv1_Result_zero]; 2 := Ptrs [Some 3; Some 4; None];
         3 := c_string (lit "content-type"); 4 := c_string (lit "text/plain") ]} 5 ∅ ∅ 1 [] 0 0.
