(* ===== verification/TestProps.v ===== *)
(** The repository's own tests of its C and C++ sources, passed by the model. *)
From S2P Require Import Prelude Machine WasmfnProps TestSuite HelloTest CertTest Paper.

(** A test program's exit status is zero. *)
Definition succeeds (program : C Z) (e : env) (s : cst) : Prop := exists s', program e s = Ok (0, s').

Lemma succeeds_computes program e s :
  (match program e s with Ok (z, _) => z =? 0 | Trap _ => false end) = true -> succeeds program e s.
Proof.
  unfold succeeds. destruct (program e s) as [[z s']|]; [|done]. intros ->%Z.eqb_eq. by exists s'.
Qed.

(** Every check of the repository's native tests holds of the model. With memory
    enough, all of fn_test.c of the template, whatever the host outside the
    process, with the requests and responses of its round trip on the wire; and,
    over the library of Paper.v, all of the rotator's fn_test.c and
    rotator_test.cpp. *)
Theorem repository_tests_pass :
  (forall host, succeeds (HelloTest.main 1 2 20) (Env host (fun _ _ => true)) main_start) /\
  (forall unspecified, succeeds (FnTest.main unspecified bad_base64) paper_env start) /\
  succeeds (RotatorTest.main bad_base64) paper_env start.
Proof.
  split_and!; intros; apply succeeds_computes; vm_compute; reflexivity.
Qed.
